(* ===== verification/_CoqProject ===== *)
-Q . S2P
Prelude.v
GoStrings.v
Sni.v
GoFloat.v
Binary64.v
Refill.v
RateLimiter.v
GoNet.v
GoNetFacts.v
Sha256.v
GoTime.v
GoPath.v
GoHttp.v
Calendar.v
UserStore.v
UserStoreFacts.v
Tracker.v
TrackerFacts.v
Throttle.v
Duplex.v
Stats.v
StatsFacts.v
Registry.v
Config.v
SniServer.v
SniServerFacts.v
Accounts.v
Socks5.v
Socks5Facts.v
Pac.v
Base64.v
HttpProxy.v
HttpProxyFacts.v
Spelling.v
Sessions.v
Protocols.v
UserAdmin.v
UserAdminFacts.v
HashTool.v
UsageApi.v
MetricsServer.v
Socks5Listener.v
HttpListener.v
Main.v
Restarts.v
Process.v
Access.v
Ansi.v
AnsiFacts.v
Table.v
Terminal.v
TerminalFacts.v
Progress.v
