(* ===== verification/Prelude.v ===== *)
(** * multi-protocol-proxy: a verification development

    The program is a proxy server in Go. In SNI mode it reads the ClientHello of a
    TLS connection, looks the server name up in its host table and relays the bytes
    to the configured target. In proxy mode it runs an HTTP proxy and a SOCKS5 proxy
    for users with passwords, quotas, rate limits and connection limits. Both modes
    have a metrics server. Beside it stand a tool that edits the users file and the
    text output of all of these.

    ** The parts, and the files that model them

    - Entry ([cmd/proxy/main.go]): [Main]. [main] loads the configuration and composes
      the parts below into one of two running programs; [Process] is what runs then, up
      to the end of [main], and [Restarts] the sequence of such runs on one usage file.
    - Configuration ([internal/config]): [Config].
    - SNI relay ([internal/proxy/server.go]): [Sni] is [extractSNI], [SniServer] the
      connection handler, the copy loop, the API answers and the accept loop,
      [SniServerFacts] its theorems. Its counters and JSON endpoints
      ([internal/proxy/stats.go], the gauge of [metrics.go]): [Stats], [StatsFacts].
    - Accounts: [RateLimiter] ([internal/auth/ratelimit.go]), [UserStore] and
      [UserStoreFacts] ([internal/auth/auth.go]), [Tracker] and [TrackerFacts]
      ([internal/bandwidth/tracker.go]), [Throttle] for one transfer after another and
      [Duplex] for both directions at once ([throttle.go]). [Accounts] is the store, the
      tracker and the metrics together, with the calls that both authenticated proxies
      make on them.
    - SOCKS5 proxy ([internal/socks5/server.go]): [Socks5], [Socks5Facts] for one
      session, [Socks5Listener] for the accept loop and the shutdown.
    - HTTP proxy ([internal/httpproxy/server.go]): [HttpProxy], [HttpProxyFacts] for one
      request, [HttpListener] for the two servers and the shutdown; the PAC endpoint
      ([internal/pac/pac.go]) is [Pac].
    - [Sessions]: any number of sessions of one user side by side, interleaved at the
      calls they make on the tracker, from the check of the quota to the end.
    - [Service]: the specification that the accept loops of all servers refine.
    - Both proxies together: [Protocols] relates a session of one to a session of the
      other, [Access] follows the accounts from users.json to the targets.
    - Usage report and metrics server ([internal/bandwidth/api.go],
      [internal/proxy/metrics.go]): [UsageApi] for a request, [MetricsServer] for the
      server's life, [Registry] for the metrics that all packages register.
    - User management ([scripts/manage-users.go]): [UserAdmin], [UserAdminFacts];
      password hashes ([scripts/hash-password.go]): [HashTool].
    - Terminal ([internal/ui]): [Ansi], [AnsiFacts], [Table], [Terminal],
      [TerminalFacts], [Progress].
    - Go's standard library, as far as the program uses it: [GoStrings], [GoFloat],
      [GoNet], [GoNetFacts], [Sha256], [Base64], [GoTime], [Calendar], [GoPath], [GoHttp].

    A definition has the name of the function, method or type it models; a method
    takes its receiver as an argument and gives the new one back. Early returns are
    branches, or errors of the monad [GoM] below where a handler threads state through
    many calls; [defer] is [with_defer], which runs on every path. A panic is the value
    [Panic] of [outcome]. Integers are [Z] with [wrap64] wherever Go's 64-bit
    arithmetic can leave its range; floats are the class [GoFloat], at IEEE 754 or at
    the rationals. A map is a [gmap], and where the order of [range] matters it is
    [range_order] of [MapOrder]. Locks are not in the model: a method that holds a
    mutex throughout is one step, and where the code takes a lock twice the two
    sections are two steps or two states ([Sessions], [UsageApi]). Goroutines that
    interact are step relations ([SniServer], [Socks5Listener], [HttpListener],
    [MetricsServer], [Tracker], [Sessions], [Duplex]), of which [Process] composes those
    of one process. Every reading of the clock is an argument.

    ** Interfaces

    [ResponseWriter] ([GoHttp]) is what handlers write to; [SniServer] and the plain
    [Response] implement it. [GoFloat] and [FloatOrder] separate the float code from its
    arithmetic. [HasAccounts] ([Accounts]) lets both proxies use the same account calls
    and lemmas. [Serving] ([Service]) is what a server promises about its clients.
    [ProgressReporter] ([Progress]) is the interface of that name in the source. Code
    outside the repository is a class of operations, with laws only where a theorem
    needs them: [AuthEnv] (bcrypt, decoding of users.json), [UsageJSON], [StatsJSON],
    [UsageReportJSON], [AdminEnv] with [AdminLaws], [Color], [Unicode], [Words], [Zone],
    [Prometheus]. Each has an instance, on which the witnesses compute.

    ** What is shown

    - Parsing: [extractSNI] never indexes out of range and accepts exactly the grammar
      of a ClientHello; the SOCKS5 request, the negotiation and the proxy credentials
      are accepted exactly in their wire formats; dates survive printing.
    - Authentication: no connection reaches a target in any of the three proxies unless
      its host is configured, or its address allowed, its password accepted and its
      limits respected; a login rests on a bcrypt check no older than the cache. For the
      whole program: after any start and any calls, only credentials that entitle the
      client by users.json as it was loaded. The two authenticated proxies decide alike.
    - Accounting: the tracker refines an abstract meter, and over any number of restarts
      a ledger, so that an orderly end loses nothing; quotas are exact below 2^33 GB;
      every session gives its connection back; token buckets and throttles stay within
      their budgets over any window, the throttle however reads and writes interleave.
    - Concurrency: every server admits clients only while it accepts and has room, and
      only loses them afterwards; the SNI relay never exceeds its capacity and its
      shutdown ends; the accept loop of the SOCKS5 proxy returns; the [Shutdown] of the
      HTTP proxy drains its requests; the connection limit can be exceeded only by the
      sessions between check and increment, and is by them; the quota only by the
      traffic of those that were let through before.
    - Answers: every proxied request and every API request gets exactly one answer, but
      where the target's own is none, and each branch of a handler is characterised.
    - The process: how the program can start; what holds from then on through signals,
      reloads of the certificate and connections; what a return of [main] means.
    - Management tool: an account that was added can log in with the limits typed, the
      names stay distinct, the menu ends within the input or never.
    - Text: padding, truncation and tables have the widths promised; the functions that
      panic do so exactly for the inputs named.
    - Defects, stated as theorems: limits that another spelling of the name avoids, the
      PAC limiter that a header avoids, servers that return before their requests are
      served, sessions whose traffic no file gets, a report that mixes two months, a
      users file overwritten because it could not be parsed, notes that panic, and
      others.

    ** Fuel

    [ext_loop] runs with the length of the input, of which each round takes four bytes;
    [decimal], [itoa] with the number of binary digits; the waiting loop of [Throttle]
    with a number of rounds linear in the debt, which is proved enough; [main_loop] of
    [UserAdmin] and [loop] of [HashTool] with any number of rounds, the length of the
    input being enough for every run that ends. A step relation needs none: its
    termination is [sn].

    ** Not modelled

    TLS itself, sockets, deadlines that only end a read, and the scheduler; the
    handshake and record layers behind [crypto/tls]; the buffers of [io.Copy] (a copy
    is what was moved); what the Prometheus handler answers; the text of log lines
    within handlers ([Terminal] has the functions that format them). Two files of the
    repository lack a closing brace ([CheckExpiry], [handleMethodNegotiationNoAuth]);
    they are modelled with it.

    This file: machine integers, bytes, [result] and [outcome], indexing and slicing,
    the monad [GoM], map iteration, counting, time arithmetic, the hint databases and
    tactics the other files share. *)
From stdpp Require Export base gmap strings list fin_maps relations.
From Stdlib Require Export ZArith Lia.
From Stdlib Require Import Init.Byte Strings.Byte.
From Stdlib Require Strings.Ascii.
Export Init.Byte.
Export (notations) Strings.Ascii.

#[global] Open Scope Z_scope.

(** ** Machine integers *)

(** Go's [int] and [int64] are 64-bit two's complement; [wrap64] is the value
    an operation leaves in such a variable. *)
Definition wrap64 (z : Z) : Z := (z + 2^63) mod 2^64 - 2^63.

Arguments wrap64 : simpl never.

Definition in_int64 (z : Z) : Prop := - 2^63 <= z < 2^63.

#[global] Instance in_int64_dec z : Decision (in_int64 z).
Proof. unfold in_int64. apply _. Defined.

Lemma wrap64_range z : in_int64 (wrap64 z).
Proof.
  unfold wrap64, in_int64. pose proof (Z.mod_pos_bound (z + 2^63) (2^64)). lia.
Qed.

Lemma wrap64_id z : in_int64 z -> wrap64 z = z.
Proof. unfold wrap64, in_int64. intros ?. rewrite Z.mod_small; lia. Qed.

Lemma wrap64_congr a b : a mod 2^64 = b mod 2^64 -> wrap64 a = wrap64 b.
Proof.
  unfold wrap64. intros H. f_equal.
  rewrite (Z.add_mod a), (Z.add_mod b), H by lia. done.
Qed.

Lemma wrap64_mod z : wrap64 z mod 2^64 = z mod 2^64.
Proof.
  unfold wrap64. rewrite Zminus_mod_idemp_l. f_equal. lia.
Qed.

Lemma wrap64_add_l a b : wrap64 (wrap64 a + b) = wrap64 (a + b).
Proof.
  apply wrap64_congr. rewrite Z.add_mod, wrap64_mod, <- Z.add_mod by lia. done.
Qed.

Lemma wrap64_add_r a b : wrap64 (a + wrap64 b) = wrap64 (a + b).
Proof. rewrite Z.add_comm, wrap64_add_l. f_equal. lia. Qed.

Lemma wrap64_mul_l a b : wrap64 (wrap64 a * b) = wrap64 (a * b).
Proof.
  apply wrap64_congr. rewrite Z.mul_mod, wrap64_mod, <- Z.mul_mod by lia. done.
Qed.

Lemma wrap64_sub_l a b : wrap64 (wrap64 a - b) = wrap64 (a - b).
Proof. rewrite <- !Z.add_opp_r. apply wrap64_add_l. Qed.

(** ** Bytes *)

#[global] Instance byte_eq_dec : EqDecision byte := Byte.byte_eq_dec.

Definition b2z (b : byte) : Z := Z.of_N (Byte.to_N b).
Definition z2b (z : Z) : byte :=
  match Byte.of_N (Z.to_N (z mod 256)) with Some b => b | None => x00 end.

Lemma b2z_range b : 0 <= b2z b < 256.
Proof. unfold b2z. pose proof (Byte.to_N_bounded b). lia. Qed.

Lemma b2z_z2b z : b2z (z2b z) = z mod 256.
Proof.
  unfold b2z, z2b. pose proof (Z.mod_pos_bound z 256).
  destruct (Byte.of_N _) eqn:E.
  - apply Byte.to_of_N in E. rewrite E. lia.
  - apply Byte.of_N_None_iff in E. lia.
Qed.

Lemma z2b_b2z b : z2b (b2z b) = b.
Proof.
  unfold z2b. rewrite Z.mod_small by apply b2z_range.
  unfold b2z. rewrite N2Z.id, Byte.of_to_N. done.
Qed.

Lemma b2z_inj b1 b2 : b2z b1 = b2z b2 -> b1 = b2.
Proof. intros H. rewrite <- (z2b_b2z b1), H. apply z2b_b2z. Qed.

(** [string(bs)] and [[]byte(s)]: Go strings are byte sequences. *)
Definition string_of_bytes (bs : list byte) : string :=
  String.string_of_list_ascii (map Ascii.ascii_of_byte bs).
Definition bytes_of_string (s : string) : list byte :=
  map Ascii.byte_of_ascii (String.list_ascii_of_string s).

Lemma string_of_bytes_of_string s : string_of_bytes (bytes_of_string s) = s.
Proof.
  unfold string_of_bytes, bytes_of_string. rewrite map_map.
  rewrite (map_ext _ id) by apply Ascii.ascii_of_byte_of_ascii.
  rewrite map_id. apply String.string_of_list_ascii_of_string.
Qed.

Lemma bytes_of_string_of_bytes bs : bytes_of_string (string_of_bytes bs) = bs.
Proof.
  unfold string_of_bytes, bytes_of_string.
  rewrite String.list_ascii_of_string_of_list_ascii, map_map.
  rewrite (map_ext _ id) by apply Ascii.byte_of_ascii_of_byte.
  apply map_id.
Qed.

(** A big-endian 16-bit field, as the parsers read it:
    [int(data[i])<<8 | int(data[i+1])]. *)
Definition be16 (hi lo : byte) : Z := Z.lor (Z.shiftl (b2z hi) 8) (b2z lo).
Definition be16_bytes (n : Z) : list byte := [z2b (Z.shiftr n 8); z2b n].

Lemma be16_add hi lo : be16 hi lo = 256 * b2z hi + b2z lo.
Proof.
  unfold be16. pose proof (b2z_range lo).
  pose proof (Z.add_lor_land (Z.shiftl (b2z hi) 8) (b2z lo)) as Hsum.
  rewrite Z.shiftl_mul_pow2 in * by lia.
  replace (Z.land _ _) with 0 in Hsum; [lia|].
  rewrite <- Z.shiftl_mul_pow2 by lia.
  symmetry. apply Z.bits_inj'. intros n Hn.
  rewrite Z.bits_0, Z.land_spec. destruct (Z.lt_ge_cases n 8).
  - rewrite Z.shiftl_spec_low by lia. done.
  - rewrite andb_false_iff. right.
    destruct (Z.eq_dec (b2z lo) 0) as [->|]; [apply Z.bits_0|].
    apply Z.bits_above_log2; [lia|]. apply Z.log2_lt_pow2; [lia|].
    pose proof (Z.pow_le_mono_r 2 8 n). lia.
Qed.

Lemma be16_range hi lo : 0 <= be16 hi lo < 65536.
Proof.
  rewrite be16_add. pose proof (b2z_range hi). pose proof (b2z_range lo). lia.
Qed.

Lemma be16_be16_bytes n :
  0 <= n < 65536 -> be16 (z2b (Z.shiftr n 8)) (z2b n) = n.
Proof.
  intros Hn. rewrite be16_add, !b2z_z2b, Z.shiftr_div_pow2 by lia.
  change (2^8) with 256. rewrite (Z.mod_small (n / 256)).
  { pose proof (Z.div_mod n 256). lia. }
  split; [apply Z.div_pos; lia|apply Z.div_lt_upper_bound; lia].
Qed.

(** ** Errors, panics and state *)

(** Go's [len], an integer. *)
Abbreviation zlen l := (Z.of_nat (length l)).

(** A computation that may hit a Go run-time panic (an index out of range, a
    nil dereference, a second [close] of a channel). *)
Inductive outcome (A : Type) : Type := Done (a : A) | Panic.
Arguments Done {A} a.
Arguments Panic {A}.

#[export] Instance outcome_ret : MRet outcome := @Done.
#[export] Instance outcome_bind : MBind outcome := fun _ _ f m =>
  match m with Done a => f a | Panic => Panic end.

(** [data[i]] on a slice: the run time panics unless [0 <= i < len(data)]. *)
Definition index {A} (data : list A) (i : Z) : outcome A :=
  if decide (0 <= i) then
    match data !! Z.to_nat i with Some b => Done b | None => Panic end
  else Panic.

(** [data[lo:hi]] on a slice whose capacity is its length. *)
Definition slice {A} (data : list A) (lo hi : Z) : outcome (list A) :=
  if decide (0 <= lo <= hi /\ hi <= zlen data)
  then Done (take (Z.to_nat (hi - lo)) (drop (Z.to_nat lo) data))
  else Panic.

(** The pair (value, error) a Go function returns: an error carries its text. *)
Inductive result (A : Type) : Type := Ok (a : A) | Err (msg : string).
Arguments Ok {A} a.
Arguments Err {A} msg.

(** A handler: a function of the world that may stop with an error. *)
Definition GoM (W A : Type) : Type := W -> result A * W.

#[export] Instance GoM_ret {W} : MRet (GoM W) := fun _ a w => (Ok a, w).
#[export] Instance GoM_bind {W} : MBind (GoM W) := fun _ _ f m w =>
  match m w with
  | (Ok a, w') => f a w'
  | (Err e, w') => (Err e, w')
  end.
Definition throw {W A} (e : string) : GoM W A := fun w => (Err e, w).
Definition gets {W A} (f : W -> A) : GoM W A := fun w => (Ok (f w), w).
Definition modify {W} (f : W -> W) : GoM W unit := fun w => (Ok tt, f w).

(** [defer d] around the rest [m] of a function body: [d] runs whether [m]
    returned or stopped with an error. *)
Definition with_defer {W A} (d : GoM W unit) (m : GoM W A) : GoM W A := fun w =>
  let '(r, w') := m w in (r, (d w').2).

Arguments index : simpl never.
Arguments slice : simpl never.

Lemma index_Done {A} (data : list A) i :
  0 <= i < zlen data -> exists b, index data i = Done b /\ data !! Z.to_nat i = Some b.
Proof.
  intros Hi. unfold index. rewrite decide_True by lia.
  destruct (data !! Z.to_nat i) as [b|] eqn:E; [eauto|].
  apply lookup_ge_None in E. lia.
Qed.

Lemma index_Done_inv {A} (data : list A) i b :
  index data i = Done b -> 0 <= i /\ data !! Z.to_nat i = Some b.
Proof.
  unfold index. case_decide; [|done].
  destruct (data !! Z.to_nat i) eqn:E; [|done]. intros [= ->]. done.
Qed.

Lemma index_lookup {A} (data : list A) i b :
  0 <= i -> data !! Z.to_nat i = Some b -> index data i = Done b.
Proof. intros Hi E. unfold index. rewrite decide_True, E by lia. done. Qed.

Lemma slice_Done {A} (data : list A) lo hi :
  0 <= lo <= hi -> hi <= zlen data ->
  slice data lo hi = Done (take (Z.to_nat (hi - lo)) (drop (Z.to_nat lo) data)).
Proof. intros. unfold slice. rewrite decide_True by lia. done. Qed.

Lemma index_app_r {A} (l1 l2 : list A) i :
  zlen l1 <= i -> index (l1 ++ l2) i = index l2 (i - zlen l1).
Proof.
  intros Hi. unfold index. repeat case_decide; try lia.
  rewrite lookup_app_r by lia. repeat f_equal. rewrite Z2Nat.inj_sub by lia.
  rewrite Nat2Z.id. done.
Qed.

Lemma slice_app_r {A} (l1 l2 : list A) i j :
  zlen l1 <= i -> slice (l1 ++ l2) i j = slice l2 (i - zlen l1) (j - zlen l1).
Proof.
  intros Hi. unfold slice. rewrite length_app.
  case_decide as H1; case_decide as H2; try lia; [|done].
  rewrite drop_app_ge by lia.
  replace (Z.to_nat (j - zlen l1 - (i - zlen l1))) with (Z.to_nat (j - i)) by lia.
  replace (Z.to_nat (i - zlen l1)) with (Z.to_nat i - length l1)%nat by lia. done.
Qed.

(** A list of at least [n] elements splits into its first [n] and the rest. *)
Lemma split_front {A} (l : list A) n :
  0 <= n <= zlen l -> exists a b, l = a ++ b /\ zlen a = n.
Proof.
  intros Hn. exists (take (Z.to_nat n) l), (drop (Z.to_nat n) l).
  rewrite take_drop, length_take. split; [done|lia].
Qed.

Lemma bind_Done {A B} (f : A -> outcome B) (m : outcome A) b :
  (m ≫= f) = Done b <-> exists a, m = Done a /\ f a = Done b.
Proof.
  destruct m as [a|]; simpl; split; intros H; try done.
  - eauto.
  - by destruct H as (? & [= ->] & ?).
  - by destruct H as (? & ? & ?).
Qed.

(** ** Reasoning about handlers *)

Section Handlers.
Context {W : Type}.

Lemma GoM_bind_Ok {A B} (m : GoM W A) (f : A -> GoM W B) w b w' :
  (m ≫= f) w = (Ok b, w') -> exists a w1, m w = (Ok a, w1) /\ f a w1 = (Ok b, w').
Proof.
  unfold mbind, GoM_bind. destruct (m w) as [[a|e] w1]; [|done]. intros H. by exists a, w1.
Qed.

Lemma GoM_bind_eq {A B} (m : GoM W A) (f : A -> GoM W B) w a w1 :
  m w = (Ok a, w1) -> (m ≫= f) w = f a w1.
Proof. unfold mbind, GoM_bind. by intros ->. Qed.

Lemma GoM_bind_Err {A B} (m : GoM W A) (f : A -> GoM W B) w e w1 :
  m w = (Err e, w1) -> (m ≫= f) w = (Err e, w1).
Proof. unfold mbind, GoM_bind. by intros ->. Qed.

Lemma GoM_bind_inv {A B} (m : GoM W A) (f : A -> GoM W B) w r w' :
  (m ≫= f) w = (r, w') ->
  (exists a w1, m w = (Ok a, w1) /\ f a w1 = (r, w')) \/ (exists e, m w = (Err e, w') /\ r = Err e).
Proof.
  unfold mbind, GoM_bind. destruct (m w) as [[a|e] w1]; intros H; [left; by exists a, w1|].
  right. exists e. by injection H as <- <-.
Qed.

Lemma with_defer_inv {A} (d : GoM W unit) (m : GoM W A) w r w' :
  with_defer d m w = (r, w') -> exists w1, m w = (r, w1) /\ w' = (d w1).2.
Proof. unfold with_defer. destruct (m w) as [r1 w1]. intros [= <- <-]. by exists w1. Qed.

(** A handler that leaves the observation [obs] of the world as it was, on
    every path. *)
Definition keeps {O A} (obs : W -> O) (m : GoM W A) : Prop := forall w, obs (m w).2 = obs w.

Lemma keeps_bind {O A B} (obs : W -> O) (m : GoM W A) (f : A -> GoM W B) :
  keeps obs m -> (forall a, keeps obs (f a)) -> keeps obs (m ≫= f).
Proof.
  intros Hm Hf w. unfold mbind, GoM_bind. specialize (Hm w).
  destruct (m w) as [[a|e] w1]; simpl in *; [|done]. by rewrite Hf.
Qed.
Lemma keeps_ret {O A} (obs : W -> O) (a : A) : keeps obs (mret a : GoM W A).
Proof. done. Qed.
Lemma keeps_throw {O A} (obs : W -> O) e : keeps obs (throw e : GoM W A).
Proof. done. Qed.
Lemma keeps_gets {O A} (obs : W -> O) (f : W -> A) : keeps obs (gets f).
Proof. done. Qed.
Lemma keeps_modify {O} (obs : W -> O) f : (forall w, obs (f w) = obs w) -> keeps obs (modify f).
Proof. intros H w. apply H. Qed.
Lemma keeps_with_defer {O A} (obs : W -> O) (d : GoM W unit) (m : GoM W A) :
  keeps obs d -> keeps obs m -> keeps obs (with_defer d m).
Proof.
  intros Hd Hm w. unfold with_defer. specialize (Hm w). destruct (m w) as [r w1]. simpl in *.
  by rewrite Hd.
Qed.
Lemma keeps_if {O A} (obs : W -> O) (b : bool) (m1 m2 : GoM W A) :
  keeps obs m1 -> keeps obs m2 -> keeps obs (if b then m1 else m2).
Proof. by destruct b. Qed.
Lemma keeps_decide {O A} (obs : W -> O) P `{Decision P} (m1 m2 : GoM W A) :
  keeps obs m1 -> keeps obs m2 -> keeps obs (if decide P then m1 else m2).
Proof. by destruct (decide P). Qed.
End Handlers.

(** ** Maps *)

(** Go ranges over a map in an unspecified order. *)
Class MapOrder := {
  range_order : forall {A}, gmap string A -> list (string * A);
  range_order_perm : forall {A} (m : gmap string A), range_order m ≡ₚ map_to_list m
}.
#[export] Instance key_order : MapOrder :=
  {| range_order := fun A m => map_to_list m; range_order_perm := fun A m => Permutation_refl _ |}.

(** Add [n] to the counter labelled [k]. *)
Definition count_up {K} `{Countable K} (m : gmap K Z) (k : K) (n : Z) : gmap K Z :=
  <[k := default 0 (m !! k) + n]> m.

(** ** Counting in a list *)

Definition tally (b : bool) : Z := if b then 1 else 0.

Section Counting.
Context {A : Type} `{EqDecision A}.
Implicit Types (x y : A) (l : list A).

Definition count_of x l : Z := zlen (filter (fun y => x = y) l).

Lemma count_of_cons x y l : count_of x (y :: l) = tally (bool_decide (x = y)) + count_of x l.
Proof. unfold count_of, tally. rewrite filter_cons. case_decide; case_bool_decide; simpl; done || lia. Qed.

Lemma count_of_insert x y z l i :
  l !! i = Some y ->
  count_of x (<[i := z]> l) = count_of x l - tally (bool_decide (x = y)) + tally (bool_decide (x = z)).
Proof.
  revert i. induction l as [|w l IH]; intros [|i] H; simpl in H; simplify_eq.
  - change (<[0%nat:=z]> (y :: l)) with (z :: l). rewrite !count_of_cons. lia.
  - change (<[S i:=z]> (w :: l)) with (w :: <[i:=z]> l). rewrite !count_of_cons, (IH i H). lia.
Qed.

Lemma count_of_bounds x l : 0 <= count_of x l <= zlen l.
Proof. unfold count_of. pose proof (length_filter (fun y => x = y) l). lia. Qed.

Lemma count_of_pos x l i : l !! i = Some x -> 0 < count_of x l.
Proof.
  revert i. induction l as [|w l IH]; intros [|i] H; simpl in H; simplify_eq; rewrite count_of_cons;
    pose proof (count_of_bounds x l); unfold tally.
  - rewrite bool_decide_true by done. lia.
  - specialize (IH i H). case_bool_decide; lia.
Qed.

Lemma count_of_other x l : Forall (fun y => y <> x) l -> count_of x l = 0.
Proof.
  induction 1 as [|y l Hy _ IH]; [done|]. rewrite count_of_cons, IH. unfold tally.
  by rewrite bool_decide_false by congruence.
Qed.
End Counting.

(** ** Time *)

(** An instant is a number of nanoseconds; so is a [time.Duration]. *)
Definition Nanosecond : Z := 1.
Definition Millisecond : Z := 1000000.
Definition Second : Z := 1000000000.
Definition Minute : Z := 60 * Second.
Definition Hour : Z := 60 * Minute.

(** [t.Sub(u)] saturates at the bounds of [time.Duration]. *)
Definition time_sub (t u : Z) : Z := Z.max (- 2^63) (Z.min (2^63 - 1) (t - u)).

Lemma time_sub_exact t u : in_int64 (t - u) -> time_sub t u = t - u.
Proof. unfold in_int64, time_sub. lia. Qed.

(** ** Proof automation *)

Create HintDb go discriminated.
Create HintDb keeps discriminated.
Create Rewrite HintDb go_len.
Create Rewrite HintDb conns.

#[export] Hint Resolve keeps_bind keeps_ret keeps_throw keeps_gets keeps_with_defer keeps_if
  keeps_decide : keeps.
#[export] Hint Resolve b2z_range be16_range wrap64_range : go.
#[export] Hint Rewrite @length_cons @length_app @length_take @length_drop @length_fmap
  @length_replicate : go_len.

(** Solve a linear goal about lengths of lists built from appends, prefixes
    and suffixes. *)
Ltac len := simpl app in *; autorewrite with go_len in *; simpl length in *; lia.

(** Case analysis on every boolean test, option and pair a handler branches on. *)
Ltac branches := repeat (case_match; simplify_eq/=); simplify_eq/=.
