(* ===== verification/GoStrings.v ===== *)
(** * Go's [strings] package, hexadecimal and decimal printing

    The functions of the Go standard library that the program calls on strings.
    A Go string is a sequence of bytes, here Rocq's [string]. [strings.ToLower]
    takes a fast path on ASCII strings, which is modelled byte by byte; on
    other strings it consults the Unicode case tables, which are a parameter
    ([Unicode]). *)
From S2P Require Import Prelude.

Definition code (c : Ascii.ascii) : Z := Z.of_nat (Ascii.nat_of_ascii c).
Definition chr (z : Z) : Ascii.ascii := Ascii.ascii_of_nat (Z.to_nat z).

Lemma code_range c : 0 <= code c < 256.
Proof. unfold code. pose proof (Ascii.nat_ascii_bounded c). lia. Qed.

Lemma chr_code c : chr (code c) = c.
Proof. unfold chr, code. rewrite Nat2Z.id. apply Ascii.ascii_nat_embedding. Qed.

Lemma code_chr z : 0 <= z < 256 -> code (chr z) = z.
Proof. intros. unfold chr, code. rewrite Ascii.nat_ascii_embedding; lia. Qed.

(** A property of one character, checked on the 256 of them. *)
Lemma all_chars (P : Ascii.ascii -> bool) :
  forallb P (map Ascii.ascii_of_nat (seq 0 256)) = true -> forall c, P c = true.
Proof.
  rewrite forallb_forall. intros H c. apply H. apply in_map_iff.
  exists (Ascii.nat_of_ascii c). split; [apply Ascii.ascii_nat_embedding|].
  apply in_seq. pose proof (Ascii.nat_ascii_bounded c). lia.
Qed.

Fixpoint string_map (f : Ascii.ascii -> Ascii.ascii) (s : string) : string :=
  match s with
  | EmptyString => EmptyString
  | String c s => String (f c) (string_map f s)
  end.

Fixpoint string_all (p : Ascii.ascii -> bool) (s : string) : bool :=
  match s with
  | EmptyString => true
  | String c s => p c && string_all p s
  end.

(** ** [strings.ToLower] *)

Definition is_ascii (s : string) : bool := string_all (fun c => code c <? 128) s.

Definition lower_byte (c : Ascii.ascii) : Ascii.ascii :=
  if (65 <=? code c) && (code c <=? 90) then chr (code c + 32) else c.

(** The tables of Unicode, used for strings with a byte above 127. *)
Class Unicode := {
  unicode_to_lower : string -> string;
  unicode_trim_space : string -> string
}.

Definition ToLower `{Unicode} (s : string) : string :=
  if is_ascii s then string_map lower_byte s else unicode_to_lower s.

Definition is_space (c : Ascii.ascii) : bool :=
  ((9 <=? code c) && (code c <=? 13)) || (code c =? 32).

Fixpoint trim_left (s : string) : string :=
  match s with
  | EmptyString => EmptyString
  | String c t => if is_space c then trim_left t else s
  end.
Fixpoint trim_right (s : string) : string :=
  match s with
  | EmptyString => EmptyString
  | String c s =>
      match trim_right s with
      | EmptyString => if is_space c then EmptyString else String c EmptyString
      | t => String c t
      end
  end.

(** [strings.TrimSpace] *)
Definition TrimSpace `{Unicode} (s : string) : string :=
  if is_ascii s then trim_right (trim_left s) else unicode_trim_space s.

(** An instance that leaves non-ASCII strings alone, used by the examples. *)
#[export] Instance ascii_only : Unicode :=
  {| unicode_to_lower := id; unicode_trim_space := id |}.

Lemma lower_byte_idem c : lower_byte (lower_byte c) = lower_byte c.
Proof.
  pose proof (all_chars (fun c => Ascii.eqb (lower_byte (lower_byte c)) (lower_byte c))
    ltac:(vm_compute; reflexivity) c) as H.
  by apply Ascii.eqb_eq.
Qed.

Lemma lower_byte_ascii c : (code c <? 128) = true -> (code (lower_byte c) <? 128) = true.
Proof.
  intros H. pose proof (all_chars (fun c => implb (code c <? 128) (code (lower_byte c) <? 128))
    ltac:(vm_compute; reflexivity) c) as Hc.
  simpl in Hc. rewrite H in Hc. done.
Qed.

Lemma ToLower_idem `{Unicode} s : is_ascii s = true -> ToLower (ToLower s) = ToLower s.
Proof.
  intros Hs. unfold ToLower. rewrite Hs.
  assert (is_ascii (string_map lower_byte s) = true) as ->.
  { unfold is_ascii in *. induction s as [|c s IH]; [done|]. simpl in *.
    apply andb_true_iff in Hs as [Hc Hs]. rewrite lower_byte_ascii by done.
    by apply IH. }
  clear Hs. induction s as [|c s IH]; [done|]. simpl. by rewrite lower_byte_idem, IH.
Qed.

(** ** Searching *)

Fixpoint HasPrefix (s prefix : string) : bool :=
  match prefix, s with
  | EmptyString, _ => true
  | String c p, String d s => if decide (c = d) then HasPrefix s p else false
  | String _ _, EmptyString => false
  end.

Fixpoint Contains (s sub : string) : bool :=
  HasPrefix s sub || match s with EmptyString => false | String _ s => Contains s sub end.

(** [strings.IndexByte]: the first position of a byte, [-1] if there is none. *)
Fixpoint index_from (i : Z) (s : string) (c : Ascii.ascii) : Z :=
  match s with
  | EmptyString => -1
  | String d s => if decide (c = d) then i else index_from (i + 1) s c
  end.
Definition IndexByte (s : string) (c : Ascii.ascii) : Z := index_from 0 s c.

(** [strings.LastIndex] of a one-byte string: the last position, or [-1]. *)
Fixpoint last_index_from (i : Z) (s : string) (c : Ascii.ascii) : Z :=
  match s with
  | EmptyString => -1
  | String d s =>
      let r := last_index_from (i + 1) s c in
      if decide (r = -1) then (if decide (c = d) then i else -1) else r
  end.
Definition LastIndexByte (s : string) (c : Ascii.ascii) : Z := last_index_from 0 s c.

Definition strlen (s : string) : Z := Z.of_nat (String.length s).

(** [s[i:]] and [s[:i]] for positions within the string. *)
Fixpoint string_drop (n : nat) (s : string) : string :=
  match n, s with
  | S n, String _ s => string_drop n s
  | _, _ => s
  end.
Fixpoint string_take (n : nat) (s : string) : string :=
  match n, s with
  | S n, String c s => String c (string_take n s)
  | _, _ => EmptyString
  end.
Definition substr_from (s : string) (i : Z) : string := string_drop (Z.to_nat i) s.
Definition substr_to (s : string) (i : Z) : string := string_take (Z.to_nat i) s.

Definition TrimPrefix (s prefix : string) : string :=
  if HasPrefix s prefix then string_drop (String.length prefix) s else s.

(** [strings.Split] on a one-byte separator: never empty. *)
Fixpoint SplitByte (s : string) (c : Ascii.ascii) : list string :=
  match s with
  | EmptyString => [EmptyString]
  | String d s =>
      if decide (c = d) then EmptyString :: SplitByte s c
      else match SplitByte s c with
           | w :: ws => String d w :: ws
           | [] => [String d EmptyString]
           end
  end.

(** ** Concatenation *)

Lemma str_cons_app c (s t : string) : String c s +:+ t = String c (s +:+ t).
Proof. reflexivity. Qed.
Lemma str_nil_app (t : string) : "" +:+ t = t.
Proof. reflexivity. Qed.

Lemma str_app_assoc (a b c : string) : (a +:+ b) +:+ c = a +:+ (b +:+ c).
Proof.
  induction a as [|x a IH]; [by rewrite !str_nil_app|].
  by rewrite !str_cons_app, IH.
Qed.

Lemma str_app_nil_r (a : string) : a +:+ "" = a.
Proof. induction a as [|x a IH]; [done|]. by rewrite str_cons_app, IH. Qed.

Lemma str_length_app (a b : string) :
  String.length (a +:+ b) = (String.length a + String.length b)%nat.
Proof.
  induction a as [|x a IH]; [done|]. rewrite str_cons_app. simpl. by rewrite IH.
Qed.

Lemma string_take_all n (s : string) : (String.length s <= n)%nat -> string_take n s = s.
Proof.
  revert n. induction s as [|c s IH]; intros [|n] H; simpl in *; [done..|lia|]. rewrite IH; [done|lia].
Qed.

Lemma str_app_inj_suffix (a a' b b' : string) :
  a +:+ b = a' +:+ b' -> String.length b = String.length b' -> a = a' /\ b = b'.
Proof.
  revert a'. induction a as [|x a IH]; intros [|x' a'] H Hl; try done.
  - rewrite str_nil_app in H. subst b. rewrite str_cons_app in Hl. simpl in Hl.
    rewrite str_length_app in Hl. lia.
  - rewrite str_nil_app in H. subst b'. rewrite str_cons_app in Hl. simpl in Hl.
    rewrite str_length_app in Hl. lia.
  - rewrite !str_cons_app in H. injection H as -> H.
    by destruct (IH a' H Hl) as [-> ->].
Qed.

Lemma HasPrefix_app (a b : string) : HasPrefix (a +:+ b) a = true.
Proof.
  induction a as [|x a IH]; [by destruct b|]. rewrite str_cons_app. simpl.
  by rewrite decide_True.
Qed.

(** ** Decimal and hexadecimal digits *)

Definition digit_char (d : Z) : Ascii.ascii := chr (48 + d).
Definition is_digit (c : Ascii.ascii) : bool := (48 <=? code c) && (code c <=? 57).
Definition digit_val (c : Ascii.ascii) : Z := code c - 48.

(** The decimal notation of an integer, as [fmt]'s [%d] prints it. *)
Fixpoint digits (fuel : nat) (n : Z) (acc : string) : string :=
  match fuel with
  | O => acc
  | S fuel =>
      let acc := String (digit_char (n mod 10)) acc in
      if n <? 10 then acc else digits fuel (n / 10) acc
  end.
Definition decimal_fuel (n : Z) : nat := S (Z.to_nat (Z.log2 n)).
Definition decimal (z : Z) : string :=
  if z <? 0 then String "-"%char (digits (decimal_fuel (- z)) (- z) "")
  else digits (decimal_fuel z) z "".

(** The value of a string of digits after [acc]; [None] at another character. *)
Fixpoint digits_value (s : string) (acc : Z) : option Z :=
  match s with
  | EmptyString => Some acc
  | String c s => if is_digit c then digits_value s (acc * 10 + digit_val c) else None
  end.

Lemma digit_char_val d : 0 <= d < 10 -> digit_val (digit_char d) = d.
Proof. intros. unfold digit_val, digit_char. rewrite code_chr; lia. Qed.

Lemma digit_char_is_digit d : 0 <= d < 10 -> is_digit (digit_char d) = true.
Proof. intros. unfold is_digit, digit_char. rewrite code_chr by lia. lia. Qed.

Lemma digits_value_app s t acc v :
  digits_value s acc = Some v -> digits_value (s +:+ t) acc = digits_value t v.
Proof.
  revert acc. induction s as [|c s IH]; intros acc H;
    [by injection H as ->|].
  rewrite str_cons_app. simpl in *. destruct (is_digit c); [by apply IH|done].
Qed.

Lemma digits_acc fuel n acc : digits fuel n acc = digits fuel n "" +:+ acc.
Proof.
  revert n acc. induction fuel as [|fuel IH]; intros n acc; [done|]. cbn [digits].
  destruct (n <? 10); [done|]. rewrite IH, (IH _ (String _ "")).
  by rewrite str_app_assoc.
Qed.

Lemma digits_value_digits fuel n :
  0 <= n -> n < 2 ^ Z.of_nat fuel -> digits_value (digits fuel n "") 0 = Some n \/ fuel = O.
Proof.
  revert n. induction fuel as [|fuel IH]; intros n Hn Hf; [by right|]. left.
  cbn [digits]. pose proof (Z.mod_pos_bound n 10). destruct (Z.ltb_spec n 10).
  - cbn [digits_value]. rewrite digit_char_is_digit, digit_char_val, Z.mod_small by lia.
    f_equal; lia.
  - rewrite digits_acc. pose proof (Z.div_mod n 10).
    rewrite Nat2Z.inj_succ, Z.pow_succ_r in Hf by lia.
    destruct (IH (n / 10)) as [Hv | ->]; [lia|lia| |simpl in Hf; lia].
    rewrite (digits_value_app _ _ _ _ Hv). cbn [digits_value].
    rewrite digit_char_is_digit, digit_char_val by lia. f_equal; lia.
Qed.

Lemma decimal_fuel_enough n : 0 <= n -> n < 2 ^ Z.of_nat (decimal_fuel n).
Proof.
  intros. unfold decimal_fuel. rewrite Nat2Z.inj_succ, Z2Nat.id by apply Z.log2_nonneg.
  destruct (Z.eq_dec n 0) as [->|]; [simpl; lia|]. apply Z.log2_spec. lia.
Qed.

Lemma digits_value_decimal n : 0 <= n -> digits_value (decimal n) 0 = Some n.
Proof.
  intros. unfold decimal. rewrite (proj2 (Z.ltb_ge _ _)) by lia.
  by destruct (digits_value_digits (decimal_fuel n) n) as [|];
    [|apply decimal_fuel_enough| |].
Qed.

Lemma is_ascii_app a b : is_ascii (a +:+ b) = is_ascii a && is_ascii b.
Proof.
  unfold is_ascii. induction a as [|c a IH]; [done|]. rewrite str_cons_app. simpl. by rewrite IH, andb_assoc.
Qed.

Lemma digits_ascii fuel n acc :
  0 <= n -> is_ascii acc = true -> is_ascii (digits fuel n acc) = true.
Proof.
  revert n acc. induction fuel as [|fuel IH]; intros n acc Hn Ha; [done|]. cbn [digits].
  assert (is_ascii (String (digit_char (n mod 10)) acc) = true) as H.
  { unfold is_ascii in *. cbn [string_all]. rewrite Ha, andb_true_r. unfold digit_char.
    pose proof (Z.mod_pos_bound n 10). rewrite code_chr by lia. apply Z.ltb_lt. lia. }
  destruct (n <? 10); [done|]. apply IH; [|done]. apply Z.div_pos; lia.
Qed.

(** Numbers print in ASCII. *)
Lemma decimal_ascii z : is_ascii (decimal z) = true.
Proof.
  unfold decimal. destruct (Z.ltb_spec z 0).
  - change (is_ascii (digits (decimal_fuel (- z)) (- z) "") = true). apply digits_ascii; [lia|done].
  - by apply digits_ascii.
Qed.

(** Hexadecimal: [hex.EncodeToString] and the value of a hex digit. *)
Definition hex_char (d : Z) : Ascii.ascii := if d <? 10 then chr (48 + d) else chr (87 + d).

Fixpoint hex_encode (bs : list byte) : string :=
  match bs with
  | [] => EmptyString
  | b :: bs => String (hex_char (b2z b / 16)) (String (hex_char (b2z b mod 16)) (hex_encode bs))
  end.

Definition hex_val (c : Ascii.ascii) : option Z :=
  if is_digit c then Some (code c - 48)
  else if (97 <=? code c) && (code c <=? 102) then Some (code c - 87)
  else if (65 <=? code c) && (code c <=? 70) then Some (code c - 55)
  else None.

Lemma hex_val_char d : 0 <= d < 16 -> hex_val (hex_char d) = Some d.
Proof.
  intros Hd. unfold hex_val, hex_char, is_digit.
  destruct (Z.ltb_spec d 10); rewrite code_chr by lia.
  - rewrite (proj2 (Z.leb_le 48 _)), (proj2 (Z.leb_le _ 57)) by lia. f_equal. simpl. lia.
  - rewrite (proj2 (Z.leb_gt _ 57)), andb_false_r by lia.
    rewrite (proj2 (Z.leb_le 97 _)), (proj2 (Z.leb_le _ 102)) by lia. simpl. f_equal. lia.
Qed.

Lemma hex_encode_length bs : String.length (hex_encode bs) = (2 * length bs)%nat.
Proof. induction bs; simpl; lia. Qed.

Lemma hex_encode_inj bs cs : hex_encode bs = hex_encode cs -> bs = cs.
Proof.
  revert cs. induction bs as [|b bs IH]; intros [|c cs]; simpl; try done.
  intros [= H1 H2 H3]. apply IH in H3 as ->. f_equal. apply b2z_inj.
  pose proof (b2z_range b). pose proof (b2z_range c).
  apply (f_equal hex_val) in H1, H2. rewrite !hex_val_char in H1, H2 by
    (try apply Z.mod_pos_bound; try split; try apply Z.div_pos; try apply Z.div_lt_upper_bound; lia).
  injection H1 as H1. injection H2 as H2.
  rewrite (Z.div_mod (b2z b) 16), (Z.div_mod (b2z c) 16) by lia. lia.
Qed.

(** ** Integers read from text *)

(** [strconv.ParseUint] in base 10: the digits are read until the value leaves 64
    bits, [None] at the first character that is no digit. *)
Fixpoint ParseUint (s : string) (n : Z) : option Z :=
  match s with
  | EmptyString => Some n
  | String c s =>
      if is_digit c then
        let n := n * 10 + digit_val c in
        if 2^64 - 1 <? n then Some (2^64 - 1) else ParseUint s n
      else None
  end.

(** [strconv.Atoi], and whether its error is nil: the value is 0 when the text is
    no number and saturates when the number is too large. *)
Definition Atoi (s : string) : Z * bool :=
  let '(neg, digits) :=
    match s with
    | String c r => if decide (c = "-"%char) then (true, r)
                    else if decide (c = "+"%char) then (false, r) else (false, s)
    | EmptyString => (false, s)
    end in
  if String.eqb digits "" then (0, false) else
  match ParseUint digits 0 with
  | None => (0, false)
  | Some un =>
      if neg : bool then if 2^63 <? un then (- 2^63, false) else (- un, true)
      else if 2^63 <=? un then (2^63 - 1, false) else (un, true)
  end.
