(* ===== verification/Sni.v ===== *)
(** * SNI extraction from a TLS ClientHello ([internal/proxy/server.go])

    [extractSNI] walks the bytes of a ClientHello with a position [pos]. Every
    [data[i]] and every slice is an access that panics out of range, so that the
    safety theorem speaks of the guards the code has. The loop over the
    extensions runs with fuel [len(data)]: each round moves [pos] by at least
    four bytes; a loop that ran out of fuel would show as a [Panic].
    [sni_hello] is the grammar the parser is proved equivalent to. *)
From S2P Require Import Prelude GoStrings.

Definition u8_at (data : list byte) (i : Z) : outcome Z := b ← index data i; Done (b2z b).

(** [int(data[i])<<8 | int(data[i+1])] *)
Definition u16_at (data : list byte) (i : Z) : outcome Z :=
  hi ← index data i; lo ← index data (i + 1); Done (be16 hi lo).

Arguments u8_at : simpl never.
Arguments u16_at : simpl never.

(** The [for pos+4 <= endPos] loop. *)
Fixpoint ext_loop (fuel : nat) (data : list byte) (pos endPos : Z) : outcome string :=
  match fuel with
  | O => Panic
  | S fuel =>
      if negb (pos + 4 <=? endPos) then Done ""%string else
      extType ← u16_at data pos;
      extLen ← u16_at data (pos + 2);
      let pos := pos + 4 in
      if extType =? 0 then
        if endPos <? pos + 5 then Done ""%string else
        nameType ← u8_at data (pos + 2);
        if negb (nameType =? 0) then Done ""%string else
        nameLen ← u16_at data (pos + 3);
        if endPos <? pos + 5 + nameLen then Done ""%string else
        name ← slice data (pos + 5) (pos + 5 + nameLen);
        Done (string_of_bytes name)
      else ext_loop fuel data (pos + extLen) endPos
  end.

(** [extractSNI] is one straight-line function; its model is cut after each of
    the variable-length fields, [pos] being where the next one starts. *)
Definition sni_from_extensions (data : list byte) (pos : Z) : outcome string :=
  if zlen data <? pos + 2 then Done ""%string else
  extensionsLen ← u16_at data pos;
  let pos := pos + 2 in
  let endPos := pos + extensionsLen in
  let endPos := if zlen data <? endPos then zlen data else endPos in
  ext_loop (length data) data pos endPos.

Definition sni_from_compression (data : list byte) (pos : Z) : outcome string :=
  if zlen data <? pos + 1 then Done ""%string else
  compressionLen ← u8_at data pos;
  sni_from_extensions data (pos + (1 + compressionLen)).

Definition sni_from_cipher_suites (data : list byte) (pos : Z) : outcome string :=
  if zlen data <? pos + 2 then Done ""%string else
  cipherSuitesLen ← u16_at data pos;
  sni_from_compression data (pos + (2 + cipherSuitesLen)).

Definition sni_from_session_id (data : list byte) (pos : Z) : outcome string :=
  if zlen data <? pos + 1 then Done ""%string else
  sessionIDLen ← u8_at data pos;
  sni_from_cipher_suites data (pos + (1 + sessionIDLen)).

Definition extractSNI (data : list byte) : outcome string :=
  if zlen data <? 5 then Done ""%string else
  recordType ← u8_at data 0;
  if negb (recordType =? 0x16) then Done ""%string else
  let pos := 5 in
  if zlen data <? pos + 4 then Done ""%string else
  handshakeType ← u8_at data pos;
  if negb (handshakeType =? 1) then Done ""%string else
  let pos := pos + 4 in
  if zlen data <? pos + 34 then Done ""%string else
  let pos := pos + 34 in
  sni_from_session_id data pos.

(** ** The grammar *)

(** [sni_exts l n host]: the extension block [l], of which [n] bytes count,
    carries [host] in its first extension of type 0 (server_name), after
    extensions of other types. *)
Inductive sni_exts : list byte -> Z -> list byte -> Prop :=
| sni_found t1 t2 l1 l2 s1 s2 h1 h2 host rest n :
    be16 t1 t2 = 0 ->
    be16 h1 h2 = zlen host ->
    9 + zlen host <= n ->
    sni_exts ([t1; t2; l1; l2; s1; s2; x00; h1; h2] ++ host ++ rest) n host
| sni_skip t1 t2 l1 l2 body rest n host :
    be16 t1 t2 <> 0 ->
    be16 l1 l2 = zlen body ->
    sni_exts rest (n - 4 - zlen body) host ->
    sni_exts ([t1; t2; l1; l2] ++ body ++ rest) n host.

(** A TLS record (5 bytes of header) that holds a ClientHello (4 bytes of
    header, version and random) with a session id, cipher suites, compression
    methods and extensions, each after its length. *)
Definition sni_hello (data host : list byte) : Prop :=
  exists rec hs rnd sl sid c1 c2 suites cl comp e1 e2 exts,
    data = (x16 :: rec) ++ (x01 :: hs) ++ rnd ++ (sl :: sid) ++ (c1 :: c2 :: suites)
             ++ (cl :: comp) ++ [e1; e2] ++ exts /\
    length rec = 4%nat /\ length hs = 3%nat /\ length rnd = 34%nat /\
    b2z sl = zlen sid /\ be16 c1 c2 = zlen suites /\ b2z cl = zlen comp /\
    sni_exts exts (Z.min (be16 e1 e2) (zlen exts)) host.

(** ** Reading behind a prefix *)

Section Prefix.
Context (pre l : list byte).

Lemma u8_at_app p k :
  p = zlen pre -> 0 <= k -> u8_at (pre ++ l) (p + k) = u8_at l k.
Proof.
  intros -> Hk. unfold u8_at. rewrite index_app_r by lia.
  by replace (zlen pre + k - zlen pre) with k by lia.
Qed.

Lemma u16_at_app p k :
  p = zlen pre -> 0 <= k -> u16_at (pre ++ l) (p + k) = u16_at l k.
Proof.
  intros -> Hk. unfold u16_at. rewrite !index_app_r by lia.
  replace (zlen pre + k - zlen pre) with k by lia.
  by replace (zlen pre + k + 1 - zlen pre) with (k + 1) by lia.
Qed.

Lemma u8_at_front p : p = zlen pre -> u8_at (pre ++ l) p = u8_at l 0.
Proof. intros ->. rewrite <- (u8_at_app (zlen pre)) by lia. f_equal. lia. Qed.

Lemma u16_at_front p : p = zlen pre -> u16_at (pre ++ l) p = u16_at l 0.
Proof. intros ->. rewrite <- (u16_at_app (zlen pre)) by lia. f_equal. lia. Qed.
End Prefix.

Lemma u8_at_ok data i : 0 <= i < zlen data -> exists n, u8_at data i = Done n /\ 0 <= n < 256.
Proof.
  intros Hi. destruct (index_Done data i Hi) as (b & E & _).
  unfold u8_at. rewrite E. simpl. eauto with go.
Qed.

Lemma u16_at_ok data i :
  0 <= i -> i + 1 < zlen data -> exists n, u16_at data i = Done n /\ 0 <= n < 65536.
Proof.
  intros H0 Hi. destruct (index_Done data i) as (b & E & _); [lia|].
  destruct (index_Done data (i + 1)) as (b' & E' & _); [lia|].
  unfold u16_at. rewrite E; simpl. rewrite E'; simpl. eauto with go.
Qed.

(** Step through one guarded read, one test. *)
Ltac read_u8 n := match goal with |- mbind _ (u8_at ?d ?i) <> Panic =>
  let E := fresh "E" in let R := fresh "R" in
  destruct (u8_at_ok d i) as (n & E & R); [lia|]; rewrite E; simpl end.
Ltac read_u16 n := match goal with |- mbind _ (u16_at ?d ?i) <> Panic =>
  let E := fresh "E" in let R := fresh "R" in
  destruct (u16_at_ok d i) as (n & E & R); [lia|lia|]; rewrite E; simpl end.
Ltac prop_of_bool :=
  rewrite ?negb_true_iff, ?negb_false_iff, ?Z.ltb_lt, ?Z.ltb_ge, ?Z.leb_le,
    ?Z.leb_gt, ?Z.eqb_eq, ?Z.eqb_neq in *.
Ltac test := match goal with
  | |- (if ?b then Done _ else _) <> Panic =>
      let E := fresh "E" in destruct b eqn:E; prop_of_bool; [done|]; cbv zeta
  end.

(** ** Memory safety and termination *)

Lemma ext_loop_safe fuel data pos endPos :
  0 <= pos -> endPos <= zlen data -> endPos - pos < Z.of_nat fuel -> fuel <> O ->
  ext_loop fuel data pos endPos <> Panic.
Proof.
  revert pos. induction fuel as [|fuel IH]; intros pos Hpos Hend Hfuel ?; [done|].
  cbn [ext_loop]. test. read_u16 ty. read_u16 el. destruct (ty =? 0).
  - test. read_u8 nt. test. read_u16 nl. test. rewrite slice_Done by lia. done.
  - apply IH; lia.
Qed.

(** [extractSNI] returns on every input. *)
Lemma extractSNI_total (data : list byte) : exists s, extractSNI data = Done s.
Proof.
  assert (extractSNI data <> Panic); [|destruct (extractSNI data); [eauto|done]].
  unfold extractSNI. test. read_u8 rt. test. test. read_u8 ht. test. test.
  unfold sni_from_session_id. test. read_u8 sl.
  unfold sni_from_cipher_suites. test. read_u16 cl.
  unfold sni_from_compression. test. read_u8 cm.
  unfold sni_from_extensions. test. read_u16 el.
  apply ext_loop_safe; [lia|destruct (_ <? _) eqn:E'; prop_of_bool; lia| |].
  - destruct (_ <? _) eqn:E'; prop_of_bool; lia.
  - destruct data; simpl in *; lia.
Qed.

(** [extractSNI] is total and memory safe on every input: no index or slice
    of it is out of range, and its loop ends within [len(data)] rounds. *)
Theorem extractSNI_safe (data : list byte) : exists s, extractSNI data = Done s.
Proof. apply extractSNI_total. Qed.

(** ** Equivalence with the grammar *)

Lemma string_of_bytes_nil bs : string_of_bytes bs = ""%string -> bs = [].
Proof. destruct bs; [done|discriminate]. Qed.

(** [ext_loop] at the front of [l], behind any prefix. *)
Lemma ext_loop_at_front fuel pre t1 t2 l1 l2 l n :
  4 <= n ->
  ext_loop (S fuel) (pre ++ [t1; t2; l1; l2] ++ l) (zlen pre) (zlen pre + n) =
    (if be16 t1 t2 =? 0 then
       if n <? 9 then Done ""%string else
       nameType ← u8_at l 2;
       if negb (nameType =? 0) then Done ""%string else
       nameLen ← u16_at l 3;
       if n <? 9 + nameLen then Done ""%string else
       name ← slice l 5 (5 + nameLen); Done (string_of_bytes name)
     else ext_loop fuel (pre ++ [t1; t2; l1; l2] ++ l) (zlen pre + 4 + be16 l1 l2)
            (zlen pre + n)).
Proof.
  intros Hn. cbn [ext_loop]. rewrite (proj2 (Z.leb_le _ _)) by lia. cbn [negb].
  rewrite (u16_at_front pre _ (zlen pre)), (u16_at_app pre _ (zlen pre) 2) by lia.
  change (u16_at _ 0) with (Done (be16 t1 t2)). change (u16_at _ 2) with (Done (be16 l1 l2)).
  cbn [mbind outcome_bind]. destruct (_ =? 0); [|done].
  assert (forall p q, (zlen pre + p <? zlen pre + q) = (p <? q)) as Hlt.
  { intros. destruct (Z.ltb_spec p q); [apply Z.ltb_lt|apply Z.ltb_ge]; lia. }
  replace (zlen pre + 4 + 5) with (zlen pre + 9) by lia. rewrite Hlt.
  rewrite (app_assoc pre). rewrite !(u8_at_app _ _ (zlen pre + 4)) by len.
  rewrite !(u16_at_app _ _ (zlen pre + 4)) by len.
  destruct (n <? 9); [done|]. destruct (u8_at l 2) as [nt|]; [|done].
  cbn [mbind outcome_bind]. destruct (negb _); [done|].
  destruct (u16_at l 3) as [nl|]; [|done]. cbn [mbind outcome_bind].
  replace (zlen pre + 9 + nl) with (zlen pre + (9 + nl)) by lia. rewrite Hlt.
  destruct (n <? 9 + nl); [done|]. rewrite slice_app_r by len.
  repeat f_equal; len.
Qed.

Lemma sni_exts_budget l n host : sni_exts l n host -> 9 + zlen host <= n.
Proof. induction 1; lia. Qed.

Lemma ext_loop_complete fuel pre l n host :
  sni_exts l n host -> n <= zlen l -> n < Z.of_nat fuel ->
  ext_loop fuel (pre ++ l) (zlen pre) (zlen pre + n) = Done (string_of_bytes host).
Proof.
  intros H. revert fuel pre. induction H as [t1 t2 l1 l2 s1 s2 h1 h2 host rest n Ht Hh Hn|
    t1 t2 l1 l2 body rest n host Ht Hb H IH]; intros [|fuel] pre Hl Hf;
    try (apply sni_exts_budget in H; lia); try lia.
  - change ([t1; t2; l1; l2; s1; s2; x00; h1; h2] ++ host ++ rest) with
      ([t1; t2; l1; l2] ++ [s1; s2; x00; h1; h2] ++ host ++ rest).
    rewrite ext_loop_at_front by lia.
    rewrite (proj2 (Z.eqb_eq _ _) Ht), (proj2 (Z.ltb_ge _ _)) by lia.
    change (u8_at _ 2) with (Done 0). change (u16_at _ 3) with (Done (be16 h1 h2)).
    cbn [mbind outcome_bind negb Z.eqb]. rewrite Hh, (proj2 (Z.ltb_ge _ _)) by lia.
    rewrite slice_app_r by (simpl; lia). rewrite slice_Done by len. simpl length.
    cbn [mbind outcome_bind]. do 2 f_equal. rewrite drop_0. apply take_app_length'. lia.
  - apply sni_exts_budget in H.
    rewrite ext_loop_at_front by lia. rewrite (proj2 (Z.eqb_neq _ _) Ht), Hb.
    specialize (IH fuel (pre ++ [t1; t2; l1; l2] ++ body)).
    rewrite <- !app_assoc in IH. etransitivity; [|apply IH; len]. f_equal; len.
Qed.

Lemma ext_loop_sound fuel pre l n s :
  ext_loop fuel (pre ++ l) (zlen pre) (zlen pre + n) = Done s ->
  s <> ""%string -> n <= zlen l ->
  exists host, s = string_of_bytes host /\ sni_exts l n host.
Proof.
  revert pre l n. induction fuel as [|fuel IH]; intros pre l n H Hs Hl; [done|].
  destruct (Z.le_gt_cases 4 n) as [Hn|Hn]; cycle 1.
  { cbn [ext_loop] in H. rewrite (proj2 (Z.leb_gt _ _)) in H by lia. naive_solver. }
  destruct l as [|t1 [|t2 [|l1 [|l2 l]]]]; try (simpl in Hl; lia).
  change (t1 :: t2 :: l1 :: l2 :: l) with ([t1; t2; l1; l2] ++ l) in *.
  rewrite ext_loop_at_front in H by lia.
  destruct (Z.eqb_spec (be16 t1 t2) 0) as [Ht|Ht].
  - destruct (Z.ltb_spec n 9); [naive_solver|].
    destruct l as [|s1 [|s2 [|nt [|h1 [|h2 l]]]]]; try (simpl in Hl; lia).
    change (u8_at _ 2) with (Done (b2z nt)) in H.
    change (u16_at _ 3) with (Done (be16 h1 h2)) in H. cbn [mbind outcome_bind] in H.
    destruct (Z.eqb_spec (b2z nt) 0) as [Hnt|]; [|naive_solver].
    apply (b2z_inj nt x00) in Hnt as ->. cbn [negb] in H.
    destruct (Z.ltb_spec n (9 + be16 h1 h2)); [naive_solver|].
    destruct (split_front l (be16 h1 h2)) as (host & rest & -> & Hh).
    { pose proof (be16_range h1 h2). len. }
    exists host. split; [|by apply (sni_found _ _ _ _ s1 s2 h1 h2 host rest); lia].
    rewrite slice_Done in H by len. cbn [mbind outcome_bind] in H. injection H as <-.
    f_equal. change (drop _ _) with (host ++ rest). apply take_app_length'. lia.
  - pose proof (be16_range l1 l2).
    destruct (Z.le_gt_cases (be16 l1 l2 + 8) n) as [Hb|Hb]; cycle 1.
    { destruct fuel; [done|]. cbn [ext_loop] in H.
      rewrite (proj2 (Z.leb_gt _ _)) in H by lia. naive_solver. }
    destruct (split_front l (be16 l1 l2)) as (body & rest & -> & Hlen); [len|].
    specialize (IH (pre ++ [t1; t2; l1; l2] ++ body) rest (n - 4 - zlen body)).
    rewrite <- !app_assoc in IH.
    destruct IH as (host & -> & IH); [|done|len|].
    { rewrite <- H. f_equal; len. }
    exists host. split; [done|]. by apply (sni_skip _ _ l1 l2); [|lia|].
Qed.

(** The stages of [extractSNI] behind a prefix [pre], forwards. *)
Section Stages.
Context (pre l : list byte).

Lemma sni_from_extensions_at e1 e2 host :
  sni_exts l (Z.min (be16 e1 e2) (zlen l)) host ->
  sni_from_extensions (pre ++ [e1; e2] ++ l) (zlen pre) = Done (string_of_bytes host).
Proof.
  intros H. unfold sni_from_extensions. rewrite (proj2 (Z.ltb_ge _ _)) by len.
  rewrite u16_at_front by done. change (u16_at _ 0) with (Done (be16 e1 e2)).
  cbn [mbind outcome_bind]. cbv zeta. rewrite app_assoc.
  pose proof (ext_loop_complete (length ((pre ++ [e1; e2]) ++ l)) (pre ++ [e1; e2]) l _ _ H)
    as Hloop.
  rewrite <- Hloop by len. f_equal; [len|].
  destruct (_ <? _) eqn:E; prop_of_bool; len.
Qed.

Lemma sni_from_compression_at cl comp :
  b2z cl = zlen comp ->
  sni_from_compression (pre ++ (cl :: comp) ++ l) (zlen pre) =
    sni_from_extensions ((pre ++ cl :: comp) ++ l) (zlen (pre ++ cl :: comp)).
Proof.
  intros H. unfold sni_from_compression. rewrite (proj2 (Z.ltb_ge _ _)) by len.
  rewrite u8_at_front by done. change (u8_at _ 0) with (Done (b2z cl)).
  cbn [mbind outcome_bind]. rewrite app_assoc. f_equal. len.
Qed.

Lemma sni_from_cipher_suites_at c1 c2 suites :
  be16 c1 c2 = zlen suites ->
  sni_from_cipher_suites (pre ++ (c1 :: c2 :: suites) ++ l) (zlen pre) =
    sni_from_compression ((pre ++ c1 :: c2 :: suites) ++ l) (zlen (pre ++ c1 :: c2 :: suites)).
Proof.
  intros H. unfold sni_from_cipher_suites. rewrite (proj2 (Z.ltb_ge _ _)) by len.
  rewrite u16_at_front by done. change (u16_at _ 0) with (Done (be16 c1 c2)).
  cbn [mbind outcome_bind]. rewrite app_assoc. f_equal. len.
Qed.

Lemma sni_from_session_id_at sl sid :
  b2z sl = zlen sid ->
  sni_from_session_id (pre ++ (sl :: sid) ++ l) (zlen pre) =
    sni_from_cipher_suites ((pre ++ sl :: sid) ++ l) (zlen (pre ++ sl :: sid)).
Proof.
  intros H. unfold sni_from_session_id. rewrite (proj2 (Z.ltb_ge _ _)) by len.
  rewrite u8_at_front by done. change (u8_at _ 0) with (Done (b2z sl)).
  cbn [mbind outcome_bind]. rewrite app_assoc. f_equal. len.
Qed.
End Stages.

Lemma extractSNI_at rec hs rnd l :
  length rec = 4%nat -> length hs = 3%nat -> length rnd = 34%nat ->
  let pre := (x16 :: rec) ++ (x01 :: hs) ++ rnd in
  extractSNI (pre ++ l) = sni_from_session_id (pre ++ l) (zlen pre).
Proof.
  intros Hrec Hhs Hrnd pre.
  assert (zlen pre = 43) as Hpre by (unfold pre; len).
  assert (u8_at (pre ++ l) 5 = Done 1) as Ht.
  { unfold pre. rewrite <- app_assoc. rewrite u8_at_front by len. done. }
  unfold extractSNI. rewrite !(proj2 (Z.ltb_ge _ _)) by len.
  change (u8_at _ 0) with (Done 22). cbn [mbind outcome_bind]. cbv zeta.
  rewrite Ht. cbn [mbind outcome_bind]. rewrite Hpre. done.
Qed.

Lemma extractSNI_complete data host :
  sni_hello data host -> extractSNI data = Done (string_of_bytes host).
Proof.
  intros (rec & hs & rnd & sl & sid & c1 & c2 & suites & cl & comp & e1 & e2 & exts &
          -> & Hrec & Hhs & Hrnd & Hsl & Hc & Hcl & H).
  pose proof (extractSNI_at rec hs rnd ((sl :: sid) ++ (c1 :: c2 :: suites) ++
    (cl :: comp) ++ [e1; e2] ++ exts) Hrec Hhs Hrnd) as E.
  cbv zeta in E. rewrite <- !app_assoc in E. rewrite E. clear E.
  rewrite (app_assoc (x01 :: hs)), (app_assoc (x16 :: rec)).
  rewrite sni_from_session_id_at, sni_from_cipher_suites_at, sni_from_compression_at by done.
  by apply sni_from_extensions_at.
Qed.

(** The stages backwards: a name comes only out of a well-shaped message. *)
Section Inversion.
Context (next : list byte -> Z -> outcome string) (s : string).
Context (Hs : s <> ""%string).
Context (next_within : forall data pos, next data pos = Done s -> pos <= zlen data).

Lemma field8_inv pre l :
  (if zlen (pre ++ l) <? zlen pre + 1 then Done ""%string else
   n ← u8_at (pre ++ l) (zlen pre); next (pre ++ l) (zlen pre + (1 + n))) = Done s ->
  exists b body rest, l = (b :: body) ++ rest /\ b2z b = zlen body /\
    next ((pre ++ b :: body) ++ rest) (zlen (pre ++ b :: body)) = Done s.
Proof.
  destruct (Z.ltb_spec (zlen (pre ++ l)) (zlen pre + 1)) as [|Hlen]; [naive_solver|].
  destruct l as [|b l]; [len|]. rewrite u8_at_front by done.
  change (u8_at _ 0) with (Done (b2z b)). cbn [mbind outcome_bind]. intros H.
  pose proof (next_within _ _ H). pose proof (b2z_range b).
  destruct (split_front l (b2z b)) as (body & rest & -> & Hb); [len|].
  exists b, body, rest. split; [done|]. split; [done|].
  rewrite <- H, <- app_assoc. f_equal. len.
Qed.

Lemma field16_inv pre l :
  (if zlen (pre ++ l) <? zlen pre + 2 then Done ""%string else
   n ← u16_at (pre ++ l) (zlen pre); next (pre ++ l) (zlen pre + (2 + n))) = Done s ->
  exists b c body rest, l = (b :: c :: body) ++ rest /\ be16 b c = zlen body /\
    next ((pre ++ b :: c :: body) ++ rest) (zlen (pre ++ b :: c :: body)) = Done s.
Proof.
  destruct (Z.ltb_spec (zlen (pre ++ l)) (zlen pre + 2)) as [|Hlen]; [naive_solver|].
  destruct l as [|b [|c l]]; [len|len|]. rewrite u16_at_front by done.
  change (u16_at _ 0) with (Done (be16 b c)). cbn [mbind outcome_bind]. intros H.
  pose proof (next_within _ _ H). pose proof (be16_range b c).
  destruct (split_front l (be16 b c)) as (body & rest & -> & Hb); [len|].
  exists b, c, body, rest. split; [done|]. split; [done|].
  rewrite <- H, <- app_assoc. f_equal. len.
Qed.
End Inversion.

Ltac within := let d := fresh "d" in let p := fresh "p" in intros d p;
  match goal with |- ?f _ _ = _ -> _ => unfold f end;
  destruct (_ <? _) eqn:?; prop_of_bool; [naive_solver|lia].

Lemma sni_from_extensions_inv pre l s :
  s <> ""%string -> sni_from_extensions (pre ++ l) (zlen pre) = Done s ->
  exists e1 e2 exts host, l = [e1; e2] ++ exts /\ s = string_of_bytes host /\
    sni_exts exts (Z.min (be16 e1 e2) (zlen exts)) host.
Proof.
  intros Hs. unfold sni_from_extensions.
  destruct (Z.ltb_spec (zlen (pre ++ l)) (zlen pre + 2)) as [|Hlen]; [naive_solver|].
  destruct l as [|e1 [|e2 exts]]; [len|len|]. rewrite u16_at_front by done.
  change (u16_at _ 0) with (Done (be16 e1 e2)). cbn [mbind outcome_bind]. cbv zeta. intros H.
  exists e1, e2, exts.
  destruct (ext_loop_sound (length (pre ++ e1 :: e2 :: exts)) (pre ++ [e1; e2]) exts
    (Z.min (be16 e1 e2) (zlen exts)) s) as (host & ? & ?); [|done|lia|by exists host].
  rewrite <- H, <- app_assoc. f_equal; [len|].
  destruct (_ <? _) eqn:E; prop_of_bool; len.
Qed.

Lemma extractSNI_front data s :
  s <> ""%string -> extractSNI data = Done s ->
  exists rec hs rnd l, data = ((x16 :: rec) ++ (x01 :: hs) ++ rnd) ++ l /\
    length rec = 4%nat /\ length hs = 3%nat /\ length rnd = 34%nat.
Proof.
  intros Hs. unfold extractSNI. destruct (Z.ltb_spec (zlen data) 5); [naive_solver|].
  destruct data as [|b0 l]; [len|]. change (u8_at _ 0) with (Done (b2z b0)).
  cbn [mbind outcome_bind]. destruct (Z.eqb_spec (b2z b0) 0x16) as [H0|]; [|naive_solver].
  apply (b2z_inj b0 x16) in H0 as ->. cbn [negb]. cbv zeta.
  destruct (Z.ltb_spec (zlen (x16 :: l)) (5 + 4)); [naive_solver|].
  destruct (split_front l 4) as (rec & l' & -> & Hrec); [len|].
  destruct l' as [|b1 l']; [len|].
  change (x16 :: rec ++ b1 :: l') with ((x16 :: rec) ++ b1 :: l') in *.
  rewrite u8_at_front by len. change (u8_at _ 0) with (Done (b2z b1)).
  cbn [mbind outcome_bind]. destruct (Z.eqb_spec (b2z b1) 1) as [H1|]; [|naive_solver].
  apply (b2z_inj b1 x01) in H1 as ->. cbn [negb].
  destruct (Z.ltb_spec (zlen ((x16 :: rec) ++ x01 :: l')) (5 + 4 + 34)); [naive_solver|].
  intros _. destruct (split_front l' 3) as (hs & l1 & -> & Hhs); [len|].
  destruct (split_front l1 34) as (rnd & l2 & -> & Hrnd); [len|].
  exists rec, hs, rnd, l2. rewrite <- !app_assoc. split; [done|]. lia.
Qed.

Lemma extractSNI_sound data s :
  s <> ""%string -> extractSNI data = Done s ->
  exists host, s = string_of_bytes host /\ sni_hello data host.
Proof.
  intros Hs H.
  destruct (extractSNI_front data s Hs H) as (rec & hs & rnd & l & -> & Hrec & Hhs & Hrnd).
  rewrite extractSNI_at in H by done.
  apply field8_inv in H as (sl & sid & l1 & -> & Hsid & H); [|done|within].
  apply field16_inv in H as (c1 & c2 & suites & l2 & -> & Hc & H); [|done|within].
  apply field8_inv in H as (cl & comp & l3 & -> & Hcl & H); [|done|within].
  apply sni_from_extensions_inv in H as (e1 & e2 & exts & host & -> & -> & Hx); [|done].
  exists host. split; [done|].
  exists rec, hs, rnd, sl, sid, c1, c2, suites, cl, comp, e1, e2, exts.
  rewrite <- !app_assoc. done.
Qed.

(** C1: [extractSNI] implements the ClientHello grammar: it returns a non-empty
    name exactly when the bytes are a ClientHello whose first server_name
    extension, after any other extensions, carries that host name. *)
Theorem extractSNI_spec (data host : list byte) :
  host <> [] ->
  extractSNI data = Done (string_of_bytes host) <-> sni_hello data host.
Proof.
  intros Hh. split; [|apply extractSNI_complete].
  intros H. apply extractSNI_sound in H as (host' & E & ?).
  - apply (f_equal bytes_of_string) in E. rewrite !bytes_of_string_of_bytes in E. by subst.
  - intros E. by apply string_of_bytes_nil in E.
Qed.

(** A ClientHello for the host [a.b], behind an empty extension of type 16. *)
Definition demo_hello : list byte :=
  [x16; x03; x01; x00; x3e; x01; x00; x00; x3a; x03; x03] ++ replicate 32 x2a ++
  [x00; x00; x02; x13; x01; x01; x00; x00; x10; x00; x10; x00; x00; x00; x00; x00; x08;
   x00; x06; x00; x00; x03; x61; x2e; x62].

Example demo_hello_sni : extractSNI demo_hello = Done "a.b".
Proof. vm_compute. reflexivity. Qed.

Lemma extractSNI_spec_witness :
  extractSNI demo_hello = Done (string_of_bytes [x61; x2e; x62]) <->
  sni_hello demo_hello [x61; x2e; x62].
Proof. apply (extractSNI_spec demo_hello [x61; x2e; x62]). discriminate. Defined.
