(* ===== verification/GoFloat.v ===== *)
(** * [float64] arithmetic

    The rate limiter, the connection throttle and the statistics compute with
    [float64]. Their definitions are written once against the class [GoFloat],
    in the order of operations of the source, and are used at two instances:
    [binary64], the IEEE 754 arithmetic the program runs (Rocq's specification
    [SpecFloat], round to nearest even), and [exact], rational arithmetic without
    rounding. Theorems that only need the order are proved for every instance that
    satisfies [FloatOrder]; the quantitative ones (token budgets, waiting times) for
    every instance of [Rounded], which says how far a result may be from the exact one.
    [Binary64] shows that the program's arithmetic is such an instance. A compiler that
    fuses a product and a sum, as Go may on other machines than amd64, is not covered. *)
From S2P Require Import Prelude.
From Stdlib Require Export QArith Lqa Floats.SpecFloat.
From Stdlib Require Export Qround Qabs.
#[global] Open Scope Z_scope.

Class GoFloat (F : Type) := {
  fadd : F -> F -> F;
  fsub : F -> F -> F;
  fmul : F -> F -> F;
  fdiv : F -> F -> F;
  flt : F -> F -> bool;
  fle : F -> F -> bool;
  fround : F -> F;       (* math.Round: to the nearest integer, half away from zero *)
  f_of_Z : Z -> F;       (* float64(i) *)
  f_to_Z : F -> Z        (* int(f): truncation towards zero *)
}.

Declare Scope float_scope.
Delimit Scope float_scope with F.
Infix "+" := fadd : float_scope.
Infix "-" := fsub : float_scope.
Infix "*" := fmul : float_scope.
Infix "/" := fdiv : float_scope.
Infix "<?" := flt : float_scope.
Infix "<=?" := fle : float_scope.

(** What every comparison of floats satisfies, NaN included. *)
Class FloatOrder (F : Type) `{GoFloat F} := {
  flt_irrefl : forall x : F, (x <? x)%F = false;
  flt_asym : forall x y : F, (x <? y)%F = true -> (y <? x)%F = false
}.

(** ** [binary64] *)

(** Go leaves the conversion of a value out of range to the implementation; on
    amd64 it gives the least [int64]. *)
Definition to_int64 (z : Z) : Z := if decide (in_int64 z) then z else - 2^63.

Definition sf_trunc (f : spec_float) : Z :=
  match f with
  | S754_finite s m e =>
      to_int64 (cond_Zopp s (if e <? 0 then Z.shiftr (Zpos m) (- e) else Z.shiftl (Zpos m) e))
  | S754_zero _ => 0
  | _ => - 2^63
  end.

Definition sf_round (f : spec_float) : spec_float :=
  match f with
  | S754_finite s m e =>
      if e <? 0
      then binary_normalize 53 1024
             (cond_Zopp s (Z.shiftr (Zpos m + Z.shiftl 1 (- e - 1)) (- e))) 0 s
      else f
  | _ => f
  end.

#[export] Instance binary64 : GoFloat spec_float := {|
  fadd := SFadd 53 1024;
  fsub := SFsub 53 1024;
  fmul := SFmul 53 1024;
  fdiv := SFdiv 53 1024;
  flt := SFltb;
  fle := SFleb;
  fround := sf_round;
  f_of_Z z := binary_normalize 53 1024 z 0 false;
  f_to_Z := sf_trunc
|}.

Lemma SFcompare_refl x : SFcompare x x = Some Eq \/ SFcompare x x = None.
Proof.
  destruct x as [|[]| |[] m e]; simpl; auto; rewrite Z.compare_refl, Pos.compare_cont_refl; auto.
Qed.

Lemma SFcompare_swap x y c :
  SFcompare x y = Some c -> SFcompare y x = Some (CompOpp c).
Proof.
  destruct x as [s1|s1| |s1 m1 e1], y as [s2|s2| |s2 m2 e2]; simpl;
    intros H; try discriminate; injection H as <-; try destruct s1; try destruct s2; try done;
    rewrite (Z.compare_antisym e1 e2); destruct (Z.compare e1 e2); simpl; try done;
    rewrite (Pos.compare_cont_antisym m1 m2); simpl; rewrite ?CompOpp_involutive; done.
Qed.

#[export] Instance binary64_order : FloatOrder spec_float.
Proof.
  split; simpl.
  - intros x. unfold SFltb. by destruct (SFcompare_refl x) as [-> | ->].
  - intros x y. unfold SFltb. destruct (SFcompare x y) as [[]|] eqn:E; try done.
    by rewrite (SFcompare_swap _ _ _ E).
Qed.

(** ** Exact arithmetic *)

Definition Qltb (x y : Q) : bool := negb (Qle_bool y x).

Definition Qtrunc (q : Q) : Z := to_int64 (Z.quot (Qnum q) (Zpos (Qden q))).

Definition Qhalf_away (q : Q) : Q :=
  inject_Z (if Qle_bool 0 q then Qfloor (q + (1 # 2))%Q else - Qfloor ((- q)%Q + (1 # 2))%Q).

#[export] Instance exact : GoFloat Q := {|
  fadd := Qplus;
  fsub := Qminus;
  fmul := Qmult;
  fdiv := Qdiv;
  flt := Qltb;
  fle := Qle_bool;
  fround := Qhalf_away;
  f_of_Z := inject_Z;
  f_to_Z := Qtrunc
|}.

Lemma Qltb_lt x y : Qltb x y = true <-> (x < y)%Q.
Proof.
  unfold Qltb. rewrite negb_true_iff, <- not_true_iff_false, Qle_bool_iff.
  split; [apply Qnot_le_lt|apply Qlt_not_le].
Qed.

Lemma Qltb_ge x y : Qltb x y = false <-> (y <= x)%Q.
Proof. unfold Qltb. rewrite negb_false_iff. apply Qle_bool_iff. Qed.

#[export] Instance exact_order : FloatOrder Q.
Proof.
  split; simpl; intros *; rewrite ?Qltb_lt, ?Qltb_ge; intros; lra.
Qed.

(** ** Rounding *)

(** [r] is what [v] is rounded to: a finite number, near [v], and with no finite number
    in between. *)
Record rounds_to {F} (real : F -> Q) (fin : F -> Prop) (rel abs : Q) (v : Q) (r : F) : Prop := {
  rd_fin : fin r;
  rd_err : (Qabs (real r - v) <= rel * Qabs v + abs)%Q;
  rd_lower : forall x, fin x -> (real x <= v)%Q -> (real x <= real r)%Q;
  rd_upper : forall x, fin x -> (v <= real x)%Q -> (real r <= real x)%Q
}.

(** No computation of the program comes near this. *)
Definition huge : Q := inject_Z (2^200).

(** Arithmetic that rounds: with a relative error of at most [2^-53] in each operation,
    and an absolute error, which is tiny, in products and quotients. *)
Class Rounded (F : Type) `{GoFloat F} := {
  real : F -> Q;
  fin : F -> Prop;
  rel_err : Q;
  abs_err : Q;
  rel_err_bound : (0 <= rel_err <= 1 # (2^53))%Q;
  abs_err_bound : (0 <= abs_err <= 1 # (2^200))%Q;
  fadd_rounds (x y : F) : fin x -> fin y -> (Qabs (real x + real y) <= huge)%Q ->
    rounds_to real fin rel_err 0 (real x + real y) (x + y)%F;
  fsub_rounds (x y : F) : fin x -> fin y -> (Qabs (real x - real y) <= huge)%Q ->
    rounds_to real fin rel_err 0 (real x - real y) (x - y)%F;
  fmul_rounds (x y : F) : fin x -> fin y -> (Qabs (real x * real y) <= huge)%Q ->
    rounds_to real fin rel_err abs_err (real x * real y) (x * y)%F;
  fdiv_rounds (x y : F) : fin x -> fin y -> ~ (real y == 0)%Q -> (Qabs (real x / real y) <= huge)%Q ->
    rounds_to real fin rel_err abs_err (real x / real y) (x / y)%F;
  flt_real (x y : F) : fin x -> fin y -> ((x <? y)%F = true <-> (real x < real y)%Q);
  fle_real (x y : F) : fin x -> fin y -> ((x <=? y)%F = true <-> (real x <= real y)%Q);
  f_of_Z_real z : Z.abs z < 2^53 -> fin (f_of_Z z) /\ (real (f_of_Z z) == inject_Z z)%Q
}.

Lemma rounds_to_exact (v : Q) : rounds_to (fun x => x) (fun _ => True) 0 0 v v.
Proof.
  split; [done| |done|done]. assert (v - v == 0)%Q as -> by ring. rewrite Qmult_0_l. discriminate.
Qed.

#[export] Program Instance exact_rounded : Rounded Q :=
  {| real x := x; fin _ := True; rel_err := 0; abs_err := 0 |}.
Next Obligation. split; discriminate. Qed.
Next Obligation. split; discriminate. Qed.
Next Obligation. intros. apply rounds_to_exact. Qed.
Next Obligation. intros. apply rounds_to_exact. Qed.
Next Obligation. intros. apply rounds_to_exact. Qed.
Next Obligation. intros. apply rounds_to_exact. Qed.
Next Obligation. intros. apply Qltb_lt. Qed.
Next Obligation. intros. apply Qle_bool_iff. Qed.
Next Obligation. done. Qed.

(** ** [time.Duration.Seconds()] *)

Definition Seconds `{GoFloat F} (d : Z) : F :=
  (f_of_Z (Z.quot d Second) + f_of_Z (Z.rem d Second) / f_of_Z Second)%F.

Arguments Seconds : simpl never.
