(* ===== verification/Binary64.v ===== *)
(** * What IEEE 754 arithmetic guarantees

    [binary64] is an instance of [Rounded]: every operation rounds the exact result, to
    nearest, as long as it is not absurdly large. The proofs are about the executable
    specification of the standard library, [SpecFloat], for 53 bits of precision and
    exponents up to 1024. A finite float has a mantissa below [2^53], in units of a power
    of two from [2^-1074] on. *)
From S2P Require Import Prelude GoFloat.
From Stdlib Require Import Qabs Qpower.
Open Scope Z_scope.

(** ** Powers of two *)

Definition p2 (e : Z) : Q := Qpower 2 e.

Lemma p2_pos e : (0 < p2 e)%Q.
Proof. apply Qpower_0_lt. reflexivity. Qed.

Lemma p2_add a b : (p2 (a + b) == p2 a * p2 b)%Q.
Proof. apply Qpower_plus. discriminate. Qed.

Lemma p2_le a b : a <= b -> (p2 a <= p2 b)%Q.
Proof. intros H. apply Qpower_le_compat_l; [done|discriminate]. Qed.

Lemma p2_Z n : 0 <= n -> (p2 n == inject_Z (2 ^ n))%Q.
Proof. intros H. symmetry. by apply Zpower_Qpower. Qed.

Lemma p2_neg e : (p2 e * p2 (- e) == 1)%Q.
Proof. rewrite <- p2_add, Z.add_opp_diag_r. reflexivity. Qed.

#[global] Opaque p2.

(** Comparisons in units of [2^e]. *)
Lemma p2_scale_le x y e : (x <= y)%Q <-> (x * p2 e <= y * p2 e)%Q.
Proof. symmetry. apply Qmult_le_r, p2_pos. Qed.

Lemma p2_scale_lt x y e : (x < y)%Q <-> (x * p2 e < y * p2 e)%Q.
Proof. symmetry. apply Qmult_lt_r, p2_pos. Qed.

Lemma p2_unscale x e : (x * p2 (- e) * p2 e == x)%Q.
Proof. rewrite <- Qmult_assoc, (Qmult_comm (p2 (- e))), p2_neg. ring. Qed.

Lemma p2_shift x a b : (x * p2 a * p2 b == x * p2 (a + b))%Q.
Proof. rewrite p2_add. ring. Qed.

(** ** Digits *)

Lemma digits2_pos_bounds p : 2 ^ (Z.pos (digits2_pos p) - 1) <= Z.pos p < 2 ^ Z.pos (digits2_pos p).
Proof.
  induction p as [p IH|p IH|]; simpl digits2_pos; [| |done];
    rewrite Pos2Z.inj_succ, Z.pow_succ_r by lia;
    replace (Z.succ (Z.pos (digits2_pos p)) - 1) with (Z.succ (Z.pos (digits2_pos p) - 1)) by lia;
    rewrite Z.pow_succ_r by lia; lia.
Qed.

Lemma Zdigits2_bounds m : 0 <= m -> 0 <= Zdigits2 m /\ m < 2 ^ Zdigits2 m /\ (0 < m -> 2 ^ (Zdigits2 m - 1) <= m).
Proof.
  destruct m as [|p|p]; [done| |done]. intros _. simpl Zdigits2. pose proof (digits2_pos_bounds p). split; [lia|].
  split; [lia|]. intros _. lia.
Qed.

Lemma Zdigits2_le m n : 0 <= m -> m < 2 ^ n -> 0 <= n -> Zdigits2 m <= n.
Proof.
  intros Hm Hlt Hn. destruct (Zdigits2_bounds m Hm) as (H0 & _ & H). destruct (Z.eq_dec m 0) as [->|]; [done|].
  specialize (H ltac:(lia)). destruct (Z.le_gt_cases (Zdigits2 m) n) as [|Hgt]; [done|].
  assert (2 ^ n <= 2 ^ (Zdigits2 m - 1)) by (apply Z.pow_le_mono_r; lia). lia.
Qed.

Lemma Zdigits2_ge m n : 0 <= n -> 2 ^ n <= m -> n < Zdigits2 m.
Proof.
  intros Hn Hle. assert (0 < 2 ^ n) by (apply Z.pow_pos_nonneg; lia).
  destruct (Zdigits2_bounds m) as (H0 & Hlt & _); [lia|].
  destruct (Z.lt_ge_cases n (Zdigits2 m)) as [|Hge]; [done|].
  assert (2 ^ Zdigits2 m <= 2 ^ n) by (apply Z.pow_le_mono_r; lia). lia.
Qed.

#[local] Abbreviation fexp64 := (fexp 53 1024).

Lemma fexp64_eq e : fexp64 e = Z.max (e - 53) (-1074).
Proof. done. Qed.

(** ** Shifting to the right *)

(** The record stands for [v]: an integer part, then whether half of a unit and whether
    anything else is to be added. *)
Definition stands_for (r : shr_record) (v : Q) : Prop :=
  0 <= shr_m r /\
  match shr_r r, shr_s r with
  | false, false => v == inject_Z (shr_m r)
  | false, true => inject_Z (shr_m r) < v < inject_Z (shr_m r) + (1#2)
  | true, false => v == inject_Z (shr_m r) + (1#2)
  | true, true => inject_Z (shr_m r) + (1#2) < v < inject_Z (shr_m r) + 1
  end%Q.

Lemma stands_for_eq r v w : (v == w)%Q -> stands_for r v -> stands_for r w.
Proof. unfold stands_for. intros E [H1 H2]. split; [done|]. destruct (shr_r r), (shr_s r); lra. Qed.

Lemma shr_1_stands r v : stands_for r v -> stands_for (shr_1 r) (v * (1#2)).
Proof.
  destruct r as [m r s]. unfold stands_for. simpl. intros [Hm Hv].
  assert (forall p, inject_Z (Z.pos p~1) == 2 * inject_Z (Z.pos p) + 1)%Q as Ho by (intros p; unfold inject_Z, Qeq; simpl; lia).
  assert (forall p, inject_Z (Z.pos p~0) == 2 * inject_Z (Z.pos p))%Q as He by (intros p; unfold inject_Z, Qeq; simpl; lia).
  destruct m as [|[p|p|]|p]; [| | | |lia]; simpl; (split; [lia|]); destruct r, s; simpl in *;
    rewrite ?Ho, ?He in Hv; change (inject_Z 0) with 0%Q in *; change (inject_Z 1) with 1%Q in *; lra.
Qed.

Lemma iter_shr_stands p : forall r v, stands_for r v -> stands_for (SpecFloat.iter_pos shr_1 p r) (v * p2 (- Z.pos p)).
Proof.
  assert (p2 (-1) == 1#2)%Q as Hhalf by reflexivity.
  induction p as [p IH|p IH|]; intros r v Hr; simpl SpecFloat.iter_pos.
  - apply shr_1_stands, IH, IH in Hr. revert Hr. apply stands_for_eq.
    replace (- Z.pos p~1) with (-1 + - Z.pos p + - Z.pos p) by lia. rewrite !p2_add, Hhalf. ring.
  - apply IH, IH in Hr. revert Hr. apply stands_for_eq.
    replace (- Z.pos p~0) with (- Z.pos p + - Z.pos p) by lia. rewrite p2_add. ring.
  - apply shr_1_stands in Hr. revert Hr. by apply stands_for_eq.
Qed.

(** The integer that is nearest to [v]. *)
Definition nearest (v : Q) (n : Z) : Prop :=
  (Qabs (inject_Z n - v) <= 1#2)%Q /\ (forall k : Z, (inject_Z k <= v)%Q -> k <= n) /\
  (forall k : Z, (v <= inject_Z k)%Q -> n <= k).

Lemma between_integers m k v : (inject_Z m <= v < inject_Z m + 1)%Q ->
  ((inject_Z k <= v)%Q -> k <= m) /\ ((v <= inject_Z k)%Q -> m <= k) /\ ((inject_Z m < v)%Q -> (v <= inject_Z k)%Q -> m + 1 <= k).
Proof.
  intros [H1 H2]. assert (inject_Z m + 1 == inject_Z (m + 1))%Q as E by (rewrite inject_Z_plus; reflexivity).
  split; [|split]; intros Hk.
  - assert (inject_Z k < inject_Z (m + 1))%Q as Hlt by lra. rewrite <- Zlt_Qlt in Hlt. lia.
  - rewrite Zle_Qle. lra.
  - intros Hk'. assert (inject_Z m < inject_Z k)%Q as Hlt by lra. rewrite <- Zlt_Qlt in Hlt. lia.
Qed.

Lemma round_nearest r v :
  stands_for r v -> 0 <= round_nearest_even (shr_m r) (loc_of_shr_record r) /\
  nearest v (round_nearest_even (shr_m r) (loc_of_shr_record r)).
Proof.
  destruct r as [m r s]. unfold stands_for, nearest. simpl. intros [Hm Hv].
  assert (inject_Z (m + 1) == inject_Z m + 1)%Q as E by (by rewrite inject_Z_plus).
  assert (inject_Z m <= v < inject_Z m + 1)%Q as Hb by (destruct r, s; lra).
  pose proof (fun k => between_integers m k v Hb) as Hk.
  assert (forall n, (n = m /\ (v <= inject_Z m + (1#2))%Q \/ n = m + 1 /\ (inject_Z m + (1#2) <= v)%Q) ->
    0 <= n /\ (Qabs (inject_Z n - v) <= 1#2)%Q /\ (forall k : Z, (inject_Z k <= v)%Q -> k <= n) /\
    (forall k : Z, (v <= inject_Z k)%Q -> n <= k)) as H.
  { intros n [[-> Hn]|[-> Hn]]; (split; [lia|]); (split; [apply Qabs_Qle_condition; lra|]); split; intros k Hkv;
      destruct (Hk k) as (H1 & H2 & H3); [by apply H1|by apply H2|specialize (H1 Hkv); lia|apply H3; lra]. }
  apply H. destruct r, s; simpl; [|destruct (Z.even m)|..]; first [by left; split; [done|lra] | by right; split; [done|lra]].
Qed.

(** ** Rounding *)

Definition sf_real (f : spec_float) : Q :=
  match f with
  | S754_finite s m e => (if s then - (inject_Z (Z.pos m) * p2 e) else inject_Z (Z.pos m) * p2 e)%Q
  | _ => 0%Q
  end.

Definition sf_finite (f : spec_float) : Prop :=
  match f with
  | S754_zero _ => True
  | S754_finite _ m e => Z.pos m < 2^53 /\ -1074 <= e <= 971 /\ (e = -1074 \/ 2^52 <= Z.pos m)
  | _ => False
  end.

Definition signed (s : bool) (x : Q) : Q := if s then (- x)%Q else x.

#[export] Instance signed_proper : Proper (eq ==> Qeq ==> Qeq) signed.
Proof. intros s _ <- x y E. destruct s; cbn [signed]; by rewrite E. Qed.

Lemma shr_fexp_stands m ex l x :
  let e := fexp64 (Zdigits2 m + ex) in
  stands_for (shr_record_of_loc m l) (x * p2 (- ex)) -> ex <= e ->
  exists r, shr_fexp 53 1024 m ex l = (r, e) /\ stands_for r (x * p2 (- e)).
Proof.
  intros e Hs He. unfold shr_fexp. fold e. unfold shr. destruct (e - ex) as [|p|p] eqn:E; [| |lia].
  - replace e with ex by lia. by eexists.
  - eexists. split; [f_equal; lia|]. apply (iter_shr_stands p) in Hs. revert Hs. apply stands_for_eq.
    rewrite p2_shift. replace (- ex + - Z.pos p) with (- e) by lia. reflexivity.
Qed.

Lemma stands_for_floor r v : stands_for r v -> (inject_Z (shr_m r) <= v < inject_Z (shr_m r) + 1)%Q.
Proof. unfold stands_for. intros [_ H]. destruct (shr_r r), (shr_s r); lra. Qed.

Lemma shr_m_of_loc m l : shr_m (shr_record_of_loc m l) = m.
Proof. by destruct l as [|[]]. Qed.

(** The unit of the result for an exact value [x] that starts with the digits of [mx]. *)
Lemma rounding_unit mx ex lx x :
  let e := fexp64 (Zdigits2 mx + ex) in
  stands_for (shr_record_of_loc mx lx) (x * p2 (- ex)) -> ex <= e ->
  -1074 <= e /\ (e = -1074 \/ (p2 (e + 52) <= x)%Q) /\ (x * p2 (- e) <= inject_Z (2^53))%Q.
Proof.
  intros e Hs He. pose proof (stands_for_floor _ _ Hs) as [Hf1 Hf2]. destruct Hs as [Hm _].
  rewrite shr_m_of_loc in *. destruct (Zdigits2_bounds mx Hm) as (Hd & Hlt & Hge).
  pose proof (fexp64_eq (Zdigits2 mx + ex)) as Ee. fold e in Ee.
  assert (x <= p2 (Zdigits2 mx + ex))%Q as Hx.
  { apply (p2_scale_le _ _ (- ex)). rewrite <- p2_add. replace (Zdigits2 mx + ex + - ex) with (Zdigits2 mx) by lia.
    rewrite (p2_Z _ Hd). assert (inject_Z mx + 1 <= inject_Z (2 ^ Zdigits2 mx))%Q; [|lra].
    change 1%Q with (inject_Z 1). rewrite <- inject_Z_plus, <- Zle_Qle. lia. }
  split; [lia|]. split.
  - destruct (Z.eq_dec e (-1074)) as [|Hne]; [by left|]. right.
    assert (mx <> 0) as Hm0 by (intros ->; simpl in *; lia).
    apply (p2_scale_le _ _ (- ex)). rewrite <- p2_add. replace (e + 52 + - ex) with (Zdigits2 mx - 1) by lia.
    assert (0 < Zdigits2 mx) by (destruct mx; simpl; lia).
    rewrite (p2_Z (Zdigits2 mx - 1)) by lia. assert (inject_Z (2 ^ (Zdigits2 mx - 1)) <= inject_Z mx)%Q; [|lra].
    rewrite <- Zle_Qle. apply Hge. lia.
  - apply (p2_scale_le _ _ (- e)) in Hx. rewrite <- p2_add in Hx. eapply Qle_trans; [exact Hx|].
    rewrite <- (p2_Z 53) by done. apply p2_le. lia.
Qed.

(** The second normalisation, of the rounded mantissa. *)
Lemma renormalize s n e :
  0 <= n <= 2^53 -> -1074 <= e <= 970 -> (e = -1074 \/ 2^52 <= n) ->
  let '(mrs, e') := shr_fexp 53 1024 n e loc_Exact in
  let z := match shr_m mrs with
           | Z0 => S754_zero s
           | Zpos m => if e' <=? 1024 - 53 then S754_finite s m e' else S754_infinity s
           | _ => S754_nan
           end in
  sf_finite z /\ (sf_real z == signed s (inject_Z n * p2 e))%Q.
Proof.
  intros Hn He Hc. destruct (Z.eq_dec n (2^53)) as [->|Hne].
  - assert (shr_fexp 53 1024 (2^53) e loc_Exact = ({| shr_m := 4503599627370496; shr_r := false; shr_s := false |}, e + 1)) as ->.
    { unfold shr_fexp. change (Zdigits2 (2^53)) with 54. rewrite fexp64_eq.
      by replace (Z.max (54 + e - 53) (-1074) - e) with 1 by lia. }
    cbn [shr_m]. rewrite (proj2 (Z.leb_le _ _)) by lia. split; [simpl; lia|].
    assert (p2 (e + 1) == 2 * p2 e)%Q as E by (rewrite p2_add; assert (p2 1 == 2)%Q as -> by reflexivity; ring).
    assert (inject_Z (2^53) == 2 * inject_Z 4503599627370496)%Q as E2 by reflexivity.
    destruct s; cbn [sf_real signed]; rewrite E, E2; ring.
  - assert (Zdigits2 n <= 53) by (apply Zdigits2_le; lia).
    assert (shr_fexp 53 1024 n e loc_Exact = ({| shr_m := n; shr_r := false; shr_s := false |}, e)) as ->.
    { unfold shr_fexp, shr. rewrite fexp64_eq. simpl shr_record_of_loc.
      destruct (Z.max (Zdigits2 n + e - 53) (-1074) - e) eqn:E; [done|lia|done]. }
    simpl shr_m. destruct n as [|p|p]; [|rewrite (proj2 (Z.leb_le _ _)) by lia|lia].
    + split; [done|]. destruct s; simpl; unfold inject_Z; ring.
    + split; [simpl; lia|]. by destruct s.
Qed.

Lemma binary_round_aux_spec s mx ex lx x :
  stands_for (shr_record_of_loc mx lx) (x * p2 (- ex)) -> ex <= fexp64 (Zdigits2 mx + ex) -> (x <= p2 1000)%Q ->
  let z := binary_round_aux 53 1024 s mx ex lx in
  sf_finite z /\ exists n e, -1074 <= e /\ (e = -1074 \/ (p2 (e + 52) <= x)%Q) /\ nearest (x * p2 (- e)) n /\
    (sf_real z == signed s (inject_Z n * p2 e))%Q.
Proof.
  intros Hs He Hx. destruct (rounding_unit _ _ _ _ Hs He) as (He1 & He2 & Hx').
  destruct (shr_fexp_stands _ _ _ _ Hs He) as (r & Er & Hr). set (e := fexp64 (Zdigits2 mx + ex)) in *.
  unfold binary_round_aux. rewrite Er. destruct (round_nearest _ _ Hr) as [Hn0 Hn].
  set (n := round_nearest_even (shr_m r) (loc_of_shr_record r)) in *.
  assert (n <= 2^53) as Hn1 by (by apply Hn).
  assert (e <= 948) as He3.
  { destruct He2 as [->|H2]; [done|]. assert (p2 (e + 52) <= p2 1000)%Q as Hp by (eapply Qle_trans; done).
    destruct (Z.le_gt_cases e 948) as [|Hgt]; [done|]. exfalso.
    assert (p2 1001 <= p2 (e + 52))%Q as Hle by (apply p2_le; lia).
    assert (p2 1001 == 2 * p2 1000)%Q as E by (rewrite <- (p2_add 1 1000); reflexivity).
    pose proof (p2_pos 1000). lra. }
  assert (e = -1074 \/ 2^52 <= n) as Hc.
  { destruct He2 as [|H2]; [by left|]. right. apply Hn. apply (p2_scale_le _ _ (- e)) in H2.
    rewrite <- p2_add in H2. replace (e + 52 + - e) with 52 in H2 by lia. by rewrite (p2_Z 52) in H2. }
  pose proof (renormalize s n e ltac:(lia) ltac:(lia) Hc) as Hz.
  destruct (shr_fexp 53 1024 n e loc_Exact) as [mrs e'']. destruct Hz as [Hfin Hreal].
  split; [exact Hfin|]. exists n, e. by split_and!.
Qed.

(** ** The result is the nearest float *)

Lemma nearest_eq v w n : (v == w)%Q -> nearest v n -> nearest w n.
Proof.
  intros E (H1 & H2 & H3). split_and!; [by rewrite <- E| |]; intros k Hk; [apply H2|apply H3]; by rewrite E.
Qed.

Lemma nearest_integer k n : nearest (inject_Z k) n -> n = k.
Proof. intros (_ & H1 & H2). specialize (H1 k ltac:(apply Qle_refl)). specialize (H2 k ltac:(apply Qle_refl)). lia. Qed.

(** A multiple of a power of two with a mantissa of 53 bits, not below the least unit. *)
Definition representable (y : Q) : Prop :=
  exists k e, 0 <= k < 2^53 /\ -1074 <= e /\ (y == inject_Z k * p2 e)%Q.

Lemma sf_finite_representable w : sf_finite w -> exists s y, (0 <= y)%Q /\ representable y /\ (sf_real w == signed s y)%Q.
Proof.
  destruct w as [s| | |s m e]; try done.
  - intros _. exists false, 0%Q. split; [discriminate|]. split; [|reflexivity]. by exists 0, 0.
  - intros (Hm & He & _). exists s, (inject_Z (Z.pos m) * p2 e)%Q. split; [|split].
    + apply Qmult_le_0_compat; [by rewrite <- (Zle_Qle 0)|apply Qlt_le_weak, p2_pos].
    + exists (Z.pos m), e. split_and!; [lia..|reflexivity].
    + by destruct s.
Qed.

(** The unit [e] of a result for [x], and the multiple of it that is nearest. *)
Definition rounded_at (x : Q) (e n : Z) : Prop :=
  -1074 <= e /\ (e = -1074 \/ (p2 (e + 52) <= x)%Q) /\ nearest (x * p2 (- e)) n.

Lemma to_unit k ex e : e <= ex -> (inject_Z k * p2 ex * p2 (- e) == inject_Z (k * 2 ^ (ex - e)))%Q.
Proof.
  intros H. rewrite p2_shift. replace (ex + - e) with (ex - e) by lia.
  rewrite (p2_Z (ex - e)) by lia. by rewrite inject_Z_mult.
Qed.

Lemma below_unit k ex e : 0 <= k < 2^53 -> ex < e -> (inject_Z k * p2 ex < p2 (e + 52))%Q.
Proof.
  intros Hk He. apply Qlt_le_trans with (inject_Z (2^53) * p2 ex)%Q.
  - apply p2_scale_lt. rewrite <- Zlt_Qlt. lia.
  - rewrite <- (p2_Z 53) by done. rewrite <- p2_add. apply p2_le. lia.
Qed.

Lemma rounded_lower x e n y : rounded_at x e n -> representable y -> (y <= x)%Q -> (y <= inject_Z n * p2 e)%Q.
Proof.
  intros (He & Hc & Hn) (k & ex & Hk & Hex & Ey) Hy. rewrite Ey in *. clear Ey y.
  apply (p2_scale_le _ _ (- e)). rewrite (p2_shift (inject_Z n)), Z.add_opp_diag_r, Qmult_1_r.
  apply (p2_scale_le _ _ (- e)) in Hy. destruct (Z.le_gt_cases e ex) as [Hle|Hgt].
  - rewrite to_unit in * by done. rewrite <- Zle_Qle. by apply Hn.
  - destruct Hc as [->|Hc]; [lia|]. pose proof (below_unit k ex e Hk Hgt) as Hlt.
    apply (p2_scale_lt _ _ (- e)) in Hlt. rewrite <- p2_add in Hlt. apply (p2_scale_le _ _ (- e)) in Hc.
    rewrite <- p2_add in Hc. replace (e + 52 + - e) with 52 in * by lia. rewrite (p2_Z 52) in * by done.
    apply Qlt_le_weak. eapply Qlt_le_trans; [exact Hlt|]. rewrite <- Zle_Qle. by apply Hn.
Qed.

Lemma rounded_upper x e n y : rounded_at x e n -> representable y -> (x <= y)%Q -> (inject_Z n * p2 e <= y)%Q.
Proof.
  intros (He & Hc & Hn) (k & ex & Hk & Hex & Ey) Hy. rewrite Ey in *. clear Ey y.
  apply (p2_scale_le _ _ (- e)). rewrite (p2_shift (inject_Z n)), Z.add_opp_diag_r, Qmult_1_r.
  destruct (Z.le_gt_cases e ex) as [Hle|Hgt].
  - apply (p2_scale_le _ _ (- e)) in Hy. rewrite to_unit in * by done. rewrite <- Zle_Qle. by apply Hn.
  - destruct Hc as [->|Hc]; [lia|]. pose proof (below_unit k ex e Hk Hgt). lra.
Qed.

Lemma rounded_error x e n :
  (0 <= x)%Q -> rounded_at x e n ->
  (Qabs (inject_Z n * p2 e - x) <= (1 # (2^53)) * x)%Q \/
  e = -1074 /\ (Qabs (inject_Z n * p2 e - x) <= p2 (-1075))%Q.
Proof.
  intros Hx (He & Hc & Hn & _).
  assert (Qabs (inject_Z n * p2 e - x) <= p2 (e - 1))%Q as Herr.
  { rewrite <- (p2_unscale x e). set (v := (x * p2 (- e))%Q) in *.
    assert (inject_Z n * p2 e - v * p2 e == (inject_Z n - v) * p2 e)%Q as -> by ring.
    rewrite Qabs_Qmult, (Qabs_pos (p2 e)) by apply Qlt_le_weak, p2_pos.
    unfold Z.sub. rewrite p2_add, (Qmult_comm (p2 e)). by apply p2_scale_le. }
  destruct Hc as [->|Hc]; [by right|]. left. eapply Qle_trans; [exact Herr|].
  replace (e - 1) with (e + 52 + -53) by lia. rewrite p2_add, Qmult_comm.
  apply (Qmult_le_l _ _ (1 # (2^53))) in Hc; [|reflexivity]. exact Hc.
Qed.

Lemma signed_abs s x : (0 <= x)%Q -> (Qabs (signed s x) == x)%Q.
Proof. intros Hx. destruct s; cbn [signed]; [rewrite Qabs_opp|]; by apply Qabs_pos. Qed.

Lemma signed_sub_abs s a x : (Qabs (signed s a - signed s x) == Qabs (a - x))%Q.
Proof.
  destruct s; cbn [signed]; [|reflexivity]. assert (- a - - x == - (a - x))%Q as -> by ring. apply Qabs_opp.
Qed.

#[local] Abbreviation rounds64 := (rounds_to sf_real sf_finite (1 # (2^53))).

Lemma rounds64_nearest s x e n z v eta :
  (0 <= x)%Q -> rounded_at x e n -> sf_finite z -> (sf_real z == signed s (inject_Z n * p2 e))%Q ->
  (v == signed s x)%Q -> (0 <= eta)%Q ->
  ((p2 (-1075) <= eta)%Q \/ exists k, (x == inject_Z k * p2 (-1074))%Q) -> rounds64 eta v z.
Proof.
  intros Hx Hr Hz Ez Ev Heta Hex. split; [done|..].
  - rewrite Ez, Ev, signed_sub_abs, signed_abs by done. assert (0 <= (1 # (2^53)) * x)%Q by (by apply Qmult_le_0_compat).
    destruct (rounded_error x e n Hx Hr) as [He|[-> He]]; [lra|]. destruct Hex as [Hex|[k Hk]]; [lra|].
    destruct Hr as (_ & _ & Hn). apply (nearest_eq _ (inject_Z k)) in Hn.
    2: { rewrite Hk, p2_shift. change (p2 (-1074 + - -1074)) with (p2 0). change (p2 0) with 1%Q. ring. }
    apply nearest_integer in Hn as ->.
    assert (inject_Z k * p2 (-1074) - x == 0)%Q as -> by (rewrite Hk; ring). change (Qabs 0) with 0%Q. lra.
  - intros w Hw. rewrite Ez, Ev. destruct (sf_finite_representable w Hw) as (s' & y & Hy & Hrep & Ew). rewrite Ew.
    pose proof (rounded_lower x e n y Hr Hrep). pose proof (rounded_upper x e n y Hr Hrep).
    assert (0 <= inject_Z n * p2 e)%Q by (apply (rounded_lower x e n 0 Hr); [by exists 0, 0|done]).
    destruct s, s'; simpl; intros; lra.
  - intros w Hw. rewrite Ez, Ev. destruct (sf_finite_representable w Hw) as (s' & y & Hy & Hrep & Ew). rewrite Ew.
    pose proof (rounded_lower x e n y Hr Hrep). pose proof (rounded_upper x e n y Hr Hrep).
    assert (0 <= inject_Z n * p2 e)%Q by (apply (rounded_lower x e n 0 Hr); [by exists 0, 0|done]).
    destruct s, s'; simpl; intros; lra.
Qed.

(** ** The operations *)

Lemma huge_le : (huge <= p2 1000)%Q.
Proof. unfold huge. rewrite <- (p2_Z 200) by done. by apply p2_le. Qed.

Lemma tiny_le : (p2 (-1075) <= 1 # (2^200))%Q.
Proof. apply (p2_le (-1075) (-200)). lia. Qed.

Lemma round_aux_rounds s mx ex lx x v eta :
  (0 <= x)%Q -> stands_for (shr_record_of_loc mx lx) (x * p2 (- ex)) -> ex <= fexp64 (Zdigits2 mx + ex) ->
  (Qabs v <= huge)%Q -> (v == signed s x)%Q -> (0 <= eta)%Q ->
  ((p2 (-1075) <= eta)%Q \/ exists k, (x == inject_Z k * p2 (-1074))%Q) ->
  rounds64 eta v (binary_round_aux 53 1024 s mx ex lx).
Proof.
  intros Hx Hs He Hv Ev Heta Hex. rewrite Ev, signed_abs in Hv by done. pose proof huge_le.
  destruct (binary_round_aux_spec s mx ex lx x Hs He) as (Hz & n & e & H1 & H2 & H3 & Ez); [lra|].
  by eapply (rounds64_nearest s x e n).
Qed.

Lemma rounds64_zero eta v z : (v == 0)%Q -> (0 <= eta)%Q -> sf_finite z -> (sf_real z == 0)%Q -> rounds64 eta v z.
Proof.
  intros Ev Heta Hz Ez. split; [done|rewrite Ez, Ev; change (Qabs (0 - 0)) with 0%Q; change (Qabs 0) with 0%Q; lra|..];
    intros w _; rewrite Ez, Ev; done.
Qed.

(** A result that is exact. *)
Lemma rounds64_exact eta v z : (0 <= eta)%Q -> sf_finite z -> (sf_real z == v)%Q -> rounds64 eta v z.
Proof.
  intros Heta Hz Ez. split; [done|..].
  - assert (sf_real z - v == 0)%Q as -> by (rewrite Ez; ring). change (Qabs 0) with 0%Q.
    assert (0 <= (1 # (2^53)) * Qabs v)%Q by (apply Qmult_le_0_compat; [done|apply Qabs_nonneg]). lra.
  - intros w _ Hw. by rewrite Ez.
  - intros w _ Hw. by rewrite Ez.
Qed.

(** *** Alignment *)

Lemma iter_xO p d : Z.pos (Pos.iter xO p d) = Z.pos p * 2 ^ Z.pos d /\
  Z.pos (digits2_pos (Pos.iter xO p d)) = Z.pos (digits2_pos p) + Z.pos d.
Proof.
  induction d as [|d [IH1 IH2]] using Pos.peano_ind; [simpl; lia|]. rewrite Pos.iter_succ. simpl digits2_pos.
  rewrite !Pos2Z.inj_succ, IH2, Z.pow_succ_r by lia. rewrite (Pos2Z.inj_xO (Pos.iter _ _ _)), IH1. lia.
Qed.

Lemma shl_align_spec m e e' :
  let '(m', e1) := shl_align m e e' in
  e1 = Z.min e e' /\ Z.pos m' = Z.pos m * 2 ^ (e - e1) /\
  Z.pos (digits2_pos m') + e1 = Z.pos (digits2_pos m) + e.
Proof.
  unfold shl_align. destruct (e' - e) as [|d|d] eqn:E; [rewrite Z.sub_diag; lia..|].
  destruct (iter_xO m d) as [H1 H2]. rewrite H1, H2. replace (e - e') with (Z.pos d) by lia. lia.
Qed.

Lemma shl_align_fst m e e' : e' <= e -> Z.pos (fst (shl_align m e e')) = Z.pos m * 2 ^ (e - e').
Proof.
  intros H. pose proof (shl_align_spec m e e') as Hs. destruct (shl_align m e e') as [m' e1].
  destruct Hs as (E1 & E2 & _). cbn [fst]. by rewrite E2, E1, Z.min_r.
Qed.

(** An integer in units of [2^e]. *)
Lemma normalize_rounds m e szero v :
  -1074 <= e -> (v == inject_Z m * p2 e)%Q -> (Qabs v <= huge)%Q -> rounds64 0 v (binary_normalize 53 1024 m e szero).
Proof.
  intros He Ev Hv. assert (forall (s : bool) (p : positive), m = (if s then Z.neg p else Z.pos p) -> rounds64 0 v (binary_round 53 1024 s p e)) as H.
  { intros s p Em. unfold binary_round. set (x := (inject_Z (Z.pos p) * p2 e)%Q).
    assert (0 <= x)%Q as Hx by (apply Qmult_le_0_compat; [by rewrite <- (Zle_Qle 0)|apply Qlt_le_weak, p2_pos]).
    assert (v == signed s x)%Q as Evs.
    { rewrite Ev, Em. unfold x. destruct s; cbn [signed]; [|reflexivity]. change (Z.neg p) with (- Z.pos p).
      rewrite inject_Z_opp. ring. }
    pose proof (shl_align_spec p e (fexp64 (Z.pos (digits2_pos p) + e))) as Ha.
    destruct (shl_align p e _) as [m' e1]. destruct Ha as (Ee & Em' & Ed).
    apply (round_aux_rounds s (Z.pos m') e1 loc_Exact x); try done.
    - split; [simpl; lia|]. simpl. unfold x. rewrite p2_shift, Em', inject_Z_mult, <- (p2_Z (e - e1)) by lia. reflexivity.
    - change (Zdigits2 (Z.pos m')) with (Z.pos (digits2_pos m')). rewrite Ed. lia.
    - right. exists (Z.pos p * 2 ^ (e + 1074)). unfold x. rewrite inject_Z_mult, <- (p2_Z (e + 1074)), p2_shift by lia.
      by replace (e + 1074 + -1074) with e by lia. }
  destruct m as [|p|p]; cbn [binary_normalize].
  - apply rounds64_zero; [rewrite Ev; ring|done..].
  - by apply (H false).
  - by apply (H true).
Qed.

(** *** Sums *)

Lemma signed_mantissa s m e ez : ez <= e ->
  (signed s (inject_Z (Z.pos m) * p2 e) == inject_Z (cond_Zopp s (Z.pos (fst (shl_align m e ez)))) * p2 ez)%Q.
Proof.
  intros H. rewrite shl_align_fst by done.
  assert (inject_Z (Z.pos m) * p2 e == inject_Z (Z.pos m * 2 ^ (e - ez)) * p2 ez)%Q as ->.
  { rewrite inject_Z_mult, <- (p2_Z (e - ez)), p2_shift by lia. by replace (e - ez + ez) with e by lia. }
  destruct s; cbn [signed cond_Zopp]; [|reflexivity]. rewrite inject_Z_opp. ring.
Qed.

Lemma sf_real_signed s m e : (sf_real (S754_finite s m e) == signed s (inject_Z (Z.pos m) * p2 e))%Q.
Proof. by destruct s. Qed.

Lemma SFadd_rounds x y :
  sf_finite x -> sf_finite y -> (Qabs (sf_real x + sf_real y) <= huge)%Q ->
  rounds64 0 (sf_real x + sf_real y) (SFadd 53 1024 x y).
Proof.
  destruct x as [sx| | |sx mx ex], y as [sy| | |sy my ey]; try done; intros Hx Hy Hv; unfold SFadd.
  - by destruct sx, sy; apply rounds64_zero.
  - apply rounds64_exact; [done|done|]. change (sf_real (S754_zero sx)) with 0%Q. ring.
  - apply rounds64_exact; [done|done|]. change (sf_real (S754_zero sy)) with 0%Q. ring.
  - apply normalize_rounds; [simpl in *; lia| |done].
    rewrite !sf_real_signed, (signed_mantissa sx mx ex (Z.min ex ey)), (signed_mantissa sy my ey (Z.min ex ey)) by lia.
    rewrite inject_Z_plus. ring.
Qed.

Lemma SFsub_rounds x y :
  sf_finite x -> sf_finite y -> (Qabs (sf_real x - sf_real y) <= huge)%Q ->
  rounds64 0 (sf_real x - sf_real y) (SFsub 53 1024 x y).
Proof.
  destruct x as [sx| | |sx mx ex], y as [sy| | |sy my ey]; try done; intros Hx Hy Hv; unfold SFsub.
  - by destruct sx, sy; apply rounds64_zero.
  - apply rounds64_exact; [done|done|]. change (sf_real (S754_zero sx)) with 0%Q. rewrite !sf_real_signed.
    destruct sy; cbn [negb signed]; ring.
  - apply rounds64_exact; [done|done|]. change (sf_real (S754_zero sy)) with 0%Q. ring.
  - apply normalize_rounds; [simpl in *; lia| |done].
    rewrite !sf_real_signed, (signed_mantissa sx mx ex (Z.min ex ey)), (signed_mantissa sy my ey (Z.min ex ey)) by lia.
    unfold Z.sub. rewrite inject_Z_plus, inject_Z_opp. ring.
Qed.

(** *** Products *)

Lemma signed_mul s1 s2 x y : (signed s1 x * signed s2 y == signed (xorb s1 s2) (x * y))%Q.
Proof. destruct s1, s2; cbn [signed xorb]; ring. Qed.

Lemma mantissa_nonneg m e : (0 <= inject_Z (Z.pos m) * p2 e)%Q.
Proof. apply Qmult_le_0_compat; [by rewrite <- (Zle_Qle 0)|apply Qlt_le_weak, p2_pos]. Qed.

(** A mantissa of 53 bits, or an exponent that cannot be lowered, leaves nothing to align. *)
Lemma enough_digits q e : 0 <= q -> (e <= -1074 \/ 2^52 <= q) -> e <= fexp64 (Zdigits2 q + e).
Proof.
  intros Hq Hc. rewrite fexp64_eq. destruct Hc as [|H]; [lia|]. apply (Zdigits2_ge q 52) in H; lia.
Qed.

Lemma SFmul_rounds x y :
  sf_finite x -> sf_finite y -> (Qabs (sf_real x * sf_real y) <= huge)%Q ->
  rounds64 (p2 (-1075)) (sf_real x * sf_real y) (SFmul 53 1024 x y).
Proof.
  assert (0 <= p2 (-1075))%Q as Heta by apply Qlt_le_weak, p2_pos.
  destruct x as [sx| | |sx mx ex], y as [sy| | |sy my ey]; try done; intros Hx Hy Hv; unfold SFmul;
    [apply rounds64_zero; try done; cbn [sf_real]; ring..|].
  set (v := (sf_real _ * sf_real _)%Q) in *.
  apply (round_aux_rounds _ _ _ _ ((inject_Z (Z.pos mx) * p2 ex) * (inject_Z (Z.pos my) * p2 ey))%Q); try done.
  - apply Qmult_le_0_compat; apply mantissa_nonneg.
  - split; [done|]. cbn. rewrite Pos2Z.inj_mul, inject_Z_mult.
    assert (p2 (- (ex + ey)) == p2 (- ex) * p2 (- ey))%Q as -> by (rewrite <- p2_add; by replace (- (ex + ey)) with (- ex + - ey) by lia).
    transitivity (inject_Z (Z.pos mx) * inject_Z (Z.pos my) * (p2 ex * p2 (- ex)) * (p2 ey * p2 (- ey)))%Q; [ring|].
    rewrite !p2_neg. ring.
  - apply enough_digits; [done|]. cbn [sf_finite] in Hx, Hy. rewrite Pos2Z.inj_mul. nia.
  - unfold v. rewrite !sf_real_signed. apply signed_mul.
  - left. apply Qle_refl.
Qed.

(** *** Quotients *)

Lemma new_location_eq my r :
  new_location my r =
    if r =? 0 then loc_Exact
    else loc_Inexact (if Z.even my then 2 * r ?= my else match 2 * r + 1 ?= my with Gt => Gt | _ => Lt end).
Proof.
  unfold new_location, new_location_even, new_location_odd.
  destruct r, (Z.even my) eqn:E; unfold Z.even in E; rewrite ?E; try done; by destruct (_ ?= _).
Qed.

Lemma new_location_stands my q r :
  0 < my -> 0 <= q -> 0 <= r < my ->
  stands_for (shr_record_of_loc q (new_location my r)) (inject_Z q + inject_Z r / inject_Z my).
Proof.
  intros Hmy Hq Hr. assert (0 < inject_Z my)%Q as Hmy' by (by rewrite <- (Zlt_Qlt 0)).
  set (f := (inject_Z r / inject_Z my)%Q). assert (f * inject_Z my == inject_Z r)%Q as Ef by (unfold f; field; lra).
  assert (forall a, (inject_Z r < a * inject_Z my -> f < a)%Q) as Hlt by (intros a Ha; apply (Qmult_lt_r _ _ (inject_Z my)); [done|]; by rewrite Ef).
  assert (forall a, (a * inject_Z my < inject_Z r -> a < f)%Q) as Hgt by (intros a Ha; apply (Qmult_lt_r _ _ (inject_Z my)); [done|]; by rewrite Ef).
  assert (f < 1)%Q as H1 by (apply Hlt; rewrite Qmult_1_l, <- Zlt_Qlt; lia).
  assert (0 <= f)%Q as H0 by (apply Qle_shift_div_l; [done|]; rewrite Qmult_0_l, <- (Zle_Qle 0); lia).
  assert (2 * r < my -> (f < 1#2)%Q) as Hlo.
  { intros H. apply Hlt. assert (inject_Z (2 * r) < inject_Z my)%Q by (by rewrite <- Zlt_Qlt). rewrite inject_Z_mult in *. change (inject_Z 2) with 2%Q in *. lra. }
  assert (my < 2 * r -> (1#2 < f)%Q) as Hhi.
  { intros H. apply Hgt. assert (inject_Z my < inject_Z (2 * r))%Q by (by rewrite <- Zlt_Qlt). rewrite inject_Z_mult in *. change (inject_Z 2) with 2%Q in *. lra. }
  assert (0 < r -> (0 < f)%Q) as Hpos by (intros H; apply Hgt; rewrite Qmult_0_l, <- (Zlt_Qlt 0); lia).
  assert (2 * r = my -> (f == 1#2)%Q) as Hmid.
  { intros <-. unfold f. rewrite inject_Z_mult. change (inject_Z 2) with 2%Q. field.
    intros E. apply (f_equal (fun _ => 0)) in Hmy'. assert (inject_Z (2 * r) == 0)%Q as E0 by (rewrite inject_Z_mult, E; ring).
    change 0%Q with (inject_Z 0) in E0. rewrite inject_Z_injective in E0. lia. }
  unfold stands_for. rewrite shr_m_of_loc. split; [done|].
  rewrite new_location_eq. destruct (Z.eqb_spec r 0) as [->|Hr0].
  { assert (f == 0)%Q by (unfold f; change (inject_Z 0) with 0%Q; field; lra).
    destruct (Z.even my); cbn [Z.eqb shr_record_of_loc shr_r shr_s]; lra. }
  assert (0 < r) as Hr1 by lia. apply Hpos in Hr1. destruct (Z.even my) eqn:Ev.
  - destruct (Z.compare_spec (2 * r) my) as [E|E|E]; cbn [shr_record_of_loc shr_r shr_s];
      [apply Hmid in E|apply Hlo in E|apply Hhi in E]; lra.
  - assert (2 * r <> my) as Hne by (intros <-; by rewrite Z.even_mul in Ev).
    destruct (Z.compare_spec (2 * r + 1) my) as [E|E|E]; cbn [shr_record_of_loc shr_r shr_s];
      [assert (f < 1#2)%Q by (apply Hlo; lia)|assert (f < 1#2)%Q by (apply Hlo; lia)|assert (1#2 < f)%Q by (apply Hhi; lia)]; lra.
Qed.

Lemma SFdiv_core_spec mx ex my ey :
  let '(q, e, l) := SFdiv_core_binary 53 1024 (Z.pos mx) ex (Z.pos my) ey in
  0 <= q /\ (e <= -1074 \/ 2^52 <= q) /\
  stands_for (shr_record_of_loc q l) (inject_Z (Z.pos mx) * p2 ex / (inject_Z (Z.pos my) * p2 ey) * p2 (- e)).
Proof.
  unfold SFdiv_core_binary. set (k := Zdigits2 (Z.pos mx) + ex - (Zdigits2 (Z.pos my) + ey)).
  set (e := Z.min (fexp64 k) (ex - ey)). assert (0 <= ex - ey - e) as Hs by lia.
  set (m' := Z.pos mx * 2 ^ (ex - ey - e)).
  replace (match ex - ey - e with Z0 => Z.pos mx | Zpos _ => Z.shiftl (Z.pos mx) (ex - ey - e) | Zneg _ => 0 end) with m'
    by (unfold m'; destruct (ex - ey - e) eqn:E; [lia|symmetry; by apply Z.shiftl_mul_pow2|lia]).
  pose proof (Z_div_mod m' (Z.pos my) eq_refl) as Hdiv. destruct (Z.div_eucl m' (Z.pos my)) as [q r].
  destruct Hdiv as [Em Hr]. assert (0 < 2 ^ (ex - ey - e)) as Hp by (by apply Z.pow_pos_nonneg).
  assert (0 <= q) as Hq by nia. split; [done|]. split.
  - destruct (Z.le_gt_cases e (-1074)) as [|He]; [by left|]. right. assert (e <= k - 53) as Hk by (pose proof (fexp64_eq k); assert (e <= fexp64 k) by (unfold e; lia); lia).
    destruct (Zdigits2_bounds (Z.pos mx) ltac:(lia)) as (_ & _ & Hx). specialize (Hx eq_refl).
    destruct (Zdigits2_bounds (Z.pos my) ltac:(lia)) as (Hy0 & Hy & _).
    assert (0 < Zdigits2 (Z.pos mx)) as Hx0 by done.
    assert (2^52 * Z.pos my <= m') as Hle; [|destruct (Z.le_gt_cases (2^52) q); [done|nia]].
    transitivity (2 ^ (52 + Zdigits2 (Z.pos my))); [rewrite Z.pow_add_r by lia; nia|].
    transitivity (2 ^ (Zdigits2 (Z.pos mx) - 1 + (ex - ey - e))); [apply Z.pow_le_mono_r; unfold k in Hk; lia|].
    rewrite Z.pow_add_r by lia. unfold m'. nia.
  - pose proof (new_location_stands (Z.pos my) q r ltac:(lia) Hq Hr) as H. revert H. apply stands_for_eq.
    assert (0 < inject_Z (Z.pos my))%Q as Hmy by done. pose proof (p2_pos ey) as Hey.
    assert (inject_Z (Z.pos my) * inject_Z q + inject_Z r == inject_Z (Z.pos mx) * p2 (ex - ey - e))%Q as E.
    { rewrite (p2_Z (ex - ey - e)) by done. rewrite <- !inject_Z_mult, <- inject_Z_plus. by rewrite <- Em. }
    transitivity ((inject_Z (Z.pos mx) * p2 (ex - ey - e)) / inject_Z (Z.pos my))%Q; [rewrite <- E; field; lra|].
    replace (ex - ey - e) with (ex + - ey + - e) by lia. rewrite !p2_add.
    assert (p2 (- ey) == / p2 ey)%Q as ->; [|field; lra].
    apply (Qmult_inj_r _ _ (p2 ey)); [lra|]. rewrite (Qmult_comm (p2 (- ey))), p2_neg. field. lra.
Qed.

Lemma signed_div s1 s2 x y : ~ (y == 0)%Q -> (signed s1 x / signed s2 y == signed (xorb s1 s2) (x / y))%Q.
Proof. intros Hy. destruct s1, s2; cbn [signed xorb]; field; try done; intros E; apply Hy; lra. Qed.

Lemma SFdiv_rounds x y :
  sf_finite x -> sf_finite y -> ~ (sf_real y == 0)%Q -> (Qabs (sf_real x / sf_real y) <= huge)%Q ->
  rounds64 (p2 (-1075)) (sf_real x / sf_real y) (SFdiv 53 1024 x y).
Proof.
  assert (0 <= p2 (-1075))%Q as Heta by apply Qlt_le_weak, p2_pos.
  destruct x as [sx| | |sx mx ex], y as [sy| | |sy my ey]; try done; intros Hx Hy Hne Hv; unfold SFdiv;
    try (by destruct Hne).
  { by apply rounds64_zero. }
  set (v := (sf_real _ / sf_real _)%Q) in *. pose proof (SFdiv_core_spec mx ex my ey) as Hc.
  destruct (SFdiv_core_binary 53 1024 (Z.pos mx) ex (Z.pos my) ey) as [[q e] l]. destruct Hc as (Hq & Hc & Hs).
  assert (0 < inject_Z (Z.pos my) * p2 ey)%Q as Hy0 by (apply Qmult_lt_0_compat; [done|apply p2_pos]).
  eapply (round_aux_rounds _ _ _ _ _); [|exact Hs|by apply enough_digits|done| |done|left; apply Qle_refl].
  - apply Qle_shift_div_l; [done|]. rewrite Qmult_0_l. apply mantissa_nonneg.
  - unfold v. rewrite !sf_real_signed. apply signed_div. lra.
Qed.

(** *** Comparisons *)

Lemma magnitude_compare m1 e1 m2 e2 :
  sf_finite (S754_finite false m1 e1) -> sf_finite (S754_finite false m2 e2) ->
  match e1 ?= e2 with Eq => Pos.compare_cont Eq m1 m2 | c => c end =
  (inject_Z (Z.pos m1) * p2 e1 ?= inject_Z (Z.pos m2) * p2 e2)%Q.
Proof.
  assert (forall m e m' e', sf_finite (S754_finite false m e) -> sf_finite (S754_finite false m' e') -> e < e' ->
    (inject_Z (Z.pos m) * p2 e < inject_Z (Z.pos m') * p2 e')%Q) as Hlt.
  { intros m e m' e' (Hm & He & _) (Hm' & He' & Hc) Hlt. destruct Hc as [->|Hc]; [lia|].
    eapply Qlt_le_trans; [apply (below_unit (Z.pos m) e e'); lia|].
    rewrite Z.add_comm, p2_add, (p2_Z 52) by done. apply p2_scale_le. by rewrite <- Zle_Qle. }
  intros H1 H2. symmetry. destruct (Z.compare_spec e1 e2) as [<-|Hc|Hc].
  - change (Pos.compare_cont Eq m1 m2) with (Z.pos m1 ?= Z.pos m2).
    destruct (Z.compare_spec (Z.pos m1) (Z.pos m2)) as [E|E|E].
    + apply (proj1 (Qeq_alt _ _)). by rewrite E.
    + apply (proj1 (Qlt_alt _ _)), p2_scale_lt. by rewrite <- Zlt_Qlt.
    + apply (proj1 (Qgt_alt _ _)), p2_scale_lt. by rewrite <- Zlt_Qlt.
  - apply (proj1 (Qlt_alt _ _)). by apply Hlt.
  - apply (proj1 (Qgt_alt _ _)). by apply Hlt.
Qed.

Lemma SFcompare_real x y : sf_finite x -> sf_finite y -> SFcompare x y = Some (sf_real x ?= sf_real y)%Q.
Proof.
  assert (forall m e, (0 < inject_Z (Z.pos m) * p2 e)%Q) as Hpos by (intros m e; apply Qmult_lt_0_compat; [done|apply p2_pos]).
  destruct x as [sx| | |sx mx ex], y as [sy| | |sy my ey]; try done; intros Hx Hy; cbn [SFcompare]; f_equal; symmetry.
  - cbn [sf_real]. generalize (Hpos my ey). generalize (inject_Z (Z.pos my) * p2 ey)%Q. intros b Hb.
    destruct sy; [apply (proj1 (Qgt_alt _ _))|apply (proj1 (Qlt_alt _ _))]; lra.
  - cbn [sf_real]. generalize (Hpos mx ex). generalize (inject_Z (Z.pos mx) * p2 ex)%Q. intros a Ha.
    destruct sx; [apply (proj1 (Qlt_alt _ _))|apply (proj1 (Qgt_alt _ _))]; lra.
  - pose proof (magnitude_compare mx ex my ey Hx Hy) as Hm. pose proof (Hpos mx ex). pose proof (Hpos my ey). cbn [sf_real].
    set (a := (inject_Z (Z.pos mx) * p2 ex)%Q) in *. set (b := (inject_Z (Z.pos my) * p2 ey)%Q) in *.
    destruct sx, sy; [|apply (proj1 (Qlt_alt _ _)); lra|apply (proj1 (Qgt_alt _ _)); lra|by rewrite <- Hm].
    assert (((- a) ?= (- b)) = (b ?= a))%Q as ->.
    { destruct (b ?= a)%Q eqn:E; [apply Qeq_alt in E; apply (proj1 (Qeq_alt _ _))|apply Qlt_alt in E; apply (proj1 (Qlt_alt _ _))|apply Qgt_alt in E; apply (proj1 (Qgt_alt _ _))]; lra. }
    rewrite <- Qcompare_antisym, <- Hm. by destruct (ex ?= ey).
Qed.

(** *** Integers *)

Lemma integer_float z : Z.abs z < 2^53 -> exists w, sf_finite w /\ (sf_real w == inject_Z z)%Q.
Proof.
  assert (forall s p, Z.pos p < 2^53 -> exists w, sf_finite w /\ (sf_real w == signed s (inject_Z (Z.pos p)))%Q) as H.
  { intros s p Hp. set (d := 53 - Z.pos (digits2_pos p)). pose proof (digits2_pos_bounds p) as [Hb1 Hb2].
    assert (0 <= d) as Hd by (unfold d; apply (Zdigits2_le (Z.pos p) 53) in Hp; simpl Zdigits2 in *; lia).
    assert (0 < 2 ^ d) as Hpd by (by apply Z.pow_pos_nonneg).
    exists (S754_finite s (Z.to_pos (Z.pos p * 2 ^ d)) (- d)).
    assert (Z.pos (Z.to_pos (Z.pos p * 2 ^ d)) = Z.pos p * 2 ^ d) as Ez by (apply Z2Pos.id; lia).
    split.
    - cbn [sf_finite]. rewrite Ez. split_and!; [|unfold d; lia..|right].
      + apply Z.lt_le_trans with (2 ^ Z.pos (digits2_pos p) * 2 ^ d); [nia|].
        rewrite <- Z.pow_add_r by lia. apply Z.pow_le_mono_r; unfold d; lia.
      + transitivity (2 ^ (Z.pos (digits2_pos p) - 1) * 2 ^ d); [|nia].
        rewrite <- Z.pow_add_r by lia. apply Z.pow_le_mono_r; unfold d; lia.
    - rewrite sf_real_signed, Ez, inject_Z_mult, <- (p2_Z d), p2_shift by done.
      rewrite Z.add_opp_diag_r, Qmult_1_r. reflexivity. }
  destruct z as [|p|p]; intros Hz.
  - by exists (S754_zero false).
  - by apply (H false).
  - destruct (H true p) as (w & Hw & Ew); [lia|]. exists w. split; [done|]. rewrite Ew. reflexivity.
Qed.

Lemma normalize_integer z szero : Z.abs z < 2^53 ->
  sf_finite (binary_normalize 53 1024 z 0 szero) /\ (sf_real (binary_normalize 53 1024 z 0 szero) == inject_Z z)%Q.
Proof.
  intros Hz. assert (Qabs (inject_Z z) <= huge)%Q as Hh.
  { apply Qabs_Qle_condition. unfold huge. rewrite <- inject_Z_opp, <- !Zle_Qle. lia. }
  destruct (normalize_rounds z 0 szero (inject_Z z)) as [Hf _ Hlo Hup]; [done| |done|].
  { change (p2 0) with 1%Q. ring. }
  split; [done|]. destruct (integer_float z Hz) as (w & Hw & Ew).
  specialize (Hlo w Hw). specialize (Hup w Hw). rewrite Ew in *. apply Qle_antisym; [apply Hup|apply Hlo]; apply Qle_refl.
Qed.

#[export] Program Instance binary64_rounded : Rounded spec_float :=
  {| real := sf_real; fin := sf_finite; rel_err := 1 # (2^53); abs_err := p2 (-1075) |}.
Next Obligation. split; [discriminate|apply Qle_refl]. Qed.
Next Obligation. split; [apply Qlt_le_weak, p2_pos|apply tiny_le]. Qed.
Next Obligation. intros. by apply SFadd_rounds. Qed.
Next Obligation. intros. by apply SFsub_rounds. Qed.
Next Obligation. intros. by apply SFmul_rounds. Qed.
Next Obligation. intros. by apply SFdiv_rounds. Qed.
Next Obligation.
  cbn. unfold SFltb. rewrite SFcompare_real, Qlt_alt by done. by destruct (sf_real x ?= sf_real y)%Q.
Qed.
Next Obligation.
  cbn. unfold SFleb. rewrite SFcompare_real, Qle_alt by done. by destruct (sf_real x ?= sf_real y)%Q.
Qed.
Next Obligation. by apply normalize_integer. Qed.
