(* ===== verification/Refill.v ===== *)
(** * Token buckets in arithmetic that rounds

    The rate limiter and the connection throttle refill their buckets alike: the time
    that has passed, in seconds, times the rate is added, and the sum is clamped at the
    capacity. [refill_real] bounds what floating point makes of it: the tokens never
    drop and never exceed the capacity, and a refill adds at most a fraction of [2^-50]
    of what accrued, and of [2^-52] of the largest magnitude in sight, too much. *)
From S2P Require Import Prelude GoFloat.
Open Scope Z_scope.

(** ** What accrues over time *)

(** The tokens that accrue between two instants. *)
Definition accrued (rate : Q) (t0 t1 : Z) : Q :=
  (rate * (inject_Z (t1 - t0) / inject_Z Second))%Q.

(** Instants in order, none before [t0]. *)
Fixpoint ordered (t0 : Z) (times : list Z) : Prop :=
  match times with
  | [] => True
  | t :: times => t0 <= t /\ ordered t times
  end.

Fixpoint last_time (t0 : Z) (times : list Z) : Z :=
  match times with
  | [] => t0
  | t :: times => last_time t times
  end.

Lemma accrued_trans rate t0 t1 t2 :
  (accrued rate t0 t2 == accrued rate t0 t1 + accrued rate t1 t2)%Q.
Proof.
  unfold accrued. replace (t2 - t0) with ((t1 - t0) + (t2 - t1)) by lia.
  rewrite inject_Z_plus. field. unfold Second. discriminate.
Qed.

Lemma accrued_refl rate t : (accrued rate t t == 0)%Q.
Proof. unfold accrued. rewrite Z.sub_diag. change (inject_Z 0) with 0%Q. unfold Qdiv. ring. Qed.

Lemma ordered_app t0 l1 l2 : ordered t0 (l1 ++ l2) <-> ordered t0 l1 /\ ordered (last_time t0 l1) l2.
Proof. revert t0. induction l1 as [|t l1 IH]; intros t0; simpl; [tauto|]. rewrite IH. tauto. Qed.

Lemma ordered_last t0 l : ordered t0 l -> t0 <= last_time t0 l.
Proof. revert t0. induction l as [|t l IH]; intros t0; simpl; [done|]. intros [H1 H2]. specialize (IH t H2). lia. Qed.

(** ** One operation *)

(** The powers of two of the statements, as [lra] reads them. *)
Ltac powers :=
  change (1 # (2^49))%Q with (1 # 562949953421312)%Q in *;
  change (1 # (2^50))%Q with (1 # 1125899906842624)%Q in *;
  change (1 # (2^51))%Q with (1 # 2251799813685248)%Q in *;
  change (1 # (2^52))%Q with (1 # 4503599627370496)%Q in *;
  change (1 # (2^53))%Q with (1 # 9007199254740992)%Q in *;
  change (1 # (2^200))%Q with (1 # 1606938044258990275541962092341162602522202993782792835301376)%Q in *;
  change huge with (1606938044258990275541962092341162602522202993782792835301376 # 1)%Q in *.

Section Rounded.
Context {F : Type} {GF : GoFloat F} {RF : Rounded F}.

#[local] Abbreviation rounds := (rounds_to real fin rel_err).

Lemma rounds_near abs v r :
  rounds abs v r -> (Qabs (real r - v) <= (1 # (2^53)) * Qabs v + abs)%Q.
Proof.
  intros [_ He _ _]. pose proof (Qabs_nonneg v). destruct rel_err_bound as [_ Hr].
  assert (rel_err * Qabs v <= (1 # (2^53)) * Qabs v)%Q by (by apply Qmult_le_compat_r). lra.
Qed.

(** The result, between its bounds. *)
Lemma rounds_pos abs v r :
  rounds abs v r -> (0 <= v)%Q -> (abs <= 1 # (2^200))%Q ->
  (v - (1 # (2^53)) * v - (1 # (2^200)) <= real r <= v + (1 # (2^53)) * v + (1 # (2^200)))%Q.
Proof.
  intros Hr Hv Ha. apply rounds_near in Hr. rewrite (Qabs_pos v Hv), Qabs_Qle_condition in Hr. powers. lra.
Qed.

(** A sum is off by a fraction of any bound on its magnitude. *)
Lemma rounds_bounded v r B :
  rounds 0 v r -> (- B <= v <= B)%Q -> (v - (1 # (2^53)) * B <= real r <= v + (1 # (2^53)) * B)%Q.
Proof.
  intros Hr Hv. apply rounds_near in Hr. rewrite Qabs_Qle_condition in Hr.
  assert (Qabs v <= B)%Q by (by apply Qabs_Qle_condition). powers. lra.
Qed.

Lemma rounds_ge z abs v r : rounds abs v r -> Z.abs z < 2^53 -> (inject_Z z <= v)%Q -> (inject_Z z <= real r)%Q.
Proof. intros [_ _ Hl _] Hz Hv. destruct (f_of_Z_real z Hz) as [Hf E]. rewrite <- E in *. by apply Hl. Qed.

Lemma rounds_le z abs v r : rounds abs v r -> Z.abs z < 2^53 -> (v <= inject_Z z)%Q -> (real r <= inject_Z z)%Q.
Proof. intros [_ _ _ Hu] Hz Hv. destruct (f_of_Z_real z Hz) as [Hf E]. rewrite <- E in *. by apply Hu. Qed.

Lemma rounds_integer z abs v r : rounds abs v r -> Z.abs z < 2^53 -> (v == inject_Z z)%Q -> (real r == inject_Z z)%Q.
Proof.
  intros Hr Hz E. apply Qle_antisym; [eapply rounds_le|eapply rounds_ge]; try done; rewrite E; apply Qle_refl.
Qed.

Lemma not_huge v : (-(10000000000000000000000000000000000000000) <= v <= 10000000000000000000000000000000000000000)%Q ->
  (Qabs v <= huge)%Q.
Proof. intros H. apply Qabs_Qle_condition. powers. lra. Qed.

Lemma abs_err_tiny : (abs_err <= 1 # (2^200))%Q.
Proof. apply abs_err_bound. Qed.

(** A quotient of two integers is off by a fraction of itself. *)
Lemma div_integers a b :
  0 <= a < 2^53 -> 0 < b < 2^53 ->
  let v := (inject_Z a / inject_Z b)%Q in
  fin (f_of_Z a / f_of_Z b)%F /\
  (0 <= real (f_of_Z a / f_of_Z b)%F /\
   v - (1 # (2^52)) * v <= real (f_of_Z a / f_of_Z b)%F <= v + (1 # (2^52)) * v)%Q.
Proof.
  intros Ha Hb v. destruct (f_of_Z_real a) as [Hfa Ea]; [lia|]. destruct (f_of_Z_real b) as [Hfb Eb]; [lia|].
  assert (1 <= inject_Z b <= 9007199254740992)%Q as Hb' by (change 1%Q with (inject_Z 1); change 9007199254740992%Q with (inject_Z (2^53)); rewrite <- !Zle_Qle; lia).
  assert (0 <= inject_Z a <= 9007199254740992)%Q as Ha' by (change 0%Q with (inject_Z 0); change 9007199254740992%Q with (inject_Z (2^53)); rewrite <- !Zle_Qle; lia).
  assert (v * inject_Z b == inject_Z a)%Q as Ev by (unfold v; field; lra).
  assert (0 <= v)%Q as Hv0 by (apply Qle_shift_div_l; lra).
  assert (v <= inject_Z a)%Q as Hva by (apply Qle_shift_div_r; [lra|nra]).
  assert (rounds abs_err v (f_of_Z a / f_of_Z b)%F) as Hr.
  { destruct (fdiv_rounds (f_of_Z a) (f_of_Z b)) as [H1 H2 H3 H4]; [done|done|rewrite Eb; lra|rewrite Ea, Eb; apply not_huge; fold v; lra|].
    split; [done|..]; [unfold v; rewrite <- Ea, <- Eb; done|unfold v; intros x Hx; rewrite <- Ea, <- Eb; by apply H3
      |unfold v; intros x Hx; rewrite <- Ea, <- Eb; by apply H4]. }
  split; [apply Hr|]. split; [by apply (rounds_ge 0 _ _ _ Hr)|].
  destruct (Z.eq_dec a 0) as [->|Ha0].
  - assert (v == 0)%Q as Ev0 by (unfold v; change (inject_Z 0) with 0%Q; field; lra).
    pose proof (rounds_integer 0 _ _ _ Hr eq_refl Ev0) as E. change (inject_Z 0) with 0%Q in E. powers. lra.
  - assert (1 <= inject_Z a)%Q as Ha1 by (change 1%Q with (inject_Z 1); rewrite <- Zle_Qle; lia).
    assert (1 # (2^53) <= v)%Q by (apply Qle_shift_div_l; [lra|powers; lra]).
    pose proof (rounds_pos _ _ _ Hr Hv0 abs_err_tiny). powers. lra.
Qed.

(** Products and quotients of integers that are integers are exact. *)
Definition is_int (x : F) (z : Z) : Prop := fin x /\ (real x == inject_Z z)%Q.

Lemma is_int_of_Z z : Z.abs z < 2^53 -> is_int (f_of_Z z) z.
Proof. apply f_of_Z_real. Qed.

Lemma int_not_huge z : Z.abs z < 2^53 -> (Qabs (inject_Z z) <= huge)%Q.
Proof.
  intros Hz. apply Qabs_Qle_condition. unfold huge. rewrite <- inject_Z_opp, <- !Zle_Qle. lia.
Qed.

Lemma is_int_mul x y z w : is_int x z -> is_int y w -> Z.abs (z * w) < 2^53 -> is_int (x * y)%F (z * w).
Proof.
  intros [Hx Ex] [Hy Ey] Hz. assert (real x * real y == inject_Z (z * w))%Q as E by (by rewrite Ex, Ey, inject_Z_mult).
  assert (rounds abs_err (real x * real y) (x * y)%F) as Hr by (apply fmul_rounds; [done|done|rewrite E; by apply int_not_huge]).
  split; [apply Hr|]. by eapply rounds_integer.
Qed.

Lemma is_int_div x y z w : is_int x (z * w) -> is_int y w -> w <> 0 -> Z.abs z < 2^53 -> is_int (x / y)%F z.
Proof.
  intros [Hx Ex] [Hy Ey] Hw Hz.
  assert (~ (inject_Z w == 0)%Q) as Hw' by (change 0%Q with (inject_Z 0); by rewrite inject_Z_injective).
  assert (real x / real y == inject_Z z)%Q as E by (rewrite Ex, Ey, inject_Z_mult; by field).
  assert (rounds abs_err (real x / real y) (x / y)%F) as Hr
    by (apply fdiv_rounds; [done|done|by rewrite Ey|rewrite E; by apply int_not_huge]).
  split; [apply Hr|]. by eapply rounds_integer.
Qed.

Lemma fle_one (x : F) : fin x -> ((f_of_Z 1 <=? x)%F = true <-> (1 <= real x)%Q).
Proof.
  intros Hx. destruct (f_of_Z_real 1 eq_refl) as [Hf E]. rewrite fle_real by done. rewrite E. reflexivity.
Qed.

(** ** A refill *)

Lemma seconds_bound d : 0 <= d < 2^63 -> (0 <= inject_Z d / inject_Z Second <= 10000000000)%Q.
Proof. intros Hd. unfold Second. split; unfold Qle, Qdiv; simpl; lia. Qed.

Lemma Seconds_real d :
  0 <= d < 2^63 -> let v := (inject_Z d / inject_Z Second)%Q in
  fin (Seconds d) /\ (0 <= real (Seconds d))%Q /\
  (v - (1 # (2^51)) * v <= real (Seconds d) <= v + (1 # (2^51)) * v)%Q.
Proof.
  intros Hd v. unfold Seconds. pose proof (Z.quot_rem' d Second) as Eqr.
  pose proof (Z.quot_pos d Second ltac:(lia) ltac:(done)). pose proof (Z.rem_bound_pos d Second ltac:(lia) ltac:(done)).
  set (a := Z.quot d Second) in *. set (b := Z.rem d Second) in *. unfold Second in *.
  destruct (div_integers b 1000000000) as (Hf & Hy0 & Hx); [lia|lia|].
  set (x := (inject_Z b / inject_Z 1000000000)%Q) in *. set (y := (f_of_Z b / f_of_Z 1000000000)%F) in *.
  assert (v == inject_Z a + x)%Q as Ev.
  { unfold v, x. rewrite Eqr, inject_Z_plus, inject_Z_mult. field. }
  destruct (f_of_Z_real a) as [Hfa Ea]; [lia|].
  assert (0 <= inject_Z a <= 10000000000)%Q as Ha by (change 0%Q with (inject_Z 0); change 10000000000%Q with (inject_Z 10000000000); rewrite <- !Zle_Qle; lia).
  assert (0 <= x <= 1)%Q as Hx1 by (unfold x, Qle, Qdiv; simpl; lia).
  assert (rounds 0 (real (f_of_Z a) + real y) (f_of_Z a + y)%F) as Hr.
  { apply fadd_rounds; [done|done|]. rewrite Ea. apply not_huge. powers. lra. }
  assert (0 <= real (f_of_Z a) + real y)%Q as Hs by (rewrite Ea; lra).
  split; [apply Hr|]. split; [by apply (rounds_ge 0 _ _ _ Hr)|].
  apply rounds_near in Hr. rewrite (Qabs_pos _ Hs), Qabs_Qle_condition, Ea in Hr. rewrite Ev. powers. lra.
Qed.

(** The clamp at the capacity, after a sum. *)
Lemma clamped_sum (tok p max : F) B :
  fin tok -> fin p -> fin max -> (0 <= real p <= 100000000000000000000000000000000000000)%Q ->
  (- B <= real tok <= real max)%Q -> (1 <= real max <= B)%Q -> (B <= 1000000000000000000000000000000)%Q ->
  let t := (tok + p)%F in
  let c := if (max <? t)%F then max else t in
  fin c /\ ((real tok <= real c <= real max)%Q /\ (real c <= real tok + real p + (1 # (2^53)) * B)%Q) /\
  ((real c == real max)%Q \/ (real tok + real p - (1 # (2^53)) * B <= real c)%Q).
Proof.
  intros Hft Hfp Hfm Hp Htok Hmax HB t c.
  assert (rounds 0 (real tok + real p) t) as Hr by (apply fadd_rounds; [done|done|apply not_huge; lra]).
  destruct Hr as [Hf Herr Hlo Hup] eqn:E. clear E.
  assert (real tok <= real t)%Q as Hmono by (apply Hlo; [done|lra]).
  pose proof (flt_real max t Hfm Hf) as Hlt. unfold c. destruct (max <? t)%F.
  - assert (real max < real t)%Q as Hgt by (by apply Hlt). split; [done|].
    assert (real max <= real tok + real p)%Q.
    { destruct (Qlt_le_dec (real tok + real p) (real max)) as [Hv|Hv]; [|done]. assert (real t <= real max)%Q by (apply Hup; [done|lra]). lra. }
    split; [powers; lra|]. left. reflexivity.
  - assert (real t <= real max)%Q as Hle by (apply Qnot_lt_le; intros Hgt; by apply Hlt in Hgt). split; [done|].
    destruct (Qlt_le_dec B (real tok + real p)) as [Hv|Hv].
    + assert (real max <= real t)%Q by (apply Hlo; [done|lra]). split; [powers; lra|]. left. lra.
    + destruct (rounds_bounded _ _ B Hr) as [H1 H2]; [lra|]. split; [powers; lra|]. right. lra.
Qed.

Lemma refill_real (tok max rate : F) d B :
  fin tok -> fin max -> fin rate -> 0 <= d < 2^63 -> (0 <= real rate <= 100000000000000000000)%Q ->
  (- B <= real tok <= real max)%Q -> (1 <= real max <= B)%Q -> (B <= 1000000000000000000000000000000)%Q ->
  let t := (tok + Seconds d * rate)%F in
  let c := if (max <? t)%F then max else t in
  let v := (real rate * (inject_Z d / inject_Z Second))%Q in
  fin c /\ ((real tok <= real c <= real max)%Q /\ (real c <= real tok + v + (1 # (2^50)) * v + (1 # (2^52)) * B)%Q) /\
  ((real c == real max)%Q \/ (real tok + v - (1 # (2^50)) * v - (1 # (2^52)) * B <= real c)%Q).
Proof.
  intros Hft Hfm Hfr Hd Hrate Htok Hmax HB t c v. pose proof (seconds_bound d Hd) as Hs.
  destruct (Seconds_real d Hd) as (Hfs & Hs0 & Hs1). set (T := (inject_Z d / inject_Z Second)%Q) in *. set (s := Seconds d) in *.
  assert (0 <= real s * real rate)%Q as Hv0 by (apply Qmult_le_0_compat; [exact Hs0|apply Hrate]).
  assert (v - (1 # (2^51)) * v <= real s * real rate <= v + (1 # (2^51)) * v)%Q as Hv1.
  { assert ((T - (1 # (2^51)) * T) * real rate <= real s * real rate)%Q by (apply Qmult_le_compat_r; [apply Hs1|apply Hrate]).
    assert (real s * real rate <= (T + (1 # (2^51)) * T) * real rate)%Q by (apply Qmult_le_compat_r; [apply Hs1|apply Hrate]).
    unfold v. powers. lra. }
  assert (0 <= v <= 1000000000000000000000000000000)%Q as Hv2.
  { unfold v. split; [apply Qmult_le_0_compat; [apply Hrate|apply Hs]|]. apply Qle_trans with (real rate * 10000000000)%Q; [|lra].
    rewrite !(Qmult_comm (real rate)). apply Qmult_le_compat_r; lra. }
  assert (rounds abs_err (real s * real rate) (s * rate)%F) as Hp by (apply fmul_rounds; [done|done|apply not_huge; powers; lra]).
  pose proof (rounds_pos _ _ _ Hp Hv0 abs_err_tiny) as Hp1. pose proof (rounds_ge 0 _ _ _ Hp eq_refl Hv0) as Hp0.
  destruct (clamped_sum tok (s * rate)%F max B) as (Hfc & [Hc1 Hc2] & Hc3); try done;
    [apply Hp|change (inject_Z 0) with 0%Q in Hp0; powers; lra|].
  fold t c in Hfc, Hc1, Hc2, Hc3. split; [done|]. powers. split; [split; [done|lra]|].
  destruct Hc3 as [Hc3|Hc3]; [by left|right; lra].
Qed.

(** Between two readings of a clock that does not go back. *)
Lemma refill_accrues (tok max rate : F) t0 t1 B :
  fin tok -> fin max -> fin rate -> t0 <= t1 -> (0 <= real rate <= 100000000000000000000)%Q ->
  (- B <= real tok <= real max)%Q -> (1 <= real max <= B)%Q -> (B <= 1000000000000000000000000000000)%Q ->
  let t := (tok + Seconds (time_sub t1 t0) * rate)%F in
  let c := if (max <? t)%F then max else t in
  fin c /\ (real tok <= real c <= real max)%Q /\
  (real c <= real tok + (1 + (1 # (2^50))) * accrued (real rate) t0 t1 + (1 # (2^52)) * B)%Q.
Proof.
  intros Hft Hfm Hfr Ht Hrate Htok Hmax HB t c.
  assert (0 <= time_sub t1 t0 < 2^63 /\ time_sub t1 t0 <= t1 - t0) as [Hd Hle] by (unfold time_sub; lia).
  destruct (refill_real tok max rate (time_sub t1 t0) B) as (Hfc & [Hc1 Hc2] & _); try done.
  fold t c in Hfc, Hc1, Hc2. split; [done|]. split; [done|]. unfold accrued.
  assert (real rate * (inject_Z (time_sub t1 t0) / inject_Z Second) <= real rate * (inject_Z (t1 - t0) / inject_Z Second))%Q.
  { rewrite !(Qmult_comm (real rate)). apply Qmult_le_compat_r; [|lra]. unfold Qle, Qdiv; simpl. unfold Second. lia. }
  powers. lra.
Qed.
End Rounded.
