(* ===== verification/RateLimiter.v ===== *)
(** * The per-user token bucket ([internal/auth/ratelimit.go])

    One bucket per user name: [SetLimit] fills it, [Allow] refills it by the
    time that has passed, clamps it at its capacity and takes one token if there
    is one. Times are the readings of [time.Now()], passed in. The records and
    the operations are written for any [GoFloat]; the budget is proved for any arithmetic
    that rounds ([Rounded]) and stated for [binary64]. *)
From S2P Require Import Prelude GoFloat Binary64 Refill.
From Stdlib Require Import Qminmax.
Open Scope Z_scope.

Record tokenBucket (F : Type) := TokenBucket {
  tokens : F;
  maxTokens : F;
  refillRate : F;
  lastRefill : Z
}.
Arguments TokenBucket {F}.
Arguments tokens {F}.
Arguments maxTokens {F}.
Arguments refillRate {F}.
Arguments lastRefill {F}.

Record RateLimiter (F : Type) := MkRateLimiter {
  buckets : gmap string (tokenBucket F);
  limits : gmap string Z
}.
Arguments MkRateLimiter {F}.
Arguments buckets {F}.
Arguments limits {F}.

Section Operations.
Context {F : Type} `{GoFloat F}.

Definition NewRateLimiter : RateLimiter F := MkRateLimiter ∅ ∅.

Definition burst_size (rpm : Z) : F :=
  let maxTokens := (f_of_Z rpm / f_of_Z 6)%F in
  if (maxTokens <? f_of_Z 10)%F then f_of_Z 10 else maxTokens.

Definition SetLimit (r : RateLimiter F) (username : string) (rpm now : Z) : RateLimiter F :=
  let maxTokens := burst_size rpm in
  {| limits := <[username := rpm]> r.(limits);
     buckets := <[username := TokenBucket maxTokens maxTokens
                                (f_of_Z rpm / f_of_Z 60)%F now]> r.(buckets) |}.

(** The refill that [Allow] does before it looks at the tokens. *)
Definition refill_bucket (b : tokenBucket F) (now : Z) : tokenBucket F :=
  let elapsed := Seconds (time_sub now b.(lastRefill)) in
  let t := (b.(tokens) + elapsed * b.(refillRate))%F in
  let t := if (b.(maxTokens) <? t)%F then b.(maxTokens) else t in
  TokenBucket t b.(maxTokens) b.(refillRate) now.

Definition take_token (b : tokenBucket F) (now : Z) : bool * tokenBucket F :=
  let b := refill_bucket b now in
  if (f_of_Z 1 <=? b.(tokens))%F
  then (true, TokenBucket (b.(tokens) - f_of_Z 1)%F b.(maxTokens) b.(refillRate) now)
  else (false, b).

Definition Allow (r : RateLimiter F) (username : string) (now : Z) : bool * RateLimiter F :=
  match r.(buckets) !! username with
  | None => (true, r)
  | Some bucket =>
      let '(ok, bucket) := take_token bucket now in
      (ok, MkRateLimiter (<[username := bucket]> r.(buckets)) r.(limits))
  end.

Definition GetRemainingTokens (r : RateLimiter F) (username : string) : F :=
  match r.(buckets) !! username with
  | None => f_of_Z (-1)
  | Some bucket => bucket.(tokens)
  end.

(** A run of requests of one user at the given instants: the answers, and the
    limiter at the end. *)
Fixpoint allow_run (r : RateLimiter F) (username : string) (times : list Z)
    : list bool * RateLimiter F :=
  match times with
  | [] => ([], r)
  | now :: times =>
      let '(ok, r) := Allow r username now in
      let '(oks, r) := allow_run r username times in (ok :: oks, r)
  end.

Fixpoint bucket_run (b : tokenBucket F) (times : list Z) : list bool * tokenBucket F :=
  match times with
  | [] => ([], b)
  | now :: times =>
      let '(ok, b) := take_token b now in
      let '(oks, b) := bucket_run b times in (ok :: oks, b)
  end.
End Operations.

(** The number of requests that were let through. *)
Definition allowed (oks : list bool) : Z := zlen (List.filter id oks).

(** ** Any arithmetic *)

Section Generic.
Context {F : Type} `{FloatOrder F}.

Lemma refill_bucket_clamped b now :
  (maxTokens b <? tokens (refill_bucket b now))%F = false.
Proof.
  unfold refill_bucket; simpl.
  destruct (maxTokens b <? tokens b + _)%F eqn:E; [apply flt_irrefl|done].
Qed.

(** Requests of one user never touch the bucket of another. *)
Theorem Allow_isolated (r : RateLimiter F) (u v : string) (now : Z) :
  u <> v -> buckets (snd (Allow r u now)) !! v = buckets r !! v.
Proof.
  intros Hne. unfold Allow. destruct (buckets r !! u) as [b|] eqn:E; [|done].
  destruct (take_token b now). simpl. by rewrite lookup_insert_ne.
Qed.

Lemma allow_run_bucket (r : RateLimiter F) u b times :
  buckets r !! u = Some b ->
  fst (allow_run r u times) = fst (bucket_run b times) /\
  buckets (snd (allow_run r u times)) !! u = Some (snd (bucket_run b times)).
Proof.
  revert r b. induction times as [|now times IH]; intros r b E; [done|].
  simpl. unfold Allow. rewrite E. destruct (take_token b now) as [ok b'].
  destruct (IH (MkRateLimiter (<[u:=b']> (buckets r)) (limits r)) b') as [IH1 IH2].
  { simpl. apply lookup_insert_eq. }
  destruct (allow_run _ _ _), (bucket_run _ _). simpl in *. by subst.
Qed.

Lemma allow_run_unknown (r : RateLimiter F) u times :
  buckets r !! u = None -> allow_run r u times = (map (fun _ => true) times, r).
Proof.
  intros E. induction times as [|now times IH]; [done|].
  simpl. unfold Allow at 1. rewrite E, IH. done.
Qed.
End Generic.

(** ** The token budget *)

Section Budget.
Context {F : Type} {GF : GoFloat F} {RF : Rounded F}.

(** Well-formed bucket: a content within bounds, and nothing absurdly large. *)
Definition bucket_ok (b : tokenBucket F) : Prop :=
  fin (tokens b) /\ fin (maxTokens b) /\ fin (refillRate b) /\
  (0 <= real (tokens b) <= real (maxTokens b))%Q /\
  (1 <= real (maxTokens b) <= 100000000000000000000)%Q /\
  (0 <= real (refillRate b) <= 100000000000000000000)%Q.

(** What one request may be given too much. *)
Definition slip (b : tokenBucket F) : Q := ((1 # (2^51)) * real (maxTokens b))%Q.

Lemma refill_bucket_ok b now :
  bucket_ok b -> lastRefill b <= now ->
  bucket_ok (refill_bucket b now) /\
  (real (tokens (refill_bucket b now)) <=
     real (tokens b) + (1 + (1 # (2^50))) * accrued (real (refillRate b)) (lastRefill b) now
     + (1 # (2^52)) * real (maxTokens b))%Q.
Proof.
  intros (Hf1 & Hf2 & Hf3 & H0 & Hm & Hr) Ht.
  destruct (refill_accrues (tokens b) (maxTokens b) (refillRate b) (lastRefill b) now (real (maxTokens b)))
    as (Hc & Hc1 & Hc2); [done..|lra|lra|lra|].
  unfold bucket_ok, refill_bucket. cbn [tokens maxTokens refillRate lastRefill]. split_and!; try done; lra.
Qed.

(** One request: the bucket stays well formed, and what it lets through plus
    what it keeps is covered by what it had plus what accrued. *)
Lemma take_token_ok b now ok b' :
  bucket_ok b -> lastRefill b <= now -> take_token b now = (ok, b') ->
  bucket_ok b' /\ lastRefill b' = now /\ refillRate b' = refillRate b /\
  maxTokens b' = maxTokens b /\
  (inject_Z (Z.b2z ok) + real (tokens b') <=
     real (tokens b) + (1 + (1 # (2^50))) * accrued (real (refillRate b)) (lastRefill b) now + slip b)%Q.
Proof.
  intros Hb Ht Ha. pose proof Hb as (_ & _ & _ & _ & Hmax & _).
  destruct (refill_bucket_ok b now Hb Ht) as [Hb' Hacc]. unfold take_token in Ha.
  assert (maxTokens (refill_bucket b now) = maxTokens b) as Emax by done.
  assert (refillRate (refill_bucket b now) = refillRate b) as Erate by done.
  assert (lastRefill (refill_bucket b now) = now) as Elast by done.
  generalize dependent (refill_bucket b now). intros b1 Ha Hb1 Hacc Emax Erate Elast.
  pose proof Hb1 as (Hf1 & Hf2 & Hf3 & H0 & Hm & Hr). rewrite Emax, Erate in *.
  pose proof (fle_one _ Hf1) as Hle. unfold slip.
  destruct (f_of_Z 1 <=? tokens b1)%F; injection Ha as <- <-.
  - apply proj1 in Hle. specialize (Hle eq_refl). destruct (f_of_Z_real 1 eq_refl) as [Hf E]. change (inject_Z 1) with 1%Q in E.
    set (t := tokens b1) in *.
    assert (rounds_to real fin rel_err 0 (real t - real (f_of_Z 1)) (t - f_of_Z 1)%F) as Hs
      by (apply fsub_rounds; [done|done|rewrite E; apply not_huge; lra]).
    destruct (rounds_bounded _ _ (real (maxTokens b)) Hs) as [H1 H2]; [rewrite E; lra|]. rewrite E in H1, H2.
    pose proof (rounds_ge 0 _ _ _ Hs eq_refl) as Hge. rewrite E in Hge. change (inject_Z 0) with 0%Q in Hge.
    specialize (Hge ltac:(lra)). destruct Hs as [Hs1 _ _ Hup].
    assert (real (t - f_of_Z 1)%F <= real t)%Q by (apply Hup; [done|rewrite E; lra]).
    unfold bucket_ok. cbn [tokens maxTokens refillRate lastRefill]. change (inject_Z (Z.b2z true)) with 1%Q.
    powers. split_and!; try done; lra.
  - change (inject_Z (Z.b2z false)) with 0%Q. powers. split_and!; try done; lra.
Qed.

Lemma bucket_run_budget times b oks b' :
  bucket_ok b -> ordered (lastRefill b) times -> bucket_run b times = (oks, b') ->
  (bucket_ok b' /\ lastRefill b' = last_time (lastRefill b) times /\
   refillRate b' = refillRate b /\ maxTokens b' = maxTokens b) /\
  (inject_Z (allowed oks) + real (tokens b') <= real (tokens b)
     + (1 + (1 # (2^50))) * accrued (real (refillRate b)) (lastRefill b) (last_time (lastRefill b) times)
     + inject_Z (zlen times) * slip b)%Q.
Proof.
  revert b oks. induction times as [|now times IH]; intros b oks Hb Ho Hr.
  { injection Hr as <- <-. split; [done|]. cbn [last_time]. rewrite accrued_refl.
    change (inject_Z (allowed [])) with 0%Q. change (inject_Z (zlen [])) with 0%Q. lra. }
  destruct Ho as [Ht Ho]. simpl in Hr.
  destruct (take_token b now) as [ok b1] eqn:E1.
  destruct (bucket_run b1 times) as [oks1 b2] eqn:E2. injection Hr as <- <-.
  destruct (take_token_ok _ _ _ _ Hb Ht E1) as (Hb1 & Hl & Hrate & Hmax & Hle).
  destruct (IH b1 oks1 Hb1) as [(Hb2 & Hl2 & Hr2 & Hm2) Hle2]; [by rewrite Hl|done|].
  rewrite Hl in Hl2. split; [split_and!; [done|simpl; congruence|congruence|congruence]|].
  unfold slip in *. rewrite Hl, Hrate, Hmax in Hle2.
  cbn [last_time]. rewrite (accrued_trans _ (lastRefill b) now).
  assert (inject_Z (zlen (now :: times)) == 1 + inject_Z (zlen times))%Q as ->.
  { rewrite length_cons, Nat2Z.inj_succ, <- Z.add_1_l, inject_Z_plus. reflexivity. }
  assert (inject_Z (allowed (ok :: oks1)) == inject_Z (Z.b2z ok) + inject_Z (allowed oks1))%Q as ->.
  { rewrite <- inject_Z_plus. unfold allowed. destruct ok; simpl List.filter; [|done].
    rewrite length_cons, Nat2Z.inj_succ, <- Z.add_1_l. done. }
  lra.
Qed.

Lemma burst_size_real rpm :
  0 <= rpm < 2^53 ->
  let burst := Qmax 10 (inject_Z rpm / 6) in
  fin (burst_size rpm) /\ (10 <= real (burst_size rpm) <= (1 + (1 # (2^52))) * burst)%Q.
Proof.
  intros Hrpm burst. destruct (div_integers rpm 6 Hrpm ltac:(done)) as (Hf & Hpos & H1 & H2).
  destruct (f_of_Z_real 10 eq_refl) as [Hf10 E10]. unfold burst_size. change (inject_Z 6) with 6%Q in *.
  pose proof (Qminmax.Q.le_max_l 10 (inject_Z rpm / 6)) as Hl. pose proof (Qminmax.Q.le_max_r 10 (inject_Z rpm / 6)) as Hr.
  fold burst in Hl, Hr. change (inject_Z 10) with 10%Q in E10.
  pose proof (flt_real (f_of_Z rpm / f_of_Z 6)%F (f_of_Z 10) Hf Hf10) as Hlt. rewrite E10 in Hlt. powers.
  destruct (_ <? _)%F.
  - split; [done|]. rewrite E10. lra.
  - split; [done|]. assert (10 <= real (f_of_Z rpm / f_of_Z 6)%F)%Q by (apply Qnot_lt_le; intros Hgt; by apply Hlt in Hgt). lra.
Qed.

Lemma SetLimit_bucket (r : RateLimiter F) u rpm now :
  0 <= rpm < 2^53 -> exists b, buckets (SetLimit r u rpm now) !! u = Some b /\ bucket_ok b /\
    lastRefill b = now /\ (real (maxTokens b) <= (1 + (1 # (2^52))) * Qmax 10 (inject_Z rpm / 6))%Q /\
    (real (refillRate b) <= (1 + (1 # (2^52))) * (inject_Z rpm / 60))%Q.
Proof.
  intros Hrpm. unfold SetLimit; simpl. rewrite lookup_insert_eq. eexists. split; [done|].
  destruct (burst_size_real rpm Hrpm) as (Hf & Hb1 & Hb2).
  destruct (div_integers rpm 60 Hrpm ltac:(done)) as (Hfr & Hr0 & Hr1 & Hr2).
  assert (0 <= inject_Z rpm <= 9007199254740992)%Q as Hz
    by (change 0%Q with (inject_Z 0); change 9007199254740992%Q with (inject_Z (2^53)); rewrite <- !Zle_Qle; lia).
  change (inject_Z 60) with 60%Q in *.
  assert (inject_Z rpm / 60 <= 9007199254740992)%Q by (apply Qle_shift_div_r; lra).
  assert (Qmax 10 (inject_Z rpm / 6) <= 9007199254740992)%Q by (apply Qminmax.Q.max_lub; [lra|apply Qle_shift_div_r; lra]).
  unfold bucket_ok. cbn [tokens maxTokens refillRate lastRefill]. powers. split_and!; try done; lra.
Qed.

Lemma allow_run_rounded (r : RateLimiter F) (u : string) (rpm t0 : Z) (before times : list Z) :
  0 <= rpm < 2^53 -> ordered t0 (before ++ times) ->
  let r' := snd (allow_run (SetLimit r u rpm t0) u before) in
  let start := last_time t0 before in
  let burst := Qmax 10 (inject_Z rpm / 6) in
  let budget := (burst + inject_Z rpm * (inject_Z (last_time start times - start) / inject_Z Minute))%Q in
  (inject_Z (allowed (fst (allow_run r' u times))) <=
     budget + (1 # (2^49)) * (budget + inject_Z (zlen times) * burst))%Q.
Proof.
  intros Hrpm [Ho1 Ho2]%ordered_app r' start burst budget.
  destruct (SetLimit_bucket r u rpm t0 Hrpm) as (b & E & Hb & Hl & Hmax & Hrate). fold burst in Hmax.
  destruct (allow_run_bucket _ u b before E) as [_ E'].
  destruct (bucket_run b before) as [oks0 b'] eqn:Er. subst t0.
  destruct (bucket_run_budget before b oks0 b' Hb Ho1 Er) as [(Hb' & Hl' & Hr' & Hm') _].
  destruct (allow_run_bucket r' u b' times E') as [-> _].
  destruct (bucket_run b' times) as [oks b2] eqn:Er2. simpl fst.
  destruct (bucket_run_budget times b' oks b2 Hb') as [((_ & _ & _ & [H0 _] & _) & _) Hle]; [by rewrite Hl'|done|].
  unfold slip in Hle. rewrite Hl', Hr', Hm' in Hle. fold start in Hle.
  destruct Hb' as (_ & _ & _ & [_ Htok] & _). rewrite Hm' in Htok.
  set (time := (inject_Z (last_time start times - start) / inject_Z Minute)%Q) in *.
  assert (0 <= time)%Q as Ht. { unfold time, Qle, Qdiv; simpl. pose proof (ordered_last start times Ho2). unfold Minute. lia. }
  assert (accrued (real (refillRate b)) start (last_time start times) <= (1 + (1 # (2^52))) * (inject_Z rpm * time))%Q as Hacc.
  { assert (accrued (real (refillRate b)) start (last_time start times) == real (refillRate b) * (60 * time))%Q as ->.
    { unfold accrued, time, Minute, Second. change (inject_Z (60 * 1000000000)) with (60 * inject_Z 1000000000)%Q. field. }
    apply Qle_trans with ((1 + (1 # (2^52))) * (inject_Z rpm / 60) * (60 * time))%Q; [apply Qmult_le_compat_r; [done|lra]|].
    apply Qle_lteq. right. field. }
  assert (0 <= inject_Z (zlen times))%Q as Hn by (change 0%Q with (inject_Z 0); rewrite <- Zle_Qle; lia).
  assert (inject_Z (zlen times) * ((1 # (2^51)) * real (maxTokens b)) <=
    (1 # (2^51)) * (1 + (1 # (2^52))) * (inject_Z (zlen times) * burst))%Q as Hslip.
  { apply Qle_trans with (inject_Z (zlen times) * ((1 # (2^51)) * ((1 + (1 # (2^52))) * burst)))%Q.
    - rewrite !(Qmult_comm (inject_Z (zlen times))). apply Qmult_le_compat_r; [|done]. powers. lra.
    - apply Qle_lteq. right. ring. }
  assert (0 <= burst)%Q as Hb0 by (apply Qle_trans with 10%Q; [done|apply Qminmax.Q.le_max_l]).
  assert (0 <= inject_Z (zlen times) * burst)%Q by (by apply Qmult_le_0_compat).
  assert (0 <= inject_Z rpm * time)%Q by (apply Qmult_le_0_compat; [change 0%Q with (inject_Z 0); rewrite <- Zle_Qle; lia|done]).
  unfold budget. powers. lra.
Qed.

(** The limiter recovers: a request that comes when a little more than one token's worth
    of time has passed since the last refill is let through. *)
Lemma take_token_recovers (b : tokenBucket F) (now : Z) :
  bucket_ok b -> 0 <= now - lastRefill b < 2^63 ->
  (1 + (1 # (2^49)) * (1 + real (maxTokens b)) <= accrued (real (refillRate b)) (lastRefill b) now)%Q ->
  fst (take_token b now) = true.
Proof.
  intros Hb Hn Hacc. pose proof Hb as (Hf1 & Hf2 & Hf3 & H0 & Hm & Hr). unfold accrued in Hacc.
  destruct (refill_real (tokens b) (maxTokens b) (refillRate b) (now - lastRefill b) (real (maxTokens b)))
    as (Hc & _ & Hlow); [done..|lra|lra|lra|].
  destruct (refill_bucket_ok b now Hb ltac:(lia)) as [(Hf1' & _) _]. pose proof (fle_one _ Hf1') as [_ Hle].
  assert (1 <= real (tokens (refill_bucket b now)))%Q as Hone.
  { unfold refill_bucket. rewrite time_sub_exact by (unfold in_int64; lia). cbn [tokens]. powers. destruct Hlow; lra. }
  unfold take_token. by rewrite (Hle Hone).
Qed.

(** Requests paced at the rate are all let through. *)
Theorem Allow_recovers (r : RateLimiter F) (u : string) (b : tokenBucket F) (now : Z) :
  buckets r !! u = Some b -> bucket_ok b -> 0 <= now - lastRefill b < 2^63 ->
  (1 + (1 # (2^49)) * (1 + real (maxTokens b)) <= accrued (real (refillRate b)) (lastRefill b) now)%Q ->
  fst (Allow r u now) = true.
Proof.
  intros E Hb Hn Hacc. unfold Allow. rewrite E. pose proof (take_token_recovers b now Hb Hn Hacc) as Ht.
  by destruct (take_token b now).
Qed.
End Budget.

(** C13: The rate limit, in the [float64] arithmetic of the program. In any window of the
    life of a limiter, after any requests made before, at most the burst plus [rpm] per
    minute of the window of the requests of a user are let through, whatever their
    instants, but for what rounding may add: a fraction of [2^-49] of that budget, and the
    same fraction of the burst for each request. *)
Theorem allow_run_budget (r : RateLimiter spec_float) (u : string) (rpm t0 : Z) (before times : list Z) :
  0 <= rpm < 2^53 -> ordered t0 (before ++ times) ->
  let r' := snd (allow_run (SetLimit r u rpm t0) u before) in
  let start := last_time t0 before in
  let burst := Qmax 10 (inject_Z rpm / 6) in
  let budget := (burst + inject_Z rpm * (inject_Z (last_time start times - start) / inject_Z Minute))%Q in
  (inject_Z (allowed (fst (allow_run r' u times))) <=
     budget + (1 # (2^49)) * (budget + inject_Z (zlen times) * burst))%Q.
Proof. apply allow_run_rounded. Qed.

Lemma allow_run_budget_witness :
  (let budget := 10 + inject_Z 60 * (inject_Z (last_time 5 [7%Z; Second] - 5) / inject_Z Minute) in
   inject_Z (allowed (fst (allow_run (snd (allow_run (SetLimit NewRateLimiter "bob" 60 0) "bob" [0%Z; 5%Z]))
                             "bob" [7%Z; Second]))) <=
     budget + (1 # (2^49)) * (budget + inject_Z 2 * 10))%Q.
Proof.
  apply (allow_run_budget NewRateLimiter "bob" 60 0 [0%Z; 5%Z] [7%Z; Second]);
    [lia|vm_compute; repeat split; discriminate].
Defined.

(** In binary arithmetic a rate of 37 per minute does not divide, and a run of requests may
    get through a little earlier than in exact arithmetic; the burst is still ten. *)
Example binary64_uneven :
  allowed (fst (allow_run (SetLimit (F:=spec_float) NewRateLimiter "bob" 37 0) "bob"
    (replicate 12 0 ++ map (fun i => Z.of_nat i * 1621621622) (seq 1 20)))) = 30.
Proof. vm_compute. reflexivity. Qed.

(** The same program in IEEE arithmetic: 60 requests per minute give a burst of
    ten, then one request per second. *)
Example binary64_burst :
  fst (allow_run (SetLimit (F:=spec_float) NewRateLimiter "bob" 60 0) "bob"
         (replicate 11 0 ++ [Second; Second; 3 * Second])) =
  replicate 10 true ++ [false; true; false; true].
Proof. vm_compute. reflexivity. Qed.
