(* ===== verification/GoNet.v ===== *)
(** * Go's [net] package: addresses, networks, host:port pairs

    [net.ParseIP], [net.ParseCIDR], [IPNet.Contains], [net.IP.String] and
    [net.SplitHostPort], as far as the program uses them. An address is a list
    of 4 or 16 bytes, as in Go. *)
From S2P Require Import Prelude GoStrings.

(** ** Parsing addresses *)

(** Dotted decimal: at most three digits per field, no leading zero, four fields. *)
Fixpoint v4_fields (s : string) (val : Z) (digLen : nat) (acc : list byte)
    : option (list byte) :=
  match s with
  | EmptyString =>
      if decide (digLen = O \/ length acc <> 3%nat) then None else Some (acc ++ [z2b val])
  | String c s =>
      if is_digit c then
        if decide (digLen = 1%nat /\ val = 0) then None else
        let val := val * 10 + digit_val c in
        if 255 <? val then None else v4_fields s val (S digLen) acc
      else if decide (c = "."%char) then
        if decide (digLen = O \/ length acc = 3%nat) then None
        else v4_fields s 0 O (acc ++ [z2b val])
      else None
  end.
Definition parse_v4 (s : string) : option (list byte) := v4_fields s 0 O [].

(** The hexadecimal digits at the front of [s]: their number, their value and
    what follows; [None] for a fifth digit. *)
Fixpoint hex_group (s : string) (off : nat) (acc : Z) : option (nat * Z * string) :=
  match s with
  | EmptyString => Some (off, acc, s)
  | String c s' =>
      match hex_val c with
      | None => Some (off, acc, s)
      | Some d =>
          if decide (3 < off)%nat then None
          else hex_group s' (S off) (acc * 16 + d)
      end
  end.

(** The groups of an IPv6 address: at most eight rounds. [ell] is the position
    of the [::], [acc] the bytes so far; the result is that of the whole parse. *)
Definition v6_finish (acc : list byte) (ell : option nat) (s : string) : option (list byte) :=
  if negb (String.eqb s "") then None else
  if decide (length acc < 16)%nat then
    match ell with
    | None => None
    | Some e => Some (take e acc ++ replicate (16 - length acc) x00 ++ drop e acc)
    end
  else match ell with Some _ => None | None => Some acc end.

Fixpoint v6_groups (fuel : nat) (s : string) (ell : option nat) (acc : list byte)
    : option (list byte) :=
  match fuel with
  | O => v6_finish acc ell s
  | S fuel =>
      match hex_group s 0 0 with
      | None => None
      | Some (off, v, rest) =>
          if decide (off = O) then None else
          match rest with
          | EmptyString => v6_finish (acc ++ be16_bytes v) ell ""
          | String c rest' =>
              if decide (c = "."%char) then
                if decide (ell = None /\ length acc <> 12%nat) then None else
                if decide (12 < length acc)%nat then None else
                match parse_v4 s with
                | None => None
                | Some v4 => v6_finish (acc ++ v4) ell ""
                end
              else if decide (c = ":"%char) then
                let acc := acc ++ be16_bytes v in
                match rest' with
                | EmptyString => None
                | String c2 rest2 =>
                    if decide (c2 = ":"%char) then
                      if decide (ell <> None) then None else
                      match rest2 with
                      | EmptyString => v6_finish acc (Some (length acc)) ""
                      | _ => v6_groups fuel rest2 (Some (length acc)) acc
                      end
                    else v6_groups fuel rest' ell acc
                end
              else None
          end
      end
  end.

Definition parse_v6 (s : string) : option (list byte) :=
  if HasPrefix s "::" then
    let s := string_drop 2 s in
    if String.eqb s "" then Some (replicate 16 x00) else v6_groups 8 s (Some O) []
  else v6_groups 8 s None [].

Definition v4_in_v6_prefix : list byte := replicate 10 x00 ++ [xff; xff].

(** [netip.ParseAddr] for an address without a zone (the callers refuse a zone):
    the first of ['.'], [':'] and ['%'] decides the family. *)
Fixpoint first_sep (s : string) : option Ascii.ascii :=
  match s with
  | EmptyString => None
  | String c s =>
      if decide (c = "."%char \/ c = ":"%char \/ c = "%"%char) then Some c else first_sep s
  end.

Definition parse_addr (s : string) : option (list byte) :=
  match first_sep s with
  | Some "."%char => parse_v4 s
  | Some ":"%char => parse_v6 s
  | _ => None
  end.

Definition as16 (ip : list byte) : list byte :=
  if decide (length ip = 4%nat) then v4_in_v6_prefix ++ ip else ip.

(** [net.ParseIP]: always 16 bytes. *)
Definition ParseIP (s : string) : option (list byte) := as16 <$> parse_addr s.

(** [ip.To4()] *)
Definition To4 (ip : list byte) : option (list byte) :=
  if decide (length ip = 4%nat) then Some ip
  else if decide (length ip = 16%nat /\ take 12 ip = v4_in_v6_prefix) then Some (drop 12 ip)
  else None.

(** ** Networks *)

Record IPNet := MkIPNet { net_ip : list byte; net_mask : list byte }.

Definition byte_and (a b : byte) : byte := z2b (Z.land (b2z a) (b2z b)).

(** [net.CIDRMask]: [ones] one bits, then zeros, in [len] bytes. *)
Fixpoint cidr_mask (len : nat) (ones : Z) : list byte :=
  match len with
  | O => []
  | S len =>
      if 8 <=? ones then xff :: cidr_mask len (ones - 8)
      else z2b (255 - Z.shiftr 255 ones) :: cidr_mask len 0
  end.

(** [net.dtoi] on the whole of the mask length: digits only, below 0xFFFFFF. *)
Definition dtoi (s : string) : option Z :=
  if String.eqb s "" then None
  else match digits_value s 0 with
       | Some n => if n <? 0xFFFFFF then Some n else None
       | None => None
       end.

Definition ParseCIDR (s : string) : option IPNet :=
  let i := IndexByte s "/"%char in
  if i <? 0 then None else
  match parse_addr (substr_to s i), dtoi (substr_from s (i + 1)) with
  | Some ip, Some n =>
      if 8 * zlen ip <? n then None
      else let m := cidr_mask (length ip) n in
           Some (MkIPNet (zip_with byte_and ip m) m)
  | _, _ => None
  end.

(** [n.Contains(ip)] *)
Definition Contains_ip (n : IPNet) (ip : list byte) : bool :=
  let nn := match To4 n.(net_ip) with Some x => x | None => n.(net_ip) end in
  let m := if decide (length n.(net_mask) = 16%nat /\ length nn = 4%nat)
           then drop 12 n.(net_mask) else n.(net_mask) in
  let ip := match To4 ip with Some x => x | None => ip end in
  if decide (length ip = length nn /\ length m = length nn)
  then bool_decide (zip_with byte_and nn m = zip_with byte_and ip m)
  else false.

(** ** [net.SplitHostPort] *)

Definition SplitHostPort (hostport : string) : result (string * string) :=
  let i := LastIndexByte hostport ":"%char in
  if i <? 0 then Err "missing port in address" else
  let bracket := HasPrefix hostport "[" in
  let end_ := IndexByte hostport "]"%char in
  if bracket && (end_ <? 0) then Err "missing ']' in address" else
  if bracket && (end_ + 1 =? strlen hostport) then Err "missing port in address" else
  if bracket && negb (end_ + 1 =? i) then
    (if HasPrefix (substr_from hostport (end_ + 1)) ":"
     then Err "too many colons in address" else Err "missing port in address") else
  let host := if bracket then substr_to (substr_from hostport 1) (end_ - 1)
              else substr_to hostport i in
  if negb bracket && (0 <=? IndexByte host ":"%char) then Err "too many colons in address" else
  let j := if bracket then 1 else 0 in
  let k := if bracket then end_ + 1 else 0 in
  if 0 <=? IndexByte (substr_from hostport j) "["%char then Err "unexpected '[' in address" else
  if 0 <=? IndexByte (substr_from hostport k) "]"%char then Err "unexpected ']' in address" else
  Ok (host, substr_from hostport (i + 1)).

(** ** Printing addresses *)

Definition v4_string (a b c d : byte) : string :=
  decimal (b2z a) +:+ "." +:+ decimal (b2z b) +:+ "." +:+ decimal (b2z c) +:+ "." +:+
  decimal (b2z d).

(** A 16-bit group in hexadecimal without leading zeros. *)
Definition hex16 (v : Z) : string :=
  let d i := String (hex_char (Z.land (Z.shiftr v (4 * i)) 15)) "" in
  if v <? 16 then d 0
  else if v <? 256 then d 1 +:+ d 0
  else if v <? 4096 then d 2 +:+ d 1 +:+ d 0
  else d 3 +:+ d 2 +:+ d 1 +:+ d 0.

Fixpoint groups16 (ip : list byte) : list Z :=
  match ip with hi :: lo :: ip => be16 hi lo :: groups16 ip | _ => [] end.

(** The number of zero groups at the front. *)
Fixpoint zero_run (gs : list Z) : nat :=
  match gs with 0 :: gs => S (zero_run gs) | _ => O end.

(** The longest run of at least two zero groups, the first of equals:
    its start and its length. *)
Fixpoint longest_zero_run (i : nat) (gs : list Z) (best : nat * nat) : nat * nat :=
  match gs with
  | [] => best
  | _ :: gs' =>
      let r := zero_run gs in
      longest_zero_run (S i) gs' (if decide (snd best < r /\ 2 <= r)%nat then (i, r) else best)
  end.

Definition v6_string (gs : list Z) : string :=
  let '(zstart, zlen) := longest_zero_run 0 gs (0%nat, 0%nat) in
  let colon_list := fun l => String.concat ":" (map hex16 l) in
  if decide (zlen = O) then colon_list gs
  else colon_list (take zstart gs) +:+ "::" +:+ colon_list (drop (zstart + zlen) gs).

(** [net.IP.String()] *)
Definition IP_String (ip : list byte) : string :=
  match To4 ip with
  | Some [a; b; c; d] => v4_string a b c d
  | _ => if decide (length ip = 16%nat) then v6_string (groups16 ip)
         else if decide (length ip = O) then "<nil>" else "?" +:+ hex_encode ip
  end.

Example parse_ip_1 : ParseIP "192.168.1.20" = Some (v4_in_v6_prefix ++ [xc0; xa8; x01; x14]).
Proof. reflexivity. Qed.
Example parse_ip_2 : IP_String <$> ParseIP "2001:DB8:0:0:1::1" = Some "2001:db8::1:0:0:1".
Proof. vm_compute. reflexivity. Qed.
Example parse_ip_3 : IP_String <$> ParseIP "::1" = Some "::1".
Proof. vm_compute. reflexivity. Qed.
Example parse_ip_4 : ParseIP "01.2.3.4" = None /\ ParseIP "1.2.3" = None /\ ParseIP "fe80::1%eth0" = None.
Proof. vm_compute. auto. Qed.
Example parse_ip_5 : IP_String <$> ParseIP "::ffff:10.0.0.1" = Some "10.0.0.1".
Proof. vm_compute. reflexivity. Qed.
Example cidr_1 :
  (fun n => Contains_ip n <$> [v4_in_v6_prefix ++ [x0a; x01; x02; x03]; [x0b; x01; x02; x03]])
    <$> ParseCIDR "10.0.0.0/8" = Some [true; false].
Proof. vm_compute. reflexivity. Qed.
Example split_1 : SplitHostPort "[::1]:80" = Ok ("::1", "80").
Proof. vm_compute. reflexivity. Qed.
Example split_2 : SplitHostPort "::1:80" = Err "too many colons in address".
Proof. vm_compute. reflexivity. Qed.
