(* ===== verification/GoNetFacts.v ===== *)
(** * Facts about [GoStrings] searching and [GoNet] addresses

    Positions in concatenated strings, [SplitHostPort] on well-formed pairs and
    on addresses with too many colons, dotted-decimal round trips, and the
    bitwise meaning of a CIDR network. *)
From S2P Require Import Prelude GoStrings GoNet.

(** ** Positions *)

(** The string [s] has no byte [c]. *)
Definition no_char (c : Ascii.ascii) (s : string) : Prop :=
  string_all (fun d => negb (Ascii.eqb c d)) s = true.

Lemma no_char_cons c d s : no_char c (String d s) <-> c <> d /\ no_char c s.
Proof.
  unfold no_char; simpl. rewrite andb_true_iff, negb_true_iff, Ascii.eqb_neq. done.
Qed.

Lemma no_char_app c s t : no_char c (s +:+ t) <-> no_char c s /\ no_char c t.
Proof.
  induction s as [|d s IH].
  - rewrite str_nil_app. split; [done|by intros [_ ?]].
  - rewrite str_cons_app, !no_char_cons, IH. tauto.
Qed.

Lemma index_from_none i s c : no_char c s -> index_from i s c = -1.
Proof.
  revert i. induction s as [|d s IH]; intros i Hs; [done|].
  apply no_char_cons in Hs as [Hd Hs]. simpl. rewrite decide_False by done. auto.
Qed.

Lemma index_from_app i s t c :
  no_char c s -> index_from i (s +:+ String c t) c = i + strlen s.
Proof.
  revert i. induction s as [|d s IH]; intros i Hs.
  - rewrite str_nil_app. simpl. rewrite decide_True by done. unfold strlen; simpl. lia.
  - apply no_char_cons in Hs as [Hd Hs]. rewrite str_cons_app. simpl.
    rewrite decide_False, IH by done. unfold strlen; simpl. lia.
Qed.

Lemma last_index_from_none i s c : no_char c s -> last_index_from i s c = -1.
Proof.
  revert i. induction s as [|d s IH]; intros i Hs; [done|].
  apply no_char_cons in Hs as [Hd Hs]. simpl. rewrite IH by done.
  by rewrite decide_True, decide_False.
Qed.

Lemma last_index_from_app i s t c :
  0 <= i -> no_char c t -> last_index_from i (s +:+ String c t) c = i + strlen s.
Proof.
  revert i. induction s as [|d s IH]; intros i Hi Ht.
  - rewrite str_nil_app. simpl. rewrite last_index_from_none by done.
    rewrite !decide_True by done. unfold strlen; simpl. lia.
  - rewrite str_cons_app. cbn [last_index_from]. rewrite IH by (done || lia).
    rewrite decide_False by (unfold strlen; lia). unfold strlen; simpl. lia.
Qed.

Lemma substr_to_app s t : substr_to (s +:+ t) (strlen s) = s.
Proof.
  unfold substr_to, strlen. rewrite Nat2Z.id.
  induction s as [|c s IH]; [by destruct t|]. rewrite str_cons_app. simpl. by rewrite IH.
Qed.

Lemma substr_from_app s t : substr_from (s +:+ t) (strlen s) = t.
Proof.
  unfold substr_from, strlen. rewrite Nat2Z.id.
  induction s as [|c s IH]; [by destruct t|]. rewrite str_cons_app. done.
Qed.

Lemma strlen_app s t : strlen (s +:+ t) = strlen s + strlen t.
Proof. unfold strlen. rewrite str_length_app. lia. Qed.

Lemma substr_from_app_cons s c t : substr_from (s +:+ String c t) (strlen s + 1) = t.
Proof.
  pose proof (substr_from_app (s +:+ String c "") t) as H.
  rewrite strlen_app, str_app_assoc in H. done.
Qed.

Lemma HasPrefix_single_none c s : no_char c s -> HasPrefix s (String c "") = false.
Proof.
  destruct s as [|d s]; [done|]. intros [Hd _]%no_char_cons. simpl.
  by rewrite decide_False.
Qed.

(** A prefix that ends in [c] does not reach into a tail without [c]. *)
Lemma HasPrefix_app_no_char s c p t :
  no_char c t ->
  HasPrefix ((s +:+ String c "") +:+ t) (p +:+ String c "") =
  HasPrefix (s +:+ String c "") (p +:+ String c "").
Proof.
  intros Ht. revert s. induction p as [|x p IH]; intros [|y s];
    rewrite ?str_nil_app, ?str_cons_app; cbn [HasPrefix]; try case_decide; try done.
  - by destruct t.
  - by destruct ((s +:+ String c "") +:+ t), (s +:+ String c "").
  - assert (HasPrefix t (p +:+ String c "") = false) as E.
    { clear -Ht. revert p Ht. induction t as [|z t IHt]; intros p Ht; [by destruct p|].
      apply no_char_cons in Ht as [Hz Ht].
      destruct p as [|x p]; rewrite ?str_nil_app, ?str_cons_app; cbn [HasPrefix]; case_decide; try done.
      by apply IHt. }
    rewrite str_nil_app, E. by destruct p.
Qed.

Lemma Contains_app_char s c t : Contains (s +:+ String c t) (String c "") = true.
Proof.
  induction s as [|d s IH].
  - rewrite str_nil_app. simpl. rewrite decide_True by done. by destruct t.
  - rewrite str_cons_app. cbn [Contains]. rewrite IH. apply orb_true_r.
Qed.

Lemma Contains_none s c : no_char c s -> Contains s (String c "") = false.
Proof.
  induction s as [|d s IH]; [done|]. intros [Hd Hs]%no_char_cons. simpl.
  rewrite decide_False by done. by apply IH.
Qed.

(** ** [SplitHostPort] *)

Lemma SplitHostPort_plain host port :
  no_char ":" host -> no_char "[" host -> no_char "]" host ->
  no_char ":" port -> no_char "[" port -> no_char "]" port ->
  SplitHostPort (host +:+ ":" +:+ port) = Ok (host, port).
Proof.
  intros Hc Hl Hr Pc Pl Pr. change (":" +:+ port) with (String ":" port).
  assert (no_char "[" (host +:+ String ":" port)) as Nl by (apply no_char_app; split; [done|by apply no_char_cons]).
  assert (no_char "]" (host +:+ String ":" port)) as Nr by (apply no_char_app; split; [done|by apply no_char_cons]).
  unfold SplitHostPort, LastIndexByte, IndexByte.
  rewrite last_index_from_app by done. rewrite (HasPrefix_single_none "[") by done.
  rewrite (proj2 (Z.ltb_ge _ _)) by (unfold strlen; lia). cbn [andb negb].
  rewrite Z.add_0_l, substr_to_app, !index_from_none by done. cbn.
  by rewrite substr_from_app_cons.
Qed.

(** A host with a colon of its own, not in brackets, is refused. *)
Lemma SplitHostPort_colons host port :
  ~ no_char ":" host -> HasPrefix (host +:+ ":" +:+ port) "[" = false -> no_char ":" port ->
  SplitHostPort (host +:+ ":" +:+ port) = Err "too many colons in address".
Proof.
  intros Hc Hb Pc. change (":" +:+ port) with (String ":" port) in *.
  unfold SplitHostPort, LastIndexByte, IndexByte.
  rewrite last_index_from_app, Hb by done.
  rewrite (proj2 (Z.ltb_ge _ _)) by (unfold strlen; lia). cbn [andb negb].
  rewrite Z.add_0_l, substr_to_app.
  assert (forall i s, 0 <= i -> ~ no_char ":" s -> 0 <= index_from i s ":") as Hpos.
  { intros i s. revert i. induction s as [|d s IH]; intros i Hi Hn; [by destruct Hn|].
    simpl. destruct (decide _); [done|]. apply IH; [lia|].
    intros ?. apply Hn. by apply no_char_cons. }
  rewrite (proj2 (Z.leb_le _ _)) by auto with lia. done.
Qed.

(** ** Dotted decimal *)

Lemma v4_field_dot b rest acc :
  (length acc < 3)%nat ->
  v4_fields (decimal (b2z b) +:+ "." +:+ rest) 0 O acc = v4_fields rest 0 O (acc ++ [b]).
Proof.
  intros Hacc. destruct acc as [|x [|y [|z acc]]]; [..|simpl in Hacc; lia];
    destruct b; reflexivity.
Qed.

Lemma v4_field_last b x y z :
  v4_fields (decimal (b2z b)) 0 O [x; y; z] = Some [x; y; z; b].
Proof. destruct b; reflexivity. Qed.

Lemma decimal_byte_chars b :
  string_all is_digit (decimal (b2z b)) = true /\ decimal (b2z b) <> "".
Proof. destruct b; vm_compute; done. Qed.

Lemma parse_v4_string a b c d : parse_v4 (v4_string a b c d) = Some [a; b; c; d].
Proof.
  unfold parse_v4, v4_string. rewrite !v4_field_dot by (simpl; lia). apply v4_field_last.
Qed.

Lemma digits_no_char c s : string_all is_digit s = true -> is_digit c = false -> no_char c s.
Proof.
  intros Hs Hc. unfold no_char. induction s as [|d s IH]; [done|]. simpl in *.
  apply andb_true_iff in Hs as [Hd Hs]. rewrite IH, andb_true_r by done.
  apply negb_true_iff, Ascii.eqb_neq. congruence.
Qed.

Lemma v4_string_no_char a b c d x :
  is_digit x = false -> x <> "."%char -> no_char x (v4_string a b c d).
Proof.
  intros Hx Hdot. unfold v4_string.
  repeat (apply no_char_app; split); try (by apply no_char_cons);
    apply digits_no_char; try done; apply decimal_byte_chars.
Qed.

Lemma first_sep_digits s c rest :
  string_all is_digit s = true -> c = "."%char \/ c = ":"%char ->
  first_sep (s +:+ String c rest) = Some c.
Proof.
  intros Hs Hc. induction s as [|d s IH].
  - rewrite str_nil_app. simpl. rewrite decide_True by tauto. done.
  - simpl in Hs. apply andb_true_iff in Hs as [Hd Hs]. rewrite str_cons_app. simpl.
    rewrite decide_False by (intros [->|[->| ->]]; discriminate). by apply IH.
Qed.

Lemma parse_addr_v4 a b c d : parse_addr (v4_string a b c d) = Some [a; b; c; d].
Proof.
  unfold parse_addr. unfold v4_string at 1.
  destruct (decimal_byte_chars a) as [Ha _].
  change ("." +:+ ?x) with (String "." x).
  rewrite first_sep_digits by auto. apply parse_v4_string.
Qed.

Lemma ParseIP_v4 a b c d : ParseIP (v4_string a b c d) = Some (v4_in_v6_prefix ++ [a; b; c; d]).
Proof. unfold ParseIP. by rewrite parse_addr_v4. Qed.

Lemma hex_encode_no_char c bs : hex_val c = None -> no_char c (hex_encode bs).
Proof.
  intros Hc. induction bs as [|b bs IH]; [done|]. cbn [hex_encode]. pose proof (b2z_range b).
  assert (forall d, 0 <= d < 16 -> c <> hex_char d) as Hd.
  { intros d Hd ->. rewrite hex_val_char in Hc by done. done. }
  pose proof (Z.mod_pos_bound (b2z b) 16).
  assert (0 <= b2z b / 16 < 16) by (split; [apply Z.div_pos|apply Z.div_lt_upper_bound]; lia).
  rewrite !no_char_cons. auto with lia.
Qed.

(** ** IPv4 networks *)

Definition ip32 (a b c d : byte) : Z :=
  b2z a * 2^24 + b2z b * 2^16 + b2z c * 2^8 + b2z d.

(** The mask byte with [k] one bits. *)
Definition mask_byte (k : Z) : byte := if 8 <=? k then xff else z2b (255 - Z.shiftr 255 k).

Definition all_bytes : list byte := map (fun n => z2b (Z.of_nat n)) (seq 0 256).

Lemma all_bytes_complete b : In b all_bytes.
Proof.
  unfold all_bytes. apply in_map_iff. exists (Z.to_nat (b2z b)).
  pose proof (b2z_range b). split; [rewrite Z2Nat.id by lia; apply z2b_b2z|].
  apply in_seq. lia.
Qed.

Lemma byte_and_mask a k :
  0 <= k <= 8 -> b2z (byte_and a (mask_byte k)) = b2z a / 2 ^ (8 - k) * 2 ^ (8 - k).
Proof.
  intros Hk.
  assert (forallb (fun k => forallb (fun a =>
      b2z (byte_and a (mask_byte k)) =? b2z a / 2 ^ (8 - k) * 2 ^ (8 - k)) all_bytes)
    [0; 1; 2; 3; 4; 5; 6; 7; 8] = true) as H by (vm_compute; reflexivity).
  rewrite forallb_forall in H. specialize (H k). rewrite forallb_forall in H.
  apply Z.eqb_eq, H; [|apply all_bytes_complete].
  assert (k = 0 \/ k = 1 \/ k = 2 \/ k = 3 \/ k = 4 \/ k = 5 \/ k = 6 \/ k = 7 \/ k = 8) by lia.
  simpl. intuition.
Qed.

Lemma byte_and_mask_eq a e k :
  0 <= k <= 8 ->
  byte_and (byte_and a (mask_byte k)) (mask_byte k) = byte_and e (mask_byte k) <->
  b2z a / 2 ^ (8 - k) = b2z e / 2 ^ (8 - k).
Proof.
  intros Hk. pose proof (Z.pow_pos_nonneg 2 (8 - k)).
  assert (b2z (byte_and (byte_and a (mask_byte k)) (mask_byte k)) =
          b2z a / 2 ^ (8 - k) * 2 ^ (8 - k)) as Hidem.
  { rewrite !byte_and_mask by done. by rewrite Z.div_mul by lia. }
  split; intros Heq.
  - apply (f_equal b2z) in Heq. rewrite Hidem, byte_and_mask in Heq by done. nia.
  - apply b2z_inj. rewrite Hidem, byte_and_mask, Heq by done. done.
Qed.

Definition ones_in (n : Z) (i : Z) : Z := Z.max 0 (Z.min 8 (n - 8 * i)).

Lemma cidr_mask_v4 n :
  0 <= n <= 32 ->
  cidr_mask 4 n = [mask_byte (ones_in n 0); mask_byte (ones_in n 1);
                   mask_byte (ones_in n 2); mask_byte (ones_in n 3)].
Proof.
  intros Hn.
  assert (forallb (fun n => bool_decide (cidr_mask 4 (Z.of_nat n) =
    [mask_byte (ones_in (Z.of_nat n) 0); mask_byte (ones_in (Z.of_nat n) 1);
     mask_byte (ones_in (Z.of_nat n) 2); mask_byte (ones_in (Z.of_nat n) 3)])) (seq 0 33) = true)
    as H by (vm_compute; reflexivity).
  rewrite forallb_forall in H. specialize (H (Z.to_nat n)). rewrite Z2Nat.id in H by lia.
  eapply bool_decide_eq_true_1, H, in_seq. lia.
Qed.

(** Two numbers agree above bit [s] exactly when they do above bit [s - 8] of
    their upper parts and above bit [s] of their last bytes. *)
Lemma shift_step x y x' y' s :
  0 <= y < 256 -> 0 <= y' < 256 -> 0 <= s ->
  (x * 256 + y) / 2 ^ s = (x' * 256 + y') / 2 ^ s <->
  x / 2 ^ Z.max 0 (s - 8) = x' / 2 ^ Z.max 0 (s - 8) /\
  y / 2 ^ Z.min 8 s = y' / 2 ^ Z.min 8 s.
Proof.
  intros Hy Hy' Hs. destruct (Z.le_gt_cases s 8) as [H8|H8].
  - rewrite Z.max_l, Z.min_r, !Z.div_1_r by lia.
    pose proof (Z.pow_pos_nonneg 2 s). pose proof (Z.pow_pos_nonneg 2 (8 - s)).
    assert (256 = 2 ^ (8 - s) * 2 ^ s) as E.
    { rewrite <- Z.pow_add_r by lia. change 256 with (2 ^ 8). f_equal. lia. }
    rewrite E, !Z.mul_assoc, !Z.div_add_l by lia.
    assert (forall z, 0 <= z < 256 -> 0 <= z / 2 ^ s < 2 ^ (8 - s)) as Hq.
    { intros z Hz. split; [apply Z.div_pos; lia|].
      apply Z.div_lt_upper_bound; [lia|]. rewrite Z.mul_comm, <- E. lia. }
    pose proof (Hq y Hy). pose proof (Hq y' Hy').
    split; [intros Heq|by intros [-> ->]].
    assert (x = x') by (destruct (Z.lt_trichotomy x x') as [|[|]]; nia). subst. lia.
  - rewrite Z.max_r, Z.min_l by lia. change (2 ^ 8) with 256.
    rewrite (Z.div_small y 256), (Z.div_small y' 256) by done.
    assert (2 ^ s = 256 * 2 ^ (s - 8)) as ->.
    { change 256 with (2 ^ 8). rewrite <- Z.pow_add_r by lia. f_equal. lia. }
    pose proof (Z.pow_pos_nonneg 2 (s - 8)).
    rewrite <- !Z.div_div, !Z.div_add_l, (Z.div_small y 256), (Z.div_small y' 256) by lia.
    rewrite !Z.add_0_r. tauto.
Qed.

(** The network prefix of a four-byte address, byte by byte. *)
Lemma leading_bits a b c d e f g h n :
  0 <= n <= 32 ->
  Z.shiftr (ip32 a b c d) (32 - n) = Z.shiftr (ip32 e f g h) (32 - n) <->
  b2z a / 2 ^ (8 - ones_in n 0) = b2z e / 2 ^ (8 - ones_in n 0) /\
  b2z b / 2 ^ (8 - ones_in n 1) = b2z f / 2 ^ (8 - ones_in n 1) /\
  b2z c / 2 ^ (8 - ones_in n 2) = b2z g / 2 ^ (8 - ones_in n 2) /\
  b2z d / 2 ^ (8 - ones_in n 3) = b2z h / 2 ^ (8 - ones_in n 3).
Proof.
  intros Hn. rewrite !Z.shiftr_div_pow2 by lia.
  assert (forall a b c d, ip32 a b c d =
    ((b2z a * 256 + b2z b) * 256 + b2z c) * 256 + b2z d) as E by (intros; unfold ip32; lia).
  rewrite !E, !shift_step by auto with go lia. unfold ones_in.
  replace (8 - Z.max 0 (Z.min 8 (n - 8 * 3))) with (Z.min 8 (32 - n)) by lia.
  replace (8 - Z.max 0 (Z.min 8 (n - 8 * 2))) with (Z.min 8 (Z.max 0 (32 - n - 8))) by lia.
  replace (8 - Z.max 0 (Z.min 8 (n - 8 * 1)))
    with (Z.min 8 (Z.max 0 (Z.max 0 (32 - n - 8) - 8))) by lia.
  replace (8 - Z.max 0 (Z.min 8 (n - 8 * 0)))
    with (Z.max 0 (Z.max 0 (Z.max 0 (32 - n - 8) - 8) - 8)) by lia.
  tauto.
Qed.

Lemma dtoi_decimal n : 0 <= n < 0xFFFFFF -> dtoi (decimal n) = Some n.
Proof.
  intros Hn. unfold dtoi. pose proof (digits_value_decimal n ltac:(lia)) as E.
  destruct (String.eqb_spec (decimal n) "") as [E0|_].
  - rewrite E0 in E. injection E as <-. discriminate E0.
  - rewrite E, (proj2 (Z.ltb_lt _ _)) by lia. done.
Qed.

Lemma To4_4 a b c d : To4 [a; b; c; d] = Some [a; b; c; d].
Proof. reflexivity. Qed.

Lemma To4_mapped a b c d : To4 (v4_in_v6_prefix ++ [a; b; c; d]) = Some [a; b; c; d].
Proof. reflexivity. Qed.

(** A network written in CIDR notation contains the addresses that agree with
    it on the first [n] bits. *)
Lemma ParseCIDR_v4 a b c d n :
  0 <= n <= 32 ->
  exists net, ParseCIDR (v4_string a b c d +:+ "/" +:+ decimal n) = Some net /\
    forall e f g h, Contains_ip net (v4_in_v6_prefix ++ [e; f; g; h]) =
      bool_decide (Z.shiftr (ip32 a b c d) (32 - n) = Z.shiftr (ip32 e f g h) (32 - n)).
Proof.
  intros Hn. change ("/" +:+ decimal n) with (String "/" (decimal n)).
  assert (no_char "/" (v4_string a b c d)) as Hs by by apply v4_string_no_char.
  unfold ParseCIDR, IndexByte. rewrite index_from_app by done.
  rewrite (proj2 (Z.ltb_ge _ _)) by (unfold strlen; lia).
  rewrite Z.add_0_l, substr_to_app, substr_from_app_cons, parse_addr_v4, dtoi_decimal by lia.
  rewrite (proj2 (Z.ltb_ge _ _)) by (simpl; lia).
  eexists. split; [done|]. intros e f g h.
  change (length [a; b; c; d]) with 4%nat. rewrite cidr_mask_v4 by done.
  unfold Contains_ip. cbn [net_ip net_mask zip_with]. rewrite To4_4, To4_mapped.
  cbn [length zip_with]. do 2 (case_decide; try (simpl in *; lia)).
  apply bool_decide_ext. rewrite (leading_bits a b c d e f g h n Hn).
  rewrite <- (byte_and_mask_eq a e), <- (byte_and_mask_eq b f), <- (byte_and_mask_eq c g),
    <- (byte_and_mask_eq d h) by (unfold ones_in; lia).
  split; [by intros [= ? ? ? ?]|by intros (-> & -> & -> & ->)].
Qed.

(** ** IPv6 addresses as text *)

Lemma land15_range v : 0 <= Z.land v 15 < 16.
Proof. change 15 with (Z.ones 4). rewrite Z.land_ones by lia. apply Z.mod_pos_bound. lia. Qed.

Lemma hex_char_ne c d : hex_val c = None -> 0 <= d < 16 -> c <> hex_char d.
Proof. intros Hc Hd ->. by rewrite hex_val_char in Hc. Qed.

Lemma hex16_no_char c v : hex_val c = None -> no_char c (hex16 v).
Proof.
  intros Hc. unfold hex16.
  assert (forall w, no_char c (String (hex_char (Z.land w 15)) "")) as H.
  { intros w. apply no_char_cons. split; [|done]. apply hex_char_ne; [done|apply land15_range]. }
  repeat case_match; rewrite ?no_char_app; auto.
Qed.

Lemma concat_no_char c l :
  c <> ":"%char -> Forall (no_char c) l -> no_char c (String.concat ":" l).
Proof.
  intros Hc. induction 1 as [|x l Hx _ IH]; [done|]. destruct l as [|y l]; [done|].
  change (String.concat ":" (x :: y :: l)) with (x +:+ ":" +:+ String.concat ":" (y :: l)).
  rewrite !no_char_app. split; [done|]. split; [by apply no_char_cons|done].
Qed.

Lemma v6_string_no_char c gs : hex_val c = None -> c <> ":"%char -> no_char c (v6_string gs).
Proof.
  intros Hc Hne. assert (forall l, no_char c (String.concat ":" (map hex16 l))) as H.
  { intros l. apply concat_no_char; [done|]. apply Forall_map, Forall_forall. intros x _.
    by apply hex16_no_char. }
  unfold v6_string. destruct (longest_zero_run _ _ _) as [zs zl]. case_decide; [done|].
  rewrite !no_char_app. split; [done|]. split; [by rewrite !no_char_cons|done].
Qed.

Lemma v6_string_colon gs : (2 <= length gs)%nat -> ~ no_char ":" (v6_string gs).
Proof.
  intros Hl. unfold v6_string. destruct (longest_zero_run _ _ _) as [zs zl]. case_decide.
  - destruct gs as [|a [|b gs]]; [simpl in Hl; lia..|].
    change (String.concat ":" (map hex16 (a :: b :: gs)))
      with (hex16 a +:+ ":" +:+ String.concat ":" (map hex16 (b :: gs))).
    rewrite !no_char_app, no_char_cons. naive_solver.
  - rewrite !no_char_app, no_char_cons. naive_solver.
Qed.

Lemma HasPrefix_app_nonempty s t c : s <> "" -> no_char c s -> HasPrefix (s +:+ t) (String c "") = false.
Proof.
  destruct s as [|d s]; [done|]. intros _ [Hd _]%no_char_cons. rewrite str_cons_app. simpl.
  by rewrite decide_False.
Qed.

Lemma groups16_length n : forall ip, length ip = (2 * n)%nat -> length (groups16 ip) = n.
Proof.
  induction n as [|n IH]; intros [|a [|b ip]] H; simpl in *; try lia. by rewrite IH by lia.
Qed.

Lemma decimal_no_colon z : 0 <= z -> no_char ":" (decimal z).
Proof.
  intros Hz. unfold decimal. rewrite (proj2 (Z.ltb_ge z 0)) by lia.
  generalize (decimal_fuel z). intros fuel. revert z Hz.
  assert (forall n z acc, 0 <= z -> no_char ":" acc -> no_char ":" (digits n z acc)) as H.
  { induction n as [|n IH]; intros z acc Hz Ha; [done|]. cbn [digits].
    assert (no_char ":" (String (digit_char (z mod 10)) acc)) as Hd.
    { apply no_char_cons. split; [|done]. pose proof (Z.mod_pos_bound z 10 ltac:(lia)) as Hm.
      intros E. apply (f_equal code) in E. unfold digit_char in E.
      rewrite code_chr in E by lia. change (code ":") with 58 in E. lia. }
    case_match; [done|]. apply IH; [apply Z.div_pos; lia|done]. }
  intros z Hz. by apply H.
Qed.

(** An IPv6 address with a port but no brackets is not an address Go can dial. *)
Lemma SplitHostPort_v6 ip port :
  length ip = 16%nat -> To4 ip = None -> 0 <= port ->
  SplitHostPort (IP_String ip +:+ ":" +:+ decimal port) = Err "too many colons in address".
Proof.
  intros Hl H4 Hp. unfold IP_String. rewrite H4, decide_True by done.
  pose proof (groups16_length 8 ip Hl) as Hg.
  pose proof (v6_string_colon (groups16 ip) ltac:(lia)) as Hc.
  apply SplitHostPort_colons; [done| |by apply decimal_no_colon].
  apply HasPrefix_app_nonempty; [|by apply v6_string_no_char].
  intros E. rewrite E in Hc. by apply Hc.
Qed.
