(* ===== verification/Sha256.v ===== *)
(** * SHA-256 ([crypto/sha256]), as [ValidateCredentials] uses it

    [Sum256] of the standard library: padding, message schedule, compression on
    32-bit words. It is executable, so that cache keys of concrete credentials
    evaluate; the development relies only on the length of a digest. *)
From S2P Require Import Prelude.

Definition w32 (z : Z) : Z := Z.land z 0xFFFFFFFF.
Definition add32 (a b : Z) : Z := w32 (a + b).
Definition rotr (n x : Z) : Z := w32 (Z.lor (Z.shiftr x n) (Z.shiftl x (32 - n))).
Definition not32 (x : Z) : Z := Z.lxor x 0xFFFFFFFF.

(** The constants come from the primes: the first 32 bits of the fractional parts
    of the cube roots of the first sixty-four, and of the square roots of the
    first eight. [cube_root bits n r] extends the root [r] found so far bit by
    bit. *)
Fixpoint cube_root (bits : nat) (n r : Z) : Z :=
  match bits with
  | O => r
  | S bits =>
      let r' := r + 2 ^ Z.of_nat bits in
      cube_root bits n (if r' * r' * r' <=? n then r' else r)
  end.

Definition is_prime (n : nat) : bool :=
  forallb (fun d => negb (Nat.eqb (Nat.modulo n d) 0)) (seq 2 (Nat.sqrt n - 1)).
Definition primes : list Z :=
  Eval vm_compute in map Z.of_nat (List.filter is_prime (seq 2 310)).

Definition K : list Z :=
  Eval vm_compute in map (fun p => w32 (cube_root 36 (Z.shiftl p 96) 0)) primes.
Definition H0 : list Z :=
  Eval vm_compute in map (fun p => w32 (Z.sqrt (Z.shiftl p 64))) (take 8 primes).

Definition word_of (b : list byte) : Z := fold_left (fun acc x => acc * 256 + b2z x) b 0.
Definition bytes_of_word (w : Z) : list byte :=
  [z2b (Z.shiftr w 24); z2b (Z.shiftr w 16); z2b (Z.shiftr w 8); z2b w].

Fixpoint words (n : nat) (b : list byte) : list Z :=
  match n with O => [] | S n => word_of (take 4 b) :: words n (drop 4 b) end.

(** The schedule grows a window of the last sixteen words, newest first. *)
Fixpoint schedule (n : nat) (rev_w : list Z) : list Z :=
  match n with
  | O => rev rev_w
  | S n =>
      let w i := nth i rev_w 0 in
      let s0 := Z.lxor (Z.lxor (rotr 7 (w 14%nat)) (rotr 18 (w 14%nat))) (Z.shiftr (w 14%nat) 3) in
      let s1 := Z.lxor (Z.lxor (rotr 17 (w 1%nat)) (rotr 19 (w 1%nat))) (Z.shiftr (w 1%nat) 10) in
      schedule n (add32 (add32 (w 15%nat) s0) (add32 (w 6%nat) s1) :: rev_w)
  end.

Definition round (st : list Z) (kw : Z * Z) : list Z :=
  match st with
  | [a; b; c; d; e; f; g; h] =>
      let S1 := Z.lxor (Z.lxor (rotr 6 e) (rotr 11 e)) (rotr 25 e) in
      let ch := Z.lxor (Z.land e f) (Z.land (not32 e) g) in
      let t1 := add32 (add32 h S1) (add32 ch (add32 kw.1 kw.2)) in
      let S0 := Z.lxor (Z.lxor (rotr 2 a) (rotr 13 a)) (rotr 22 a) in
      let maj := Z.lxor (Z.lxor (Z.land a b) (Z.land a c)) (Z.land b c) in
      [add32 t1 (add32 S0 maj); a; b; c; add32 d t1; e; f; g]
  | _ => st
  end.

Definition compress (st : list Z) (block : list byte) : list Z :=
  let w := schedule 48 (rev (words 16 block)) in
  zip_with add32 st (fold_left round (combine K w) st).

Fixpoint blocks (n : nat) (st : list Z) (msg : list byte) : list Z :=
  match n with O => st | S n => blocks n (compress st (take 64 msg)) (drop 64 msg) end.

Definition pad (msg : list byte) : list byte :=
  let zeros := Z.to_nat ((55 - zlen msg) mod 64) in
  let bits := 8 * zlen msg in
  msg ++ [x80] ++ replicate zeros x00 ++ bytes_of_word (Z.shiftr bits 32) ++ bytes_of_word bits.

Definition Sum256 (msg : list byte) : list byte :=
  let p := pad msg in
  flat_map bytes_of_word (blocks (Nat.div (length p) 64) H0 p).

Lemma round_length st kw : length st = 8%nat -> length (round st kw) = 8%nat.
Proof. by destruct st as [|? [|? [|? [|? [|? [|? [|? [|? [|]]]]]]]]]. Qed.

Lemma compress_length st block : length st = 8%nat -> length (compress st block) = 8%nat.
Proof.
  intros H. unfold compress. rewrite length_zip_with. rewrite H.
  assert (forall l st, length st = 8%nat -> length (fold_left round l st) = 8%nat) as ->; [|done|done].
  induction l; simpl; auto using round_length.
Qed.

Lemma Sum256_length msg : length (Sum256 msg) = 32%nat.
Proof.
  unfold Sum256. assert (forall n st m, length st = 8%nat -> length (blocks n st m) = 8%nat) as Hb.
  { induction n; simpl; auto using compress_length. }
  specialize (Hb (Nat.div (length (pad msg)) 64) H0 (pad msg) eq_refl).
  by destruct (blocks _ _ _) as [|? [|? [|? [|? [|? [|? [|? [|? [|]]]]]]]]].
Qed.

Example primes_64 : length primes = 64%nat /\ nth 63 primes 0 = 311.
Proof. by vm_compute. Qed.
Example Sum256_abc : firstn 4 (Sum256 (map z2b [97; 98; 99])) = [xba; x78; x16; xbf].
Proof. vm_compute. reflexivity. Qed.
