(* ===== verification/GoTime.v ===== *)
(** * Go's [time] package: calendar, formats, RFC 3339

    An instant is the number of nanoseconds since the Unix epoch. Formatting is
    in local time: the offset of the local zone at an instant is the time zone
    database's, a parameter ([Zone]). [ParseRFC3339] follows the steps of
    [time.Parse] on the layout [time.RFC3339]. *)
From S2P Require Import Prelude GoStrings.

(** The offset of local time from UTC, in seconds, at an instant. *)
Class Zone := { zone_offset : Z -> Z }.
#[export] Instance utc : Zone := {| zone_offset _ := 0 |}.

(** ** The proleptic Gregorian calendar *)

Definition days_from_civil (y m d : Z) : Z :=
  let y := if m <=? 2 then y - 1 else y in
  let era := y / 400 in
  let yoe := y - era * 400 in
  let doy := (153 * (m + (if 2 <? m then -3 else 9)) + 2) / 5 + d - 1 in
  let doe := yoe * 365 + yoe / 4 - yoe / 100 + doy in
  era * 146097 + doe - 719468.

Definition civil_from_days (z : Z) : Z * Z * Z :=
  let z := z + 719468 in
  let era := z / 146097 in
  let doe := z - era * 146097 in
  let yoe := (doe - doe / 1460 + doe / 36524 - doe / 146096) / 365 in
  let y := yoe + era * 400 in
  let doy := doe - (365 * yoe + yoe / 4 - yoe / 100) in
  let mp := (5 * doy + 2) / 153 in
  let d := doy - (153 * mp + 2) / 5 + 1 in
  let m := if mp <? 10 then mp + 3 else mp - 9 in
  ((if m <=? 2 then y + 1 else y), m, d).

Definition leap (y : Z) : bool :=
  (y mod 4 =? 0) && (negb (y mod 100 =? 0) || (y mod 400 =? 0)).
Definition days_in (y m : Z) : Z :=
  if m =? 2 then (if leap y then 29 else 28)
  else if (m =? 4) || (m =? 6) || (m =? 9) || (m =? 11) then 30 else 31.

(** ** Formats *)

Definition pad_to (n : nat) (s : string) : string :=
  String.concat "" (replicate (n - String.length s) "0") +:+ s.

Definition day_names : list string := ["Sun"; "Mon"; "Tue"; "Wed"; "Thu"; "Fri"; "Sat"].
Definition month_names : list string :=
  ["Jan"; "Feb"; "Mar"; "Apr"; "May"; "Jun"; "Jul"; "Aug"; "Sep"; "Oct"; "Nov"; "Dec"].

Section Formats.
Context `{Zone}.

Definition local_seconds (t : Z) : Z := t / Second + zone_offset t.
Definition civil (t : Z) : Z * Z * Z := civil_from_days (local_seconds t / 86400).

(** [t.Format("2006-01")] *)
Definition FormatMonth (t : Z) : string :=
  let '(y, m, _) := civil t in pad_to 4 (decimal y) +:+ "-" +:+ pad_to 2 (decimal m).

(** [t.Format("15:04")] *)
Definition FormatClock (t : Z) : string :=
  let s := local_seconds t mod 86400 in
  pad_to 2 (decimal (s / 3600)) +:+ ":" +:+ pad_to 2 (decimal (s / 60 mod 60)).

(** [t.Format(time.RFC3339)] *)
Definition FormatRFC3339 (t : Z) : string :=
  let '(y, m, d) := civil t in
  let s := local_seconds t mod 86400 in
  let off := Z.quot (zone_offset t) 60 in
  let zone := if zone_offset t =? 0 then "Z"
              else (if off <? 0 then "-" else "+") +:+ pad_to 2 (decimal (Z.abs off / 60))
                   +:+ ":" +:+ pad_to 2 (decimal (Z.abs off mod 60)) in
  pad_to 4 (decimal y) +:+ "-" +:+ pad_to 2 (decimal m) +:+ "-" +:+ pad_to 2 (decimal d)
    +:+ "T" +:+ pad_to 2 (decimal (s / 3600)) +:+ ":" +:+ pad_to 2 (decimal (s / 60 mod 60))
    +:+ ":" +:+ pad_to 2 (decimal (s mod 60)) +:+ zone.

(** [t.Format(http.TimeFormat)], ["Mon, 02 Jan 2006 15:04:05 GMT"]: the
    letters [GMT] are copied from the layout, whatever the zone. *)
Definition FormatHTTP (t : Z) : string :=
  let '(y, m, d) := civil t in
  let days := local_seconds t / 86400 in
  let s := local_seconds t mod 86400 in
  nth (Z.to_nat ((days + 4) mod 7)) day_names "" +:+ ", " +:+ pad_to 2 (decimal d) +:+ " " +:+
    nth (Z.to_nat (m - 1)) month_names "" +:+ " " +:+ pad_to 4 (decimal y) +:+ " " +:+
    pad_to 2 (decimal (s / 3600)) +:+ ":" +:+ pad_to 2 (decimal (s / 60 mod 60)) +:+ ":" +:+
    pad_to 2 (decimal (s mod 60)) +:+ " GMT".
End Formats.

(** Months and time stamps are in ASCII. *)
Lemma pad_to_ascii n z : is_ascii (pad_to n (decimal z)) = true.
Proof.
  unfold pad_to. rewrite is_ascii_app, decimal_ascii, andb_true_r.
  generalize (n - String.length (decimal z))%nat. intros k. induction k as [|k IH]; [done|].
  by destruct k.
Qed.

Lemma FormatMonth_ascii `{Zone} t : is_ascii (FormatMonth t) = true.
Proof.
  unfold FormatMonth. destruct (civil t) as [[y m] d]. by rewrite !is_ascii_app, !pad_to_ascii.
Qed.

Lemma FormatRFC3339_ascii `{Zone} t : is_ascii (FormatRFC3339 t) = true.
Proof.
  unfold FormatRFC3339. destruct (civil t) as [[y m] d].
  destruct (zone_offset t =? 0), (Z.quot (zone_offset t) 60 <? 0); by rewrite !is_ascii_app, !pad_to_ascii.
Qed.

Arguments FormatMonth : simpl never.
Arguments FormatClock : simpl never.
Arguments FormatRFC3339 : simpl never.
Arguments FormatHTTP : simpl never.

(** ** [time.Parse(time.RFC3339, s)] *)

(** [getnum]: two digits, or one when [fixed] does not hold. *)
Definition getnum (s : string) (fixed : bool) : option (Z * string) :=
  match s with
  | String a s' =>
      if negb (is_digit a) then None else
      match s' with
      | String b s'' =>
          if is_digit b then Some (digit_val a * 10 + digit_val b, s'')
          else if fixed then None else Some (digit_val a, s')
      | EmptyString => if fixed then None else Some (digit_val a, s')
      end
  | EmptyString => None
  end.

Definition expect (c : Ascii.ascii) (s : string) : option string :=
  match s with String d s => if decide (c = d) then Some s else None | _ => None end.

Definition in_range (lo hi v : Z) : option unit :=
  if (lo <=? v) && (v <=? hi) then Some () else None.

(** Four digits of the year. *)
Definition get_year (s : string) : option (Z * string) :=
  if decide (String.length s < 4)%nat then None
  else y ← digits_value (string_take 4 s) 0; Some (y, string_drop 4 s).

(** A run of digits at the front, its value and its length, kept to nine. *)
Fixpoint frac_digits (s : string) (n : nat) (v : Z) : Z * string :=
  match s with
  | String c s' =>
      if is_digit c
      then match n with
           | O => frac_digits s' O v
           | S n => frac_digits s' n (v + digit_val c * 10 ^ Z.of_nat n)
           end
      else (v, s)
  | EmptyString => (v, s)
  end.

(** An optional fraction of a second, after [.] or [,]. *)
Definition get_frac (s : string) : Z * string :=
  match s with
  | String c (String d s') =>
      if decide (c = "."%char \/ c = ","%char) then
        if is_digit d then frac_digits (String d s') 9 0 else (0, s)
      else (0, s)
  | _ => (0, s)
  end.

(** [Z], or a sign, hours and minutes: the offset in seconds. *)
Definition get_zone (s : string) : option (Z * string) :=
  match expect "Z"%char s with
  | Some s => Some (0, s)
  | None =>
      match s with
      | String sign s =>
          '(hr, s) ← getnum s true; s ← expect ":"%char s; '(mm, s) ← getnum s true;
          _ ← in_range 0 24 hr; _ ← in_range 0 60 mm;
          if decide (sign = "+"%char) then Some ((hr * 60 + mm) * 60, s)
          else if decide (sign = "-"%char) then Some (- ((hr * 60 + mm) * 60), s)
          else None
      | EmptyString => None
      end
  end.

Definition ParseRFC3339 (s : string) : option Z :=
  '(y, s) ← get_year s; s ← expect "-"%char s;
  '(m, s) ← getnum s true; _ ← in_range 1 12 m; s ← expect "-"%char s;
  '(d, s) ← getnum s true; s ← expect "T"%char s;
  '(hh, s) ← getnum s false; _ ← in_range 0 23 hh; s ← expect ":"%char s;
  '(mi, s) ← getnum s true; _ ← in_range 0 59 mi; s ← expect ":"%char s;
  '(ss, s) ← getnum s true; _ ← in_range 0 59 ss;
  let '(ns, s) := get_frac s in
  '(off, s) ← get_zone s;
  _ ← in_range 1 (days_in y m) d;
  if String.eqb s "" then
    Some ((days_from_civil y m d * 86400 + hh * 3600 + mi * 60 + ss - off) * Second + ns)
  else None.

Example parse_1 : ParseRFC3339 "2026-03-19T00:00:00Z" = Some (1773878400 * Second).
Proof. vm_compute. reflexivity. Qed.
Example parse_2 : ParseRFC3339 "2026-03-19T02:00:00.5+02:00" = Some (1773878400 * Second + 500000000).
Proof. vm_compute. reflexivity. Qed.
Example parse_3 : ParseRFC3339 "2026-02-29T00:00:00Z" = None /\ ParseRFC3339 "2026-03-19" = None.
Proof. vm_compute. auto. Qed.
Example format_1 :
  FormatRFC3339 (1773878400 * Second) = "2026-03-19T00:00:00Z" /\
  FormatMonth (1773878400 * Second) = "2026-03".
Proof. vm_compute. auto. Qed.
Example format_2 : FormatHTTP (1773878400 * Second) = "Thu, 19 Mar 2026 00:00:00 GMT".
Proof. vm_compute. reflexivity. Qed.
