(* ===== verification/GoPath.v ===== *)
(** * Paths ([path/filepath], and the cleaning of [http.ServeMux]) *)
From S2P Require Import Prelude GoStrings.

(** One element of a path against the elements kept so far, the last one first. *)
Definition clean_element (rooted : bool) (kept : list string) (e : string) : list string :=
  if String.eqb e "" || String.eqb e "." then kept
  else if String.eqb e ".." then
    match kept with
    | [] => if rooted then [] else [".."]
    | k :: ks => if String.eqb k ".." then ".." :: kept else ks
    end
  else e :: kept.

(** [path.Clean] *)
Definition Clean (p : string) : string :=
  let rooted := HasPrefix p "/" in
  let s := String.concat "/" (rev (fold_left (clean_element rooted) (SplitByte p "/"%char) [])) in
  if rooted then "/" +:+ s else if String.eqb s "" then "." else s.

(** [filepath.Dir] *)
Definition Dir (p : string) : string := Clean (substr_to p (LastIndexByte p "/"%char + 1)).

(** [filepath.Join] *)
Fixpoint Join (elems : list string) : string :=
  match elems with
  | [] => ""
  | e :: rest => if String.eqb e "" then Join rest else Clean (String.concat "/" (e :: rest))
  end.

(** [cleanPath] of [net/http]: rooted, and with its final slash. *)
Definition cleanPath (p : string) : string :=
  if String.eqb p "" then "/" else
  let p := if HasPrefix p "/" then p else "/" +:+ p in
  let np := Clean p in
  if (LastIndexByte p "/"%char =? strlen p - 1) && negb (String.eqb np "/") then np +:+ "/" else np.

Example Join_Dir : Join [Dir "/opt/proxy/users.json"; "usage.json"] = "/opt/proxy/usage.json".
Proof. vm_compute. reflexivity. Qed.
Example Join_here : Join [Dir "users.json"; "usage.json"] = "usage.json".
Proof. vm_compute. reflexivity. Qed.
Example Clean_dots : Clean "../a/./b//../c/" = "../a/c".
Proof. vm_compute. reflexivity. Qed.
Example cleanPath_keeps_slash : cleanPath "api//stats/" = "/api/stats/".
Proof. vm_compute. reflexivity. Qed.
