(* ===== verification/GoHttp.v ===== *)
(** * HTTP responses: the interface handlers write to ([net/http])

    A handler is a function of an [http.ResponseWriter]. [ResponseWriter] is that
    interface: its operations, and what every implementation promises, stated
    against the plain [Response] it stands for. The handlers of the proxy are
    written and proved against the class; [SniServer] shows that the proxy's own
    [simpleResponseWriter] keeps the promise. *)
From S2P Require Import Prelude GoStrings.

(** What has been answered so far: no status yet while the header is still open;
    once it is sent, the header is frozen. *)
Record Response := MkResponse {
  r_status : option Z;
  r_header : gmap string (list string);
  r_body : string
}.

Definition no_response : Response := MkResponse None ∅ "".

(** [w.Header().Set(k, v)], for a key in canonical form. *)
Definition res_set (k v : string) (r : Response) : Response :=
  if decide (r_status r = None) then MkResponse None (<[k := [v]]> (r_header r)) (r_body r) else r.

(** [w.Header().Add(k, v)] *)
Definition res_add (k v : string) (r : Response) : Response :=
  if decide (r_status r = None)
  then MkResponse None (<[k := default [] (r_header r !! k) ++ [v]]> (r_header r)) (r_body r) else r.

(** [w.Header().Del(k)] *)
Definition res_del (k : string) (r : Response) : Response :=
  if decide (r_status r = None) then MkResponse None (delete k (r_header r)) (r_body r) else r.

(** [w.WriteHeader(status)]: only the first call counts. *)
Definition res_write_header (status : Z) (r : Response) : Response :=
  if decide (r_status r = None) then MkResponse (Some status) (r_header r) (r_body r) else r.

(** [w.Write(b)] sends the header first, with status 200. *)
Definition res_write (b : string) (r : Response) : Response :=
  let r := res_write_header 200 r in MkResponse (r_status r) (r_header r) (r_body r +:+ b).

Class ResponseWriter (W : Type) := {
  set_header : string -> string -> W -> W;
  add_header : string -> string -> W -> W;
  del_header : string -> W -> W;
  write_header : Z -> W -> W;
  write : string -> W -> W;
  represents : W -> Response -> Prop;
  set_header_ok w r k v : represents w r -> represents (set_header k v w) (res_set k v r);
  add_header_ok w r k v : represents w r -> represents (add_header k v w) (res_add k v r);
  del_header_ok w r k : represents w r -> represents (del_header k w) (res_del k r);
  write_header_ok w r s : represents w r -> represents (write_header s w) (res_write_header s r);
  write_ok w r b : represents w r -> represents (write b w) (res_write b r)
}.

(** The response itself is a writer. *)
#[export] Instance response_writer : ResponseWriter Response.
Proof.
  refine {| set_header := res_set; add_header := res_add; del_header := res_del;
            write_header := res_write_header; write := res_write;
            represents := eq |}; by intros; subst.
Defined.

#[export] Hint Resolve set_header_ok add_header_ok del_header_ok write_header_ok write_ok : go.

(** [http.StatusText] for the codes in use. *)
Definition StatusText (code : Z) : string :=
  if code =? 200 then "OK" else if code =? 400 then "Bad Request"
  else if code =? 401 then "Unauthorized" else if code =? 403 then "Forbidden"
  else if code =? 404 then "Not Found" else if code =? 407 then "Proxy Authentication Required"
  else if code =? 429 then "Too Many Requests" else if code =? 500 then "Internal Server Error"
  else if code =? 502 then "Bad Gateway" else "".

Definition newline : string := String (chr 10) "".
Definition crlf : string := String (chr 13) (String (chr 10) "").

(** [http.Error(w, error, code)] *)
Definition http_Error {W} `{ResponseWriter W} (error : string) (code : Z) (w : W) : W :=
  write (error +:+ newline)
    (write_header code
       (set_header "X-Content-Type-Options" "nosniff"
          (set_header "Content-Type" "text/plain; charset=utf-8"
             (del_header "Content-Length" w)))).

(** The part of [http.Request] the handlers read; [req_query] is
    [r.URL.Query().Get]. *)
Record Request := MkRequest {
  Method : string;
  URLPath : string;
  URLIsAbs : bool;
  RequestURI : string;
  Host : string;
  RemoteAddr : string;
  req_header : gmap string (list string);
  req_query : string -> string
}.

(** [h.Get(k)], for a key in canonical form. *)
Definition header_get (h : gmap string (list string)) (k : string) : string :=
  match h !! k with Some (v :: _) => v | _ => "" end.

(** The bytes of a response as the client sees them. *)
Definition res_done (status : Z) (h : gmap string (list string)) (body : string) : Response :=
  MkResponse (Some status) h body.

Definition error_response (error : string) (code : Z) (h : gmap string (list string)) : Response :=
  res_done code
    (<["X-Content-Type-Options" := ["nosniff"]]>
       (<["Content-Type" := ["text/plain; charset=utf-8"]]> (delete "Content-Length" h)))
    (error +:+ newline).

Lemma http_Error_ok {W} `{ResponseWriter W} (w : W) h error code :
  represents w (MkResponse None h "") ->
  represents (http_Error error code w) (error_response error code h).
Proof.
  intros Hw. unfold http_Error.
  apply del_header_ok with (k := "Content-Length") in Hw.
  apply set_header_ok with (k := "Content-Type") (v := "text/plain; charset=utf-8") in Hw.
  apply set_header_ok with (k := "X-Content-Type-Options") (v := "nosniff") in Hw.
  apply write_header_ok with (s := code) in Hw.
  by apply write_ok with (b := error +:+ newline) in Hw.
Qed.
