(* ===== verification/Calendar.v ===== *)
(** * Dates: the calendar is a bijection, and dates survive printing

    [civil_from_days] undoes [days_from_civil] on every date of the Gregorian
    calendar. [ParseDate] and [FormatDate] are [time.Parse] and [Format] with
    the layout ["2006-01-02"]; a date that parses is printed back by
    [time.RFC3339] as the midnight it stands for, which [ParseRFC3339] reads. *)
From S2P Require Import Prelude GoStrings GoTime.
Open Scope Z_scope.

(** ** The calendar *)

Definition valid_date (y m d : Z) : Prop := 1 <= m <= 12 /\ 1 <= d <= days_in y m.

(** The two conversions in terms of the year of the era, which starts in March,
    the month counted from March, and the day of the year. *)
Definition month_start (mp : Z) : Z := (153 * mp + 2) / 5.
Definition year_start (yoe : Z) : Z := yoe * 365 + yoe / 4 - yoe / 100.
Definition year_of (doe : Z) : Z := (doe - doe / 1460 + doe / 36524 - doe / 146096) / 365.
Definition last_day (yoe : Z) : Z := if leap (yoe + 1) then 365 else 364.

Definition below (n : nat) : list Z := map Z.of_nat (seq 0 n).
Lemma elem_below n z : 0 <= z < Z.of_nat n -> In z (below n).
Proof. intros Hz. apply in_map_iff. exists (Z.to_nat z). rewrite in_seq. lia. Qed.

(** [year_of] grows, so that the first and the last day of a year decide. *)
Lemma year_of_mono a b : 0 <= a <= b -> year_of a <= year_of b.
Proof.
  intros Hab. unfold year_of. apply Z.div_le_mono; [lia|].
  assert (a - a / 1460 <= b - b / 1460) as H1 by (Z.div_mod_to_equations; lia).
  replace 146096 with (36524 * 4) by lia. rewrite <- !Z.div_div by lia.
  pose proof (Z.div_le_mono a b 36524 ltac:(lia) ltac:(lia)) as H2.
  generalize dependent (a / 36524). generalize dependent (b / 36524). intros x y Hxy.
  assert (y - y / 4 <= x - x / 4) by (Z.div_mod_to_equations; lia). lia.
Qed.

Lemma year_ends :
  forallb (fun y => (year_of (year_start y) =? y) && (year_of (year_start y + last_day y) =? y))
    (below 400) = true.
Proof. vm_compute. reflexivity. Qed.

Lemma year_of_start yoe doy :
  0 <= yoe < 400 -> 0 <= doy <= last_day yoe -> year_of (year_start yoe + doy) = yoe.
Proof.
  intros Hy Hd. pose proof year_ends as H. rewrite forallb_forall in H.
  specialize (H yoe (elem_below 400 yoe Hy)). apply andb_true_iff in H as [H1 H2].
  apply Z.eqb_eq in H1, H2.
  assert (0 <= year_start yoe) by (unfold year_start; Z.div_mod_to_equations; lia).
  pose proof (year_of_mono (year_start yoe) (year_start yoe + doy)).
  pose proof (year_of_mono (year_start yoe + doy) (year_start yoe + last_day yoe)). lia.
Qed.

Lemma year_ends_fit :
  forallb (fun y => (0 <=? year_start y) && (year_start y + last_day y <? 146097)) (below 400) = true.
Proof. vm_compute. reflexivity. Qed.

Lemma year_fits yoe doy :
  0 <= yoe < 400 -> 0 <= doy <= last_day yoe -> 0 <= year_start yoe + doy < 146097.
Proof.
  intros Hy Hd. pose proof year_ends_fit as H. rewrite forallb_forall in H.
  specialize (H yoe (elem_below 400 yoe Hy)). apply andb_true_iff in H as [H1 H2].
  apply Z.leb_le in H1. apply Z.ltb_lt in H2. lia.
Qed.

Lemma month_days :
  forallb (fun mp => forallb (fun d => implb (month_start mp + d <? month_start (mp + 1))
    ((5 * (month_start mp + d) + 2) / 153 =? mp)) (below 31)) (below 12) = true.
Proof. vm_compute. reflexivity. Qed.

Lemma month_of_start mp d :
  0 <= mp < 12 -> 0 <= d < 31 -> month_start mp + d < month_start (mp + 1) ->
  (5 * (month_start mp + d) + 2) / 153 = mp.
Proof.
  intros Hm Hd Hlt. pose proof month_days as H. rewrite forallb_forall in H.
  specialize (H mp (elem_below 12 mp Hm)). rewrite forallb_forall in H.
  specialize (H d (elem_below 31 d Hd)). rewrite (proj2 (Z.ltb_lt _ _) Hlt) in H. by apply Z.eqb_eq in H.
Qed.

(** The day of the year and the length of the months. *)
Lemma leap_period y k : leap (y + k * 400) = leap y.
Proof.
  unfold leap. replace (y + k * 400) with (y + (k * 100) * 4) at 1 by lia.
  replace (y + k * 400) with (y + (k * 4) * 100) at 1 by lia. by rewrite !Z.mod_add by lia.
Qed.

Definition march_month (m : Z) : Z := m + (if 2 <? m then -3 else 9).

Lemma months_fit :
  forallb (fun m => forallb (fun l => let mp := march_month (m + 1) in
      let n := if l : bool then days_in 4 (m + 1) else days_in 1 (m + 1) in
      (month_start mp + (n - 1) <=? (if l then 365 else 364)) &&
      ((month_start mp + (n - 1) <? month_start (mp + 1)) && (0 <=? mp) && (mp <? 12) && (n <=? 31)))
    [true; false]) (below 12) = true.
Proof. vm_compute. reflexivity. Qed.

Lemma month_fits y m d :
  valid_date y m d ->
  let mp := march_month m in
  0 <= mp < 12 /\ 0 <= d - 1 < 31 /\ month_start mp + (d - 1) < month_start (mp + 1) /\
  0 <= month_start mp + (d - 1) <= (if leap y then 365 else 364).
Proof.
  intros [Hm Hd] mp. pose proof months_fit as H. rewrite forallb_forall in H.
  specialize (H (m - 1) (elem_below 12 (m - 1) ltac:(lia))). rewrite forallb_forall in H.
  specialize (H (leap y) ltac:(destruct (leap y); simpl; tauto)). replace (m - 1 + 1) with m in H by lia.
  assert ((if leap y then days_in 4 m else days_in 1 m) = days_in y m) as E
    by (unfold days_in; destruct (leap y), (m =? 2); done).
  cbv zeta in H. fold mp in H. rewrite E in H.
  apply andb_true_iff in H as [H1 [[[H2 H3]%andb_true_iff H4]%andb_true_iff H5]%andb_true_iff].
  apply Z.leb_le in H1, H3, H5. apply Z.ltb_lt in H2, H4.
  assert (0 <= month_start mp) by (unfold month_start; Z.div_mod_to_equations; lia).
  destruct (leap y); lia.
Qed.

Lemma days_from_civil_eq y m d :
  let y' := if m <=? 2 then y - 1 else y in
  days_from_civil y m d =
    y' / 400 * 146097 + (year_start (y' - y' / 400 * 400) + (month_start (march_month m) + (d - 1))) - 719468.
Proof. unfold days_from_civil, year_start, month_start, march_month. cbv zeta. lia. Qed.

Lemma civil_from_days_eq era doe :
  0 <= doe < 146097 ->
  civil_from_days (era * 146097 + doe - 719468) =
    let yoe := year_of doe in
    let doy := doe - year_start yoe in
    let mp := (5 * doy + 2) / 153 in
    let m := if mp <? 10 then mp + 3 else mp - 9 in
    ((if m <=? 2 then yoe + era * 400 + 1 else yoe + era * 400), m, doy - month_start mp + 1).
Proof.
  intros Hd. unfold civil_from_days.
  replace (era * 146097 + doe - 719468 + 719468) with (doe + era * 146097) by lia.
  assert ((doe + era * 146097) / 146097 = era) as -> by (rewrite Z.div_add, (Z.div_small doe) by lia; lia).
  cbv zeta.
  replace (doe + era * 146097 - era * 146097) with doe by lia.
  fold (year_of doe). unfold year_start, month_start.
  replace (365 * year_of doe) with (year_of doe * 365) by lia. done.
Qed.

Theorem civil_round_trip y m d :
  valid_date y m d -> civil_from_days (days_from_civil y m d) = (y, m, d).
Proof.
  intros Hv. destruct (month_fits y m d Hv) as (Hmp & Hd & Hlt & Hdoy). destruct Hv as [Hm _].
  rewrite days_from_civil_eq. set (y' := if m <=? 2 then y - 1 else y). set (mp := march_month m) in *.
  set (doy := month_start mp + (d - 1)) in *. set (yoe := y' - y' / 400 * 400).
  assert (0 <= yoe < 400) as Hy by (unfold yoe; pose proof (Z.div_mod y' 400); pose proof (Z.mod_pos_bound y' 400); lia).
  assert (doy <= last_day yoe) as Hlast.
  { unfold last_day. destruct (Z.leb_spec m 2) as [H2|H2].
    - replace (yoe + 1) with (y + - (y' / 400) * 400) by (unfold yoe, y'; lia). rewrite leap_period. lia.
    - assert (month_start mp + (d - 1) < 337); [|unfold doy; destruct (leap (yoe + 1)); lia].
      assert (mp <= 9) as Hmp9 by (unfold mp, march_month; rewrite (proj2 (Z.ltb_lt _ _)) by lia; lia).
      eapply Z.lt_le_trans; [exact Hlt|]. unfold month_start. Z.div_mod_to_equations. lia. }
  pose proof (year_fits yoe doy Hy (conj (proj1 Hdoy) Hlast)) as Hdoe.
  rewrite civil_from_days_eq by done. rewrite (year_of_start yoe doy Hy (conj (proj1 Hdoy) Hlast)). cbv zeta.
  replace (year_start yoe + doy - year_start yoe) with doy by lia.
  unfold doy. rewrite (month_of_start mp (d - 1)) by done.
  assert ((if mp <? 10 then mp + 3 else mp - 9) = m) as ->.
  { unfold mp, march_month. destruct (Z.ltb_spec 2 m).
    - rewrite (proj2 (Z.ltb_lt _ _)) by lia. lia.
    - rewrite (proj2 (Z.ltb_ge _ _)) by lia. lia. }
  f_equal; [f_equal|lia]. unfold yoe, y'. destruct (Z.leb_spec m 2); lia.
Qed.

(** ** Digits *)

(** Digit strings of one length are told apart by their values. *)
Lemma digits_value_unique s t acc acc' v :
  String.length s = String.length t ->
  digits_value s acc = Some v -> digits_value t acc' = Some v -> acc = acc' /\ s = t.
Proof.
  revert t acc acc'. induction s as [|c s IH]; intros [|c' t] acc acc' Hl Hs Ht; try done.
  { simpl in *. split; [congruence|done]. }
  cbn [digits_value] in Hs, Ht.
  destruct (is_digit c) eqn:Hc; [|done]. destruct (is_digit c') eqn:Hc'; [|done].
  destruct (IH t _ _ ltac:(by injection Hl) Hs Ht) as [E ->].
  unfold is_digit, digit_val in *. assert (acc = acc' /\ code c = code c') as [-> Ec] by lia.
  split; [done|]. by rewrite <- (chr_code c), Ec, chr_code.
Qed.

Lemma digits_value_bound s acc v :
  digits_value s acc = Some v -> 0 <= acc ->
  acc * 10 ^ Z.of_nat (String.length s) <= v < (acc + 1) * 10 ^ Z.of_nat (String.length s).
Proof.
  revert acc. induction s as [|c s IH]; intros acc H Ha.
  { injection H as <-. simpl. lia. }
  cbn [digits_value String.length] in *. destruct (is_digit c) eqn:Hc; [|done].
  unfold is_digit, digit_val in *. apply IH in H; [|lia].
  rewrite Nat2Z.inj_succ, Z.pow_succ_r by lia.
  assert (0 < 10 ^ Z.of_nat (String.length s)) by lia. nia.
Qed.

Lemma digits_length fuel n k :
  (1 <= k)%nat -> 0 <= n < 10 ^ Z.of_nat k -> (String.length (digits fuel n "") <= k)%nat.
Proof.
  revert n k. induction fuel as [|fuel IH]; intros n k Hk Hn; [simpl; lia|]. cbn [digits].
  destruct (Z.ltb_spec n 10) as [Hlt|Hge]; [simpl; lia|].
  rewrite digits_acc, str_length_app. cbn [String.length].
  destruct k as [|[|k]]; [lia|simpl in Hn; lia|].
  assert (String.length (digits fuel (n / 10) "") <= S k)%nat; [|lia]. apply IH; [lia|].
  rewrite Nat2Z.inj_succ, Z.pow_succ_r in Hn by lia.
  split; [apply Z.div_pos; lia|apply Z.div_lt_upper_bound; lia].
Qed.

Lemma zeros_length n : String.length (String.concat "" (replicate n "0")) = n.
Proof.
  induction n as [|n IH]; [done|]. cbn [replicate]. destruct n as [|n]; [done|].
  change (String.concat "" ("0" :: replicate (S n) "0"))
    with ("0" +:+ "" +:+ String.concat "" (replicate (S n) "0")).
  rewrite !str_length_app, IH. done.
Qed.

Lemma zeros_value n s : digits_value (String.concat "" (replicate n "0") +:+ s) 0 = digits_value s 0.
Proof.
  induction n as [|n IH]; [done|]. cbn [replicate]. destruct n as [|n]; [done|].
  change (String.concat "" ("0" :: replicate (S n) "0"))
    with (String "0" (String.concat "" (replicate (S n) "0"))).
  rewrite str_cons_app. exact IH.
Qed.

(** Padding the decimal notation of the value of some digits gives the digits. *)
Lemma pad_to_digits s v :
  s <> "" -> digits_value s 0 = Some v -> pad_to (String.length s) (decimal v) = s.
Proof.
  intros Hne Hv. pose proof (digits_value_bound s 0 v Hv ltac:(lia)) as Hb.
  assert (String.length (decimal v) <= String.length s)%nat as Hl.
  { unfold decimal. rewrite (proj2 (Z.ltb_ge v 0)) by lia. apply digits_length; [|lia].
    destruct s; [done|simpl; lia]. }
  apply (digits_value_unique _ s 0 0 v); [..|done].
  - unfold pad_to. rewrite str_length_app, zeros_length. lia.
  - unfold pad_to. rewrite zeros_value. apply digits_value_decimal. lia.
Qed.

(** ** Dates *)

(** [time.Parse("2006-01-02", s)], in UTC. *)
Definition ParseDate (s : string) : option Z :=
  '(y, s) ← get_year s; s ← expect "-"%char s;
  '(m, s) ← getnum s true; _ ← in_range 1 12 m; s ← expect "-"%char s;
  '(d, s) ← getnum s true; _ ← in_range 1 (days_in y m) d;
  if String.eqb s "" then Some (days_from_civil y m d * 86400 * Second) else None.

(** [t.Format("2006-01-02")] of a time in UTC. *)
Definition FormatDate (t : Z) : string :=
  let '(y, m, d) := civil (H := utc) t in
  pad_to 4 (decimal y) +:+ "-" +:+ pad_to 2 (decimal m) +:+ "-" +:+ pad_to 2 (decimal d).

Lemma get_year_Some s y r :
  get_year s = Some (y, r) -> exists ys, s = ys +:+ r /\ String.length ys = 4%nat /\ digits_value ys 0 = Some y.
Proof.
  unfold get_year. case_decide as Hl; [done|].
  destruct s as [|a [|b [|c [|e s]]]]; simpl in Hl; try lia. cbn [string_take string_drop].
  destruct (digits_value _ 0) as [v|] eqn:E; [|done]. simpl. intros [= <- <-].
  exists (String a (String b (String c (String e "")))). done.
Qed.

Lemma getnum_Some s v r :
  getnum s true = Some (v, r) -> exists ds, s = ds +:+ r /\ String.length ds = 2%nat /\ digits_value ds 0 = Some v.
Proof.
  unfold getnum. destruct s as [|a [|b s]]; [done|by destruct (is_digit a)|].
  destruct (is_digit a) eqn:Ha; [|done]. destruct (is_digit b) eqn:Hb; [|done]. simpl. intros [= <- <-].
  exists (String a (String b "")). split_and!; [done|done|]. cbn [digits_value]. rewrite Ha, Hb. done.
Qed.

Lemma expect_Some c s r : expect c s = Some r <-> s = String c r.
Proof.
  destruct s as [|d s]; simpl; [done|]. case_decide; split; intros [=]; subst; congruence || done.
Qed.

Lemma in_range_Some lo hi v : in_range lo hi v = Some () <-> lo <= v <= hi.
Proof.
  unfold in_range. destruct (Z.leb_spec lo v), (Z.leb_spec v hi); simpl; split; intros; done || lia.
Qed.

(** A date that parses is three fields of digits. *)
Lemma ParseDate_Some s t :
  ParseDate s = Some t ->
  exists y m d ys ms ds, s = ys +:+ String "-" (ms +:+ String "-" ds) /\
    (String.length ys = 4%nat /\ digits_value ys 0 = Some y) /\
    (String.length ms = 2%nat /\ digits_value ms 0 = Some m) /\
    (String.length ds = 2%nat /\ digits_value ds 0 = Some d) /\
    valid_date y m d /\ t = days_from_civil y m d * 86400 * Second.
Proof.
  unfold ParseDate. intros H.
  apply bind_Some in H as ([y r1] & (ys & -> & Hy)%get_year_Some & H).
  apply bind_Some in H as (r2 & ->%expect_Some & H).
  apply bind_Some in H as ([m r3] & (ms & -> & Hm)%getnum_Some & H).
  apply bind_Some in H as ([] & Hmr%in_range_Some & H).
  apply bind_Some in H as (r4 & ->%expect_Some & H).
  apply bind_Some in H as ([d r5] & (ds & -> & Hd)%getnum_Some & H).
  apply bind_Some in H as ([] & Hdr%in_range_Some & H).
  destruct (String.eqb_spec r5 "") as [->|]; [|done]. injection H as <-.
  exists y, m, d, ys, ms, ds. rewrite str_app_nil_r. done.
Qed.

Lemma day_number_div n : n * 86400 * Second / Second / 86400 = n.
Proof. rewrite Z.div_mul by (unfold Second; lia). apply Z.div_mul. lia. Qed.

Lemma civil_midnight y m d :
  valid_date y m d -> civil (H := utc) (days_from_civil y m d * 86400 * Second) = (y, m, d).
Proof.
  intros Hv. unfold civil, local_seconds. simpl zone_offset. rewrite Z.add_0_r, day_number_div.
  by apply civil_round_trip.
Qed.

Lemma midnight_clock n : local_seconds (H := utc) (n * 86400 * Second) mod 86400 = 0.
Proof.
  unfold local_seconds. simpl zone_offset. rewrite Z.add_0_r, Z.div_mul by (unfold Second; lia).
  apply Z.mod_mul. lia.
Qed.

Lemma getnum_digits ds v r :
  String.length ds = 2%nat -> digits_value ds 0 = Some v -> getnum (ds +:+ r) true = Some (v, r).
Proof.
  destruct ds as [|a [|b [|]]]; try done. intros _ H. cbn [digits_value] in H. unfold getnum.
  rewrite !str_cons_app. destruct (is_digit a); [|done]. destruct (is_digit b); [|done].
  simpl. by injection H as <-.
Qed.

Lemma get_year_digits ys y r :
  String.length ys = 4%nat -> digits_value ys 0 = Some y -> get_year (ys +:+ r) = Some (y, r).
Proof.
  destruct ys as [|a [|b [|c [|e [|]]]]]; try done. intros _ H. unfold get_year.
  rewrite !str_cons_app. rewrite decide_False by (simpl; lia). cbn [string_take string_drop].
  rewrite H. done.
Qed.

Lemma expect_eq c r : expect c (String c r) = Some r.
Proof. by apply expect_Some. Qed.

(** Printed and read again, a date is the same instant. *)
Theorem date_round_trip s t :
  ParseDate s = Some t ->
  FormatDate t = s /\ FormatRFC3339 (H := utc) t = s +:+ "T00:00:00Z" /\
  ParseRFC3339 (s +:+ "T00:00:00Z") = Some t.
Proof.
  intros (y & m & d & ys & ms & ds & -> & [Hly Hy] & [Hlm Hm] & [Hld Hd] & Hv & ->)%ParseDate_Some.
  assert (pad_to 4 (decimal y) = ys) as Ey by (rewrite <- Hly; apply pad_to_digits; [by intros ->|done]).
  assert (pad_to 2 (decimal m) = ms) as Em by (rewrite <- Hlm; apply pad_to_digits; [by intros ->|done]).
  assert (pad_to 2 (decimal d) = ds) as Ed by (rewrite <- Hld; apply pad_to_digits; [by intros ->|done]).
  split_and!.
  - unfold FormatDate. rewrite civil_midnight by done. by rewrite Ey, Em, Ed.
  - unfold FormatRFC3339. rewrite civil_midnight, midnight_clock by done. cbv zeta.
    rewrite Ey, Em, Ed. change (pad_to 2 (decimal (0 / 3600))) with "00".
    change (pad_to 2 (decimal ((0 / 60) mod 60))) with "00". change (pad_to 2 (decimal (0 mod 60))) with "00".
    repeat first [rewrite str_app_assoc | rewrite str_cons_app | rewrite str_nil_app]. reflexivity.
  - destruct Hv as [Hmr Hdr]. unfold ParseRFC3339.
    rewrite !str_app_assoc, (get_year_digits ys y) by done. cbn [mbind option_bind].
    rewrite str_cons_app, expect_eq. cbn [mbind option_bind].
    rewrite !str_app_assoc, (getnum_digits ms m) by done. cbn [mbind option_bind].
    rewrite (proj2 (in_range_Some 1 12 m)) by done. cbn [mbind option_bind].
    rewrite str_cons_app, expect_eq. cbn [mbind option_bind].
    rewrite (getnum_digits ds d) by done. cbn [mbind option_bind].
    change (expect "T" "T00:00:00Z") with (Some "00:00:00Z"). cbn [mbind option_bind].
    simpl (getnum _ _). cbn [mbind option_bind]. simpl.
    rewrite (proj2 (in_range_Some 1 (days_in y m) d)) by done. simpl. f_equal. change (digit_val "0") with 0. lia.
Qed.
