(* ===== verification/UserStore.v ===== *)
(** * Users, credentials, IP lists ([internal/auth/auth.go])

    [UserStore] holds the enabled users by lower-cased name, the IP white list,
    the super-admin list, the rate limiter of [RateLimiter] and a cache of
    verified credentials. The methods are the store's operations; each takes the
    readings of [time.Now()] it makes. Not of this repository, hence parameters:
    [bcrypt_ok] ([bcrypt.CompareHashAndPassword]) and [json_users] (the decoding
    of users.json by [encoding/json]); the order in which Go ranges over a map is
    the parameter [range_order]. *)
From S2P Require Import Prelude GoStrings GoFloat GoNet GoTime Sha256 RateLimiter.
Open Scope Z_scope.

Record User := MkUser {
  Username : string;
  Role : string;
  PasswordHash : string;
  RateLimitRPM : Z;
  Enabled : bool;
  Plan : string;
  BandwidthLimitGB : Z;
  BandwidthSpeedMbps : Z;
  MaxConnections : Z;
  ExpiresAt : string
}.

Record UsersConfig := MkUsersConfig {
  Users : list User;
  IPWhitelist : list string;
  SuperAdminIPs : list string
}.

Definition credCacheTTL : Z := 5 * Minute.

Record credCacheEntry := CredCacheEntry { ce_user : User; validUntil : Z }.

Record UserStore (F : Type) := MkUserStore {
  users : gmap string User;
  ipWhitelist : list IPNet;
  superAdminIPs : list IPNet;
  superAdminUser : option User;
  rateLimiter : RateLimiter F;
  credCache : gmap string credCacheEntry
}.
Arguments MkUserStore {F}.
Arguments users {F}.
Arguments ipWhitelist {F}.
Arguments superAdminIPs {F}.
Arguments superAdminUser {F}.
Arguments rateLimiter {F}.
Arguments credCache {F}.

(** The primitives of other packages. *)
Class AuthEnv := {
  bcrypt_ok : string -> string -> bool;          (* hash, password *)
  json_users : string -> result UsersConfig
}.

(** The error of [net.ParseCIDR] prints as ["invalid CIDR address: " + s]. *)
Definition parseCIDR (cidr : string) : result IPNet :=
  let cidr := if Contains cidr "/" then cidr
              else if Contains cidr ":" then cidr +:+ "/128" else cidr +:+ "/32" in
  match ParseCIDR cidr with
  | Some ipNet => Ok ipNet
  | None => Err ("invalid CIDR address: " +:+ cidr)
  end.

Definition parseIP (ipStr : string) : option (list byte) :=
  let host := if Contains ipStr ":"
              then match SplitHostPort ipStr with Ok (host, _) => host | Err _ => ipStr end
              else ipStr in
  ParseIP host.

Section Store.
Context {F : Type} {GF : GoFloat F} {UC : Unicode} {MO : MapOrder} {AE : AuthEnv}.
Implicit Types s : UserStore F.

Definition with_users s m : UserStore F := MkUserStore m s.(ipWhitelist) s.(superAdminIPs)
  s.(superAdminUser) s.(rateLimiter) s.(credCache).
Definition with_whitelist s l : UserStore F := MkUserStore s.(users) l s.(superAdminIPs)
  s.(superAdminUser) s.(rateLimiter) s.(credCache).
Definition with_admin_ips s l : UserStore F := MkUserStore s.(users) s.(ipWhitelist) l
  s.(superAdminUser) s.(rateLimiter) s.(credCache).
Definition with_admin s u : UserStore F := MkUserStore s.(users) s.(ipWhitelist) s.(superAdminIPs)
  u s.(rateLimiter) s.(credCache).
Definition with_limiter s (r : RateLimiter F) : UserStore F := MkUserStore s.(users) s.(ipWhitelist) s.(superAdminIPs)
  s.(superAdminUser) r s.(credCache).
Definition with_cache s c : UserStore F := MkUserStore s.(users) s.(ipWhitelist) s.(superAdminIPs)
  s.(superAdminUser) s.(rateLimiter) c.

Definition empty_store : UserStore F := MkUserStore ∅ [] [] None NewRateLimiter ∅.

Definition InvalidateAllCredentials s : UserStore F := with_cache s ∅.

(** The body of the loop over [cfg.Users], and the loop; [now i] is the clock
    when the [i]-th user's limiter is set. *)
Definition load_user s (user : User) (now : Z) : UserStore F :=
  if user.(Enabled) then
    let s := with_users s (<[ToLower user.(Username) := user]> s.(users)) in
    if 0 <? user.(RateLimitRPM)
    then with_limiter s (SetLimit s.(rateLimiter) user.(Username) user.(RateLimitRPM) now)
    else s
  else s.

Fixpoint load_users s (us : list User) (i : nat) (now : nat -> Z) : UserStore F :=
  match us with
  | [] => s
  | user :: us => load_users (load_user s user (now i)) us (S i) now
  end.

Definition is_super_admin (user : User) : bool :=
  String.eqb (ToLower user.(Role)) "super_admin".

Definition find_super_admin (m : gmap string User) : option User :=
  snd <$> List.find (fun kv => is_super_admin kv.2) (range_order m).

(** The loops that append one parsed entry at a time and stop at the first
    entry that does not parse, leaving the list built so far. *)
Fixpoint parse_list (what : string) (entries : list string) (acc : list IPNet)
    : result unit * list IPNet :=
  match entries with
  | [] => (Ok tt, acc)
  | cidr :: entries =>
      match parseCIDR cidr with
      | Err err => (Err ("invalid " +:+ what +:+ " entry '" +:+ cidr +:+ "': " +:+ err), acc)
      | Ok ipNet => parse_list what entries (acc ++ [ipNet])
      end
  end.

Definition LoadFromFile s (data : result string) (now : nat -> Z) : result unit * UserStore F :=
  match data with
  | Err err => (Err ("failed to read users file: " +:+ err), s)
  | Ok text =>
      match json_users text with
      | Err err => (Err ("failed to parse users file: " +:+ err), s)
      | Ok cfg =>
          let s := load_users (with_users s ∅) cfg.(Users) 0 now in
          let s := with_admin s (find_super_admin s.(users)) in
          match parse_list "IP whitelist" cfg.(IPWhitelist) [] with
          | (Err e, l) => (Err e, with_whitelist s l)
          | (Ok _, l) =>
              let s := with_whitelist s l in
              match parse_list "super_admin_ips" cfg.(SuperAdminIPs) [] with
              | (Err e, l) => (Err e, with_admin_ips s l)
              | (Ok _, l) => (Ok tt, InvalidateAllCredentials (with_admin_ips s l))
              end
          end
      end
  end.

Definition NewUserStore (data : result string) (now : nat -> Z) : result (UserStore F) :=
  match LoadFromFile empty_store data now with
  | (Err e, _) => Err e
  | (Ok _, s) => Ok s
  end.

Definition cacheKey (username password : string) : string :=
  ToLower username +:+ ":" +:+ hex_encode (Sum256 (bytes_of_string password)).

(** [Some user] for [(user, true)], [None] for [(nil, false)]; [t_check] and
    [t_store] are the two readings of the clock. *)
Definition ValidateCredentials s (username password : string) (t_check t_store : Z)
    : option User * UserStore F :=
  let key := cacheKey username password in
  let slow :=
    match s.(users) !! ToLower username with
    | None => (None, s)
    | Some user =>
        if bcrypt_ok user.(PasswordHash) password
        then (Some user, with_cache s
                (<[key := CredCacheEntry user (t_store + credCacheTTL)]> s.(credCache)))
        else (None, s)
    end in
  match s.(credCache) !! key with
  | Some entry => if t_check <? entry.(validUntil) then (Some entry.(ce_user), s) else slow
  | None => slow
  end.

Definition InvalidateUser s (username : string) : UserStore F :=
  let prefix := ToLower username +:+ ":" in
  with_cache s (filter (fun kv => HasPrefix kv.1 prefix = false) s.(credCache)).

Definition CheckIPAllowed s (ipStr : string) : bool :=
  if decide (s.(ipWhitelist) = []) then true else
  match parseIP ipStr with
  | None => false
  | Some ip => existsb (fun n => Contains_ip n ip) s.(ipWhitelist)
  end.

Definition CheckRateLimit s (username : string) (now : Z) : bool * UserStore F :=
  match s.(users) !! ToLower username with
  | None => (false, s)
  | Some user =>
      if user.(RateLimitRPM) <=? 0 then (true, s) else
      let '(ok, r) := Allow s.(rateLimiter) username now in (ok, with_limiter s r)
  end.

Definition IsSuperAdminIP s (ipStr : string) : option User :=
  if decide (s.(superAdminUser) = None \/ s.(superAdminIPs) = []) then None else
  match parseIP ipStr with
  | None => None
  | Some ip =>
      if existsb (fun n => Contains_ip n ip) s.(superAdminIPs) then s.(superAdminUser) else None
  end.

Definition GetUserCount s : Z := Z.of_nat (size s.(users)).

Definition GetUser s (username : string) : option User := s.(users) !! ToLower username.

Definition CheckExpiry s (username : string) (now : Z) : bool :=
  match s.(users) !! ToLower username with
  | None => false
  | Some user =>
      if String.eqb user.(ExpiresAt) "" then true else
      match ParseRFC3339 user.(ExpiresAt) with
      | None => true
      | Some expiryTime => now <? expiryTime
      end
  end.
End Store.
