(* ===== verification/UserStoreFacts.v ===== *)
(** * What the user store guarantees

    The theorems about [UserStore]: loading users.json, authentication and its
    cache, the IP white list, rate limits, and what a failed reload leaves. *)
From S2P Require Import Prelude GoStrings GoFloat GoNet GoNetFacts GoTime Sha256 RateLimiter.
From S2P Require Import UserStore.
Open Scope Z_scope.

(** ** The credential cache *)

Lemma cacheKey_inj {UC : Unicode} u p u' p' :
  cacheKey u p = cacheKey u' p' ->
  ToLower u = ToLower u' /\
  Sum256 (bytes_of_string p) = Sum256 (bytes_of_string p').
Proof.
  unfold cacheKey. rewrite <- !str_app_assoc. intros H.
  apply str_app_inj_suffix in H as [H Hhex].
  2: { rewrite !hex_encode_length, !Sum256_length. done. }
  apply hex_encode_inj in Hhex. apply str_app_inj_suffix in H as [H _]; done.
Qed.

Section Cache.
Context {F : Type} {GF : GoFloat F} {UC : Unicode} {MO : MapOrder} {AE : AuthEnv}.
Implicit Types s : UserStore F.

(** Every cached entry was put there by a password check that succeeded for
    the user it names, against the current user table. *)
Definition cache_sound s : Prop := forall key e, s.(credCache) !! key = Some e ->
  exists u p, key = cacheKey u p /\ s.(users) !! ToLower u = Some e.(ce_user) /\
    bcrypt_ok e.(ce_user).(PasswordHash) p = true.

Lemma ValidateCredentials_cache s u p t1 t2 :
  cache_sound s -> cache_sound (snd (ValidateCredentials s u p t1 t2)).
Proof.
  intros Hs. unfold ValidateCredentials.
  assert (forall user, users s !! ToLower u = Some user -> bcrypt_ok (PasswordHash user) p = true ->
    cache_sound (with_cache s (<[cacheKey u p := CredCacheEntry user (t2 + credCacheTTL)]> (credCache s))))
    as Hadd.
  { intros user E Hb key e. simpl. rewrite lookup_insert_Some. intros [[<- <-]|[_ ?]]; [|by apply Hs].
    simpl. eauto. }
  repeat case_match; simplify_eq/=; auto.
Qed.

Lemma ValidateCredentials_users s u p t1 t2 :
  users (snd (ValidateCredentials s u p t1 t2)) = users s.
Proof. unfold ValidateCredentials. by repeat case_match; simplify_eq/=. Qed.

Lemma InvalidateUser_cache s u : cache_sound s -> cache_sound (InvalidateUser s u).
Proof.
  intros Hs key e. unfold InvalidateUser; simpl. rewrite map_lookup_filter_Some.
  intros [? _]. by apply Hs.
Qed.

Lemma NewUserStore_cache data now s : NewUserStore data now = Ok s -> cache_sound s.
Proof.
  unfold NewUserStore, LoadFromFile. repeat case_match; intros [= <-]; simplify_eq/=.
  intros key e. simpl. by rewrite lookup_empty.
Qed.

Lemma login_sound s (u p : string) (t1 t2 : Z) (user : User) :
  cache_sound s -> fst (ValidateCredentials s u p t1 t2) = Some user ->
  users s !! ToLower u = Some user /\
  exists p', Sum256 (bytes_of_string p') = Sum256 (bytes_of_string p) /\
    bcrypt_ok (PasswordHash user) p' = true.
Proof.
  intros Hs. unfold ValidateCredentials.
  assert (fst (match users s !! ToLower u with
    | None => (None, s)
    | Some user => if bcrypt_ok (PasswordHash user) p
        then (Some user, with_cache s (<[cacheKey u p := CredCacheEntry user (t2 + credCacheTTL)]>
                (credCache s)))
        else (None, s)
    end) = Some user -> users s !! ToLower u = Some user /\
    exists p', Sum256 (bytes_of_string p') = Sum256 (bytes_of_string p) /\
      bcrypt_ok (PasswordHash user) p' = true) as Hslow.
  { repeat case_match; intros ?; simplify_eq/=; eauto. }
  destruct (credCache s !! cacheKey u p) as [e|] eqn:E; [|done].
  destruct (t1 <? validUntil e); [|done]. intros [= <-].
  destruct (Hs _ _ E) as (u' & p' & Hk & Hu & Hb).
  apply cacheKey_inj in Hk as [-> ->]. eauto.
Qed.

End Cache.

(** ** A life of the store *)

(** A login, with what bcrypt answers when this call asks it. *)
Record Login := MkLogin {
  l_bcrypt : string -> string -> bool;
  l_user : string;
  l_pass : string;
  l_check : Z;
  l_store : Z
}.

Inductive store_event :=
| LoginCall (l : Login)
| RateCall (username : string) (now : Z)
| InvalidateCall (username : string)
| InvalidateAllCall.

Section Life.
Context {F : Type} {GF : GoFloat F} {UC : Unicode} {MO : MapOrder} {AE : AuthEnv}.
Implicit Types s : UserStore F.

Definition answers (l : Login) : AuthEnv := {| bcrypt_ok := l_bcrypt l; json_users := json_users |}.

Definition login s (l : Login) : option User * UserStore F :=
  ValidateCredentials (AE := answers l) s (l_user l) (l_pass l) (l_check l) (l_store l).

Definition store_exec s (e : store_event) : UserStore F :=
  match e with
  | LoginCall l => (login s l).2
  | RateCall u t => (CheckRateLimit s u t).2
  | InvalidateCall u => InvalidateUser s u
  | InvalidateAllCall => InvalidateAllCredentials s
  end.
Definition store_life s (es : list store_event) : UserStore F := fold_left store_exec es s.

(** The event does not drop the entry of the key from the cache. *)
Definition spares (key : string) (e : store_event) : Prop :=
  match e with
  | InvalidateCall u => HasPrefix key (ToLower u +:+ ":") = false
  | InvalidateAllCall => False
  | _ => True
  end.

(** [l] is a login among [es] at which bcrypt accepted the password for [user], and
    nothing has dropped its entry since. *)
Definition accepted_in (es : list store_event) (l : Login) (user : User) : Prop :=
  l_bcrypt l (PasswordHash user) (l_pass l) = true /\
  exists es1 es2, es = es1 ++ LoginCall l :: es2 /\ Forall (spares (cacheKey (l_user l) (l_pass l))) es2.

Lemma accepted_in_snoc es l user e :
  accepted_in es l user -> spares (cacheKey (l_user l) (l_pass l)) e -> accepted_in (es ++ [e]) l user.
Proof.
  intros (Hb & es1 & es2 & -> & Hf) He. split; [done|]. exists es1, (es2 ++ [e]).
  split; [by rewrite <- app_assoc|]. apply Forall_app. by split; [|constructor].
Qed.

(** Each entry of the cache is that of an accepted login, with its term. *)
Definition cache_traced (es : list store_event) s : Prop := forall key e, credCache s !! key = Some e ->
  exists l, accepted_in es l (ce_user e) /\ key = cacheKey (l_user l) (l_pass l) /\
    users s !! ToLower (l_user l) = Some (ce_user e) /\ validUntil e = l_store l + credCacheTTL.

Lemma store_exec_users s e : users (store_exec s e) = users s.
Proof.
  destruct e; simpl; [by apply ValidateCredentials_users| |done..].
  unfold CheckRateLimit. by repeat case_match; simplify_eq/=.
Qed.

Lemma store_life_users es s : users (store_life s es) = users s.
Proof.
  revert s. unfold store_life. induction es as [|e es IH]; intros s; [done|]. simpl.
  by rewrite IH, store_exec_users.
Qed.

Lemma cache_traced_sub es s s' e :
  cache_traced es s -> users s' = users s ->
  (forall key x, credCache s' !! key = Some x -> credCache s !! key = Some x /\ spares key e) ->
  cache_traced (es ++ [e]) s'.
Proof.
  intros Ht Hu Hsub key x Hx. destruct (Hsub _ _ Hx) as [Hx' Hsp].
  destruct (Ht _ _ Hx') as (l & Ha & -> & Hl & Hv). exists l. rewrite Hu.
  split_and!; [by apply accepted_in_snoc|done..].
Qed.

Lemma cache_traced_exec es s e : cache_traced es s -> cache_traced (es ++ [e]) (store_exec s e).
Proof.
  intros Ht. pose proof (store_exec_users s e) as Hu. destruct e as [l|u t|u|]; simpl in *.
  - assert (cache_traced (es ++ [LoginCall l]) s) as Hkeep by (by eapply cache_traced_sub).
    assert (forall user, users s !! ToLower (l_user l) = Some user -> l_bcrypt l (PasswordHash user) (l_pass l) = true ->
      cache_traced (es ++ [LoginCall l]) (with_cache s
        (<[cacheKey (l_user l) (l_pass l) := CredCacheEntry user (l_store l + credCacheTTL)]> (credCache s)))) as Hadd.
    { intros user E Hb key x. simpl. rewrite lookup_insert_Some. intros [[<- <-]|[_ ?]]; [|by apply Hkeep].
      exists l. simpl. split; [split; [done|by exists es, []]|done]. }
    unfold login, ValidateCredentials. simpl. repeat case_match; simplify_eq/=; auto.
  - eapply cache_traced_sub; [done..|]. intros key x. unfold CheckRateLimit.
    by repeat case_match; simplify_eq/=.
  - eapply cache_traced_sub; [done..|]. intros key x. unfold InvalidateUser. simpl.
    rewrite map_lookup_filter_Some. by intros [? ?].
  - eapply cache_traced_sub; [done..|]. intros key x. simpl. by rewrite lookup_empty.
Qed.

Lemma cache_traced_life es s : credCache s = ∅ -> cache_traced es (store_life s es).
Proof.
  intros Hc. induction es as [|e es IH] using rev_ind.
  - intros key x. simpl. by rewrite Hc, lookup_empty.
  - unfold store_life in *. rewrite fold_left_app. by apply cache_traced_exec.
Qed.

Lemma NewUserStore_empty_cache data now s : NewUserStore data now = Ok s -> credCache s = ∅.
Proof.
  unfold NewUserStore, LoadFromFile. repeat case_match; intros [= <-]; by simplify_eq/=.
Qed.

(** C12: Authentication is sound over the whole life of a store, whatever calls it has
    had. A login only ever returns the account of that name (whatever its case), and only
    if bcrypt accepts its password for that account at this very call, or accepted, at an
    earlier login to the account, a password with the same SHA-256, less than the
    lifetime of the cache before the clock of this call, no invalidation of that user or
    of everybody having come in between. The cache cannot confuse users or passwords,
    however the names contain [':']. *)
Theorem ValidateCredentials_sound data now s (es : list store_event) (l : Login) (user : User) :
  NewUserStore (F := F) data now = Ok s -> fst (login (store_life s es) l) = Some user ->
  users s !! ToLower (l_user l) = Some user /\
  (l_bcrypt l (PasswordHash user) (l_pass l) = true \/
   exists l0, accepted_in es l0 user /\ ToLower (l_user l0) = ToLower (l_user l) /\
     Sum256 (bytes_of_string (l_pass l0)) = Sum256 (bytes_of_string (l_pass l)) /\
     l_check l < l_store l0 + credCacheTTL).
Proof.
  intros Hc%NewUserStore_empty_cache. pose proof (cache_traced_life es s Hc) as Ht.
  pose proof (store_life_users es s) as Hu. revert Ht Hu. generalize (store_life s es) as s'. intros s' Ht Hu.
  unfold login, ValidateCredentials. simpl. rewrite Hu.
  assert (fst (match users s !! ToLower (l_user l) with
    | None => (None, s')
    | Some user => if l_bcrypt l (PasswordHash user) (l_pass l)
        then (Some user, with_cache s' (<[cacheKey (l_user l) (l_pass l) :=
                CredCacheEntry user (l_store l + credCacheTTL)]> (credCache s')))
        else (None, s')
    end) = Some user -> users s !! ToLower (l_user l) = Some user /\
      l_bcrypt l (PasswordHash user) (l_pass l) = true) as Hslow.
  { by repeat case_match; intros ?; simplify_eq/=. }
  destruct (credCache s' !! _) as [x|] eqn:E; [|by intros [? ?]%Hslow; auto].
  destruct (Z.ltb_spec (l_check l) (validUntil x)) as [Hlt|]; [|by intros [? ?]%Hslow; auto].
  intros [= <-]. destruct (Ht _ _ E) as (l0 & Ha & Hk & Hl & Hv). rewrite Hu, Hv in *.
  apply cacheKey_inj in Hk as [Hk Hp]. split; [by rewrite Hk|]. right. by exists l0.
Qed.
End Life.

(** A store with one user, over a bcrypt that accepts one password. *)
Definition bob : User := MkUser "Bob" "user" "hash" 60 true "" 0 0 2 "".
Definition demo_config : UsersConfig := MkUsersConfig [bob] ["10.0.0.0/8"] [].
Definition demo_env : AuthEnv :=
  {| bcrypt_ok h p := String.eqb h "hash" && String.eqb p "secret"; json_users _ := Ok demo_config |}.
Definition demo_store : UserStore Q :=
  match NewUserStore (F := Q) (AE := demo_env) (UC := ascii_only) (Ok "") (fun _ => 0) with
  | Ok s => s
  | Err _ => empty_store
  end.

Lemma demo_store_new :
  NewUserStore (F := Q) (AE := demo_env) (UC := ascii_only) (Ok "") (fun _ => 0) = Ok demo_store.
Proof. vm_compute. reflexivity. Qed.

(** A login that bcrypt accepts, and one in another spelling five seconds later, when
    bcrypt is no longer there: the cache lets it in. *)
Definition demo_login : Login := MkLogin (fun h p => String.eqb h "hash" && String.eqb p "secret") "bob" "secret" 0 1.
Definition demo_login_cached : Login := MkLogin (fun _ _ => false) "BOB" "secret" 5000000000 5000000000.

Lemma ValidateCredentials_sound_witness :
  users demo_store !! ToLower (l_user demo_login_cached) = Some bob /\
  (l_bcrypt demo_login_cached (PasswordHash bob) (l_pass demo_login_cached) = true \/
   exists l0, accepted_in (UC := ascii_only) [LoginCall demo_login] l0 bob /\
     ToLower (l_user l0) = ToLower (l_user demo_login_cached) /\
     Sum256 (bytes_of_string (l_pass l0)) = Sum256 (bytes_of_string (l_pass demo_login_cached)) /\
     l_check demo_login_cached < l_store l0 + credCacheTTL).
Proof.
  apply (ValidateCredentials_sound (F := Q) (AE := demo_env) (UC := ascii_only) (Ok "") (fun _ => 0) demo_store
           [LoginCall demo_login] demo_login_cached bob demo_store_new).
  vm_compute. reflexivity.
Defined.

(** ** Loading users.json *)

Section Loading.
Context {F : Type} {GF : GoFloat F} {UC : Unicode} {MO : MapOrder} {AE : AuthEnv}.
Implicit Types s : UserStore F.

(** The user a lower-cased name stands for: the last enabled entry with it. *)
Definition selected (us : list User) (k : string) : option User :=
  last (List.filter (fun u => Enabled u && String.eqb (ToLower (Username u)) k) us).

Lemma load_users_lookup us : forall s i now k,
  users (load_users s us i now) !! k =
    match selected us k with Some u => Some u | None => users s !! k end.
Proof.
  induction us as [|u us IH]; intros s i now k; [done|]. cbn [load_users].
  rewrite IH. unfold selected, load_user. cbn [List.filter].
  destruct (Enabled u); cbn [andb]; [|done].
  destruct (String.eqb_spec (ToLower (Username u)) k) as [Hk|Hk].
  - rewrite last_cons. destruct (last _); [done|].
    case_match; simpl; subst; by rewrite lookup_insert_eq.
  - destruct (last _); [done|]. case_match; simpl; by rewrite lookup_insert_ne.
Qed.

(** Loading the users changes only the table and the limiter. *)
Lemma load_users_frame us : forall s i now,
  let s' := load_users s us i now in
  ipWhitelist s' = ipWhitelist s /\ superAdminIPs s' = superAdminIPs s /\
  credCache s' = credCache s.
Proof.
  induction us as [|u us IH]; intros s i now; [done|]. cbn [load_users].
  destruct (IH (load_user s u (now i)) (S i) now) as (-> & -> & ->).
  unfold load_user. by repeat case_match.
Qed.

(** A name no enabled entry is spelt as gets no bucket. *)
Lemma load_users_no_bucket us name : forall s i now,
  (forall u, In u us -> Enabled u = true -> Username u <> name) ->
  buckets (rateLimiter s) !! name = None ->
  buckets (rateLimiter (load_users s us i now)) !! name = None.
Proof.
  induction us as [|u us IH]; intros s i now Hus Hs; [done|]. cbn [load_users].
  apply IH; [intros; apply Hus; [by right|done]|]. unfold load_user.
  destruct (Enabled u) eqn:E; [|done]. case_match; [|done].
  simpl. rewrite lookup_insert_ne; [done|]. apply Hus; [by left|done].
Qed.

Lemma parse_list_Ok what entries : forall acc l,
  parse_list what entries acc = (Ok tt, l) <->
  exists nets, Forall2 (fun e n => parseCIDR e = Ok n) entries nets /\ l = acc ++ nets.
Proof.
  induction entries as [|e entries IH]; intros acc l; cbn [parse_list].
  - split; [intros [= <-]; exists []; by rewrite app_nil_r|].
    intros (nets & ->%Forall2_nil_inv_l & ->). by rewrite app_nil_r.
  - destruct (parseCIDR e) as [n|err] eqn:E.
    + rewrite IH. split.
      * intros (nets & Hn & ->). exists (n :: nets). split; [by constructor|].
        by rewrite <- app_assoc.
      * intros (nets & (n' & nets' & Hn' & Hn & ->)%Forall2_cons_inv_l & ->).
        assert (n' = n) as -> by congruence.
        exists nets'. by rewrite <- app_assoc.
    + split; [done|]. intros (nets & (n' & _ & Hn & _)%Forall2_cons_inv_l & _). congruence.
Qed.

Lemma find_super_admin_spec (m : gmap string User) u :
  find_super_admin m = Some u -> is_super_admin u = true /\ exists k, m !! k = Some u.
Proof.
  unfold find_super_admin. intros ([k v] & Hf & ->)%fmap_Some.
  apply find_some in Hf as [Hin Ha]. split; [done|]. exists k.
  apply list_elem_of_In in Hin. rewrite range_order_perm in Hin.
  by apply elem_of_map_to_list.
Qed.

Lemma NewUserStore_loaded text cfg (now : nat -> Z) s :
  json_users text = Ok cfg -> NewUserStore (Ok text) now = Ok s ->
  (forall k, users s !! k = selected (Users cfg) k) /\ credCache s = ∅.
Proof.
  intros Hj. unfold NewUserStore, LoadFromFile. rewrite Hj.
  destruct (parse_list _ (IPWhitelist cfg) []) as [[[]|] l1]; [|done].
  destruct (parse_list _ (SuperAdminIPs cfg) []) as [[[]|] l2]; [|done].
  intros [= <-]. split; [|done]. intros k. simpl. rewrite load_users_lookup; simpl.
  rewrite lookup_empty. by destruct (selected _ _).
Qed.

Lemma NewUserStore_contents (data : result string) (now : nat -> Z) s :
  NewUserStore data now = Ok s ->
  exists text cfg, data = Ok text /\ json_users text = Ok cfg /\
    (forall name, GetUser s name = selected (Users cfg) (ToLower name)) /\
    Forall2 (fun e n => parseCIDR e = Ok n) (IPWhitelist cfg) (ipWhitelist s) /\
    Forall2 (fun e n => parseCIDR e = Ok n) (SuperAdminIPs cfg) (superAdminIPs s) /\
    (forall u, superAdminUser s = Some u -> is_super_admin u = true /\
       exists k, users s !! k = Some u) /\
    credCache s = ∅.
Proof.
  unfold NewUserStore, LoadFromFile. destruct data as [text|]; [|done].
  destruct (json_users text) as [cfg|] eqn:Ej; [|done].
  destruct (parse_list _ (IPWhitelist cfg) []) as [[[]|] l1] eqn:E1; [|done].
  destruct (parse_list _ (SuperAdminIPs cfg) []) as [[[]|] l2] eqn:E2; [|done].
  intros [= <-]. exists text, cfg.
  apply parse_list_Ok in E1 as (n1 & H1 & ->), E2 as (n2 & H2 & ->).
  split_and!; try done.
  - intros name. unfold GetUser; simpl. rewrite load_users_lookup; simpl.
    rewrite lookup_empty. by destruct (selected _ _).
  - intros u. simpl. apply find_super_admin_spec.
Qed.

(** A users file that can be read and parsed, with addresses that parse. *)
Definition loadable (data : result string) : Prop :=
  exists text cfg, data = Ok text /\ json_users text = Ok cfg /\
    Forall (fun e => exists n, parseCIDR e = Ok n) (IPWhitelist cfg) /\
    Forall (fun e => exists n, parseCIDR e = Ok n) (SuperAdminIPs cfg).

Lemma parse_list_succeeds what entries acc :
  fst (parse_list what entries acc) = Ok tt <-> Forall (fun e => exists n, parseCIDR e = Ok n) entries.
Proof.
  revert acc. induction entries as [|e entries IH]; intros acc; cbn [parse_list]; [by split|].
  rewrite Forall_cons. destruct (parseCIDR e) as [n|err].
  - rewrite IH. split; [|tauto]. intros H. split; [by exists n|done].
  - split; [done|]. by intros [[? ?] _].
Qed.

Lemma NewUserStore_loadable data now : (exists s, NewUserStore data now = Ok s) <-> loadable data.
Proof.
  unfold NewUserStore, LoadFromFile, loadable. destruct data as [text|err].
  2: { split; [by intros [? ?]|by intros (? & ? & ? & _)]. }
  destruct (json_users text) as [cfg|err] eqn:Ej.
  2: { split; [by intros [? ?]|]. intros (? & ? & [= <-] & ? & _). congruence. }
  pose proof (parse_list_succeeds "IP whitelist" (IPWhitelist cfg) []) as H1.
  pose proof (parse_list_succeeds "super_admin_ips" (SuperAdminIPs cfg) []) as H2.
  destruct (parse_list _ (IPWhitelist cfg) []) as [[[]|] ?], (parse_list _ (SuperAdminIPs cfg) []) as [[[]|] ?];
    simpl in *; (split; [intros [? ?]; try done|intros (? & ? & [= <-] & E & ? & ?); rewrite Ej in E; injection E as <-]).
  1: exists text, cfg; tauto.
  1: by eexists.
  all: exfalso; intuition congruence.
Qed.

(** C28: loading a well-formed users.json gives the store it describes: a name
    stands for the last enabled entry spelt so in any case, both address lists
    hold every entry of the file in order, the super admin is a loaded user of
    that role, and no credential is cached. *)
Theorem NewUserStore_spec (data : result string) (now : nat -> Z) s :
  NewUserStore data now = Ok s ->
  exists text cfg, data = Ok text /\ json_users text = Ok cfg /\
    (forall name, GetUser s name = selected (Users cfg) (ToLower name)) /\
    Forall2 (fun e n => parseCIDR e = Ok n) (IPWhitelist cfg) (ipWhitelist s) /\
    Forall2 (fun e n => parseCIDR e = Ok n) (SuperAdminIPs cfg) (superAdminIPs s) /\
    (forall u, superAdminUser s = Some u -> is_super_admin u = true /\
       exists k, users s !! k = Some u) /\
    credCache s = ∅.
Proof. apply NewUserStore_contents. Qed.
End Loading.

Lemma NewUserStore_spec_witness :
  exists text cfg, Ok "" = Ok text /\ json_users (AuthEnv := demo_env) text = Ok cfg /\
    (forall name, GetUser (UC := ascii_only) demo_store name
                  = selected (UC := ascii_only) (Users cfg) (ToLower (H := ascii_only) name)) /\
    Forall2 (fun e n => parseCIDR e = Ok n) (IPWhitelist cfg) (ipWhitelist demo_store) /\
    Forall2 (fun e n => parseCIDR e = Ok n) (SuperAdminIPs cfg) (superAdminIPs demo_store) /\
    (forall u, superAdminUser demo_store = Some u ->
       is_super_admin (UC := ascii_only) u = true /\ exists k, users demo_store !! k = Some u) /\
    credCache demo_store = ∅.
Proof. exact (NewUserStore_spec (AE := demo_env) (Ok "") (fun _ => 0) demo_store demo_store_new). Defined.

Section Behaviour.
Context {F : Type} {GF : GoFloat F} {UC : Unicode} {MO : MapOrder} {AE : AuthEnv}.
Implicit Types s : UserStore F.

(** A reload whose white list has a bad entry fails half-way: it reports
    the entry, but the users are already the new ones, the white list holds
    just the entries before the bad one, and the credentials verified
    against the old users stay cached. *)
Theorem LoadFromFile_bad_whitelist s (text : string) (cfg : UsersConfig) (now : nat -> Z)
    (good bad : list string) (e msg : string) (nets : list IPNet) :
  json_users text = Ok cfg -> IPWhitelist cfg = good ++ e :: bad ->
  Forall2 (fun e n => parseCIDR e = Ok n) good nets -> parseCIDR e = Err msg ->
  let '(r, s') := LoadFromFile s (Ok text) now in
  r = Err ("invalid IP whitelist entry '" +:+ e +:+ "': " +:+ msg) /\
  (forall k, users s' !! k = selected (Users cfg) k) /\
  ipWhitelist s' = nets /\ superAdminIPs s' = superAdminIPs s /\ credCache s' = credCache s.
Proof.
  intros Hj Hw Hgood Hbad. unfold LoadFromFile. rewrite Hj, Hw.
  assert (forall acc, parse_list "IP whitelist" (good ++ e :: bad) acc =
    (Err ("invalid IP whitelist entry '" +:+ e +:+ "': " +:+ msg), acc ++ nets)) as Hp.
  { clear Hw. induction Hgood as [|x n good nets Hx _ IH]; intros acc.
    - simpl. rewrite Hbad, app_nil_r. done.
    - cbn [app parse_list]. rewrite Hx, IH. by rewrite <- app_assoc. }
  rewrite Hp. simpl.
  destruct (load_users_frame (Users cfg) (with_users s ∅) 0 now) as (_ & -> & ->).
  split_and!; try done. intros k. rewrite load_users_lookup. simpl. rewrite lookup_empty.
  by destruct (selected _ _).
Qed.

(** The limiter is keyed by the name as users.json spells it, but
    authentication ignores case: a user who logs in under another spelling of
    the name is never limited, whatever the limit. *)
Theorem CheckRateLimit_spelling (data : result string) (load : nat -> Z) s
    (text name : string) (cfg : UsersConfig) (user : User) (now : Z) :
  data = Ok text -> json_users text = Ok cfg -> NewUserStore data load = Ok s ->
  GetUser s name = Some user ->
  (forall u, In u (Users cfg) -> Enabled u = true -> Username u <> name) ->
  CheckRateLimit s name now = (true, s).
Proof.
  intros -> Hj Hs Hu Hspell.
  assert (buckets (rateLimiter s) !! name = None) as Hb.
  { revert Hs. unfold NewUserStore, LoadFromFile. rewrite Hj.
    repeat case_match; intros [= <-]; simplify_eq/=. by apply load_users_no_bucket. }
  unfold CheckRateLimit, GetUser in *. rewrite Hu. case_match; [done|].
  unfold Allow. rewrite Hb. by destruct s.
Qed.

(** [InvalidateUser] forgets every password cached for the name in any
    case, and no credential of another name, but for names that continue
    the invalidated one after a [':']. *)
Theorem InvalidateUser_exact s (name u p : string) :
  credCache (InvalidateUser s name) !! cacheKey u p =
    if HasPrefix (ToLower u +:+ ":") (ToLower name +:+ ":") then None
    else credCache s !! cacheKey u p.
Proof.
  unfold InvalidateUser, cacheKey; simpl.
  assert (HasPrefix (ToLower u +:+ ":" +:+ hex_encode (Sum256 (bytes_of_string p)))
                    (ToLower name +:+ ":") =
          HasPrefix (ToLower u +:+ ":") (ToLower name +:+ ":")) as E.
  { rewrite <- str_app_assoc. apply HasPrefix_app_no_char, hex_encode_no_char. reflexivity. }
  destruct (HasPrefix (ToLower u +:+ ":") _) eqn:H.
  - apply map_lookup_filter_None. right. intros x _. simpl. by rewrite E.
  - destruct (credCache s !! _) as [x|] eqn:Hx.
    + by apply map_lookup_filter_Some_2.
    + apply map_lookup_filter_None. by left.
Qed.

(** After [InvalidateUser] (and until the user logs in again) the answer
    of a login of that user is bcrypt's on the current table, never the cache's. *)
Lemma after_InvalidateUser s name u p t1 t2 :
  ToLower u = ToLower name ->
  fst (ValidateCredentials (InvalidateUser s name) u p t1 t2) =
    user ← users s !! ToLower u; if bcrypt_ok (PasswordHash user) p then Some user else None.
Proof.
  intros Hn. unfold ValidateCredentials. 
  assert (credCache (InvalidateUser s name) !! cacheKey u p = None) as ->.
  { unfold InvalidateUser; simpl. apply map_lookup_filter_None. right. intros x _. simpl.
    unfold cacheKey. rewrite Hn, <- str_app_assoc, HasPrefix_app. done. }
  change (users (InvalidateUser s name)) with (users s).
  destruct (users s !! ToLower u); simpl; [by case_match|done].
Qed.

(** A network of the white list, as the administrator writes it. *)
Definition v4_network (n : byte * byte * byte * byte * Z) : string :=
  let '(a, b, c, d, len) := n in v4_string a b c d +:+ "/" +:+ decimal len.

(** The address [ip] agrees with the network on its first [len] bits. *)
Definition in_network (n : byte * byte * byte * byte * Z) (ip : Z) : bool :=
  let '(a, b, c, d, len) := n in
  bool_decide (Z.shiftr (ip32 a b c d) (32 - len) = Z.shiftr ip (32 - len)).

Lemma parseIP_v4_port e f g h port :
  string_all is_digit port = true ->
  parseIP (v4_string e f g h +:+ ":" +:+ port) = Some (v4_in_v6_prefix ++ [e; f; g; h]).
Proof.
  intros Hp. unfold parseIP. change (":" +:+ port) with (String ":" port) at 1.
  rewrite Contains_app_char, SplitHostPort_plain, ParseIP_v4; try done;
    first [by apply v4_string_no_char|by eapply digits_no_char].
Qed.

(** C29: the IP white list lets in exactly the clients whose address, the
    port stripped, lies in one of its networks in CIDR notation. *)
Theorem CheckIPAllowed_v4 s (nets : list (byte * byte * byte * byte * Z))
    (e f g h : byte) (port : string) :
  nets <> [] -> Forall (fun n => 0 <= n.2 <= 32) nets ->
  Forall2 (fun n net => parseCIDR (v4_network n) = Ok net) nets (ipWhitelist s) ->
  string_all is_digit port = true ->
  CheckIPAllowed s (v4_string e f g h +:+ ":" +:+ port) =
    existsb (fun n => in_network n (ip32 e f g h)) nets.
Proof.
  intros Hne Hlen Hnets Hport. unfold CheckIPAllowed. rewrite decide_False.
  2: { intros E. rewrite E in Hnets. by apply Forall2_nil_inv_r in Hnets. }
  rewrite parseIP_v4_port by done. clear Hne.
  induction Hnets as [|[[[[a b] c] d] n] net nets l Hn _ IH]; [done|].
  apply Forall_cons in Hlen as [Hn32 Hlen]. simpl in Hn32. cbn [existsb].
  rewrite (IH Hlen). f_equal. destruct (ParseCIDR_v4 a b c d n Hn32) as (net' & E & Hc).
  unfold parseCIDR, v4_network in Hn. change ("/" +:+ decimal n) with (String "/" (decimal n)) in *.
  rewrite Contains_app_char, E in Hn. injection Hn as <-. apply Hc.
Qed.
End Behaviour.

(** A file with a bad second white-list entry. *)
Definition bad_config : UsersConfig := MkUsersConfig [bob] ["10.0.0.0/8"; "nonsense"] [].
Definition bad_env : AuthEnv := {| bcrypt_ok _ _ := false; json_users _ := Ok bad_config |}.
Definition net10 : IPNet := MkIPNet [x0a; x00; x00; x00] [xff; x00; x00; x00].

Lemma LoadFromFile_bad_whitelist_witness :
  let '(r, s') := LoadFromFile (AE := bad_env) (UC := ascii_only) demo_store (Ok "") (fun _ => 0) in
  r = Err ("invalid IP whitelist entry '" +:+ "nonsense" +:+ "': " +:+
           "invalid CIDR address: nonsense/32") /\ (forall k, users s' !! k = selected (UC := ascii_only) [bob] k) /\
  ipWhitelist s' = [net10] /\ superAdminIPs s' = superAdminIPs demo_store /\
  credCache s' = credCache demo_store.
Proof.
  apply (LoadFromFile_bad_whitelist (AE := bad_env) (UC := ascii_only) demo_store "" bad_config
           (fun _ => 0) ["10.0.0.0/8"] [] "nonsense" _ [net10]).
  - reflexivity.
  - reflexivity.
  - constructor; [vm_compute; reflexivity|constructor].
  - vm_compute. reflexivity.
Defined.

Lemma CheckRateLimit_spelling_witness :
  CheckRateLimit (UC := ascii_only) demo_store "BOB" 0 = (true, demo_store).
Proof.
  apply (CheckRateLimit_spelling (AE := demo_env) (UC := ascii_only) (Ok "") (fun _ => 0) demo_store
           "" "BOB" demo_config bob 0).
  - reflexivity.
  - reflexivity.
  - exact demo_store_new.
  - vm_compute. reflexivity.
  - intros u [<-|[]] _. discriminate.
Defined.

Lemma CheckIPAllowed_v4_witness :
  CheckIPAllowed demo_store (v4_string x0a x01 x02 x03 +:+ ":" +:+ "4711") =
    existsb (fun n => in_network n (ip32 x0a x01 x02 x03)) [(x0a, x00, x00, x00, 8)].
Proof.
  apply (CheckIPAllowed_v4 demo_store [(x0a, x00, x00, x00, 8)] x0a x01 x02 x03 "4711").
  - discriminate.
  - constructor; [simpl; lia|constructor].
  - constructor; [vm_compute; reflexivity|constructor].
  - reflexivity.
Defined.
