(* ===== verification/Tracker.v ===== *)
(** * Bandwidth accounting ([internal/bandwidth/tracker.go])

    The tracker counts, per user and calendar month, the bytes relayed and the
    connections that are open, and keeps the counts in a file. [World] is the
    tracker together with what its file holds. Every method is a function of the
    world, of the readings of [time.Now()] it may make ([Readings]) and, where it
    may write the file, of what that write leaves on disk ([WriteOutcome]).
    [encoding/json] is the class [UsageJSON]. *)
From S2P Require Import Prelude GoStrings GoTime.

Record UserUsage := MkUserUsage {
  BytesUp : Z;
  BytesDown : Z;
  TotalBytes : Z;
  LastResetAt : string;
  ActiveConns : Z
}.

(** [Users] is [nil] when the file has no such key; an entry is [nil] when the
    file says [null]. *)
Record UsageFile := MkUsageFile {
  Month : string;
  Users : option (gmap string (option UserUsage))
}.

(** The strings that survive JSON for sure. *)
Definition ascii_usage_file (f : UsageFile) : Prop :=
  is_ascii f.(Month) = true /\
  forall m k u, f.(Users) = Some m -> m !! k = Some u ->
    is_ascii k = true /\ forall v, u = Some v -> is_ascii v.(LastResetAt) = true.

Class UsageJSON := {
  json_bytes : Type;
  json_marshal : UsageFile -> result json_bytes;
  json_unmarshal : json_bytes -> result UsageFile;
  json_roundtrip : forall f, ascii_usage_file f ->
    exists data, json_marshal f = Ok data /\ json_unmarshal data = Ok f
}.

#[export] Instance plain_json : UsageJSON.
Proof. refine {| json_bytes := UsageFile; json_marshal := Ok; json_unmarshal := Ok |}. eauto. Defined.

(** [stopped] says that [stopCh] is closed. *)
Record Tracker := MkTracker {
  users : gmap string UserUsage;
  month : string;
  filePath : string;
  stopped : bool
}.

(** The readings of the clock in one call: for the month, for the time stamp of
    a user that is reset, and of one that is created. *)
Record Readings := MkReadings { r_month : Z; r_reset : string -> Z; r_create : Z }.
Definition at_time (t : Z) : Readings := MkReadings t (fun _ => t) t.

Inductive WriteOutcome {B : Type} := WriteOk | WriteFail (left_on_disk : result B).
Arguments WriteOutcome : clear implicits.

Section Operations.
Context {ZN : Zone} {UJ : UsageJSON}.

(** [disk] is what [os.ReadFile(filePath)] gives. *)
Record World := MkWorld { tracker : Tracker; disk : result json_bytes }.

Definition with_users (t : Tracker) (m : gmap string UserUsage) : Tracker :=
  MkTracker m t.(month) t.(filePath) t.(stopped).
Definition with_month (t : Tracker) (m : string) : Tracker :=
  MkTracker t.(users) m t.(filePath) t.(stopped).
Definition close_stop (t : Tracker) : Tracker :=
  MkTracker t.(users) t.(month) t.(filePath) true.
Definition set_user (t : Tracker) (username : string) (u : UserUsage) : Tracker :=
  with_users t (<[username := u]> t.(users)).
Definition with_tracker (w : World) (t : Tracker) : World := MkWorld t w.(disk).

Definition getOrCreate (t : Tracker) (username : string) (now : Z) : UserUsage * Tracker :=
  match t.(users) !! username with
  | Some u => (u, t)
  | None => let u := MkUserUsage 0 0 0 (FormatRFC3339 now) 0 in (u, set_user t username u)
  end.

Definition saveToDiskLocked (w : World) (wr : WriteOutcome json_bytes) : World :=
  let t := w.(tracker) in
  match json_marshal (MkUsageFile t.(month) (Some (Some <$> t.(users)))) with
  | Err _ => w
  | Ok data => MkWorld t match wr with WriteOk => Ok data | WriteFail d => d end
  end.

Definition saveToDisk (w : World) (wr : WriteOutcome json_bytes) : World :=
  saveToDiskLocked w wr.

Definition reset_user (now : Z) (u : UserUsage) : UserUsage :=
  MkUserUsage 0 0 0 (FormatRFC3339 now) u.(ActiveConns).

Definition checkMonthlyReset (w : World) (c : Readings) (wr : WriteOutcome json_bytes) : World :=
  let currentMonth := FormatMonth c.(r_month) in
  let t := w.(tracker) in
  if String.eqb currentMonth t.(month) then w else
  let t := with_users t (map_imap (fun k u => Some (reset_user (c.(r_reset) k) u)) t.(users)) in
  saveToDiskLocked (with_tracker w (with_month t currentMonth)) wr.

Definition RecordBytes (w : World) (username : string) (up down : Z)
    (c : Readings) (wr : WriteOutcome json_bytes) : World :=
  let w := checkMonthlyReset w c wr in
  let '(u, t) := getOrCreate w.(tracker) username c.(r_create) in
  with_tracker w (set_user t username
    (MkUserUsage (wrap64 (u.(BytesUp) + up)) (wrap64 (u.(BytesDown) + down))
       (wrap64 (u.(TotalBytes) + wrap64 (up + down))) u.(LastResetAt) u.(ActiveConns))).

Definition CheckAllowance (w : World) (username : string) (limitGB : Z)
    (c : Readings) (wr : WriteOutcome json_bytes) : bool * World :=
  if limitGB <=? 0 then (true, w) else
  let w := checkMonthlyReset w c wr in
  let '(u, t) := getOrCreate w.(tracker) username c.(r_create) in
  let limitBytes := wrap64 (wrap64 (wrap64 (limitGB * 1024) * 1024) * 1024) in
  (u.(TotalBytes) <? limitBytes, with_tracker w t).

Definition GetUsage (w : World) (username : string) (c : Readings) : UserUsage * World :=
  let '(u, t) := getOrCreate w.(tracker) username c.(r_create) in (u, with_tracker w t).

Definition GetAllUsage (w : World) : gmap string UserUsage := w.(tracker).(users).

Definition with_conns (u : UserUsage) (n : Z) : UserUsage :=
  MkUserUsage u.(BytesUp) u.(BytesDown) u.(TotalBytes) u.(LastResetAt) n.

Definition IncrementConns (w : World) (username : string) (c : Readings) : World :=
  let '(u, t) := getOrCreate w.(tracker) username c.(r_create) in
  with_tracker w (set_user t username (with_conns u (wrap64 (u.(ActiveConns) + 1)))).

Definition DecrementConns (w : World) (username : string) (c : Readings) : World :=
  let '(u, t) := getOrCreate w.(tracker) username c.(r_create) in
  with_tracker w (if 0 <? u.(ActiveConns)
                  then set_user t username (with_conns u (wrap64 (u.(ActiveConns) - 1)))
                  else t).

Definition GetActiveConns (w : World) (username : string) (c : Readings) : Z * World :=
  let '(u, t) := getOrCreate w.(tracker) username c.(r_create) in
  (u.(ActiveConns), with_tracker w t).

Definition CheckConnLimit (w : World) (username : string) (maxConns : Z) (c : Readings)
    : bool * World :=
  if maxConns <=? 0 then (true, w) else
  let '(u, t) := getOrCreate w.(tracker) username c.(r_create) in
  (u.(ActiveConns) <? maxConns, with_tracker w t).

(** A second [close] of [stopCh] panics. *)
Definition Stop (w : World) (wr : WriteOutcome json_bytes) : outcome World :=
  if w.(tracker).(stopped) then Panic
  else Done (saveToDisk (with_tracker w (close_stop w.(tracker))) wr).

Definition GetMonth (w : World) : string := w.(tracker).(month).

(** A [nil] entry of the file is dereferenced by the loop that clears the
    connection counts. *)
Definition clear_conns (m : gmap string (option UserUsage)) : outcome (gmap string UserUsage) :=
  if decide (map_Forall (fun _ u => is_Some u) m)
  then Done (omap (fmap (M := option) (fun u => with_conns u 0)) m) else Panic.

Definition loadFromDisk (w : World) (now : Z) : outcome World :=
  match w.(disk) with
  | Err _ => Done w
  | Ok data =>
      match json_unmarshal data with
      | Err _ => Done w
      | Ok file =>
          let currentMonth := FormatMonth now in
          match file.(Users) with
          | Some m =>
              if String.eqb file.(Month) currentMonth
              then m ← clear_conns m;
                   Done (with_tracker w (with_month (with_users w.(tracker) m) file.(Month)))
              else Done w
          | None => Done w
          end
      end
  end.

(** [t_month] and [t_load] are the readings for the month of the fresh tracker
    and in [loadFromDisk]. *)
Definition NewTracker (filePath : string) (d : result json_bytes) (t_month t_load : Z)
    : outcome World :=
  loadFromDisk (MkWorld (MkTracker ∅ (FormatMonth t_month) filePath false) d) t_load.

(** The goroutine of [backgroundLoop], while it is [alive]: it saves at a tick
    and returns once [stopCh] is closed; [select] takes either when both are
    ready. *)
Inductive backgroundLoop : World * bool -> World * bool -> Prop :=
| bg_tick w wr : backgroundLoop (w, true) (saveToDisk w wr, true)
| bg_stop w : w.(tracker).(stopped) = true -> backgroundLoop (w, true) (w, false).
End Operations.
