(* ===== verification/TrackerFacts.v ===== *)
(** * What the bandwidth tracker guarantees

    [Meter] is the abstract specification: per user, unbounded sums of the bytes
    since the last change of month and the number of open connections. The
    tracker refines it, 64-bit counters and all. Then: the bounds within which a
    quota is exact, saving and loading, and the rollover of the month. *)
From S2P Require Import Prelude GoStrings GoTime Tracker.

(** ** The abstract meter *)

Record Meter := MkMeter {
  m_month : string;
  m_up : string -> Z;
  m_down : string -> Z;
  m_conns : string -> Z
}.

Definition update (f : string -> Z) (u : string) (v : Z) : string -> Z :=
  fun x => if decide (x = u) then v else f x.

Inductive call :=
| CRecord (u : string) (up down : Z)
| CAllowance (u : string) (limitGB : Z)
| CUsage (u : string)
| CIncrement (u : string)
| CDecrement (u : string)
| CConns (u : string)
| CConnLimit (u : string) (maxConns : Z)
| CSave.

(** What a call returns; a usage is its four counters. *)
Inductive answer :=
| AUnit
| ABool (b : bool)
| AInt (z : Z)
| AUsage (c : Z * Z * Z * Z).

Definition counts (u : UserUsage) : Z * Z * Z * Z :=
  (BytesUp u, BytesDown u, TotalBytes u, ActiveConns u).

Section Refinement.
Context {ZN : Zone} {UJ : UsageJSON}.

Definition event : Type := call * Readings * WriteOutcome json_bytes.

Definition exec (w : World) (e : event) : answer * World :=
  let '(k, c, wr) := e in
  match k with
  | CRecord u up down => (AUnit, RecordBytes w u up down c wr)
  | CAllowance u l => let '(b, w) := CheckAllowance w u l c wr in (ABool b, w)
  | CUsage u => let '(x, w) := GetUsage w u c in (AUsage (counts x), w)
  | CIncrement u => (AUnit, IncrementConns w u c)
  | CDecrement u => (AUnit, DecrementConns w u c)
  | CConns u => let '(n, w) := GetActiveConns w u c in (AInt n, w)
  | CConnLimit u n => let '(b, w) := CheckConnLimit w u n c in (ABool b, w)
  | CSave => (AUnit, saveToDisk w wr)
  end.

(** The meter starts every month at zero, when a call that counts or checks
    bytes is made in it. *)
Definition roll (m : Meter) (now : Z) : Meter :=
  if String.eqb (FormatMonth now) (m_month m) then m
  else MkMeter (FormatMonth now) (fun _ => 0) (fun _ => 0) (m_conns m).

Definition m_counts (m : Meter) (u : string) : Z * Z * Z * Z :=
  (wrap64 (m_up m u), wrap64 (m_down m u), wrap64 (m_up m u + m_down m u), m_conns m u).

Definition spec_exec (m : Meter) (e : event) : answer * Meter :=
  let '(k, c, _) := e in
  match k with
  | CRecord u up down =>
      let m := roll m c.(r_month) in
      (AUnit, MkMeter (m_month m) (update (m_up m) u (m_up m u + up))
                (update (m_down m) u (m_down m u + down)) (m_conns m))
  | CAllowance u l =>
      if l <=? 0 then (ABool true, m) else
      let m := roll m c.(r_month) in
      (ABool (wrap64 (m_up m u + m_down m u) <? wrap64 (l * 2^30)), m)
  | CUsage u => (AUsage (m_counts m u), m)
  | CIncrement u =>
      (AUnit, MkMeter (m_month m) (m_up m) (m_down m) (update (m_conns m) u (m_conns m u + 1)))
  | CDecrement u =>
      (AUnit, MkMeter (m_month m) (m_up m) (m_down m)
                (update (m_conns m) u (Z.max 0 (m_conns m u - 1))))
  | CConns u => (AInt (m_conns m u), m)
  | CConnLimit u n => (ABool (if n <=? 0 then true else m_conns m u <? n), m)
  | CSave => (AUnit, m)
  end.

Fixpoint run {S} (step : S -> event -> answer * S) (s : S) (es : list event)
    : list answer * S :=
  match es with
  | [] => ([], s)
  | e :: es => let '(a, s) := step s e in let '(l, s) := run step s es in (a :: l, s)
  end.

Definition usage_of (t : Tracker) (u : string) : Z * Z * Z * Z :=
  default (0, 0, 0, 0) (counts <$> users t !! u).

(** The abstraction relation. *)
Definition refines (w : World) (m : Meter) : Prop :=
  month (tracker w) = m_month m /\
  forall u, usage_of (tracker w) u = m_counts m u.

(** Fewer than [2^63] connections, now and for [n] more calls. *)
Definition conns_fit (m : Meter) (n : Z) : Prop :=
  forall u, 0 <= m_conns m u /\ m_conns m u + n < 2^63.

Lemma usage_of_set t u x v :
  usage_of (set_user t u x) v = if decide (v = u) then counts x else usage_of t v.
Proof.
  unfold usage_of, set_user; simpl. case_decide; subst.
  - by rewrite lookup_insert_eq.
  - by rewrite lookup_insert_ne.
Qed.

Lemma getOrCreate_counts t u now x t' :
  getOrCreate t u now = (x, t') ->
  counts x = usage_of t u /\ month t' = month t /\ forall v, usage_of t' v = usage_of t v.
Proof.
  unfold getOrCreate. destruct (users t !! u) as [y|] eqn:E; intros [= <- <-];
    (split; [unfold usage_of; by rewrite E|]); [done|split; [done|]].
  intros v. rewrite usage_of_set. case_decide; [|done]. subst. unfold usage_of. by rewrite E.
Qed.

Lemma saveToDiskLocked_tracker w wr : tracker (saveToDiskLocked w wr) = tracker w.
Proof. unfold saveToDiskLocked. by case_match. Qed.

Lemma checkMonthlyReset_refines w m c wr :
  refines w m -> refines (checkMonthlyReset w c wr) (roll m (r_month c)).
Proof.
  intros [Hm Hu]. unfold checkMonthlyReset, roll, refines. rewrite Hm.
  destruct (String.eqb _ _); [done|]. rewrite saveToDiskLocked_tracker.
  split; [done|]. intros u. pose proof (Hu u) as H. revert H.
  unfold usage_of, m_counts; simpl. rewrite map_lookup_imap.
  unfold counts. by destruct (users (tracker w) !! u); simpl; intros [= _ _ _ <-].
Qed.

Lemma wrap64_GB l : wrap64 (wrap64 (wrap64 (l * 1024) * 1024) * 1024) = wrap64 (l * 2^30).
Proof.
  rewrite wrap64_mul_l, <- Z.mul_assoc, wrap64_mul_l, <- Z.mul_assoc. done.
Qed.

Lemma counts_eq x m u :
  counts x = m_counts m u ->
  BytesUp x = wrap64 (m_up m u) /\ BytesDown x = wrap64 (m_down m u) /\
  TotalBytes x = wrap64 (m_up m u + m_down m u) /\ ActiveConns x = m_conns m u.
Proof. unfold counts, m_counts. rewrite !pair_eq. tauto. Qed.

(** The calls that go straight to a user's record. *)
Lemma getOrCreate_refines w m u now x t' :
  refines w m -> getOrCreate (tracker w) u now = (x, t') ->
  counts x = m_counts m u /\ refines (with_tracker w t') m.
Proof.
  intros [Hm Hu] E. apply getOrCreate_counts in E as (Hx & Hmo & Hv).
  split; [by rewrite Hx|]. split; simpl; [by rewrite Hmo|]. intros v. by rewrite Hv.
Qed.

Lemma set_user_refines w m m' u x :
  refines w m -> m_month m' = m_month m -> counts x = m_counts m' u ->
  (forall v, v <> u -> m_counts m' v = m_counts m v) ->
  refines (with_tracker w (set_user (tracker w) u x)) m'.
Proof.
  intros [Hm Hu] Hmo Hx Hv. split; simpl; [by rewrite Hmo|]. intros v.
  rewrite usage_of_set. case_decide; [by subst|]. by rewrite Hu, Hv.
Qed.

Lemma update_eq f u v : update f u v u = v.
Proof. unfold update. by rewrite decide_True. Qed.
Lemma update_ne f u v x : x <> u -> update f u v x = f x.
Proof. intros. unfold update. by rewrite decide_False. Qed.

Lemma roll_conns m t : m_conns (roll m t) = m_conns m.
Proof. unfold roll. by case_match. Qed.

Lemma RecordBytes_refines w m u up down c wr :
  refines w m -> refines (RecordBytes w u up down c wr) (spec_exec m (CRecord u up down, c, wr)).2.
Proof.
  intros H. apply (checkMonthlyReset_refines _ _ c wr) in H. unfold RecordBytes, spec_exec.
  destruct (getOrCreate _ _ _) as [x t'] eqn:E.
  destruct (getOrCreate_refines _ _ _ _ _ _ H E) as [(H1 & H2 & H3 & H4)%counts_eq H'].
  generalize dependent (roll m (r_month c)). intros r H H1 H2 H3 H4 H'. cbn [snd].
  apply (set_user_refines (with_tracker _ t') r); [exact H'|reflexivity| |].
  - unfold counts, m_counts. cbn [BytesUp BytesDown TotalBytes ActiveConns m_up m_down m_conns].
    rewrite !update_eq, H1, H2, H3, H4, !wrap64_add_l, wrap64_add_r.
    by replace (m_up r u + up + (m_down r u + down))
      with (m_up r u + m_down r u + (up + down)) by lia.
  - intros v Hv. unfold m_counts. cbn [m_up m_down m_conns]. by rewrite !update_ne.
Qed.

Lemma conns_refines w m u c x t' n :
  refines w m -> getOrCreate (tracker w) u (r_create c) = (x, t') ->
  refines (with_tracker w (set_user t' u (with_conns x n)))
    (MkMeter (m_month m) (m_up m) (m_down m) (update (m_conns m) u n)).
Proof.
  intros H E. destruct (getOrCreate_refines _ _ _ _ _ _ H E) as [(H1 & H2 & H3 & H4)%counts_eq H'].
  apply (set_user_refines (with_tracker w t') m); simpl; try done.
  - unfold counts, m_counts; simpl. by rewrite update_eq, H1, H2, H3.
  - intros v Hv. unfold m_counts; simpl. by rewrite update_ne.
Qed.

Lemma exec_refines w m e n :
  refines w m -> conns_fit m (n + 1) -> 0 <= n ->
  (exec w e).1 = (spec_exec m e).1 /\ refines (exec w e).2 (spec_exec m e).2 /\
    conns_fit (spec_exec m e).2 n.
Proof.
  intros H Hf Hn. destruct e as [[k c] wr].
  assert (conns_fit m n) as Hf' by (intros v; specialize (Hf v); lia).
  assert (forall u z, 0 <= z <= m_conns m u + 1 ->
    conns_fit (MkMeter (m_month m) (m_up m) (m_down m) (update (m_conns m) u z)) n) as Hup.
  { intros u z Hz v. specialize (Hf v). unfold update; simpl. case_decide; subst; lia. }
  destruct k as [u up down|u l|u|u|u|u|u l|]; cbn [exec].
  - split_and!; [done|by apply RecordBytes_refines|]. intros v. simpl. rewrite roll_conns. apply Hf'.
  - unfold CheckAllowance, spec_exec. destruct (l <=? 0); [done|].
    apply (checkMonthlyReset_refines _ _ c wr) in H.
    destruct (getOrCreate _ _ _) as [x t'] eqn:E.
    destruct (getOrCreate_refines _ _ _ _ _ _ H E) as [(_ & _ & Ht & _)%counts_eq H']. simpl. rewrite Ht, wrap64_GB. split_and!; try done.
    intros v. rewrite roll_conns. apply Hf'.
  - unfold GetUsage. destruct (getOrCreate _ _ _) as [x t'] eqn:E.
    destruct (getOrCreate_refines _ _ _ _ _ _ H E) as [Hx H']. simpl. by rewrite Hx.
  - unfold IncrementConns. destruct (getOrCreate _ _ _) as [x t'] eqn:E.
    destruct (getOrCreate_refines _ _ _ _ _ _ H E) as [(_ & _ & _ & Hx)%counts_eq H'].
    pose proof (Hf u) as Hu. cbn [spec_exec fst snd]. rewrite Hx, wrap64_id by (unfold in_int64; lia).
    split_and!; [done|by eapply conns_refines|apply Hup; lia].
  - unfold DecrementConns. destruct (getOrCreate _ _ _) as [x t'] eqn:E.
    destruct (getOrCreate_refines _ _ _ _ _ _ H E) as [(_ & _ & _ & Hx)%counts_eq H'].
    pose proof (Hf u) as Hu. cbn [spec_exec fst snd]. rewrite Hx. split_and!; [done| |apply Hup; lia].
    destruct (Z.ltb_spec 0 (m_conns m u)).
    + rewrite wrap64_id, Z.max_r by (unfold in_int64; lia). by eapply conns_refines.
    + rewrite Z.max_l by lia. assert (m_conns m u = 0) as Hz by lia.
      destruct H' as [Hmo Hv]. split; [done|]. intros v. rewrite Hv. unfold m_counts, update; simpl.
      case_decide; subst; by rewrite ?Hz.
  - unfold GetActiveConns. destruct (getOrCreate _ _ _) as [x t'] eqn:E.
    destruct (getOrCreate_refines _ _ _ _ _ _ H E) as [(_ & _ & _ & Hx)%counts_eq H']. simpl. by rewrite Hx.
  - unfold CheckConnLimit. simpl. destruct (l <=? 0); [done|].
    destruct (getOrCreate _ _ _) as [x t'] eqn:E.
    destruct (getOrCreate_refines _ _ _ _ _ _ H E) as [(_ & _ & _ & Hx)%counts_eq H']. simpl. by rewrite Hx.
  - split_and!; try done. unfold saveToDisk, refines. simpl. by rewrite saveToDiskLocked_tracker.
Qed.

(** C7: the tracker refines the meter: over any sequence of calls, with any
    clock and any failures to write the file, every answer is the one the
    meter gives, where bytes are summed per user since the month began and
    reads and quota checks of one user do not disturb another. *)
Theorem Tracker_refines_Meter (w : World) (m : Meter) (es : list event) :
  refines w m -> conns_fit m (zlen es) ->
  (run exec w es).1 = (run spec_exec m es).1 /\
    refines (run exec w es).2 (run spec_exec m es).2.
Proof.
  revert w m. induction es as [|e es IH]; intros w m H Hf; [done|]. cbn [run].
  destruct (exec_refines w m e (zlen es) H) as (Ha & H' & Hf');
    [intros u; specialize (Hf u); simpl in Hf; lia|lia|].
  destruct (exec w e) as [a w'], (spec_exec m e) as [a' m']. simpl in Ha, H', Hf'. subst a'.
  destruct (IH w' m' H' Hf') as [Hl Hr].
  destruct (run exec w' es), (run spec_exec m' es). simpl in *. by subst.
Qed.
End Refinement.

(** ** Quotas *)

Section Quotas.
Context {ZN : Zone} {UJ : UsageJSON}.

Definition total_of (w : World) (u : string) : Z :=
  default 0 (TotalBytes <$> users (tracker w) !! u).

Lemma CheckAllowance_compares w u limitGB c wr :
  0 < limitGB ->
  (CheckAllowance w u limitGB c wr).1 =
    (total_of (checkMonthlyReset w c wr) u <? wrap64 (limitGB * 2^30)).
Proof.
  intros Hl. unfold CheckAllowance. rewrite (proj2 (Z.leb_gt _ _)) by done.
  unfold getOrCreate, total_of. destruct (users _ !! u); simpl fst; by rewrite wrap64_GB.
Qed.

(** C32: for a limit below [2^33] GB the quota is exact: a user may open a
    connection as long as the bytes counted this month are below the limit. From
    there on the product overflows: [2^33] GB, meant to be generous, refuse a user
    who has not moved a byte. *)
Theorem CheckAllowance_exact w u (limitGB : Z) c wr :
  0 < limitGB ->
  (limitGB < 2^33 ->
     (CheckAllowance w u limitGB c wr).1 = true <->
       total_of (checkMonthlyReset w c wr) u < limitGB * 2^30) /\
  (limitGB = 2^33 -> 0 <= total_of (checkMonthlyReset w c wr) u ->
     (CheckAllowance w u limitGB c wr).1 = false).
Proof.
  intros Hl. split.
  - intros Hlt. rewrite CheckAllowance_compares, wrap64_id by (unfold in_int64; lia).
    apply Z.ltb_lt.
  - intros -> H. rewrite CheckAllowance_compares by done. apply Z.ltb_ge.
    change (wrap64 (2^33 * 2^30)) with (- 2^63). lia.
Qed.
End Quotas.

Definition fresh_world : World :=
  MkWorld (MkTracker ∅ "1970-01" "usage.json" false) (Err "no such file").

Lemma CheckAllowance_exact_witness :
  (1 < 2^33 ->
     (CheckAllowance fresh_world "bob" 1 (at_time 0) WriteOk).1 = true <->
       total_of (checkMonthlyReset fresh_world (at_time 0) WriteOk) "bob" < 1 * 2^30) /\
  (1 = 2^33 -> 0 <= total_of (checkMonthlyReset fresh_world (at_time 0) WriteOk) "bob" ->
     (CheckAllowance fresh_world "bob" 1 (at_time 0) WriteOk).1 = false).
Proof. apply (CheckAllowance_exact fresh_world "bob" 1 (at_time 0) WriteOk). lia. Defined.

Definition zero_meter : Meter := MkMeter "1970-01" (fun _ => 0) (fun _ => 0) (fun _ => 0).
Definition demo_events : list event :=
  [(CIncrement "bob", at_time 0, WriteOk); (CRecord "bob" 5 7, at_time 0, WriteOk);
   (CUsage "bob", at_time 0, WriteOk)].

Lemma Tracker_refines_Meter_witness :
  (run exec fresh_world demo_events).1 = (run spec_exec zero_meter demo_events).1 /\
  refines (run exec fresh_world demo_events).2 (run spec_exec zero_meter demo_events).2.
Proof.
  apply (Tracker_refines_Meter fresh_world zero_meter demo_events).
  - split; [reflexivity|intros u; vm_compute; reflexivity].
  - intros u. simpl. lia.
Defined.

(** ** The file *)

Section Persistence.
Context {ZN : Zone} {UJ : UsageJSON}.

(** The strings of the tracker are plain. *)
Definition ascii_tracker (t : Tracker) : Prop :=
  is_ascii (month t) = true /\
  map_Forall (fun k u => is_ascii k = true /\ is_ascii (LastResetAt u) = true) (users t).

Lemma saveToDiskLocked_disk w :
  ascii_tracker (tracker w) ->
  exists data, disk (saveToDiskLocked w WriteOk) = Ok data /\
    json_unmarshal data = Ok (MkUsageFile (month (tracker w)) (Some (Some <$> users (tracker w)))).
Proof.
  intros [Hm Hu]. unfold saveToDiskLocked.
  destruct (json_roundtrip (MkUsageFile (month (tracker w)) (Some (Some <$> users (tracker w)))))
    as (data & E & E').
  - split; [done|]. simpl. intros m k u [= <-]. rewrite lookup_fmap_Some.
    intros (v & <- & Hv). destruct (Hu _ _ Hv). split; [done|]. by intros ? [= <-].
  - rewrite E. exists data. done.
Qed.

Lemma clear_conns_Some m :
  clear_conns (Some <$> m) = Done ((fun u => with_conns u 0) <$> m).
Proof.
  unfold clear_conns. rewrite decide_True.
  - f_equal. apply map_eq. intros k. rewrite lookup_omap, !lookup_fmap.
    by destruct (m !! k).
  - intros k u. rewrite lookup_fmap_Some. by intros (v & <- & _).
Qed.

Lemma usage_of_cleared t (m : gmap string UserUsage) u :
  usage_of (with_users t ((fun x => with_conns x 0) <$> m)) u =
    default (0, 0, 0, 0) ((fun x => (BytesUp x, BytesDown x, TotalBytes x, 0)) <$> m !! u).
Proof. unfold usage_of; simpl. rewrite lookup_fmap. by destruct (m !! u). Qed.

(** The counters survive a restart: a tracker started on the file the old
    one saved has, in the same month, every user's bytes with no open
    connection, and in another month starts from nothing. *)
Theorem save_then_NewTracker w (path : string) (t : Z) :
  ascii_tracker (tracker w) ->
  exists w', NewTracker path (disk (saveToDisk w WriteOk)) t t = Done w' /\
    month (tracker w') = FormatMonth t /\
    forall u, usage_of (tracker w') u =
      if String.eqb (month (tracker w)) (FormatMonth t)
      then default (0, 0, 0, 0)
             ((fun x => (BytesUp x, BytesDown x, TotalBytes x, 0)) <$> users (tracker w) !! u)
      else (0, 0, 0, 0).
Proof.
  intros Ha. destruct (saveToDiskLocked_disk w Ha) as (data & Hd & Hu).
  unfold NewTracker, loadFromDisk, saveToDisk. simpl disk. rewrite Hd, Hu. simpl Users. simpl Month.
  destruct (String.eqb_spec (month (tracker w)) (FormatMonth t)) as [E|E].
  - rewrite clear_conns_Some. simpl. eexists. split; [done|]. split; [done|]. intros u.
    apply (usage_of_cleared (MkTracker ∅ (FormatMonth t) path false)).
  - eexists. split; [done|]. split; [done|]. intros u. unfold usage_of; simpl.
    by rewrite lookup_empty.
Qed.

(** The first call that meters bytes in a new month clears every user's
    counters, keeps the connections open, and writes the cleared counters out
    under the new month. *)
Theorem rollover_persisted w (c : Readings) :
  String.eqb (FormatMonth (r_month c)) (month (tracker w)) = false ->
  ascii_tracker (tracker (checkMonthlyReset w c WriteOk)) ->
  let w' := checkMonthlyReset w c WriteOk in
  month (tracker w') = FormatMonth (r_month c) /\
  (forall u, usage_of (tracker w') u = (0, 0, 0, (usage_of (tracker w) u).2)) /\
  exists data, disk w' = Ok data /\
    json_unmarshal data = Ok (MkUsageFile (month (tracker w')) (Some (Some <$> users (tracker w')))).
Proof.
  intros Hne Ha. unfold checkMonthlyReset in *. rewrite Hne in *.
  rewrite saveToDiskLocked_tracker in *. cbn zeta. split; [done|]. split.
  - intros u. unfold usage_of; simpl. rewrite map_lookup_imap.
    by destruct (users (tracker w) !! u).
  - by apply saveToDiskLocked_disk.
Qed.

(** A [null] user in a file of this month stops the proxy at start-up. *)
Theorem NewTracker_null_user (path : string) data file m (k : string) (t1 t2 : Z) :
  json_unmarshal data = Ok file -> Month file = FormatMonth t2 ->
  Users file = Some m -> m !! k = Some None ->
  NewTracker path (Ok data) t1 t2 = Panic.
Proof.
  intros Hj Hm Hu Hk. unfold NewTracker, loadFromDisk; simpl. rewrite Hj, Hu, Hm, String.eqb_refl.
  unfold clear_conns. rewrite decide_False; [done|]. intros Hall.
  by destruct (Hall k None Hk).
Qed.

(** A usage file of the month in which a user is [null]. *)
Definition null_user (data : result json_bytes) (t_load : Z) : Prop :=
  exists d f us k, data = Ok d /\ json_unmarshal d = Ok f /\ Users f = Some us /\
    Month f = FormatMonth t_load /\ us !! k = Some None.

Lemma NewTracker_panics (path : string) data (t1 t2 : Z) : NewTracker path data t1 t2 = Panic <-> null_user data t2.
Proof.
  split.
  2: { intros (d & f & us & k & -> & Hj & Hu & Hm & Hk). by eapply NewTracker_null_user. }
  unfold NewTracker, loadFromDisk. simpl. destruct data as [d|]; [|done].
  destruct (json_unmarshal d) as [f|] eqn:Ej; [|done]. destruct (Users f) as [us|] eqn:Eu; [|done].
  destruct (String.eqb_spec (Month f) (FormatMonth t2)) as [Em|]; [|done]. unfold clear_conns.
  destruct (decide (map_Forall (fun _ u => is_Some u) us)) as [|Hn]; [done|]. intros _.
  apply map_not_Forall in Hn as (k & o & Hk & Ho); [|intros ? ?; apply _].
  exists d, f, us, k. split_and!; try done. destruct o; [by destruct Ho|done].
Qed.

(** Saving in the background never touches the counters. *)
Lemma backgroundLoop_tracker w b w' b' :
  rtc backgroundLoop (w, b) (w', b') -> tracker w' = tracker w.
Proof.
  intros H. remember (w, b) as s. remember (w', b') as s'. revert w b Heqs.
  induction H as [|s1 [w2 b2] s3 Hs _ IH]; intros w b ->; [by simplify_eq|].
  rewrite (IH Heqs' w2 b2) by done. inversion Hs; subst; [|done].
  apply saveToDiskLocked_tracker.
Qed.
End Persistence.

Definition demo_world : World :=
  MkWorld (MkTracker {["bob" := MkUserUsage 5 7 12 "1970-01-01T00:00:00Z" 1]} "1970-01" "usage.json" false)
    (Err "no such file").

Lemma demo_world_ascii : ascii_tracker (tracker demo_world).
Proof. split; [reflexivity|]. apply map_Forall_singleton. split; reflexivity. Qed.

Lemma save_then_NewTracker_witness :
  exists w', NewTracker "usage.json" (disk (saveToDisk demo_world WriteOk)) 0 0 = Done w' /\
    month (tracker w') = FormatMonth 0 /\
    forall u, usage_of (tracker w') u =
      if String.eqb (month (tracker demo_world)) (FormatMonth 0)
      then default (0, 0, 0, 0)
             ((fun x => (BytesUp x, BytesDown x, TotalBytes x, 0)) <$> users (tracker demo_world) !! u)
      else (0, 0, 0, 0).
Proof. exact (save_then_NewTracker demo_world "usage.json" 0 demo_world_ascii). Defined.

(** The second of February 1970. *)
Definition february : Readings := at_time (32 * 24 * Hour).

Lemma rollover_persisted_witness :
  let w' := checkMonthlyReset demo_world february WriteOk in
  month (tracker w') = FormatMonth (r_month february) /\
  (forall u, usage_of (tracker w') u = (0, 0, 0, (usage_of (tracker demo_world) u).2)) /\
  exists data, disk w' = Ok data /\
    json_unmarshal data = Ok (MkUsageFile (month (tracker w')) (Some (Some <$> users (tracker w')))).
Proof.
  apply (rollover_persisted demo_world february).
  - vm_compute. reflexivity.
  - split; [vm_compute; reflexivity|]. apply (bool_decide_unpack _). vm_compute. exact I.
Defined.

Definition null_file : UsageFile := MkUsageFile "1970-01" (Some {["bob" := None]}).

Lemma NewTracker_null_user_witness :
  NewTracker (UJ := plain_json) "usage.json" (Ok null_file) 0 0 = Panic.
Proof.
  apply (NewTracker_null_user (UJ := plain_json) "usage.json" null_file null_file
           {["bob" := None]} "bob" 0 0); vm_compute; reflexivity.
Defined.

Arguments checkMonthlyReset : simpl never.
Arguments RecordBytes : simpl never.
Arguments CheckAllowance : simpl never.
Arguments CheckConnLimit : simpl never.
Arguments IncrementConns : simpl never.
Arguments DecrementConns : simpl never.
Arguments getOrCreate : simpl never.
