(* ===== verification/Throttle.v ===== *)
(** * Bandwidth throttling ([internal/bandwidth/throttle.go])

    A throttled connection carries a token bucket counted in bytes. A read or a
    write first waits until there is a token ([waitForTokens], a loop that
    sleeps), then transfers and takes as many tokens as bytes moved, which may
    leave the bucket in debt. [clock i] is the [i]-th reading of the clock in a
    call; what the underlying connection does is an argument. *)
From S2P Require Import Prelude GoFloat Binary64 Refill.
Open Scope Z_scope.

Record ThrottledConn (F : Type) := MkThrottledConn {
  tokens : F;
  maxTokens : F;
  refillRate : F;
  lastRefill : Z
}.
Arguments MkThrottledConn {F}.
Arguments tokens {F}.
Arguments maxTokens {F}.
Arguments refillRate {F}.
Arguments lastRefill {F}.

Section Operations.
Context {F : Type} {GF : GoFloat F}.

(** [None] when the connection is returned as it is. *)
Definition NewThrottledConn (speedMbps now : Z) : option (ThrottledConn F) :=
  if speedMbps <=? 0 then None else
  let bytesPerSec := (f_of_Z speedMbps * f_of_Z 1024 * f_of_Z 1024 / f_of_Z 8)%F in
  Some (MkThrottledConn bytesPerSec bytesPerSec bytesPerSec now).

Definition refill (tc : ThrottledConn F) (now : Z) : ThrottledConn F :=
  let elapsed := Seconds (time_sub now tc.(lastRefill)) in
  let t := (tc.(tokens) + elapsed * tc.(refillRate))%F in
  let t := if (tc.(maxTokens) <? t)%F then tc.(maxTokens) else t in
  MkThrottledConn t tc.(maxTokens) tc.(refillRate) now.

(** How long one round of [waitForTokens] sleeps. *)
Definition waitDuration (tc : ThrottledConn F) (needed : Z) : Z :=
  let deficit := (f_of_Z needed - tc.(tokens))%F in
  let deficit := if (deficit <? f_of_Z 1)%F then f_of_Z 1 else deficit in
  let d := f_to_Z (deficit / tc.(refillRate) * f_of_Z Second)%F in
  let d := if d <? Millisecond then Millisecond else d in
  if 100 * Millisecond <? d then 100 * Millisecond else d.

(** The loop, for at most [fuel] rounds: the bucket when it returns, and the
    sleeps in between. *)
Fixpoint waitForTokens (fuel : nat) (tc : ThrottledConn F) (needed : Z) (clock : nat -> Z)
    (i : nat) : option (ThrottledConn F * list Z) :=
  match fuel with
  | O => None
  | S fuel =>
      let tc := refill tc (clock i) in
      if (f_of_Z 1 <=? tc.(tokens))%F then Some (tc, [])
      else '(tc', ds) ← waitForTokens fuel tc needed clock (S i);
           Some (tc', waitDuration tc needed :: ds)
  end.

Definition consumeTokens (tc : ThrottledConn F) (n : Z) : ThrottledConn F :=
  MkThrottledConn (tc.(tokens) - f_of_Z n)%F tc.(maxTokens) tc.(refillRate) tc.(lastRefill).

(** [Read] and [Write] are the same but for the direction: [needed] is the
    length of the buffer, [io] the result of the underlying call, the bytes
    moved and the error. *)
Definition transfer (fuel : nat) (tc : ThrottledConn F) (needed : Z) (clock : nat -> Z)
    (io : Z * option string) : option (Z * option string * ThrottledConn F) :=
  '(tc, _) ← waitForTokens fuel tc needed clock 0;
  let '(n, err) := io in
  Some (n, err, if 0 <? n then consumeTokens tc n else tc).

Definition Read := transfer.
Definition Write := transfer.

(** Transfers one after another, each with its buffer, its clock and the bytes
    it moves: the bytes moved in all. *)
Fixpoint transfer_run (fuel : nat) (tc : ThrottledConn F) (ops : list (Z * (nat -> Z) * Z))
    : option (Z * ThrottledConn F) :=
  match ops with
  | [] => Some (0, tc)
  | (needed, clock, moved) :: ops =>
      '(n, _, tc) ← transfer fuel tc needed clock (moved, None);
      '(total, tc) ← transfer_run fuel tc ops; Some (n + total, tc)
  end.

(** A round of the wait sleeps between one and a hundred milliseconds,
    whatever the floats are. *)
Theorem waitDuration_bounds (tc : ThrottledConn F) (needed : Z) :
  Millisecond <= waitDuration tc needed <= 100 * Millisecond.
Proof.
  unfold waitDuration, Millisecond. cbv zeta.
  repeat match goal with |- context [if ?a <? ?b then _ else _] => destruct (Z.ltb_spec a b) end; lia.
Qed.
End Operations.

(** ** The tokens *)

Section Rounded.
Context {F : Type} {GF : GoFloat F} {RF : Rounded F}.

(** A bucket of at least 1 Mbps holding no more than one second's worth, at a speed
    below a million Gbps. *)
Definition tc_ok (tc : ThrottledConn F) : Prop :=
  fin (tokens tc) /\ fin (maxTokens tc) /\ fin (refillRate tc) /\
  (real (tokens tc) <= real (maxTokens tc))%Q /\
  (131072 <= real (refillRate tc) <= 140737488355328)%Q /\
  (131072 <= real (maxTokens tc) <= 140737488355328)%Q.

Lemma NewThrottledConn_ok speedMbps now :
  0 < speedMbps <= 2^30 -> exists tc, NewThrottledConn speedMbps now = Some tc /\ tc_ok tc /\
    lastRefill tc = now /\ (real (tokens tc) == inject_Z speedMbps * 131072)%Q /\
    (real (refillRate tc) == inject_Z speedMbps * 131072)%Q.
Proof.
  intros Hs. unfold NewThrottledConn. rewrite (proj2 (Z.leb_gt _ _)) by lia.
  assert (is_int (f_of_Z speedMbps * f_of_Z 1024 * f_of_Z 1024 / f_of_Z 8)%F (speedMbps * 131072)) as [Hf E].
  { apply (is_int_div _ _ _ 8); [|by apply is_int_of_Z|lia|lia].
    replace (speedMbps * 131072 * 8) with (speedMbps * 1024 * 1024) by lia.
    repeat apply is_int_mul; try apply is_int_of_Z; lia. }
  rewrite inject_Z_mult in E. change (inject_Z 131072) with 131072%Q in E.
  assert (1 <= inject_Z speedMbps <= 1073741824)%Q
    by (change 1%Q with (inject_Z 1); change 1073741824%Q with (inject_Z 1073741824); rewrite <- !Zle_Qle; lia).
  eexists. split; [done|]. unfold tc_ok. cbn [tokens maxTokens refillRate lastRefill]. split_and!; try done; rewrite ?E; lra.
Qed.

(** [B] bounds every magnitude. *)
Definition within (B : Q) (tc : ThrottledConn F) : Prop :=
  (- B <= real (tokens tc))%Q /\ (real (maxTokens tc) <= B <= 281474976710656)%Q.

Lemma refill_ok B tc now :
  tc_ok tc -> within B tc -> lastRefill tc <= now ->
  tc_ok (refill tc now) /\ (real (tokens tc) <= real (tokens (refill tc now)))%Q /\
  (real (tokens (refill tc now)) <= real (tokens tc)
     + (1 + (1 # (2^50))) * accrued (real (refillRate tc)) (lastRefill tc) now + (1 # (2^52)) * B)%Q.
Proof.
  intros (Hf1 & Hf2 & Hf3 & Ht & Hr & Hm) [HB1 HB2] Hnow.
  destruct (refill_accrues (tokens tc) (maxTokens tc) (refillRate tc) (lastRefill tc) now B)
    as (Hc & [Hc1 Hc2] & Hc3); [done|done|done|done|lra|lra|lra|lra|].
  unfold tc_ok, refill. cbn [tokens maxTokens refillRate lastRefill]. split_and!; try done; lra.
Qed.

(** A millisecond of waiting is worth 131 bytes, until the bucket is full. *)
Lemma refill_progress B tc now :
  tc_ok tc -> within B tc -> lastRefill tc + Millisecond <= now ->
  (real (tokens tc) + 131 <= real (tokens (refill tc now)))%Q \/ (1 <= real (tokens (refill tc now)))%Q.
Proof.
  intros (Hf1 & Hf2 & Hf3 & Ht & Hr & Hm) [HB1 HB2] Hnow. set (d := time_sub now (lastRefill tc)).
  assert (Millisecond <= d < 2^63) as Hd by (unfold d, time_sub, Millisecond in *; lia).
  destruct (refill_real (tokens tc) (maxTokens tc) (refillRate tc) d B)
    as (Hc & _ & Hlow); [done|done|done|unfold Millisecond in *; lia|lra|lra|lra|lra|].
  assert (1 # 1000 <= inject_Z d / inject_Z Second)%Q as Hs.
  { unfold Qle, Qdiv; simpl. unfold Millisecond in *. lia. }
  assert (131072 * (1 # 1000) <= real (refillRate tc) * (inject_Z d / inject_Z Second))%Q.
  { apply Qle_trans with (real (refillRate tc) * (1 # 1000))%Q; [lra|].
    rewrite !(Qmult_comm (real (refillRate tc))). apply Qmult_le_compat_r; lra. }
  unfold refill. cbn [tokens]. fold d. powers. destruct Hlow as [Hl|Hl]; [right; lra|left; lra].
Qed.

Lemma debt_rounds debt :
  0 <= debt ->
  (inject_Z debt <= 131 * (inject_Z (Z.of_nat (Z.to_nat (debt / 131 + 2))) - 1))%Q.
Proof.
  intros Hd. pose proof (Z.div_pos debt 131 Hd ltac:(lia)). rewrite Z2Nat.id by lia.
  assert (inject_Z debt <= inject_Z (131 * (debt / 131 + 2 - 1)))%Q as Hq.
  { rewrite <- Zle_Qle. pose proof (Z.mul_succ_div_gt debt 131). lia. }
  rewrite inject_Z_mult in Hq. unfold Z.sub in Hq. rewrite inject_Z_plus in Hq.
  change (inject_Z 131) with 131%Q in Hq. change (inject_Z (- (1))) with (-(1))%Q in Hq. lra.
Qed.

Lemma inject_Z_S n : (inject_Z (Z.of_nat (S n)) == inject_Z (Z.of_nat n) + 1)%Q.
Proof. by rewrite Nat2Z.inj_succ, <- Z.add_1_r, inject_Z_plus. Qed.

Section Waiting.
Variable clock : nat -> Z.
Hypothesis clock_sleeps : forall i, clock i + Millisecond <= clock (S i).

Lemma waitForTokens_enough B fuel needed : forall tc i,
  tc_ok tc -> within B tc -> lastRefill tc + (match i with O => 0 | _ => Millisecond end) <= clock i ->
  (1 <= real (tokens tc) + 131 * (inject_Z (Z.of_nat fuel) - (match i with O => 1 | _ => 0 end)))%Q ->
  (0 < fuel)%nat ->
  exists tc' ds, waitForTokens fuel tc needed clock i = Some (tc', ds) /\
    tc_ok tc' /\ (1 <= real (tokens tc'))%Q /\ refillRate tc' = refillRate tc /\ maxTokens tc' = maxTokens tc /\
    lastRefill tc <= lastRefill tc' /\
    (real (tokens tc') <= real (tokens tc)
       + (1 + (1 # (2^50))) * accrued (real (refillRate tc)) (lastRefill tc) (lastRefill tc')
       + inject_Z (Z.of_nat fuel) * ((1 # (2^52)) * B))%Q.
Proof.
  induction fuel as [|fuel IH]; intros tc i Htc HB Hi Htok Hf; [lia|]. cbn [waitForTokens].
  assert (lastRefill tc <= clock i) as Hle by (unfold Millisecond in *; destruct i; lia).
  destruct (refill_ok B tc (clock i) Htc HB Hle) as (Htc' & Hmono & Hacc).
  pose proof (fle_one _ (proj1 Htc')) as Hone. rewrite inject_Z_S in Htok.
  assert (0 <= inject_Z (Z.of_nat fuel) * ((1 # (2^52)) * B))%Q as Hs0.
  { destruct Htc as (_ & _ & _ & _ & _ & Hm), HB. apply Qmult_le_0_compat; [|powers; lra].
    change 0%Q with (inject_Z 0). rewrite <- Zle_Qle. lia. }
  destruct (f_of_Z 1 <=? tokens (refill tc (clock i)))%F.
  { eexists _, []. split_and!; try done; [by apply Hone|]. rewrite inject_Z_S. change (lastRefill (refill tc (clock i))) with (clock i). lra. }
  assert (real (tokens (refill tc (clock i))) < 1)%Q as E by (apply Qnot_le_lt; intros Hge; by apply Hone in Hge).
  assert (1 <= real (tokens (refill tc (clock i))) + 131 * (inject_Z (Z.of_nat fuel) - 0))%Q as Htok'.
  { destruct i as [|i]; [lra|].
    destruct (refill_progress B tc (clock (S i)) Htc HB Hi) as [?|?]; lra. }
  assert (0 < fuel)%nat as Hf'.
  { destruct fuel; [|lia]. change (inject_Z (Z.of_nat 0)) with 0%Q in Htok'. lra. }
  assert (within B (refill tc (clock i))) as HB' by (destruct HB; split; [lra|done]).
  destruct (IH (refill tc (clock i)) (S i) Htc' HB') as (tc' & ds & -> & Hok & H1 & Hr & Hmx & Hl & Hacc'); [|done..|].
  { specialize (clock_sleeps i). simpl in *. lia. }
  eexists _, _. split_and!; [done..|simpl in Hl; lia|].
  rewrite inject_Z_S, (accrued_trans _ _ (clock i)). change (refillRate (refill tc (clock i))) with (refillRate tc) in Hacc'.
  change (lastRefill (refill tc (clock i))) with (clock i) in Hacc'. lra.
Qed.

(** The wait ends: on a clock that honours the sleeps, a bucket in debt by
    [debt] bytes has a token again after at most [debt / 131 + 2] rounds. *)
Theorem waitForTokens_terminates (tc : ThrottledConn F) (needed debt : Z) :
  tc_ok tc -> lastRefill tc <= clock O -> 0 <= debt <= 2^47 -> (1 - inject_Z debt <= real (tokens tc))%Q ->
  exists tc' ds,
    waitForTokens (Z.to_nat (debt / 131 + 2)) tc needed clock O = Some (tc', ds) /\
    tc_ok tc' /\ (1 <= real (tokens tc'))%Q.
Proof.
  intros Htc Hc Hd Htok. pose proof (Z.div_pos debt 131 ltac:(lia) ltac:(lia)).
  assert (0 <= inject_Z debt <= 140737488355328)%Q
    by (change 0%Q with (inject_Z 0); change 140737488355328%Q with (inject_Z (2^47)); rewrite <- !Zle_Qle; lia).
  destruct (waitForTokens_enough (real (maxTokens tc) + inject_Z debt) (Z.to_nat (debt / 131 + 2)) needed tc O Htc)
    as (tc' & ds & H1 & H2 & H3 & _); [|lia| |lia|by eauto].
  - destruct Htc as (_ & _ & _ & _ & _ & Hm). split; lra.
  - pose proof (debt_rounds debt ltac:(lia)). lra.
Qed.
End Waiting.

(** ** The rate a throttled connection allows *)

(** The fuel that lets every wait finish when no transfer moves more than [n]
    bytes. *)
Definition rounds (n : Z) : nat := Z.to_nat (n / 131 + 2).

(** The environment of a run: each call starts no earlier than the last refill,
    its clock honours the sleeps, and the underlying connection moves at most
    [n] bytes. *)
Fixpoint run_env (n : Z) (tc : ThrottledConn F) (ops : list (Z * (nat -> Z) * Z)) : Prop :=
  match ops with
  | [] => True
  | (needed, clock, moved) :: ops =>
      lastRefill tc <= clock O /\ (forall i, clock i + Millisecond <= clock (S i)) /\
      0 <= moved <= n /\
      match transfer (rounds n) tc needed clock (moved, None) with
      | Some (_, _, tc) => run_env n tc ops
      | None => True
      end
  end.

(** What the roundings of one transfer may add. *)
Definition slip (n : Z) (tc : ThrottledConn F) : Q :=
  (inject_Z (Z.of_nat (S (rounds n))) * ((1 # (2^52)) * (real (maxTokens tc) + inject_Z n)))%Q.

(** What a transfer takes, after the wait. *)
Lemma consume_ok B tc m lo :
  tc_ok tc -> 0 <= m -> Z.abs lo < 2^53 -> (inject_Z lo <= real (tokens tc) - inject_Z m)%Q ->
  (- B <= inject_Z lo)%Q -> (real (maxTokens tc) <= B <= 281474976710656)%Q -> m < 2^53 ->
  let tc' := if 0 <? m then consumeTokens tc m else tc in
  tc_ok tc' /\ (inject_Z lo <= real (tokens tc'))%Q /\ refillRate tc' = refillRate tc /\
  maxTokens tc' = maxTokens tc /\ lastRefill tc' = lastRefill tc /\
  (inject_Z m + real (tokens tc') <= real (tokens tc) + (1 # (2^53)) * B)%Q.
Proof.
  intros Htc Hm Hlo Hge HB1 HB2 Hm'. assert (0 <= inject_Z m)%Q by (change 0%Q with (inject_Z 0); by rewrite <- Zle_Qle).
  pose proof Htc as (Hf1 & Hf2 & Hf3 & Ht & Hr & Hmx). destruct (Z.ltb_spec 0 m).
  - destruct (f_of_Z_real (F := F) m) as [Hfm Em]; [lia|].
    assert (rounds_to real fin rel_err 0 (real (tokens tc) - real (f_of_Z m)) (tokens tc - f_of_Z m)%F) as Hs
      by (apply fsub_rounds; [done|done|rewrite Em; apply not_huge; lra]).
    destruct (rounds_bounded _ _ B Hs) as [H1 H2]; [rewrite Em; lra|].
    pose proof (rounds_ge lo _ _ _ Hs Hlo) as Hge'. rewrite Em in Hge', H1, H2. destruct Hs as [Hs1 _ _ Hup].
    assert (real (tokens tc - f_of_Z m)%F <= real (tokens tc))%Q by (apply Hup; [done|rewrite Em; lra]).
    specialize (Hge' Hge). unfold tc_ok, consumeTokens. cbn [tokens maxTokens refillRate lastRefill].
    powers. split_and!; try done; lra.
  - assert (m = 0) as -> by lia. change (inject_Z 0) with 0%Q in *. powers. split_and!; try done; lra.
Qed.

Lemma transfer_ok n tc needed clock moved :
  tc_ok tc -> (1 - inject_Z n <= real (tokens tc))%Q -> lastRefill tc <= clock O ->
  (forall i, clock i + Millisecond <= clock (S i)) -> 0 <= moved <= n -> n <= 2^47 ->
  exists tc', transfer (rounds n) tc needed clock (moved, None) = Some (moved, None, tc') /\
    tc_ok tc' /\ (1 - inject_Z n <= real (tokens tc'))%Q /\ refillRate tc' = refillRate tc /\ maxTokens tc' = maxTokens tc /\
    lastRefill tc <= lastRefill tc' /\
    (inject_Z moved + real (tokens tc') <= real (tokens tc)
       + (1 + (1 # (2^50))) * accrued (real (refillRate tc)) (lastRefill tc) (lastRefill tc') + slip n tc)%Q.
Proof.
  intros Htc Htok Hc Hs Hmv Hn. pose proof (debt_rounds n ltac:(lia)) as Hd.
  pose proof (Z.div_pos n 131 ltac:(lia) ltac:(lia)). set (B := (real (maxTokens tc) + inject_Z n)%Q).
  assert (0 <= inject_Z n <= 140737488355328)%Q as Hn'
    by (change 0%Q with (inject_Z 0); change 140737488355328%Q with (inject_Z (2^47)); rewrite <- !Zle_Qle; lia).
  assert (within B tc) as HB by (destruct Htc as (_ & _ & _ & _ & _ & Hm); unfold B; split; lra).
  assert (inject_Z moved <= inject_Z n)%Q by (rewrite <- Zle_Qle; lia).
  assert (inject_Z (1 - n) == 1 - inject_Z n)%Q as E1 by (unfold Z.sub; rewrite inject_Z_plus, inject_Z_opp; reflexivity).
  destruct (waitForTokens_enough clock Hs B (rounds n) needed tc O Htc HB)
    as (tc1 & ds & E & Htc1 & H1 & Hrate & Hmax & Hl & Hacc); [lia|unfold rounds; lra|unfold rounds; lia|].
  destruct (consume_ok B tc1 moved (1 - n)) as (Htc' & Hlo & Hr' & Hm' & Hl' & Hle); [done|lia|lia|rewrite E1; lra|..|lia|].
  { rewrite E1. destruct HB. unfold B. destruct Htc as (_ & _ & _ & _ & _ & Hm). lra. }
  { rewrite Hmax. apply HB. }
  unfold transfer. rewrite E. simpl. eexists. split; [done|]. rewrite E1 in Hlo. rewrite <- Hrate, <- Hmax.
  split_and!; [done..|lia|]. rewrite Hl', Hrate. unfold slip. fold B. rewrite inject_Z_S.
  assert (0 <= B)%Q by (destruct Htc as (_ & _ & _ & _ & _ & Hm); unfold B; lra). powers. lra.
Qed.

Lemma transfer_run_rounded (n : Z) (tc : ThrottledConn F) (ops : list (Z * (nat -> Z) * Z)) :
  tc_ok tc -> n <= 2^47 -> (1 - inject_Z n <= real (tokens tc))%Q -> run_env n tc ops ->
  exists total tc', transfer_run (rounds n) tc ops = Some (total, tc') /\ (1 - inject_Z n <= real (tokens tc'))%Q /\
    (inject_Z total + real (tokens tc') <= real (tokens tc)
       + (1 + (1 # (2^50))) * accrued (real (refillRate tc)) (lastRefill tc) (lastRefill tc')
       + inject_Z (zlen ops) * slip n tc)%Q.
Proof.
  intros Htc Hn Htok Henv.
  revert tc Htc Htok Henv. induction ops as [|[[needed clock] moved] ops IH]; intros tc Htc Htok Henv.
  - exists 0, tc. split; [done|]. split; [done|]. rewrite accrued_refl.
    change (inject_Z 0) with 0%Q. change (inject_Z (zlen [])) with 0%Q. lra.
  - destruct Henv as (Hc & Hs & Hmv & Henv).
    destruct (transfer_ok n tc needed clock moved Htc Htok Hc Hs Hmv Hn)
      as (tc1 & E & Htc1 & Htok1 & Hrate & Hmax & Hl & Hle).
    rewrite E in Henv. destruct (IH tc1 Htc1 Htok1 Henv) as (total & tc' & E' & H1 & H2).
    exists (moved + total), tc'. split; [cbn [transfer_run]; rewrite E; simpl; by rewrite E'|].
    split; [done|]. unfold slip in *. rewrite Hrate, Hmax in H2.
    rewrite inject_Z_plus, (accrued_trans _ _ (lastRefill tc1)), length_cons, inject_Z_S. lra.
Qed.
End Rounded.

(** C30: The throttle works, in the [float64] arithmetic of the program: transfers of up to
    [n] bytes each all complete, and what they move between two refills is bounded by the
    tokens there were, the configured rate times the time, and [n - 1] bytes of debt, but
    for what rounding may add: a fraction of [2^-50] of what accrued, and for each transfer
    [slip n tc], its [n / 131 + 3] roundings at most at [2^-52] of the bucket and the buffer. *)
Theorem throttle_budget (n : Z) (tc : ThrottledConn spec_float) (ops : list (Z * (nat -> Z) * Z)) :
  tc_ok tc -> 1 <= n <= 2^47 -> (1 - inject_Z n <= real (tokens tc))%Q -> run_env n tc ops ->
  exists total tc', transfer_run (rounds n) tc ops = Some (total, tc') /\
    (inject_Z total <= real (tokens tc)
       + (1 + (1 # (2^50))) * accrued (real (refillRate tc)) (lastRefill tc) (lastRefill tc')
       + inject_Z n - 1 + inject_Z (zlen ops) * slip n tc)%Q.
Proof.
  intros Htc Hn Htok Henv. destruct (transfer_run_rounded n tc ops Htc ltac:(lia) Htok Henv) as (total & tc' & E & H1 & H2).
  exists total, tc'. split; [done|lra].
Qed.

(** ** Concrete runs *)

(** A connection of 1 Mbps, a thousand bytes in debt. *)
Definition demo_conn : ThrottledConn spec_float :=
  MkThrottledConn (f_of_Z (-1000)) (f_of_Z 131072) (f_of_Z 131072) 0.
Definition demo_clock : nat -> Z := fun i => Z.of_nat i * Millisecond.

Lemma demo_conn_ok : tc_ok demo_conn /\ (real (tokens demo_conn) == -(1000))%Q.
Proof.
  destruct (f_of_Z_real (F := spec_float) (-1000) eq_refl) as [H1 E1].
  destruct (f_of_Z_real (F := spec_float) 131072 eq_refl) as [H2 E2].
  unfold tc_ok, demo_conn. cbn [tokens maxTokens refillRate]. rewrite E1, E2. by split_and!.
Qed.

Lemma demo_clock_sleeps i : demo_clock i + Millisecond <= demo_clock (S i).
Proof. unfold demo_clock, Millisecond. lia. Qed.

Lemma waitForTokens_terminates_witness :
  exists tc' ds,
    waitForTokens (Z.to_nat (1001 / 131 + 2)) demo_conn 4096 demo_clock O = Some (tc', ds) /\
    tc_ok tc' /\ (1 <= real (tokens tc'))%Q.
Proof.
  destruct demo_conn_ok as [Hok E].
  apply (waitForTokens_terminates demo_clock demo_clock_sleeps demo_conn 4096 1001);
    [exact Hok|vm_compute; discriminate|lia|rewrite E; vm_compute; discriminate].
Defined.

Lemma throttle_budget_witness :
  exists total tc', transfer_run (rounds 1400) demo_conn [(4096, demo_clock, 1400)] = Some (total, tc') /\
    (inject_Z total <= real (tokens demo_conn)
       + (1 + (1 # (2^50))) * accrued (real (refillRate demo_conn)) (lastRefill demo_conn) (lastRefill tc')
       + inject_Z 1400 - 1 + inject_Z 1 * slip 1400 demo_conn)%Q.
Proof.
  destruct demo_conn_ok as [Hok E].
  apply (throttle_budget 1400 demo_conn [(4096, demo_clock, 1400)]);
    [exact Hok|lia|rewrite E; vm_compute; discriminate|].
  cbn [run_env]. split; [vm_compute; discriminate|]. split; [exact demo_clock_sleeps|].
  split; [lia|]. destruct (transfer _ _ _ _ _) as [[[? ?] ?]|]; exact I.
Defined.

(** In [binary64]: 8 Mbps is a mebibyte per second, and a bucket 1000 bytes in
    debt is served after one millisecond. *)
Example binary64_throttle :
  (tc ← NewThrottledConn (F := spec_float) 8 0; Some (f_to_Z (tokens tc))) = Some 1048576 /\
  (tc ← NewThrottledConn (F := spec_float) 8 0;
   '(tc', ds) ← waitForTokens 10 (consumeTokens tc 1049576) 4096 demo_clock 0;
   Some (f_to_Z (tokens tc'), ds)) = Some (48, [4859924]).
Proof. vm_compute. auto. Qed.
