(* ===== verification/Duplex.v ===== *)
(** * A throttled connection in both directions ([internal/bandwidth/throttle.go])

    The two copies of a tunnel share each of its connections: one reads from it while
    the other writes to it ([copyBuf] in [internal/httpproxy/server.go], the relay of
    [internal/socks5/server.go]). A transfer takes the mutex for every round of
    [waitForTokens] and again for [consumeTokens], so that between the two another
    transfer may be let through on the same tokens. [duplex_step] interleaves any number
    of transfers at these critical sections. *)
From S2P Require Import Prelude GoFloat Binary64 Refill Throttle.
Open Scope Z_scope.

(** A goroutine in [waitForTokens], or past it with its transfer before it. *)
Inductive turn := Waiting | Granted.

#[export] Instance turn_eq_dec : EqDecision turn.
Proof. solve_decision. Defined.

Section Steps.
Context {F : Type} {GF : GoFloat F}.

(** [moved]: the bytes of all transfers so far. *)
Record Duplex := MkDuplex { bucket : ThrottledConn F; turns : list turn; moved : Z }.

(** One round of [waitForTokens] under the mutex, and one transfer with its
    [consumeTokens]; no transfer moves more than [n] bytes, the length of its buffer. *)
Inductive duplex_step (n : Z) : Duplex -> Duplex -> Prop :=
| round_waits tc ts k i now : ts !! i = Some Waiting -> lastRefill tc <= now ->
    (f_of_Z 1 <=? tokens (refill tc now))%F = false ->
    duplex_step n (MkDuplex tc ts k) (MkDuplex (refill tc now) ts k)
| round_grants tc ts k i now : ts !! i = Some Waiting -> lastRefill tc <= now ->
    (f_of_Z 1 <=? tokens (refill tc now))%F = true ->
    duplex_step n (MkDuplex tc ts k) (MkDuplex (refill tc now) (<[i := Granted]> ts) k)
| transfers tc ts k i m : ts !! i = Some Granted -> 0 <= m <= n ->
    duplex_step n (MkDuplex tc ts k)
      (MkDuplex (if 0 <? m then consumeTokens tc m else tc) (<[i := Waiting]> ts) (k + m)).

(** ** The calls are made of these steps *)

Lemma refill_last (tc : ThrottledConn F) now : lastRefill (refill tc now) = now.
Proof. done. Qed.

Lemma wait_steps n needed ts k i clock (Hclock : forall j, clock j <= clock (S j)) fuel : forall tc j tc' ds,
  ts !! i = Some Waiting -> lastRefill tc <= clock j ->
  waitForTokens fuel tc needed clock j = Some (tc', ds) ->
  rtc (duplex_step n) (MkDuplex tc ts k) (MkDuplex tc' (<[i := Granted]> ts) k).
Proof.
  induction fuel as [|fuel IH]; intros tc j tc' ds Hi Hj H; [done|]. cbn [waitForTokens] in H.
  destruct (f_of_Z 1 <=? tokens (refill tc (clock j)))%F eqn:E.
  - injection H as <- _. by apply rtc_once, round_grants.
  - destruct (waitForTokens fuel (refill tc (clock j)) needed clock (S j)) as [[tc1 ds1]|] eqn:Ew; [|done].
    injection H as <- _. eapply rtc_l; [by apply (round_waits n tc ts k i (clock j))|].
    eapply IH; [done|apply Hclock|exact Ew].
Qed.

(** A call of [Read] or [Write] that is not disturbed is a run of these steps. *)
Lemma transfer_steps n needed ts k i clock fuel tc io tc' :
  (forall j, clock j <= clock (S j)) -> ts !! i = Some Waiting -> lastRefill tc <= clock O -> 0 <= io.1 <= n ->
  transfer fuel tc needed clock io = Some (io.1, io.2, tc') ->
  rtc (duplex_step n) (MkDuplex tc ts k) (MkDuplex tc' ts (k + io.1)).
Proof.
  intros Hc Hi Hl Hn H. unfold transfer in H.
  destruct (waitForTokens fuel tc needed clock 0) as [[tc1 ds]|] eqn:Ew; [|done].
  destruct io as [m err]. injection H as <-. eapply rtc_r; [by eapply wait_steps|].
  assert (<[i := Waiting]> (<[i := Granted]> ts) = ts) as E.
  { rewrite list_insert_insert_eq. by apply list_insert_id. }
  pose proof (transfers n tc1 (<[i := Granted]> ts) k i m) as Ht. rewrite E in Ht. apply Ht; [|done].
  apply list_lookup_insert_eq. by apply lookup_lt_Some in Hi.
Qed.
End Steps.

(** ** The rate *)

(** The tokens that may have been taken without having been there. *)
Definition owed (n : Z) (ts : list turn) : Z := n * (zlen ts - count_of Granted ts).

Section Rate.
Context {F : Type} {GF : GoFloat F} {RF : Rounded F}.

(** What the rounding of one step may add. *)
Definition slip (n : Z) (d0 : Duplex (F := F)) : Q :=
  ((1 # (2^52)) * (real (maxTokens (bucket d0)) + inject_Z (n * zlen (turns d0))))%Q.

(** After [k] steps from [d0]. *)
Definition duplex_inv (n : Z) (d0 : Duplex) (k : nat) (d : Duplex (F := F)) : Prop :=
  tc_ok (bucket d) /\ refillRate (bucket d) = refillRate (bucket d0) /\ maxTokens (bucket d) = maxTokens (bucket d0) /\
  lastRefill (bucket d0) <= lastRefill (bucket d) /\ zlen (turns d) = zlen (turns d0) /\
  (1 - inject_Z (owed n (turns d)) <= real (tokens (bucket d)))%Q /\
  (inject_Z (moved d) + real (tokens (bucket d)) <= inject_Z (moved d0) + real (tokens (bucket d0))
     + (1 + (1 # (2^50))) * accrued (real (refillRate (bucket d0))) (lastRefill (bucket d0)) (lastRefill (bucket d))
     + inject_Z (Z.of_nat k) * slip n d0)%Q.

Lemma owed_le n (ts : list turn) : 0 <= n -> 0 <= owed n ts <= n * zlen ts.
Proof. intros Hn. unfold owed. pose proof (count_of_bounds Granted ts). nia. Qed.

(** The magnitudes of a run. *)
Lemma duplex_within n d0 k d :
  0 <= n -> n * zlen (turns d0) <= 2^47 -> duplex_inv n d0 k d ->
  within (real (maxTokens (bucket d0)) + inject_Z (n * zlen (turns d0)))%Q (bucket d) /\
  (inject_Z (owed n (turns d)) <= inject_Z (n * zlen (turns d0)) <= 140737488355328)%Q.
Proof.
  intros Hn Hmax (Hok & _ & Hm & _ & Hlen & Hdebt & _). pose proof (owed_le n (turns d) Hn) as Ho. rewrite Hlen in Ho.
  assert (inject_Z (owed n (turns d)) <= inject_Z (n * zlen (turns d0)) <= 140737488355328)%Q as Hq
    by (change 140737488355328%Q with (inject_Z (2^47)); rewrite <- !Zle_Qle; lia).
  assert (0 <= inject_Z (n * zlen (turns d0)))%Q by (change 0%Q with (inject_Z 0); rewrite <- Zle_Qle; lia).
  destruct Hok as (_ & _ & _ & _ & _ & Hx). rewrite Hm in Hx. unfold within. rewrite Hm. split_and!; lra.
Qed.

Lemma refill_inv n d0 k tc ts ts' m now :
  0 <= n -> n * zlen (turns d0) <= 2^47 -> duplex_inv n d0 k (MkDuplex tc ts m) -> lastRefill tc <= now ->
  zlen ts' = zlen ts -> (1 - inject_Z (owed n ts') <= real (tokens (refill tc now)))%Q ->
  duplex_inv n d0 (S k) (MkDuplex (refill tc now) ts' m).
Proof.
  intros Hn Hmax Hinv Hnow Hlen' Hdebt'. destruct (duplex_within n d0 k _ Hn Hmax Hinv) as [HB _]. cbn [bucket] in HB.
  destruct Hinv as (Hok & Hr & Hm & Hl & Hlen & Hdebt & Hbooks). cbn [bucket turns moved] in *.
  destruct (refill_ok _ tc now Hok HB Hnow) as (H1 & H2 & H3).
  pose proof (accrued_trans (real (refillRate tc)) (lastRefill (bucket d0)) (lastRefill tc) now) as Ht.
  unfold duplex_inv. cbn [bucket turns moved]. change (lastRefill (refill tc now)) with now.
  split_and!; try done; [lia|congruence|]. rewrite inject_Z_S. unfold slip in *. rewrite <- Hr in *. powers. lra.
Qed.

Lemma owed_transfer n ts i :
  ts !! i = Some Granted -> owed n (<[i := Waiting]> ts) = owed n ts + n.
Proof.
  intros Hi. unfold owed. rewrite length_insert, (count_of_insert _ _ _ _ _ Hi). unfold tally. simpl. lia.
Qed.

Lemma duplex_inv_step n d0 k d d' :
  0 <= n -> n * zlen (turns d0) <= 2^47 -> duplex_inv n d0 k d -> duplex_step n d d' -> duplex_inv n d0 (S k) d'.
Proof.
  intros Hn Hmax Hinv Hs. pose proof (duplex_within n d0 k d Hn Hmax Hinv) as [HB Ho].
  destruct Hs as [tc ts m i now Hi Hnow E|tc ts m i now Hi Hnow E|tc ts k0 i m Hi Hmn].
  - apply (refill_inv n d0 k tc ts); try done. destruct Hinv as (Hok & _ & _ & _ & _ & Hdebt & _).
    cbn [bucket turns] in *. destruct (refill_ok _ tc now Hok HB Hnow) as (_ & H2 & _). lra.
  - apply (refill_inv n d0 k tc ts); try done; [by rewrite length_insert|].
    destruct Hinv as (Hok & _). cbn [bucket] in *. destruct (refill_ok _ tc now Hok HB Hnow) as (H1 & _).
    apply fle_one in E; [|apply H1]. pose proof (owed_le n (<[i:=Granted]> ts) Hn) as [H0 _].
    assert (0 <= inject_Z (owed n (<[i:=Granted]> ts)))%Q by (change 0%Q with (inject_Z 0); by rewrite <- Zle_Qle). lra.
  - destruct Hinv as (Hok & Hr & Hm & Hl & Hlen & Hdebt & Hbooks). cbn [bucket turns moved] in *.
    pose proof (owed_le n (<[i:=Waiting]> ts) Hn) as Ho'. rewrite length_insert, Hlen, (owed_transfer _ _ _ Hi) in Ho'.
    pose proof (owed_le n ts Hn) as Ho2.
    set (lo := 1 - (owed n ts + n)).
    assert (inject_Z lo == 1 - (inject_Z (owed n ts) + inject_Z n))%Q as Elo.
    { unfold lo, Z.sub. rewrite inject_Z_plus, inject_Z_opp, inject_Z_plus. reflexivity. }
    assert (inject_Z (owed n ts) + inject_Z n <= inject_Z (n * zlen (turns d0)))%Q as Hq by (rewrite <- inject_Z_plus, <- Zle_Qle; lia).
    assert (0 <= inject_Z m <= inject_Z n)%Q by (change 0%Q with (inject_Z 0); rewrite <- !Zle_Qle; lia).
    assert (0 <= inject_Z (n * zlen (turns d0)))%Q by (change 0%Q with (inject_Z 0); rewrite <- Zle_Qle; lia).
    set (B := (real (maxTokens (bucket d0)) + inject_Z (n * zlen (turns d0)))%Q) in *.
    assert (0 <= B)%Q as HB0. { destruct Hok as (_ & _ & _ & _ & _ & Hx). rewrite Hm in Hx. unfold B. lra. }
    destruct (consume_ok B tc m lo) as (H1 & H2 & H3 & H4 & H5 & H6); [done|lia|lia|rewrite Elo; lra|..|nia|].
    { rewrite Elo. destruct Hok as (_ & _ & _ & _ & _ & Hx). rewrite Hm in Hx. unfold B. lra. }
    { apply HB. }
    unfold duplex_inv. cbn [bucket turns moved]. rewrite H5, length_insert, (owed_transfer _ _ _ Hi), inject_Z_S, !inject_Z_plus.
    unfold slip in *. fold B in Hbooks |- *. rewrite Elo in H2. powers. split_and!; try done; try congruence; lra.
Qed.

Lemma duplex_run n d0 k d1 d :
  0 <= n -> n * zlen (turns d0) <= 2^47 -> nsteps (duplex_step n) k d1 d ->
  forall j, duplex_inv n d0 j d1 -> duplex_inv n d0 (j + k) d.
Proof.
  intros Hn Hmax Hrun. induction Hrun as [d1|k d1 d2 d3 Hs _ IH]; intros j Hi; [by rewrite Nat.add_0_r|].
  rewrite Nat.add_succ_r, <- Nat.add_succ_l. apply IH. by eapply duplex_inv_step.
Qed.

Lemma duplex_run_rounded (n : Z) (k : nat) (d0 d : Duplex (F := F)) :
  0 <= n -> n * zlen (turns d0) <= 2^47 -> tc_ok (bucket d0) -> Forall (eq Waiting) (turns d0) ->
  (1 - inject_Z (n * zlen (turns d0)) <= real (tokens (bucket d0)))%Q -> nsteps (duplex_step n) k d0 d ->
  (inject_Z (moved d - moved d0) <= real (tokens (bucket d0))
     + (1 + (1 # (2^50))) * accrued (real (refillRate (bucket d0))) (lastRefill (bucket d0)) (lastRefill (bucket d))
     + inject_Z (n * zlen (turns d0)) - 1 + inject_Z (Z.of_nat k) * slip n d0)%Q.
Proof.
  intros Hn Hmax Hok Hw Hdebt Hrun.
  assert (duplex_inv n d0 0 d0) as Hi.
  { unfold duplex_inv, owed. rewrite count_of_other by (eapply Forall_impl; [exact Hw|by intros ? <-]).
    rewrite Z.sub_0_r, accrued_refl. change (inject_Z (Z.of_nat 0)) with 0%Q. split_and!; try done. lra. }
  pose proof (duplex_run n d0 k d0 d Hn Hmax Hrun 0 Hi) as Hinv. cbn [Nat.add] in Hinv.
  destruct (duplex_within n d0 k d Hn Hmax Hinv) as [_ Ho]. destruct Hinv as (_ & _ & _ & _ & _ & Hd & Hm).
  unfold Z.sub. rewrite inject_Z_plus, inject_Z_opp. lra.
Qed.
End Rate.

(** C31: The throttle holds in both directions at once, in the [float64] arithmetic of the
    program: however the reads and writes of a connection interleave, what they move is
    bounded by the tokens there were, the configured rate times the time, and one buffer of
    debt for each direction, but for what rounding may add: a fraction of [2^-50] of what
    accrued, and for each step [2^-52] of the bucket and the buffers. *)
Theorem duplex_budget (n : Z) (k : nat) (d0 d : Duplex (F := spec_float)) :
  0 <= n -> n * zlen (turns d0) <= 2^47 -> tc_ok (bucket d0) -> Forall (eq Waiting) (turns d0) ->
  (1 - inject_Z (n * zlen (turns d0)) <= real (tokens (bucket d0)))%Q -> nsteps (duplex_step n) k d0 d ->
  (inject_Z (moved d - moved d0) <= real (tokens (bucket d0))
     + (1 + (1 # (2^50))) * accrued (real (refillRate (bucket d0))) (lastRefill (bucket d0)) (lastRefill (bucket d))
     + inject_Z (n * zlen (turns d0)) - 1 + inject_Z (Z.of_nat k) * slip n d0)%Q.
Proof. apply duplex_run_rounded. Qed.

(** ** A concrete connection *)

(** Both directions are let through on the last token of the bucket, and each moves a
    buffer: the bucket is in debt by almost two. *)
Definition last_token : ThrottledConn spec_float :=
  MkThrottledConn (f_of_Z 1) (f_of_Z 131072) (f_of_Z 131072) 0.
Definition both_start : Duplex := MkDuplex last_token [Waiting; Waiting] 0.
Definition both_end : Duplex :=
  MkDuplex (consumeTokens (consumeTokens (refill (refill last_token 0) 0) 4096) 4096) [Waiting; Waiting] 8192.

Lemma both_run : nsteps (duplex_step 4096) 4 both_start both_end.
Proof.
  eapply nsteps_l; [apply (round_grants _ _ _ _ 0%nat 0); vm_compute; done|].
  eapply nsteps_l; [apply (round_grants _ _ _ _ 1%nat 0); vm_compute; done|].
  eapply nsteps_l; [apply (transfers _ _ _ _ 0%nat 4096); [done|lia]|].
  eapply nsteps_l; [apply (transfers _ _ _ _ 1%nat 4096); [done|lia]|]. apply nsteps_O.
Qed.

Lemma last_token_ok : tc_ok last_token /\ (real (tokens last_token) == 1)%Q.
Proof.
  destruct (f_of_Z_real (F := spec_float) 1 eq_refl) as [H1 E1].
  destruct (f_of_Z_real (F := spec_float) 131072 eq_refl) as [H2 E2].
  unfold tc_ok, last_token. cbn [tokens maxTokens refillRate]. rewrite E1, E2. by split_and!.
Qed.

Example both_in_debt : f_to_Z (tokens (bucket both_end)) = 1 - 2 * 4096.
Proof. vm_compute. reflexivity. Qed.

Lemma duplex_budget_witness :
  (inject_Z (8192 - 0) <= real (tokens last_token)
     + (1 + (1 # (2^50))) * accrued (real (refillRate last_token)) 0 0
     + inject_Z (4096 * 2) - 1 + inject_Z 4 * slip 4096 both_start)%Q.
Proof.
  destruct last_token_ok as [Hok E].
  apply (duplex_budget 4096 4 both_start both_end);
    [lia|vm_compute; discriminate|exact Hok|repeat constructor
    |change (bucket both_start) with last_token; rewrite E; vm_compute; discriminate|exact both_run].
Defined.
