(* ===== verification/Stats.v ===== *)
(** * Statistics ([internal/proxy/stats.go], the gauge of [internal/proxy/metrics.go])

    The counters of the SNI proxy, the window of the last sixty per-second byte
    counts, the twenty-four hourly samples, the formatting of sizes, and the two
    JSON endpoints. [backgroundUpdater] is a step per tick; its local variable
    [lastBytes] is part of the state. *)
From S2P Require Import Prelude GoStrings GoFloat GoTime GoHttp.
Open Scope Z_scope.

Record HistorySample := MkHistorySample { Time : string; HUsers : Z; Traffic : Z }.

Record StatsResponse (F : Type) := MkStatsResponse {
  TotalUsers : Z;
  ActiveConnections : Z;
  UptimeSeconds : Z;
  DataThroughput : string;
  Latency : Z;
  SuccessRate : F
}.
Arguments MkStatsResponse {F}.

Record StatsTracker := MkStatsTracker {
  startTime : Z;
  totalRelays : Z;
  totalBytes : Z;
  totalErrors : Z;
  bytesWindow : list Z;
  history : list HistorySample;
  AllowedOrigin : string;
  lastBytes : Z
}.

Definition new_stats (now : Z) : StatsTracker := MkStatsTracker now 0 0 0 [] [] "" 0.

(** ** The connection gauge *)

(** [gaugeWrapper] counts in an [int] beside the Prometheus gauge. *)
Definition gauge_Inc (count : Z) : Z := wrap64 (count + 1).
Definition gauge_Dec (count : Z) : Z := wrap64 (count - 1).
Definition gauge_Get (count : Z) : Z := count.
Definition GetActiveConns (count : Z) : Z := count.

(** ** Counters *)

Definition RecordRelay (s : StatsTracker) : StatsTracker :=
  MkStatsTracker s.(startTime) (wrap64 (s.(totalRelays) + 1)) s.(totalBytes) s.(totalErrors)
    s.(bytesWindow) s.(history) s.(AllowedOrigin) s.(lastBytes).
Definition RecordBytes (s : StatsTracker) (n : Z) : StatsTracker :=
  MkStatsTracker s.(startTime) s.(totalRelays) (wrap64 (s.(totalBytes) + n)) s.(totalErrors)
    s.(bytesWindow) s.(history) s.(AllowedOrigin) s.(lastBytes).
Definition RecordError (s : StatsTracker) : StatsTracker :=
  MkStatsTracker s.(startTime) s.(totalRelays) s.(totalBytes) (wrap64 (s.(totalErrors) + 1))
    s.(bytesWindow) s.(history) s.(AllowedOrigin) s.(lastBytes).

Section Ticks.
Context {ZN : Zone}.

Inductive tick := SecondTick | HourTick (now : Z).

Definition backgroundUpdater (s : StatsTracker) (t : tick) : StatsTracker :=
  match t with
  | SecondTick =>
      let currentBytes := s.(totalBytes) in
      let bytesThisSecond := wrap64 (currentBytes - s.(lastBytes)) in
      let w := s.(bytesWindow) ++ [bytesThisSecond] in
      let w := if 60 <? zlen w then drop 1 w else w in
      MkStatsTracker s.(startTime) s.(totalRelays) s.(totalBytes) s.(totalErrors)
        w s.(history) s.(AllowedOrigin) currentBytes
  | HourTick now =>
      let h := s.(history) ++ [MkHistorySample (FormatClock now) s.(totalRelays) s.(totalBytes)] in
      let h := if 24 <? zlen h then drop 1 h else h in
      MkStatsTracker s.(startTime) s.(totalRelays) s.(totalBytes) s.(totalErrors)
        s.(bytesWindow) h s.(AllowedOrigin) s.(lastBytes)
  end.

Definition GetHistory (s : StatsTracker) : list HistorySample := s.(history).

Definition generateInitialHistory (now : Z) : list HistorySample :=
  map (fun i => MkHistorySample (FormatClock (now + (Z.of_nat i - 23) * Hour)) 0 0) (seq 0 24).
End Ticks.

(** ** Formatting *)

(** The loop of [itoa]: the digits of a positive number, the last one first. *)
Fixpoint itoa_loop (fuel : nat) (i : Z) (result : string) : string :=
  match fuel with
  | O => result
  | S fuel =>
      if 0 <? i then itoa_loop fuel (Z.quot i 10) (String (chr (48 + Z.rem i 10)) result) else result
  end.

Definition itoa (i : Z) : string :=
  if i =? 0 then "0" else itoa_loop (decimal_fuel i) i "".

Section Formatting.
Context {F : Type} {GF : GoFloat F}.

Definition formatFloat (f : F) : string :=
  let intPart := f_to_Z f in
  let decPart := f_to_Z ((f - f_of_Z intPart) * f_of_Z 10)%F in
  let decPart := if decPart <? 0 then wrap64 (- decPart) else decPart in
  itoa intPart +:+ "." +:+ itoa decPart.

Definition formatBytes (bytes : Z) : string :=
  let KB := 1024 in let MB := KB * 1024 in let GB := MB * 1024 in
  if GB <=? bytes then formatFloat (f_of_Z bytes / f_of_Z GB)%F +:+ " GB"
  else if MB <=? bytes then formatFloat (f_of_Z bytes / f_of_Z MB)%F +:+ " MB"
  else if KB <=? bytes then formatFloat (f_of_Z bytes / f_of_Z KB)%F +:+ " KB"
  else itoa bytes +:+ " B".

Definition GetThroughput (s : StatsTracker) : string :=
  if decide (s.(bytesWindow) = []) then "0 B/s" else
  let total := fold_left (fun total b => wrap64 (total + b)) s.(bytesWindow) 0 in
  let avg := Z.quot total (zlen s.(bytesWindow)) in
  formatBytes avg +:+ "/s".

Definition GetSuccessRate (s : StatsTracker) : F :=
  let relays := s.(totalRelays) in
  let errors := s.(totalErrors) in
  let total := wrap64 (relays + errors) in
  if total =? 0 then f_of_Z 100
  else (fround (f_of_Z relays / f_of_Z total * f_of_Z 100 * f_of_Z 10) / f_of_Z 10)%F.

Definition GetStats (s : StatsTracker) (active now : Z) : StatsResponse F :=
  MkStatsResponse s.(totalRelays) (GetActiveConns active)
    (f_to_Z (Seconds (F := F) (time_sub now s.(startTime)))) (GetThroughput s) 18 (GetSuccessRate s).
End Formatting.

(** ** The endpoints *)

(** [json.NewEncoder(w).Encode(v)] writes the encoding of [v]; the encodings are
    [encoding/json]'s. *)
Class StatsJSON (F : Type) := {
  json_stats : StatsResponse F -> string;
  json_history : list HistorySample -> string
}.

Section Handlers.
Context {F : Type} {GF : GoFloat F} {SJ : StatsJSON F} {ZN : Zone} {W : Type} {RW : ResponseWriter W}.

Definition cors_json (origin : string) (w : W) : W :=
  set_header "Content-Type" "application/json"
    (set_header "Access-Control-Allow-Headers" "Content-Type"
       (set_header "Access-Control-Allow-Methods" "GET, OPTIONS"
          (set_header "Access-Control-Allow-Origin" origin w))).

Definition StatsHandler (s : StatsTracker) (active now : Z) (w : W) (r : Request) : W :=
  let w := cors_json s.(AllowedOrigin) w in
  if String.eqb (Method r) "OPTIONS" then write_header 200 w
  else write (json_stats (GetStats s active now)) w.

Definition HistoryHandler (s : StatsTracker) (now : Z) (w : W) (r : Request) : W :=
  let w := cors_json s.(AllowedOrigin) w in
  if String.eqb (Method r) "OPTIONS" then write_header 200 w
  else
    let h := GetHistory s in
    let h := if decide (h = []) then generateInitialHistory now else h in
    write (json_history h) w.
End Handlers.
