(* ===== verification/StatsFacts.v ===== *)
(** * What the statistics show

    The sliding windows against the full record of ticks, the decimal notation
    of [itoa], the size format against integer division, the success rate, and
    the answers of the endpoints through any response writer. *)
From S2P Require Import Prelude GoStrings GoFloat GoTime GoHttp Stats.
Open Scope Z_scope.

(** ** Runs *)

Inductive sevent := ERelay | EBytes (n : Z) | EError | ETick (t : tick).

(** The last [n] elements of a list. *)
Definition lastn {A} (n : nat) (l : list A) : list A := drop (length l - n) l.

Lemma lastn_all {A} n (l : list A) : (length l <= n)%nat -> lastn n l = l.
Proof. intros. unfold lastn. by replace (length l - n)%nat with O by lia. Qed.

Lemma lastn_length {A} n (l : list A) : (length (lastn n l) <= n)%nat.
Proof. unfold lastn. rewrite length_drop. lia. Qed.

Lemma lastn_step {A} n (l b : list A) x :
  (0 < n)%nat -> (length l <= n)%nat ->
  lastn n ((if Z.of_nat n <? zlen (l ++ [x]) then drop 1 (l ++ [x]) else l ++ [x]) ++ b) =
  lastn n (l ++ x :: b).
Proof.
  intros Hn Hl. destruct (Z.ltb_spec (Z.of_nat n) (zlen (l ++ [x]))) as [H|H].
  - destruct l as [|y l]; [simpl in H; lia|]. rewrite length_app in H. simpl in *.
    unfold lastn. rewrite drop_0, <- app_assoc. simpl. rewrite !length_app. simpl.
    replace (S (length l + S (length b)) - n)%nat
      with (S (length l + S (length b) - n)) by lia. done.
  - by rewrite <- app_assoc.
Qed.

Lemma list_last_cons {A} (x : A) l d : List.last (x :: l) d = List.last l x.
Proof.
  revert x d. induction l as [|y l IH]; intros x d; [done|].
  change (List.last (y :: l) d = List.last (y :: l) x). by rewrite !IH.
Qed.

Lemma list_last_drop {A} (d d' : A) l : forall m,
  (m < length l)%nat -> List.last (drop m l) d' = List.last l d.
Proof.
  induction l as [|x l IH]; intros m Hm; [simpl in Hm; lia|]. rewrite list_last_cons.
  destruct m as [|m]; [by rewrite drop_0, list_last_cons|]. simpl in Hm. simpl drop.
  rewrite (IH m) by lia. destruct l; [simpl in Hm; lia|]. by rewrite !list_last_cons.
Qed.

Section Runs.
Context {ZN : Zone}.

Definition stats_step (s : StatsTracker) (e : sevent) : StatsTracker :=
  match e with
  | ERelay => RecordRelay s
  | EBytes n => RecordBytes s n
  | EError => RecordError s
  | ETick t => backgroundUpdater s t
  end.
Definition stats_run (s : StatsTracker) (es : list sevent) : StatsTracker :=
  fold_left stats_step es s.

(** The byte counter at every second tick, and the sample at every hour tick. *)
Fixpoint samples (s : StatsTracker) (es : list sevent) : list Z :=
  match es with
  | [] => []
  | e :: es => match e with ETick SecondTick => [totalBytes s] | _ => [] end
               ++ samples (stats_step s e) es
  end.
Fixpoint hour_samples (s : StatsTracker) (es : list sevent) : list HistorySample :=
  match es with
  | [] => []
  | e :: es =>
      match e with
      | ETick (HourTick now) => [MkHistorySample (FormatClock now) (totalRelays s) (totalBytes s)]
      | _ => []
      end ++ hour_samples (stats_step s e) es
  end.

(** The bytes of each second. *)
Fixpoint deltas (base : Z) (l : list Z) : list Z :=
  match l with [] => [] | x :: l => wrap64 (x - base) :: deltas x l end.

Lemma deltas_length base l : length (deltas base l) = length l.
Proof. revert base. induction l as [|x l IH]; intros base; simpl; [done|]. by rewrite IH. Qed.

Lemma deltas_drop n : forall base l,
  (n <= length l)%nat -> drop n (deltas base l) = deltas (nth n (base :: l) 0) (drop n l).
Proof.
  induction n as [|n IH]; intros base l Hn; [done|].
  destruct l as [|x l]; [simpl in Hn; lia|]. simpl. apply IH. simpl in Hn. lia.
Qed.

Lemma deltas_sum l : forall base acc,
  in_int64 acc -> fold_left (fun t b => wrap64 (t + b)) (deltas base l) acc =
    wrap64 (acc + (List.last l base - base)).
Proof.
  induction l as [|x l IH]; intros base acc Ha.
  - simpl. rewrite Z.sub_diag, Z.add_0_r. by rewrite wrap64_id.
  - cbn [deltas fold_left]. rewrite IH by apply wrap64_range.
    rewrite wrap64_add_r, wrap64_add_l. f_equal.
    rewrite list_last_cons. lia.
Qed.

Lemma window_run es : forall s,
  (length (bytesWindow s) <= 60)%nat ->
  bytesWindow (stats_run s es) = lastn 60 (bytesWindow s ++ deltas (lastBytes s) (samples s es)) /\
  lastBytes (stats_run s es) = List.last (samples s es) (lastBytes s).
Proof.
  induction es as [|e es IH]; intros s Hs.
  { simpl. by rewrite app_nil_r, lastn_all. }
  change (stats_run s (e :: es)) with (stats_run (stats_step s e) es).
  destruct e as [|n| |[|now]];
    [exact (IH (RecordRelay s) Hs)|exact (IH (RecordBytes s n) Hs)|exact (IH (RecordError s) Hs)| |].
  2: exact (IH (backgroundUpdater s (HourTick now)) Hs).
  cbn [stats_step]. destruct (IH (backgroundUpdater s SecondTick)) as [-> ->].
  { simpl. case_match eqn:E; [|apply Z.ltb_ge in E; lia].
    rewrite length_drop, length_app; simpl. lia. }
  split.
  - cbn [samples stats_step app deltas]. rewrite <- (lastn_step 60 (bytesWindow s)) by lia. done.
  - cbn [samples stats_step app]. by rewrite list_last_cons.
Qed.

Lemma history_run es : forall s,
  (length (history s) <= 24)%nat ->
  history (stats_run s es) = lastn 24 (history s ++ hour_samples s es).
Proof.
  induction es as [|e es IH]; intros s Hs.
  { simpl. by rewrite app_nil_r, lastn_all. }
  change (stats_run s (e :: es)) with (stats_run (stats_step s e) es).
  destruct e as [|n| |[|now]];
    [exact (IH (RecordRelay s) Hs)|exact (IH (RecordBytes s n) Hs)|exact (IH (RecordError s) Hs)| |].
  { exact (IH (backgroundUpdater s SecondTick) Hs). }
  rewrite IH.
  - cbn [hour_samples stats_step app]. rewrite <- (lastn_step 24 (history s)) by lia. done.
  - simpl. case_match eqn:E; [|apply Z.ltb_ge in E; lia].
    rewrite length_drop, length_app; simpl. lia.
Qed.

(** The throughput is that of the last minute: whatever was recorded
    between the ticks, the window holds the byte counts of the last sixty
    seconds, and their sum is the growth of the counter over them; the
    history holds the last twenty-four hourly samples. *)
Theorem window_is_last_minute (t0 : Z) (es : list sevent) :
  let s := stats_run (new_stats t0) es in
  let l := samples (new_stats t0) es in
  bytesWindow s = lastn 60 (deltas 0 l) /\
  fold_left (fun t b => wrap64 (t + b)) (bytesWindow s) 0 =
    wrap64 (lastBytes s - nth (length l - 60) (0 :: l) 0) /\
  history s = lastn 24 (hour_samples (new_stats t0) es).
Proof.
  intros s l. destruct (window_run es (new_stats t0)) as [Hw Hl]; [simpl; lia|].
  fold s l in Hw, Hl. simpl in Hw, Hl. split; [done|]. split.
  - rewrite Hw, Hl. unfold lastn. rewrite deltas_length, deltas_drop by lia.
    rewrite deltas_sum by (unfold in_int64; lia). f_equal. rewrite Z.add_0_l. f_equal.
    set (n := (length l - 60)%nat). assert (n < length l \/ l = [])%nat as [Hn| ->]; [|..].
    { destruct l; [by right|left; simpl in *; lia]. }
    + by apply list_last_drop.
    + done.
  - unfold s. rewrite history_run by (simpl; lia). done.
Qed.
End Runs.

(** ** Numbers as text *)

Lemma itoa_loop_zero fuel result : itoa_loop fuel 0 result = result.
Proof. by destruct fuel. Qed.

Lemma itoa_loop_digits fuel : forall n acc,
  0 < n < 2 ^ Z.of_nat fuel -> itoa_loop fuel n acc = digits fuel n acc.
Proof.
  induction fuel as [|fuel IH]; intros n acc Hn; [simpl in Hn; lia|].
  cbn [itoa_loop digits]. rewrite (proj2 (Z.ltb_lt 0 n)) by lia.
  rewrite Z.quot_div_nonneg, Z.rem_mod_nonneg by lia. destruct (Z.ltb_spec n 10).
  - by rewrite Z.div_small, Z.mod_small, itoa_loop_zero by lia.
  - rewrite Nat2Z.inj_succ, Z.pow_succ_r in Hn by lia.
    rewrite IH; [done|]. split; [apply Z.div_str_pos; lia|apply Z.div_lt_upper_bound; lia].
Qed.

(** The hand-written [itoa] is decimal notation on every number that is not
    negative, and empty on the others. *)
Theorem itoa_decimal (i : Z) :
  itoa i = if i <? 0 then "" else decimal i.
Proof.
  unfold itoa. destruct (Z.eqb_spec i 0) as [->|Hi]; [done|]. destruct (Z.ltb_spec i 0) as [Hn|Hn].
  - unfold decimal_fuel. cbn [itoa_loop]. by rewrite (proj2 (Z.ltb_ge 0 i)) by lia.
  - unfold decimal. rewrite (proj2 (Z.ltb_ge i 0)) by lia. apply itoa_loop_digits.
    pose proof (decimal_fuel_enough i ltac:(lia)). lia.
Qed.

Lemma Qtrunc_nonneg q : (0 <= q)%Q -> Qtrunc q = to_int64 (Qfloor q).
Proof.
  intros H. unfold Qtrunc, Qfloor. destruct q as [n d]. simpl. unfold Qle in H. simpl in H.
  by rewrite Z.quot_div_nonneg by lia.
Qed.

Lemma Qfloor_frac n d : 0 < d -> Qfloor (inject_Z n / inject_Z d) = n / d.
Proof.
  intros Hd. destruct d as [|d|d]; try lia. unfold Qfloor, Qdiv, Qmult, Qinv, inject_Z. simpl.
  by rewrite Z.mul_1_r.
Qed.

Lemma frac_nonneg n d : 0 <= n -> 0 < d -> (0 <= inject_Z n / inject_Z d)%Q.
Proof.
  intros Hn Hd. apply Qle_shift_div_l; [unfold Qlt; simpl; lia|].
  rewrite Qmult_0_l. unfold Qle; simpl. lia.
Qed.

Lemma to_int64_id z : in_int64 z -> to_int64 z = z.
Proof. intros. unfold to_int64. by rewrite decide_True. Qed.

(** One decimal, cut off. *)
Definition one_decimal (b unit_ : Z) : string :=
  decimal (b / unit_) +:+ "." +:+ decimal (b mod unit_ * 10 / unit_).

Lemma formatFloat_frac b u :
  0 <= b < 2^63 -> 0 < u < 2^60 ->
  formatFloat (F := Q) (inject_Z b / inject_Z u)%Q = one_decimal b u.
Proof.
  intros Hb Hu. unfold formatFloat, one_decimal. cbn [f_to_Z fsub fmul f_of_Z exact].
  pose proof (Z.div_pos b u). pose proof (Z.div_le_upper_bound b u b ltac:(lia) ltac:(nia)).
  pose proof (Z.mod_pos_bound b u). pose proof (Z.div_mod b u).
  assert (0 < inject_Z u)%Q as Hu' by (unfold Qlt; simpl; lia).
  assert (Qtrunc (inject_Z b / inject_Z u) = b / u) as ->.
  { rewrite Qtrunc_nonneg by (apply frac_nonneg; lia). rewrite Qfloor_frac by lia.
    apply to_int64_id. unfold in_int64. lia. }
  assert ((inject_Z b / inject_Z u - inject_Z (b / u)) * inject_Z 10 ==
          inject_Z (b mod u * 10) / inject_Z u)%Q as E.
  { rewrite inject_Z_mult. replace (b mod u) with (b - u * (b / u)) by lia.
    unfold Z.sub. rewrite inject_Z_plus, inject_Z_opp, inject_Z_mult. field. lra. }
  assert (0 <= inject_Z (b mod u * 10) / inject_Z u)%Q as Hpos by (apply frac_nonneg; lia).
  assert (0 <= b mod u * 10 / u < 10) as Hd.
  { split; [apply Z.div_pos; lia|apply Z.div_lt_upper_bound; lia]. }
  rewrite Qtrunc_nonneg by (rewrite E; done).
  rewrite (Qfloor_comp _ _ E), Qfloor_frac, to_int64_id by (unfold in_int64; lia).
  rewrite (proj2 (Z.ltb_ge _ 0)) by lia. rewrite !itoa_decimal.
  by rewrite !(proj2 (Z.ltb_ge _ 0)) by lia.
Qed.

(** Sizes are printed in the largest unit that they reach, with one decimal
    cut off, by integer division; the floating-point detour does not show. *)
Theorem formatBytes_exact (b : Z) :
  0 <= b < 2^63 ->
  formatBytes (F := Q) b =
    if 2^30 <=? b then one_decimal b (2^30) +:+ " GB"
    else if 2^20 <=? b then one_decimal b (2^20) +:+ " MB"
    else if 2^10 <=? b then one_decimal b (2^10) +:+ " KB"
    else decimal b +:+ " B".
Proof.
  intros Hb. unfold formatBytes. cbn [fdiv f_of_Z exact].
  change (1024 * 1024 * 1024) with (2^30). change (1024 * 1024) with (2^20). change 1024 with (2^10).
  rewrite !formatFloat_frac, itoa_decimal, (proj2 (Z.ltb_ge b 0)) by lia. done.
Qed.

Lemma formatBytes_exact_witness : formatBytes (F := Q) 1610612736 = "1.5 GB".
Proof. rewrite (formatBytes_exact 1610612736) by lia. vm_compute. reflexivity. Defined.

Example formatBytes_binary64 :
  map (formatBytes (F := spec_float)) [0; 1023; 1024; 1588; 1073741823; 1610612736; 2^63 - 1]
  = ["0 B"; "1023 B"; "1.0 KB"; "1.5 KB"; "1023.9 MB"; "1.5 GB"; "8589934592.0 GB"].
Proof. vm_compute. reflexivity. Qed.

Lemma Qhalf_away_bounds q :
  (0 <= q)%Q -> (q - (1 # 2) <= Qhalf_away q <= q + (1 # 2))%Q.
Proof.
  intros H. unfold Qhalf_away. rewrite (proj2 (Qle_bool_iff 0 q) H).
  pose proof (Qfloor_le (q + (1 # 2))). pose proof (Qlt_floor (q + (1 # 2))) as Hl.
  rewrite inject_Z_plus in Hl. change (inject_Z 1) with 1%Q in Hl. lra.
Qed.

(** The success rate is a percentage: between 0 and 100, within a
    twentieth of the share of relays, and 100 when nothing has happened yet. *)
Theorem GetSuccessRate_percentage (s : StatsTracker) :
  0 <= totalRelays s -> 0 <= totalErrors s -> totalRelays s + totalErrors s < 2^63 ->
  (0 <= GetSuccessRate (F := Q) s <= 100)%Q /\
  (totalRelays s + totalErrors s = 0 -> GetSuccessRate (F := Q) s = 100%Q) /\
  (0 < totalRelays s + totalErrors s ->
     let share := (100 * inject_Z (totalRelays s) / inject_Z (totalRelays s + totalErrors s))%Q in
     (share - (1 # 20) <= GetSuccessRate (F := Q) s <= share + (1 # 20))%Q).
Proof.
  intros Hr He Ht. unfold GetSuccessRate. cbv zeta. rewrite wrap64_id by (unfold in_int64; lia).
  destruct (Z.eqb_spec (totalRelays s + totalErrors s) 0) as [E|E].
  { change (f_of_Z 100) with 100%Q. split; [lra|]. split; [done|lia]. }
  cbn [fround fmul fdiv f_of_Z exact].
  set (r := totalRelays s) in *. set (t := r + totalErrors s) in *.
  assert (0 < inject_Z t)%Q as Ht' by (unfold Qlt; simpl; lia).
  assert (0 <= inject_Z r)%Q as Hr' by (unfold Qle; simpl; lia).
  assert (inject_Z r <= inject_Z t)%Q as Hrt by (rewrite <- Zle_Qle; lia).
  set (q := (inject_Z r / inject_Z t * inject_Z 100 * inject_Z 10)%Q).
  assert (q == 10 * (100 * inject_Z r / inject_Z t))%Q as Eq by (unfold q; unfold inject_Z at 3 4; field; lra).
  assert (0 <= 100 * inject_Z r / inject_Z t)%Q as H0.
  { apply Qle_shift_div_l; [done|]. lra. }
  assert (100 * inject_Z r / inject_Z t <= 100)%Q as H100.
  { apply Qle_shift_div_r; [done|]. lra. }
  pose proof (Qhalf_away_bounds q ltac:(lra)) as [Hl Hu].
  assert (Qhalf_away q / inject_Z 10 == Qhalf_away q * (1 # 10))%Q as Ediv by reflexivity.
  assert (0 <= Qhalf_away q <= 1000)%Q as Hb.
  { revert Hl Hu. unfold Qhalf_away. rewrite (proj2 (Qle_bool_iff 0 q)) by lra.
    set (z := Qfloor (q + (1 # 2))). intros Hl Hu.
    assert (-1 < z) by (rewrite Zlt_Qlt; change (inject_Z (-1)) with (-(1))%Q; lra).
    assert (z < 1001) by (rewrite Zlt_Qlt; change (inject_Z 1001) with 1001%Q; lra).
    unfold Qle; simpl. lia. }
  split; [lra|]. split; [done|]. intros _. cbv zeta. lra.
Qed.

Lemma GetSuccessRate_percentage_witness :
  let s := MkStatsTracker 0 2 0 1 [] [] "" 0 in
  (0 <= GetSuccessRate (F := Q) s <= 100)%Q /\
  (totalRelays s + totalErrors s = 0 -> GetSuccessRate (F := Q) s = 100%Q) /\
  (0 < totalRelays s + totalErrors s ->
     let share := (100 * inject_Z (totalRelays s) / inject_Z (totalRelays s + totalErrors s))%Q in
     (share - (1 # 20) <= GetSuccessRate (F := Q) s <= share + (1 # 20))%Q).
Proof. apply (GetSuccessRate_percentage (MkStatsTracker 0 2 0 1 [] [] "" 0)); simpl; lia. Defined.

(** ** The endpoints *)

Section Endpoints.
Context {F : Type} {GF : GoFloat F} {SJ : StatsJSON F} {ZN : Zone} {W : Type} {RW : ResponseWriter W}.

Definition cors_headers (origin : string) : gmap string (list string) :=
  <["Content-Type" := ["application/json"]]>
    (<["Access-Control-Allow-Headers" := ["Content-Type"]]>
       (<["Access-Control-Allow-Methods" := ["GET, OPTIONS"]]>
          {["Access-Control-Allow-Origin" := [origin]]})).

Lemma cors_json_ok origin w :
  represents w no_response -> represents (cors_json origin w) (MkResponse None (cors_headers origin) "").
Proof.
  intros Hw. unfold cors_json.
  apply set_header_ok with (k := "Access-Control-Allow-Origin") (v := origin) in Hw.
  apply set_header_ok with (k := "Access-Control-Allow-Methods") (v := "GET, OPTIONS") in Hw.
  apply set_header_ok with (k := "Access-Control-Allow-Headers") (v := "Content-Type") in Hw.
  apply set_header_ok with (k := "Content-Type") (v := "application/json") in Hw.
  exact Hw.
Qed.

(** The endpoints answer 200 with the CORS headers, through any response
    writer: the JSON of the counters, or nothing to a preflight. *)
Lemma StatsHandler_response (s : StatsTracker) (active now : Z) (w : W) (r : Request) :
  represents w no_response ->
  represents (StatsHandler s active now w r)
    (res_done 200 (cors_headers (AllowedOrigin s))
       (if String.eqb (Method r) "OPTIONS" then "" else json_stats (GetStats s active now))).
Proof.
  intros Hw%(cors_json_ok (AllowedOrigin s)). unfold StatsHandler.
  destruct (String.eqb (Method r) "OPTIONS").
  - by apply write_header_ok with (s := 200) in Hw.
  - by apply write_ok with (b := json_stats (GetStats s active now)) in Hw.
Qed.

Lemma HistoryHandler_response (s : StatsTracker) (now : Z) (w : W) (r : Request) :
  represents w no_response ->
  represents (HistoryHandler s now w r)
    (res_done 200 (cors_headers (AllowedOrigin s))
       (if String.eqb (Method r) "OPTIONS" then ""
        else json_history (if decide (history s = []) then generateInitialHistory now else history s))).
Proof.
  intros Hw%(cors_json_ok (AllowedOrigin s)). unfold HistoryHandler.
  destruct (String.eqb (Method r) "OPTIONS").
  - by apply write_header_ok with (s := 200) in Hw.
  - exact (write_ok _ _ _ Hw).
Qed.
End Endpoints.
