(* ===== verification/Registry.v ===== *)
(** * The metrics and their registration ([metrics.go] of [internal/proxy],
    [internal/socks5] and [internal/httpproxy])

    The package variables register their metrics while the packages are initialised,
    before [main], and [promauto] panics where a registration fails. The registry is
    a class with the documented condition for success; the descriptions are those of
    the source, buckets in tenths of a second. *)
From S2P Require Import Prelude GoStrings.
Open Scope Z_scope.

Inductive MetricKind := Counter | Gauge | Histogram (buckets : list Z).

Record Desc := MkDesc {
  d_name : string;
  d_help : string;
  d_kind : MetricKind;
  d_labels : list string
}.

(** [internal/proxy/metrics.go] *)
Definition proxy_metrics : list Desc :=
  [MkDesc "multiproxy_relay_total" "Total relayed connections by SNI" Counter ["sni"];
   MkDesc "multiproxy_active_conns" "Current active connections" Gauge [];
   MkDesc "multiproxy_bytes_total" "Total bytes transferred" Counter ["sni"; "direction"];
   MkDesc "multiproxy_errors_total" "Total errors by type" Counter ["type"];
   MkDesc "multiproxy_connection_duration_seconds" "Connection duration in seconds"
     (Histogram [10; 50; 150; 300; 600; 1200; 3000; 6000]) [];
   MkDesc "multiproxy_connections_rejected_total" "Total connections rejected due to capacity" Counter []].

(** [internal/socks5/metrics.go] *)
Definition socks5_metrics : list Desc :=
  [MkDesc "socks5_connections_total" "Total SOCKS5 connections by user" Counter ["user"];
   MkDesc "socks5_bytes_total" "Total bytes transferred by user and direction" Counter ["user"; "direction"];
   MkDesc "socks5_active_connections" "Current active SOCKS5 connections" Gauge [];
   MkDesc "socks5_auth_failures_total" "Total SOCKS5 authentication failures by type" Counter ["type"];
   MkDesc "socks5_rate_limited_total" "Total SOCKS5 rate limited requests by user" Counter ["user"];
   MkDesc "socks5_errors_total" "Total SOCKS5 errors by type" Counter ["type"];
   MkDesc "socks5_connection_duration_seconds" "SOCKS5 connection duration in seconds"
     (Histogram [10; 50; 100; 300; 600; 1200; 3000; 6000]) []].

(** [internal/httpproxy/metrics.go] *)
Definition httpproxy_metrics : list Desc :=
  [MkDesc "httpproxy_requests_total" "Total HTTP proxy requests by user and method" Counter ["user"; "method"];
   MkDesc "httpproxy_bytes_total" "Total bytes transferred by user and direction" Counter ["user"; "direction"];
   MkDesc "httpproxy_active_connections" "Current active HTTP proxy connections" Gauge [];
   MkDesc "httpproxy_auth_failures_total" "Total authentication failures by type" Counter ["type"];
   MkDesc "httpproxy_rate_limited_total" "Total rate limited requests by user" Counter ["user"];
   MkDesc "httpproxy_errors_total" "Total proxy errors by type" Counter ["type"];
   MkDesc "httpproxy_request_duration_seconds" "HTTP proxy request duration in seconds"
     (Histogram [1; 5; 10; 50; 100; 300; 600; 1200; 3000]) []].

(** ** What a registration needs *)

Definition name_start (c : Ascii.ascii) : bool :=
  let n := GoStrings.code c in ((65 <=? n) && (n <=? 90)) || ((97 <=? n) && (n <=? 122)) || (n =? 95).
Definition name_char (c : Ascii.ascii) : bool :=
  let n := GoStrings.code c in name_start c || ((48 <=? n) && (n <=? 57)).
Definition valid_name (s : string) : bool :=
  match s with String c s => name_start c && forallb name_char (String.list_ascii_of_string s) | "" => false end.

Fixpoint increasing (l : list Z) : bool :=
  match l with x :: (y :: _) as l' => (x <? y) && increasing l' | _ => true end.

(** The names are identifiers, the labels distinct and none reserved, the buckets in
    increasing order. *)
Definition valid_desc (d : Desc) : bool :=
  valid_name d.(d_name) && bool_decide (NoDup d.(d_labels)) &&
  forallb (fun l => valid_name l && negb (HasPrefix l "__")) d.(d_labels) &&
  match d.(d_kind) with
  | Histogram bs => increasing bs && negb (existsb (String.eqb "le") d.(d_labels))
  | _ => true
  end.

(** The default registry: it starts with the collectors of the Go run time and of the
    process, and takes every valid metric whose name is new. *)
Class Prometheus := {
  registry : Type;
  default_registry : registry;
  names : registry -> list string;
  register : registry -> Desc -> outcome registry;
  default_names : Forall (fun n => HasPrefix n "go_" = true \/ HasPrefix n "process_" = true)
                    (names default_registry);
  register_ok r d : valid_desc d = true -> d_name d ∉ names r ->
    exists r', register r d = Done r' /\ names r' = d_name d :: names r
}.

Section Init.
Context {PR : Prometheus}.

Fixpoint register_all (r : registry) (ds : list Desc) : outcome registry :=
  match ds with
  | [] => Done r
  | d :: ds => match register r d with Done r => register_all r ds | Panic => Panic end
  end.

(** The package initialisations, in the order of the imports. *)
Definition init_metrics : outcome registry :=
  register_all default_registry (httpproxy_metrics ++ proxy_metrics ++ socks5_metrics).

Lemma register_all_ok (r : registry) ds :
  Forall (fun d => valid_desc d = true /\ d_name d ∉ names r) ds -> NoDup (d_name <$> ds) ->
  exists r', register_all r ds = Done r' /\ names r' = rev (d_name <$> ds) ++ names r.
Proof.
  revert r. induction ds as [|d ds IH]; intros r Hd Hnd; [by exists r|].
  apply Forall_cons in Hd as [[Hv Hn] Hd]. apply NoDup_cons in Hnd as [Hnot Hnd].
  destruct (register_ok r d Hv Hn) as (r1 & E & Hr1). simpl. rewrite E.
  assert (Forall (fun x => valid_desc x = true /\ d_name x ∉ names r1) ds) as Hd1.
  { rewrite Hr1. rewrite Forall_forall in Hd |- *. intros x Hx. destruct (Hd x Hx) as [? Hni].
    split; [done|]. rewrite not_elem_of_cons. split; [|done]. intros E'. apply Hnot.
    rewrite <- E'. by apply list_elem_of_fmap_2. }
  destruct (IH r1 Hd1 Hnd) as (r' & E1 & Hr'). exists r'. split; [done|].
  rewrite Hr', Hr1. by rewrite <- app_assoc.
Qed.

(** The packages initialise without a panic: all twenty metrics are registered, each
    under a name of its own. *)
Theorem metrics_register :
  exists r, init_metrics = Done r /\
    forall d, d ∈ httpproxy_metrics ++ proxy_metrics ++ socks5_metrics -> d_name d ∈ names r.
Proof.
  unfold init_metrics. set (ds := httpproxy_metrics ++ proxy_metrics ++ socks5_metrics).
  destruct (register_all_ok default_registry ds) as (r & -> & Hr).
  - assert (Forall (fun d => valid_desc d && negb (HasPrefix (d_name d) "go_") &&
              negb (HasPrefix (d_name d) "process_") = true) ds) as H.
    { apply List.Forall_forall, List.forallb_forall. vm_compute. reflexivity. }
    eapply Forall_impl; [exact H|]. clear H. intros d H.
    apply andb_true_iff in H as [[Hv Hg]%andb_true_iff Hp]. split; [done|]. intros Hin.
    pose proof default_names as Hdn. rewrite Forall_forall in Hdn.
    destruct (Hdn _ Hin) as [E|E]; rewrite E in *; done.
  - apply (bool_decide_unpack _). vm_compute. exact I.
  - exists r. split; [done|]. intros d Hd. rewrite Hr. apply elem_of_app. left.
    rewrite list_elem_of_In, <- List.in_rev, <- list_elem_of_In. by apply list_elem_of_fmap_2.
Qed.
End Init.

(** A registry that is the list of the names it has. *)
Definition list_registry : Prometheus.
Proof.
  refine {|
    registry := list string;
    default_registry := ["go_goroutines"; "process_open_fds"];
    names r := r;
    register r d := if valid_desc d && bool_decide (d_name d ∉ r) then Done (d_name d :: r) else Panic
  |}.
  - repeat constructor; vm_compute; tauto.
  - intros r d -> Hd. rewrite bool_decide_true by done. by eexists.
Defined.

Lemma metrics_register_witness :
  exists r, init_metrics (PR := list_registry) = Done r /\
    forall d, d ∈ httpproxy_metrics ++ proxy_metrics ++ socks5_metrics -> d_name d ∈ r.
Proof. exact (metrics_register (PR := list_registry)). Defined.

(** A second registration of a name panics. *)
Example register_twice_panics :
  register_all (PR := list_registry) ["socks5_bytes_total"] socks5_metrics = Panic.
Proof. vm_compute. reflexivity. Qed.
