(* ===== verification/Config.v ===== *)
(** * Configuration ([internal/config/config.go], [internal/config/env.go])

    The settings come from the environment ([getenv], [os.Getenv]) and from
    config.json, whose decoding over the defaults by [encoding/json] is an
    argument. [Validate] takes the answer of [os.Stat]. *)
From S2P Require Import Prelude GoStrings.

Record EnvConfig := MkEnvConfig {
  Env : string;
  Domain : string;
  APIDomain : string;
  BaseURL : string;
  EAllowedOrigin : string;
  Debug : bool;
  LogLevel : string;
  NgrokEnabled : bool;
  NgrokDomain : string;
  ProxyMode : string;
  HTTPProxyPort : string;
  HTTPProxyTLS : bool;
  HTTPProxyTLSPort : string;
  SOCKS5Port : string;
  UsersFile : string;
  PACEnabled : bool;
  PACToken : string;
  PACDefaultUser : string;
  PACRateLimitRPM : Z
}.

(** [Config], its [Env] apart, which JSON does not touch. *)
Record ConfigFile := MkConfigFile {
  Listen : string;
  CertFile : string;
  KeyFile : string;
  TimeoutSec : Z;
  MaxConns : Z;
  MetricsListen : string;
  Hosts : gmap string string
}.

Record Config := MkConfig { file : ConfigFile; EnvOf : EnvConfig }.

Definition Development : string := "development".
Definition Production : string := "production".

(** The loop over the characters of [s]. *)
Fixpoint parse_digits (s : string) (result : Z) : option Z :=
  match s with
  | EmptyString => Some result
  | String c s =>
      if is_digit c then parse_digits s (wrap64 (wrap64 (result * 10) + digit_val c)) else None
  end.

Definition parseIntOrDefault (s : string) (defaultValue : Z) : Z :=
  if String.eqb s "" then defaultValue
  else match parse_digits s 0 with Some result => result | None => defaultValue end.

Section Loading.
Context {UC : Unicode} {MO : MapOrder}.
Variable getenv : string -> string.

Definition getEnvOrDefault (key defaultValue : string) : string :=
  if String.eqb (getenv key) "" then defaultValue else getenv key.

Definition env_flag (key defaultValue : string) : bool :=
  String.eqb (getEnvOrDefault key defaultValue) "true".

Definition LoadEnv : EnvConfig :=
  let env := ToLower (getEnvOrDefault "APP_ENV" "development") in
  let logLevel := getEnvOrDefault "LOG_LEVEL" "info" in
  let proxyMode := ToLower (getEnvOrDefault "PROXY_MODE" "sni") in
  let httpPort := getEnvOrDefault "HTTP_PROXY_PORT" ":8080" in
  let httpTLS := env_flag "HTTP_PROXY_TLS" "true" in
  let httpTLSPort := getEnvOrDefault "HTTP_PROXY_TLS_PORT" ":8443" in
  let socks5 := getEnvOrDefault "SOCKS5_PORT" ":1080" in
  let usersFile := getEnvOrDefault "USERS_FILE" "users.json" in
  let pacEnabled := env_flag "PAC_ENABLED" "true" in
  let pacToken := getEnvOrDefault "PAC_TOKEN" "" in
  let pacUser := getEnvOrDefault "PAC_DEFAULT_USER" "" in
  let pacRPM := parseIntOrDefault (getEnvOrDefault "PAC_RATE_LIMIT_RPM" "60") 60 in
  if String.eqb env Production then
    let domain := getEnvOrDefault "DOMAIN" "proxy.yourdomain.com" in
    MkEnvConfig env domain (getEnvOrDefault "API_DOMAIN" ("api." +:+ domain))
      (getEnvOrDefault "BASE_URL" ("https://" +:+ domain)) (getEnvOrDefault "ALLOWED_ORIGIN" "*")
      (env_flag "DEBUG" "false") logLevel false ""
      proxyMode httpPort httpTLS httpTLSPort socks5 usersFile pacEnabled pacToken pacUser pacRPM
  else
    let ngrokEnabled := env_flag "NGROK_ENABLED" "true" in
    let ngrokDomain := getEnvOrDefault "NGROK_DOMAIN" "" in
    let domain := if ngrokEnabled && negb (String.eqb ngrokDomain "")
                  then getEnvOrDefault "DOMAIN" ngrokDomain
                  else getEnvOrDefault "DOMAIN" "localhost:8443" in
    MkEnvConfig Development domain domain
      (getEnvOrDefault "BASE_URL" ("https://" +:+ domain)) "*"
      (env_flag "DEBUG" "true") (if String.eqb logLevel "info" then "debug" else logLevel)
      ngrokEnabled ngrokDomain
      proxyMode httpPort httpTLS httpTLSPort socks5 usersFile pacEnabled pacToken pacUser pacRPM.

Definition IsDevelopment (e : EnvConfig) : bool := String.eqb (Env e) Development.
(** The method [String] of [Environment]. *)
Definition Environment_String (e : string) : string := e.

Definition IsProduction (e : EnvConfig) : bool := String.eqb (Env e) Production.

Definition default_file : ConfigFile :=
  MkConfigFile ":8443" "certs/dev/server.crt" "certs/dev/server.key" 300 1000 ":9090" ∅.

Definition clean_host (k : string) : string := ToLower (TrimSpace k).

(** The loop over the decoded hosts, in the order the map is ranged over. *)
Definition clean_step (cleaned : gmap string string) (kv : string * string) : gmap string string :=
  <[clean_host kv.1 := kv.2]> cleaned.
Definition clean_hosts (hosts : gmap string string) : gmap string string :=
  fold_left clean_step (range_order hosts) ∅.

(** [decode] is the effect of [json.NewDecoder(file).Decode(cfg)], [None] when
    config.json cannot be opened. *)
Definition Load (decode : option (ConfigFile -> ConfigFile)) : Config :=
  let cfg := match decode with Some d => d default_file | None => default_file end in
  let override key v := if String.eqb (getenv key) "" then v else getenv key in
  MkConfig
    (MkConfigFile cfg.(Listen) (override "CERT_FILE" cfg.(CertFile)) (override "KEY_FILE" cfg.(KeyFile))
       cfg.(TimeoutSec) cfg.(MaxConns) (override "METRICS_LISTEN" cfg.(MetricsListen))
       (clean_hosts cfg.(Hosts)))
    LoadEnv.
End Loading.

(** The complaints of [Validate]; [not_exist] is [os.IsNotExist] of [os.Stat]. *)
Definition config_errors (c : ConfigFile) (not_exist : string -> bool) : list string :=
  (if String.eqb c.(Listen) "" then ["listen address is required"] else []) ++
  (if not_exist c.(CertFile) then ["certificate file not found: " +:+ c.(CertFile)] else []) ++
  (if not_exist c.(KeyFile) then ["key file not found: " +:+ c.(KeyFile)] else []) ++
  (if c.(TimeoutSec) <=? 0 then ["timeout_sec must be positive"] else []) ++
  (if c.(MaxConns) <=? 0 then ["max_conns must be positive"] else []) ++
  (if decide (c.(Hosts) = ∅) then ["at least one host mapping is required"] else []).

Definition error_separator : string := String (chr 10) "  - ".

Definition Validate (c : ConfigFile) (not_exist : string -> bool) : result unit :=
  let errs := config_errors c not_exist in
  if 0 <? zlen errs
  then Err ("config validation failed:" +:+ error_separator +:+ String.concat error_separator errs)
  else Ok tt.

(** ** Integers from the environment *)

Lemma parse_digits_value s : forall r v,
  0 <= r -> digits_value s r = Some v -> parse_digits s (wrap64 r) = Some (wrap64 v).
Proof.
  induction s as [|c s IH]; intros r v Hr; cbn [digits_value parse_digits].
  - by intros [= ->].
  - destruct (is_digit c) eqn:E; [|done]. intros H.
    rewrite wrap64_mul_l, wrap64_add_l. apply IH; [|done].
    unfold is_digit in E. unfold digit_val. apply andb_true_iff in E as [E _]. lia.
Qed.

(** A number in the environment is read back as long as it fits; from
    [2^63] on it silently wraps around to a negative one. *)
Theorem parseIntOrDefault_decimal (n d : Z) :
  0 <= n -> parseIntOrDefault (decimal n) d = wrap64 n.
Proof.
  intros Hn. pose proof (digits_value_decimal n Hn) as E. unfold parseIntOrDefault.
  destruct (String.eqb_spec (decimal n) "") as [E0|_].
  - exfalso. revert E0. unfold decimal. rewrite (proj2 (Z.ltb_ge n 0)) by lia.
    unfold decimal_fuel. cbn [digits]. case_match; [done|].
    intros E0. rewrite digits_acc in E0. apply (f_equal String.length) in E0.
    rewrite str_length_app in E0. simpl in E0. lia.
  - apply (parse_digits_value _ 0) in E; [|lia]. change (wrap64 0) with 0 in E. by rewrite E.
Qed.

Lemma parseIntOrDefault_decimal_witness :
  parseIntOrDefault (decimal (2^63)) 60 = wrap64 (2^63) /\ wrap64 (2^63) < 0.
Proof. split; [apply (parseIntOrDefault_decimal (2^63) 60); lia|reflexivity]. Defined.

(** ** The host table *)

Section HostTable.
Context {UC : Unicode} {MO : MapOrder}.

Lemma clean_fold_spec l : forall acc k v,
  fold_left clean_step l acc !! k = Some v ->
  (exists k0, (k0, v) ∈ l /\ k = clean_host k0) \/ acc !! k = Some v.
Proof.
  induction l as [|[k0 v0] l IH]; intros acc k v; simpl; [by right|].
  intros [(k1 & Hin & ->)|H]%IH.
  - left. exists k1. split; [by right|done].
  - unfold clean_step in H. apply lookup_insert_Some in H as [[<- <-]|[_ H]]; [left; exists k0; split; [by left|done]|by right].
Qed.

Lemma clean_fold_complete l : forall acc k0 v,
  (k0, v) ∈ l \/ is_Some (acc !! clean_host k0) ->
  is_Some (fold_left clean_step l acc
             !! clean_host k0).
Proof.
  induction l as [|[k1 v1] l IH]; intros acc k0 v; simpl.
  - intros [H|H]; [by apply elem_of_nil in H|done].
  - intros [[[= <- <-]|H]%elem_of_cons|H]; apply (IH _ k0 v); [right|by left|right]; unfold clean_step; simpl.
    + rewrite lookup_insert_eq. by eexists.
    + destruct (decide (clean_host k1 = clean_host k0)) as [->|Hne].
      * rewrite lookup_insert_eq. by eexists.
      * by rewrite lookup_insert_ne.
Qed.

(** Cleaning the host table loses no host and invents none: a host is
    mapped exactly if some spelling of it is in config.json, to the target of
    one of its spellings, whatever order the map is ranged over. *)
Theorem clean_hosts_spec (hosts : gmap string string) (k : string) :
  (forall v, clean_hosts hosts !! k = Some v ->
     exists k0, hosts !! k0 = Some v /\ k = clean_host k0) /\
  (is_Some (clean_hosts hosts !! k) <->
     exists k0, is_Some (hosts !! k0) /\ k = clean_host k0).
Proof.
  assert (forall v, clean_hosts hosts !! k = Some v ->
     exists k0, hosts !! k0 = Some v /\ k = clean_host k0) as H1.
  { intros v [(k0 & Hin & ->)|H]%clean_fold_spec; [|by rewrite lookup_empty in H].
    exists k0. rewrite range_order_perm in Hin. by apply elem_of_map_to_list in Hin. }
  split; [done|]. split.
  - intros [v Hv]. destruct (H1 v Hv) as (k0 & Hk & ->). exists k0. by rewrite Hk.
  - intros (k0 & [v Hv] & ->). apply (clean_fold_complete _ _ k0 v). left.
    rewrite range_order_perm. by apply elem_of_map_to_list.
Qed.

(** [Validate] accepts exactly the configurations that can run: an
    address, files that exist, positive limits and at least one host. *)
Theorem Validate_spec (c : ConfigFile) (not_exist : string -> bool) :
  Validate c not_exist = Ok tt <->
    Listen c <> "" /\ not_exist (CertFile c) = false /\ not_exist (KeyFile c) = false /\
    0 < TimeoutSec c /\ 0 < MaxConns c /\ Hosts c <> ∅.
Proof.
  assert (forall l, (if 0 <? zlen l then Err ("config validation failed:" +:+ error_separator
    +:+ String.concat error_separator l) else Ok tt) = Ok tt <-> l = []) as H.
  { intros [|x l]; [done|]. rewrite (proj2 (Z.ltb_lt _ _)) by (simpl; lia). by split. }
  unfold Validate. cbv zeta. rewrite H. unfold config_errors. rewrite !app_nil.
  destruct (String.eqb_spec (Listen c) ""), (not_exist (CertFile c)), (not_exist (KeyFile c)),
    (Z.leb_spec (TimeoutSec c) 0), (Z.leb_spec (MaxConns c) 0), (decide (Hosts c = ∅));
    split; intros HH; decompose [and] HH; try congruence; try lia; split_and!; congruence || lia.
Qed.
End HostTable.
