(* ===== verification/SniServer.v ===== *)
(** * The SNI relay ([internal/proxy/server.go])

    [HandleConnection] is a handler in the error monad over [World], the
    counters and the two connections it works on; what the network does is the
    record [Net]. [srv_step] is the accept loop with its semaphore, its wait
    group and its shutdown. [simpleResponseWriter] answers API requests over the
    raw connection; it implements [ResponseWriter]. *)
From S2P Require Import Prelude GoStrings GoFloat GoTime GoHttp Sni Stats Config.
Open Scope Z_scope.

(** ** [simpleResponseWriter] *)

Record simpleResponseWriter := MkSimpleResponseWriter {
  conn_out : string;
  header : gmap string (list string);
  wroteHeader : bool;
  status : Z
}.

Definition fresh_writer : simpleResponseWriter := MkSimpleResponseWriter "" ∅ false 0.

Section ResponseWriting.
Context {ZN : Zone} {MO : MapOrder}.
Variable now : Z.

Definition with_header (w : simpleResponseWriter) (h : gmap string (list string)) :=
  MkSimpleResponseWriter w.(conn_out) h w.(wroteHeader) w.(status).

Definition header_lines (h : gmap string (list string)) : string :=
  String.concat "" (flat_map (fun kv => map (fun v => kv.1 +:+ ": " +:+ v +:+ crlf) kv.2)
                      (range_order h)).

Definition final_header (h : gmap string (list string)) : gmap string (list string) :=
  <["Connection" := ["close"]]> (<["Date" := [FormatHTTP now]]> h).

Definition status_line (status : Z) : string :=
  "HTTP/1.1 " +:+ decimal status +:+ " " +:+ StatusText status +:+ crlf.

Definition WriteHeader (w : simpleResponseWriter) (st : Z) : simpleResponseWriter :=
  if w.(wroteHeader) then w else
  let h := final_header w.(header) in
  MkSimpleResponseWriter
    (w.(conn_out) +:+ status_line st +:+ header_lines h +:+ crlf) h true st.

Definition Write (w : simpleResponseWriter) (b : string) : simpleResponseWriter :=
  let w := if w.(wroteHeader) then w else WriteHeader w 200 in
  MkSimpleResponseWriter (w.(conn_out) +:+ b) w.(header) w.(wroteHeader) w.(status).

(** The bytes of a complete response. *)
Definition response_bytes (st : Z) (h : gmap string (list string)) (body : string) : string :=
  status_line st +:+ header_lines (final_header h) +:+ crlf +:+ body.

(** What the writer has put on the connection, as a [Response]. *)
Definition srw_represents (w : simpleResponseWriter) (r : Response) : Prop :=
  match r_status r with
  | None => w.(wroteHeader) = false /\ w.(conn_out) = "" /\ w.(header) = r_header r /\ r_body r = ""
  | Some st => w.(wroteHeader) = true /\ w.(status) = st /\
               w.(conn_out) = response_bytes st (r_header r) (r_body r)
  end.

(** A change [g] of the header map has the effect of the same change before the
    header is sent, and none after. *)
Lemma srw_header_ok w r (g : gmap string (list string) -> gmap string (list string)) :
  srw_represents w r ->
  srw_represents (with_header w (g w.(header)))
    (if decide (r_status r = None) then MkResponse None (g (r_header r)) (r_body r) else r).
Proof.
  intros Hw. unfold srw_represents in *. case_decide as E.
  - rewrite E in Hw. destruct Hw as (? & ? & Hh & ?). simpl. by rewrite Hh.
  - destruct (r_status r); [done|congruence].
Qed.

Lemma WriteHeader_ok w r st :
  srw_represents w r -> srw_represents (WriteHeader w st) (res_write_header st r).
Proof.
  unfold srw_represents, res_write_header, WriteHeader. destruct (r_status r) as [st0|] eqn:E.
  - intros (Hw & ?). rewrite decide_False by done. by rewrite E, Hw.
  - intros (-> & -> & -> & Hb). rewrite decide_True by done. simpl.
    by rewrite Hb, str_nil_app; unfold response_bytes; rewrite str_app_nil_r.
Qed.

Lemma Write_ok w r b : srw_represents w r -> srw_represents (Write w b) (res_write b r).
Proof.
  intros Hw. unfold Write, res_write.
  assert (srw_represents (if wroteHeader w then w else WriteHeader w 200) (res_write_header 200 r)) as H.
  { destruct (wroteHeader w) eqn:E; [|by apply WriteHeader_ok].
    unfold srw_represents, res_write_header in *. destruct (r_status r) as [st|] eqn:Er.
    - rewrite decide_False by done. by rewrite Er.
    - destruct Hw; congruence. }
  revert H. generalize (if wroteHeader w then w else WriteHeader w 200). intros w' H.
  assert (exists st, r_status (res_write_header 200 r) = Some st) as [st Est].
  { unfold res_write_header. destruct (r_status r) eqn:Er; case_decide; eauto. congruence. }
  unfold srw_represents in *. simpl. rewrite Est in *. destruct H as (? & ? & ->).
  split; [done|]. split; [done|]. unfold response_bytes. by rewrite !str_app_assoc.
Qed.

#[export] Instance simple_response_writer : ResponseWriter simpleResponseWriter.
Proof.
  refine {|
    set_header k v w := with_header w (<[k := [v]]> w.(header));
    add_header k v w := with_header w (<[k := default [] (w.(header) !! k) ++ [v]]> w.(header));
    del_header k w := with_header w (delete k w.(header));
    write_header st w := WriteHeader w st;
    write b w := Write w b;
    represents := srw_represents
  |}.
  - intros w r k v. apply (srw_header_ok w r (fun h => <[k := [v]]> h)).
  - intros w r k v. apply (srw_header_ok w r (fun h => <[k := default [] (h !! k) ++ [v]]> h)).
  - intros w r k. apply (srw_header_ok w r (delete k)).
  - intros w r s. apply WriteHeader_ok.
  - intros w r b. apply Write_ok.
Defined.
End ResponseWriting.

(** ** The internal API *)

Section InternalAPI.
Context {F : Type} {GF : GoFloat F} {SJ : StatsJSON F} {ZN : Zone} {MO : MapOrder}.

(** The bytes answered; [req] is what [http.ReadRequest] makes of the bytes
    already read followed by those of the connection. *)
Definition handleInternalAPI (s : StatsTracker) (active now : Z) (req : result Request) : string :=
  match req with
  | Err _ => ""
  | Ok req =>
      let RW := simple_response_writer now in
      let w := fresh_writer in
      let w :=
        if String.eqb (URLPath req) "/api/stats" then StatsHandler (F := F) (RW := RW) s active now w req
        else if String.eqb (URLPath req) "/api/history"
        then HistoryHandler (F := F) (RW := RW) s now w req
        else http_Error (H := RW) "Not Found" 404 w in
      let w := if wroteHeader w then w else WriteHeader now w 200 in
      conn_out w
  end.
End InternalAPI.

(** ** Relaying one direction *)

(** One round of the loop of [copyData]: when the deadline is set, whether the
    context was cancelled, what was read and whether with an error, how many of
    those bytes were written and whether with an error. *)
Record round := MkRound {
  rd_at : Z;
  ctx_done : bool;
  rd : list byte;
  rd_err : bool;
  nw : Z;
  wr_err : bool
}.

Record copy_state := MkCopyState {
  copied : Z;               (* *bytes *)
  delivered : list byte;    (* what [dst] has received *)
  src_deadline : option Z;
  copy_done : bool          (* it has returned *)
}.

Definition copy_start : copy_state := MkCopyState 0 [] None false.

(** The loop over the rounds that have happened so far. *)
Fixpoint copyData (timeout : Z) (rounds : list round) (c : copy_state) : copy_state :=
  match rounds with
  | [] => c
  | r :: rounds =>
      let deadline := Some (r.(rd_at) + timeout) in
      if r.(ctx_done) then MkCopyState c.(copied) c.(delivered) deadline true else
      let c :=
        if 0 <? zlen r.(rd) then
          if 0 <? r.(nw)
          then MkCopyState (wrap64 (c.(copied) + r.(nw)))
                 (c.(delivered) ++ take (Z.to_nat r.(nw)) r.(rd)) deadline false
          else MkCopyState c.(copied) c.(delivered) deadline false
        else MkCopyState c.(copied) c.(delivered) deadline false in
      if (0 <? zlen r.(rd)) && r.(wr_err) || r.(rd_err)
      then MkCopyState c.(copied) c.(delivered) deadline true
      else copyData timeout rounds c
  end.

(** ** One connection *)

(** What the network and the clock do during one call: [peek] is the first read,
    into a buffer of 16384 bytes; [up_rounds] and [down_rounds] are the rounds of
    the two copies when the handler goes on (one has returned, or the context is
    cancelled); [first_write] is what writing the first bytes to the target gives,
    a count and an error; [api] answers an API request. *)
Record Net := MkNet {
  t_start : Z;
  t_end : Z;
  peek : result (list byte);
  dial : string -> result unit;
  first_write : Z * option string;
  up_rounds : list round;
  down_rounds : list round;
  api : list byte -> string
}.

Record World := MkWorld {
  stats : StatsTracker;
  activeConns : Z;
  errors : gmap string Z;              (* MetricErrorsTotal, by type *)
  relays : gmap string Z;              (* MetricRelayTotal, by SNI *)
  relayed : gmap (string * string) Z;  (* MetricBytesTotal, by SNI and direction *)
  durations : list Z;                  (* MetricConnectionDuration *)
  dialled : option string;
  client_sent : string;                (* what the client has received *)
  up_received : list byte;             (* what the target has received *)
  client_closed : bool;
  up_closed : bool;
  client_deadline : option Z;
  up_deadline : option Z
}.

Definition set_stats (s : StatsTracker) (w : World) : World :=
  MkWorld s w.(activeConns) w.(errors) w.(relays) w.(relayed) w.(durations) w.(dialled)
    w.(client_sent) w.(up_received) w.(client_closed) w.(up_closed) w.(client_deadline) w.(up_deadline).
Definition set_active (n : Z) (w : World) : World :=
  MkWorld w.(stats) n w.(errors) w.(relays) w.(relayed) w.(durations) w.(dialled)
    w.(client_sent) w.(up_received) w.(client_closed) w.(up_closed) w.(client_deadline) w.(up_deadline).
Definition count_error (k : string) (w : World) : World :=
  MkWorld w.(stats) w.(activeConns) (count_up w.(errors) k 1) w.(relays) w.(relayed) w.(durations)
    w.(dialled) w.(client_sent) w.(up_received) w.(client_closed) w.(up_closed) w.(client_deadline)
    w.(up_deadline).
Definition count_relay (sni : string) (w : World) : World :=
  MkWorld w.(stats) w.(activeConns) w.(errors) (count_up w.(relays) sni 1) w.(relayed) w.(durations)
    w.(dialled) w.(client_sent) w.(up_received) w.(client_closed) w.(up_closed) w.(client_deadline)
    w.(up_deadline).
Definition count_bytes (sni direction : string) (n : Z) (w : World) : World :=
  MkWorld w.(stats) w.(activeConns) w.(errors) w.(relays)
    (count_up w.(relayed) (sni, direction) n) w.(durations) w.(dialled) w.(client_sent)
    w.(up_received) w.(client_closed) w.(up_closed) w.(client_deadline) w.(up_deadline).
Definition observe (d : Z) (w : World) : World :=
  MkWorld w.(stats) w.(activeConns) w.(errors) w.(relays) w.(relayed) (w.(durations) ++ [d])
    w.(dialled) w.(client_sent) w.(up_received) w.(client_closed) w.(up_closed) w.(client_deadline)
    w.(up_deadline).
Definition set_dialled (target : string) (w : World) : World :=
  MkWorld w.(stats) w.(activeConns) w.(errors) w.(relays) w.(relayed) w.(durations) (Some target)
    w.(client_sent) w.(up_received) w.(client_closed) w.(up_closed) w.(client_deadline) w.(up_deadline).
Definition send_client (s : string) (w : World) : World :=
  MkWorld w.(stats) w.(activeConns) w.(errors) w.(relays) w.(relayed) w.(durations) w.(dialled)
    (w.(client_sent) +:+ s) w.(up_received) w.(client_closed) w.(up_closed) w.(client_deadline)
    w.(up_deadline).
Definition send_up (bs : list byte) (w : World) : World :=
  MkWorld w.(stats) w.(activeConns) w.(errors) w.(relays) w.(relayed) w.(durations) w.(dialled)
    w.(client_sent) (w.(up_received) ++ bs) w.(client_closed) w.(up_closed) w.(client_deadline)
    w.(up_deadline).
Definition close_client (w : World) : World :=
  MkWorld w.(stats) w.(activeConns) w.(errors) w.(relays) w.(relayed) w.(durations) w.(dialled)
    w.(client_sent) w.(up_received) true w.(up_closed) w.(client_deadline) w.(up_deadline).
Definition close_up (w : World) : World :=
  MkWorld w.(stats) w.(activeConns) w.(errors) w.(relays) w.(relayed) w.(durations) w.(dialled)
    w.(client_sent) w.(up_received) w.(client_closed) true w.(client_deadline) w.(up_deadline).
Definition set_deadlines (c u : option Z) (w : World) : World :=
  MkWorld w.(stats) w.(activeConns) w.(errors) w.(relays) w.(relayed) w.(durations) w.(dialled)
    w.(client_sent) w.(up_received) w.(client_closed) w.(up_closed) c u.

(** [PeekSNI]; a panic of [extractSNI] would be an error here. *)
Definition PeekSNI (conn_read : result (list byte)) : result (string * list byte) :=
  match conn_read with
  | Err err => Err err
  | Ok data =>
      match extractSNI data with
      | Done sni => Ok (sni, data)
      | Panic => Err "panic: index out of range"
      end
  end.

Definition record_error (label : string) : GoM World unit :=
  modify (fun w => set_stats (RecordError w.(stats)) (count_error label w)).

Section Handling.
Context {UC : Unicode}.

(** From the first bytes on: the part of the body after [PeekSNI]. *)
Definition relay_connection (cfg : ConfigFile) (net : Net) (sni target : string)
    (initialData : list byte) : GoM World unit :=
  _ ← modify (set_dialled target);
  match net.(dial) target with
  | Err _ => record_error "dial_failed"
  | Ok _ =>
      with_defer (modify close_up)
        (match (if 0 <? zlen initialData then net.(first_write) else (0, None)) with
         | (n, Some _) =>
             _ ← modify (send_up (take (Z.to_nat n) initialData)); modify (count_error "write_failed")
         | (_, None) =>
             _ ← modify (send_up initialData);
             _ ← modify (count_relay sni);
             _ ← modify (fun w => set_stats (RecordRelay w.(stats)) w);
             _ ← modify (set_deadlines None None);
             let timeout := wrap64 (cfg.(TimeoutSec) * Second) in
             let up := copyData timeout net.(up_rounds) copy_start in
             let down := copyData timeout net.(down_rounds) copy_start in
             _ ← modify (set_deadlines up.(src_deadline) down.(src_deadline));
             _ ← modify (fun w => send_up up.(delivered)
                                    (send_client (string_of_bytes down.(delivered)) w));
             _ ← modify (observe (time_sub net.(t_end) net.(t_start)));
             _ ← modify (count_bytes sni "upstream" up.(copied));
             _ ← modify (count_bytes sni "downstream" down.(copied));
             modify (fun w => set_stats (RecordBytes w.(stats) (wrap64 (up.(copied) + down.(copied)))) w)
         end)
  end.

(** The choice between the relay, the API and a refusal. *)
Definition serve_connection (cfg : ConfigFile) (net : Net) : GoM World unit :=
  match PeekSNI net.(peek) with
  | Err _ => record_error "peek_failed"
  | Ok (sni, initialData) =>
      match cfg.(Hosts) !! ToLower sni, String.eqb sni "" with
      | Some target, false => relay_connection cfg net sni target initialData
      | _, _ =>
          match initialData with
          | b :: _ =>
              if negb (b2z b =? 0x16)
              then modify (send_client (net.(api) initialData))
              else record_error "unauthorized_sni"
          | [] => record_error "unauthorized_sni"
          end
      end
  end.

Definition HandleConnection (cfg : ConfigFile) (net : Net) : GoM World unit :=
  with_defer (modify close_client)
    (_ ← modify (fun w => set_active (gauge_Inc w.(activeConns)) w);
     with_defer (modify (fun w => set_active (gauge_Dec w.(activeConns)) w))
       (_ ← modify (fun w => set_deadlines (Some (net.(t_start) + 10 * Second)) w.(up_deadline) w);
        serve_connection cfg net)).
End Handling.

(** ** The server *)

(** Where the loop of [Start] is. *)
Inductive loop_pc :=
| AtHead                  (* before the first [select] *)
| AtAccept                (* in [s.ln.Accept()] *)
| AtDrain                 (* in [drainConnections] *)
| Finished (drained : bool)
| Failed (err : string).

(** [connSem] holds [sem] elements; [running] handlers are in [HandleConnection],
    [released] ones have left the semaphore but not yet the wait group. *)
Record Server := MkServer {
  capacity : Z;
  sem : Z;
  running : Z;
  released : Z;
  wg : Z;
  shutdown : bool;
  listening : bool;
  rejected : Z;
  pc : loop_pc;
  cert : option string
}.

(** [make] panics for a negative capacity. *)
Definition NewServer (cfg : ConfigFile) : outcome Server :=
  if cfg.(MaxConns) <? 0 then Panic
  else Done (MkServer cfg.(MaxConns) 0 0 0 0 false false 0 AtHead None).

Definition set_cert (s : Server) (c : option string) : Server :=
  MkServer s.(capacity) s.(sem) s.(running) s.(released) s.(wg) s.(shutdown) s.(listening)
    s.(rejected) s.(pc) c.
Definition at_pc (s : Server) (p : loop_pc) : Server :=
  MkServer s.(capacity) s.(sem) s.(running) s.(released) s.(wg) s.(shutdown) s.(listening)
    s.(rejected) p s.(cert).
Definition set_listening (s : Server) (b : bool) : Server :=
  MkServer s.(capacity) s.(sem) s.(running) s.(released) s.(wg) s.(shutdown) b s.(rejected) s.(pc)
    s.(cert).
Definition close_shutdown (s : Server) : Server :=
  MkServer s.(capacity) s.(sem) s.(running) s.(released) s.(wg) true s.(listening) s.(rejected)
    s.(pc) s.(cert).

(** A failed reload keeps the certificate in use. *)
Definition Reload (s : Server) (key_pair : result string) : result unit * Server :=
  match key_pair with
  | Err e => (Err e, s)
  | Ok c => (Ok tt, set_cert s (Some c))
  end.

Definition getCertificate (s : Server) : option string := s.(cert).

(** [Start] up to the loop: the state in which the loop is entered. *)
Definition Start (s : Server) (key_pair : result string) (listen : result unit)
    : result unit * Server :=
  match Reload s key_pair with
  | (Err e, s) => (Err e, s)
  | (Ok _, s) =>
      match listen with
      | Err e => (Err e, s)
      | Ok _ => (Ok tt, at_pc (set_listening s true) AtHead)
      end
  end.

(** The goroutine of an accepted connection: the semaphore is taken. *)
Definition spawn (s : Server) : Server :=
  MkServer s.(capacity) (s.(sem) + 1) (s.(running) + 1) s.(released) (s.(wg) + 1) s.(shutdown)
    s.(listening) s.(rejected) AtHead s.(cert).
Definition reject (s : Server) : Server :=
  MkServer s.(capacity) s.(sem) s.(running) s.(released) s.(wg) s.(shutdown) s.(listening)
    (s.(rejected) + 1) AtHead s.(cert).
(** Its two deferred calls, the last one first. *)
Definition leave_sem (s : Server) : Server :=
  MkServer s.(capacity) (s.(sem) - 1) (s.(running) - 1) (s.(released) + 1) s.(wg) s.(shutdown)
    s.(listening) s.(rejected) s.(pc) s.(cert).
Definition leave_wg (s : Server) : Server :=
  MkServer s.(capacity) s.(sem) s.(running) (s.(released) - 1) (s.(wg) - 1) s.(shutdown)
    s.(listening) s.(rejected) s.(pc) s.(cert).

(** The steps of the loop of [Start], of the connections, of [watchShutdown] and
    of [drainConnections]. *)
Inductive srv_step : Server -> Server -> Prop :=
| head_shutdown s : pc s = AtHead -> shutdown s = true -> srv_step s (at_pc s AtDrain)
| head_accept s : pc s = AtHead -> shutdown s = false -> srv_step s (at_pc s AtAccept)
| accept_conn s : pc s = AtAccept -> listening s = true -> sem s < capacity s ->
    srv_step s (spawn s)
| accept_full s : pc s = AtAccept -> listening s = true -> capacity s <= sem s ->
    srv_step s (reject s)
| accept_error_shutdown s : pc s = AtAccept -> shutdown s = true -> srv_step s (at_pc s AtDrain)
| accept_error_timeout s : pc s = AtAccept -> shutdown s = false -> listening s = true ->
    srv_step s (at_pc s AtHead)
| accept_error s err : pc s = AtAccept -> shutdown s = false -> srv_step s (at_pc s (Failed err))
| handler_returns s : 0 < running s -> srv_step s (leave_sem s)
| handler_done s : 0 < released s -> srv_step s (leave_wg s)
| watch_close s : shutdown s = false -> srv_step s (close_shutdown s)
| watch_listener s : shutdown s = true -> listening s = true -> srv_step s (set_listening s false)
| drain_done s : pc s = AtDrain -> wg s = 0 -> srv_step s (at_pc s (Finished true))
| drain_timeout s : pc s = AtDrain -> srv_step s (at_pc s (Finished false)).

Definition reachable (cfg : ConfigFile) (s : Server) : Prop :=
  exists s0 kp s1, NewServer cfg = Done s0 /\ Start s0 kp (Ok tt) = (Ok tt, s1) /\ rtc srv_step s1 s.
