(* ===== verification/SniServerFacts.v ===== *)
(** * What the SNI relay guarantees

    Answers of the internal API, faithfulness of the copy loop, every branch of
    [HandleConnection], and the accept loop: its capacity, and its shutdown. *)
From S2P Require Import Prelude GoStrings GoFloat GoTime GoHttp Sni Stats StatsFacts Config.
From S2P Require Import SniServer.
Open Scope Z_scope.

(** ** The internal API *)

Section API.
Context {F : Type} {GF : GoFloat F} {SJ : StatsJSON F} {ZN : Zone} {MO : MapOrder}.

Lemma fresh_writer_ok now : represents (ResponseWriter := simple_response_writer now) fresh_writer no_response.
Proof. by split_and!. Qed.

Lemma complete_response now w st h body :
  srw_represents now w (res_done st h body) ->
  conn_out (if wroteHeader w then w else WriteHeader now w 200) = response_bytes now st h body.
Proof. by intros (-> & _ & ->). Qed.

(** The response to a request. *)
Definition api_response (s : StatsTracker) (active now : Z) (req : Request) : string :=
  let body text := if String.eqb (Method req) "OPTIONS" then "" else text in
  if String.eqb (URLPath req) "/api/stats" then
    response_bytes now 200 (cors_headers (AllowedOrigin s)) (body (json_stats (GetStats s active now)))
  else if String.eqb (URLPath req) "/api/history" then
    response_bytes now 200 (cors_headers (AllowedOrigin s))
      (body (json_history (if decide (history s = []) then generateInitialHistory now else history s)))
  else
    response_bytes now 404
      {["X-Content-Type-Options" := ["nosniff"]; "Content-Type" := ["text/plain; charset=utf-8"]]}
      ("Not Found" +:+ newline).

(** C34: the API answers every request it can parse with exactly one complete
    HTTP response, status line, headers and body, though handlers and server
    may all write the header. *)
Theorem handleInternalAPI_response (s : StatsTracker) (active now : Z) (req : Request) :
  handleInternalAPI s active now (Ok req) = api_response s active now req.
Proof.
  unfold handleInternalAPI, api_response. cbv zeta. pose proof (fresh_writer_ok now) as Hw.
  destruct (String.eqb (URLPath req) "/api/stats"); [|destruct (String.eqb (URLPath req) "/api/history")].
  - apply complete_response.
    exact (StatsHandler_response (RW := simple_response_writer now) s active now fresh_writer req Hw).
  - apply complete_response.
    exact (HistoryHandler_response (RW := simple_response_writer now) s now fresh_writer req Hw).
  - apply complete_response.
    exact (http_Error_ok (H := simple_response_writer now) fresh_writer ∅ "Not Found" 404 Hw).
Qed.
End API.

(** ** The copy loop *)

(** The contract of [net.Conn.Write], for a buffer of 32 KiB: it writes no more
    than it was given, and an error explains a short write. *)
Definition round_ok (r : round) : Prop :=
  zlen (rd r) <= 32768 /\ 0 <= nw r <= zlen (rd r) /\ (nw r < zlen (rd r) -> wr_err r = true).

Definition read_stream (rounds : list round) : list byte := concat (map rd rounds).

Lemma take_nw r : round_ok r -> (if 0 <? nw r then take (Z.to_nat (nw r)) (rd r) else []) = take (Z.to_nat (nw r)) (rd r).
Proof.
  intros (_ & H & _). destruct (Z.ltb_spec 0 (nw r)); [done|]. by replace (nw r) with 0 by lia.
Qed.

(** One round appends what was written. *)
Lemma copyData_cons timeout r rounds n out d :
  round_ok r ->
  copyData timeout (r :: rounds) (MkCopyState n out d false) =
    let d' := Some (rd_at r + timeout) in
    if ctx_done r then MkCopyState n out d' true else
    let n' := if 0 <? nw r then wrap64 (n + nw r) else n in
    let out' := out ++ take (Z.to_nat (nw r)) (rd r) in
    if (0 <? zlen (rd r)) && wr_err r || rd_err r then MkCopyState n' out' d' true
    else copyData timeout rounds (MkCopyState n' out' d' false).
Proof.
  intros Hr. cbn [copyData]. destruct (ctx_done r); [done|]. cbv zeta.
  rewrite <- (take_nw r Hr). destruct Hr as (_ & Hr & _).
  destruct (Z.ltb_spec 0 (zlen (rd r))); destruct (Z.ltb_spec 0 (nw r)); try lia;
    simpl; rewrite ?app_nil_r; done.
Qed.

Lemma copyData_spec timeout rounds : forall n out d,
  Forall round_ok rounds -> n = zlen out ->
  zlen out + 32768 * zlen rounds < 2^63 ->
  let c := copyData timeout rounds (MkCopyState n out d false) in
  copied c = zlen (delivered c) /\
  (exists rest, out ++ read_stream rounds = delivered c ++ rest) /\
  (copy_done c = false -> delivered c = out ++ read_stream rounds).
Proof.
  induction rounds as [|r rounds IH]; intros n out d Hok Hn Hfit.
  { split; [done|]. split; [by exists []|]. intros _. symmetry. apply app_nil_r. }
  apply Forall_cons in Hok as [Hr Hok]. rewrite copyData_cons by done. cbv zeta.
  assert (0 <= zlen out) by lia. destruct Hr as (Hlen & Hnw & Hshort).
  destruct (ctx_done r).
  { simpl. split; [done|]. split; [by eexists|done]. }
  set (part := take (Z.to_nat (nw r)) (rd r)).
  assert (zlen part = nw r) as Hpart by (unfold part; rewrite length_take; lia).
  assert ((if 0 <? nw r then wrap64 (n + nw r) else n) = zlen (out ++ part)) as Hn'.
  { rewrite length_app, Nat2Z.inj_add, Hpart, Hn. destruct (Z.ltb_spec 0 (nw r)); [|lia].
    apply wrap64_id. unfold in_int64. simpl length in Hfit. lia. }
  rewrite Hn'. unfold read_stream. cbn [map concat]. fold (read_stream rounds).
  destruct ((0 <? zlen (rd r)) && wr_err r || rd_err r) eqn:E.
  - simpl. split; [done|]. split; [|done].
    exists (drop (Z.to_nat (nw r)) (rd r) ++ read_stream rounds).
    rewrite <- app_assoc, (app_assoc part). unfold part. by rewrite (take_drop (Z.to_nat (nw r)) (rd r)).
  - apply orb_false_iff in E as [E _].
    assert (part = rd r) as ->.
    { apply take_ge. destruct (Z.le_gt_cases (zlen (rd r)) (nw r)) as [?|Hlt]; [lia|].
      rewrite (Hshort Hlt), andb_true_r in E. lia. }
    rewrite (app_assoc out). apply IH; [done|done|].
    rewrite length_app. simpl length in Hfit. lia.
Qed.

(** C27: the relay is faithful: however reads and writes are cut, what the other
    side has received is a prefix of what was read, all of it as long as the
    loop runs, and the byte count is its length. *)
Theorem copyData_faithful (timeout : Z) (rounds : list round) :
  Forall round_ok rounds -> 32768 * zlen rounds < 2^63 ->
  let c := copyData timeout rounds copy_start in
  copied c = zlen (delivered c) /\
  (exists rest, read_stream rounds = delivered c ++ rest) /\
  (copy_done c = false -> delivered c = read_stream rounds).
Proof. intros Hok Hfit. apply (copyData_spec timeout rounds 0 [] None); simpl; [done|done|lia]. Qed.

Definition demo_round : round := MkRound 0 false [x68; x69] false 2 false.
Lemma copyData_faithful_witness :
  let c := copyData Second [demo_round] copy_start in
  copied c = zlen (delivered c) /\
  (exists rest, read_stream [demo_round] = delivered c ++ rest) /\
  (copy_done c = false -> delivered c = read_stream [demo_round]).
Proof.
  apply (copyData_faithful Second [demo_round]).
  - constructor; [|constructor]. unfold round_ok; simpl. split_and!; lia.
  - simpl. lia.
Defined.

(** ** The handler *)

Section Handler.
Context {UC : Unicode}.

Lemma PeekSNI_Ok data : exists sni, extractSNI data = Done sni /\ PeekSNI (Ok data) = Ok (sni, data).
Proof.
  unfold PeekSNI. destruct (extractSNI data) as [sni|] eqn:E; [by eexists|].
  destruct (extractSNI_total data) as [s Es]. congruence.
Qed.

(** How one connection ends. *)
Inductive verdict :=
| PeekFailed
| Unauthorized
| ApiRequest (data : list byte)
| DialFailed (target : string)
| WriteFailed (target : string)
| Relayed (sni target : string) (data : list byte).

(** The decision, apart from its effects. *)
Definition decide_connection (cfg : ConfigFile) (net : Net) : verdict :=
  match peek net with
  | Err _ => PeekFailed
  | Ok data =>
      let sni := match extractSNI data with Done s => s | Panic => "" end in
      match Hosts cfg !! ToLower sni, String.eqb sni "" with
      | Some target, false =>
          match dial net target with
          | Err _ => DialFailed target
          | Ok _ =>
              if (0 <? zlen data) && bool_decide ((first_write net).2 <> None)
              then WriteFailed target else Relayed sni target data
          end
      | _, _ =>
          match data with
          | b :: _ => if b2z b =? 0x16 then Unauthorized else ApiRequest data
          | [] => Unauthorized
          end
      end
  end.

(** What a verdict means: relays and errors counted, the error label, the
    target dialled, the bytes that reach either side. *)
Definition v_relays (v : verdict) : Z := match v with Relayed _ _ _ => 1 | _ => 0 end.
Definition v_errors (v : verdict) : Z :=
  match v with PeekFailed | Unauthorized | DialFailed _ => 1 | _ => 0 end.
Definition v_label (v : verdict) : option string :=
  match v with
  | PeekFailed => Some "peek_failed"
  | Unauthorized => Some "unauthorized_sni"
  | DialFailed _ => Some "dial_failed"
  | WriteFailed _ => Some "write_failed"
  | _ => None
  end.
Definition v_target (v : verdict) : option string :=
  match v with DialFailed t | WriteFailed t | Relayed _ t _ => Some t | _ => None end.
Definition v_upstream (net : Net) (timeout : Z) (v : verdict) : list byte :=
  match v with
  | Relayed _ _ data => data ++ delivered (copyData timeout (up_rounds net) copy_start)
  | WriteFailed _ =>
      match peek net with Ok data => take (Z.to_nat (first_write net).1) data | Err _ => [] end
  | _ => []
  end.
Definition v_downstream (net : Net) (timeout : Z) (v : verdict) : string :=
  match v with
  | Relayed _ _ _ => string_of_bytes (delivered (copyData timeout (down_rounds net) copy_start))
  | ApiRequest data => api net data
  | _ => ""
  end.

Definition v_closes_up (v : verdict) : bool :=
  match v with WriteFailed _ | Relayed _ _ _ => true | _ => false end.

Definition conn_timeout (cfg : ConfigFile) : Z := wrap64 (TimeoutSec cfg * Second).

(** Counters that have not overflowed. *)
Definition counters_ok (w : World) : Prop :=
  in_int64 (totalRelays (stats w)) /\ in_int64 (totalErrors (stats w)) /\ in_int64 (activeConns w).

Lemma gauge_balanced n : in_int64 n -> gauge_Dec (gauge_Inc n) = n.
Proof.
  intros H. unfold gauge_Dec, gauge_Inc. rewrite wrap64_sub_l. rewrite <- (wrap64_id n) at 2 by done.
  f_equal. lia.
Qed.

(** The world [serve_connection] starts in, and the deferred calls. *)
Definition entered (net : Net) (w : World) : World :=
  set_deadlines (Some (t_start net + 10 * Second)) (up_deadline w)
    (set_active (gauge_Inc (activeConns w)) w).

Lemma HandleConnection_frame cfg net w r w1 :
  serve_connection cfg net (entered net w) = (r, w1) ->
  HandleConnection cfg net w = (r, close_client (set_active (gauge_Dec (activeConns w1)) w1)).
Proof.
  intros E. unfold HandleConnection, with_defer, mbind, GoM_bind, modify.
  change (set_deadlines _ _ _) with (entered net w). by rewrite E.
Qed.

Lemma relay_connection_effect cfg net sni target data w :
  let v := match dial net target with
           | Err _ => DialFailed target
           | Ok _ => if (0 <? zlen data) && bool_decide ((first_write net).2 <> None)
                     then WriteFailed target else Relayed sni target data
           end in
  peek net = Ok data -> counters_ok w ->
  exists w', relay_connection cfg net sni target data w = (Ok tt, w') /\
    activeConns w' = activeConns w /\
    up_closed w' = v_closes_up v || up_closed w /\
    dialled w' = v_target v /\
    up_received w' = up_received w ++ v_upstream net (conn_timeout cfg) v /\
    client_sent w' = client_sent w +:+ v_downstream net (conn_timeout cfg) v /\
    totalRelays (stats w') = wrap64 (totalRelays (stats w) + v_relays v) /\
    totalErrors (stats w') = wrap64 (totalErrors (stats w) + v_errors v) /\
    errors w' = match v_label v with Some l => count_up (errors w) l 1 | None => errors w end.
Proof.
  intros v Hp (Hr & He & _). unfold v, relay_connection, with_defer, record_error, modify. clear v.
  destruct (dial net target) as [[]|] eqn:Ed; simpl.
  2: { eexists. split; [done|]. rewrite app_nil_r, str_app_nil_r, Z.add_0_r, (wrap64_id (totalRelays _)) by done.
       by split_and!. }
  destruct (first_write net) as [n [err|]] eqn:Ef; simpl.
  - destruct (Z.ltb_spec 0 (zlen data)) as [Hd|Hd]; simpl.
    + eexists. split; [done|]. simpl.
      rewrite Hp, Ef, str_app_nil_r, !Z.add_0_r, !wrap64_id by done. split_and!; auto.
    + eexists. split; [done|]. simpl. rewrite Z.add_0_r, (wrap64_id (totalErrors _)) by done.
      rewrite <- app_assoc. split_and!; auto.
  - assert ((if 0 <? zlen data then (n, None) else (0, @None string)).2 = None) as E by by case_match.
    destruct (if 0 <? zlen data then (n, None) else (0, @None string)) as [n' x]. simpl in E. subst x.
    rewrite andb_false_r. simpl. eexists. split; [done|]. simpl.
    rewrite Z.add_0_r, (wrap64_id (totalErrors _)), <- app_assoc by done. split_and!; auto.
Qed.

Lemma serve_connection_effect cfg net w :
  let v := decide_connection cfg net in
  counters_ok w -> dialled w = None ->
  exists w', serve_connection cfg net w = (Ok tt, w') /\
    activeConns w' = activeConns w /\ up_closed w' = v_closes_up v || up_closed w /\
    dialled w' = v_target v /\
    up_received w' = up_received w ++ v_upstream net (conn_timeout cfg) v /\
    client_sent w' = client_sent w +:+ v_downstream net (conn_timeout cfg) v /\
    totalRelays (stats w') = wrap64 (totalRelays (stats w) + v_relays v) /\
    totalErrors (stats w') = wrap64 (totalErrors (stats w) + v_errors v) /\
    errors w' = match v_label v with Some l => count_up (errors w) l 1 | None => errors w end.
Proof.
  intros v Hw Hd. destruct (Hw) as (Hr & He & Ha).
  unfold v, decide_connection, serve_connection, record_error, modify. clear v.
  destruct (peek net) as [data|err] eqn:Ep.
  2: { simpl. eexists. split; [done|]. simpl.
       rewrite app_nil_r, str_app_nil_r, Z.add_0_r, (wrap64_id (totalRelays _)) by done. by split_and!. }
  destruct (PeekSNI_Ok data) as (sni & Es & ->). rewrite Es.
  destruct (Hosts cfg !! ToLower sni) as [target|] eqn:Eh; [destruct (String.eqb sni "") eqn:Esni|].
  2: { by apply relay_connection_effect. }
  all: destruct data as [|b data];
    [|destruct (b2z b =? 0x16)]; simpl; eexists; (split; [done|]); simpl;
    rewrite ?app_nil_r, ?str_app_nil_r, ?Z.add_0_r, ?(wrap64_id (totalRelays _)),
      ?(wrap64_id (totalErrors _)) by done; by split_and!.
Qed.

(** C20: every connection comes to its verdict and to nothing else: the handler
    returns without a panic, closes the client (and the target, once dialled),
    leaves the gauge of active connections as it was, and counts, dials and
    forwards exactly what the verdict says; a relayed target receives the
    client's first bytes unchanged, then what was copied. *)
Theorem HandleConnection_verdict (cfg : ConfigFile) (net : Net) (w : World) :
  counters_ok w -> dialled w = None ->
  let v := decide_connection cfg net in
  exists w', HandleConnection cfg net w = (Ok tt, w') /\
    client_closed w' = true /\ up_closed w' = v_closes_up v || up_closed w /\
    activeConns w' = activeConns w /\ dialled w' = v_target v /\
    up_received w' = up_received w ++ v_upstream net (conn_timeout cfg) v /\
    client_sent w' = client_sent w +:+ v_downstream net (conn_timeout cfg) v /\
    totalRelays (stats w') = wrap64 (totalRelays (stats w) + v_relays v) /\
    totalErrors (stats w') = wrap64 (totalErrors (stats w) + v_errors v) /\
    errors w' = match v_label v with Some l => count_up (errors w) l 1 | None => errors w end.
Proof.
  intros (Hr & He & Ha) Hd v.
  destruct (serve_connection_effect cfg net (entered net w))
    as (w' & E & Hact & Hrest); [split_and!; try done; apply wrap64_range|done|].
  eexists. split; [by apply HandleConnection_frame|]. simpl. rewrite Hact. simpl.
  rewrite gauge_balanced by done. destruct Hrest as [Hup Hrest].
  split; [done|]. split; [exact Hup|]. split; [done|exact Hrest].
Qed.

(** C2: the relay is no open proxy: a target is dialled only for a client
    whose first bytes are a well-formed ClientHello naming a host, and the
    target is the one config.json gives that host. *)
Theorem HandleConnection_authorized (cfg : ConfigFile) (net : Net) (w w' : World)
    (r : result unit) (target : string) :
  dialled w = None -> HandleConnection cfg net w = (r, w') -> dialled w' = Some target ->
  exists data host, peek net = Ok data /\ host <> [] /\ sni_hello data host /\
    Hosts cfg !! ToLower (string_of_bytes host) = Some target.
Proof.
  intros Hd. destruct (serve_connection cfg net (entered net w)) as [r1 w1] eqn:E.
  rewrite (HandleConnection_frame _ _ _ _ _ E). intros [= <- <-]. cbn. revert E.
  unfold serve_connection, record_error, modify.
  destruct (peek net) as [data|err] eqn:Ep; [|intros [= <- <-]; simpl; congruence].
  destruct (PeekSNI_Ok data) as (sni & Es & ->).
  destruct (Hosts cfg !! ToLower sni) as [t|] eqn:Eh; [destruct (String.eqb_spec sni "") as [|Hne]|].
  2: { intros H Ht. destruct (extractSNI_sound data sni Hne Es) as (host & -> & Hx).
       exists data, host. split; [done|]. split; [by intros ->|]. split; [done|].
       rewrite Eh. f_equal. revert H Ht. unfold relay_connection, with_defer, record_error, modify.
       destruct (dial net t) as [[]|]; simpl;
         [destruct (if 0 <? zlen data then _ else _) as [? []]; simpl|];
         intros [= <- <-] Ht; by injection Ht. }
  all: destruct data as [|b data]; [|destruct (b2z b =? 0x16)]; simpl;
    intros [= <- <-]; simpl; congruence.
Qed.
End Handler.

Definition demo_cfg : ConfigFile := MkConfigFile ":8443" "c" "k" 300 1000 ":9090" {["a.b" := "10.0.0.1:443"]}.
Definition demo_net : Net :=
  MkNet 0 Second (Ok demo_hello) (fun _ => Ok tt) (zlen demo_hello, None) [demo_round] []
    (fun _ => "").
Definition demo_world : World :=
  MkWorld (new_stats 0) 0 ∅ ∅ ∅ [] None "" [] false false None None.

Lemma HandleConnection_verdict_witness :
  let v := decide_connection (UC := ascii_only) demo_cfg demo_net in
  exists w', HandleConnection (UC := ascii_only) demo_cfg demo_net demo_world = (Ok tt, w') /\
    client_closed w' = true /\ up_closed w' = v_closes_up v || up_closed demo_world /\
    activeConns w' = activeConns demo_world /\ dialled w' = v_target v /\
    up_received w' = up_received demo_world ++ v_upstream demo_net (conn_timeout demo_cfg) v /\
    client_sent w' = client_sent demo_world +:+ v_downstream demo_net (conn_timeout demo_cfg) v /\
    totalRelays (stats w') = wrap64 (totalRelays (stats demo_world) + v_relays v) /\
    totalErrors (stats w') = wrap64 (totalErrors (stats demo_world) + v_errors v) /\
    errors w' = match v_label v with
                | Some l => count_up (errors demo_world) l 1
                | None => errors demo_world
                end.
Proof.
  apply (HandleConnection_verdict (UC := ascii_only) demo_cfg demo_net demo_world).
  - unfold counters_ok, in_int64; simpl. lia.
  - reflexivity.
Defined.

Lemma HandleConnection_authorized_witness :
  exists data host, peek demo_net = Ok data /\ host <> [] /\ sni_hello data host /\
    Hosts demo_cfg !! ToLower (H := ascii_only) (string_of_bytes host) = Some "10.0.0.1:443".
Proof.
  apply (HandleConnection_authorized (UC := ascii_only) demo_cfg demo_net demo_world
           (HandleConnection (UC := ascii_only) demo_cfg demo_net demo_world).2
           (HandleConnection (UC := ascii_only) demo_cfg demo_net demo_world).1).
  - reflexivity.
  - apply surjective_pairing.
  - vm_compute. reflexivity.
Defined.

(** ** The accept loop *)

Definition srv_inv (s : Server) : Prop :=
  0 <= sem s <= capacity s /\ sem s = running s /\ 0 <= released s /\
  wg s = running s + released s /\ (shutdown s = false -> listening s = true) /\
  (pc s = Finished true -> running s = 0 /\ released s = 0).

Definition final (p : loop_pc) : bool :=
  match p with Finished _ | Failed _ => true | _ => false end.

Lemma srv_inv_step s s' :
  srv_step s s' -> srv_inv s -> srv_inv s' /\ capacity s' = capacity s.
Proof.
  unfold srv_inv.
  destruct 1; simpl; intros (? & ? & ? & ? & Hl & Hfin); split_and!; try done; try lia; try congruence;
    try (intros _; lia); intros E; specialize (Hfin E); lia.
Qed.

Lemma reachable_inv cfg s : reachable cfg s -> srv_inv s /\ capacity s = MaxConns cfg.
Proof.
  intros (s0 & kp & s1 & Hnew & Hstart & Hrun).
  assert (srv_inv s1 /\ capacity s1 = MaxConns cfg) as H.
  { unfold NewServer in Hnew. destruct (Z.ltb_spec (MaxConns cfg) 0); [done|]. injection Hnew as <-.
    unfold Start, Reload in Hstart. destruct kp; [|done]. injection Hstart as <-.
    unfold srv_inv; simpl. split_and!; done || lia. }
  clear Hstart. induction Hrun as [|s1 s2 s3 Hs _ IH]; [done|]. apply IH.
  destruct H as [Hi Hc]. destruct (srv_inv_step _ _ Hs Hi) as [? E]. by rewrite E.
Qed.

(** In every state the server can reach, no more handlers run than
    [max_conns]; and when the drain ends without its timeout, none is left. *)
Theorem server_capacity (cfg : ConfigFile) (s : Server) :
  reachable cfg s ->
  0 <= running s <= MaxConns cfg /\ sem s = running s /\ wg s = running s + released s /\
  (pc s = Finished true -> running s = 0 /\ released s = 0).
Proof.
  intros [(? & ? & ? & ? & _ & ?) <-]%reachable_inv. split_and!; done || lia.
Qed.

(** What is left to do once the listener is closed. *)
Definition pending (s : Server) : Z :=
  3 * running s + 2 * released s +
  match pc s with AtHead | AtAccept => 2 | AtDrain => 1 | _ => 0 end.

Lemma closed_step s s' :
  srv_step s s' -> shutdown s = true -> listening s = false ->
  pending s' < pending s /\ shutdown s' = true /\ listening s' = false.
Proof.
  unfold pending. intros Hs Hsd Hl.
  destruct Hs as [s E|s E E'|s E E'|s E E'|s E|s E E'|s err E E'|s|s|s E|s E E'|s E|s E]; simpl in *;
    try congruence; try rewrite E; split_and!; try done; lia.
Qed.

(** C10: shutdown comes to an end: once [watchShutdown] has closed the listener,
    whatever the scheduler does only finitely many steps remain, no handler is
    started any more, and the server stops only with [Start] returned. *)
Theorem shutdown_terminates (cfg : ConfigFile) (s : Server) :
  reachable cfg s -> shutdown s = true -> listening s = false ->
  sn srv_step s /\
  forall s', rtc srv_step s s' ->
    running s' <= running s /\ (nf srv_step s' -> final (pc s') = true /\ running s' = 0).
Proof.
  intros Hreach Hsd Hl. apply reachable_inv in Hreach as [Hi _]. split.
  - remember (Z.to_nat (pending s)) as n eqn:En.
    revert s Hi Hsd Hl En. induction n as [n IH] using lt_wf_ind. intros s Hi Hsd Hl ->.
    constructor. intros s' Hs. destruct (closed_step _ _ Hs Hsd Hl) as (Hm & Hsd' & Hl').
    destruct (srv_inv_step _ _ Hs Hi) as [Hi' _].
    eapply IH; [|done..]. destruct Hi as (? & ? & ? & _), Hi' as (? & ? & ? & _).
    assert (0 <= pending s') by (unfold pending; destruct (pc s'); lia). lia.
  - intros s' Hrun. induction Hrun as [s|s s2 s' Hs Hrun IH].
    + split; [done|]. intros Hnf. destruct Hi as (? & ? & ? & _).
      assert (running s = 0) as Hr.
      { destruct (Z.eq_dec (running s) 0); [done|]. exfalso. apply Hnf. eexists.
        apply handler_returns. lia. }
      split; [|done]. destruct (pc s) eqn:E; try done; exfalso; apply Hnf; eexists.
      * by apply head_shutdown.
      * by apply accept_error_shutdown.
      * by apply drain_timeout.
    + destruct (closed_step _ _ Hs Hsd Hl) as (_ & Hsd' & Hl').
      destruct (srv_inv_step _ _ Hs Hi) as [Hi' _].
      destruct (IH Hi' Hsd' Hl') as [Hle Hnf]. split; [|done].
      assert (running s2 <= running s); [|lia].
      destruct Hs as [s E|s E E'|s E E'|s E E'|s E|s E E'|s err E E'|s|s|s E|s E E'|s E|s E];
        simpl; try lia; congruence.
Qed.

Definition demo_server : Server := MkServer 1000 0 0 0 0 false true 0 AtHead (Some "cert").

Lemma demo_server_reachable : reachable demo_cfg demo_server.
Proof.
  exists (MkServer 1000 0 0 0 0 false false 0 AtHead None), (Ok "cert"), demo_server.
  split_and!; [done|done|apply rtc_refl].
Qed.

Lemma demo_reach_step s s' : reachable demo_cfg s -> srv_step s s' -> reachable demo_cfg s'.
Proof. intros (s0 & kp & s1 & H1 & H2 & H3) Hs. exists s0, kp, s1. split_and!; [done..|by eapply rtc_r]. Qed.

Lemma server_capacity_witness :
  0 <= running (spawn demo_server) <= MaxConns demo_cfg /\
  sem (spawn demo_server) = running (spawn demo_server) /\
  wg (spawn demo_server) = running (spawn demo_server) + released (spawn demo_server) /\
  (pc (spawn demo_server) = Finished true ->
     running (spawn demo_server) = 0 /\ released (spawn demo_server) = 0).
Proof.
  apply (server_capacity demo_cfg).
  apply (demo_reach_step (at_pc demo_server AtAccept)).
  - apply (demo_reach_step demo_server); [exact demo_server_reachable|by apply head_accept].
  - change (spawn demo_server) with (spawn (at_pc demo_server AtAccept)).
    apply accept_conn; [done|done|simpl; lia].
Defined.

Definition closed_server : Server := set_listening (close_shutdown demo_server) false.

Lemma shutdown_terminates_witness :
  sn srv_step closed_server /\
  forall s', rtc srv_step closed_server s' ->
    running s' <= running closed_server /\
    (nf srv_step s' -> final (pc s') = true /\ running s' = 0).
Proof.
  apply (shutdown_terminates demo_cfg).
  - apply (demo_reach_step (close_shutdown demo_server)).
    + apply (demo_reach_step demo_server); [exact demo_server_reachable|by apply watch_close].
    + by apply watch_listener.
  - reflexivity.
  - reflexivity.
Defined.
