(* ===== verification/Accounts.v ===== *)
(** * The accounts behind the authenticated proxies

    The HTTP proxy and the SOCKS5 proxy share the user store, the bandwidth
    tracker (which may be absent, [nil]) and the shape of their metrics
    ([internal/httpproxy/metrics.go], [internal/socks5/metrics.go]). [Accounts]
    is that shared state; the functions here are the calls the two servers make
    on it, each with the readings of the clock it needs. *)
From S2P Require Import Prelude GoStrings GoFloat GoNet GoTime RateLimiter UserStore Tracker.
From S2P Require Import TrackerFacts.
Open Scope Z_scope.

(** The metrics of one server; [requests] is labelled by user and method (the
    SOCKS5 server, which counts connections, leaves the method empty). *)
Record Metrics := MkMetrics {
  requests : gmap (string * string) Z;
  bytes : gmap (string * string) Z;
  active : Z;
  auth_failures : gmap string Z;
  rate_limited : gmap string Z;
  proxy_errors : gmap string Z;
  durations : list Z
}.

Definition no_metrics : Metrics := MkMetrics ∅ ∅ 0 ∅ ∅ ∅ [].

Definition m_request (u meth : string) (m : Metrics) : Metrics :=
  MkMetrics (count_up m.(requests) (u, meth) 1) m.(bytes) m.(active) m.(auth_failures)
    m.(rate_limited) m.(proxy_errors) m.(durations).
Definition m_bytes (u direction : string) (n : Z) (m : Metrics) : Metrics :=
  MkMetrics m.(requests) (count_up m.(bytes) (u, direction) n) m.(active) m.(auth_failures)
    m.(rate_limited) m.(proxy_errors) m.(durations).
Definition m_active (n : Z) (m : Metrics) : Metrics :=
  MkMetrics m.(requests) m.(bytes) (m.(active) + n) m.(auth_failures)
    m.(rate_limited) m.(proxy_errors) m.(durations).
Definition m_auth_failure (k : string) (m : Metrics) : Metrics :=
  MkMetrics m.(requests) m.(bytes) m.(active) (count_up m.(auth_failures) k 1)
    m.(rate_limited) m.(proxy_errors) m.(durations).
Definition m_rate_limited (u : string) (m : Metrics) : Metrics :=
  MkMetrics m.(requests) m.(bytes) m.(active) m.(auth_failures)
    (count_up m.(rate_limited) u 1) m.(proxy_errors) m.(durations).
Definition m_error (k : string) (m : Metrics) : Metrics :=
  MkMetrics m.(requests) m.(bytes) m.(active) m.(auth_failures)
    m.(rate_limited) (count_up m.(proxy_errors) k 1) m.(durations).
Definition m_duration (d : Z) (m : Metrics) : Metrics :=
  MkMetrics m.(requests) m.(bytes) m.(active) m.(auth_failures)
    m.(rate_limited) m.(proxy_errors) (m.(durations) ++ [d]).

(** The readings of the clock in one session, and the outcomes of the writes of
    the usage file it may cause. *)
Record SessionClock {B : Type} := MkSessionClock {
  s_start : Z;
  s_check : Z;
  s_store : Z;
  s_rate : Z;
  s_expiry : Z;
  s_allowance : Readings;
  s_connlimit : Readings;
  s_increment : Readings;
  s_record : Readings;
  s_decrement : Readings;
  s_end : Z;
  w_allowance : WriteOutcome B;
  w_record : WriteOutcome B
}.
Arguments SessionClock : clear implicits.

Definition clock_at {B} (t : Z) : SessionClock B :=
  MkSessionClock B t t t t t (at_time t) (at_time t) (at_time t) (at_time t) (at_time t) t WriteOk WriteOk.

Section Accounts.
Context {F : Type} {GF : GoFloat F} {UC : Unicode} {AE : AuthEnv} {ZN : Zone} {UJ : UsageJSON}.

Record Accounts := MkAccounts {
  store : UserStore F;
  bandwidth : option World;
  metrics : Metrics
}.

Implicit Types a : Accounts.

Definition with_store a s : Accounts := MkAccounts s a.(bandwidth) a.(metrics).
Definition with_bandwidth a b : Accounts := MkAccounts a.(store) b a.(metrics).
Definition on_metrics (f : Metrics -> Metrics) a : Accounts :=
  MkAccounts a.(store) a.(bandwidth) (f a.(metrics)).

Definition validate (u p : string) (c : SessionClock json_bytes) a : option User * Accounts :=
  let '(user, s) := ValidateCredentials a.(store) u p c.(s_check) c.(s_store) in
  (user, with_store a s).

Definition check_rate (u : string) (c : SessionClock json_bytes) a : bool * Accounts :=
  let '(ok, s) := CheckRateLimit a.(store) u c.(s_rate) in (ok, with_store a s).

(** The calls on [s.Bandwidth], skipped when it is [nil]. *)
Definition check_allowance (u : string) (limitGB : Z) (c : SessionClock json_bytes) a
    : bool * Accounts :=
  match a.(bandwidth) with
  | None => (true, a)
  | Some w =>
      let '(ok, w) := CheckAllowance w u limitGB c.(s_allowance) c.(w_allowance) in
      (ok, with_bandwidth a (Some w))
  end.
Definition check_conn_limit (u : string) (maxConns : Z) (c : SessionClock json_bytes) a
    : bool * Accounts :=
  match a.(bandwidth) with
  | None => (true, a)
  | Some w =>
      let '(ok, w) := CheckConnLimit w u maxConns c.(s_connlimit) in
      (ok, with_bandwidth a (Some w))
  end.
Definition increment_conns (u : string) (c : SessionClock json_bytes) a : Accounts :=
  with_bandwidth a ((fun w => IncrementConns w u c.(s_increment)) <$> a.(bandwidth)).
Definition decrement_conns (u : string) (c : SessionClock json_bytes) a : Accounts :=
  with_bandwidth a ((fun w => DecrementConns w u c.(s_decrement)) <$> a.(bandwidth)).
Definition record_bytes (u : string) (up down : Z) (c : SessionClock json_bytes) a : Accounts :=
  with_bandwidth a
    ((fun w => RecordBytes w u up down c.(s_record) c.(w_record)) <$> a.(bandwidth)).

(** The limits a session must pass. *)
Definition within_limits (c : SessionClock json_bytes) (u : string) (user : option User)
    a : Prop :=
  let '(ok1, a1) := check_rate u c a in
  ok1 = true /\
  match user with
  | None => True
  | Some x =>
      CheckExpiry (store a1) u (s_expiry c) = true /\
      let '(ok2, a2) := check_allowance u (BandwidthLimitGB x) c a1 in
      ok2 = true /\ (check_conn_limit u (MaxConnections x) c a2).1 = true
  end.

Definition is_super (ip : string) a (user : option User) : Prop :=
  exists x, user = Some x /\ Role x = "super_admin" /\ IsSuperAdminIP (store a) ip <> None.

(** ** Open connections *)

(** The connections open for [v]. *)
Definition conns_of a (v : string) : Z :=
  match a.(bandwidth) with Some w => (usage_of (tracker w) v).2 | None => 0 end.

Lemma getOrCreate_conns t u now x t' v :
  getOrCreate t u now = (x, t') ->
  ActiveConns x = (usage_of t u).2 /\ (usage_of t' v).2 = (usage_of t v).2.
Proof.
  intros E. apply getOrCreate_counts in E as (Hx & _ & Hv).
  rewrite Hv, <- Hx. done.
Qed.

Lemma checkMonthlyReset_conns w c wr v :
  (usage_of (tracker (checkMonthlyReset w c wr)) v).2 = (usage_of (tracker w) v).2.
Proof.
  unfold checkMonthlyReset. case_match; [done|]. rewrite saveToDiskLocked_tracker.
  unfold usage_of; simpl. rewrite map_lookup_imap. by destruct (users (tracker w) !! v).
Qed.

Lemma validate_conns u p c a v : conns_of (validate u p c a).2 v = conns_of a v.
Proof. unfold validate. by destruct (ValidateCredentials _ _ _ _ _). Qed.

Lemma check_rate_conns u c a v : conns_of (check_rate u c a).2 v = conns_of a v.
Proof. unfold check_rate. by destruct (CheckRateLimit _ _ _). Qed.

Lemma check_allowance_conns u l c a v : conns_of (check_allowance u l c a).2 v = conns_of a v.
Proof.
  unfold check_allowance, conns_of. destruct (bandwidth a) as [w|] eqn:E; [|simpl; by rewrite E].
  unfold CheckAllowance. destruct (l <=? 0); [done|].
  destruct (getOrCreate _ _ _) as [x t'] eqn:Eg. simpl.
  rewrite (proj2 (getOrCreate_conns _ _ _ _ _ v Eg)). apply checkMonthlyReset_conns.
Qed.

Lemma check_conn_limit_conns u l c a v : conns_of (check_conn_limit u l c a).2 v = conns_of a v.
Proof.
  unfold check_conn_limit, conns_of. destruct (bandwidth a) as [w|] eqn:E; [|simpl; by rewrite E].
  unfold CheckConnLimit. destruct (l <=? 0); [done|].
  destruct (getOrCreate _ _ _) as [x t'] eqn:Eg. simpl.
  by rewrite (proj2 (getOrCreate_conns _ _ _ _ _ v Eg)).
Qed.

Lemma record_bytes_conns u up down c a v : conns_of (record_bytes u up down c a) v = conns_of a v.
Proof.
  unfold record_bytes, conns_of. cbn [bandwidth with_bandwidth].
  destruct (bandwidth a) as [w|]; [|done]. cbn [fmap option_fmap option_map]. unfold RecordBytes. rewrite <- (checkMonthlyReset_conns w (s_record c) (w_record c) v).
  generalize (checkMonthlyReset w (s_record c) (w_record c)). clear w. intros w.
  destruct (getOrCreate _ _ _) as [x t'] eqn:Eg.
  destruct (getOrCreate_conns _ _ _ _ _ v Eg) as [Hx Hv].
  cbn [tracker with_tracker]. rewrite usage_of_set.
  case_decide; subst; [exact Hx|exact Hv].
Qed.

Lemma increment_conns_conns u c a v w :
  bandwidth a = Some w -> 0 <= conns_of a u < 2^63 - 1 ->
  conns_of (increment_conns u c a) v = conns_of a v + (if decide (v = u) then 1 else 0).
Proof.
  unfold increment_conns, conns_of; simpl. intros ->; simpl. intros Hr.
  unfold IncrementConns. destruct (getOrCreate _ _ _) as [x t'] eqn:Eg. simpl.
  destruct (getOrCreate_conns _ _ _ _ _ v Eg) as [Hx Hv].
  rewrite usage_of_set. case_decide; subst; simpl; [|lia].
  rewrite Hx, wrap64_id; [done|unfold in_int64; lia].
Qed.

Lemma decrement_conns_conns u c a v w :
  bandwidth a = Some w -> 0 < conns_of a u < 2^63 ->
  conns_of (decrement_conns u c a) v = conns_of a v - (if decide (v = u) then 1 else 0).
Proof.
  unfold decrement_conns, conns_of; simpl. intros ->; simpl. intros Hr.
  unfold DecrementConns. destruct (getOrCreate _ _ _) as [x t'] eqn:Eg. simpl.
  destruct (getOrCreate_conns _ _ _ _ _ v Eg) as [Hx Hv].
  rewrite Hx, (proj2 (Z.ltb_lt 0 _)) by lia.
  rewrite usage_of_set. case_decide; subst; simpl; [|lia].
  rewrite wrap64_id; [done|unfold in_int64; lia].
Qed.

(** ** Accounts alike in their connections *)

Definition has_meter a : bool := match a.(bandwidth) with Some _ => true | None => false end.

Definition same_conns a b : Prop :=
  has_meter a = has_meter b /\ forall v, conns_of a v = conns_of b v.

#[export] Instance same_conns_equiv : Equivalence same_conns.
Proof.
  split; [by split|by intros a b [H1 H2]; split|].
  intros a b d [H1 H2] [H3 H4]. split; [congruence|]. intros v. by rewrite H2.
Qed.

Lemma validate_same u p c a : same_conns (validate u p c a).2 a.
Proof. split; [|apply validate_conns]. unfold validate. by destruct (ValidateCredentials _ _ _ _ _). Qed.
Lemma check_rate_same u c a : same_conns (check_rate u c a).2 a.
Proof. split; [|apply check_rate_conns]. unfold check_rate. by destruct (CheckRateLimit _ _ _). Qed.
Lemma check_allowance_same u l c a : same_conns (check_allowance u l c a).2 a.
Proof.
  split; [|apply check_allowance_conns]. unfold check_allowance, has_meter.
  destruct (bandwidth a) eqn:E; simpl; [|by rewrite E]. by destruct (CheckAllowance _ _ _ _ _).
Qed.
Lemma check_conn_limit_same u l c a : same_conns (check_conn_limit u l c a).2 a.
Proof.
  split; [|apply check_conn_limit_conns]. unfold check_conn_limit, has_meter.
  destruct (bandwidth a) eqn:E; simpl; [|by rewrite E]. by destruct (CheckConnLimit _ _ _ _).
Qed.
Lemma record_bytes_same u up down c a : same_conns (record_bytes u up down c a) a.
Proof.
  split; [|intros; apply record_bytes_conns]. unfold record_bytes, has_meter. cbn [bandwidth with_bandwidth].
  by destruct (bandwidth a).
Qed.
Lemma on_metrics_same f a : same_conns (on_metrics f a) a.
Proof. by split. Qed.

#[export] Instance increment_conns_proper u c : Proper (same_conns ==> same_conns) (increment_conns u c).
Proof.
  intros a b [H1 H2]. unfold same_conns, has_meter, increment_conns, conns_of in *.
  cbn [bandwidth with_bandwidth] in *.
  destruct (bandwidth a) as [wa|], (bandwidth b) as [wb|]; try done. split; [done|]. intros v.
  cbn [fmap option_fmap option_map]. unfold IncrementConns.
  destruct (getOrCreate (tracker wa) u _) as [x t] eqn:Ea, (getOrCreate (tracker wb) u _) as [y t'] eqn:Eb.
  cbn [tracker with_tracker]. rewrite !usage_of_set.
  destruct (getOrCreate_conns _ _ _ _ _ v Ea) as [Hx Hv], (getOrCreate_conns _ _ _ _ _ v Eb) as [Hy Hv'].
  case_decide; subst; simpl; [by rewrite Hx, Hy, H2|by rewrite Hv, Hv', H2].
Qed.

(** A session that counts its connection, does what leaves the connections
    alone, and gives it back. *)
Lemma conns_round_trip u c a b v :
  (forall x, 0 <= conns_of a x < 2^63 - 1) ->
  same_conns b (increment_conns u c a) ->
  conns_of (decrement_conns u c b) v = conns_of a v.
Proof.
  intros Hr [Hm Hb]. pose proof (Hr u). unfold has_meter in Hm.
  destruct (bandwidth a) as [w|] eqn:Ea.
  - destruct (bandwidth b) as [w'|] eqn:Ew; [|unfold increment_conns in Hm; simpl in Hm; by rewrite Ea in Hm].
    rewrite (decrement_conns_conns u c b v w' Ew); rewrite !Hb, (increment_conns_conns u c a _ w Ea (Hr u)).
    + case_decide; lia.
    + rewrite decide_True by done. lia.
  - destruct (bandwidth b) as [w'|] eqn:Ew; [unfold increment_conns in Hm; simpl in Hm; by rewrite Ea in Hm|].
    unfold decrement_conns, conns_of; simpl. by rewrite Ew, Ea.
Qed.
End Accounts.

Arguments Accounts F {UJ}.

(** ** Handlers over a state with accounts *)

(** The interface a session offers: it holds accounts. *)
Class HasAccounts (F S : Type) {UJ : UsageJSON} := {
  accounts : S -> Accounts F;
  put_accounts : Accounts F -> S -> S;
  accounts_put a s : accounts (put_accounts a s) = a
}.

Section Sessions.
Context {F : Type} {GF : GoFloat F} {UC : Unicode} {AE : AuthEnv} {ZN : Zone} {UJ : UsageJSON}.
Context {S : Type} {HA : HasAccounts F S}.

(** A call on the accounts. *)
Definition call {A} (f : Accounts F -> A * Accounts F) : GoM S A := fun s =>
  let '(x, a) := f (accounts s) in (Ok x, put_accounts a s).
Definition on_accounts (f : Accounts F -> Accounts F) : GoM S unit :=
  modify (fun s => put_accounts (f (accounts s)) s).
Definition count (f : Metrics -> Metrics) : GoM S unit := on_accounts (on_metrics f).

(** An observation that sees of the accounts at most the open connections. *)
Definition off_calls {O} (obs : S -> O) : Prop :=
  forall s a, same_conns a (accounts s) -> obs (put_accounts a s) = obs s.

Lemma keeps_call {O A} (obs : S -> O) (f : Accounts F -> A * Accounts F) :
  off_calls obs -> (forall a, same_conns (f a).2 a) -> keeps obs (call f).
Proof.
  intros Ho Hf s. unfold call. pose proof (Hf (accounts s)) as H.
  destruct (f (accounts s)) as [x a]. simpl in *. by apply Ho.
Qed.
Lemma keeps_on_accounts {O} (obs : S -> O) f :
  off_calls obs -> (forall a, same_conns (f a) a) -> keeps obs (on_accounts f).
Proof. intros Ho Hf s. apply Ho, Hf. Qed.
Lemma keeps_count {O} (obs : S -> O) f : off_calls obs -> keeps obs (count f).
Proof. intros Ho. apply keeps_on_accounts; [done|]. intros a. apply on_metrics_same. Qed.

(** The open connections of a user, as an observation. *)
Definition conns (v : string) (s : S) : bool * Z := (has_meter (accounts s), conns_of (accounts s) v).

Lemma conns_off_calls v : off_calls (conns v).
Proof. intros s a [H1 H2]. unfold conns. by rewrite accounts_put, H1, H2. Qed.

Lemma keeps_conns {A} (m : GoM S A) s :
  (forall v, keeps (conns v) m) -> same_conns (accounts (m s).2) (accounts s).
Proof.
  intros H. split; [|intros v]; [pose proof (H "" s) as E|pose proof (H v s) as E]; by injection E.
Qed.

(** A handler that may only change the connections of a well-counted state for
    as long as it runs. *)
Definition balanced {A} (m : GoM S A) : Prop := forall s,
  (forall u, 0 <= conns_of (accounts s) u < 2^63 - 1) ->
  forall v, conns v (m s).2 = conns v s.

Lemma balanced_keeps {A} (m : GoM S A) : (forall v, keeps (conns v) m) -> balanced m.
Proof. intros H s _ v. apply H. Qed.

Lemma balanced_bind {A B} (m : GoM S A) (f : A -> GoM S B) :
  balanced m -> (forall a, balanced (f a)) -> balanced (m ≫= f).
Proof.
  intros Hm Hf s Hr v. pose proof (Hm s Hr) as H. unfold mbind, GoM_bind.
  destruct (m s) as [[a|e] s1]; simpl in *; [|apply H]. rewrite Hf; [apply H|].
  intros u. specialize (H u). injection H as _ H. rewrite H. apply Hr.
Qed.

Lemma balanced_with_defer {A} (d : GoM S unit) (m : GoM S A) :
  balanced d -> balanced m -> balanced (with_defer d m).
Proof.
  intros Hd Hm s Hr v. pose proof (Hm s Hr) as H. unfold with_defer.
  destruct (m s) as [r s1]. simpl in *. rewrite Hd; [apply H|].
  intros u. specialize (H u). injection H as _ H. rewrite H. apply Hr.
Qed.

(** [IncrementConns], [defer DecrementConns], and a body in between. *)
Lemma balanced_counted {A} u c (m : GoM S A) :
  (forall v, keeps (conns v) m) ->
  balanced (_ ← on_accounts (increment_conns u c); with_defer (on_accounts (decrement_conns u c)) m).
Proof.
  intros Hm s Hr v. unfold mbind, GoM_bind, with_defer, on_accounts, modify. cbn [fst snd].
  pose proof (keeps_conns m (put_accounts (increment_conns u c (accounts s)) s) Hm) as H.
  destruct (m _) as [r s1]. cbn [fst snd] in *. rewrite accounts_put in H.
  unfold conns. rewrite accounts_put. f_equal; [|by apply conns_round_trip].
  destruct H as [H _]. revert H. unfold has_meter, increment_conns, decrement_conns.
  cbn [bandwidth with_bandwidth]. by destruct (bandwidth (accounts s1)), (bandwidth (accounts s)).
Qed.
End Sessions.

(** Decompose a handler into steps that keep an observation. *)
Ltac keep := repeat first
  [ apply keeps_ret | apply keeps_throw | apply keeps_gets
  | apply keeps_bind; [|intros ?]
  | apply keeps_with_defer | apply keeps_if | apply keeps_decide
  | solve [eauto with keeps nocore] | solve [apply keeps_modify; intros; reflexivity]
  | case_match ].

#[export] Hint Extern 2 (same_conns _ _) => first
  [ apply validate_same | apply check_rate_same | apply check_allowance_same
  | apply check_conn_limit_same | apply record_bytes_same | apply on_metrics_same ] : keeps.
#[export] Hint Resolve keeps_call keeps_on_accounts keeps_count conns_off_calls : keeps.
