(* ===== verification/Socks5.v ===== *)
(** * The SOCKS5 proxy ([internal/socks5/server.go])

    A session is a handler in the error monad: the bytes the client sends are the
    list [inp], the bytes it is sent the list [out]; an early [return] of the
    source is an error that carries the logged text. The accounts are those of
    [Accounts]; dialling and the two copies belong to [Net5]. *)
From S2P Require Import Prelude GoStrings GoFloat GoNet GoTime RateLimiter UserStore Tracker.
From S2P Require Import TrackerFacts Throttle Accounts Config.
Open Scope Z_scope.

Definition Version5 : byte := x05.
Definition MethodNoAuth : byte := x00.
Definition MethodUserPass : byte := x02.
Definition MethodNoAcceptable : byte := xff.
Definition UserPassVersion : byte := x01.
Definition CmdConnect : byte := x01.
Definition CmdBind : byte := x02.
Definition CmdUDP : byte := x03.
Definition AddrTypeIPv4 : byte := x01.
Definition AddrTypeDomain : byte := x03.
Definition AddrTypeIPv6 : byte := x04.
Definition ReplySucceeded : byte := x00.
Definition ReplyGeneralFailure : byte := x01.
Definition ReplyConnectionNotAllowed : byte := x02.
Definition ReplyNetworkUnreachable : byte := x03.
Definition ReplyHostUnreachable : byte := x04.
Definition ReplyConnectionRefused : byte := x05.
Definition ReplyTTLExpired : byte := x06.
Definition ReplyCmdNotSupported : byte := x07.
Definition ReplyAddrTypeNotSupported : byte := x08.

(** A [net.TCPAddr]. *)
Record TCPAddr := MkTCPAddr { a_ip : list byte; a_port : Z }.

Section Server.
Context {F : Type} {GF : GoFloat F} {UC : Unicode} {AE : AuthEnv} {ZN : Zone} {UJ : UsageJSON}.

Record Session := MkSession {
  s_accounts : Accounts F;
  inp : list byte;
  out : list byte;
  closed : bool;
  dialled : option string;
  target_closed : bool;
  throttled : option Z;     (* the speed of the throttled relay *)
  relayed : bool
}.

(** What the network does: the client's address, the answer to a dial (the
    local address), and the bytes each copy reports when the first one is
    done. *)
Record Net5 := MkNet5 {
  remote : string;
  dial : string -> result TCPAddr;
  copied : Z * Z
}.

Local Abbreviation M := (GoM Session).

Definition put_s_accounts (a : Accounts F) (s : Session) : Session :=
  MkSession a s.(inp) s.(out) s.(closed) s.(dialled) s.(target_closed) s.(throttled) s.(relayed).
Definition put_inp (i : list byte) (s : Session) : Session :=
  MkSession s.(s_accounts) i s.(out) s.(closed) s.(dialled) s.(target_closed) s.(throttled) s.(relayed).
Definition put_out (o : list byte) (s : Session) : Session :=
  MkSession s.(s_accounts) s.(inp) o s.(closed) s.(dialled) s.(target_closed) s.(throttled) s.(relayed).
Definition put_closed (s : Session) : Session :=
  MkSession s.(s_accounts) s.(inp) s.(out) true s.(dialled) s.(target_closed) s.(throttled) s.(relayed).
Definition put_dialled (t : string) (s : Session) : Session :=
  MkSession s.(s_accounts) s.(inp) s.(out) s.(closed) (Some t) s.(target_closed) s.(throttled)
    s.(relayed).
Definition put_target_closed (s : Session) : Session :=
  MkSession s.(s_accounts) s.(inp) s.(out) s.(closed) s.(dialled) true s.(throttled) s.(relayed).
Definition put_relay (speed : option Z) (s : Session) : Session :=
  MkSession s.(s_accounts) s.(inp) s.(out) s.(closed) s.(dialled) s.(target_closed) speed true.

#[export] Instance session_accounts : HasAccounts F Session :=
  {| accounts := s_accounts; put_accounts := put_s_accounts; accounts_put _ _ := eq_refl |}.

(** [conn.Write(bs)], its result ignored. *)
Definition send (bs : list byte) : M unit := modify (fun s => put_out (s.(out) ++ bs) s).

(** [io.ReadFull(conn, buf)] with [len(buf) = n]: what is missing at the end of
    the stream is an error, and what was there is consumed. *)
Definition ReadFull (n : nat) : M (list byte) := fun s =>
  if decide (n <= length s.(inp))%nat
  then (Ok (take n s.(inp)), put_inp (drop n s.(inp)) s)
  else (Err (if decide (s.(inp) = []) then "EOF" else "unexpected EOF"), put_inp [] s).

(** [buf[i]] of a buffer just filled. *)
Definition at_ (buf : list byte) (i : nat) : byte := nth i buf x00.

Definition sendReply (reply : byte) (addr : option TCPAddr) : M unit :=
  let ip := match addr with
            | Some a => match To4 a.(a_ip) with Some ip => ip | None => [x00; x00; x00; x00] end
            | None => [x00; x00; x00; x00]
            end in
  let port := match addr with Some a => be16_bytes (a.(a_port) mod 65536) | None => [x00; x00] end in
  send ([Version5; reply; x00; AddrTypeIPv4] ++ ip ++ port).

Definition authenticateUser (c : SessionClock json_bytes) : M string :=
  buf ← ReadFull 2;
  if decide (at_ buf 0 <> UserPassVersion) then throw "unsupported auth version" else
  username ← ReadFull (Z.to_nat (b2z (at_ buf 1)));
  buf ← ReadFull 1;
  password ← ReadFull (Z.to_nat (b2z (at_ buf 0)));
  user ← call (validate (string_of_bytes username) (string_of_bytes password) c);
  match user with
  | None =>
      _ ← send [UserPassVersion; x01];
      _ ← count (m_auth_failure "invalid_credentials");
      throw "authentication failed"
  | Some _ =>
      _ ← send [UserPassVersion; x00];
      mret (string_of_bytes username)
  end.

Definition handleMethodNegotiation (c : SessionClock json_bytes) : M string :=
  buf ← ReadFull 2;
  if decide (at_ buf 0 <> Version5) then throw "unsupported SOCKS version" else
  methods ← ReadFull (Z.to_nat (b2z (at_ buf 1)));
  let hasUserPass := existsb (fun m => bool_decide (m = MethodUserPass)) methods in
  if negb hasUserPass then
    _ ← send [Version5; MethodNoAcceptable];
    _ ← count (m_auth_failure "no_auth_method");
    throw "no acceptable auth method"
  else
    _ ← send [Version5; MethodUserPass];
    authenticateUser c.

(** Not called by the server. *)
Definition handleMethodNegotiationNoAuth : M string :=
  buf ← ReadFull 2;
  if decide (at_ buf 0 <> Version5) then throw "unsupported SOCKS version" else
  _ ← ReadFull (Z.to_nat (b2z (at_ buf 1)));
  _ ← send [Version5; MethodNoAuth];
  mret "".

(** The address field, [""] when its type is unknown. *)
Definition read_address (addrType : byte) : M string :=
  if decide (addrType = AddrTypeIPv4) then
    addr ← ReadFull 4; mret (IP_String addr)
  else if decide (addrType = AddrTypeDomain) then
    buf ← ReadFull 1;
    domain ← ReadFull (Z.to_nat (b2z (at_ buf 0)));
    mret (string_of_bytes domain)
  else if decide (addrType = AddrTypeIPv6) then
    addr ← ReadFull 16; mret (IP_String addr)
  else
    _ ← sendReply ReplyAddrTypeNotSupported None;
    throw "unsupported address type".

Definition handleRequest : M string :=
  buf ← ReadFull 4;
  if decide (at_ buf 0 <> Version5) then throw "unsupported version" else
  let cmd := at_ buf 1 in
  let addrType := at_ buf 3 in
  if decide (cmd <> CmdConnect) then
    _ ← sendReply ReplyCmdNotSupported None;
    throw "unsupported command"
  else
    host ← read_address addrType;
    portBuf ← ReadFull 2;
    mret (host +:+ ":" +:+ decimal (be16 (at_ portBuf 0) (at_ portBuf 1))).

(** The checks between authentication and the request. *)
Definition admission (net : Net5) (c : SessionClock json_bytes) (username : string) (user : option User)
    : M unit :=
  s ← gets accounts;
  let isSuperAdmin :=
    match user with
    | Some u => String.eqb (Role u) "super_admin" &&
                bool_decide (IsSuperAdminIP s.(store) net.(remote) <> None)
    | None => false
    end in
  if isSuperAdmin then mret tt else
  ok ← call (check_rate username c);
  if negb ok then
    _ ← count (m_rate_limited username); throw ("SOCKS5 rate limited: " +:+ username)
  else
    match user with
    | None => mret tt
    | Some u =>
        s ← gets accounts;
        if negb (CheckExpiry s.(store) username c.(s_expiry))
        then throw ("SOCKS5 account expired: " +:+ username) else
        ok ← call (check_allowance username u.(BandwidthLimitGB) c);
        if negb ok then throw ("SOCKS5 bandwidth exceeded: " +:+ username) else
        ok ← call (check_conn_limit username u.(MaxConnections) c);
        if negb ok then throw ("SOCKS5 connection limit reached: " +:+ username) else mret tt
    end.

(** From the request on, with the connection counted. *)
Definition serve (net : Net5) (c : SessionClock json_bytes) (username : string) (user : option User)
    : M unit :=
  targetAddr ← handleRequest;
  match net.(dial) targetAddr with
  | Err err =>
      _ ← sendReply ReplyHostUnreachable None;
      _ ← count (m_error "dial_failed");
      throw err
  | Ok localAddr =>
      _ ← modify (put_dialled targetAddr);
      with_defer (modify put_target_closed)
        (_ ← sendReply ReplySucceeded (Some localAddr);
         _ ← count (m_request username "");
         let speed := match user with
                      | Some u => if 0 <? u.(BandwidthSpeedMbps) then Some u.(BandwidthSpeedMbps) else None
                      | None => None
                      end in
         _ ← modify (put_relay speed);
         let '(upBytes, downBytes) := net.(copied) in
         _ ← count (m_bytes username "upstream" upBytes);
         _ ← count (m_bytes username "downstream" downBytes);
         _ ← count (m_duration (time_sub c.(s_end) c.(s_start)));
         on_accounts (record_bytes username upBytes downBytes c))
  end.

Definition handleConnection (net : Net5) (c : SessionClock json_bytes) : M unit :=
  with_defer (modify put_closed)
    (s ← gets accounts;
     if negb (CheckIPAllowed s.(store) net.(remote)) then
       _ ← count (m_auth_failure "ip_blocked"); throw ("SOCKS5 IP blocked: " +:+ net.(remote))
     else
       _ ← count (m_active 1);
       with_defer (count (m_active (-1)))
         (username ← handleMethodNegotiation c;
          s ← gets accounts;
          let user := GetUser s.(store) username in
          _ ← admission net c username user;
          _ ← on_accounts (increment_conns username c);
          with_defer (on_accounts (decrement_conns username c))
            (serve net c username user))).
End Server.

Arguments Session F {UJ}.
Arguments at_ _ _ /.
