(* ===== verification/Socks5Facts.v ===== *)
(** * What the SOCKS5 proxy guarantees

    The request parser against the wire format, authentication, that no session
    reaches a target without it, and that every session gives its connection
    back. *)
From S2P Require Import Prelude GoStrings GoFloat GoNet GoNetFacts GoTime RateLimiter UserStore.
From S2P Require Import Tracker TrackerFacts Throttle Accounts Config Socks5 UserStoreFacts.
Open Scope Z_scope.

Section Parsing.
Context {F : Type} {GF : GoFloat F} {UC : Unicode} {AE : AuthEnv} {ZN : Zone} {UJ : UsageJSON}.
Implicit Types s : Session F.

Lemma put_inp_inp s i j : put_inp i (put_inp j s) = put_inp i s.
Proof. done. Qed.
Lemma put_inp_self s i : inp s = i -> put_inp i s = s.
Proof. intros <-. by destruct s. Qed.

Lemma ReadFull_Ok n s l s' :
  ReadFull n s = (Ok l, s') <->
  exists rest, inp s = l ++ rest /\ length l = n /\ s' = put_inp rest s.
Proof.
  unfold ReadFull. case_decide as H; split.
  - intros [= <- <-]. exists (drop n (inp s)). rewrite take_drop, length_take. split_and!; done || lia.
  - intros (rest & E & <- & ->). rewrite E, take_app_length, drop_app_length. done.
  - done.
  - intros (rest & E & <- & _). rewrite E, length_app in H. lia.
Qed.

Lemma ReadFull_bind {A} n (f : list byte -> GoM (Session F) A) s l rest :
  inp s = l ++ rest -> length l = n -> (ReadFull n ≫= f) s = f l (put_inp rest s).
Proof. intros E Hn. apply GoM_bind_eq, ReadFull_Ok. by exists rest. Qed.

(** ** The wire format of a request *)

Inductive target :=
| IPv4 (a b c d : byte)
| IPv6 (addr : list byte)
| Domain (name : list byte).

Definition target_ok (t : target) : Prop :=
  match t with
  | IPv4 _ _ _ _ => True
  | IPv6 addr => length addr = 16%nat
  | Domain name => zlen name < 256
  end.

Definition encode_target (t : target) : list byte :=
  match t with
  | IPv4 a b c d => [x01; a; b; c; d]
  | IPv6 addr => x04 :: addr
  | Domain name => x03 :: z2b (zlen name) :: name
  end.

Definition show_target (t : target) : string :=
  match t with
  | IPv4 a b c d => v4_string a b c d
  | IPv6 addr => IP_String addr
  | Domain name => string_of_bytes name
  end.

Definition encode_request (rsv : byte) (t : target) (port : Z) : list byte :=
  [x05; x01; rsv] ++ encode_target t ++ be16_bytes port.

Definition show_request (t : target) (port : Z) : string :=
  show_target t +:+ ":" +:+ decimal port.

Lemma read_address_Ok addrType s host s' :
  read_address addrType s = (Ok host, s') <->
  exists t rest, addrType :: inp s = encode_target t ++ rest /\ target_ok t /\
    host = show_target t /\ s' = put_inp rest s.
Proof.
  unfold read_address. split.
  - case_decide as H1; [|case_decide as H2; [|case_decide as H3]].
    + intros (l & s1 & (rest & E & Hl & ->)%ReadFull_Ok & [= <- <-])%GoM_bind_Ok.
      destruct l as [|a [|b [|c [|d [|]]]]]; try done. rewrite E, H1.
      by exists (IPv4 a b c d), rest.
    + intros (l & s1 & (rest & E & Hl & ->)%ReadFull_Ok & H)%GoM_bind_Ok.
      apply GoM_bind_Ok in H as (name & s2 & (rest2 & E2 & Hn & ->)%ReadFull_Ok & [= <- <-]).
      destruct l as [|n [|]]; try done. unfold at_ in Hn. simpl in E2, Hn. subst rest. rewrite E, H2.
      pose proof (b2z_range n). exists (Domain name), rest2. simpl. split_and!; try done; [|lia].
      replace (zlen name) with (b2z n) by lia. by rewrite z2b_b2z.
    + intros (l & s1 & (rest & E & Hl & ->)%ReadFull_Ok & [= <- <-])%GoM_bind_Ok.
      rewrite E, H3. by exists (IPv6 l), rest.
    + intros (? & ? & _ & ?)%GoM_bind_Ok. done.
  - intros (t & rest & E & Hok & -> & ->). destruct t as [a b c d|addr|name]; simpl in E;
      injection E as -> E.
    + rewrite decide_True by done. by rewrite (ReadFull_bind _ _ _ [a; b; c; d] rest).
    + rewrite decide_False, decide_False, decide_True by done.
      by rewrite (ReadFull_bind _ _ _ addr rest).
    + rewrite decide_False, decide_True by done.
      rewrite (ReadFull_bind _ _ _ [z2b (zlen name)] (name ++ rest)) by done.
      rewrite (ReadFull_bind _ _ _ name rest); [done|done|]. simpl.
      simpl in Hok. rewrite b2z_z2b, Z.mod_small by lia. lia.
Qed.

Lemma handleRequest_Ok s (addr : string) s' :
  handleRequest s = (Ok addr, s') <->
  exists rsv t port rest, inp s = encode_request rsv t port ++ rest /\ target_ok t /\
    0 <= port < 65536 /\ addr = show_request t port /\ s' = put_inp rest s.
Proof.
  unfold handleRequest. split.
  - intros (buf & s1 & (rest & E & Hl & ->)%ReadFull_Ok & H)%GoM_bind_Ok.
    destruct buf as [|v [|cmd [|rsv [|at4 [|]]]]]; try done. simpl in H. revert H.
    case_decide as Hv; [done|]. case_decide as Hc; [by intros (? & ? & _ & ?)%GoM_bind_Ok|].
    subst v cmd.
    intros (host & s2 & (t & rest2 & E2 & Hok & -> & ->)%read_address_Ok & H)%GoM_bind_Ok.
    apply GoM_bind_Ok in H as (pb & s3 & (rest3 & E3 & Hp & ->)%ReadFull_Ok & [= <- <-]).
    destruct pb as [|p1 [|p2 [|]]]; try done. simpl in E2, E3. subst rest2.
    exists rsv, t, (be16 p1 p2), rest3. pose proof (be16_range p1 p2). split_and!; try done; try lia.
    rewrite E. unfold encode_request. simpl. do 3 f_equal. rewrite E2, <- app_assoc. f_equal.
    unfold be16_bytes. simpl. rewrite be16_add. pose proof (b2z_range p1). pose proof (b2z_range p2).
    f_equal; [|f_equal]; apply b2z_inj; rewrite b2z_z2b.
    + rewrite Z.shiftr_div_pow2 by lia. change (2^8) with 256.
      rewrite Z.mul_comm, Z.div_add_l by lia. rewrite Z.div_small by lia.
      rewrite Z.add_0_r, Z.mod_small by lia. done.
    + rewrite Z.mul_comm, Z.add_comm, Z.mod_add, Z.mod_small by lia. done.
  - intros (rsv & t & port & rest & E & Hok & Hp & -> & ->). unfold encode_request in E.
    assert (exists ty body, encode_target t = ty :: body) as (ty & body & Et) by (destruct t; eauto).
    rewrite Et in E. simpl in E.
    rewrite (ReadFull_bind _ _ _ [x05; x01; rsv; ty] (body ++ be16_bytes port ++ rest));
      [|by rewrite E, <- app_assoc|done].
    simpl.
    rewrite (GoM_bind_eq _ _ _ (show_target t) (put_inp (be16_bytes port ++ rest) s)).
    + rewrite (ReadFull_bind _ _ _ (be16_bytes port) rest) by done. simpl.
      by rewrite be16_be16_bytes.
    + apply read_address_Ok. exists t, (be16_bytes port ++ rest). simpl. by rewrite Et.
Qed.

(** C21: the request parser accepts exactly the CONNECT requests of RFC 1928:
    it returns an address just when the stream starts with the encoding of one,
    leaves the rest of the stream unread, and answers nothing itself. *)
Theorem handleRequest_spec s (addr : string) s' :
  handleRequest s = (Ok addr, s') <->
  exists rsv t port rest, inp s = encode_request rsv t port ++ rest /\ target_ok t /\
    0 <= port < 65536 /\ addr = show_request t port /\ s' = put_inp rest s.
Proof. apply handleRequest_Ok. Qed.
End Parsing.

Section Session.
Context {F : Type} {GF : GoFloat F} {UC : Unicode} {AE : AuthEnv} {ZN : Zone} {UJ : UsageJSON}.
Implicit Types s : Session F.

(** A request for an IPv6 target can never be served: the address is put
    together without brackets, and [net.Dial] must split it again. *)
Theorem ipv6_target_undialable s rsv (addr : list byte) (port : Z) (rest : list byte) :
  inp s = encode_request rsv (IPv6 addr) port ++ rest ->
  length addr = 16%nat -> To4 addr = None -> 0 <= port < 65536 ->
  exists hostport s', handleRequest s = (Ok hostport, s') /\
    SplitHostPort hostport = Err "too many colons in address".
Proof.
  intros E Hl H4 Hp. exists (show_request (IPv6 addr) port), (put_inp rest s).
  split; [|apply SplitHostPort_v6; [done|done|lia]].
  apply handleRequest_Ok. exists rsv, (IPv6 addr), port, rest. split_and!; done || lia.
Qed.

(** ** Authentication *)

(** What the client sends to authenticate (RFC 1928 and 1929). *)
Definition encode_auth (methods u p : list byte) : list byte :=
  [x05; z2b (zlen methods)] ++ methods ++ [x01; z2b (zlen u)] ++ u ++ [z2b (zlen p)] ++ p.

Definition auth_ok (methods u p : list byte) : Prop :=
  zlen methods < 256 /\ zlen u < 256 /\ zlen p < 256 /\ In MethodUserPass methods.

Lemma byte_length (l : list byte) : zlen l < 256 -> length l = Z.to_nat (b2z (z2b (zlen l))).
Proof. intros. rewrite b2z_z2b, Z.mod_small by lia. lia. Qed.

Lemma authenticateUser_step (c : SessionClock json_bytes) s (u p rest : list byte) :
  inp s = [x01; z2b (zlen u)] ++ u ++ [z2b (zlen p)] ++ p ++ rest ->
  zlen u < 256 -> zlen p < 256 ->
  authenticateUser c s =
    let '(user, a) := validate (string_of_bytes u) (string_of_bytes p) c (accounts s) in
    let s' := put_accounts a (put_inp rest s) in
    match user with
    | None => (Err "authentication failed",
               put_accounts (on_metrics (m_auth_failure "invalid_credentials") a)
                 (put_out (out s ++ [x01; x01]) s'))
    | Some _ => (Ok (string_of_bytes u), put_out (out s ++ [x01; x00]) s')
    end.
Proof.
  intros E Hu Hp. unfold authenticateUser.
  rewrite (ReadFull_bind _ _ _ [x01; z2b (zlen u)] (u ++ [z2b (zlen p)] ++ p ++ rest)) by done.
  cbn [at_ nth]. rewrite decide_False by (intros H; by apply H).
  rewrite (ReadFull_bind _ _ _ u ([z2b (zlen p)] ++ p ++ rest)) by (done || by apply byte_length).
  rewrite (ReadFull_bind _ _ _ [z2b (zlen p)] (p ++ rest)) by done.
  cbn [at_ nth].
  rewrite (ReadFull_bind _ _ _ p rest) by (done || by apply byte_length).
  unfold call, mbind, GoM_bind. cbn [accounts put_inp].
  destruct (validate _ _ _ _) as [[user|] a]; done.
Qed.

Lemma negotiation_step (c : SessionClock json_bytes) s (methods u p rest : list byte) :
  inp s = encode_auth methods u p ++ rest ->
  zlen methods < 256 -> zlen u < 256 -> zlen p < 256 -> In MethodUserPass methods ->
  handleMethodNegotiation c s =
    authenticateUser c (put_out (out s ++ [Version5; MethodUserPass])
      (put_inp ([x01; z2b (zlen u)] ++ u ++ [z2b (zlen p)] ++ p ++ rest) s)).
Proof.
  intros E Hm Hu Hp Hin. unfold encode_auth in E. rewrite <- !app_assoc in E.
  unfold handleMethodNegotiation.
  rewrite (ReadFull_bind _ _ _ [x05; z2b (zlen methods)]
    (methods ++ [x01; z2b (zlen u)] ++ u ++ [z2b (zlen p)] ++ p ++ rest)) by done.
  cbn [at_ nth]. rewrite decide_False by (intros H; by apply H).
  rewrite (ReadFull_bind _ _ _ methods ([x01; z2b (zlen u)] ++ u ++ [z2b (zlen p)] ++ p ++ rest))
    by (done || by apply byte_length).
  assert (existsb (fun m => bool_decide (m = MethodUserPass)) methods = true) as ->.
  { apply existsb_exists. exists MethodUserPass. split; [done|by apply bool_decide_eq_true_2]. }
  done.
Qed.

(** How the stream of a client may begin: it breaks off, or does not keep to the
    protocol, after what the proxy has [answered], with the error [e] and the bytes
    [rest] still unread; or it offers no method that the proxy takes; or it carries
    credentials. *)
Inductive stage :=
| Broken (answered : list byte) (e : string) (rest : list byte)
| NoMethod (rest : list byte)
| Credentials (u p rest : list byte).

(** The error of a read that lacks bytes: some have come, or none. *)
Definition eof (l : list byte) : string := if decide (l = []) then "EOF" else "unexpected EOF".
(** The length that a byte announces. *)
Definition len (n : byte) : nat := Z.to_nat (b2z n).

(** The message of RFC 1929, behind the answer [5 2]. *)
Inductive auth_message : list byte -> stage -> Prop :=
| am_short l : (length l < 2)%nat -> auth_message l (Broken [x05; x02] (eof l) [])
| am_version v n rest : v <> x01 -> auth_message (v :: n :: rest) (Broken [x05; x02] "unsupported auth version" rest)
| am_short_user n l : (length l < len n)%nat -> auth_message (x01 :: n :: l) (Broken [x05; x02] (eof l) [])
| am_no_password n u : length u = len n -> auth_message (x01 :: n :: u) (Broken [x05; x02] "EOF" [])
| am_short_password n u k l : length u = len n -> (length l < len k)%nat ->
    auth_message (x01 :: n :: u ++ k :: l) (Broken [x05; x02] (eof l) [])
| am_complete n u k p rest : length u = len n -> length p = len k ->
    auth_message (x01 :: n :: u ++ k :: p ++ rest) (Credentials u p rest).

(** The greeting of RFC 1928: version 5 and the methods the client offers; 2 is user
    name and password. *)
Inductive opening : list byte -> stage -> Prop :=
| op_short l : (length l < 2)%nat -> opening l (Broken [] (eof l) [])
| op_version v n rest : v <> x05 -> opening (v :: n :: rest) (Broken [] "unsupported SOCKS version" rest)
| op_short_methods n l : (length l < len n)%nat -> opening (x05 :: n :: l) (Broken [] (eof l) [])
| op_no_method n ms rest : length ms = len n -> ~ In x02 ms -> opening (x05 :: n :: ms ++ rest) (NoMethod rest)
| op_auth n ms l st : length ms = len n -> In x02 ms -> auth_message l st -> opening (x05 :: n :: ms ++ l) st.

Lemma split_block n (l : list byte) : (length l < n)%nat \/ exists a b, l = a ++ b /\ length a = n.
Proof.
  destruct (decide (length l < n)%nat); [by left|]. right. exists (take n l), (drop n l).
  rewrite take_drop. split; [done|]. rewrite length_take. lia.
Qed.

Lemma auth_message_total l : exists st, auth_message l st.
Proof.
  destruct l as [|v [|n l]]; try by (eexists; apply am_short; simpl; lia).
  destruct (decide (v = x01)) as [->|]; [|by eexists; apply am_version].
  destruct (split_block (len n) l) as [|(u & [|k l'] & -> & Hu)]; [by eexists; apply am_short_user| |].
  - rewrite app_nil_r. by eexists; apply am_no_password.
  - destruct (split_block (len k) l') as [|(p & rest & -> & Hp)]; eexists;
      [by apply am_short_password|by apply am_complete].
Qed.

Lemma opening_total l : exists st, opening l st.
Proof.
  destruct l as [|v [|n l]]; try by (eexists; apply op_short; simpl; lia).
  destruct (decide (v = x05)) as [->|]; [|by eexists; apply op_version].
  destruct (split_block (len n) l) as [|(ms & l' & -> & Hm)]; [by eexists; apply op_short_methods|].
  destruct (in_dec byte_eq_dec x02 ms); [|by eexists; apply op_no_method].
  destruct (auth_message_total l') as [st Hst]. exists st. by apply op_auth.
Qed.

(** What the proxy makes of it: the answer, the error, the account, what it counts. *)
Definition negotiated (c : SessionClock json_bytes) (st : stage) s : result string * Session F :=
  match st with
  | Broken answered e rest => (Err e, put_out (out s ++ answered) (put_inp rest s))
  | NoMethod rest =>
      (Err "no acceptable auth method",
       put_accounts (on_metrics (m_auth_failure "no_auth_method") (accounts s))
         (put_out (out s ++ [x05; xff]) (put_inp rest s)))
  | Credentials u p rest =>
      let '(user, a) := validate (string_of_bytes u) (string_of_bytes p) c (accounts s) in
      match user with
      | Some _ => (Ok (string_of_bytes u),
                   put_accounts a (put_out (out s ++ [x05; x02; x01; x00]) (put_inp rest s)))
      | None => (Err "authentication failed",
                 put_accounts (on_metrics (m_auth_failure "invalid_credentials") a)
                   (put_out (out s ++ [x05; x02; x01; x01]) (put_inp rest s)))
      end
  end.

Lemma ReadFull_short {A} n (f : list byte -> GoM (Session F) A) s :
  (length (inp s) < n)%nat -> (ReadFull n ≫= f) s = (Err (eof (inp s)), put_inp [] s).
Proof. intros Hn. unfold mbind, GoM_bind, ReadFull. by rewrite decide_False by lia. Qed.

Lemma authenticateUser_stage c s l st :
  auth_message l st ->
  authenticateUser c (put_out (out s ++ [x05; x02]) (put_inp l s)) = negotiated c st s.
Proof.
  intros Hl. set (s1 := put_out _ _). assert (inp s1 = l) as E by done. unfold authenticateUser.
  destruct Hl as [l Hn|v n rest Hv|n l Hn|n u Hu|n u k l Hu Hk|n u k p rest Hu Hp].
  - rewrite ReadFull_short by done. by rewrite E.
  - rewrite (ReadFull_bind _ _ _ [v; n] rest) by done. cbn [at_ nth]. by rewrite decide_True.
  - rewrite (ReadFull_bind _ _ _ [x01; n] l) by done. cbn [at_ nth].
    rewrite decide_False by (intros H; by apply H). by rewrite ReadFull_short.
  - rewrite (ReadFull_bind _ _ _ [x01; n] u) by done. cbn [at_ nth].
    rewrite decide_False by (intros H; by apply H).
    rewrite (ReadFull_bind _ _ _ u []) by (done || by rewrite app_nil_r). by rewrite ReadFull_short by (simpl; lia).
  - rewrite (ReadFull_bind _ _ _ [x01; n] (u ++ k :: l)) by done. cbn [at_ nth].
    rewrite decide_False by (intros H; by apply H).
    rewrite (ReadFull_bind _ _ _ u (k :: l)) by done. rewrite (ReadFull_bind _ _ _ [k] l) by done.
    cbn [at_ nth]. by rewrite ReadFull_short.
  - rewrite (ReadFull_bind _ _ _ [x01; n] (u ++ k :: p ++ rest)) by done. cbn [at_ nth].
    rewrite decide_False by (intros H; by apply H).
    rewrite (ReadFull_bind _ _ _ u (k :: p ++ rest)) by done.
    rewrite (ReadFull_bind _ _ _ [k] (p ++ rest)) by done.
    cbn [at_ nth]. rewrite (ReadFull_bind _ _ _ p rest) by done. unfold negotiated, call, mbind, GoM_bind.
    change (accounts (put_inp rest _)) with (accounts s). destruct (validate _ _ _ _) as [[x|] a]; simpl;
      unfold count, on_accounts, modify, throw; simpl; by rewrite <- app_assoc.
Qed.

(** C22: Negotiation on the wire, for every stream of bytes: it begins in one of the ways
    of the grammar, and in each of them the proxy answers as RFC 1928 and RFC 1929 say. A
    client that offers user name and password is answered [5 2], any other [5 255]; its
    credentials, the lengths being as announced, are answered [1 0] if the store accepts
    them, and let it in under the name it typed, and [1 1] otherwise. Another version, in
    either message, and a stream that breaks off end the session with nothing more said.
    Exactly the messages are read. *)
Theorem handleMethodNegotiation_spec (c : SessionClock json_bytes) s :
  (exists st, opening (inp s) st) /\
  forall st, opening (inp s) st -> handleMethodNegotiation c s = negotiated c st s.
Proof.
  split; [apply opening_total|]. intros st Ho. unfold handleMethodNegotiation.
  remember (inp s) as i eqn:E. symmetry in E.
  destruct Ho as [l Hn|v n rest Hv|n l Hn|n ms rest Hm Hin|n ms l st Hm Hin Ha].
  - rewrite ReadFull_short by (by rewrite E). simpl. rewrite E, app_nil_r. by destruct s.
  - rewrite (ReadFull_bind _ _ _ [v; n] rest) by done. cbn [at_ nth]. rewrite decide_True by done.
    simpl. rewrite app_nil_r. by destruct s.
  - rewrite (ReadFull_bind _ _ _ [x05; n] l) by done. cbn [at_ nth].
    rewrite decide_False by (intros H; by apply H). rewrite ReadFull_short by done.
    simpl. rewrite app_nil_r. by destruct s.
  - rewrite (ReadFull_bind _ _ _ [x05; n] (ms ++ rest)) by done. cbn [at_ nth].
    rewrite decide_False by (intros H; by apply H). rewrite (ReadFull_bind _ _ _ ms rest) by done.
    destruct (existsb _ ms) eqn:Ex; [|done]. apply existsb_exists in Ex as (x & Hx & ->%bool_decide_eq_true). done.
  - rewrite (ReadFull_bind _ _ _ [x05; n] (ms ++ l)) by done. cbn [at_ nth].
    rewrite decide_False by (intros H; by apply H). rewrite (ReadFull_bind _ _ _ ms l) by done.
    assert (existsb (fun m => bool_decide (m = MethodUserPass)) ms = true) as ->.
    { apply existsb_exists. exists MethodUserPass. split; [done|by apply bool_decide_eq_true_2]. }
    cbn [negb]. rewrite <- (authenticateUser_stage c s l st Ha). by destruct s.
Qed.
End Session.

(** ** What the stages leave alone *)

Section Frames.
Context {F : Type} {GF : GoFloat F} {UC : Unicode} {AE : AuthEnv} {ZN : Zone} {UJ : UsageJSON}.
Implicit Types s : Session F.

(** An observation that reading and answering leave alone. *)
Definition off_stream {O} (obs : Session F -> O) : Prop :=
  (forall s i, obs (put_inp i s) = obs s) /\ (forall s o, obs (put_out o s) = obs s).

Lemma keeps_ReadFull {O} (obs : Session F -> O) n : off_stream obs -> keeps obs (ReadFull n).
Proof. intros Ho s. unfold ReadFull. case_decide; apply Ho. Qed.
Lemma keeps_send {O} (obs : Session F -> O) bs : off_stream obs -> keeps obs (send bs).
Proof. intros Ho s. apply Ho. Qed.
Lemma keeps_sendReply {O} (obs : Session F -> O) r a : off_stream obs -> keeps obs (sendReply r a).
Proof. apply keeps_send. Qed.

Hint Resolve keeps_ReadFull keeps_send keeps_sendReply : keeps.

Lemma keeps_handleMethodNegotiation {O} (obs : Session F -> O) c :
  off_stream obs -> off_calls obs -> keeps obs (handleMethodNegotiation c).
Proof. intros. unfold handleMethodNegotiation, authenticateUser. keep. Qed.

Lemma keeps_admission {O} (obs : Session F -> O) net c u user :
  off_calls obs -> keeps obs (admission net c u user).
Proof. intros. unfold admission. keep. Qed.

Lemma keeps_handleRequest {O} (obs : Session F -> O) : off_stream obs -> keeps obs handleRequest.
Proof. intros. unfold handleRequest, read_address. keep. Qed.

Lemma conns_off_stream v : off_stream (conns (F := F) v).
Proof. done. Qed.
Hint Resolve conns_off_stream keeps_handleMethodNegotiation keeps_admission keeps_handleRequest : keeps.

Lemma keeps_serve net c u user v : keeps (conns (F := F) v) (serve net c u user).
Proof. unfold serve. keep. Qed.

Lemma dialled_off_stream : off_stream (@dialled F UJ).
Proof. done. Qed.
Lemma dialled_off_calls : off_calls (@dialled F UJ).
Proof. done. Qed.
End Frames.

#[export] Hint Resolve keeps_ReadFull keeps_send keeps_sendReply conns_off_stream
  keeps_handleMethodNegotiation keeps_admission keeps_handleRequest keeps_serve : keeps.

Section Safety.
Context {F : Type} {GF : GoFloat F} {UC : Unicode} {AE : AuthEnv} {ZN : Zone} {UJ : UsageJSON}.
Implicit Types s : Session F.

(** A length byte and the field it announces. *)
Lemma counted_field (n : byte) (l : list byte) :
  length l = Z.to_nat (b2z n) -> n = z2b (zlen l) /\ zlen l < 256.
Proof. intros H. pose proof (b2z_range n). split; [rewrite <- (z2b_b2z n); f_equal|]; lia. Qed.

Lemma authenticateUser_Ok c s name s' :
  authenticateUser c s = (Ok name, s') ->
  exists u p rest user, inp s = [x01; z2b (zlen u)] ++ u ++ [z2b (zlen p)] ++ p ++ rest /\
    zlen u < 256 /\ zlen p < 256 /\ name = string_of_bytes u /\
    ValidateCredentials (store (accounts s)) name (string_of_bytes p) (s_check c) (s_store c)
      = (Some user, store (accounts s')) /\
    bandwidth (accounts s') = bandwidth (accounts s).
Proof.
  unfold authenticateUser.
  intros (b2 & s4 & (r3 & E3 & L3 & ->)%ReadFull_Ok & H)%GoM_bind_Ok.
  destruct b2 as [|v [|n [|]]]; try done. cbn [at_ nth] in H. case_decide as Hv; [done|].
  apply GoM_bind_Ok in H as (un & s5 & (r4 & E4 & L4 & ->)%ReadFull_Ok & H).
  apply GoM_bind_Ok in H as (b3 & s6 & (r5 & E5 & L5 & ->)%ReadFull_Ok & H).
  destruct b3 as [|k [|]]; try done. cbn [at_ nth] in H.
  apply GoM_bind_Ok in H as (pw & s7 & (r6 & E6 & L6 & ->)%ReadFull_Ok & H).
  apply GoM_bind_Ok in H as ([user|] & s8 & Hc & H); [|done].
  injection H as <- <-. simpl in E4, E5, E6. subst r3 r4 r5.
  apply counted_field in L4 as [-> L4], L6 as [-> L6].
  unfold call, validate in Hc. destruct (ValidateCredentials _ _ _ _ _) as [x st] eqn:Ev.
  injection Hc as -> <-. exists un, pw, r6, user. split_and!; try done.
  rewrite E3. by destruct (decide (v = UserPassVersion)) as [->|]; [|destruct Hv].
Qed.

(** Who gets through the negotiation has sent credentials that the store accepts. *)
Lemma negotiation_Ok c s name s' :
  handleMethodNegotiation c s = (Ok name, s') ->
  exists methods u p rest user, inp s = encode_auth methods u p ++ rest /\ auth_ok methods u p /\
    name = string_of_bytes u /\
    ValidateCredentials (store (accounts s)) name (string_of_bytes p) (s_check c) (s_store c)
      = (Some user, store (accounts s')) /\
    bandwidth (accounts s') = bandwidth (accounts s).
Proof.
  unfold handleMethodNegotiation.
  intros (buf & s1 & (r1 & E1 & L1 & ->)%ReadFull_Ok & H)%GoM_bind_Ok.
  destruct buf as [|v [|n [|]]]; try done. cbn [at_ nth] in H. case_decide as Hv; [done|].
  apply GoM_bind_Ok in H as (ms & s2 & (r2 & E2 & L2 & ->)%ReadFull_Ok & H).
  destruct (existsb _ ms) eqn:Hms; simpl in H; [|done]. simpl in E2. subst r1.
  apply counted_field in L2 as [-> L2].
  apply GoM_bind_Ok in H as ([] & s3 & [= <-] & H).
  apply authenticateUser_Ok in H as (u & p & rest & user & E3 & Lu & Lp & Hu & Hval & Hb). simpl in E3. subst r2.
  exists ms, u, p, rest, user. split_and!; try done.
  - unfold encode_auth. rewrite E1, <- !app_assoc.
    by destruct (decide (v = Version5)) as [->|]; [|destruct Hv].
  - apply existsb_exists in Hms as (b & Hin & Hb2). by apply bool_decide_eq_true in Hb2 as ->.
Qed.

Lemma admission_Ok net c u user s s' :
  admission net c u user s = (Ok tt, s') ->
  is_super (remote net) (accounts s) user \/ within_limits c u user (accounts s).
Proof.
  unfold admission. intros H. apply GoM_bind_Ok in H as (a & s1 & [= <- <-] & H).
  match type of H with (if ?b then _ else _) _ = _ => destruct b eqn:Esup end.
  { left. destruct user as [x|]; [|done]. apply andb_true_iff in Esup as [Hr Hi].
    apply String.eqb_eq in Hr. apply bool_decide_eq_true in Hi. by exists x. }
  right. apply GoM_bind_Ok in H as (ok1 & s2 & Hc & H).
  unfold call in Hc. unfold within_limits.
  destruct (check_rate u c (accounts s)) as [ok a1]. injection Hc as <- <-.
  destruct ok; simpl in H; [|done]. split; [done|]. destruct user as [x|]; [|done].
  apply GoM_bind_Ok in H as (a & s3 & [= <- <-] & H). cbn [accounts put_accounts] in *.
  destruct (CheckExpiry (store a1) u (s_expiry c)); simpl in H; [|done]. split; [done|].
  apply GoM_bind_Ok in H as (ok2 & s4 & Hc & H). unfold call in Hc. simpl in Hc.
  destruct (check_allowance u (BandwidthLimitGB x) c a1) as [ok a2]. injection Hc as <- <-.
  destruct ok; simpl in H; [|done]. split; [done|].
  apply GoM_bind_Ok in H as (ok3 & s5 & Hc & H). unfold call in Hc. simpl in Hc.
  destruct (check_conn_limit u (MaxConnections x) c a2) as [ok a3]. injection Hc as <- <-.
  by destruct ok.
Qed.

Lemma handleConnection_admitted (net : Net5) (c : SessionClock json_bytes) s s' r t :
  dialled s = None -> handleConnection net c s = (r, s') -> dialled s' = Some t ->
  CheckIPAllowed (store (accounts s)) (remote net) = true /\
  exists methods u p rest user a, inp s = encode_auth methods u p ++ rest /\ auth_ok methods u p /\
    let name := string_of_bytes u in
    ValidateCredentials (store (accounts s)) name (string_of_bytes p) (s_check c) (s_store c)
      = (Some user, store a) /\
    bandwidth a = bandwidth (accounts s) /\
    let who := GetUser (store a) name in is_super (remote net) a who \/ within_limits c name who a.
Proof.
  intros Hd H Ht. apply with_defer_inv in H as (s1 & H & ->). simpl in Ht.
  apply GoM_bind_inv in H as [(a0 & s0 & [= <- <-] & H)|(e & [=] & _)].
  change (s_accounts s) with (accounts s) in H.
  destruct (CheckIPAllowed (store (accounts s)) (remote net)); simpl in H.
  2: { injection H as _ <-. simpl in Ht. congruence. }
  split; [done|].
  apply GoM_bind_inv in H as [([] & s2 & [= <-] & H)|(e & [=] & _)].
  apply with_defer_inv in H as (s3 & H & ->). simpl in Ht.
  set (s0 := put_s_accounts _ s) in H.
  pose proof (keeps_handleMethodNegotiation dialled c dialled_off_stream dialled_off_calls s0) as Hk.
  apply GoM_bind_inv in H as [(u & s4 & En & H)|(e & En & _)]; rewrite En in Hk; simpl in Hk; [|congruence].
  destruct (negotiation_Ok _ _ _ _ En) as (ms & un & p & rest & user & Hinp & Hin & -> & Hv & Hb).
  exists ms, un, p, rest, user, (accounts s4). split_and!; [done..|]. cbn zeta.
  apply GoM_bind_inv in H as [(a1 & s5 & [= <- <-] & H)|(e & [=] & _)].
  pose proof (keeps_admission dialled net c (string_of_bytes un) (GetUser (store (accounts s4)) (string_of_bytes un)) dialled_off_calls s4) as Hk2.
  apply GoM_bind_inv in H as [([] & s6 & Ea & _)|(e & Ea & _)]; [by apply admission_Ok in Ea|].
  change (s_accounts s4) with (accounts s4) in Ea. rewrite Ea in Hk2. simpl in Hk2. congruence.
Qed.

(** C4: no session reaches a target unless the client's address is allowed, its
    stream opens with credentials that the store accepts, and it is a super admin on
    a registered address or within every limit of the account: rate, expiry, monthly
    volume and number of connections. *)
Theorem handleConnection_authenticated (net : Net5) (c : SessionClock json_bytes) s s' r t :
  dialled s = None -> handleConnection net c s = (r, s') -> dialled s' = Some t ->
  CheckIPAllowed (store (accounts s)) (remote net) = true /\
  exists methods u p rest user a, inp s = encode_auth methods u p ++ rest /\ auth_ok methods u p /\
    let name := string_of_bytes u in
    ValidateCredentials (store (accounts s)) name (string_of_bytes p) (s_check c) (s_store c)
      = (Some user, store a) /\
    bandwidth a = bandwidth (accounts s) /\
    let who := GetUser (store a) name in is_super (remote net) a who \/ within_limits c name who a.
Proof. apply handleConnection_admitted. Qed.

(** C25: A SOCKS5 session gives back what it took: on every path, errors and
    refusals included, the connections counted for each user are afterwards
    what they were before. *)
Theorem handleConnection_conns (net : Net5) (c : SessionClock json_bytes) s v :
  (forall u, 0 <= conns_of (accounts s) u < 2^63 - 1) ->
  conns_of (accounts (handleConnection net c s).2) v = conns_of (accounts s) v.
Proof.
  intros Hrange. assert (balanced (handleConnection net c)) as H.
  { unfold handleConnection. apply balanced_with_defer; [apply balanced_keeps; intros; keep|].
    apply balanced_bind; [apply balanced_keeps; intros; keep|intros a0].
    destruct (negb _); [apply balanced_keeps; intros; keep|].
    apply balanced_bind; [apply balanced_keeps; intros; keep|intros []].
    apply balanced_with_defer; [apply balanced_keeps; intros; keep|].
    apply balanced_bind; [apply balanced_keeps; intros; keep|intros u].
    apply balanced_bind; [apply balanced_keeps; intros; keep|intros a1].
    apply balanced_bind; [apply balanced_keeps; intros; keep|intros []].
    apply balanced_counted. intros. keep. }
  exact (f_equal snd (H s Hrange v)).
Qed.
End Safety.

(** ** A concrete session *)

#[local] Existing Instance demo_env.

Definition demo_accounts : Accounts Q := MkAccounts demo_store (Some fresh_world) no_metrics.
Definition secret : list byte := bytes_of_string "secret".
Definition demo_stream : list byte :=
  encode_auth [x00; x02] (bytes_of_string "Bob") secret ++
  encode_request x00 (Domain (bytes_of_string "example.org")) 443.
Definition demo_session (stream : list byte) : Session Q :=
  MkSession demo_accounts stream [] false None false None false.
Definition demo_net5 : Net5 :=
  MkNet5 "10.1.2.3:4711" (fun _ => Ok (MkTCPAddr [x0a; x00; x00; x01] 1080)) (100, 2000).
Definition demo_clock5 : SessionClock (@json_bytes plain_json) := clock_at 0.

Definition v6_addr : list byte := [x20; x01; x0d; xb8] ++ replicate 11 x00 ++ [x01].

Lemma handleRequest_v6_string :
  fst (handleRequest (demo_session (encode_request x00 (IPv6 v6_addr) 443))) = Ok "2001:db8::1:443".
Proof. vm_compute. reflexivity. Qed.

Lemma ipv6_target_undialable_witness :
  exists hostport s', handleRequest (demo_session (encode_request x00 (IPv6 v6_addr) 443 ++ [])) = (Ok hostport, s') /\
    SplitHostPort hostport = Err "too many colons in address".
Proof.
  apply (ipv6_target_undialable (demo_session (encode_request x00 (IPv6 v6_addr) 443 ++ []))
           x00 v6_addr 443 []); [reflexivity|reflexivity|reflexivity|lia].
Defined.

(** A client that offers no method but that without authentication. *)
Lemma handleMethodNegotiation_spec_witness :
  handleMethodNegotiation demo_clock5 (demo_session [x05; x01; x00; x05]) =
    negotiated demo_clock5 (NoMethod [x05]) (demo_session [x05; x01; x00; x05]).
Proof.
  apply (handleMethodNegotiation_spec demo_clock5 (demo_session [x05; x01; x00; x05])).
  apply (op_no_method x01 [x00] [x05]); [reflexivity|]. intros [H|[]]. discriminate H.
Defined.

#[local] Abbreviation demo_run := (handleConnection demo_net5 demo_clock5 (demo_session demo_stream)).

Lemma handleConnection_authenticated_witness :
  CheckIPAllowed demo_store "10.1.2.3:4711" = true /\
  exists methods u p rest user (a : Accounts Q),
    demo_stream = encode_auth methods u p ++ rest /\ auth_ok methods u p /\
    let name := string_of_bytes u in
    ValidateCredentials demo_store name (string_of_bytes p) (s_check demo_clock5) (s_store demo_clock5)
      = (Some user, store a) /\
    bandwidth a = Some fresh_world /\
    let who := GetUser (store a) name in is_super (remote demo_net5) a who \/ within_limits demo_clock5 name who a.
Proof.
  apply (handleConnection_authenticated demo_net5 demo_clock5 (demo_session demo_stream)
           demo_run.2 demo_run.1 "example.org:443");
    [reflexivity|apply surjective_pairing|vm_compute; reflexivity].
Defined.

Lemma handleConnection_conns_witness :
  conns_of (accounts demo_run.2) "Bob" = conns_of demo_accounts "Bob".
Proof.
  apply (handleConnection_conns demo_net5 demo_clock5 (demo_session demo_stream) "Bob").
  intros u. change (0 <= 0 < 2^63 - 1). lia.
Defined.

(** The whole session on the wire. *)
Example demo_run_wire :
  out demo_run.2 = [x05; x02; x01; x00; x05; x00; x00; x01; x0a; x00; x00; x01; x04; x38] /\
  dialled demo_run.2 = Some "example.org:443" /\ closed demo_run.2 = true /\
  (usage_of (tracker (default fresh_world (bandwidth (accounts demo_run.2)))) "Bob") = (100, 2000, 2100, 0).
Proof. vm_compute. auto. Qed.
