(* ===== verification/Pac.v ===== *)
(** * The PAC endpoint ([internal/pac/pac.go])

    [ServeHTTP] answers with a proxy auto-configuration script. Its own limiter
    counts requests per client address in windows of a minute. The handler works
    on its maps and on the user store it shares with the proxies, and writes to
    any [ResponseWriter]. [GenerateToken] takes the random bytes as an argument. *)
From S2P Require Import Prelude GoStrings GoFloat GoNet GoNetFacts GoTime GoHttp RateLimiter.
From S2P Require Import UserStore UserStoreFacts.
Open Scope Z_scope.

Record Config := MkConfig {
  Enabled : bool;
  ProxyHost : string;
  HTTPPort : string;
  SOCKS5Port : string;
  Token : string;
  DefaultUser : string;
  RateLimitRPM : Z
}.

Record Handler := MkHandler {
  config : Config;
  rateTokens : gmap string Z;
  rateWindow : gmap string Z
}.

Definition NewHandler (cfg : Config) : Handler := MkHandler cfg ∅ ∅.

Definition checkRateLimit (h : Handler) (clientIP : string) (now : Z) : bool * Handler :=
  let fresh := (true, MkHandler h.(config) (<[clientIP := 1]> h.(rateTokens))
                        (<[clientIP := now]> h.(rateWindow))) in
  match h.(rateWindow) !! clientIP with
  | None => fresh
  | Some windowStart =>
      if Minute <? time_sub now windowStart then fresh else
      let n := default 0 (h.(rateTokens) !! clientIP) in
      if n <? h.(config).(RateLimitRPM)
      then (true, MkHandler h.(config) (<[clientIP := wrap64 (n + 1)]> h.(rateTokens)) h.(rateWindow))
      else (false, h)
  end.

Definition getClientIP `{Unicode} (r : Request) : string :=
  let forwarded := header_get r.(req_header) "X-Forwarded-For" in
  if negb (String.eqb forwarded "") then TrimSpace (hd "" (SplitByte forwarded ","%char)) else
  let realIP := header_get r.(req_header) "X-Real-IP" in
  if negb (String.eqb realIP "") then realIP else
  let idx := LastIndexByte r.(RemoteAddr) ":"%char in
  if idx =? -1 then r.(RemoteAddr) else substr_to r.(RemoteAddr) idx.

Lemma SplitByte_none c s : no_char c s -> SplitByte s c = [s].
Proof.
  induction s as [|d s IH]; [done|]. intros [Hd Hs]%no_char_cons. simpl.
  rewrite decide_False by done. by rewrite IH.
Qed.

Lemma getClientIP_forwarded `{Unicode} n r :
  n <> "" -> TrimSpace n = n -> no_char "," n ->
  req_header r = {["X-Forwarded-For" := [n]]} -> getClientIP r = n.
Proof.
  intros Hne Ht Hc Hr. unfold getClientIP, header_get. rewrite Hr, lookup_singleton_eq.
  rewrite (proj2 (String.eqb_neq n "") Hne), SplitByte_none by done. done.
Qed.

(** ** The scripts *)

Definition lines (l : list string) : string := String.concat newline l.
Definition quoted (s : string) : string := String (chr 34) (s +:+ String (chr 34) "").

(** The exceptions for local addresses, common to both scripts. *)
Definition local_rules : list string :=
  ["    if (isPlainHostName(host) ||";
   "        shExpMatch(host, " +:+ quoted "*.local" +:+ ") ||";
   "        isInNet(host, " +:+ quoted "192.168.0.0" +:+ ", " +:+ quoted "255.255.0.0" +:+ ") ||";
   "        isInNet(host, " +:+ quoted "10.0.0.0" +:+ ", " +:+ quoted "255.0.0.0" +:+ ") ||";
   "        isInNet(host, " +:+ quoted "172.16.0.0" +:+ ", " +:+ quoted "255.240.0.0" +:+ ") ||";
   "        host == " +:+ quoted "localhost" +:+ " ||";
   "        host == " +:+ quoted "127.0.0.1" +:+ ") {";
   "        return " +:+ quoted "DIRECT" +:+ ";";
   "    }";
   "    "].

Definition generatePAC (c : Config) (username password : string) : string :=
  let proxyURL := username +:+ ":" +:+ password +:+ "@" +:+ c.(ProxyHost) +:+ ":" +:+ c.(HTTPPort) in
  let socks5URL := username +:+ ":" +:+ password +:+ "@" +:+ c.(ProxyHost) +:+ ":" +:+ c.(SOCKS5Port) in
  lines (["function FindProxyForURL(url, host) {";
          "    // Don't proxy local addresses"] ++ local_rules ++
         ["    // Route everything else through proxy";
          "    // Primary: HTTP/HTTPS proxy, Fallback: SOCKS5";
          "    return " +:+ quoted ("PROXY " +:+ proxyURL +:+ "; SOCKS5 " +:+ socks5URL +:+ "; DIRECT") +:+ ";";
          "}"; ""]).

Definition placeholder_script (c : Config) (username : string) : string :=
  lines (["function FindProxyForURL(url, host) {";
          "    // PAC file for user: " +:+ username;
          "    // Note: This PAC requires authentication. Your browser/system will prompt for password.";
          "    ";
          "    // Don't proxy local addresses"] ++ local_rules ++
         ["    // Route everything else through proxy (credentials required separately)";
          "    return " +:+ quoted ("PROXY " +:+ c.(ProxyHost) +:+ ":" +:+ c.(HTTPPort) +:+ "; SOCKS5 "
            +:+ c.(ProxyHost) +:+ ":" +:+ c.(SOCKS5Port) +:+ "; DIRECT") +:+ ";";
          "}"; ""]).

Definition error_script (message : string) : string :=
  lines ["// Error: " +:+ message; "function FindProxyForURL(url, host) {";
         "    return " +:+ quoted "DIRECT" +:+ ";"; "}"; ""].

(** ** The handler *)

(** [GenerateToken]; [random] is what [rand.Read] gives for a slice of 16. *)
Definition GenerateToken (random : result (list byte)) : result string :=
  match random with
  | Err err => Err err
  | Ok bytes => Ok (substr_to (hex_encode bytes) 7)
  end.

(** A token has 28 bits: its seven digits are those of the first three bytes and of the
    upper half of the fourth. *)
Lemma GenerateToken_bits (a b c d d' : byte) (rest rest' : list byte) :
  b2z d / 16 = b2z d' / 16 ->
  GenerateToken (Ok ([a; b; c; d] ++ rest)) = GenerateToken (Ok ([a; b; c; d'] ++ rest')) /\
  forall token, GenerateToken (Ok ([a; b; c; d] ++ rest)) = Ok token -> strlen token = 7.
Proof. intros E. unfold GenerateToken, substr_to. simpl. rewrite E. split; [done|]. by intros token [= <-]. Qed.

Section Serving.
Context {F : Type} {GF : GoFloat F} {UC : Unicode} {AE : AuthEnv} {W : Type} {RW : ResponseWriter W}.

Definition sendPAC (w : W) (content : string) : W :=
  write content
    (write_header 200
       (set_header "Access-Control-Allow-Headers" "Content-Type"
          (set_header "Access-Control-Allow-Methods" "GET, OPTIONS"
             (set_header "Access-Control-Allow-Origin" "*"
                (set_header "Cache-Control" "public, max-age=300"
                   (set_header "Content-Type" "application/x-ns-proxy-autoconfig" w)))))).

Definition sendPACWithPlaceholder (h : Handler) (w : W) (username : string) : W :=
  sendPAC w (placeholder_script h.(config) username).

Definition sendErrorPAC (w : W) (message : string) : W := sendPAC w (error_script message).

(** [now] is the reading of the limiter, [t_check] and [t_store] those of the
    credential check. *)
Definition ServeHTTP (h : Handler) (s : UserStore F) (w : W) (r : Request) (now t_check t_store : Z)
    : W * Handler * UserStore F :=
  let clientIP := getClientIP r in
  let cfg := h.(config) in
  let '(ok, h) := if 0 <? cfg.(RateLimitRPM) then checkRateLimit h clientIP now else (true, h) in
  if negb ok then (http_Error "Too Many Requests" 429 w, h, s) else
  if negb (String.eqb cfg.(Token) "") && negb (String.eqb (req_query r "token") cfg.(Token))
  then (http_Error "Unauthorized" 401 w, h, s) else
  let username := if String.eqb (req_query r "user") "" then cfg.(DefaultUser) else req_query r "user" in
  if String.eqb username "" then (sendErrorPAC w "No user specified. Use ?user=USERNAME", h, s) else
  let password := req_query r "pass" in
  if String.eqb password "" then (sendPACWithPlaceholder h w username, h, s) else
  match ValidateCredentials s username password t_check t_store with
  | (None, s) => (http_Error "Invalid credentials" 401 w, h, s)
  | (Some _, s) => (sendPAC w (generatePAC cfg username password), h, s)
  end.

Definition pac_headers : gmap string (list string) :=
  <["Access-Control-Allow-Headers" := ["Content-Type"]]>
    (<["Access-Control-Allow-Methods" := ["GET, OPTIONS"]]>
       (<["Access-Control-Allow-Origin" := ["*"]]>
          (<["Cache-Control" := ["public, max-age=300"]]>
             {["Content-Type" := ["application/x-ns-proxy-autoconfig"]]}))).

Lemma sendPAC_ok w content :
  represents w no_response -> represents (sendPAC w content) (res_done 200 pac_headers content).
Proof.
  intros Hw. unfold sendPAC.
  apply set_header_ok with (k := "Content-Type") (v := "application/x-ns-proxy-autoconfig") in Hw.
  apply set_header_ok with (k := "Cache-Control") (v := "public, max-age=300") in Hw.
  apply set_header_ok with (k := "Access-Control-Allow-Origin") (v := "*") in Hw.
  apply set_header_ok with (k := "Access-Control-Allow-Methods") (v := "GET, OPTIONS") in Hw.
  apply set_header_ok with (k := "Access-Control-Allow-Headers") (v := "Content-Type") in Hw.
  apply write_header_ok with (s := 200) in Hw. by apply write_ok with (b := content) in Hw.
Qed.

(** The user a request is for. *)
Definition pac_user (h : Handler) (r : Request) : string :=
  if String.eqb (req_query r "user") "" then DefaultUser (config h) else req_query r "user".

(** The checks a request has to pass before anything is looked up. *)
Definition token_ok (h : Handler) (r : Request) : Prop :=
  Token (config h) = "" \/ req_query r "token" = Token (config h).

End Serving.

Section Guarantees.
Context {F : Type} {GF : GoFloat F} {UC : Unicode} {AE : AuthEnv}.

Lemma checkRateLimit_config h ip now : config (checkRateLimit h ip now).2 = config h.
Proof. unfold checkRateLimit. by repeat case_match. Qed.

(** C33: a script with a password in it is served only to a request that
    carries the token, if one is set, and credentials the store accepts. *)
Theorem ServeHTTP_credentials (h h' : Handler) (s s' : UserStore F) (r : Request)
    (now t_check t_store : Z) (resp : Response) :
  ServeHTTP h s no_response r now t_check t_store = (resp, h', s') ->
  r_status resp = Some 200 -> pac_user h r <> "" -> req_query r "pass" <> "" ->
  token_ok h r /\
  exists u, fst (ValidateCredentials s (pac_user h r) (req_query r "pass") t_check t_store) = Some u /\
    resp = res_done 200 pac_headers (generatePAC (config h) (pac_user h r) (req_query r "pass")).
Proof.
  intros H Hst Hu Hp. unfold ServeHTTP in H.
  destruct (if 0 <? RateLimitRPM (config h) then checkRateLimit h (getClientIP r) now else (true, h))
    as [ok h1].
  destruct ok; simpl negb in H; cbn iota in H; [|injection H as <- _ _; discriminate Hst].
  unfold token_ok. destruct (String.eqb_spec (Token (config h)) "") as [Et|Et]; simpl in H.
  2: destruct (String.eqb_spec (req_query r "token") (Token (config h))) as [Eq|Eq]; simpl in H;
    [|injection H as <- _ _; discriminate Hst].
  all: split; [by auto|]; fold (pac_user h r) in H;
    rewrite (proj2 (String.eqb_neq _ _) Hu), (proj2 (String.eqb_neq _ _) Hp) in H;
    destruct (ValidateCredentials s (pac_user h r) _ _ _) as [[u|] s1]; simpl;
    injection H as <- _ _; [by exists u|discriminate Hst].
Qed.

(** ** The limiter *)

(** Requests of one address at the given instants, and how many pass. *)
Fixpoint limit_run (h : Handler) (ip : string) (times : list Z) : Z * Handler :=
  match times with
  | [] => (0, h)
  | t :: times =>
      let '(ok, h) := checkRateLimit h ip t in
      let '(n, h) := limit_run h ip times in (Z.b2z ok + n, h)
  end.

Lemma limit_run_window h ip start n times :
  rateWindow h !! ip = Some start -> rateTokens h !! ip = Some n ->
  0 <= n -> RateLimitRPM (config h) < 2^63 ->
  Forall (fun t => time_sub t start <= Minute) times ->
  (limit_run h ip times).1 = Z.min (zlen times) (Z.max 0 (RateLimitRPM (config h) - n)).
Proof.
  intros Hw Ht Hn Hr. revert h n Hw Ht Hn Hr.
  induction times as [|t times IH]; intros h n Hw Ht Hn Hr Hall; [simpl; lia|].
  apply Forall_cons in Hall as [Htime Hall]. cbn [limit_run]. unfold checkRateLimit.
  rewrite Hw, Ht, (proj2 (Z.ltb_ge _ _)) by lia. cbn [default from_option id].
  destruct (Z.ltb_spec n (RateLimitRPM (config h))) as [Hlt|Hge].
  - rewrite wrap64_id by (unfold in_int64; lia).
    set (h1 := MkHandler _ _ _).
    assert ((limit_run h1 ip times).1 = Z.min (zlen times) (Z.max 0 (RateLimitRPM (config h) - (n + 1)))) as E.
    { apply (IH h1 (n + 1)); try done; [|lia]. unfold h1; simpl. apply lookup_insert_eq. }
    destruct (limit_run h1 ip times) as [k h2]. simpl in *. lia.
  - specialize (IH h n Hw Ht Hn Hr Hall). destruct (limit_run h ip times) as [k h2]. simpl in *. lia.
Qed.

(** The endpoint serves an address at most [RateLimitRPM] times in the
    minute that its first request opens, and exactly that often if it keeps
    asking. *)
Theorem limit_per_minute (h : Handler) (ip : string) (t : Z) (times : list Z) :
  rateWindow h !! ip = None -> 1 <= RateLimitRPM (config h) < 2^63 ->
  Forall (fun t' => time_sub t' t <= Minute) times ->
  (limit_run h ip (t :: times)).1 = Z.min (zlen (t :: times)) (RateLimitRPM (config h)).
Proof.
  intros Hw Hr Hall. cbn [limit_run]. unfold checkRateLimit at 1. rewrite Hw.
  set (h1 := MkHandler _ _ _).
  assert ((limit_run h1 ip times).1 = Z.min (zlen times) (Z.max 0 (RateLimitRPM (config h) - 1))) as E.
  { apply (limit_run_window h1 ip t 1); try done; unfold h1; simpl; try apply lookup_insert_eq; lia. }
  destruct (limit_run h1 ip times) as [k h2]. simpl in *. lia.
Qed.

(** The addresses of a sequence of requests, and whether all of them pass. *)
Fixpoint all_pass (h : Handler) (rs : list (Request * Z)) : bool :=
  match rs with
  | [] => true
  | (r, t) :: rs => let '(ok, h) := checkRateLimit h (getClientIP r) t in ok && all_pass h rs
  end.

Lemma all_pass_fresh rs : forall h,
  NoDup (map (fun rt => getClientIP rt.1) rs) ->
  Forall (fun rt => rateWindow h !! getClientIP rt.1 = None) rs -> all_pass h rs = true.
Proof.
  induction rs as [|[r t] rs IH]; intros h Hnd Hall; [done|]. cbn [all_pass].
  apply NoDup_cons in Hnd as [Hnin Hnd]. apply Forall_cons in Hall as [Hr Hall].
  unfold checkRateLimit. simpl in Hr. rewrite Hr. apply IH; [done|]. simpl.
  apply Forall_forall. intros rt Hin. rewrite Forall_forall in Hall. rewrite lookup_insert_ne.
  - by apply Hall.
  - intros E. apply Hnin. simpl. rewrite E. by apply list_elem_of_fmap_2 with (f := fun rt => getClientIP rt.1).
Qed.

(** The limiter trusts a header the client writes: requests that name a new
    address in [X-Forwarded-For] each time all pass, wherever they come from
    and whatever the limit is. *)
Theorem forwarded_header_bypass (cfg : Config) (from : string) (names : list string) (t : Z) :
  NoDup names ->
  Forall (fun n => is_ascii n = true /\ n <> "" /\ TrimSpace n = n /\ no_char "," n) names ->
  all_pass (NewHandler cfg)
    (map (fun n => (MkRequest "GET" "/proxy.pac" false "/proxy.pac" "" from
                      {["X-Forwarded-For" := [n]]} (fun _ => ""), t)) names) = true.
Proof.
  intros Hnd Hall. apply all_pass_fresh.
  - rewrite map_map. simpl. rewrite (map_ext_in _ id); [by rewrite map_id|].
    intros n Hin. rewrite Forall_forall in Hall.
    destruct (Hall n) as (_ & Hne & Htrim & Hc); [by apply list_elem_of_In|].
    by apply getClientIP_forwarded.
  - apply Forall_map, Forall_forall. intros n _. simpl. apply lookup_empty.
Qed.
End Guarantees.

Definition demo_pac : Config := MkConfig true "proxy.example" "8080" "1080" "" "" 2.
Definition demo_query (k : string) : string :=
  if String.eqb k "user" then "bob" else if String.eqb k "pass" then "secret" else "".
Definition demo_pac_request : Request :=
  MkRequest "GET" "/proxy.pac" false "/proxy.pac" "" "10.0.0.7:4711" ∅ demo_query.

Lemma limit_per_minute_witness :
  (limit_run (NewHandler demo_pac) "10.0.0.7" [0; Second; 2 * Second]).1 = Z.min 3 2.
Proof.
  apply (limit_per_minute (NewHandler demo_pac) "10.0.0.7" 0 [Second; 2 * Second]).
  - reflexivity.
  - simpl. lia.
  - repeat constructor; vm_compute; discriminate.
Defined.

Lemma forwarded_header_bypass_witness :
  all_pass (UC := ascii_only) (NewHandler demo_pac)
    (map (fun n => (MkRequest "GET" "/proxy.pac" false "/proxy.pac" "" "10.0.0.7:4711"
                      {["X-Forwarded-For" := [n]]} (fun _ => ""), 0)) ["a"; "b"; "c"]) = true.
Proof.
  apply (forwarded_header_bypass (UC := ascii_only) demo_pac "10.0.0.7:4711" ["a"; "b"; "c"] 0).
  - apply (bool_decide_unpack _). vm_compute. exact I.
  - repeat constructor; discriminate.
Defined.

Lemma ServeHTTP_credentials_witness :
  token_ok (NewHandler demo_pac) demo_pac_request /\
  exists u, fst (ValidateCredentials (AE := demo_env) (UC := ascii_only) demo_store
                   (pac_user (NewHandler demo_pac) demo_pac_request)
                   (req_query demo_pac_request "pass") 0 0) = Some u /\
    (ServeHTTP (AE := demo_env) (UC := ascii_only) (NewHandler demo_pac) demo_store no_response
       demo_pac_request 0 0 0).1.1 =
    res_done 200 pac_headers (generatePAC demo_pac (pac_user (NewHandler demo_pac) demo_pac_request)
                                (req_query demo_pac_request "pass")).
Proof.
  apply (ServeHTTP_credentials (AE := demo_env) (UC := ascii_only) (NewHandler demo_pac)
           (ServeHTTP (AE := demo_env) (UC := ascii_only) (NewHandler demo_pac) demo_store no_response
              demo_pac_request 0 0 0).1.2 demo_store
           (ServeHTTP (AE := demo_env) (UC := ascii_only) (NewHandler demo_pac) demo_store no_response
              demo_pac_request 0 0 0).2 demo_pac_request 0 0 0).
  - destruct (ServeHTTP _ _ _ _ _ _ _) as [[? ?] ?]. reflexivity.
  - vm_compute. reflexivity.
  - discriminate.
  - discriminate.
Defined.
