(* ===== verification/Base64.v ===== *)
(** * [base64.StdEncoding] ([encoding/base64])

    [DecodeString] skips line breaks, wants padding to a multiple of four and
    nothing after it. [encode] is what a client does; decoding undoes it. *)
From S2P Require Import Prelude GoStrings.

Definition b64_val (c : Ascii.ascii) : option Z :=
  let v := code c in
  if (65 <=? v) && (v <=? 90) then Some (v - 65)
  else if (97 <=? v) && (v <=? 122) then Some (v - 71)
  else if (48 <=? v) && (v <=? 57) then Some (v + 4)
  else if v =? 43 then Some 62 else if v =? 47 then Some 63 else None.

Definition b64_char (v : Z) : Ascii.ascii :=
  if v <? 26 then chr (v + 65) else if v <? 52 then chr (v + 71)
  else if v <? 62 then chr (v - 4) else if v =? 62 then chr 43 else chr 47.

Definition pad : Ascii.ascii := chr 61.

(** Quanta of four characters. *)
Fixpoint decode_quanta (s : string) : option (list byte) :=
  match s with
  | EmptyString => Some []
  | String a (String b (String c (String d rest))) =>
      va ← b64_val a; vb ← b64_val b;
      let x := z2b (va * 4 + vb / 16) in
      if decide (c = pad) then
        if decide (d = pad /\ rest = EmptyString) then Some [x] else None
      else
        vc ← b64_val c;
        let y := z2b (vb mod 16 * 16 + vc / 4) in
        if decide (d = pad) then if decide (rest = EmptyString) then Some [x; y] else None
        else
          vd ← b64_val d;
          let z := z2b (vc mod 4 * 64 + vd) in
          bs ← decode_quanta rest; Some (x :: y :: z :: bs)
  | _ => None
  end.

Fixpoint drop_newlines (s : string) : string :=
  match s with
  | EmptyString => EmptyString
  | String c s => if (code c =? 10) || (code c =? 13) then drop_newlines s else String c (drop_newlines s)
  end.

Definition DecodeString (s : string) : option (list byte) := decode_quanta (drop_newlines s).

(** ** Encoding, and the round trip *)

Fixpoint encode (bs : list byte) : string :=
  match bs with
  | [] => EmptyString
  | [x] => String (b64_char (b2z x / 4)) (String (b64_char (b2z x mod 4 * 16)) (String pad (String pad "")))
  | [x; y] =>
      String (b64_char (b2z x / 4)) (String (b64_char (b2z x mod 4 * 16 + b2z y / 16))
        (String (b64_char (b2z y mod 16 * 4)) (String pad "")))
  | x :: y :: z :: bs =>
      String (b64_char (b2z x / 4)) (String (b64_char (b2z x mod 4 * 16 + b2z y / 16))
        (String (b64_char (b2z y mod 16 * 4 + b2z z / 64)) (String (b64_char (b2z z mod 64)) (encode bs))))
  end.

Lemma b64_char_ok v : 0 <= v < 64 ->
  b64_val (b64_char v) = Some v /\ b64_char v <> pad /\
  code (b64_char v) <> 10 /\ code (b64_char v) <> 13.
Proof.
  intros Hv.
  assert (forallb (fun n => let v := Z.of_nat n in
    bool_decide (b64_val (b64_char v) = Some v /\ b64_char v <> pad /\
      code (b64_char v) <> 10 /\ code (b64_char v) <> 13)) (seq 0 64) = true) as H
    by (vm_compute; reflexivity).
  rewrite forallb_forall in H. specialize (H (Z.to_nat v)). cbv zeta in H.
  rewrite Z2Nat.id in H by lia. eapply bool_decide_eq_true_1, H, in_seq. lia.
Qed.

(** The sextets of three bytes. *)
Lemma sextets x y z :
  0 <= b2z x / 4 < 64 /\ 0 <= b2z x mod 4 * 16 + b2z y / 16 < 64 /\
  0 <= b2z y mod 16 * 4 + b2z z / 64 < 64 /\ 0 <= b2z z mod 64 < 64 /\
  0 <= b2z x mod 4 * 16 < 64 /\ 0 <= b2z y mod 16 * 4 < 64.
Proof.
  pose proof (b2z_range x). pose proof (b2z_range y). pose proof (b2z_range z).
  Z.div_mod_to_equations. lia.
Qed.

Lemma byte1 x n : 0 <= n < 16 -> z2b (b2z x / 4 * 4 + (b2z x mod 4 * 16 + n) / 16) = x.
Proof.
  intros Hn. rewrite Z.div_add_l, (Z.div_small n), Z.add_0_r by lia.
  replace (b2z x / 4 * 4 + b2z x mod 4) with (b2z x) by (pose proof (Z.div_mod (b2z x) 4); lia).
  apply z2b_b2z.
Qed.

Lemma byte2 k y n : 0 <= n < 4 ->
  z2b ((k * 16 + b2z y / 16) mod 16 * 16 + (b2z y mod 16 * 4 + n) / 4) = y.
Proof.
  intros Hn. pose proof (b2z_range y). rewrite (Z.add_comm (k * 16)), Z.mod_add by lia.
  rewrite Z.div_add_l, (Z.div_small n), Z.add_0_r, (Z.mod_small (b2z y / 16))
    by (lia || (Z.div_mod_to_equations; lia)).
  replace (b2z y / 16 * 16 + b2z y mod 16) with (b2z y) by (pose proof (Z.div_mod (b2z y) 16); lia).
  apply z2b_b2z.
Qed.

Lemma byte3 k z : z2b ((k * 4 + b2z z / 64) mod 4 * 64 + b2z z mod 64) = z.
Proof.
  pose proof (b2z_range z). rewrite (Z.add_comm (k * 4)), Z.mod_add by lia.
  rewrite (Z.mod_small (b2z z / 64)) by (Z.div_mod_to_equations; lia).
  replace (b2z z / 64 * 64 + b2z z mod 64) with (b2z z) by (pose proof (Z.div_mod (b2z z) 64); lia).
  apply z2b_b2z.
Qed.

Lemma list3_ind {A} (P : list A -> Prop) :
  P [] -> (forall x, P [x]) -> (forall x y, P [x; y]) ->
  (forall x y z l, P l -> P (x :: y :: z :: l)) -> forall l, P l.
Proof.
  intros H0 H1 H2 H3 l.
  assert (P l /\ (forall x, P (x :: l)) /\ (forall x y, P (x :: y :: l))) as [H _]; [|done].
  induction l as [|z l (IH0 & IH1 & IH2)]; split_and!; auto.
Qed.

Lemma decode_encode bs : decode_quanta (encode bs) = Some bs.
Proof.
  induction bs as [|x|x y|x y z bs IH] using list3_ind; [done|..]; cbn [encode decode_quanta].
  - destruct (sextets x x00 x00) as (S1 & _ & _ & _ & S2 & _).
    destruct (b64_char_ok _ S1) as (-> & _), (b64_char_ok _ S2) as (-> & _). cbn [mbind option_bind].
    rewrite !decide_True by done. pose proof (byte1 x 0 ltac:(lia)) as E.
    rewrite Z.add_0_r in E. by rewrite E.
  - destruct (sextets x y x00) as (S1 & S2 & _ & _ & _ & S3).
    destruct (b64_char_ok _ S1) as (-> & _), (b64_char_ok _ S2) as (-> & _),
      (b64_char_ok _ S3) as (E3 & P3 & _). rewrite E3. cbn [mbind option_bind].
    rewrite (decide_False (P := _ = pad)) by done. rewrite !decide_True by done.
    rewrite byte1 by (pose proof (b2z_range y); Z.div_mod_to_equations; lia).
    pose proof (byte2 (b2z x mod 4) y 0 ltac:(lia)) as E. rewrite Z.add_0_r in E. by rewrite E.
  - destruct (sextets x y z) as (S1 & S2 & S3 & S4 & _).
    destruct (b64_char_ok _ S1) as (-> & _), (b64_char_ok _ S2) as (-> & _),
      (b64_char_ok _ S3) as (E3 & P3 & _), (b64_char_ok _ S4) as (E4 & P4 & _).
    rewrite E3, E4. cbn [mbind option_bind]. rewrite !decide_False by done. rewrite IH. cbn [mbind option_bind].
    pose proof (b2z_range y). pose proof (b2z_range z).
    rewrite byte1 by (Z.div_mod_to_equations; lia).
    rewrite byte2 by (Z.div_mod_to_equations; lia). by rewrite byte3.
Qed.

Lemma drop_newlines_cons c s :
  code c <> 10 -> code c <> 13 -> drop_newlines (String c s) = String c (drop_newlines s).
Proof.
  intros H1 H2. cbn [drop_newlines].
  by rewrite (proj2 (Z.eqb_neq _ _) H1), (proj2 (Z.eqb_neq _ _) H2).
Qed.

Lemma drop_newlines_encode bs : drop_newlines (encode bs) = encode bs.
Proof.
  induction bs as [|x|x y|x y z bs IH] using list3_ind; [done|..]; cbn [encode].
  - destruct (sextets x x00 x00) as (S1 & _ & _ & _ & S2 & _).
    destruct (b64_char_ok _ S1) as (_ & _ & ? & ?), (b64_char_ok _ S2) as (_ & _ & ? & ?).
    by rewrite !drop_newlines_cons.
  - destruct (sextets x y x00) as (S1 & S2 & _ & _ & _ & S3).
    destruct (b64_char_ok _ S1) as (_ & _ & ? & ?), (b64_char_ok _ S2) as (_ & _ & ? & ?),
      (b64_char_ok _ S3) as (_ & _ & ? & ?). by rewrite !drop_newlines_cons.
  - destruct (sextets x y z) as (S1 & S2 & S3 & S4 & _).
    destruct (b64_char_ok _ S1) as (_ & _ & ? & ?), (b64_char_ok _ S2) as (_ & _ & ? & ?),
      (b64_char_ok _ S3) as (_ & _ & ? & ?), (b64_char_ok _ S4) as (_ & _ & ? & ?).
    by rewrite !drop_newlines_cons, IH.
Qed.

Lemma DecodeString_encode bs : DecodeString (encode bs) = Some bs.
Proof. unfold DecodeString. by rewrite drop_newlines_encode, decode_encode. Qed.

Example decode_1 : DecodeString "Ym9iOnNlY3JldA==" = Some (bytes_of_string "bob:secret").
Proof. vm_compute. reflexivity. Qed.
Example decode_2 : DecodeString "Ym9iOnNlY3JldA" = None /\ DecodeString "Yg=a" = None.
Proof. vm_compute. auto. Qed.
