(* ===== verification/HttpProxy.v ===== *)
(** * The HTTP proxy ([internal/httpproxy/server.go])

    [handleRequest] is a handler in the error monad over [Session]: an early
    [return] is an error that carries a reason. Answers go to any
    [ResponseWriter] [W]; after [Hijack] the connection is written to directly.
    Dialling, the round trip to the target and the copies belong to [HNet]. *)
From S2P Require Import Pac.
From S2P Require Import Prelude GoStrings GoFloat GoNet GoTime GoHttp Base64 RateLimiter UserStore.
From S2P Require Import Tracker TrackerFacts Throttle Accounts Config.
Open Scope Z_scope.

(** ** Credentials *)

Definition parseProxyAuth (r : Request) : option (string * string) :=
  let auth := header_get r.(req_header) "Proxy-Authorization" in
  if String.eqb auth "" then None else
  if negb (HasPrefix auth "Basic ") then None else
  match DecodeString (substr_from auth 6) with
  | None => None
  | Some decoded =>
      let credentials := string_of_bytes decoded in
      let idx := IndexByte credentials ":"%char in
      if idx <? 0 then None
      else Some (substr_to credentials idx, substr_from credentials (idx + 1))
  end.

Definition hop_by_hop : list string :=
  ["Connection"; "Keep-Alive"; "Proxy-Authenticate"; "Proxy-Authorization"; "Proxy-Connection"; "Te";
   "Trailer"; "Transfer-Encoding"; "Upgrade"].

Definition removeHopByHopHeaders (h : gmap string (list string)) : gmap string (list string) :=
  fold_left (fun h k => delete k h) hop_by_hop h.

(** ** The server *)

Section Server.
Context {F : Type} {GF : GoFloat F} {UC : Unicode} {AE : AuthEnv} {ZN : Zone} {UJ : UsageJSON}
  {MO : MapOrder} {W : Type} {RW : ResponseWriter W}.

Record Session := MkSession {
  s_accounts : Accounts F;
  pacHandler : option Pac.Handler;
  writer : W;
  raw_out : string;                       (* written to the hijacked connection *)
  dialled : option string;
  forwarded : option (gmap string (list string));   (* the header sent to the target *)
  client_closed : bool;
  target_closed : bool;
  throttled : option Z
}.

(** A response of the target: status, header, and the body as far as it comes. *)
Record TargetResponse := MkTargetResponse {
  t_status : Z;
  t_header : gmap string (list string);
  t_body : string
}.

(** What the network does: [hijack] is [None] when the writer is no
    [http.Hijacker], else what [Hijack] returns; [copied] are the bytes of the
    two copies of a tunnel, [body_sent] the bytes of a body that the client takes
    before its connection fails. *)
Record HNet := MkHNet {
  dial : string -> option string;
  hijack : option (option string);
  roundtrip : Request -> gmap string (list string) -> result TargetResponse;
  copied : Z * Z;
  body_sent : Z;
  t_pac : Z
}.

Local Abbreviation M := (GoM Session).

Definition put_s_accounts (a : Accounts F) (s : Session) : Session :=
  MkSession a s.(pacHandler) s.(writer) s.(raw_out) s.(dialled) s.(forwarded) s.(client_closed)
    s.(target_closed) s.(throttled).
Definition put_pac (h : Pac.Handler) (s : Session) : Session :=
  MkSession s.(s_accounts) (Some h) s.(writer) s.(raw_out) s.(dialled) s.(forwarded) s.(client_closed)
    s.(target_closed) s.(throttled).
Definition put_writer (w : W) (s : Session) : Session :=
  MkSession s.(s_accounts) s.(pacHandler) w s.(raw_out) s.(dialled) s.(forwarded) s.(client_closed)
    s.(target_closed) s.(throttled).
Definition put_raw (o : string) (s : Session) : Session :=
  MkSession s.(s_accounts) s.(pacHandler) s.(writer) o s.(dialled) s.(forwarded) s.(client_closed)
    s.(target_closed) s.(throttled).
Definition put_dialled (t : string) (s : Session) : Session :=
  MkSession s.(s_accounts) s.(pacHandler) s.(writer) s.(raw_out) (Some t) s.(forwarded)
    s.(client_closed) s.(target_closed) s.(throttled).
Definition put_forwarded (h : gmap string (list string)) (s : Session) : Session :=
  MkSession s.(s_accounts) s.(pacHandler) s.(writer) s.(raw_out) s.(dialled) (Some h)
    s.(client_closed) s.(target_closed) s.(throttled).
Definition put_client_closed (s : Session) : Session :=
  MkSession s.(s_accounts) s.(pacHandler) s.(writer) s.(raw_out) s.(dialled) s.(forwarded) true
    s.(target_closed) s.(throttled).
Definition put_target_closed (s : Session) : Session :=
  MkSession s.(s_accounts) s.(pacHandler) s.(writer) s.(raw_out) s.(dialled) s.(forwarded)
    s.(client_closed) true s.(throttled).
Definition put_throttled (speed : option Z) (s : Session) : Session :=
  MkSession s.(s_accounts) s.(pacHandler) s.(writer) s.(raw_out) s.(dialled) s.(forwarded)
    s.(client_closed) s.(target_closed) speed.

#[export] Instance session_accounts : HasAccounts F Session :=
  {| accounts := s_accounts; put_accounts := put_s_accounts; accounts_put _ _ := eq_refl |}.

Definition respond (f : W -> W) : M unit := modify (fun s => put_writer (f s.(writer)) s).

(** [http.Error] and [return]. *)
Definition refuse (text : string) (code : Z) : M unit :=
  _ ← respond (http_Error text code); throw text.

Definition ask_for_credentials : M unit :=
  _ ← respond (set_header "Proxy-Authenticate"
         ("Basic realm=" +:+ Pac.quoted "Proxy Authentication Required"));
  refuse "Proxy Authentication Required" 407.

Definition handleConnect (net : HNet) (c : SessionClock json_bytes) (r : Request) (user : User) : M unit :=
  _ ← count (m_request user.(Username) "CONNECT");
  let targetHost := if Contains r.(Host) ":" then r.(Host) else r.(Host) +:+ ":443" in
  match net.(dial) targetHost with
  | Some _ =>
      _ ← count (m_error "dial_failed"); refuse "Failed to connect to target" 502
  | None =>
      _ ← modify (put_dialled targetHost);
      with_defer (modify put_target_closed)
        (match net.(hijack) with
         | None => _ ← count (m_error "hijack_failed"); refuse "Hijacking not supported" 500
         | Some (Some _) => _ ← count (m_error "hijack_failed"); refuse "Failed to hijack connection" 500
         | Some None =>
             with_defer (modify put_client_closed)
               (_ ← modify (fun s => put_raw (s.(raw_out) +:+
                      "HTTP/1.1 200 Connection Established" +:+ crlf +:+ crlf) s);
                _ ← modify (put_throttled (if 0 <? user.(BandwidthSpeedMbps)
                                           then Some user.(BandwidthSpeedMbps) else None));
                let '(upBytes, downBytes) := net.(copied) in
                _ ← count (m_bytes user.(Username) "upstream" upBytes);
                _ ← count (m_bytes user.(Username) "downstream" downBytes);
                _ ← count (m_duration (time_sub c.(s_end) c.(s_start)));
                on_accounts (record_bytes user.(Username) upBytes downBytes c))
         end)
  end.

(** The header of a response, one [Add] per value. *)
Definition copy_header (h : gmap string (list string)) (w : W) : W :=
  fold_left (fun w kv => fold_left (fun w v => add_header kv.1 v w) kv.2 w) (range_order h) w.

(** [w.WriteHeader(code)] panics for a code that is no status; the deferred calls run,
    and the server closes the connection without an answer. *)
Definition valid_status (code : Z) : bool := (100 <=? code) && (code <=? 999).
Definition status_panic : string := "panic: invalid WriteHeader code".

(** What [io.Copy] passes on of the body. *)
Definition body_copied (net : HNet) (resp : TargetResponse) : string := substr_to resp.(t_body) net.(body_sent).

Definition handleHTTP (net : HNet) (c : SessionClock json_bytes) (r : Request) (user : User) : M unit :=
  _ ← count (m_request user.(Username) r.(Method));
  if negb r.(URLIsAbs) then refuse "Bad Request: absolute URL required" 400 else
  let outHeader := delete "Proxy-Authorization" (removeHopByHopHeaders r.(req_header)) in
  _ ← modify (put_forwarded outHeader);
  match net.(roundtrip) r outHeader with
  | Err _ => _ ← count (m_error "request_failed"); refuse "Failed to reach target" 502
  | Ok resp =>
      _ ← respond (copy_header resp.(t_header));
      if negb (valid_status resp.(t_status)) then throw status_panic else
      _ ← respond (write_header resp.(t_status));
      _ ← respond (write (body_copied net resp));
      let written := strlen (body_copied net resp) in
      _ ← count (m_bytes user.(Username) "downstream" written);
      _ ← count (m_duration (time_sub c.(s_end) c.(s_start)));
      on_accounts (record_bytes user.(Username) 0 written c)
  end.

(** The checks on an authenticated user. *)
Definition admission (c : SessionClock json_bytes) (clientIP username : string) (user : User) : M unit :=
  s ← gets accounts;
  let isSuperAdmin := String.eqb user.(Role) "super_admin" &&
                      bool_decide (IsSuperAdminIP s.(store) clientIP <> None) in
  if isSuperAdmin then mret tt else
  ok ← call (check_rate username c);
  if negb ok then
    _ ← count (m_rate_limited username); refuse "Too Many Requests" 429
  else
    s ← gets accounts;
    if negb (CheckExpiry s.(store) username c.(s_expiry)) then refuse "Account Expired" 403 else
    ok ← call (check_allowance username user.(BandwidthLimitGB) c);
    if negb ok then refuse "Bandwidth Limit Exceeded" 403 else
    ok ← call (check_conn_limit username user.(MaxConnections) c);
    if negb ok then refuse "Connection Limit Reached" 429 else mret tt.

Definition authenticate (c : SessionClock json_bytes) (r : Request) : M (string * User) :=
  match parseProxyAuth r with
  | None =>
      _ ← count (m_auth_failure "no_credentials"); _ ← ask_for_credentials; throw ""
  | Some (username, password) =>
      user ← call (validate username password c);
      match user with
      | None => _ ← count (m_auth_failure "invalid_credentials"); _ ← ask_for_credentials; throw ""
      | Some user => mret (username, user)
      end
  end.

(** The request is for the PAC endpoint. *)
Definition is_pac (r : Request) : bool :=
  String.eqb r.(URLPath) "/proxy.pac" || String.eqb r.(RequestURI) "/proxy.pac".

Definition serve_pac (net : HNet) (c : SessionClock json_bytes) (h : Pac.Handler) (r : Request) : M unit :=
  modify (fun s =>
    let '(w, h, st) := Pac.ServeHTTP h (accounts s).(store) s.(writer) r net.(t_pac)
                         c.(s_check) c.(s_store) in
    put_pac h (put_writer w (put_accounts (with_store (accounts s) st) s))).

Definition proxy_request (net : HNet) (c : SessionClock json_bytes) (r : Request) : M unit :=
  let clientIP := r.(RemoteAddr) in
  s ← gets accounts;
  if negb (CheckIPAllowed s.(store) clientIP) then
    _ ← count (m_auth_failure "ip_blocked"); refuse "Forbidden" 403
  else
    '(username, user) ← authenticate c r;
    _ ← admission c clientIP username user;
    _ ← count (m_active 1);
    with_defer (count (m_active (-1)))
      (_ ← on_accounts (increment_conns user.(Username) c);
       with_defer (on_accounts (decrement_conns user.(Username) c))
         (if String.eqb r.(Method) "CONNECT" then handleConnect net c r user
          else handleHTTP net c r user)).

Definition handleRequest (net : HNet) (c : SessionClock json_bytes) (r : Request) : M unit :=
  h ← gets pacHandler;
  match h with
  | Some h => if is_pac r then serve_pac net c h r else proxy_request net c r
  | None => proxy_request net c r
  end.

(** The transport of a new server: limits, and times in nanoseconds. *)
Record Transport := MkTransport {
  MaxIdleConns : Z;
  MaxIdleConnsPerHost : Z;
  IdleConnTimeout : Z;
  DisableKeepAlives : bool;
  DialTimeout : Z;
  DialKeepAlive : Z
}.

Definition new_transport : Transport := MkTransport 100 10 (90 * Second) false (30 * Second) (30 * Second).

(** The PAC handler of a new server. *)
Definition NewServer_pac (e : EnvConfig) : option Pac.Handler :=
  if e.(PACEnabled) then
    Some (Pac.NewHandler (Pac.MkConfig e.(PACEnabled) e.(Domain) (TrimPrefix e.(HTTPProxyPort) ":")
            (TrimPrefix e.(SOCKS5Port) ":") e.(PACToken) e.(PACDefaultUser) e.(PACRateLimitRPM)))
  else None.

(** The fields that [NewServer] fills in itself; [connCount] is never used. *)
Record Server := MkServer {
  connCount : Z;
  transport : Transport;
  srv_pac : option Pac.Handler
}.

Definition NewServer (e : EnvConfig) : Server := MkServer 0 new_transport (NewServer_pac e).
End Server.

Arguments Session F {UJ} W.
