(* ===== verification/HttpProxyFacts.v ===== *)
(** * What the HTTP proxy guarantees

    Credentials as clients send them, the answer of every path of a request, the
    header that reaches the target, that nothing reaches a target without
    authentication, and that every request gives its connection back. *)
From S2P Require Import Pac.
From S2P Require Import Prelude GoStrings GoFloat GoNet GoNetFacts GoTime GoHttp Base64 RateLimiter.
From S2P Require Import UserStore Tracker TrackerFacts Throttle Accounts Config HttpProxy.
From S2P Require Import UserStoreFacts.
Open Scope Z_scope.

(** ** Credentials *)

(** What a client sends in [Proxy-Authorization]. *)
Definition basic (username password : string) : string :=
  "Basic " +:+ encode (bytes_of_string (username +:+ ":" +:+ password)).

Lemma HasPrefix_drop s p : HasPrefix s p = true -> s = p +:+ string_drop (String.length p) s.
Proof.
  revert s. induction p as [|c p IH]; intros s H; [done|].
  destruct s as [|d s]; [done|]. simpl in H. case_decide as E; [subst d|done].
  rewrite str_cons_app. simpl. by rewrite <- IH.
Qed.

(** A byte found splits the string at its first occurrence. *)
Lemma index_from_split c s i :
  0 <= i -> 0 <= index_from i s c ->
  exists t u, s = t +:+ String c u /\ no_char c t /\ index_from i s c = i + strlen t.
Proof.
  revert i. induction s as [|d s IH]; intros i Hi H; simpl in *; [lia|].
  case_decide as E.
  - subst d. exists "", s. split_and!; [done|done|unfold strlen; simpl; lia].
  - destruct (IH (i + 1)) as (t & u & -> & Ht & Hx); [lia|done|].
    exists (String d t), u. split_and!; [done|by apply no_char_cons|]. rewrite Hx. unfold strlen. simpl. lia.
Qed.

Lemma parseProxyAuth_Some r u p :
  parseProxyAuth r = Some (u, p) <->
  no_char ":" u /\
  exists enc, header_get (req_header r) "Proxy-Authorization" = "Basic " +:+ enc /\
    DecodeString enc = Some (bytes_of_string (u +:+ String ":" p)).
Proof.
  unfold parseProxyAuth. set (auth := header_get _ _). clearbody auth. split.
  - case_match; [done|]. destruct (HasPrefix auth "Basic ") eqn:Hp; simpl; [|done].
    apply HasPrefix_drop in Hp. change (string_drop _ auth) with (substr_from auth 6) in Hp. intros E.
    destruct (DecodeString _) as [bs|] eqn:Ed; [|done].
    case_match eqn:Hi; [done|]. apply Z.ltb_ge in Hi.
    destruct (index_from_split _ _ 0 ltac:(lia) Hi) as (t & v & Hs & Ht & Hx).
    unfold IndexByte in E. rewrite Hx, Z.add_0_l, Hs, substr_to_app, substr_from_app_cons in E.
    injection E as <- <-. split; [done|]. eexists. split; [exact Hp|].
    rewrite Ed, <- Hs. by rewrite bytes_of_string_of_bytes.
  - intros (Hu & enc & -> & Hd). rewrite (proj2 (String.eqb_neq _ _)) by done.
    rewrite HasPrefix_app. simpl negb. cbv iota.
    change (substr_from ("Basic " +:+ enc) 6) with enc. rewrite Hd, string_of_bytes_of_string.
    unfold IndexByte. rewrite index_from_app, Z.add_0_l by done.
    rewrite (proj2 (Z.ltb_ge _ _)) by (unfold strlen; lia).
    by rewrite substr_to_app, substr_from_app_cons.
Qed.

(** C23: the credentials are those of RFC 7617: a header is accepted exactly when
    it is [Basic ] and the base64 of a user name without a colon, a colon and a
    password; the header a client builds is read back to the very same pair,
    whatever bytes the password holds. *)
Theorem parseProxyAuth_spec r u p :
  (parseProxyAuth r = Some (u, p) <->
   no_char ":" u /\
   exists enc, header_get (req_header r) "Proxy-Authorization" = "Basic " +:+ enc /\
     DecodeString enc = Some (bytes_of_string (u +:+ String ":" p))) /\
  (no_char ":" u /\ header_get (req_header r) "Proxy-Authorization" = basic u p ->
   parseProxyAuth r = Some (u, p)).
Proof.
  split; [apply parseProxyAuth_Some|]. intros [Hu Hh]. apply parseProxyAuth_Some. split; [done|].
  eexists. split; [exact Hh|]. apply DecodeString_encode.
Qed.

(** ** Headers *)

Lemma fold_delete_lookup {A} (ks : list string) (h : gmap string A) k :
  fold_left (fun h k => delete k h) ks h !! k = if decide (k ∈ ks) then None else h !! k.
Proof.
  revert h. induction ks as [|k' ks IH]; intros h; cbn [fold_left].
  - by rewrite decide_False by apply not_elem_of_nil.
  - rewrite IH. destruct (decide (k ∈ ks)) as [Hk|Hk].
    + rewrite decide_True by (by right). done.
    + destruct (decide (k = k')) as [->|Hne].
      * rewrite decide_True by left. apply lookup_delete_eq.
      * rewrite decide_False by (rewrite elem_of_cons; tauto). by apply lookup_delete_ne.
Qed.

(** The header that is sent to the target. *)
Definition out_header (r : Request) : gmap string (list string) :=
  delete "Proxy-Authorization" (removeHopByHopHeaders (req_header r)).

Lemma out_header_lookup r k :
  out_header r !! k = if decide (k ∈ hop_by_hop) then None else req_header r !! k.
Proof.
  unfold out_header. destruct (decide (k = "Proxy-Authorization")) as [->|Hne].
  - rewrite lookup_delete_eq, decide_True; [done|]. apply (bool_decide_unpack _). reflexivity.
  - rewrite lookup_delete_ne by done. apply fold_delete_lookup.
Qed.

(** The values of a header line. *)
Definition values (h : gmap string (list string)) (k : string) : list string := default [] (h !! k).

Section Copy.
Context {W : Type} {RW : ResponseWriter W} {MO : MapOrder}.

Lemma add_each k vs (w : W) h :
  represents w (MkResponse None h "") ->
  exists h', represents (fold_left (fun w v => add_header k v w) vs w) (MkResponse None h' "") /\
    forall k', values h' k' = values h k' ++ (if decide (k' = k) then vs else []).
Proof.
  revert w h. induction vs as [|v vs IH]; intros w h Hw; cbn [fold_left].
  { exists h. split; [done|]. intros k'. by destruct (decide _); rewrite app_nil_r. }
  apply (add_header_ok w _ k v) in Hw. unfold res_add in Hw. cbn [r_status r_header r_body] in Hw.
  rewrite decide_True in Hw by done. destruct (IH _ _ Hw) as (h' & Hw' & Hv). exists h'. split; [done|].
  intros k'. rewrite Hv. unfold values.
  destruct (decide (k' = k)) as [->|Hne].
  - rewrite lookup_insert_eq. simpl. by rewrite <- (app_assoc _ [v]).
  - by rewrite lookup_insert_ne by congruence.
Qed.

Lemma copy_lines (l : list (string * list string)) (w : W) h :
  NoDup l.*1 -> represents w (MkResponse None h "") ->
  exists h', represents (fold_left (fun w kv => fold_left (fun w v => add_header kv.1 v w) kv.2 w) l w)
               (MkResponse None h' "") /\
    forall k, values h' k = values h k ++ values (list_to_map l) k.
Proof.
  revert w h. induction l as [|[k0 vs] l IH]; intros w h Hnd Hw; cbn [fold_left].
  { exists h. split; [done|]. intros k. simpl list_to_map. unfold values at 3. by rewrite lookup_empty, app_nil_r. }
  apply NoDup_cons in Hnd as [Hni Hnd].
  destruct (add_each k0 vs w h Hw) as (h1 & Hw1 & Hv1).
  destruct (IH _ h1 Hnd Hw1) as (h' & Hw' & Hv'). exists h'. split; [exact Hw'|].
  intros k. rewrite Hv', Hv1, <- app_assoc. f_equal. unfold values. cbn [list_to_map foldr].
  destruct (decide (k = k0)) as [->|Hne].
  - simpl. rewrite lookup_insert_eq, (not_elem_of_list_to_map_1 l k0 Hni). apply app_nil_r.
  - simpl. by rewrite lookup_insert_ne by congruence.
Qed.

(** The response carries the lines of [h], whatever the order of the range. *)
Lemma copy_header_ok (h : gmap string (list string)) (w : W) :
  represents w no_response ->
  exists h', represents (copy_header h w) (MkResponse None h' "") /\
    forall k, values h' k = values h k.
Proof.
  intros Hw. destruct (copy_lines (range_order h) w ∅) as (h' & Hw' & Hv); [|done|].
  - rewrite range_order_perm. apply NoDup_fst_map_to_list.
  - exists h'. split; [exact Hw'|]. intros k. rewrite Hv. unfold values.
    rewrite lookup_empty. cbn [default app].
    rewrite (list_to_map_proper (range_order h) (map_to_list h)), list_to_map_to_list; [done|..].
    + rewrite range_order_perm. apply NoDup_fst_map_to_list.
    + apply range_order_perm.
Qed.
End Copy.

(** ** The answer to a request *)

(** What the proxy says when it refuses. *)
Definition refusals : list (string * Z) :=
  [("Forbidden", 403); ("Proxy Authentication Required", 407); ("Too Many Requests", 429);
   ("Account Expired", 403); ("Bandwidth Limit Exceeded", 403); ("Connection Limit Reached", 429);
   ("Failed to connect to target", 502); ("Hijacking not supported", 500);
   ("Failed to hijack connection", 500); ("Bad Request: absolute URL required", 400);
   ("Failed to reach target", 502)].

Section Answers.
Context {F : Type} {GF : GoFloat F} {UC : Unicode} {AE : AuthEnv} {ZN : Zone} {UJ : UsageJSON}
  {MO : MapOrder} {W : Type} {RW : ResponseWriter W}.
Implicit Types s : Session F W.

Definition challenge : string := "Basic realm=" +:+ Pac.quoted "Proxy Authentication Required".

(** The client has been told [text], in one complete answer. *)
Definition refused s (text : string) s' : Prop :=
  exists code w, (text, code) ∈ refusals /\
    w = (if decide (code = 407) then set_header "Proxy-Authenticate" challenge (writer s) else writer s) /\
    writer s' = http_Error text code w /\ raw_out s' = raw_out s.

(** A handler that refuses when it stops with an error and says nothing else. *)
Definition answers {A} (m : GoM (Session F W) A) : Prop := forall s,
  match m s with
  | (Ok _, s') => writer s' = writer s /\ raw_out s' = raw_out s
  | (Err text, s') => refused s text s'
  end.

Lemma answers_ret {A} (a : A) : answers (mret a).
Proof. done. Qed.
Lemma answers_gets {A} (f : Session F W -> A) : answers (gets f).
Proof. done. Qed.
Lemma answers_call {A} (f : Accounts F -> A * Accounts F) : answers (call f).
Proof. intros s. unfold call. by destruct (f (accounts s)). Qed.
Lemma answers_count f : answers (count f).
Proof. done. Qed.
Lemma answers_bind {A B} (m : GoM (Session F W) A) (f : A -> GoM (Session F W) B) :
  answers m -> (forall a, answers (f a)) -> answers (m ≫= f).
Proof.
  intros Hm Hf s. unfold mbind, GoM_bind. specialize (Hm s).
  destruct (m s) as [[a|e] s1]; [|exact Hm]. destruct Hm as [Hw Hr]. specialize (Hf a s1).
  unfold refused in *. destruct (f a s1) as [[b|e] s2]; by rewrite <- Hw, <- Hr.
Qed.
Lemma answers_refuse text code :
  (text, code) ∈ refusals -> code <> 407 -> answers (refuse text code).
Proof.
  intros Hin Hc s. exists code. eexists. split; [done|]. by rewrite decide_False.
Qed.
Lemma answers_challenge {A} (m : GoM (Session F W) A) : answers (_ ← ask_for_credentials; m).
Proof.
  intros s. exists 407. eexists. split; [apply (bool_decide_unpack _); reflexivity|done].
Qed.

Ltac answer := repeat first
  [ apply answers_ret | apply answers_gets | apply answers_call | apply answers_count
  | apply answers_challenge | apply answers_refuse; [apply (bool_decide_unpack _); reflexivity|done]
  | apply answers_bind; [|intros ?] | case_match ].

Lemma answers_authenticate c r : answers (authenticate c r).
Proof. unfold authenticate. answer. Qed.
Lemma answers_admission c ip u user : answers (admission c ip u user).
Proof. unfold admission. answer. Qed.

(** *** Tunnels and forwarded requests *)

Definition connect_target (r : Request) : string :=
  if Contains (Host r) ":" then Host r else Host r +:+ ":443".
Definition established : string := "HTTP/1.1 200 Connection Established" +:+ crlf +:+ crlf.

(** The client is connected to its target; both connections are closed in the
    end. *)
Definition tunnelled (net : HNet) (r : Request) s s' : Prop :=
  dial net (connect_target r) = None /\ dialled s' = Some (connect_target r) /\
  writer s' = writer s /\ raw_out s' = raw_out s +:+ established /\
  client_closed s' = true /\ target_closed s' = true.

(** The client gets the target's response: its status, its body (all of it, unless
    the client's connection fails), and the values of each of its header lines. *)
Definition proxied (net : HNet) (r : Request) s s' : Prop :=
  forwarded s' = Some (out_header r) /\
  exists resp h, roundtrip net r (out_header r) = Ok resp /\
    100 <= t_status resp <= 999 /\
    represents (writer s') (res_done (t_status resp) h (body_copied net resp)) /\
    (strlen (t_body resp) <= body_sent net -> body_copied net resp = t_body resp) /\
    (forall k, values h k = values (t_header resp) k) /\ raw_out s' = raw_out s.

(** The target answers with what is no status: the client is not answered. *)
Definition broken_off (net : HNet) (r : Request) s s' : Prop :=
  forwarded s' = Some (out_header r) /\
  exists resp h, roundtrip net r (out_header r) = Ok resp /\ ~ 100 <= t_status resp <= 999 /\
    represents (writer s') (MkResponse None h "") /\ raw_out s' = raw_out s.

Lemma handleConnect_answer net c r user s :
  match handleConnect net c r user s with
  | (Ok _, s') => tunnelled net r s s'
  | (Err text, s') => refused s text s'
  end.
Proof.
  unfold handleConnect, tunnelled. fold (connect_target r).
  cbn [mbind GoM_bind count on_accounts modify].
  destruct (dial net (connect_target r)) as [e|] eqn:Ed.
  { eexists 502, _. by split; [apply (bool_decide_unpack _); reflexivity|]. }
  destruct (hijack net) as [[e|]|].
  - eexists 500, _. by split; [apply (bool_decide_unpack _); reflexivity|].
  - unfold with_defer. destruct (copied net) as [up down]. done.
  - eexists 500, _. by split; [apply (bool_decide_unpack _); reflexivity|].
Qed.

Lemma valid_status_spec code : reflect (100 <= code <= 999) (valid_status code).
Proof.
  apply iff_reflect. unfold valid_status. rewrite andb_true_iff, !Z.leb_le. lia.
Qed.

Lemma body_copied_all net resp :
  strlen (t_body resp) <= body_sent net -> body_copied net resp = t_body resp.
Proof. intros H. apply string_take_all. unfold strlen in H. lia. Qed.

Lemma handleHTTP_answer net c r user s :
  represents (writer s) no_response ->
  match handleHTTP net c r user s with
  | (Ok _, s') => proxied net r s s'
  | (Err text, s') => refused s text s' \/ text = status_panic /\ broken_off net r s s'
  end.
Proof.
  intros Hw. unfold handleHTTP, proxied, broken_off. fold (out_header r).
  cbn [mbind GoM_bind count on_accounts modify].
  destruct (URLIsAbs r); simpl negb; cbv iota.
  2: { left. eexists 400, _. by split; [apply (bool_decide_unpack _); reflexivity|]. }
  destruct (roundtrip net r (out_header r)) as [resp|e] eqn:Er.
  2: { left. eexists 502, _. by split; [apply (bool_decide_unpack _); reflexivity|]. }
  destruct (copy_header_ok (t_header resp) (writer s) Hw) as (h & Hc & Hv).
  destruct (valid_status_spec (t_status resp)) as [Hst|Hst].
  - split; [done|]. exists resp, h. split_and!; [done|lia|lia| |apply body_copied_all|done|done].
    apply (write_header_ok _ _ (t_status resp)) in Hc. by apply (write_ok _ _ (body_copied net resp)) in Hc.
  - right. split; [done|]. split; [done|]. by exists resp, h.
Qed.

Lemma refused_response s text s' :
  represents (writer s) no_response -> refused s text s' ->
  exists code h, (text, code) ∈ refusals /\ represents (writer s') (error_response text code h) /\
    (code = 407 -> h !! "Proxy-Authenticate" = Some [challenge]) /\ raw_out s' = raw_out s.
Proof.
  intros Hw (code & w & Hin & -> & -> & Hr). case_decide as Hc.
  - exists code, (<["Proxy-Authenticate" := [challenge]]> ∅). split_and!; [done| |done|done].
    apply http_Error_ok. by apply (set_header_ok _ _ "Proxy-Authenticate" challenge) in Hw.
  - exists code, ∅. split_and!; [done| |done|done]. by apply http_Error_ok.
Qed.
(** The PAC endpoint does not take the request. *)
Definition for_the_proxy s (r : Request) : Prop := pacHandler s = None \/ is_pac r = false.

Lemma handleRequest_proxy net c r s :
  for_the_proxy s r -> handleRequest net c r s = proxy_request net c r s.
Proof.
  unfold handleRequest, for_the_proxy, mbind, GoM_bind, gets.
  intros [Hp | Hp]; [by rewrite Hp|]. destruct (pacHandler s); by rewrite ?Hp.
Qed.

(** What the body that runs once the checks are passed does. *)
Definition served (net : HNet) (r : Request) s s' : Prop :=
  if String.eqb (Method r) "CONNECT" then tunnelled net r s s' else proxied net r s s'.

(** The outcome of a handler, read on the client's side. *)
Definition outcome_of (net : HNet) (r : Request) s (res : result unit) s' : Prop :=
  match res with
  | Ok _ => served net r s s'
  | Err text => refused s text s' \/
      String.eqb (Method r) "CONNECT" = false /\ text = status_panic /\ broken_off net r s s'
  end.

Lemma handlers_answer net c r user s :
  represents (writer s) no_response ->
  let '(res, s') := (if String.eqb (Method r) "CONNECT" then handleConnect net c r user
                     else handleHTTP net c r user) s in outcome_of net r s res s'.
Proof.
  intros Hw. unfold outcome_of, served. destruct (String.eqb _ _).
  - pose proof (handleConnect_answer net c r user s) as H.
    destruct (handleConnect _ _ _ _ s) as [[] ?]; [done|by left].
  - pose proof (handleHTTP_answer net c r user s Hw) as H.
    destruct (handleHTTP _ _ _ _ s) as [[] ?]; [done|tauto].
Qed.

(** The accounts are not part of the outcome. *)
Lemma outcome_of_accounts net r s s1 res s' f :
  writer s1 = writer s -> raw_out s1 = raw_out s ->
  outcome_of net r s1 res s' -> outcome_of net r s res (put_s_accounts f s').
Proof.
  unfold outcome_of, served, refused, tunnelled, proxied, broken_off. intros -> ->.
  destruct res; [destruct (String.eqb _ _)|]; done.
Qed.

Lemma proxy_request_answer net c r s res s' :
  represents (writer s) no_response -> proxy_request net c r s = (res, s') -> outcome_of net r s res s'.
Proof.
  intros Hw H. apply GoM_bind_inv in H as [(a & s0 & [= <- <-] & H)|(e & [=] & _)].
  destruct (negb _).
  { injection H as <- <-. left. exists 403. eexists. by split; [apply (bool_decide_unpack _); reflexivity|]. }
  pose proof (answers_authenticate c r s) as Ha.
  apply GoM_bind_inv in H as [([u user] & s1 & E & H)|(e & E & ->)]; rewrite E in Ha; [|by left].
  destruct Ha as [Hw1 Hr1].
  pose proof (answers_admission c (RemoteAddr r) u user s1) as Hb.
  apply GoM_bind_inv in H as [([] & s2 & E2 & H)|(e & E2 & ->)]; rewrite E2 in Hb.
  2: { left. unfold refused in *. by rewrite <- Hw1, <- Hr1. }
  destruct Hb as [Hw2 Hr2]. rewrite Hw1 in Hw2. rewrite Hr1 in Hr2.
  apply GoM_bind_inv in H as [([] & s3 & [= <-] & H)|(e & [=] & _)].
  apply with_defer_inv in H as (s4 & H & ->).
  apply GoM_bind_inv in H as [([] & s5 & [= <-] & H)|(e & [=] & _)].
  apply with_defer_inv in H as (s6 & H & ->).
  match type of H with _ ?x = _ => pose proof (handlers_answer net c r user x) as Ho; rewrite H in Ho end.
  eapply outcome_of_accounts; [..|eapply outcome_of_accounts; [done|done|apply Ho]]; [done|done|].
  cbn. by rewrite Hw2.
Qed.

(** C19: every request is answered, once and in full: one that is accepted opens
    a tunnel to its target (the port 443 unless it names one) or brings back the
    target's response; any other is told one of the eleven refusals, with its
    status, and a client without valid credentials is told how to authenticate. One
    request is not answered: that whose target responds with a status below 100. *)
Theorem handleRequest_answer net c r s :
  for_the_proxy s r -> represents (writer s) no_response ->
  let '(res, s') := handleRequest net c r s in
  match res with
  | Ok _ => if String.eqb (Method r) "CONNECT" then tunnelled net r s s' else proxied net r s s'
  | Err text =>
      (exists code h, (text, code) ∈ refusals /\ represents (writer s') (error_response text code h) /\
         (code = 407 -> h !! "Proxy-Authenticate" = Some [challenge]) /\ raw_out s' = raw_out s) \/
      Method r <> "CONNECT" /\ text = status_panic /\ broken_off net r s s'
  end.
Proof.
  intros Hp Hw. rewrite handleRequest_proxy by done.
  destruct (proxy_request net c r s) as [res s'] eqn:E.
  apply proxy_request_answer in E; [|done]. destruct res; [done|].
  destruct E as [E|(Hm & E)]; [left; by apply refused_response|right; by apply String.eqb_neq in Hm].
Qed.
End Answers.

(** ** Frames and safety *)

Section Frames.
Context {F : Type} {GF : GoFloat F} {UC : Unicode} {AE : AuthEnv} {ZN : Zone} {UJ : UsageJSON}
  {MO : MapOrder} {W : Type} {RW : ResponseWriter W}.
Implicit Types s : Session F W.

(** An observation that answering leaves alone. *)
Definition off_writer {O} (obs : Session F W -> O) : Prop := forall s w, obs (put_writer w s) = obs s.

Lemma keeps_respond {O} (obs : Session F W -> O) f : off_writer obs -> keeps obs (respond f).
Proof. intros Ho s. apply Ho. Qed.
Hint Resolve keeps_respond : keeps.

Lemma keeps_refuse {O} (obs : Session F W -> O) text code : off_writer obs -> keeps obs (refuse text code).
Proof. intros. unfold refuse. keep. Qed.
Hint Resolve keeps_refuse : keeps.

Lemma keeps_authenticate {O} (obs : Session F W -> O) c r :
  off_writer obs -> off_calls obs -> keeps obs (authenticate c r).
Proof. intros. unfold authenticate, ask_for_credentials. keep. Qed.

Lemma keeps_http_admission {O} (obs : Session F W -> O) c ip u user :
  off_writer obs -> off_calls obs -> keeps obs (admission c ip u user).
Proof. intros. unfold admission. keep. Qed.

Lemma conns_off_writer v : off_writer (conns (F := F) v).
Proof. done. Qed.

Hint Resolve conns_off_writer keeps_authenticate keeps_http_admission : keeps.

Lemma keeps_handleConnect net c r user v : keeps (conns (F := F) v) (handleConnect net c r user : GoM (Session F W) _).
Proof. unfold handleConnect. keep. Qed.
Lemma keeps_handleHTTP net c r user v : keeps (conns (F := F) v) (handleHTTP net c r user : GoM (Session F W) _).
Proof. unfold handleHTTP. keep. Qed.

(** What has gone out to a target. *)
Definition reached s : option string * option (gmap string (list string)) := (dialled s, forwarded s).

Lemma reached_off_writer : off_writer reached.
Proof. done. Qed.
Lemma reached_off_calls : off_calls reached.
Proof. done. Qed.
End Frames.

#[export] Hint Resolve keeps_respond keeps_refuse keeps_authenticate keeps_http_admission conns_off_writer
  keeps_handleConnect keeps_handleHTTP reached_off_writer reached_off_calls : keeps.

Section Safety.
Context {F : Type} {GF : GoFloat F} {UC : Unicode} {AE : AuthEnv} {ZN : Zone} {UJ : UsageJSON}
  {MO : MapOrder} {W : Type} {RW : ResponseWriter W}.
Implicit Types s : Session F W.

Lemma authenticate_Ok c r s u user s' :
  authenticate c r s = (Ok (u, user), s') ->
  exists p, parseProxyAuth r = Some (u, p) /\
    ValidateCredentials (store (accounts s)) u p (s_check c) (s_store c)
      = (Some user, store (accounts s')) /\
    bandwidth (accounts s') = bandwidth (accounts s).
Proof.
  unfold authenticate. destruct (parseProxyAuth r) as [[u' p]|]; [|done]. intros H.
  apply GoM_bind_Ok in H as (x & s1 & Hc & H). destruct x as [x|]; [|done]. injection H as -> -> <-.
  exists p. split; [done|]. unfold call, validate in Hc.
  destruct (ValidateCredentials _ _ _ _ _) as [y st]. by injection Hc as -> <-.
Qed.

Lemma http_admission_Ok c ip u user s s' :
  admission c ip u user s = (Ok tt, s') ->
  is_super ip (accounts s) (Some user) \/ within_limits c u (Some user) (accounts s).
Proof.
  unfold admission. intros H. apply GoM_bind_Ok in H as (a & s1 & [= <- <-] & H).
  destruct (_ && _) eqn:Esup.
  { left. apply andb_true_iff in Esup as [Hr Hi].
    apply String.eqb_eq in Hr. apply bool_decide_eq_true in Hi. by exists user. }
  right. apply GoM_bind_Ok in H as (ok1 & s2 & Hc & H).
  unfold call in Hc. unfold within_limits.
  destruct (check_rate u c (accounts s)) as [ok a1]. injection Hc as <- <-.
  destruct ok; simpl in H; [|done]. split; [done|].
  apply GoM_bind_Ok in H as (a & s3 & [= <- <-] & H). cbn [accounts put_accounts] in *.
  destruct (CheckExpiry (store a1) u (s_expiry c)); simpl in H; [|done]. split; [done|].
  apply GoM_bind_Ok in H as (ok2 & s4 & Hc & H). unfold call in Hc. simpl in Hc.
  destruct (check_allowance u (BandwidthLimitGB user) c a1) as [ok a2]. injection Hc as <- <-.
  destruct ok; simpl in H; [|done]. split; [done|].
  apply GoM_bind_Ok in H as (ok3 & s5 & Hc & H). unfold call in Hc. simpl in Hc.
  destruct (check_conn_limit u (MaxConnections user) c a2) as [ok a3]. injection Hc as <- <-.
  by destruct ok.
Qed.

(** A request that goes out passed every check first. *)
Lemma handleRequest_inv net c r s res s' :
  handleRequest net c r s = (res, s') ->
  reached s' = reached s \/
  exists u user s1 s2 a2 s6 a6,
    CheckIPAllowed (store (accounts s)) (RemoteAddr r) = true /\
    authenticate c r s = (Ok (u, user), s1) /\ admission c (RemoteAddr r) u user s1 = (Ok tt, s2) /\
    (if String.eqb (Method r) "CONNECT" then handleConnect net c r user else handleHTTP net c r user)
      (put_s_accounts a2 s2) = (res, s6) /\ s' = put_s_accounts a6 s6.
Proof.
  intros H. unfold handleRequest in H.
  apply GoM_bind_inv in H as [(h & s0 & [= <- <-] & H)|(e & [=] & _)].
  assert (proxy_request net c r s = (res, s') \/ reached s' = reached s) as [H'|]; [|clear H|by left].
  { destruct (pacHandler s) as [h|]; [|by left]. destruct (is_pac r); [|by left]. right.
    injection H as _ <-. by destruct (Pac.ServeHTTP _ _ _ _ _ _ _) as [[w h'] st]. }
  rename H' into H. apply GoM_bind_inv in H as [(a & s0 & [= <- <-] & H)|(e & [=] & _)].
  change (s_accounts s) with (accounts s) in H.
  destruct (CheckIPAllowed (store (accounts s)) (RemoteAddr r)); simpl negb in H; cbv iota in H.
  2: { left. by injection H as _ <-. }
  pose proof (keeps_authenticate reached c r reached_off_writer reached_off_calls s) as Hk.
  apply GoM_bind_inv in H as [([u user] & s1 & E & H)|(e & E & _)]; rewrite E in Hk; simpl in Hk; [|by left].
  pose proof (keeps_http_admission reached c (RemoteAddr r) u user reached_off_writer reached_off_calls s1) as Hk1.
  apply GoM_bind_inv in H as [([] & s2 & E1 & H)|(e & E1 & _)]; rewrite E1 in Hk1; simpl in Hk1;
    [right|left; congruence].
  apply GoM_bind_inv in H as [([] & s3 & [= <-] & H)|(e & [=] & _)].
  apply with_defer_inv in H as (s4 & H & ->).
  apply GoM_bind_inv in H as [([] & s5 & [= <-] & H)|(e & [=] & _)].
  apply with_defer_inv in H as (s6 & H & ->).
  exists u, user, s1, s2. eexists _, s6, _. split_and!; [done..|exact H|reflexivity].
Qed.

(** C3: no request reaches a target, by a tunnel or a round trip, unless the
    client's address is allowed, its credentials were accepted, and it is a super
    admin on a registered address or within every limit of the account. *)
Theorem handleRequest_authenticated net c r s res s' :
  handleRequest net c r s = (res, s') -> reached s' <> reached s ->
  CheckIPAllowed (store (accounts s)) (RemoteAddr r) = true /\
  exists u p user a, parseProxyAuth r = Some (u, p) /\
    ValidateCredentials (store (accounts s)) u p (s_check c) (s_store c) = (Some user, store a) /\
    bandwidth a = bandwidth (accounts s) /\
    (is_super (RemoteAddr r) a (Some user) \/ within_limits c u (Some user) a).
Proof.
  intros H Hne. apply handleRequest_inv in H as [|(u & user & s1 & s2 & a2 & s6 & a6 & Hip & Ha & Hb & _)]; [done|].
  split; [done|]. apply authenticate_Ok in Ha as (p & Hp & Hv & Hbw).
  exists u, p, user, (accounts s1). split_and!; [done..|]. by apply http_admission_Ok in Hb.
Qed.

Lemma handleHTTP_forwarded net c r user s :
  forwarded (handleHTTP net c r user s).2 = forwarded s \/
  forwarded (handleHTTP net c r user s).2 = Some (out_header r).
Proof.
  unfold handleHTTP. fold (out_header r). cbn [mbind GoM_bind count on_accounts modify].
  destruct (URLIsAbs r); simpl negb; cbv iota; [|by left].
  right. destruct (roundtrip net r (out_header r)); [|done]. by destruct (negb _).
Qed.
Lemma handleConnect_forwarded net c r user s :
  forwarded (handleConnect net c r user s).2 = forwarded s.
Proof.
  unfold handleConnect. cbn [mbind GoM_bind count on_accounts modify].
  destruct (dial _ _); [done|]. unfold with_defer.
  destruct (hijack net) as [[|]|], (copied net); done.
Qed.

(** C26: the target gets the client's header lines unchanged, except the nine
    hop-by-hop ones, which never leave the proxy; the credentials for the proxy
    are among these. *)
Theorem forwarded_header net c r s h :
  forwarded s = None -> forwarded (handleRequest net c r s).2 = Some h ->
  h !! "Proxy-Authorization" = None /\
  forall k, h !! k = if decide (k ∈ hop_by_hop) then None else req_header r !! k.
Proof.
  intros Hs Hf. assert (h = out_header r) as ->.
  { destruct (handleRequest net c r s) as [res s'] eqn:E. simpl in Hf.
    apply handleRequest_inv in E as [Hr|(u & user & s1 & s2 & a2 & s6 & a6 & _ & Ha & Hb & H & ->)].
    { injection Hr. congruence. }
    pose proof (keeps_authenticate forwarded c r ltac:(done) ltac:(done) s) as Hk. rewrite Ha in Hk.
    pose proof (keeps_http_admission forwarded c (RemoteAddr r) u user ltac:(done) ltac:(done) s1) as Hk1.
    rewrite Hb in Hk1. simpl in *.
    destruct (String.eqb (Method r) "CONNECT").
    - pose proof (handleConnect_forwarded net c r user (put_s_accounts a2 s2)) as Hc.
      rewrite H in Hc. simpl in Hc. congruence.
    - pose proof (handleHTTP_forwarded net c r user (put_s_accounts a2 s2)) as Hc.
      rewrite H in Hc. simpl in Hc. destruct Hc; congruence. }
  split; [apply lookup_delete_eq|apply out_header_lookup].
Qed.

(** C24: a request gives back the connection it counted, on every path. *)
Theorem handleRequest_conns net c r s v :
  (forall u, 0 <= conns_of (accounts s) u < 2^63 - 1) ->
  conns_of (accounts (handleRequest net c r s).2) v = conns_of (accounts s) v.
Proof.
  intros Hrange. assert (balanced (F := F) (proxy_request (W := W) net c r)) as Hb.
  { unfold proxy_request.
    apply balanced_bind; [apply balanced_keeps; intros; keep|intros a0].
    destruct (negb _); [apply balanced_keeps; intros; keep|].
    apply balanced_bind; [apply balanced_keeps; intros; keep|intros [u user]].
    apply balanced_bind; [apply balanced_keeps; intros; keep|intros []].
    apply balanced_bind; [apply balanced_keeps; intros; keep|intros []].
    apply balanced_with_defer; [apply balanced_keeps; intros; keep|].
    apply balanced_counted. intros. apply keeps_if; [apply keeps_handleConnect|apply keeps_handleHTTP]. }
  unfold handleRequest, mbind, GoM_bind, gets.
  destruct (pacHandler s) as [h|]; [destruct (is_pac r)|]; try exact (f_equal snd (Hb s Hrange v)).
  unfold serve_pac, modify. by destruct (Pac.ServeHTTP _ _ _ _ _ _ _) as [[w h'] st].
Qed.
End Safety.

(** ** Concrete requests *)

#[local] Existing Instance demo_env.

Definition demo_accounts : Accounts Q := MkAccounts demo_store (Some fresh_world) no_metrics.
Definition demo_session : Session Q Response :=
  MkSession demo_accounts None no_response "" None None false false None.
Definition demo_clock : SessionClock (@json_bytes plain_json) := clock_at 0.
Definition demo_response : TargetResponse := MkTargetResponse 200 {["Server" := ["nginx"]]} "hello".
Definition demo_net : HNet := MkHNet (fun _ => None) (Some None) (fun _ _ => Ok demo_response) (100, 2000) 3 0.

Definition demo_header : gmap string (list string) :=
  <["Accept" := ["text/html"]]> (<["Connection" := ["close"]]>
    {["Proxy-Authorization" := [basic "Bob" "secret"]]}).
Definition connect_request : Request :=
  MkRequest "CONNECT" "" false "example.org:443" "example.org" "10.1.2.3:4711" demo_header (fun _ => "").
Definition get_request : Request :=
  MkRequest "GET" "/" true "http://example.org/" "example.org" "10.1.2.3:4711" demo_header (fun _ => "").

#[local] Abbreviation connect_run := (handleRequest demo_net demo_clock connect_request demo_session).
#[local] Abbreviation get_run := (handleRequest demo_net demo_clock get_request demo_session).

(** The two requests as the client sees them. *)
Example connect_run_wire :
  raw_out connect_run.2 = established /\ dialled connect_run.2 = Some "example.org:443" /\
  usage_of (tracker (default fresh_world (bandwidth (accounts connect_run.2)))) "Bob" = (100, 2000, 2100, 0).
Proof. vm_compute. auto. Qed.
Example get_run_wire :
  writer get_run.2 = res_done 200 {["Server" := ["nginx"]]} "hel" /\
  forwarded get_run.2 = Some {["Accept" := ["text/html"]]}.
Proof. vm_compute. auto. Qed.

Lemma handleRequest_answer_witness :
  let '(res, s') := get_run in
  match res with
  | Ok _ => if String.eqb (Method get_request) "CONNECT" then tunnelled demo_net get_request demo_session s'
            else proxied demo_net get_request demo_session s'
  | Err text =>
      (exists code h, (text, code) ∈ refusals /\ represents (writer s') (error_response text code h) /\
         (code = 407 -> h !! "Proxy-Authenticate" = Some [challenge]) /\ raw_out s' = raw_out demo_session) \/
      Method get_request <> "CONNECT" /\ text = status_panic /\ broken_off demo_net get_request demo_session s'
  end.
Proof.
  apply (handleRequest_answer demo_net demo_clock get_request demo_session); [left; reflexivity|reflexivity].
Defined.

Lemma handleRequest_authenticated_witness :
  CheckIPAllowed demo_store "10.1.2.3:4711" = true /\
  exists u p user (a : Accounts Q), parseProxyAuth connect_request = Some (u, p) /\
    ValidateCredentials demo_store u p (s_check demo_clock) (s_store demo_clock) = (Some user, store a) /\
    bandwidth a = Some fresh_world /\
    (is_super "10.1.2.3:4711" a (Some user) \/ within_limits demo_clock u (Some user) a).
Proof.
  apply (handleRequest_authenticated demo_net demo_clock connect_request demo_session
           connect_run.1 connect_run.2); [apply surjective_pairing|vm_compute; discriminate].
Defined.

Lemma handleRequest_conns_witness :
  conns_of (accounts connect_run.2) "Bob" = conns_of demo_accounts "Bob".
Proof.
  apply (handleRequest_conns demo_net demo_clock connect_request demo_session "Bob").
  intros u. change (0 <= 0 < 2^63 - 1). lia.
Defined.

Lemma forwarded_header_witness :
  ({["Accept" := ["text/html"]]} : gmap string (list string)) !! "Proxy-Authorization" = None /\
  forall k, ({["Accept" := ["text/html"]]} : gmap string (list string)) !! k =
    if decide (k ∈ hop_by_hop) then None else demo_header !! k.
Proof.
  apply (forwarded_header demo_net demo_clock get_request demo_session);
    [reflexivity|vm_compute; reflexivity].
Defined.
