(* ===== verification/Spelling.v ===== *)
(** * The name the limits are kept under

    The HTTP proxy checks the limits under the name as the client spells it and counts
    what a request uses under the name of the account. Here: what that means over any
    requests the proxy has served. *)
From S2P Require Import HttpProxy HttpProxyFacts.
From S2P Require Import Prelude GoStrings GoFloat GoNet GoTime GoHttp RateLimiter Tracker TrackerFacts.
From S2P Require Import UserStore UserStoreFacts Accounts.
Open Scope Z_scope.

(** ** Handlers with an invariant on the accounts *)

Section Invariants.
Context {F : Type} {GF : GoFloat F} {UC : Unicode} {AE : AuthEnv} {ZN : Zone} {UJ : UsageJSON}.
Context {S : Type} {HA : HasAccounts F S}.
Context (P : Accounts F -> Prop) (E : string -> Prop).

(** On every path [P] holds again at the end; a value is one of [Q], an error one of [E]. *)
Definition safe {A} (Q : A -> Prop) (m : GoM S A) : Prop := forall s, P (accounts s) ->
  P (accounts (m s).2) /\ match (m s).1 with Ok a => Q a | Err e => E e end.

Lemma safe_bind {A B} (R : A -> Prop) (Q : B -> Prop) (m : GoM S A) (f : A -> GoM S B) :
  safe R m -> (forall a, R a -> safe Q (f a)) -> safe Q (m ≫= f).
Proof.
  intros Hm Hf s Hs. unfold mbind, GoM_bind. destruct (Hm s Hs) as [H1 H2].
  destruct (m s) as [[a|e] s1]; simpl in *; [by apply Hf|done].
Qed.

(** A step whose value does not matter. *)
Lemma safe_then {A B} (Q : B -> Prop) (m : GoM S A) (f : A -> GoM S B) :
  safe (fun _ => True) m -> (forall a, safe Q (f a)) -> safe Q (m ≫= f).
Proof. intros Hm Hf. by eapply safe_bind. Qed.

Lemma safe_with_defer {A} (Q : A -> Prop) (d : GoM S unit) (m : GoM S A) :
  safe (fun _ => True) d -> safe Q m -> safe Q (with_defer d m).
Proof.
  intros Hd Hm s Hs. unfold with_defer. destruct (Hm s Hs) as [H1 H2]. destruct (m s) as [r s1].
  simpl in *. split; [by apply Hd|done].
Qed.

Lemma safe_ret {A} (Q : A -> Prop) a : Q a -> safe Q (mret a).
Proof. by intros ? s. Qed.
Lemma safe_throw {A} (Q : A -> Prop) e : E e -> safe Q (throw (A := A) e).
Proof. by intros ? s. Qed.
Lemma safe_gets {A} (f : S -> A) : safe (fun _ => True) (gets f).
Proof. by intros s. Qed.
Lemma safe_modify f : (forall s, accounts (f s) = accounts s) -> safe (fun _ => True) (modify f).
Proof. intros Hf s. simpl. by rewrite Hf. Qed.
Lemma safe_call {A} (Q : A -> Prop) f : (forall a, P a -> P (f a).2 /\ Q (f a).1) -> safe Q (call f).
Proof.
  intros Hf s Hs. unfold call. destruct (Hf _ Hs) as [H1 H2]. destruct (f (accounts s)) as [x a].
  simpl in *. by rewrite accounts_put.
Qed.
Lemma safe_on_accounts f : (forall a, P a -> P (f a)) -> safe (fun _ => True) (on_accounts f).
Proof. intros Hf s Hs. unfold on_accounts, modify. simpl. rewrite accounts_put. auto. Qed.
End Invariants.

(** Decompose a handler whose steps keep the invariant. *)
Ltac safely := repeat lazymatch goal with
  | |- safe _ _ _ (mret _) => apply safe_ret; done
  | |- safe _ _ _ (gets _) => apply safe_gets
  | |- safe _ _ _ (modify _) => apply safe_modify; intros; reflexivity
  | |- safe _ _ _ (with_defer _ _) => apply safe_with_defer
  | |- safe _ _ _ (_ ≫= _) => apply safe_then; [|intros ?]
  | |- safe _ _ _ (match _ with _ => _ end) => case_match
  | |- _ => solve [eauto with safe nocore]
  end.

Create HintDb safe discriminated.

(** ** Accounts nothing is counted for *)

Section Spelling.
Context {F : Type} {GF : GoFloat F} {UC : Unicode} {MO : MapOrder} {AE : AuthEnv} {ZN : Zone} {UJ : UsageJSON}
  {W : Type} {RW : ResponseWriter W}.

Definition nothing : Z * Z * Z * Z := (0, 0, 0, 0).

(** The spelling [u] has no bucket and no usage. *)
Record unspent (us : gmap string User) (u : string) (a : Accounts F) : Prop := {
  un_users : users (store a) = us;
  un_cache : cache_sound (store a);
  un_bucket : buckets (rateLimiter (store a)) !! u = None;
  un_usage : forall w, bandwidth a = Some w -> usage_of (tracker w) u = nothing
}.

Lemma checkMonthlyReset_unused w u c wr :
  usage_of (tracker w) u = nothing -> usage_of (tracker (checkMonthlyReset w c wr)) u = nothing.
Proof.
  unfold nothing. intros H. unfold checkMonthlyReset. case_match; [done|]. rewrite saveToDiskLocked_tracker.
  revert H. unfold usage_of; simpl. rewrite map_lookup_imap.
  destruct (Tracker.users (tracker w) !! u) as [x|]; [|done]. simpl. unfold counts. simpl. by intros [= _ _ _ ->].
Qed.

Lemma getOrCreate_unused t u v now x t' :
  getOrCreate t v now = (x, t') -> usage_of t u = nothing ->
  (v = u -> counts x = nothing) /\ usage_of t' u = nothing.
Proof. intros Eg H. apply getOrCreate_counts in Eg as (Hx & _ & Hv). rewrite Hx, Hv. split; [by intros ->|done]. Qed.

Lemma CheckAllowance_unused w u v l c wr :
  usage_of (tracker w) u = nothing ->
  usage_of (tracker (CheckAllowance w v l c wr).2) u = nothing /\
  (v = u -> l < 2^33 -> (CheckAllowance w v l c wr).1 = true).
Proof.
  intros H. pose proof (checkMonthlyReset_unused w u c wr H) as H'. unfold CheckAllowance.
  destruct (Z.leb_spec l 0); [done|]. destruct (getOrCreate _ _ _) as [x t'] eqn:Eg.
  destruct (getOrCreate_unused _ _ _ _ _ _ Eg H') as [Hx Ht]. split; [done|]. intros Hv Hl. simpl.
  specialize (Hx Hv). injection Hx as _ _ -> _.
  rewrite wrap64_GB, wrap64_id by (unfold in_int64; lia). apply Z.ltb_lt. lia.
Qed.

Lemma CheckConnLimit_unused w u v n c :
  usage_of (tracker w) u = nothing ->
  usage_of (tracker (CheckConnLimit w v n c).2) u = nothing /\ (v = u -> (CheckConnLimit w v n c).1 = true).
Proof.
  intros H. unfold CheckConnLimit. destruct (Z.leb_spec n 0); [done|].
  destruct (getOrCreate _ _ _) as [x t'] eqn:Eg. destruct (getOrCreate_unused _ _ _ _ _ _ Eg H) as [Hx Ht].
  split; [done|]. intros Hv. specialize (Hx Hv). injection Hx as _ _ _ ->. by apply Z.ltb_lt.
Qed.

(** What is counted under another name. *)
Lemma counted_unused w t' u v x :
  u <> v -> usage_of t' u = nothing -> usage_of (tracker (with_tracker w (set_user t' v x))) u = nothing.
Proof. intros Hne H. cbn [tracker with_tracker]. by rewrite usage_of_set, decide_False. Qed.

Section Preservation.
Context (us : gmap string User) (u : string).

(** No account is called [u]. *)
Hypothesis Hus : forall k x, us !! k = Some x -> u <> Username x.

Let P := unspent us u.

Lemma increment_unspent v c a : u <> v -> P a -> P (increment_conns v c a).
Proof.
  intros Hne [H1 H2 H3 H4]. split; [done..|]. intros w'. simpl. destruct (bandwidth a) as [w|]; [|done].
  intros [= <-]. specialize (H4 w eq_refl). unfold IncrementConns. destruct (getOrCreate _ _ _) as [x t'] eqn:Eg.
  apply counted_unused; [done|]. by apply (getOrCreate_unused _ _ _ _ _ _ Eg).
Qed.

Lemma decrement_unspent v c a : u <> v -> P a -> P (decrement_conns v c a).
Proof.
  intros Hne [H1 H2 H3 H4]. split; [done..|]. intros w'. simpl. destruct (bandwidth a) as [w|]; [|done].
  intros [= <-]. specialize (H4 w eq_refl). unfold DecrementConns. destruct (getOrCreate _ _ _) as [x t'] eqn:Eg.
  destruct (getOrCreate_unused _ _ _ _ _ _ Eg H4) as [_ Ht]. case_match; [by apply counted_unused|done].
Qed.

Lemma record_unspent v up down c a : u <> v -> P a -> P (record_bytes v up down c a).
Proof.
  intros Hne [H1 H2 H3 H4]. split; [done..|]. intros w'. unfold record_bytes. cbn [bandwidth with_bandwidth].
  destruct (bandwidth a) as [w|]; [|done]. cbn [fmap option_fmap option_map]. intros [= <-].
  specialize (H4 w eq_refl). apply (checkMonthlyReset_unused w u (s_record c) (w_record c)) in H4.
  unfold RecordBytes. revert H4. generalize (checkMonthlyReset w (s_record c) (w_record c)). clear w. intros w H4.
  destruct (getOrCreate _ _ _) as [x t'] eqn:Eg. apply counted_unused; [done|].
  by apply (getOrCreate_unused _ _ _ _ _ _ Eg).
Qed.

Lemma login_unspent v p t1 t2 a :
  P a -> P (with_store a (ValidateCredentials (store a) v p t1 t2).2) /\
  forall x, (ValidateCredentials (store a) v p t1 t2).1 = Some x -> us !! ToLower v = Some x.
Proof.
  intros [H1 H2 H3 H4].
  pose proof (ValidateCredentials_cache (store a) v p t1 t2 H2) as Hc.
  pose proof (ValidateCredentials_users (store a) v p t1 t2) as Hu.
  pose proof (fun x => login_sound (store a) v p t1 t2 x H2) as Hl.
  assert (rateLimiter (snd (ValidateCredentials (store a) v p t1 t2)) = rateLimiter (store a)) as Hr
    by (unfold ValidateCredentials; by repeat case_match).
  destruct (ValidateCredentials _ _ _ _ _) as [o s']. simpl in *. split.
  - split; simpl; [congruence|done|by rewrite Hr|done].
  - intros x ->. rewrite <- H1. by apply Hl.
Qed.

Lemma validate_unspent v p c a :
  P a -> P (validate v p c a).2 /\
  forall x, (validate v p c a).1 = Some x -> us !! ToLower v = Some x.
Proof.
  intros HP. pose proof (login_unspent v p (s_check c) (s_store c) a HP) as H. unfold validate.
  by destruct (ValidateCredentials _ _ _ _ _).
Qed.

Lemma pac_unspent h (w : W) r now t1 t2 a :
  P a -> P (with_store a (Pac.ServeHTTP h (store a) w r now t1 t2).2).
Proof.
  intros HP. assert (P (with_store a (store a))) as Hsame by (by destruct a).
  unfold Pac.ServeHTTP. destruct (if 0 <? _ then _ else _) as [ok h1]. repeat (case_match; [done|]).
  destruct (String.eqb (req_query r "pass") ""); [done|].
  match goal with |- context [ValidateCredentials (store a) ?v ?p t1 t2] =>
    pose proof (login_unspent v p t1 t2 a HP) as [Hv _];
    destruct (ValidateCredentials (store a) v p t1 t2) as [[x|] s'] end; done.
Qed.

Lemma check_rate_unspent v c a : P a -> P (check_rate v c a).2.
Proof.
  intros [H1 H2 H3 H4]. unfold check_rate, CheckRateLimit, Allow.
  destruct (users (store a) !! _) as [x|]; [|by split]. destruct (_ <=? 0); [by split|].
  destruct (buckets (rateLimiter (store a)) !! v) as [b|] eqn:Eb; [|by destruct a as [[]]; split].
  destruct (take_token b _) as [ok b']. split; [done..| |done]. simpl. rewrite lookup_insert_ne; [done|congruence].
Qed.

Lemma check_allowance_unspent v l c a : P a -> P (check_allowance v l c a).2.
Proof.
  intros HP. unfold check_allowance. destruct (bandwidth a) as [w|] eqn:Eb; [|done].
  destruct HP as [H1 H2 H3 H4]. pose proof (CheckAllowance_unused w u v l (s_allowance c) (w_allowance c) (H4 w Eb)) as [Hu _].
  destruct (CheckAllowance _ _ _ _ _) as [ok w']. split; [done..|]. by intros ? [= <-].
Qed.

Lemma check_conn_limit_unspent v n c a : P a -> P (check_conn_limit v n c a).2.
Proof.
  intros HP. unfold check_conn_limit. destruct (bandwidth a) as [w|] eqn:Eb; [|done].
  destruct HP as [H1 H2 H3 H4]. pose proof (CheckConnLimit_unused w u v n (s_connlimit c) (H4 w Eb)) as [Hu _].
  destruct (CheckConnLimit _ _ _ _) as [ok w']. split; [done..|]. by intros ? [= <-].
Qed.

Lemma on_metrics_unspent f a : P a -> P (on_metrics f a).
Proof. by intros []. Qed.
End Preservation.

(** ** Requests *)

(** The reasons of a refusal that are limits. *)
Definition is_limit (reason : string) : bool :=
  existsb (String.eqb reason) ["Too Many Requests"; "Bandwidth Limit Exceeded"; "Connection Limit Reached"].

Section Handlers.
Context (us : gmap string User) (u : string).
Hypothesis Hus : forall k x, us !! k = Some x -> u <> Username x.
Context (E : string -> Prop).
Hypothesis HE : forall e, is_limit e = false -> E e.

Local Abbreviation okay := (safe (F := F) (unspent us u) E).

Lemma okay_count f : okay (fun _ => True) (count f : GoM (Session F W) unit).
Proof. apply safe_on_accounts. intros a. apply on_metrics_unspent. Qed.

Lemma okay_throw {A} (Q : A -> Prop) e : is_limit e = false -> okay Q (throw e : GoM (Session F W) A).
Proof. intros He. by apply safe_throw, HE. Qed.

Lemma okay_refuse text code : is_limit text = false -> okay (fun _ => True) (refuse (W := W) text code).
Proof. intros He. apply safe_then; [by apply safe_modify|]. intros _. by apply okay_throw. Qed.

Hint Resolve okay_count : safe.
Hint Extern 1 (safe _ _ _ (throw _)) => apply okay_throw; reflexivity : safe.
Hint Extern 1 (safe _ _ _ (refuse _ _)) => apply okay_refuse; reflexivity : safe.
Hint Extern 1 (safe _ _ _ (respond _)) => by apply safe_modify : safe.

Lemma okay_record v up down c :
  u <> v -> okay (fun _ => True) (on_accounts (record_bytes v up down c) : GoM (Session F W) unit).
Proof. intros Hne. apply safe_on_accounts. intros a. by apply record_unspent. Qed.
Hint Resolve okay_record : safe.

Lemma okay_handleConnect net c r user :
  u <> Username user -> okay (fun _ => True) (handleConnect (W := W) net c r user).
Proof. intros Hne. unfold handleConnect. safely. Qed.

Lemma okay_handleHTTP net c r user :
  u <> Username user -> okay (fun _ => True) (handleHTTP (W := W) net c r user).
Proof. intros Hne. unfold handleHTTP. safely. Qed.

Lemma okay_authenticate c r :
  okay (fun vx => us !! ToLower vx.1 = Some vx.2 /\ exists p, parseProxyAuth r = Some (vx.1, p))
    (authenticate (W := W) c r).
Proof.
  assert (forall {A} (Q : A -> Prop) k, okay Q (_ ← count (m_auth_failure k); _ ← ask_for_credentials; throw "")) as Hno.
  { intros A Q k. apply safe_then; [apply okay_count|intros _]. apply safe_then; [|intros _; by apply okay_throw].
    unfold ask_for_credentials. apply safe_then; [by apply safe_modify|intros _]. by apply okay_refuse. }
  unfold authenticate. destruct (parseProxyAuth r) as [[v p]|] eqn:Ep; [|apply Hno].
  apply (safe_bind _ _ (fun o => forall x, o = Some x -> us !! ToLower v = Some x)).
  - apply safe_call. intros a. apply validate_unspent.
  - intros [x|] Hx; [|apply Hno]. apply safe_ret. split; [by apply Hx|by exists p].
Qed.

(** With the spelling [u], an account of that name passes every limit. *)
Lemma admission_passes c ip user :
  us !! ToLower u = Some user -> BandwidthLimitGB user < 2^33 ->
  (forall s : UserStore F, users s = us -> CheckExpiry s u (s_expiry c) = true) ->
  okay (fun _ => True) (admission (W := W) c ip u user).
Proof.
  intros Hu Hl Hx. unfold admission.
  assert (forall {A} (f : Accounts F -> GoM (Session F W) A),
    (forall s : Session F W, unspent us u (accounts s) -> okay (fun _ => True) (f (accounts s))) ->
    okay (fun _ => True) (s ← gets accounts; f s)) as Hgets.
  { intros A f Hf s Hs. unfold mbind, GoM_bind, gets. by apply Hf. }
  apply Hgets. intros s0 _. destruct (_ && _); [by apply safe_ret|].
  apply (safe_bind _ _ (fun ok => ok = true)).
  { apply safe_call. intros a Ha. split; [by apply check_rate_unspent|]. destruct Ha as [H1 _ H3 _].
    unfold check_rate, CheckRateLimit, Allow. rewrite H1, Hu, H3. by destruct (_ <=? 0). }
  intros ok ->. simpl negb. cbv iota. apply Hgets. intros s1 [H1 _ _ _]. rewrite Hx by done. simpl negb. cbv iota.
  apply (safe_bind _ _ (fun ok => ok = true)).
  { apply safe_call. intros a Ha. split; [by apply check_allowance_unspent|]. destruct Ha as [_ _ _ H4].
    unfold check_allowance. destruct (bandwidth a) as [w|]; [|done].
    pose proof (CheckAllowance_unused w u u (BandwidthLimitGB user) (s_allowance c) (w_allowance c) (H4 w eq_refl)) as [_ H].
    specialize (H eq_refl Hl). by destruct (CheckAllowance _ _ _ _ _). }
  intros ok ->. simpl negb. cbv iota. apply (safe_bind _ _ (fun ok => ok = true)).
  { apply safe_call. intros a Ha. split; [by apply check_conn_limit_unspent|]. destruct Ha as [_ _ _ H4].
    unfold check_conn_limit. destruct (bandwidth a) as [w|]; [|done].
    pose proof (CheckConnLimit_unused w u u (MaxConnections user) (s_connlimit c) (H4 w eq_refl)) as [_ H].
    specialize (H eq_refl). by destruct (CheckConnLimit _ _ _ _). }
  intros ok ->. by apply safe_ret.
Qed.

(** A request whose admission is safe. *)
Lemma okay_request net c r :
  (forall v p x, parseProxyAuth r = Some (v, p) -> us !! ToLower v = Some x ->
     okay (fun _ => True) (admission (W := W) c (RemoteAddr r) v x)) ->
  okay (fun _ => True) (handleRequest (W := W) net c r).
Proof.
  intros Hadm. assert (okay (fun _ => True) (proxy_request (W := W) net c r)) as Hp.
  { unfold proxy_request. apply safe_then; [apply safe_gets|]. intros a0.
    destruct (negb _); [apply safe_then; [apply okay_count|intros _; by apply okay_refuse]|].
    eapply safe_bind; [apply okay_authenticate|]. intros [v x] [Hx [p Hpa]]. simpl in Hx, Hpa.
    apply safe_then; [by eapply Hadm|intros _]. pose proof (Hus _ _ Hx) as Hne.
    apply safe_then; [apply okay_count|intros _]. apply safe_with_defer; [apply okay_count|].
    apply safe_then; [apply safe_on_accounts; intros a; by apply increment_unspent|intros _].
    apply safe_with_defer; [apply safe_on_accounts; intros a; by apply decrement_unspent|].
    case_match; [by apply okay_handleConnect|by apply okay_handleHTTP]. }
  unfold handleRequest. apply safe_then; [apply safe_gets|]. intros [h|]; [|done].
  destruct (is_pac r); [|done]. intros s Hs. unfold serve_pac, modify. cbn [fst snd]. split; [|done].
  pose proof (pac_unspent us u h (writer s) r (t_pac net) (s_check c) (s_store c) (accounts s) Hs) as H.
  by destruct (Pac.ServeHTTP _ _ _ _ _ _ _) as [[w h'] st].
Qed.
End Handlers.

(** ** The life of the proxy *)

(** A request as the proxy meets it: any network and clock, any state of the PAC
    handler, any writer. *)
Record visit := MkVisit {
  v_net : HNet;
  v_clock : SessionClock json_bytes;
  v_request : Request;
  v_pac : option Pac.Handler;
  v_writer : W
}.

Definition visit_session (a : Accounts F) (v : visit) : Session F W :=
  MkSession a (v_pac v) (v_writer v) "" None None false false None.

Definition serve_visit (v : visit) (s : Session F W) : result unit * Session F W :=
  handleRequest (v_net v) (v_clock v) (v_request v) s.

(** The accounts after some requests, whoever sent them. *)
Definition served (a : Accounts F) (vs : list visit) : Accounts F :=
  fold_left (fun a v => accounts (serve_visit v (visit_session a v)).2) vs a.

Lemma served_unspent us u vs a :
  (forall k x, us !! k = Some x -> u <> Username x) -> unspent us u a -> unspent us u (served a vs).
Proof.
  intros Hus. revert a. unfold served. induction vs as [|v vs IH]; intros a Ha; [done|]. simpl. apply IH.
  refine (proj1 (okay_request us u Hus (fun _ => True) _ (v_net v) (v_clock v) (v_request v) _ (visit_session a v) Ha));
    [done|].
  intros n p x _ _. unfold admission.
  assert (forall text code, safe (unspent us u) (fun _ => True) (fun _ => True) (refuse (F := F) (W := W) text code)) as Hr.
  { intros text code. apply safe_then; [by apply safe_modify|intros _]. by apply safe_throw. }
  assert (forall f, safe (unspent us u) (fun _ => True) (fun _ => True) (count f : GoM (Session F W) unit)) as Hcount
    by (intros f; by apply okay_count).
  assert (forall f, (forall a, unspent us u a -> unspent us u (f a).2) ->
    safe (unspent us u) (fun _ => True) (fun _ => True) (call f : GoM (Session F W) bool)) as Hcall.
  { intros f Hf. apply safe_call. by split; [apply Hf|]. }
  apply safe_then; [apply safe_gets|intros s0]. destruct (_ && _); [by apply safe_ret|].
  apply safe_then; [apply Hcall; intros; by apply check_rate_unspent|intros ok].
  destruct (negb ok); [apply safe_then; [done|intros _; apply Hr]|].
  apply safe_then; [apply safe_gets|intros s1]. destruct (negb _); [apply Hr|].
  apply safe_then; [apply Hcall; intros; by apply check_allowance_unspent|intros ok2]. destruct (negb ok2); [apply Hr|].
  apply safe_then; [apply Hcall; intros; by apply check_conn_limit_unspent|intros ok3].
  destruct (negb ok3); [apply Hr|by apply safe_ret].
Qed.

(** C18: The limits are checked under the name as the client spells it, and the usage is
    kept under the name of the account. So with a spelling that logs in, but is the exact
    name of no account, whatever requests the HTTP proxy has served, those of this client
    included, and whatever they moved: nothing is counted for the spelling, and the next
    request with it is refused for no limit, neither on rate nor on volume nor on
    connections. *)
Theorem limits_by_spelling (a : Accounts F) (vs : list visit) (v : visit) (u p : string) (user : User) :
  unspent (users (store a)) u a -> (forall k x, users (store a) !! k = Some x -> u <> Username x) ->
  GetUser (store a) u = Some user -> BandwidthLimitGB user < 2^33 ->
  CheckExpiry (store a) u (s_expiry (v_clock v)) = true -> parseProxyAuth (v_request v) = Some (u, p) ->
  (forall w, bandwidth (served a vs) = Some w -> usage_of (tracker w) u = nothing) /\
  forall e, (serve_visit v (visit_session (served a vs) v)).1 = Err e -> is_limit e = false.
Proof.
  intros Ha Hus Hu Hl Hx Hp. pose proof (served_unspent _ _ vs _ Hus Ha) as Hs. split; [apply Hs|].
  intros e He. unfold serve_visit in He.
  destruct (okay_request _ u Hus (fun e => is_limit e = false) ltac:(done) (v_net v) (v_clock v) (v_request v))
    with (s := visit_session (served a vs) v) as [_ H]; [|exact Hs|by rewrite He in H].
  intros n p' x. rewrite Hp. intros [= <- <-] Hux. unfold GetUser in Hu. rewrite Hu in Hux. injection Hux as <-.
  apply admission_passes; [done..|]. intros s Es. unfold CheckExpiry in *. by rewrite Es.
Qed.
End Spelling.

(** ** Concrete requests *)

#[local] Existing Instance demo_env.

(** An account that has used up its gigabyte and its two connections. *)
Definition paid : User := MkUser "Bob" "user" "hash" 60 true "" 1 0 2 "".
Definition paid_store : UserStore Q :=
  MkUserStore {["bob" := paid]} [] [] None (SetLimit NewRateLimiter "Bob" 60 0) ∅.
Definition spent_world : World :=
  MkWorld (MkTracker {["Bob" := MkUserUsage 0 (2^31) (2^31) "1970-01-01T00:00:00Z" 2]}
             "1970-01" "usage.json" false) (Err "no such file").
Definition spent : Accounts Q := MkAccounts paid_store (Some spent_world) no_metrics.

(** The client connects; its tunnel moves four gigabytes. *)
Definition connects_as (name : string) : visit :=
  MkVisit (MkHNet (fun _ => None) (Some None) (fun _ _ => Err "") (2^31, 2^31) 0 0) demo_clock
    (MkRequest "CONNECT" "" false "example.org:443" "example.org" "10.1.2.3:4711"
       {["Proxy-Authorization" := [basic name "secret"]]} (fun _ => "")) None no_response.

Example spent_is_refused :
  (serve_visit (connects_as "Bob") (visit_session spent (connects_as "Bob"))).1 = Err "Bandwidth Limit Exceeded".
Proof. vm_compute. reflexivity. Qed.

Example other_spelling_connects :
  (serve_visit (connects_as "bob") (visit_session spent (connects_as "bob"))).1 = Ok tt.
Proof. vm_compute. reflexivity. Qed.

Lemma limits_by_spelling_witness :
  (forall w, bandwidth (served spent [connects_as "bob"; connects_as "Bob"]) = Some w ->
     usage_of (tracker w) "bob" = nothing) /\
  forall e, (serve_visit (connects_as "bob")
    (visit_session (served spent [connects_as "bob"; connects_as "Bob"]) (connects_as "bob"))).1 = Err e ->
    is_limit e = false.
Proof.
  apply (limits_by_spelling spent [connects_as "bob"; connects_as "Bob"] (connects_as "bob") "bob" "secret" paid).
  - split; [done| |done|by intros w [= <-]]. intros key e H. discriminate H.
  - intros k x H. change (({["bob" := paid]} : gmap string User) !! k = Some x) in H.
    apply lookup_singleton_Some in H as [_ <-]. done.
  - reflexivity.
  - done.
  - reflexivity.
  - vm_compute. reflexivity.
Defined.
