(* ===== verification/Sessions.v ===== *)
(** * Sessions of one user side by side

    Both proxies ask [CheckAllowance], then [CheckConnLimit], and later call
    [IncrementConns], [RecordBytes] and [DecrementConns], each in a critical section of
    its own ([internal/httpproxy/server.go], [internal/socks5/server.go]).
    [session_step] interleaves any number of sessions of one user at the granularity
    of these calls; what sessions of other users do in between is [step_other]. The
    sessions are those that the limits apply to: not those of a super admin at a
    registered address, who skips the checks, nor those under another spelling of the
    name, for which see [Spelling]. *)
From S2P Require Import Prelude GoStrings GoFloat GoNet GoTime RateLimiter UserStore Tracker.
From S2P Require Import TrackerFacts Accounts UserStoreFacts.
Open Scope Z_scope.

(** Where a session is: before the checks, past that of the quota, past that of the
    connections, counted, its traffic recorded, or over. *)
Inductive phase := Arrived | Allowed | Cleared | Opened | Metered | Left.

#[export] Instance phase_eq_dec : EqDecision phase.
Proof. solve_decision. Defined.

Section Interleaving.
Context {F : Type} {GF : GoFloat F} {UC : Unicode} {AE : AuthEnv} {ZN : Zone} {UJ : UsageJSON}.
Variable u : string.
Variables (limitGB maxConns most : Z).

Record Sessions := MkSessions { shared : Accounts F; phases : list phase }.

(** The bytes counted for [u] this month. *)
Definition bytes_of (a : Accounts F) : Z :=
  match a.(bandwidth) with Some w => total_of w u | None => 0 end.

(** No session moves more than [most] bytes; one that reaches no target gives its
    connection back without traffic. *)
Inductive session_step : Sessions -> Sessions -> Prop :=
| step_allowance a ps i c : ps !! i = Some Arrived ->
    session_step (MkSessions a ps)
      (MkSessions (check_allowance u limitGB c a).2
         (<[i := if (check_allowance u limitGB c a).1 then Allowed else Left]> ps))
| step_check a ps i c : ps !! i = Some Allowed ->
    session_step (MkSessions a ps)
      (MkSessions (check_conn_limit u maxConns c a).2
         (<[i := if (check_conn_limit u maxConns c a).1 then Cleared else Left]> ps))
| step_increment a ps i c : ps !! i = Some Cleared ->
    session_step (MkSessions a ps) (MkSessions (increment_conns u c a) (<[i := Opened]> ps))
| step_record a ps i c up down : ps !! i = Some Opened -> 0 <= up -> 0 <= down -> up + down <= most ->
    session_step (MkSessions a ps) (MkSessions (record_bytes u up down c a) (<[i := Metered]> ps))
| step_decrement a ps i c q : ps !! i = Some q -> q = Opened \/ q = Metered ->
    session_step (MkSessions a ps) (MkSessions (decrement_conns u c a) (<[i := Left]> ps))
| step_other a a' ps : has_meter a' = has_meter a -> conns_of a' u = conns_of a u ->
    bytes_of a' = bytes_of a \/ bytes_of a' = 0 ->
    session_step (MkSessions a ps) (MkSessions a' ps).

(** The connections that are open. *)
Definition open_in (ps : list phase) : Z := count_of Opened ps + count_of Metered ps.

(** All sessions still to come, none counted. *)
Definition starts (s : Sessions) : Prop :=
  has_meter (shared s) = true /\ conns_of (shared s) u = 0 /\
  Forall (eq Arrived) (phases s) /\ zlen (phases s) < 2^63 - 1.

Lemma count_of_none p ps : Forall (eq Arrived) ps -> p <> Arrived -> count_of p ps = 0.
Proof. intros Ha Hp. apply count_of_other. eapply Forall_impl; [exact Ha|]. congruence. Qed.

(** ** The counter is exact *)

Definition counted (s : Sessions) : Prop :=
  has_meter (shared s) = true /\ conns_of (shared s) u = open_in (phases s) /\
  zlen (phases s) < 2^63 - 1.

Lemma starts_counted s : starts s -> counted s.
Proof.
  intros (Hm & Hc & Ha & Hl). split; [done|]. split; [|done]. rewrite Hc.
  unfold open_in. by rewrite !(count_of_none _ _ Ha).
Qed.

Lemma meter_bandwidth (a : Accounts F) : has_meter a = true -> exists w, bandwidth a = Some w.
Proof. unfold has_meter. destruct (bandwidth a); [by eexists|done]. Qed.

Lemma open_bounds ps : 0 <= open_in ps <= zlen ps.
Proof.
  unfold open_in. induction ps as [|p ps IH]; [done|]. rewrite !count_of_cons. simpl length.
  unfold tally. repeat case_bool_decide; try congruence; lia.
Qed.

Lemma session_step_counted s s' : counted s -> session_step s s' -> counted s'.
Proof.
  intros (Hm & Hc & Hl) Hs. pose proof (open_bounds (phases s)) as Hb.
  destruct Hs as [a ps i c Hi|a ps i c Hi|a ps i c Hi|a ps i c up down Hi Hup Hdown Hmost|a ps i c q Hi Hq|a a' ps Hm' Hc' _];
    unfold counted, open_in in *; cbn [shared phases] in *; rewrite ?length_insert, ?(count_of_insert _ _ _ _ _ Hi).
  - destruct (check_allowance_same u limitGB c a) as [H1 H2]. rewrite H1, H2.
    split_and!; [done| |done]. destruct (check_allowance u limitGB c a).1; unfold tally; simpl; lia.
  - destruct (check_conn_limit_same u maxConns c a) as [H1 H2]. rewrite H1, H2.
    split_and!; [done| |done]. destruct (check_conn_limit u maxConns c a).1; unfold tally; simpl; lia.
  - destruct (meter_bandwidth a Hm) as [w Hw].
    rewrite (increment_conns_conns u c a u w Hw) by lia. rewrite decide_True by done.
    unfold tally; simpl. split_and!; [|lia|done].
    unfold has_meter, increment_conns. cbn [bandwidth with_bandwidth]. by rewrite Hw.
  - destruct (record_bytes_same u up down c a) as [H1 H2]. rewrite H1, H2. unfold tally; simpl. split_and!; done || lia.
  - destruct (meter_bandwidth a Hm) as [w Hw]. pose proof (count_of_pos _ _ _ Hi).
    pose proof (count_of_bounds Opened ps). pose proof (count_of_bounds Metered ps).
    rewrite (decrement_conns_conns u c a u w Hw) by (destruct Hq as [-> | ->]; lia). rewrite decide_True by done.
    split_and!; [|destruct Hq as [-> | ->]; unfold tally; simpl; lia|done].
    unfold has_meter, decrement_conns. cbn [bandwidth with_bandwidth]. by rewrite Hw.
  - by rewrite Hm', Hc'.
Qed.

Lemma run_counted s s' : starts s -> rtc session_step s s' -> counted s'.
Proof.
  intros Hs Hrun. apply starts_counted in Hs. induction Hrun; [done|].
  eauto using session_step_counted.
Qed.

(** Under any interleaving of any number of sessions the tracker's count of a
    user's connections is the number of sessions between their increment and
    their decrement. *)
Theorem connection_count_exact (s s' : Sessions) :
  starts s -> rtc session_step s s' ->
  conns_of (shared s') u = open_in (phases s').
Proof. intros H1 H2. by destruct (run_counted _ _ H1 H2) as (_ & Hc & _). Qed.

(** ** The limit *)

Lemma check_conn_limit_compares (a : Accounts F) c :
  has_meter a = true -> 0 < maxConns ->
  (check_conn_limit u maxConns c a).1 = (conns_of a u <? maxConns).
Proof.
  intros Hm Hpos. destruct (meter_bandwidth a Hm) as [w Hw].
  unfold check_conn_limit, conns_of. rewrite Hw. unfold CheckConnLimit.
  rewrite (proj2 (Z.leb_gt _ _)) by done. destruct (getOrCreate _ _ _) as [x t'] eqn:Eg.
  cbn [fst]. by rewrite (proj1 (getOrCreate_conns _ _ _ _ _ u Eg)).
Qed.

(** A schedule in which at most [window] sessions are between the two calls. *)
Definition narrow_step (window : Z) (s s' : Sessions) : Prop :=
  session_step s s' /\ count_of Cleared (phases s') <= window.

Definition within (window : Z) (s : Sessions) : Prop :=
  open_in (phases s) + count_of Cleared (phases s) <= maxConns + window - 1.

Lemma narrow_step_within window s s' :
  0 < maxConns -> counted s -> within window s -> narrow_step window s s' -> within window s'.
Proof.
  intros Hpos (Hm & Hc & _) Hw [Hs Hn].
  destruct Hs as [a ps i c Hi|a ps i c Hi|a ps i c Hi|a ps i c up down Hi Hup Hdown Hmost|a ps i c q Hi Hq|a a' ps Hm' Hc' _];
    unfold within, open_in in *; cbn [shared phases] in *; try done;
    rewrite ?(count_of_insert _ _ _ _ _ Hi) in *.
  - destruct (check_allowance u limitGB c a).1; unfold tally in *; simpl in *; lia.
  - rewrite check_conn_limit_compares in * by done. unfold tally in *.
    destruct (Z.ltb_spec (conns_of a u) maxConns); simpl in *; lia.
  - unfold tally; simpl; lia.
  - unfold tally; simpl; lia.
  - destruct Hq as [-> | ->]; unfold tally; simpl; lia.
Qed.

Lemma starts_within window s : 0 < maxConns -> 1 <= window -> starts s -> within window s.
Proof.
  intros ? ? (_ & _ & Ha & _). unfold within, open_in. rewrite !(count_of_none _ _ Ha) by done. lia.
Qed.

Lemma narrow_run_within window s s' :
  0 < maxConns -> 1 <= window -> starts s -> rtc (narrow_step window) s s' -> counted s' /\ within window s'.
Proof.
  intros Hpos Hwin Hs Hrun. pose proof (starts_within window s Hpos Hwin Hs) as Hw.
  apply starts_counted in Hs. induction Hrun as [|s1 s2 s3 Hst _ IH]; [done|].
  apply IH; [by apply (session_step_counted s1), Hst|by apply (narrow_step_within window s1)].
Qed.

(** C16: the connection limit holds up to the race between its two calls: as long
    as at most [window] sessions are between check and increment at a time, no
    more than [maxConns + window - 1] connections are open; one at a time, the
    limit is exact. *)
Theorem connection_limit_bound (window : Z) (s s' : Sessions) :
  0 < maxConns -> 1 <= window -> starts s -> rtc (narrow_step window) s s' ->
  open_in (phases s') <= maxConns + window - 1.
Proof.
  intros Hpos Hwin Hs Hrun. destruct (narrow_run_within window s s' Hpos Hwin Hs Hrun) as [_ H].
  unfold within in H. pose proof (count_of_bounds Cleared (phases s')). lia.
Qed.

(** ** The quota *)

Lemma total_usage w v : total_of w v = (usage_of (tracker w) v).1.2.
Proof. unfold total_of, usage_of. by destruct (Tracker.users (tracker w) !! v). Qed.

Lemma reset_bytes w c wr v :
  total_of (checkMonthlyReset w c wr) v = total_of w v \/ total_of (checkMonthlyReset w c wr) v = 0.
Proof.
  unfold checkMonthlyReset. destruct (String.eqb _ _); [by left|right].
  unfold total_of. rewrite saveToDiskLocked_tracker. cbn. rewrite map_lookup_imap.
  by destruct (Tracker.users (tracker w) !! v).
Qed.

Lemma create_bytes w v now x t' :
  getOrCreate (tracker w) v now = (x, t') ->
  total_of (with_tracker w t') u = total_of w u /\
  forall n, total_of (with_tracker w (set_user t' v (with_conns x n))) u = total_of w u.
Proof.
  intros (Hx & _ & Hv)%getOrCreate_counts. rewrite !total_usage. cbn [tracker with_tracker].
  split; [by rewrite Hv|]. intros n. rewrite total_usage. cbn [tracker with_tracker].
  rewrite usage_of_set, Hv. case_decide as E; [|done]. subst v. by rewrite <- Hx.
Qed.

(** The calls that only touch the connections. *)
Lemma conn_calls_bytes (a : Accounts F) c :
  bytes_of (check_conn_limit u maxConns c a).2 = bytes_of a /\
  bytes_of (increment_conns u c a) = bytes_of a /\ bytes_of (decrement_conns u c a) = bytes_of a.
Proof.
  unfold bytes_of, check_conn_limit, increment_conns, decrement_conns.
  destruct a as [st [w|] mt]; [|done]. cbn.
  unfold CheckConnLimit, IncrementConns, DecrementConns. split_and!.
  - destruct (_ <=? 0); [done|]. destruct (getOrCreate _ _ _) as [x t'] eqn:Eg. cbn. by eapply create_bytes.
  - destruct (getOrCreate _ _ _) as [x t'] eqn:Eg. by apply create_bytes in Eg as [_ ->].
  - destruct (getOrCreate _ _ _) as [x t'] eqn:Eg. apply create_bytes in Eg as [H1 H2]. by case_match.
Qed.

Lemma allowance_bytes (a : Accounts F) c :
  has_meter a = true -> 0 < limitGB < 2^33 ->
  let '(ok, a') := check_allowance u limitGB c a in
  (bytes_of a' = bytes_of a \/ bytes_of a' = 0) /\ (ok = true -> bytes_of a' < limitGB * 2^30).
Proof.
  intros [w Hw]%meter_bandwidth Hl. unfold check_allowance, bytes_of. rewrite Hw.
  pose proof (CheckAllowance_compares w u limitGB (s_allowance c) (w_allowance c) (proj1 Hl)) as Hok.
  rewrite wrap64_id in Hok by (unfold in_int64; lia).
  pose proof (reset_bytes w (s_allowance c) (w_allowance c) u) as Hr. revert Hok. unfold CheckAllowance.
  rewrite (proj2 (Z.leb_gt _ _)) by lia. destruct (getOrCreate _ _ _) as [x t'] eqn:Eg.
  apply getOrCreate_counts in Eg as (_ & _ & Hv). cbn [fst snd bandwidth with_bandwidth].
  rewrite (total_usage (with_tracker _ _)). cbn [tracker with_tracker]. rewrite Hv, <- total_usage.
  intros ->. split; [done|]. by intros ?%Z.ltb_lt.
Qed.

Lemma record_bytes_bytes (a : Accounts F) c up down :
  has_meter a = true -> exists b, (b = bytes_of a \/ b = 0) /\
    bytes_of (record_bytes u up down c a) = wrap64 (b + wrap64 (up + down)).
Proof.
  intros [w Hw]%meter_bandwidth. unfold record_bytes, bytes_of. cbn [bandwidth with_bandwidth]. rewrite Hw.
  exists (total_of (checkMonthlyReset w (s_record c) (w_record c)) u). split; [apply reset_bytes|].
  cbn [fmap option_fmap option_map]. unfold RecordBytes.
  generalize (checkMonthlyReset w (s_record c) (w_record c)). clear w Hw. intros w.
  destruct (getOrCreate _ _ _) as [x t'] eqn:Eg. apply getOrCreate_counts in Eg as (Hx & _ & _).
  rewrite !total_usage, <- Hx. cbn [tracker with_tracker]. by rewrite usage_of_set, decide_True by done.
Qed.

(** Sessions that were let through and whose traffic is still to come. *)
Definition unmetered (ps : list phase) : Z :=
  count_of Allowed ps + count_of Cleared ps + count_of Opened ps.

(** A schedule in which at most [window] sessions are between the check of the quota
    and the increment. *)
Definition strict_step (window : Z) (s s' : Sessions) : Prop :=
  session_step s s' /\ count_of Allowed (phases s') + count_of Cleared (phases s') <= window.

(** What may still be recorded fits. *)
Definition quota_inv (window : Z) (s : Sessions) : Prop :=
  counted s /\ within window s /\ 0 <= bytes_of (shared s) /\
  bytes_of (shared s) + unmetered (phases s) * most <=
    limitGB * 2^30 - 1 + (maxConns + 2 * window - 1) * most.

(** A call after which no more can come than before. *)
Lemma quota_shrinks window a a' ps ps' :
  0 <= most -> (bytes_of a' = bytes_of a \/ bytes_of a' = 0) -> unmetered ps' <= unmetered ps ->
  0 <= bytes_of a ->
  bytes_of a + unmetered ps * most <= limitGB * 2^30 - 1 + (maxConns + 2 * window - 1) * most ->
  0 <= bytes_of a' /\
  bytes_of a' + unmetered ps' * most <= limitGB * 2^30 - 1 + (maxConns + 2 * window - 1) * most.
Proof.
  intros Hm Ha Hp Hb Hq. assert (unmetered ps' * most <= unmetered ps * most) by (by apply Z.mul_le_mono_nonneg_r).
  destruct Ha as [-> | ->]; lia.
Qed.

Lemma unmetered_insert ps i p q :
  ps !! i = Some q ->
  unmetered (<[i:=p]> ps) = unmetered ps - tally (bool_decide (q ∈ [Allowed; Cleared; Opened]))
                            + tally (bool_decide (p ∈ [Allowed; Cleared; Opened])).
Proof.
  intros Hi. unfold unmetered. rewrite !(count_of_insert _ _ _ _ _ Hi).
  destruct p, q; unfold tally; simpl; lia.
Qed.

(** The two sides of [quota_inv] once a session has been let through, and once the
    traffic of one has been recorded. *)
Lemma allowed_fits window a' ps :
  0 <= most -> bytes_of a' < limitGB * 2^30 ->
  within window (MkSessions a' ps) -> count_of Allowed ps + count_of Cleared ps <= window ->
  bytes_of a' + unmetered ps * most <= limitGB * 2^30 - 1 + (maxConns + 2 * window - 1) * most.
Proof.
  intros Hm Hb Hw Hn. assert (unmetered ps <= maxConns + 2 * window - 1) as Hu.
  { unfold within, open_in, unmetered in *. cbn [phases] in *.
    pose proof (count_of_bounds Metered ps). pose proof (count_of_bounds Cleared ps). lia. }
  pose proof (Z.mul_le_mono_nonneg_r _ _ most Hm Hu). lia.
Qed.

Lemma recorded_fits window a ps i c up down :
  has_meter a = true -> ps !! i = Some Opened -> 0 <= up -> 0 <= down -> up + down <= most -> 0 <= bytes_of a ->
  limitGB * 2^30 + (maxConns + 2 * window - 1) * most < 2^63 ->
  bytes_of a + unmetered ps * most <= limitGB * 2^30 - 1 + (maxConns + 2 * window - 1) * most ->
  0 <= bytes_of (record_bytes u up down c a) /\
  bytes_of (record_bytes u up down c a) + unmetered (<[i := Metered]> ps) * most <=
    limitGB * 2^30 - 1 + (maxConns + 2 * window - 1) * most.
Proof.
  intros Hm Hi Hup Hdown Hmost Hb Hfit Hq.
  destruct (record_bytes_bytes a c up down Hm) as (b & Hbb & ->). rewrite (unmetered_insert _ _ _ _ Hi).
  assert (0 < unmetered ps) as Hu.
  { pose proof (count_of_pos _ _ _ Hi). unfold unmetered.
    pose proof (count_of_bounds Allowed ps). pose proof (count_of_bounds Cleared ps). lia. }
  assert (most <= unmetered ps * most) by nia.
  rewrite wrap64_add_r, wrap64_id by (unfold in_int64; destruct Hbb as [-> | ->]; lia).
  unfold tally; simpl. rewrite Z.add_0_r, Z.mul_sub_distr_r. destruct Hbb as [-> | ->]; lia.
Qed.

Lemma quota_step window s s' :
  0 < limitGB < 2^33 -> 0 < maxConns -> 0 <= most ->
  limitGB * 2^30 + (maxConns + 2 * window - 1) * most < 2^63 ->
  quota_inv window s -> strict_step window s s' -> quota_inv window s'.
Proof.
  intros Hl Hpos Hm0 Hfit (Hc & Hw & Hb & Hq) [Hs Hn].
  assert (counted s') as Hc' by (by eapply session_step_counted).
  assert (within window s') as Hw'.
  { apply (narrow_step_within window s); [done..|]. split; [done|].
    pose proof (count_of_bounds Allowed (phases s')). lia. }
  split; [done|]. split; [done|]. destruct Hc as [Hm _].
  destruct Hs as [a ps i c Hi|a ps i c Hi|a ps i c Hi|a ps i c up down Hi Hup Hdown Hmost|a ps i c q Hi Hq'|a a' ps Hm' Hc2 Ha];
    cbn [shared phases] in *;
    try (destruct (conn_calls_bytes a c) as (E1 & E2 & E3));
    try (apply (quota_shrinks window a _ ps); [done|by auto| |done|done]; rewrite ?(unmetered_insert _ _ _ _ Hi)).
  - pose proof (allowance_bytes a c Hm Hl) as Hal. destruct (check_allowance u limitGB c a) as [[|] a'];
      cbn [fst snd] in *; destruct Hal as [Ha Hok].
    + split; [destruct Ha as [-> | ->]; lia|]. by apply allowed_fits; auto.
    + apply (quota_shrinks window a _ ps); [done..| |done|done]. rewrite (unmetered_insert _ _ _ _ Hi).
      unfold tally; simpl; lia.
  - destruct (check_conn_limit u maxConns c a).1; unfold tally; simpl; lia.
  - unfold tally; simpl; lia.
  - by apply recorded_fits.
  - destruct Hq' as [-> | ->]; unfold tally; simpl; lia.
  - lia.
Qed.

(** C17: the quota holds up to what is already let through: a user with a limit on the
    connections, of whose sessions at most [window] are being admitted at a time, never
    gets further past the quota than the traffic of [maxConns + 2 * window - 1] sessions. *)
Theorem quota_overshoot (window : Z) (s s' : Sessions) :
  0 < limitGB < 2^33 -> 0 < maxConns -> 1 <= window -> 0 <= most ->
  limitGB * 2^30 + (maxConns + 2 * window - 1) * most < 2^63 ->
  starts s -> 0 <= bytes_of (shared s) < limitGB * 2^30 -> rtc (strict_step window) s s' ->
  0 <= bytes_of (shared s') < limitGB * 2^30 + (maxConns + 2 * window - 1) * most.
Proof.
  intros Hl Hpos Hwin Hm0 Hfit Hs Hb Hrun.
  assert (quota_inv window s) as Hi.
  { split_and!; [by apply starts_counted|by apply starts_within|lia|]. destruct Hs as (_ & _ & Ha & _).
    unfold unmetered. rewrite !(count_of_none _ _ Ha) by done. nia. }
  assert (quota_inv window s') as (_ & _ & Hb' & Hq).
  { clear Hs Hb. induction Hrun as [|s1 s2 s3 Hst _ IH]; [done|]. by apply IH, (quota_step window s1). }
  assert (0 <= unmetered (phases s')).
  { unfold unmetered. pose proof (count_of_bounds Allowed (phases s')).
    pose proof (count_of_bounds Cleared (phases s')). pose proof (count_of_bounds Opened (phases s')). lia. }
  nia.
Qed.

(** ** The race *)

Lemma insert_middle (l1 l2 : list phase) x y :
  <[length l1 := x]> ((l1 ++ y :: l2) : list phase) = l1 ++ x :: l2.
Proof. by rewrite insert_app_r_alt, Nat.sub_diag. Qed.

(** The [k]-th session takes the step from [p] to [q]. *)
Lemma next_in_line p q k m :
  (replicate k q ++ replicate (S m) p) !! k = Some p /\
  <[k := q]> ((replicate k q ++ replicate (S m) p) : list phase) = replicate (S k) q ++ replicate m p.
Proof.
  split; [by apply list_lookup_middle; rewrite length_replicate|].
  pose proof (insert_middle (replicate k q) (replicate m p) q p) as E. rewrite length_replicate in E.
  change (replicate (S m) p) with (p :: replicate m p). rewrite E.
  change (replicate (S k) q) with (q :: replicate k q). by rewrite replicate_cons_app, <- app_assoc.
Qed.

Lemma all_check (c : SessionClock json_bytes) m : forall a k,
  has_meter a = true -> conns_of a u < maxConns -> 0 < maxConns ->
  exists a', rtc session_step (MkSessions a (replicate k Cleared ++ replicate m Allowed))
                             (MkSessions a' (replicate (k + m) Cleared)).
Proof.
  induction m as [|m IH]; intros a k Hm Hc Hpos.
  { exists a. by rewrite app_nil_r, Nat.add_0_r. }
  destruct (next_in_line Allowed Cleared k m) as [Hi He].
  destruct (check_conn_limit_same u maxConns c a) as [H1 H2].
  destruct (IH (check_conn_limit u maxConns c a).2 (S k)) as [a' Hrun]; [by rewrite H1|by rewrite H2|done|].
  exists a'. eapply rtc_l; [apply (step_check a _ k c Hi)|].
  rewrite check_conn_limit_compares, (proj2 (Z.ltb_lt _ _)), He by done.
  by rewrite <- Nat.add_succ_comm.
Qed.

Lemma all_increment (c : SessionClock json_bytes) m : forall a k,
  exists a', rtc session_step (MkSessions a (replicate k Opened ++ replicate m Cleared))
                             (MkSessions a' (replicate (k + m) Opened)).
Proof.
  induction m as [|m IH]; intros a k.
  { exists a. by rewrite app_nil_r, Nat.add_0_r. }
  destruct (next_in_line Cleared Opened k m) as [Hi He].
  destruct (IH (increment_conns u c a) (S k)) as [a' Hrun].
  exists a'. eapply rtc_l; [apply (step_increment a _ k c Hi)|].
  rewrite He. by rewrite <- Nat.add_succ_comm.
Qed.

Lemma check_allowance_unlimited (c : SessionClock json_bytes) (a : Accounts F) :
  limitGB <= 0 -> check_allowance u limitGB c a = (true, a).
Proof.
  intros Hl. unfold check_allowance, CheckAllowance. rewrite (proj2 (Z.leb_le _ _)) by done.
  by destruct a as [st [w|] mt].
Qed.

Lemma all_allowed (c : SessionClock json_bytes) m : forall a k, limitGB <= 0 ->
  rtc session_step (MkSessions a (replicate k Allowed ++ replicate m Arrived))
                   (MkSessions a (replicate (k + m) Allowed)).
Proof.
  induction m as [|m IH]; intros a k Hl; [by rewrite app_nil_r, Nat.add_0_r|].
  destruct (next_in_line Arrived Allowed k m) as [Hi He].
  pose proof (step_allowance a _ k c Hi) as Hs. eapply rtc_l; [exact Hs|].
  rewrite (check_allowance_unlimited c a) by done. cbn [fst snd]. rewrite He. by rewrite <- Nat.add_succ_comm; apply IH.
Qed.

(** The race is real: however small the limit, any number of sessions that
    arrive together can all pass the checks and be open at the same time. *)
Theorem connection_limit_race (a : Accounts F) (n : nat) (c : SessionClock json_bytes) :
  limitGB <= 0 -> 0 < maxConns -> has_meter a = true -> conns_of a u = 0 ->
  exists s', rtc session_step (MkSessions a (replicate n Arrived)) s' /\
    phases s' = replicate n Opened.
Proof.
  intros Hl Hpos Hm Hc. destruct (all_check c n a 0 Hm) as [a1 H1]; [lia|done|].
  destruct (all_increment c n a1 0) as [a2 H2].
  exists (MkSessions a2 (replicate n Opened)). split; [|done].
  transitivity (MkSessions a (replicate n Allowed)); [by apply (all_allowed c n a 0)|].
  by transitivity (MkSessions a1 (replicate n Cleared)).
Qed.
End Interleaving.

(** Three sessions of a user without a quota who may have one connection. *)
Definition race_accounts : Accounts Q := MkAccounts demo_store (Some fresh_world) no_metrics.
Definition race_start : Sessions := MkSessions race_accounts (replicate 3 Arrived).
#[local] Abbreviation race_clock := (clock_at 0).
Definition admitted (limitGB maxConns : Z) (a : Accounts Q) : Accounts Q :=
  increment_conns "Bob" race_clock (check_conn_limit "Bob" maxConns race_clock
    (check_allowance "Bob" limitGB race_clock a).2).2.
Definition race_one_open : Sessions := MkSessions (admitted 0 1 race_accounts) [Opened; Arrived; Arrived].

Lemma race_starts : starts "Bob" race_start.
Proof. split_and!; [done|done|repeat constructor|vm_compute; done]. Qed.

(** One session is admitted while no other moves. *)
Ltac admit_next i := do 3 (eapply rtc_l; [split;
  [first [apply (step_allowance _ _ _ _ _ _ i race_clock); reflexivity
         |apply (step_check _ _ _ _ _ _ i race_clock); reflexivity
         |apply (step_increment _ _ _ _ _ _ i race_clock); reflexivity]
  |vm_compute; discriminate]|]).

Lemma race_first_open : rtc (narrow_step "Bob" 0 1 0 1) race_start race_one_open.
Proof. admit_next 0%nat. apply rtc_refl. Qed.

Lemma connection_count_exact_witness :
  conns_of (shared race_one_open) "Bob" = open_in (phases race_one_open).
Proof.
  apply (connection_count_exact "Bob" 0 1 0 race_start race_one_open race_starts).
  apply (rtc_subrel (narrow_step "Bob" 0 1 0 1) _ _ _), race_first_open. intros x y [H _]. exact H.
Defined.

Lemma connection_limit_bound_witness : open_in (phases race_one_open) <= 1 + 1 - 1.
Proof.
  apply (connection_limit_bound "Bob" 0 1 0 1 race_start race_one_open);
    [lia|lia|exact race_starts|exact race_first_open].
Defined.

Lemma connection_limit_race_witness :
  exists s', rtc (session_step "Bob" 0 1 0) race_start s' /\ phases s' = [Opened; Opened; Opened].
Proof.
  apply (connection_limit_race "Bob" 0 1 0 race_accounts 3 race_clock); [lia|lia|reflexivity|reflexivity].
Defined.

(** Two sessions of a user with a gigabyte, who moves one in each. *)
Definition quota_end : Sessions :=
  MkSessions
    (record_bytes "Bob" 0 (2^30) race_clock (record_bytes "Bob" (2^30) 0 race_clock
       (admitted 1 2 (admitted 1 2 race_accounts)))) [Metered; Metered; Arrived].

Lemma quota_run : rtc (strict_step "Bob" 1 2 (2^30) 1) race_start quota_end.
Proof.
  admit_next 0%nat. admit_next 1%nat.
  eapply rtc_l; [split; [apply (step_record _ _ _ _ _ _ 0%nat race_clock (2^30) 0); [reflexivity|lia..]|
    vm_compute; discriminate]|].
  eapply rtc_l; [split; [apply (step_record _ _ _ _ _ _ 1%nat race_clock 0 (2^30)); [reflexivity|lia..]|
    vm_compute; discriminate]|].
  apply rtc_refl.
Qed.

(** The quota is passed by a gigabyte, within the bound. *)
Example quota_passed : bytes_of "Bob" (shared quota_end) = 2 * 2^30.
Proof. vm_compute. reflexivity. Qed.

Lemma quota_overshoot_witness :
  0 <= bytes_of "Bob" (shared quota_end) < 1 * 2^30 + (2 + 2 * 1 - 1) * 2^30.
Proof.
  apply (quota_overshoot "Bob" 1 2 (2^30) 1 race_start quota_end);
    [lia|lia|lia|lia|lia|exact race_starts|vm_compute; split; [discriminate|reflexivity]|exact quota_run].
Defined.
