(* ===== verification/Protocols.v ===== *)
(** * The two authenticated proxies agree

    A client may reach a target by a CONNECT to the HTTP proxy or by the SOCKS5
    protocol. The two servers ([internal/httpproxy/server.go],
    [internal/socks5/server.go]) are written apart; this file relates their sessions
    step by step and shows that they take the same decisions on the same checks, and
    where the accounts they leave differ: SOCKS5 counts under the name as it was typed and
    records the bytes once one of the two copies has ended, HTTP counts under the name of
    the account and waits for both copies. *)
From S2P Require Import Socks5 Socks5Facts.
From S2P Require Import HttpProxy HttpProxyFacts.
From S2P Require Import Prelude GoStrings GoFloat GoNet GoTime GoHttp RateLimiter UserStore UserStoreFacts.
From S2P Require Import Tracker TrackerFacts Accounts.
Open Scope Z_scope.

(** ** The calls on the accounts *)

Section Books.
Context {F : Type} {GF : GoFloat F} {UC : Unicode} {AE : AuthEnv} {ZN : Zone} {UJ : UsageJSON}.

(** The same store and the same tracker; each server has metrics of its own. *)
Definition same_books (a b : Accounts F) : Prop := store a = store b /\ bandwidth a = bandwidth b.

#[export] Instance same_books_equiv : Equivalence same_books.
Proof.
  split; [by split|by intros a b [H1 H2]; split|].
  intros a b d [H1 H2] [H3 H4]. split; congruence.
Qed.

(** A call that sees and changes nothing but the books. *)
Definition on_books {A} (f : Accounts F -> A * Accounts F) : Prop := forall a b,
  same_books a b -> (f a).1 = (f b).1 /\ same_books (f a).2 (f b).2.

Lemma validate_books u p c : on_books (validate u p c).
Proof. intros a b [H1 H2]. unfold validate. rewrite H1. by destruct (ValidateCredentials _ _ _ _ _). Qed.
Lemma check_rate_books u c : on_books (check_rate u c).
Proof. intros a b [H1 H2]. unfold check_rate. rewrite H1. by destruct (CheckRateLimit _ _ _). Qed.
Lemma check_allowance_books u l c : on_books (check_allowance u l c).
Proof.
  intros a b [H1 H2]. unfold check_allowance. rewrite H2. destruct (bandwidth b) eqn:E.
  - by destruct (CheckAllowance _ _ _ _ _).
  - simpl. split; [done|]. split; congruence.
Qed.
Lemma check_conn_limit_books u l c : on_books (check_conn_limit u l c).
Proof.
  intros a b [H1 H2]. unfold check_conn_limit. rewrite H2. destruct (bandwidth b) eqn:E.
  - by destruct (CheckConnLimit _ _ _ _).
  - simpl. split; [done|]. split; congruence.
Qed.

#[export] Instance increment_conns_books u c : Proper (same_books ==> same_books) (increment_conns u c).
Proof. intros a b [H1 H2]. split; simpl; congruence. Qed.
#[export] Instance decrement_conns_books u c : Proper (same_books ==> same_books) (decrement_conns u c).
Proof. intros a b [H1 H2]. split; simpl; congruence. Qed.
#[export] Instance record_bytes_books u up down c : Proper (same_books ==> same_books) (record_bytes u up down c).
Proof. intros a b [H1 H2]. split; simpl; congruence. Qed.
Lemma on_metrics_books f a b : same_books a b -> same_books (on_metrics f a) b.
Proof. done. Qed.
End Books.

(** ** Relating two sessions *)

Section Relation.
Context {F : Type} {GF : GoFloat F} {UC : Unicode} {AE : AuthEnv} {ZN : Zone} {UJ : UsageJSON}
  {MO : MapOrder} {W : Type} {RW : ResponseWriter W}.
Implicit Types (s : Socks5.Session F) (t : HttpProxy.Session F W).

(** The two sessions stand alike: the books, the target dialled, the throttle. *)
Definition alike s t : Prop :=
  same_books (accounts s) (accounts t) /\ Socks5.dialled s = HttpProxy.dialled t /\
  Socks5.throttled s = HttpProxy.throttled t.

(** And the SOCKS5 client has [i] still to say, and the accounts are as [Q] says. *)
Definition at_input (Q : Accounts F -> Prop) (i : list byte) s t : Prop :=
  alike s t /\ Socks5.inp s = i /\ Q (accounts t).

(** From states in [I] both computations succeed, with values in [R] and states in [J],
    or both stop with states in [E]. *)
Definition agree {A B} (E I J : Socks5.Session F -> HttpProxy.Session F W -> Prop) (R : A -> B -> Prop)
    (m : GoM (Socks5.Session F) A) (n : GoM (HttpProxy.Session F W) B) : Prop := forall s t, I s t ->
  match m s, n t with
  | (Ok a, s'), (Ok b, t') => R a b /\ J s' t'
  | (Err _, s'), (Err _, t') => E s' t'
  | _, _ => False
  end.

Lemma agree_ret {A B} E I (R : A -> B -> Prop) a b : R a b -> agree E I I R (mret a) (mret b).
Proof. by intros HR s t H. Qed.

Lemma agree_bind {A B A' B'} E I J K (R : A -> B -> Prop) (R' : A' -> B' -> Prop) m n f g :
  agree E I J R m n -> (forall a b, R a b -> agree E J K R' (f a) (g b)) -> agree E I K R' (m ≫= f) (n ≫= g).
Proof.
  intros Hm Hf s t H. specialize (Hm s t H). unfold mbind, GoM_bind.
  destruct (m s) as [[a|e] s1], (n t) as [[b|e'] t1]; try done.
  destruct Hm as [HR HJ]. exact (Hf a b HR s1 t1 HJ).
Qed.

Lemma agree_errors {A B} (E E' I J : _ -> _ -> Prop) (R : A -> B -> Prop) m n :
  (forall s t, E s t -> E' s t) -> agree E I J R m n -> agree E' I J R m n.
Proof.
  intros HE Hm s t H. specialize (Hm s t H).
  destruct (m s) as [[a|e] s1], (n t) as [[b|e'] t1]; try done. by apply HE.
Qed.

(** A step that only one of the two takes, and that the relation does not see. *)
Lemma agree_left {A B} E I J (R : A -> B -> Prop) (f : Socks5.Session F -> Socks5.Session F) m n :
  (forall s t, I s t -> I (f s) t) -> agree E I J R m n -> agree E I J R (_ ← modify f; m) n.
Proof. intros Hf Hm s t H. apply (Hm (f s) t). by apply Hf. Qed.

Lemma agree_call {A} E (Q : Accounts F -> Prop) i (f : Accounts F -> A * Accounts F) :
  on_books f -> (forall a, Q a -> Q (f a).2) -> agree E (at_input Q i) (at_input Q i) eq (call f) (call f).
Proof.
  intros Hf HQ s t ((Hb & Hd & Ht) & Hi & Ha). unfold call. destruct (Hf _ _ Hb) as [H1 H2].
  specialize (HQ _ Ha). destruct (f (accounts s)) as [x a], (f (accounts t)) as [y b]. simpl in *.
  split; [done|]. by split_and!.
Qed.

Lemma agree_accounts {A B} (E I J : _ -> _ -> Prop) (R : A -> B -> Prop) f g :
  (forall s t, I s t -> alike s t) -> (forall a b, same_books a b -> agree E I J R (f a) (g b)) ->
  agree E I J R (a ← gets accounts; f a) (b ← gets accounts; g b).
Proof. intros Hal H s t Hi. apply (H (accounts s) (accounts t)); [|done]. by destruct (Hal s t Hi). Qed.

(** Both stop. *)
Definition stops {S A} {HA : HasAccounts F S} (obs : S -> option string * option Z) (m : GoM S A) : Prop :=
  forall x, exists e, (m x).1 = Err e /\ same_books (accounts (m x).2) (accounts x) /\ obs (m x).2 = obs x.
Definition seen5 s := (Socks5.dialled s, Socks5.throttled s).
Definition seenh t := (HttpProxy.dialled t, HttpProxy.throttled t).

Lemma agree_stops {A B} (I J : _ -> _ -> Prop) (R : A -> B -> Prop) m n :
  (forall s t, I s t -> alike s t) -> stops seen5 m -> stops seenh n -> agree alike I J R m n.
Proof.
  intros Hal Hm Hn s t (Hb & Hd & Ht)%Hal. destruct (Hm s) as (e & E1 & Hb1 & Ho1), (Hn t) as (e' & E2 & Hb2 & Ho2).
  destruct (m s) as [r s'], (n t) as [r' t']. simpl in *. subst.
  injection Ho1 as Hd1 Ht1. injection Ho2 as Hd2 Ht2. split_and!; [by rewrite Hb1, Hb2|congruence..].
Qed.

(** A deferred call that only one of the two makes. *)
Lemma agree_defer_left {A B} E I J (R : A -> B -> Prop) d (m : GoM (Socks5.Session F) A) (n : GoM (HttpProxy.Session F W) B) :
  (forall s t, E s t -> E (d s).2 t) -> (forall s t, J s t -> J (d s).2 t) ->
  agree E I J R m n -> agree E I J R (with_defer d m) n.
Proof.
  intros Ha Hj Hm s t H. specialize (Hm s t H). unfold with_defer.
  destruct (m s) as [[a|e] s1], (n t) as [[b|e'] t1]; try done; [|by apply Ha].
  destruct Hm as [HR HJ]. split; [done|by apply Hj].
Qed.
End Relation.

Lemma at_input_alike {F W} {UJ : UsageJSON} Q i (s : Socks5.Session F) (t : HttpProxy.Session F W) :
  at_input Q i s t -> alike s t.
Proof. by intros [? _]. Qed.

Section Stages.
Context {F : Type} {GF : GoFloat F} {UC : Unicode} {AE : AuthEnv} {ZN : Zone} {UJ : UsageJSON}
  {MO : MapOrder} {W : Type} {RW : ResponseWriter W}.
Implicit Types (s : Socks5.Session F) (t : HttpProxy.Session F W).

Lemma stops_throw {S A} {HA : HasAccounts F S} obs e : stops (A := A) (HA := HA) obs (throw e).
Proof. intros x. by exists e. Qed.
Lemma stops_count5 {A} f (m : GoM (Socks5.Session F) A) : stops seen5 m -> stops seen5 (_ ← count f; m).
Proof. intros Hm s. destruct (Hm (put_accounts (on_metrics f (accounts s)) s)) as (e & ? & ? & ?). by exists e. Qed.
Lemma stops_counth {A} f (m : GoM (HttpProxy.Session F W) A) : stops seenh m -> stops seenh (_ ← count f; m).
Proof. intros Hm t. destruct (Hm (put_accounts (on_metrics f (accounts t)) t)) as (e & ? & ? & ?). by exists e. Qed.
Lemma stops_refuse text code : stops (seenh (F := F) (W := W)) (refuse text code).
Proof. intros t. by exists text. Qed.
Lemma stops_challenge {A} e : stops (A := A) (seenh (F := F) (W := W)) (_ ← ask_for_credentials; throw e).
Proof. intros t. by eexists. Qed.
Create HintDb books.
Hint Resolve stops_throw stops_count5 stops_counth stops_refuse stops_challenge : books.
Hint Resolve validate_books check_rate_books check_allowance_books check_conn_limit_books : books.

(** The calls of a session before it counts anything. *)
Inductive check_call (c : SessionClock json_bytes) (u : string) : Accounts F -> Accounts F -> Prop :=
| calls_validate p a : check_call c u a (validate u p c a).2
| calls_check_rate a : check_call c u a (check_rate u c a).2
| calls_check_allowance l a : check_call c u a (check_allowance u l c a).2
| calls_check_conn_limit n a : check_call c u a (check_conn_limit u n c a).2.

Definition checked (c : SessionClock json_bytes) (u : string) (a0 a : Accounts F) : Prop := rtc (check_call c u) a0 a.

Lemma checked_call c u a0 a a' : check_call c u a a' -> checked c u a0 a -> checked c u a0 a'.
Proof. intros H1 H2. by eapply rtc_r. Qed.
Hint Resolve checked_call : books.
Hint Constructors check_call : books.

(** The checks on an authenticated user are the same. *)
Lemma admission_agree a0 i net c u user :
  agree (W := W) alike (at_input (checked c u a0) i) (at_input (checked c u a0) i) eq
    (Socks5.admission net c u (Some user)) (HttpProxy.admission c (remote net) u user).
Proof.
  unfold Socks5.admission, HttpProxy.admission. apply agree_accounts; [apply at_input_alike|]. intros a b [Hst _]. rewrite Hst.
  destruct (_ && _); [by apply agree_ret|].
  eapply agree_bind; [apply agree_call; [auto with books|intros; eapply checked_call; [constructor|done]]|]. intros ok ? <-.
  destruct ok; simpl; [|apply agree_stops; eauto using at_input_alike with books].
  apply agree_accounts; [apply at_input_alike|]. intros a1 b1 [Hst1 _]. rewrite Hst1.
  destruct (CheckExpiry _ _ _); simpl; [|apply agree_stops; eauto using at_input_alike with books].
  eapply agree_bind; [apply agree_call; [auto with books|intros; eapply checked_call; [constructor|done]]|]. intros ok ? <-.
  destruct ok; simpl; [|apply agree_stops; eauto using at_input_alike with books].
  eapply agree_bind; [apply agree_call; [auto with books|intros; eapply checked_call; [constructor|done]]|]. intros ok ? <-.
  destruct ok; simpl; [by apply agree_ret|apply agree_stops; eauto using at_input_alike with books].
Qed.

(** What the two networks do to one client and one target; the bytes they copy may
    differ. *)
Record same_network (net : Net5) (neth : HNet) (r : Request) (target : string) : Prop := {
  sn_address : remote net = RemoteAddr r;
  sn_target : connect_target r = target;
  sn_dial : (exists a, Socks5.dial net target = Ok a) <-> HttpProxy.dial neth target = None;
  sn_hijack : hijack neth = Some None
}.

(** ** From admission to the end *)

(** What a session counts under a name: its connection, and the bytes if the target was
    reached. *)
Definition booked (c : SessionClock json_bytes) (name : string) (copied : option (Z * Z)) (a : Accounts F) : Accounts F :=
  let a := increment_conns name c a in
  decrement_conns name c (match copied with Some (up, down) => record_bytes name up down c a | None => a end).

(** Two sessions for [user] that have run to their end: the same store, target and
    throttle, and on the accounts as the checks left them, what each has counted under
    its name. *)
Definition ended (c : SessionClock json_bytes) (a0 : Accounts F) (name : string) (user : User)
    (copied5 copiedh : option (Z * Z)) s t : Prop :=
  store (accounts s) = store (accounts t) /\ Socks5.dialled s = HttpProxy.dialled t /\
  Socks5.throttled s = HttpProxy.throttled t /\
  exists a, checked c name a0 a /\ bandwidth (accounts s) = bandwidth (booked c name copied5 a) /\
    bandwidth (accounts t) = bandwidth (booked c (Username user) copiedh a).

Lemma booked_books c name copied a b : same_books a b -> bandwidth (booked c name copied a) = bandwidth (booked c name copied b).
Proof.
  intros H. apply (increment_conns_books name c) in H. unfold booked. apply decrement_conns_books.
  destruct copied as [[up down]|]; [|done]. by apply record_bytes_books.
Qed.

Lemma tail_agree net neth c r a0 name user rsv dst port rest :
  same_network net neth r (show_request dst port) -> target_ok dst -> 0 <= port < 65536 ->
  Method r = "CONNECT" ->
  agree (F := F) (W := W) (ended c a0 name user None None) (at_input (checked c name a0) (encode_request rsv dst port ++ rest))
    (fun s t => ended c a0 name user (Some (Socks5.copied net)) (Some (HttpProxy.copied neth)) s t /\
                Socks5.dialled s = Some (show_request dst port)) eq
    (_ ← on_accounts (increment_conns name c);
     with_defer (on_accounts (decrement_conns name c)) (Socks5.serve net c name (Some user)))
    (_ ← count (m_active 1);
     with_defer (count (m_active (-1)))
       (_ ← on_accounts (increment_conns (Username user) c);
        with_defer (on_accounts (decrement_conns (Username user) c))
          (if String.eqb (Method r) "CONNECT" then handleConnect neth c r user else handleHTTP neth c r user))).
Proof.
  intros [Ha Htg Hd Hj] Hok Hp Hm s t ((Hb & Hdl & Hth) & Hi & Hck). rewrite Hm. change (String.eqb "CONNECT" "CONNECT") with true.
  cbv iota. unfold Socks5.serve, handleConnect. fold (connect_target r). rewrite Htg.
  assert (forall s1 : Socks5.Session F, inp s1 = inp s -> Socks5.handleRequest s1 = (Ok (show_request dst port), put_inp rest s1)) as Hreq.
  { intros s1 E. apply Socks5Facts.handleRequest_Ok. exists rsv, dst, port, rest. by rewrite E. }
  unfold with_defer, count, on_accounts, mbind, GoM_bind, modify. rewrite Hreq by done. rewrite Hj.
  destruct (Socks5.dial net _) as [local|err] eqn:E5, (HttpProxy.dial neth _) as [err'|] eqn:Eh;
    try (exfalso; destruct Hd as [Hd1 Hd2]; first [by discriminate (Hd1 (ex_intro _ _ eq_refl))|by destruct (Hd2 eq_refl)]).
  - destruct (Socks5.copied net) as [up5 down5], (HttpProxy.copied neth) as [up down].
    split; [done|]. split; [|done]. split_and!; [apply Hb|done..|]. exists (accounts t). split; [done|]. split; [|done].
    by apply (booked_books c name (Some (up5, down5))).
  - split_and!; [apply Hb|done..|]. exists (accounts t). split; [done|]. split; [|done]. by apply (booked_books c name None).
Qed.

Lemma authenticate_step c r u p t :
  parseProxyAuth r = Some (u, p) ->
  let '(user, a) := validate u p c (accounts t) in
  match user with
  | Some user => authenticate c r t = (Ok (u, user), put_accounts a t)
  | None => exists e t', authenticate c r t = (Err e, t') /\ same_books (accounts t') a /\ seenh t' = seenh t
  end.
Proof.
  intros Hr. assert (call (validate u p c) t =
    let '(x, a) := validate u p c (accounts t) in (Ok x, put_accounts a t)) as E by reflexivity.
  unfold authenticate. rewrite Hr. destruct (validate u p c (accounts t)) as [[user|] a].
  - by rewrite (GoM_bind_eq _ _ _ _ _ E).
  - rewrite (GoM_bind_eq _ _ _ _ _ E). eexists _, _. split; [reflexivity|]. by split.
Qed.

(** Authentication, on the wire of either protocol, with a sound credential cache. *)
Lemma login_agree {A B} E c r methods u p i a0 K (R : A -> B -> Prop) f g :
  (forall s t, alike s t -> E s t) -> cache_sound (store a0) ->
  parseProxyAuth r = Some (string_of_bytes u, string_of_bytes p) ->
  zlen methods < 256 -> zlen u < 256 -> zlen p < 256 -> In MethodUserPass methods ->
  (forall user, GetUser (store a0) (string_of_bytes u) = Some user ->
     agree (F := F) (W := W) E
       (fun s t => at_input (checked c (string_of_bytes u) a0) i s t /\ GetUser (store (accounts s)) (string_of_bytes u) = Some user) K R
       (f (string_of_bytes u)) (g (string_of_bytes u, user))) ->
  agree E (at_input (eq a0) (encode_auth methods u p ++ i)) K R
    (handleMethodNegotiation c ≫= f) (authenticate c r ≫= g).
Proof.
  intros HE Hsound Hr Hm Hu Hp Hin Hf s t ((Hb & Hd & Ht) & Hi & Hst).
  pose proof (validate_books (string_of_bytes u) (string_of_bytes p) c _ _ Hb) as Hv.
  pose proof (authenticate_step c r _ _ t Hr) as Hh. pose proof (negotiation_step c s methods u p i Hi Hm Hu Hp Hin) as H5.
  rewrite (authenticateUser_step c _ u p i) in H5 by done. cbn [accounts put_inp put_out] in H5.
  change (accounts (put_out _ _)) with (accounts s) in H5.
  assert (forall user a, validate (string_of_bytes u) (string_of_bytes p) c (accounts t) = (Some user, a) ->
    GetUser (store a0) (string_of_bytes u) = Some user /\ GetUser (store a) (string_of_bytes u) = Some user) as Hc.
  { intros user a. unfold validate. rewrite <- Hst.
    pose proof (ValidateCredentials_users (store a0) (string_of_bytes u) (string_of_bytes p) (s_check c) (s_store c)) as Hus.
    pose proof (login_sound (store a0) (string_of_bytes u) (string_of_bytes p) (s_check c) (s_store c) user Hsound) as Hl.
    destruct (ValidateCredentials _ _ _ _ _) as [o st']. simpl in *. intros [= -> <-].
    destruct (Hl eq_refl) as [Hg _]. unfold GetUser. simpl. rewrite Hus. done. }
  assert (checked c (string_of_bytes u) a0 (validate (string_of_bytes u) (string_of_bytes p) c (accounts t)).2) as Hck
    by (rewrite <- Hst; apply rtc_once, calls_validate).
  destruct (validate _ _ c (accounts s)) as [o5 a5], (validate _ _ c (accounts t)) as [oh ah].
  destruct Hv as [Ho Hb']. simpl in Ho, Hb'. subst o5. destruct oh as [user|].
  - rewrite (GoM_bind_eq _ _ _ _ _ H5), (GoM_bind_eq _ _ _ _ _ Hh).
    destruct (Hc user ah eq_refl) as [Hn Hg]. apply (Hf user Hn). split; [done|].
    simpl. by rewrite (proj1 Hb').
  - destruct Hh as (e & t' & Hh & Hbt & Hseen). injection Hseen as Hd' Ht'.
    rewrite (GoM_bind_Err _ _ _ _ _ H5), (GoM_bind_Err _ _ _ _ _ Hh).
    apply HE. split_and!; [|simpl; congruence..]. rewrite Hbt. exact Hb'.
Qed.

Lemma agree_known {A B} E Q i u user J (R : A -> B -> Prop) (f : option User -> GoM (Socks5.Session F) A)
    (n : GoM (HttpProxy.Session F W) B) :
  agree E (at_input Q i) J R (f (Some user)) n ->
  agree E (fun s t => at_input Q i s t /\ GetUser (store (accounts s)) u = Some user) J R
    (a ← gets accounts; f (GetUser (store a) u)) n.
Proof.
  intros H s t [Hi Hg]. change ((a ← gets accounts; f (GetUser (store a) u)) s) with (f (GetUser (store (accounts s)) u) s).
  rewrite Hg. by apply H.
Qed.

(** How two sessions with the accounts [a0] at the beginning and the name [name] can end:
    both were refused before anything was counted, or neither reached the target, or
    both did. *)
Definition refused_alike (c : SessionClock json_bytes) (a0 : Accounts F) (name : string) s t : Prop :=
  alike s t \/ exists user, GetUser (store a0) name = Some user /\ ended c a0 name user None None s t.
Definition served_alike (net : Net5) (neth : HNet) (c : SessionClock json_bytes) (a0 : Accounts F) (name target : string) s t : Prop :=
  (exists user, GetUser (store a0) name = Some user /\
     ended c a0 name user (Some (Socks5.copied net)) (Some (HttpProxy.copied neth)) s t) /\
  Socks5.dialled s = Some target.

(** A session from its first byte to its end. *)
Lemma session_agree net neth c r methods u p rsv dst port rest a0 :
  same_network net neth r (show_request dst port) -> target_ok dst -> 0 <= port < 65536 -> cache_sound (store a0) ->
  Method r = "CONNECT" -> parseProxyAuth r = Some (string_of_bytes u, string_of_bytes p) ->
  zlen methods < 256 -> zlen u < 256 -> zlen p < 256 -> In MethodUserPass methods ->
  agree (F := F) (W := W) (refused_alike c a0 (string_of_bytes u))
    (at_input (eq a0) (encode_auth methods u p ++ encode_request rsv dst port ++ rest))
    (served_alike net neth c a0 (string_of_bytes u) (show_request dst port)) eq
    (Socks5.handleConnection net c) (proxy_request neth c r).
Proof.
  intros Hnet Hok Hport Hsound Hmeth Hr Hm Hu Hp Hin. pose proof (sn_address _ _ _ _ Hnet) as Haddr.
  assert (forall s t, alike s t -> refused_alike c a0 (string_of_bytes u) s t) as HE by (by left).
  unfold Socks5.handleConnection, proxy_request. apply agree_defer_left; [done|done|].
  apply agree_accounts; [by intros s t [? _]|]. intros a b [Hst _]. rewrite Hst, Haddr.
  destruct (CheckIPAllowed _ _); simpl negb; cbv iota.
  2: { eapply agree_errors; [exact HE|]. apply agree_stops; [by intros s t [? _]|auto with books..]. }
  unfold count at 1, on_accounts at 1. apply agree_left; [done|]. apply agree_defer_left; [done|done|].
  apply login_agree; [done..|]. intros user Hn.
  apply (agree_known _ _ _ _ _ _ _ (fun who =>
    _ ← Socks5.admission net c (string_of_bytes u) who;
    _ ← on_accounts (increment_conns (string_of_bytes u) c);
    with_defer (on_accounts (decrement_conns (string_of_bytes u) c)) (Socks5.serve net c (string_of_bytes u) who))).
  eapply agree_bind; [eapply agree_errors; [exact HE|]; rewrite <- Haddr; apply admission_agree|]. intros _ _ _.
  intros s t H. pose proof (tail_agree net neth c r a0 (string_of_bytes u) user rsv dst port rest Hnet Hok Hport Hmeth s t H) as Ht.
  revert Ht. lazymatch goal with |- match ?m with _ => _ end -> match ?m' with _ => _ end => change m' with m; destruct m as [[[]|e] s'] end;
  lazymatch goal with |- match ?m with _ => _ end -> match ?m' with _ => _ end => change m' with m; destruct m as [[[]|e'] t'] end; try done.
  - intros (_ & He & Hd). split; [done|]. split; [by exists user|done].
  - intros He. right. by exists user.
Qed.

(** C6: The two proxies enforce one policy. Take a CONNECT to the HTTP proxy and a SOCKS5
    session with the same credentials, to the same target, from the same address and at
    the same times, on a store whose cache is sound, as it always is. They have the same
    outcome: both reach the target or neither does, and they leave the same store, and the
    same throttle on the connection. Refused before anything is counted, they leave the
    same usage as well. Else the usage is that of the same accounts, as the checks left
    them, with the connection and the traffic of the session booked: by SOCKS5 under the
    name as it was typed, with what it had copied when one direction ended, by HTTP under
    the name of the account, with both directions complete. Where the name is typed as the account has it and the
    two counts agree, the usage is therefore the same. The metrics, which each server has
    of its own, are not compared. *)
Theorem protocols_agree net neth c r s t methods u p rsv dst port rest :
  alike s t -> cache_sound (store (accounts t)) -> for_the_proxy t r -> Method r = "CONNECT" ->
  Socks5.inp s = encode_auth methods u p ++ encode_request rsv dst port ++ rest ->
  parseProxyAuth r = Some (string_of_bytes u, string_of_bytes p) ->
  zlen methods < 256 -> zlen u < 256 -> zlen p < 256 -> In MethodUserPass methods ->
  target_ok dst -> 0 <= port < 65536 -> same_network net neth r (show_request dst port) ->
  let name := string_of_bytes u in
  let '(r5, s') := Socks5.handleConnection net c s in
  let '(rh, t') := HttpProxy.handleRequest (W := W) neth c r t in
  match r5, rh with
  | Ok _, Ok _ => served_alike net neth c (accounts t) name (show_request dst port) s' t'
  | Err _, Err _ => refused_alike c (accounts t) name s' t'
  | _, _ => False
  end /\
  ((forall user, GetUser (store (accounts t)) name = Some user -> Username user = name) -> Socks5.copied net = HttpProxy.copied neth ->
   alike s' t').
Proof.
  intros Hal Hsound Hp Hm Hi Hr Hml Hul Hpl Hin Hok Hport Hnet name. rewrite handleRequest_proxy by done.
  pose proof (session_agree net neth c r methods u p rsv dst port rest (accounts t) Hnet Hok Hport Hsound Hm Hr Hml Hul Hpl Hin s t
    (conj Hal (conj Hi eq_refl))) as H. fold name in H.
  assert (forall user x s' t', Username user = name -> ended c (accounts t) name user x x s' t' -> alike s' t') as Hsame.
  { intros user x s' t' Hn (H1 & H2 & H3 & a & _ & H4 & H5). rewrite Hn in H5. split_and!; [split; congruence|done..]. }
  destruct (Socks5.handleConnection net c s) as [[[]|e] s'], (proxy_request neth c r t) as [[[]|e'] t']; try done.
  - destruct H as [_ H]. split; [done|]. intros Hn Hc. destruct H as [(user & Hg & He) _].
    rewrite Hc in He. eapply Hsame; [by apply Hn|exact He].
  - split; [done|]. intros Hn _. destruct H as [H|(user & Hg & He)]; [done|]. eapply Hsame; [by apply Hn|exact He].
Qed.
End Stages.

(** ** One user, two protocols *)

#[local] Existing Instance demo_env.

Lemma protocols_agree_witness :
  let a0 := accounts HttpProxyFacts.demo_session in
  let '(r5, s') := Socks5.handleConnection demo_net5 demo_clock5 (Socks5Facts.demo_session demo_stream) in
  let '(rh, t') := HttpProxy.handleRequest (W := Response) HttpProxyFacts.demo_net demo_clock connect_request
                     HttpProxyFacts.demo_session in
  match r5, rh with
  | Ok _, Ok _ => served_alike demo_net5 HttpProxyFacts.demo_net demo_clock5 a0 "Bob" "example.org:443" s' t'
  | Err _, Err _ => refused_alike demo_clock5 a0 "Bob" s' t'
  | _, _ => False
  end /\
  ((forall user, GetUser (store a0) "Bob" = Some user -> Username user = "Bob") ->
   Socks5.copied demo_net5 = HttpProxy.copied HttpProxyFacts.demo_net -> alike s' t').
Proof.
  apply (protocols_agree demo_net5 HttpProxyFacts.demo_net demo_clock5 connect_request
           (Socks5Facts.demo_session demo_stream) HttpProxyFacts.demo_session
           [x00; x02] (bytes_of_string "Bob") Socks5Facts.secret x00 (Domain (bytes_of_string "example.org")) 443 []).
  - split_and!; reflexivity.
  - intros key e H. exfalso. vm_compute in H. discriminate H.
  - left. reflexivity.
  - reflexivity.
  - reflexivity.
  - vm_compute. reflexivity.
  - vm_compute. reflexivity.
  - vm_compute. reflexivity.
  - vm_compute. reflexivity.
  - right. left. reflexivity.
  - vm_compute. reflexivity.
  - lia.
  - split; [reflexivity|vm_compute; reflexivity| |reflexivity].
    split; [reflexivity|intros _; eexists; reflexivity].
Defined.
