(* ===== verification/UserAdmin.v ===== *)
(** * The user management tool ([scripts/manage-users.go])

    A menu over the users file: every round loads the file, changes the list and
    writes it back. [Admin] is the console and the file; the tool is a state
    monad over it. A line of input is consumed by each prompt, and past the end of
    the input every prompt reads the empty line, for the errors of [ReadString]
    are ignored. Not of this repository, hence the class [AdminEnv]: bcrypt (whose
    [n]-th call has its own salt), the encoding of users.json, what the [n]-th
    write does to the file, the clock and Unicode folding. *)
From S2P Require Import Prelude GoStrings GoTime Calendar UserStore.
Open Scope Z_scope.

Class AdminEnv := {
  bcrypt_generate : nat -> string -> result string;
  json_marshal_users : UsersConfig -> result string;
  write_error : nat -> option (string * result string);   (* the error, and the file after it *)
  clock : nat -> Z;
  unicode_equal_fold : string -> string -> bool
}.

Record Admin := MkAdmin {
  stdin : list string;
  stdout : string;
  file : result string;
  calls : nat               (* calls of the environment so far *)
}.

(** ** Console *)

Definition IO (A : Type) : Type := Admin -> A * Admin.
#[export] Instance IO_ret : MRet IO := fun _ a w => (a, w).
#[export] Instance IO_bind : MBind IO := fun _ _ f m w => let '(a, w) := m w in f a w.

Definition print (s : string) : IO unit := fun w =>
  ((), MkAdmin w.(stdin) (w.(stdout) +:+ s) w.(file) w.(calls)).
Definition nl : string := String (chr 10) "".
Definition println (s : string) : IO unit := print (s +:+ nl).
Definition next_call : IO nat := fun w =>
  (w.(calls), MkAdmin w.(stdin) w.(stdout) w.(file) (S w.(calls))).
Definition read_file : IO (result string) := fun w => (w.(file), w).
Definition set_file (f : result string) : IO unit := fun w =>
  ((), MkAdmin w.(stdin) w.(stdout) f w.(calls)).

(** [reader.ReadString('\n')], its error ignored. *)
Definition read_line : IO string := fun w =>
  match w.(stdin) with
  | [] => ("", w)
  | l :: ls => (l, MkAdmin ls w.(stdout) w.(file) w.(calls))
  end.

Section Tool.
Context {UC : Unicode} {AE : AuthEnv} {AD : AdminEnv}.

(** [strings.EqualFold] *)
Definition EqualFold (s t : string) : bool :=
  if is_ascii s && is_ascii t then String.eqb (ToLower s) (ToLower t) else unicode_equal_fold s t.

Definition prompt (label : string) : IO string :=
  _ ← print (label +:+ ": "); text ← read_line; mret (TrimSpace text).

Definition promptDefault (label defaultValue : string) : IO string :=
  _ ← print (if String.eqb defaultValue "" then label +:+ ": "
             else label +:+ " [" +:+ defaultValue +:+ "]: ");
  text ← read_line;
  let text := TrimSpace text in
  mret (if String.eqb text "" then defaultValue else text).

(** ** The file *)

Definition no_users : UsersConfig := MkUsersConfig [] [] [].

Definition loadConfig (path : string) : IO UsersConfig :=
  data ← read_file;
  match data with
  | Err _ => mret no_users
  | Ok data =>
      match json_users data with
      | Err _ => _ ← println ("⚠️  Warning: Could not parse " +:+ path +:+ ", starting fresh."); mret no_users
      | Ok cfg => mret cfg
      end
  end.

Definition saveConfig (cfg : UsersConfig) : IO unit :=
  match json_marshal_users cfg with
  | Err err => println ("Error saving: " +:+ err)
  | Ok data =>
      n ← next_call;
      match write_error n with
      | None => set_file (Ok data)
      | Some (err, after) => _ ← set_file after; println ("Error writing file: " +:+ err)
      end
  end.

(** ** The commands *)

Definition with_list (cfg : UsersConfig) (us : list User) : UsersConfig :=
  MkUsersConfig us cfg.(IPWhitelist) cfg.(SuperAdminIPs).

(** The expiry of the date typed, in RFC 3339. *)
Definition read_expiry (input bad : string) (keep : string) : IO string :=
  match ParseDate input with
  | Some t => mret (FormatRFC3339 (H := utc) t)
  | None => _ ← println bad; mret keep
  end.

Definition addUser (cfg : UsersConfig) : IO UsersConfig :=
  _ ← println (nl +:+ "── Add New User ──────────────────────────");
  username ← prompt "Username";
  if String.eqb username "" then _ ← println "Username cannot be empty."; mret cfg else
  if existsb (fun u => EqualFold u.(Username) username) cfg.(Users)
  then _ ← println ("⚠️  User '" +:+ username +:+ "' already exists."); mret cfg else
  password ← prompt "Password";
  if String.eqb password "" then _ ← println "Password cannot be empty."; mret cfg else
  n ← next_call;
  match bcrypt_generate n password with
  | Err err => _ ← println ("Error hashing password: " +:+ err); mret cfg
  | Ok hash =>
      role ← promptDefault "Role (user/super_admin)" "user";
      plan ← promptDefault "Plan name (starter/pro/enterprise/admin)" "starter";
      bwLimitStr ← promptDefault "Monthly bandwidth limit in GB (0 = unlimited)" "0";
      let bwLimit := (Atoi bwLimitStr).1 in
      speedStr ← promptDefault "Speed limit in Mbps (0 = unlimited, no throttle)" "0";
      let speed := (Atoi speedStr).1 in
      maxConnsStr ← promptDefault "Max concurrent connections (0 = unlimited)" "0";
      let maxConns := (Atoi maxConnsStr).1 in
      rpmStr ← promptDefault "Rate limit RPM - requests per minute (0 = unlimited)" "0";
      let rpm := (Atoi rpmStr).1 in
      expiresInput ← promptDefault "Expiry date - YYYY-MM-DD (empty = no expiry)" "";
      expiresAt ← (if String.eqb expiresInput "" then mret ""
                   else read_expiry expiresInput "⚠️  Invalid date format, setting no expiry." "");
      let user := MkUser username role hash rpm true plan bwLimit speed maxConns expiresAt in
      _ ← println (nl +:+ "✅ User '" +:+ username +:+ "' added successfully!");
      _ ← println ("   Plan: " +:+ plan);
      _ ← println (if 0 <? bwLimit then "   Bandwidth: " +:+ bwLimitStr +:+ " GB/month"
                   else "   Bandwidth: Unlimited");
      _ ← println (if 0 <? speed then "   Speed: " +:+ speedStr +:+ " Mbps" else "   Speed: Unlimited");
      mret (with_list cfg (cfg.(Users) ++ [user]))
  end.

(** One line of the listing; the date printed is the one of the text, for the time
    parsed is shown in its own zone. *)
Definition list_line (i : nat) (u : User) : IO unit :=
  _ ← print ("  " +:+ decimal (Z.of_nat i + 1) +:+ ") " +:+ (if u.(Enabled) then "✅" else "❌") +:+ " "
             +:+ u.(Username) +:+ " [" +:+ u.(Role) +:+ "] plan=" +:+ u.(Plan));
  _ ← print (if 0 <? u.(BandwidthLimitGB) then " bw=" +:+ decimal u.(BandwidthLimitGB) +:+ "GB" else " bw=∞");
  _ ← print (if 0 <? u.(BandwidthSpeedMbps)
             then " speed=" +:+ decimal u.(BandwidthSpeedMbps) +:+ "Mbps" else "");
  _ ← print (if 0 <? u.(MaxConnections) then " conns=" +:+ decimal u.(MaxConnections) else "");
  _ ← (if String.eqb u.(ExpiresAt) "" then mret () else
       match ParseRFC3339 u.(ExpiresAt) with
       | None => mret ()
       | Some t =>
           n ← next_call;
           print (if t <? clock n then " EXPIRED" else " expires=" +:+ string_take 10 u.(ExpiresAt))
       end);
  println "".

Fixpoint list_lines (i : nat) (us : list User) : IO unit :=
  match us with
  | [] => mret ()
  | u :: us => _ ← list_line i u; list_lines (S i) us
  end.

Definition listUsers (cfg : UsersConfig) : IO unit :=
  _ ← println (nl +:+ "── Current Users ─────────────────────────");
  if decide (cfg.(Users) = []) then println "  No users configured." else list_lines 0 cfg.(Users).

(** The dialogue that the three commands on one user begin with: the index of the
    user chosen. *)
Definition chooseUser (cfg : UsersConfig) (what : string) : IO (option nat) :=
  _ ← listUsers cfg;
  if decide (cfg.(Users) = []) then mret None else
  idxStr ← prompt ("Enter user number to " +:+ what +:+ " (or 'cancel')");
  if String.eqb idxStr "cancel" then mret None else
  let '(idx, ok) := Atoi idxStr in
  if negb ok || (idx <? 1) || (zlen cfg.(Users) <? idx)
  then _ ← println "Invalid selection."; mret None
  else mret (Some (Z.to_nat (idx - 1))).

Definition removeUser (cfg : UsersConfig) : IO UsersConfig :=
  choice ← chooseUser cfg "remove";
  match choice ≫= fun i => (i,.) <$> cfg.(Users) !! i with
  | None => mret cfg
  | Some (i, removed) =>
      _ ← println ("✅ Removed user: " +:+ removed.(Username));
      mret (with_list cfg (take i cfg.(Users) ++ drop (S i) cfg.(Users)))
  end.

Definition with_enabled (b : bool) (u : User) : User :=
  MkUser u.(Username) u.(Role) u.(PasswordHash) u.(RateLimitRPM) b u.(Plan) u.(BandwidthLimitGB)
    u.(BandwidthSpeedMbps) u.(MaxConnections) u.(ExpiresAt).

Definition toggleUser (cfg : UsersConfig) : IO UsersConfig :=
  choice ← chooseUser cfg "toggle";
  match choice ≫= fun i => (i,.) <$> cfg.(Users) !! i with
  | None => mret cfg
  | Some (i, u) =>
      let u := with_enabled (negb u.(Enabled)) u in
      _ ← println ("✅ User '" +:+ u.(Username) +:+ "' is now "
                   +:+ (if u.(Enabled) then "enabled" else "disabled"));
      mret (with_list cfg (<[i := u]> cfg.(Users)))
  end.

(** A field is asked for and kept when the answer is empty. *)
Definition ask {A} (label : string) (current : A) (f : string -> IO A) : IO A :=
  v ← promptDefault label "";
  if String.eqb v "" then mret current else f v.

Definition update_fields (u : User) : IO User :=
  plan ← ask ("Plan (current: " +:+ u.(Plan) +:+ ")") u.(Plan) (fun v => mret v);
  gb ← ask ("Bandwidth limit GB (current: " +:+ decimal u.(BandwidthLimitGB) +:+ ")")
         u.(BandwidthLimitGB) (fun v => mret (Atoi v).1);
  mbps ← ask ("Speed limit Mbps (current: " +:+ decimal u.(BandwidthSpeedMbps) +:+ ")")
           u.(BandwidthSpeedMbps) (fun v => mret (Atoi v).1);
  conns ← ask ("Max connections (current: " +:+ decimal u.(MaxConnections) +:+ ")")
            u.(MaxConnections) (fun v => mret (Atoi v).1);
  rpm ← ask ("Rate limit RPM (current: " +:+ decimal u.(RateLimitRPM) +:+ ")")
          u.(RateLimitRPM) (fun v => mret (Atoi v).1);
  hash ← ask "New password (empty = keep current)" u.(PasswordHash) (fun v =>
           n ← next_call;
           match bcrypt_generate n v with
           | Err err => _ ← println ("Error hashing password: " +:+ err); mret u.(PasswordHash)
           | Ok hash => _ ← println "Password updated!"; mret hash
           end);
  expires ← ask ("Expiry date YYYY-MM-DD (current: " +:+ u.(ExpiresAt) +:+ ", 'clear' to remove)")
              u.(ExpiresAt) (fun v =>
           if String.eqb v "clear" then mret ""
           else read_expiry v "⚠️  Invalid date format." u.(ExpiresAt));
  mret (MkUser u.(Username) u.(Role) hash rpm u.(Enabled) plan gb mbps conns expires).

Definition updateUser (cfg : UsersConfig) : IO UsersConfig :=
  choice ← chooseUser cfg "update";
  match choice ≫= fun i => (i,.) <$> cfg.(Users) !! i with
  | None => mret cfg
  | Some (i, u) =>
      _ ← println (nl +:+ "Updating user: " +:+ u.(Username));
      _ ← println ("Press Enter to keep current value." +:+ nl);
      u ← update_fields u;
      _ ← println ("✅ User '" +:+ u.(Username) +:+ "' updated!");
      mret (with_list cfg (<[i := u]> cfg.(Users)))
  end.

Definition generateHash : IO unit :=
  password ← prompt "Enter password to hash";
  if String.eqb password "" then mret () else
  n ← next_call;
  match bcrypt_generate n password with
  | Err err => println ("Error: " +:+ err)
  | Ok hash => _ ← println (nl +:+ "Password hash (copy to users.json):"); println hash
  end.

(** ** The menu *)

Definition menu : string :=
  String.concat nl
    ["What would you like to do?"; "  1) Add a new user"; "  2) List all users"; "  3) Remove a user";
     "  4) Toggle user (enable/disable)"; "  5) Update user plan/limits";
     "  6) Generate password hash only"; "  7) Save and exit"; "  8) Exit without saving"; ""].

Definition save_advice (usersFile : string) : string :=
  String.concat nl
    [nl +:+ "✅ Saved to " +:+ usersFile;
     "📋 Remember to copy this file to your server:";
     "   scp -i your-key.pem " +:+ usersFile +:+ " ubuntu@YOUR_EC2_IP:~";
     "   Then SSH in and run:";
     "   sudo mv ~/" +:+ usersFile +:+ " /opt/proxy/users.json";
     "   sudo chown proxy:proxy /opt/proxy/users.json";
     "   sudo systemctl restart proxy"].

(** One round of the loop of [main]: whether it returned. *)
Definition main_round (usersFile : string) : IO bool :=
  _ ← println menu;
  choice ← prompt "Choose an option (1-8)";
  cfg ← loadConfig usersFile;
  if String.eqb choice "1" then cfg ← addUser cfg; _ ← saveConfig cfg; _ ← println ""; mret false
  else if String.eqb choice "2" then _ ← listUsers cfg; _ ← println ""; mret false
  else if String.eqb choice "3" then cfg ← removeUser cfg; _ ← saveConfig cfg; _ ← println ""; mret false
  else if String.eqb choice "4" then cfg ← toggleUser cfg; _ ← saveConfig cfg; _ ← println ""; mret false
  else if String.eqb choice "5" then cfg ← updateUser cfg; _ ← saveConfig cfg; _ ← println ""; mret false
  else if String.eqb choice "6" then _ ← generateHash; _ ← println ""; mret false
  else if String.eqb choice "7" then _ ← saveConfig cfg; _ ← println (save_advice usersFile); mret true
  else if String.eqb choice "8" then _ ← println "Exiting without saving."; mret true
  else _ ← println "Invalid option. Try again."; _ ← println ""; mret false.

(** The loop, for at most [fuel] rounds; [None] while it has not returned. *)
Fixpoint main_loop (fuel : nat) (usersFile : string) (w : Admin) : option Admin :=
  match fuel with
  | O => None
  | S fuel =>
      let '(returned, w) := main_round usersFile w in
      if returned : bool then Some w else main_loop fuel usersFile w
  end.

Definition title : string :=
  String.concat nl
    [""; "╔══════════════════════════════════════════════╗";
     "║   Multi-Protocol Proxy - User Management Tool║";
     "╚══════════════════════════════════════════════╝"; ""; ""].

(** [os.Args[1:]] *)
Definition main (fuel : nat) (args : list string) (w : Admin) : option Admin :=
  let usersFile := match args with a :: _ => a | [] => "users.json" end in
  main_loop fuel usersFile (print title w).2.
End Tool.
