(* ===== verification/UserAdminFacts.v ===== *)
(** * What the user management tool guarantees

    [steps] runs a dialogue up to what it prints, one prompt per line of input.
    With it the account a dialogue adds is computed, and shown to be one the
    running proxy accepts after loading the file written; the names in the list
    stay distinct; and the menu returns within one round per line of input, or
    never. *)
From S2P Require Import Prelude GoStrings GoFloat GoNet GoTime Calendar Sha256 RateLimiter UserStore.
From S2P Require Import UserStoreFacts UserAdmin.
Open Scope Z_scope.

(** ** Dialogues up to what they print *)

Record Desk := MkDesk { d_in : list string; d_file : result string; d_calls : nat }.

Definition at_desk (d : Desk) (out : string) : Admin := MkAdmin d.(d_in) out d.(d_file) d.(d_calls).
Definition desk (w : Admin) : Desk := MkDesk w.(stdin) w.(file) w.(calls).

Definition steps {A} (m : IO A) (d : Desk) (a : A) (d' : Desk) : Prop :=
  forall out, exists out', m (at_desk d out) = (a, at_desk d' out').

Lemma at_desk_desk w : at_desk (desk w) w.(stdout) = w.
Proof. by destruct w. Qed.

Lemma steps_run {A} (m : IO A) w a d' : steps m (desk w) a d' -> (m w).1 = a /\ desk (m w).2 = d'.
Proof.
  intros H. destruct (H w.(stdout)) as [out' E]. rewrite at_desk_desk in E. rewrite E.
  split; [done|]. by destruct d'.
Qed.

Lemma steps_bind {A B} (m : IO A) (f : A -> IO B) d a d1 b d2 :
  steps m d a d1 -> steps (f a) d1 b d2 -> steps (x ← m; f x) d b d2.
Proof.
  intros Hm Hf out. destruct (Hm out) as [o1 E1]. destruct (Hf o1) as [o2 E2]. exists o2.
  unfold mbind, IO_bind. by rewrite E1.
Qed.

Lemma steps_ret {A} (a : A) d : steps (mret a) d a d.
Proof. intros out. by exists out. Qed.

Lemma steps_print s d : steps (print s) d () d.
Proof. intros out. by eexists. Qed.

Lemma steps_println s d : steps (println s) d () d.
Proof. apply steps_print. Qed.

Lemma steps_next_call i f n : steps next_call (MkDesk i f n) n (MkDesk i f (S n)).
Proof. intros out. by exists out. Qed.

Lemma steps_read_file i f n : steps read_file (MkDesk i f n) f (MkDesk i f n).
Proof. intros out. by exists out. Qed.

Lemma steps_set_file g i f n : steps (set_file g) (MkDesk i f n) () (MkDesk i g n).
Proof. intros out. by exists out. Qed.

Lemma steps_read_line l ls f n : steps read_line (MkDesk (l :: ls) f n) l (MkDesk ls f n).
Proof. intros out. by exists out. Qed.

(** Every dialogue takes some lines from the front of the input. *)
Definition consumes {A} (m : IO A) : Prop :=
  forall w, (length (stdin (m w).2) <= length (stdin w))%nat.

Lemma consumes_bind {A B} (m : IO A) (f : A -> IO B) :
  consumes m -> (forall a, consumes (f a)) -> consumes (x ← m; f x).
Proof.
  intros Hm Hf w. unfold mbind, IO_bind. specialize (Hm w). destruct (m w) as [a w1].
  specialize (Hf a w1). simpl in *. lia.
Qed.

Lemma consumes_ret {A} (a : A) : consumes (mret a).
Proof. intros w. simpl. lia. Qed.
Lemma consumes_print s : consumes (print s).
Proof. intros w. simpl. lia. Qed.
Lemma consumes_println s : consumes (println s).
Proof. apply consumes_print. Qed.
Lemma consumes_next_call : consumes next_call.
Proof. intros w. simpl. lia. Qed.
Lemma consumes_read_file : consumes read_file.
Proof. intros w. simpl. lia. Qed.
Lemma consumes_set_file f : consumes (set_file f).
Proof. intros w. simpl. lia. Qed.
Lemma consumes_read_line : consumes read_line.
Proof. intros w. unfold read_line. destruct (stdin w) eqn:E; simpl; rewrite ?E; simpl; lia. Qed.

Create HintDb dialogue discriminated.
#[export] Hint Resolve steps_ret steps_print steps_println steps_next_call steps_read_file
  steps_set_file steps_read_line : dialogue.
#[export] Hint Resolve consumes_ret consumes_print consumes_println consumes_next_call
  consumes_read_file consumes_set_file consumes_read_line : dialogue.

(** Walks through a dialogue for [consumes], opening its branches. *)
Ltac consume :=
  repeat first
    [ progress auto with dialogue
    | apply consumes_bind; [|intros ?]
    | match goal with
      | |- consumes (if ?b then _ else _) => destruct b
      | |- consumes (match ?x with _ => _ end) => destruct x
      | |- consumes (let '_ := ?x in _) => destruct x
      end ].

(** One action of a dialogue, and then the rest. *)
Ltac step := eapply steps_bind; [solve [eauto with dialogue]|].

Section Tool.
Context {UC : Unicode} {AE : AuthEnv} {AD : AdminEnv}.

Lemma steps_prompt label l ls f n : steps (prompt label) (MkDesk (l :: ls) f n) (TrimSpace l) (MkDesk ls f n).
Proof. unfold prompt. do 2 step. auto with dialogue. Qed.

Definition or_default (l defaultValue : string) : string :=
  if String.eqb (TrimSpace l) "" then defaultValue else TrimSpace l.

Lemma steps_promptDefault label v l ls f n :
  steps (promptDefault label v) (MkDesk (l :: ls) f n) (or_default l v) (MkDesk ls f n).
Proof. unfold promptDefault. do 2 step. auto with dialogue. Qed.

Lemma steps_read_expiry input bad keep d :
  steps (read_expiry input bad keep) d
    (match ParseDate input with Some t => FormatRFC3339 (H := utc) t | None => keep end) d.
Proof. unfold read_expiry. destruct (ParseDate input); [auto with dialogue|]. step. auto with dialogue. Qed.

Lemma consumes_prompt label : consumes (prompt label).
Proof. unfold prompt. consume. Qed.
Lemma consumes_promptDefault label v : consumes (promptDefault label v).
Proof. unfold promptDefault. consume. Qed.
#[local] Hint Resolve steps_prompt steps_promptDefault steps_read_expiry : dialogue.
#[local] Hint Resolve consumes_prompt consumes_promptDefault : dialogue.

Lemma consumes_loadConfig path : consumes (loadConfig path).
Proof. unfold loadConfig. consume. Qed.
Lemma consumes_saveConfig cfg : consumes (saveConfig cfg).
Proof. unfold saveConfig. consume. Qed.
Lemma consumes_read_expiry input bad keep : consumes (read_expiry input bad keep).
Proof. unfold read_expiry. consume. Qed.
#[local] Hint Resolve consumes_loadConfig consumes_saveConfig consumes_read_expiry : dialogue.
Lemma consumes_addUser cfg : consumes (addUser cfg).
Proof. unfold addUser. consume. Qed.
Lemma consumes_list_lines us : forall i, consumes (list_lines i us).
Proof. induction us as [|u us IH]; intros i; cbn [list_lines]; [consume|]. unfold list_line. consume. Qed.
#[local] Hint Resolve consumes_addUser consumes_list_lines : dialogue.
Lemma consumes_listUsers cfg : consumes (listUsers cfg).
Proof. unfold listUsers. consume. Qed.
#[local] Hint Resolve consumes_listUsers : dialogue.
Lemma consumes_chooseUser cfg what : consumes (chooseUser cfg what).
Proof. unfold chooseUser. consume. Qed.
Lemma consumes_ask {A} label (a : A) f : (forall v, consumes (f v)) -> consumes (ask label a f).
Proof. intros H. unfold ask. consume. Qed.
#[local] Hint Resolve consumes_chooseUser : dialogue.
Lemma consumes_update_fields u : consumes (update_fields u).
Proof. unfold update_fields. consume; apply consumes_ask; intros; consume. Qed.
#[local] Hint Resolve consumes_update_fields : dialogue.
Lemma consumes_removeUser cfg : consumes (removeUser cfg).
Proof. unfold removeUser. consume. Qed.
Lemma consumes_toggleUser cfg : consumes (toggleUser cfg).
Proof. unfold toggleUser. consume. Qed.
Lemma consumes_updateUser cfg : consumes (updateUser cfg).
Proof. unfold updateUser. consume. Qed.
Lemma consumes_generateHash : consumes generateHash.
Proof. unfold generateHash. consume. Qed.
#[local] Hint Resolve consumes_removeUser consumes_toggleUser consumes_updateUser consumes_generateHash : dialogue.

(** ** The menu returns within the input *)

Definition reads {A} (m : IO A) : Prop :=
  forall w, (length (stdin (m w).2) <= pred (length (stdin w)))%nat.

Lemma reads_then {A B} (m : IO A) (f : A -> IO B) :
  reads m -> (forall a, consumes (f a)) -> reads (x ← m; f x).
Proof.
  intros Hm Hf w. unfold mbind, IO_bind. specialize (Hm w). destruct (m w) as [a w1].
  specialize (Hf a w1). simpl in *. lia.
Qed.

Lemma then_reads {A B} (m : IO A) (f : A -> IO B) :
  consumes m -> (forall a, reads (f a)) -> reads (x ← m; f x).
Proof.
  intros Hm Hf w. unfold mbind, IO_bind. specialize (Hm w). destruct (m w) as [a w1].
  specialize (Hf a w1). simpl in *. lia.
Qed.

Lemma reads_prompt label : reads (prompt label).
Proof.
  unfold prompt. apply then_reads; [auto with dialogue|]. intros _. apply reads_then; [|auto with dialogue].
  intros w. unfold read_line. destruct (stdin w) eqn:E; simpl; rewrite ?E; simpl; lia.
Qed.

Lemma reads_main_round path : reads (main_round path).
Proof.
  unfold main_round. apply then_reads; [auto with dialogue|]. intros _.
  apply reads_then; [apply reads_prompt|]. intros choice. consume.
Qed.

(** What the tool takes the users file for. *)
Definition loaded (f : result string) : UsersConfig :=
  match f with
  | Err _ => no_users
  | Ok data => match json_users data with Err _ => no_users | Ok cfg => cfg end
  end.

Lemma steps_loadConfig path i f n : steps (loadConfig path) (MkDesk i f n) (loaded f) (MkDesk i f n).
Proof.
  unfold loadConfig, loaded. step. destruct f as [data|]; [|auto with dialogue].
  destruct (json_users data); [auto with dialogue|]. step. auto with dialogue.
Qed.

Lemma steps_prompt_eof label f n : steps (prompt label) (MkDesk [] f n) "" (MkDesk [] f n).
Proof. unfold prompt. step. intros out. by exists out. Qed.

Lemma steps_main_round_eof path f n : steps (main_round path) (MkDesk [] f n) false (MkDesk [] f n).
Proof.
  unfold main_round. step. eapply steps_bind; [apply steps_prompt_eof|].
  eapply steps_bind; [apply steps_loadConfig|]. simpl String.eqb. cbv iota.
  do 2 step. auto with dialogue.
Qed.

Lemma main_loop_eof fuel path : forall w, stdin w = [] -> main_loop fuel path w = None.
Proof.
  induction fuel as [|fuel IH]; intros w Hw; [done|]. cbn [main_loop].
  pose proof (steps_main_round_eof path (file w) (calls w)) as H. rewrite <- Hw in H.
  apply (steps_run _ w) in H as [H1 H2]. destruct (main_round path w) as [b w']. simpl in *. subst b.
  apply IH. unfold desk in H2. congruence.
Qed.

Lemma main_loop_within path fuel : forall w w',
  main_loop fuel path w = Some w' -> forall n, (length (stdin w) <= n)%nat -> main_loop n path w = Some w'.
Proof.
  induction fuel as [|fuel IH]; intros w w' H n Hn; [done|].
  destruct (stdin w) as [|l ls] eqn:E; [by rewrite main_loop_eof in H|].
  destruct n as [|n]; [simpl in Hn; lia|]. cbn [main_loop] in *.
  pose proof (reads_main_round path w) as Hr. destruct (main_round path w) as [[] w1]; [done|].
  apply (IH w1); [done|]. rewrite E in Hr. simpl in *. lia.
Qed.

(** C37: The tool returns within one round per line of input, or never: at the end of
    the input it prints its menu for ever. *)
Theorem main_returns_by_eof (fuel : nat) (args : list string) (w w' : Admin) :
  main fuel args w = Some w' -> main (length (stdin w)) args w = Some w' /\ stdin w <> [].
Proof.
  unfold main. set (path := match args with [] => _ | _ :: _ => _ end). intros H. split.
  - apply (main_loop_within path fuel); [done|]. done.
  - intros E. by rewrite main_loop_eof in H.
Qed.

(** ** What the commands do to the list *)

Definition returns {A} (m : IO A) (P : A -> Prop) : Prop := forall w, P (m w).1.

Lemma returns_bind {A B} (m : IO A) (f : A -> IO B) P Q :
  returns m P -> (forall a, P a -> returns (f a) Q) -> returns (x ← m; f x) Q.
Proof.
  intros Hm Hf w. unfold mbind, IO_bind. specialize (Hm w). destruct (m w) as [a w1]. by apply Hf.
Qed.

Lemma returns_any {A B} (m : IO A) (f : A -> IO B) Q :
  (forall a, returns (f a) Q) -> returns (x ← m; f x) Q.
Proof. intros Hf. by apply (returns_bind m f (fun _ => True)). Qed.

Lemma returns_ret {A} (a : A) (P : A -> Prop) : P a -> returns (mret a) P.
Proof. intros H w. exact H. Qed.

Lemma addUser_cases cfg :
  returns (addUser cfg) (fun cfg' => cfg' = cfg \/ exists user,
    cfg' = with_list cfg (Users cfg ++ [user]) /\ Username user <> "" /\ Enabled user = true /\
    existsb (fun u => EqualFold (Username u) (Username user)) (Users cfg) = false).
Proof.
  unfold addUser. apply returns_any; intros _. apply returns_any; intros username.
  destruct (String.eqb_spec username "") as [->|Hne].
  { apply returns_any; intros _. apply returns_ret. by left. }
  destruct (existsb _ _) eqn:Ex.
  { apply returns_any; intros _. apply returns_ret. by left. }
  apply returns_any; intros password. destruct (String.eqb _ _).
  { apply returns_any; intros _. apply returns_ret. by left. }
  apply returns_any; intros n. destruct (bcrypt_generate n password) as [hash|err].
  2: { apply returns_any; intros _. apply returns_ret. by left. }
  do 7 (apply returns_any; intros ?). cbv zeta. do 4 (apply returns_any; intros ?).
  apply returns_ret. right. by eexists.
Qed.

Lemma chosen_cases {A} (m : IO (option nat)) (cfg : UsersConfig) (f : nat -> User -> IO A) (x : A) (P : A -> Prop) :
  P x -> (forall i u, Users cfg !! i = Some u -> returns (f i u) P) ->
  returns (choice ← m; match choice ≫= fun i => (i,.) <$> Users cfg !! i with
                       | None => mret x | Some (i, u) => f i u end) P.
Proof.
  intros Hx Hf. apply returns_any. intros [i|]; simpl; [|by apply returns_ret].
  destruct (Users cfg !! i) as [u|] eqn:E; simpl; [by apply Hf|by apply returns_ret].
Qed.

Lemma removeUser_cases cfg :
  returns (removeUser cfg) (fun cfg' => cfg' = cfg \/ exists i u, Users cfg !! i = Some u /\
    cfg' = with_list cfg (take i (Users cfg) ++ drop (S i) (Users cfg))).
Proof.
  apply (chosen_cases (chooseUser cfg "remove") cfg); [by left|]. intros i u Hi.
  apply returns_any; intros _. apply returns_ret. right. by exists i, u.
Qed.

Lemma toggleUser_cases cfg :
  returns (toggleUser cfg) (fun cfg' => cfg' = cfg \/ exists i u, Users cfg !! i = Some u /\
    cfg' = with_list cfg (<[i := with_enabled (negb (Enabled u)) u]> (Users cfg))).
Proof.
  apply (chosen_cases (chooseUser cfg "toggle") cfg); [by left|]. intros i u Hi.
  apply returns_any; intros _. apply returns_ret. right. by exists i, u.
Qed.

Lemma update_fields_keeps u :
  returns (update_fields u) (fun u' => Username u' = Username u /\ Role u' = Role u /\ Enabled u' = Enabled u).
Proof. unfold update_fields. do 7 (apply returns_any; intros ?). by apply returns_ret. Qed.

Lemma updateUser_cases cfg :
  returns (updateUser cfg) (fun cfg' => cfg' = cfg \/ exists i u u', Users cfg !! i = Some u /\
    (Username u' = Username u /\ Role u' = Role u /\ Enabled u' = Enabled u) /\
    cfg' = with_list cfg (<[i := u']> (Users cfg))).
Proof.
  apply (chosen_cases (chooseUser cfg "update") cfg); [by left|]. intros i u Hi.
  do 2 (apply returns_any; intros _). eapply returns_bind; [apply update_fields_keeps|]. intros u' Hu'.
  apply returns_any; intros _. apply returns_ret. right. by exists i, u, u'.
Qed.

(** No two entries whose names differ only in case. *)
Definition distinct_names (us : list User) : Prop :=
  ForallOrdPairs (fun n m => EqualFold n m = false) (map Username us).

Lemma distinct_names_app us user :
  distinct_names us -> existsb (fun u => EqualFold (Username u) (Username user)) us = false ->
  distinct_names (us ++ [user]).
Proof.
  unfold distinct_names. rewrite map_app. intros H. induction us as [|u us IH]; intros He; simpl in *.
  { repeat constructor. }
  apply orb_false_iff in He as [Hu He]. inversion H as [|? ? Hall Hrest]; subst.
  constructor; [|by apply IH]. apply Forall_app. split; [done|]. by repeat constructor.
Qed.

Lemma distinct_names_drop i us : distinct_names us -> distinct_names (take i us ++ drop (S i) us).
Proof.
  unfold distinct_names. revert i. induction us as [|u us IH]; intros i H; [by rewrite take_nil, drop_nil|].
  inversion H as [|? ? Hall Hrest]; subst. destruct i as [|i]; [done|]. simpl. constructor; [|by apply IH].
  rewrite map_app, fmap_take, fmap_drop. apply Forall_app. split; [by apply Forall_take|by apply Forall_drop].
Qed.

Lemma map_Username_insert i u u' (us : list User) :
  us !! i = Some u -> Username u' = Username u -> map Username (<[i := u']> us) = map Username us.
Proof.
  intros Hi Hu. change (map Username) with (fmap (M := list) Username).
  rewrite list_fmap_insert, Hu. apply list_insert_id. by rewrite list_lookup_fmap, Hi.
Qed.

(** C39: Every command keeps the names distinct up to case, and leaves the address
    lists alone. *)
Theorem commands_keep_names_distinct (cfg : UsersConfig) (w : Admin) (command : UsersConfig -> IO UsersConfig) :
  In command [addUser; removeUser; toggleUser; updateUser] -> distinct_names (Users cfg) ->
  let cfg' := (command cfg w).1 in
  distinct_names (Users cfg') /\ IPWhitelist cfg' = IPWhitelist cfg /\ SuperAdminIPs cfg' = SuperAdminIPs cfg.
Proof.
  intros Hc Hd. simpl in Hc. destruct Hc as [<-|[<-|[<-|[<-|[]]]]]; cbv zeta.
  - destruct (addUser_cases cfg w) as [->|(user & -> & _ & _ & He)]; [done|].
    split; [by apply distinct_names_app|done].
  - destruct (removeUser_cases cfg w) as [->|(i & u & Hi & ->)]; [done|].
    split; [by apply distinct_names_drop|done].
  - destruct (toggleUser_cases cfg w) as [->|(i & u & Hi & ->)]; [done|].
    split; [|done]. unfold distinct_names. simpl. by rewrite (map_Username_insert i u).
  - destruct (updateUser_cases cfg w) as [->|(i & u & u' & Hi & (Hu & _) & ->)]; [done|].
    split; [|done]. unfold distinct_names. simpl. by rewrite (map_Username_insert i u).
Qed.

(** ** The file *)

Lemma steps_saveConfig cfg data i f n :
  json_marshal_users cfg = Ok data -> write_error n = None ->
  steps (saveConfig cfg) (MkDesk i f n) () (MkDesk i (Ok data) (S n)).
Proof. unfold saveConfig. intros -> Hw. step. rewrite Hw. auto with dialogue. Qed.

Lemma steps_chooseUser_none cfg what i f n :
  Users cfg = [] -> steps (chooseUser cfg what) (MkDesk i f n) None (MkDesk i f n).
Proof.
  intros H. unfold chooseUser, listUsers. eapply steps_bind.
  - step. rewrite decide_True by done. auto with dialogue.
  - rewrite decide_True by done. auto with dialogue.
Qed.

(** C38: A file that cannot be read, or not be parsed, counts as empty: the next
    command that saves replaces it by a list without users, although every
    account is still in it. *)
Theorem unreadable_file_is_wiped (path choice : string) (rest : list string) (w : Admin) (empty : string) :
  stdin w = choice :: rest -> In (TrimSpace choice) ["3"; "4"; "5"; "7"] ->
  match file w with Ok data => exists err, json_users data = Err err | Err _ => True end ->
  json_marshal_users no_users = Ok empty -> write_error (calls w) = None ->
  file (main_round path w).2 = Ok empty.
Proof.
  intros Hin Hc Hf Hm Hw.
  assert (loaded (file w) = no_users) as Hl.
  { unfold loaded. destruct (file w); [|done]. by destruct Hf as [err ->]. }
  assert (exists b d', steps (main_round path) (desk w) b d' /\ d_file d' = Ok empty) as (b & d' & Hs & <-).
  2: { apply steps_run in Hs as [_ Hs]. by rewrite <- Hs. }
  assert (forall i, steps (saveConfig no_users) (MkDesk i (file w) (calls w)) () (MkDesk i (Ok empty) (S (calls w))))
    as Hsave by (intros i; by apply steps_saveConfig).
  exists (String.eqb (TrimSpace choice) "7"), (MkDesk rest (Ok empty) (S (calls w))). split; [|done].
  unfold main_round, desk. rewrite Hin. step. eapply steps_bind; [apply steps_prompt|].
  eapply steps_bind; [apply steps_loadConfig|]. rewrite Hl.
  simpl in Hc. destruct Hc as [<-|[<-|[<-|[<-|[]]]]]; simpl String.eqb; cbv iota.
  1-3: eapply steps_bind; [eapply steps_bind; [by apply steps_chooseUser_none|apply steps_ret]|];
       eapply steps_bind; [apply Hsave|]; step; apply steps_ret.
  eapply steps_bind; [apply Hsave|]. step. apply steps_ret.
Qed.

(** ** An account that was added *)

Definition typed_expiry (date : string) : string :=
  match ParseDate (TrimSpace date) with Some t => FormatRFC3339 (H := utc) t | None => "" end.

Definition typed_user (name role plan gb mbps conns rpm date hash : string) : User :=
  MkUser (TrimSpace name) (or_default role "user") hash (Atoi (or_default rpm "0")).1 true
    (or_default plan "starter") (Atoi (or_default gb "0")).1 (Atoi (or_default mbps "0")).1
    (Atoi (or_default conns "0")).1 (typed_expiry date).

Lemma steps_addUser cfg name password role plan gb mbps conns rpm date rest hash f n :
  TrimSpace name <> "" -> TrimSpace password <> "" ->
  existsb (fun u => EqualFold (Username u) (TrimSpace name)) (Users cfg) = false ->
  bcrypt_generate n (TrimSpace password) = Ok hash ->
  steps (addUser cfg)
    (MkDesk (name :: password :: role :: plan :: gb :: mbps :: conns :: rpm :: date :: rest) f n)
    (with_list cfg (Users cfg ++ [typed_user name role plan gb mbps conns rpm date hash]))
    (MkDesk rest f (S n)).
Proof.
  intros Hn Hp He Hb. unfold addUser. do 2 step.
  rewrite (proj2 (String.eqb_neq _ _)) by done. rewrite He. step.
  rewrite (proj2 (String.eqb_neq _ _)) by done. step. rewrite Hb.
  do 7 step. cbv zeta. eapply steps_bind.
  { instantiate (2 := typed_expiry date). unfold or_default, typed_expiry.
    destruct (String.eqb_spec (TrimSpace date) "") as [->|Hd]; [apply steps_ret|].
    rewrite (proj2 (String.eqb_neq _ _)) by done. apply steps_read_expiry. }
  do 4 step. apply steps_ret.
Qed.
End Tool.

(** What bcrypt and [encoding/json] promise: the hash of a password is accepted
    for it, and a list whose strings are UTF-8 ([encodable]) is read back as it
    was written. *)
Class AdminLaws {AE : AuthEnv} {AD : AdminEnv} := {
  encodable : UsersConfig -> Prop;
  generate_ok n password hash : bcrypt_generate n password = Ok hash -> bcrypt_ok hash password = true;
  marshal_ok cfg : encodable cfg -> exists data, json_marshal_users cfg = Ok data /\ json_users data = Ok cfg
}.

Section Login.
Context {F : Type} {GF : GoFloat F} {UC : Unicode} {MO : MapOrder}.
Context {AE : AuthEnv} {AD : AdminEnv} {AL : AdminLaws}.

Lemma selected_last us user k :
  Enabled user = true -> ToLower (Username user) = k -> selected (us ++ [user]) k = Some user.
Proof.
  intros He Hk. unfold selected. rewrite List.filter_app. simpl.
  rewrite He, (proj2 (String.eqb_eq _ _)) by done. simpl. apply last_snoc.
Qed.

Lemma CheckExpiry_typed (s : UserStore F) u user date t :
  users s !! ToLower u = Some user -> ExpiresAt user = typed_expiry date ->
  CheckExpiry s u t = match ParseDate (TrimSpace date) with Some d => t <? d | None => true end.
Proof.
  intros Hu He. unfold CheckExpiry. rewrite Hu, He. unfold typed_expiry.
  destruct (ParseDate (TrimSpace date)) as [d|] eqn:Ed; [|done].
  apply date_round_trip in Ed as (_ & -> & ->).
  by destruct (TrimSpace date).
Qed.

Lemma ValidateCredentials_fresh (s : UserStore F) u p user t1 t2 :
  credCache s = ∅ -> users s !! ToLower u = Some user -> bcrypt_ok (PasswordHash user) p = true ->
  (ValidateCredentials s u p t1 t2).1 = Some user.
Proof. intros Hc Hu Hp. unfold ValidateCredentials. by rewrite Hc, lookup_empty, Hu, Hp. Qed.

(** C15: An account added at the prompts is one the proxy lets in: a store
    loaded from the file the round wrote accepts the password for the name in any
    spelling that lowers to it, hands out the limits that were typed, and the
    account expires at midnight UTC of the date typed. *)
Theorem added_user_can_login (path name password role plan gb mbps conns rpm date hash : string)
    (rest : list string) (w : Admin) (s : UserStore F) (now : nat -> Z) (u : string) (t1 t2 t : Z) :
  stdin w = "1" :: name :: password :: role :: plan :: gb :: mbps :: conns :: rpm :: date :: rest ->
  TrimSpace name <> "" -> TrimSpace password <> "" ->
  existsb (fun v => EqualFold (Username v) (TrimSpace name)) (Users (loaded (file w))) = false ->
  bcrypt_generate (calls w) (TrimSpace password) = Ok hash -> write_error (S (calls w)) = None ->
  let user := typed_user name role plan gb mbps conns rpm date hash in
  encodable (with_list (loaded (file w)) (Users (loaded (file w)) ++ [user])) ->
  NewUserStore (file (main_round path w).2) now = Ok s -> ToLower u = ToLower (TrimSpace name) ->
  (ValidateCredentials s u (TrimSpace password) t1 t2).1 = Some user /\
  CheckExpiry s u t = match ParseDate (TrimSpace date) with Some d => t <? d | None => true end.
Proof.
  intros Hin Hn Hp He Hb Hw user Henc Hs Hu.
  destruct (marshal_ok _ Henc) as (data & Hm & Hj).
  assert (steps (main_round path) (desk w) false (MkDesk rest (Ok data) (S (S (calls w))))) as Hround.
  { unfold main_round, desk. rewrite Hin. step. eapply steps_bind; [apply steps_prompt|].
    eapply steps_bind; [apply steps_loadConfig|]. simpl String.eqb. cbv iota.
    eapply steps_bind; [by apply steps_addUser|]. eapply steps_bind; [by apply steps_saveConfig|].
    step. apply steps_ret. }
  apply steps_run in Hround as [_ Hd].
  assert (file (main_round path w).2 = Ok data) as Hfile by (by apply (f_equal d_file) in Hd).
  rewrite Hfile in Hs. destruct (NewUserStore_loaded data _ now s Hj Hs) as [Hus Hcache].
  assert (users s !! ToLower u = Some user) as Hsel by (rewrite Hus; by apply selected_last).
  split; [|by apply (CheckExpiry_typed s u user)].
  apply ValidateCredentials_fresh; [done|done|]. by apply (generate_ok (calls w)).
Qed.
End Login.

(** ** Instances *)

Definition typed_alice : User := typed_user (UC := ascii_only) "alice " "" "" "5" "" "3" "60" "2030-01-02" "#pw".
Definition with_alice : UsersConfig := with_list demo_config [bob; typed_alice].

Definition desk_auth : AuthEnv := {|
  bcrypt_ok hash p := String.eqb hash ("#" +:+ p);
  json_users data := if String.eqb data "old" then Ok demo_config
                     else if String.eqb data "new" then Ok with_alice else Err "no JSON" |}.
Definition desk_admin : AdminEnv := {|
  bcrypt_generate _ p := Ok ("#" +:+ p);
  json_marshal_users cfg := Ok (if decide (Users cfg = []) then "none" else "new");
  write_error _ := None;
  clock _ := 0;
  unicode_equal_fold := String.eqb |}.
#[local] Existing Instances desk_auth desk_admin ascii_only.

Lemma desk_generate_ok n password hash : bcrypt_generate n password = Ok hash -> bcrypt_ok hash password = true.
Proof. intros [= <-]. apply String.eqb_refl. Qed.

Lemma desk_marshal_ok cfg :
  cfg = with_alice -> exists data, json_marshal_users cfg = Ok data /\ json_users data = Ok cfg.
Proof. intros ->. by exists "new". Qed.

Definition desk_laws : AdminLaws := {|
  encodable cfg := cfg = with_alice; generate_ok := desk_generate_ok; marshal_ok := desk_marshal_ok |}.
#[local] Existing Instance desk_laws.

Definition alice_input : list string :=
  ["1"; "alice "; "pw"; ""; ""; "5"; ""; "3"; "60"; "2030-01-02"; "8"].
Definition alice_desk : Admin := MkAdmin alice_input "" (Ok "old") 0.
Definition alice_store : UserStore Q :=
  match NewUserStore (F := Q) (file (main_round "users.json" alice_desk).2) (fun _ => 0) with
  | Ok s => s | Err _ => empty_store
  end.

Lemma added_user_can_login_witness :
  (ValidateCredentials alice_store "ALICE" "pw" 0 1).1 = Some typed_alice /\
  CheckExpiry alice_store "ALICE" 0 = true.
Proof.
  apply (added_user_can_login "users.json" "alice " "pw" "" "" "5" "" "3" "60" "2030-01-02" "#pw" ["8"]
    alice_desk alice_store (fun _ => 0) "ALICE" 0 1 0); try reflexivity; try discriminate.
Defined.

Definition alice_done : Admin :=
  match main 5 [] alice_desk with Some w => w | None => alice_desk end.

Lemma main_returns_by_eof_witness : main 11 [] alice_desk = Some alice_done /\ alice_input <> [].
Proof. apply (main_returns_by_eof 5 [] alice_desk alice_done). vm_compute. reflexivity. Defined.

Lemma commands_keep_names_distinct_witness :
  let cfg := (addUser demo_config (MkAdmin (tail alice_input) "" (Ok "old") 0)).1 in
  distinct_names (Users cfg) /\ IPWhitelist cfg = ["10.0.0.0/8"] /\ SuperAdminIPs cfg = [].
Proof.
  apply (commands_keep_names_distinct demo_config (MkAdmin (tail alice_input) "" (Ok "old") 0) addUser); [by left|].
  repeat constructor.
Defined.

Lemma unreadable_file_is_wiped_witness :
  file (main_round "users.json" (MkAdmin ["7"] "" (Ok "{" : result string) 0)).2 = Ok "none".
Proof.
  apply (unreadable_file_is_wiped "users.json" "7" []); try reflexivity; [by right; right; right; left|].
  by exists "no JSON".
Defined.
