(* ===== verification/HashTool.v ===== *)
(** * The password hash tool ([scripts/hash-password.go])

    A loop that reads a password per line and prints its bcrypt hash, until a line says
    [quit]. [ReadString] gives an error at the end of the input, with what follows the
    last newline, and the loop goes on. bcrypt is that of [UserAdmin]. *)
From S2P Require Import Prelude GoStrings UserStore UserAdmin.
Open Scope Z_scope.

Record Console := MkConsole {
  input : string;
  output : string;
  hashed : nat              (* calls of bcrypt so far *)
}.

Definition newline_char : Ascii.ascii := chr 10.

(** [reader.ReadString('\n')], and what is left; [None] at the end of the input. *)
Fixpoint ReadString (s : string) : option (string * string) :=
  match s with
  | "" => None
  | String c s =>
      if decide (c = newline_char) then Some (String c "", s)
      else match ReadString s with Some (l, rest) => Some (String c l, rest) | None => None end
  end.

Definition ask : string := "Enter password to hash (or 'quit' to exit): ".
Definition heading : string :=
  "Password Hash Generator for users.json" +:+ nl +:+ "======================================" +:+ nl +:+ nl.

Definition say (w : Console) (s : string) : Console := MkConsole w.(input) (w.(output) +:+ s) w.(hashed).
Definition set_input (w : Console) (s : string) : Console := MkConsole s w.(output) w.(hashed).
Definition call_bcrypt (w : Console) : Console := MkConsole w.(input) w.(output) (S w.(hashed)).

Section Tool.
Context {UC : Unicode} {AD : AdminEnv}.

(** [HashPassword] of [internal/auth/auth.go], the same call. *)
Definition HashPassword (n : nat) (password : string) : result string :=
  match bcrypt_generate n password with Err err => Err err | Ok hash => Ok hash end.

(** What is printed for a password. *)
Definition hash_text (n : nat) (password : string) : string :=
  match bcrypt_generate n password with
  | Err err => "Error generating hash: " +:+ err +:+ nl
  | Ok hash => nl +:+ "Password hash (copy this to users.json):" +:+ nl +:+ hash +:+ nl +:+ nl
  end.

(** One round of the loop; [true] for the [break]. *)
Definition round (w : Console) : bool * Console :=
  let w := say w ask in
  match ReadString w.(input) with
  | None => (false, set_input (say w ("Error reading input: EOF" +:+ nl)) "")
  | Some (line, rest) =>
      let w := set_input w rest in
      let password := TrimSpace line in
      if String.eqb password "" then (false, w) else
      if String.eqb (ToLower password) "quit" then (true, w) else
      (false, say (call_bcrypt w) (hash_text w.(hashed) password))
  end.

Fixpoint loop (fuel : nat) (w : Console) : option Console :=
  match fuel with
  | O => None
  | S fuel => let '(stop, w) := round w in if stop : bool then Some w else loop fuel w
  end.

Definition main (fuel : nat) (w : Console) : option Console :=
  (fun w => say w ("Goodbye!" +:+ nl)) <$> loop fuel (say w heading).

(** ** Specification *)

(** The lines of the input that end. *)
Fixpoint lines_within (fuel : nat) (s : string) : list string :=
  match fuel with
  | O => []
  | S fuel => match ReadString s with Some (l, rest) => l :: lines_within fuel rest | None => [] end
  end.
Definition lines (s : string) : list string := lines_within (String.length s) s.

Definition is_quit (line : string) : bool :=
  negb (String.eqb (TrimSpace line) "") && String.eqb (ToLower (TrimSpace line)) "quit".

(** The conversation over lines none of which ends it. *)
Fixpoint session (n : nat) (ls : list string) : string :=
  match ls with
  | [] => ""
  | l :: ls =>
      if String.eqb (TrimSpace l) "" then ask +:+ session n ls
      else ask +:+ hash_text n (TrimSpace l) +:+ session (S n) ls
  end.

Lemma ReadString_shorter s l rest : ReadString s = Some (l, rest) -> (String.length rest < String.length s)%nat.
Proof.
  revert l rest. induction s as [|c s IH]; intros l rest; [done|]. simpl. case_decide; [intros [= _ <-]; lia|].
  destruct (ReadString s) as [[l' r']|]; [|done]. intros [= _ <-]. specialize (IH l' r' eq_refl). lia.
Qed.

Lemma lines_within_enough n m s :
  (String.length s <= n)%nat -> (String.length s <= m)%nat -> lines_within n s = lines_within m s.
Proof.
  revert m s. induction n as [|n IH]; intros m s Hn Hm.
  { destruct s; [|simpl in Hn; lia]. by destruct m. }
  destruct m as [|m]; [destruct s; [done|simpl in Hm; lia]|]. simpl.
  destruct (ReadString s) as [[l rest]|] eqn:E; [|done]. apply ReadString_shorter in E. f_equal. apply IH; lia.
Qed.

Lemma lines_step s l rest : ReadString s = Some (l, rest) -> lines s = l :: lines rest.
Proof.
  intros E. unfold lines. pose proof (ReadString_shorter _ _ _ E).
  destruct (String.length s) as [|n] eqn:Hn; [lia|]. simpl. rewrite E. f_equal. apply lines_within_enough; lia.
Qed.

Lemma lines_end s : ReadString s = None -> lines s = [].
Proof. intros E. unfold lines. destruct (String.length s); [done|]. simpl. by rewrite E. Qed.

(** Past the end of the input the loop never comes to its [break]. *)
Lemma loop_eof fuel w : ReadString (input w) = None -> loop fuel w = None.
Proof.
  revert w. induction fuel as [|fuel IH]; intros w E; [done|]. cbn [loop]. unfold round. cbn [input say].
  rewrite E. by apply IH.
Qed.

Lemma loop_lines ls : forall fuel w, ls = lines (input w) ->
  (Forall (fun l => is_quit l = false) ls -> loop fuel w = None) /\
  (forall before q after, ls = before ++ q :: after -> Forall (fun l => is_quit l = false) before ->
     is_quit q = true -> (length before < fuel)%nat ->
     exists w', loop fuel w = Some w' /\ output w' = output w +:+ session (hashed w) before +:+ ask).
Proof.
  induction ls as [|l ls IH]; intros fuel w E.
  - split; [|by intros [|] ? ? [=]]. intros _. apply loop_eof. destruct (ReadString (input w)) as [[l rest]|] eqn:Er; [|done].
    by rewrite (lines_step _ _ _ Er) in E.
  - destruct (ReadString (input w)) as [[l' rest]|] eqn:Er; [|by rewrite (lines_end _ Er) in E].
    rewrite (lines_step _ _ _ Er) in E. injection E as <- E.
    destruct fuel as [|fuel]; [split; [done|]; intros; lia|].
    assert (is_quit l = true -> exists w', round w = (true, w') /\ output w' = output w +:+ ask) as Hq.
    { unfold is_quit, round. cbn [input say]. rewrite Er. intros [H1 H2]%andb_true_iff.
      apply negb_true_iff in H1. rewrite H1, H2. by eexists. }
    assert (is_quit l = false -> exists w', round w = (false, w') /\ input w' = rest /\
      forall ls', output w' +:+ session (hashed w') ls' = output w +:+ session (hashed w) (l :: ls')) as Hn.
    { unfold is_quit, round. cbn [input say]. rewrite Er. cbn [session].
      destruct (String.eqb (TrimSpace l) ""); simpl; intros H;
        [|destruct (String.eqb (ToLower (TrimSpace l)) "quit"); [done|]]; eexists; split_and!; try done;
        intros ls'; simpl; by rewrite !str_app_assoc. }
    cbn [loop]. split.
    + intros [H1 H2]%Forall_cons. destruct (Hn H1) as (w' & -> & Hi & _).
      by apply (IH fuel w'); [rewrite Hi|].
    + intros [|b before] q after; simpl; intros [= <- ->].
      * intros _ Hy _. destruct (Hq Hy) as (w' & -> & Ho). exists w'. split; [done|].
        by rewrite str_nil_app.
      * intros [H1 H2]%Forall_cons Hy Hf. destruct (Hn H1) as (w' & -> & Hi & Ho).
        destruct (proj2 (IH fuel w' ltac:(by rewrite Hi)) before q after) as (w2 & -> & Hw2); [done..|lia|].
        exists w2. split; [done|]. rewrite Hw2, <- !str_app_assoc, Ho. by rewrite !str_app_assoc.
Qed.

(** The tool prints a hash for every line that is not blank, up to the first that says
    [quit] in any case, and then returns; where no line does, it never returns, and at
    the end of the input it complains for ever. *)
Theorem hash_tool_spec (w : Console) :
  (Forall (fun l => is_quit l = false) (lines (input w)) -> forall fuel, main fuel w = None) /\
  (forall before q after fuel, lines (input w) = before ++ q :: after ->
     Forall (fun l => is_quit l = false) before -> is_quit q = true -> (length before < fuel)%nat ->
     exists w', main fuel w = Some w' /\
       output w' = output w +:+ heading +:+ session (hashed w) before +:+ ask +:+ "Goodbye!" +:+ nl).
Proof.
  unfold main. split.
  - intros H fuel. by rewrite (proj1 (loop_lines _ fuel (say w heading) eq_refl) H).
  - intros before q after fuel E H Hq Hf.
    destruct (proj2 (loop_lines _ fuel (say w heading) eq_refl) before q after E H Hq Hf) as (w' & -> & Ho).
    eexists. split; [done|]. simpl in *. by rewrite Ho, !str_app_assoc.
Qed.
End Tool.

(** A session: a password with spaces around it, a blank line, and the end. *)
Definition prefix_env : AdminEnv := {|
  bcrypt_generate _ p := Ok ("#" +:+ p); json_marshal_users _ := Err ""; write_error _ := None; clock _ := 0;
  unicode_equal_fold _ _ := false |}.
Definition three_lines : Console := MkConsole (" pw " +:+ nl +:+ nl +:+ "QUIT" +:+ nl) "" 0.

Lemma hash_tool_spec_witness :
  exists w', main (UC := ascii_only) (AD := prefix_env) 5 three_lines = Some w' /\
    output w' = "" +:+ heading +:+ session (UC := ascii_only) (AD := prefix_env) 0 [" pw " +:+ nl; nl] +:+ ask +:+
      "Goodbye!" +:+ nl.
Proof.
  apply (proj2 (hash_tool_spec (UC := ascii_only) (AD := prefix_env) three_lines)
    [" pw " +:+ nl; nl] ("QUIT" +:+ nl) [] 5%nat); [reflexivity|repeat constructor|reflexivity|simpl; lia].
Defined.
