(* ===== verification/UsageApi.v ===== *)
(** * The usage API and the metrics server
    ([internal/bandwidth/api.go], [internal/proxy/metrics.go])

    [UsageHandler] reports the tracker as JSON; it takes the tracker's lock twice,
    so the tracker is given twice: as it is for [GetAllUsage] and as it is for
    [GetMonth]. [NewMetricsServer] is the table of routes of the metrics server,
    and [serve_metrics] one request to it. The encoding of the report is the class
    [UsageReportJSON]; the Prometheus handler is a parameter. *)
From S2P Require Import Prelude GoStrings GoPath GoFloat GoTime GoHttp Stats StatsFacts.
From S2P Require Import Tracker TrackerFacts.
Open Scope Z_scope.

Record UsageEntry (F : Type) := MkUsageEntry {
  e_BytesUp : Z;
  e_BytesDown : Z;
  e_TotalGB : F;
  e_LimitGB : Z;
  e_PercentUsed : F;
  e_ActiveConns : Z
}.
Arguments MkUsageEntry {F}.
Arguments e_BytesUp {F}.
Arguments e_BytesDown {F}.
Arguments e_TotalGB {F}.
Arguments e_ActiveConns {F}.

Record UsageResponse (F : Type) := MkUsageResponse {
  rp_Month : string;
  rp_Users : gmap string (UsageEntry F)
}.
Arguments MkUsageResponse {F}.
Arguments rp_Month {F}.
Arguments rp_Users {F}.

Class UsageReportJSON (F : Type) := { json_usage : UsageResponse F -> string }.

Section Api.
Context {F : Type} {GF : GoFloat F} {SJ : StatsJSON F} {RJ : UsageReportJSON F}.
Context {ZN : Zone} {UJ : UsageJSON} {W : Type} {RW : ResponseWriter W}.

(** One entry of the report; the limit and the percentage are always zero. *)
Definition usage_entry (u : UserUsage) : UsageEntry F :=
  MkUsageEntry u.(BytesUp) u.(BytesDown)
    (f_of_Z u.(TotalBytes) / f_of_Z (1024 * 1024 * 1024))%F 0 (f_of_Z 0) u.(ActiveConns).

Definition usage_report (all month : World) : UsageResponse F :=
  MkUsageResponse (GetMonth month) (usage_entry <$> GetAllUsage all).

Definition UsageHandler (all month : World) (allowedOrigin : string) (w : W) (r : Request) : W :=
  let w := cors_json allowedOrigin w in
  if String.eqb (Method r) "OPTIONS" then write_header 200 w
  else write (json_usage (usage_report all month)) w.

(** ** The metrics server *)

Inductive route := PrometheusRoute | StatsRoute | HistoryRoute | UsageRoute.

(** [with_usage] says that [usageHandler] is not nil. *)
Definition NewMetricsServer (with_usage : bool) : gmap string route :=
  let mux := <["/api/history" := HistoryRoute]>
               (<["/api/stats" := StatsRoute]> {["/metrics" := PrometheusRoute]}) in
  if with_usage then <["/api/usage" := UsageRoute]> mux else mux.

(** What [ServeMux] does with a request: a path that is not clean is redirected to
    the clean one, except for CONNECT. *)
Inductive routed := Redirected (path : string) | Routed (to : route) | NotRouted.

Definition mux_route (mux : gmap string route) (r : Request) : routed :=
  if negb (String.eqb (Method r) "CONNECT") && negb (String.eqb (cleanPath (URLPath r)) (URLPath r))
  then Redirected (cleanPath (URLPath r))
  else match mux !! URLPath r with Some to => Routed to | None => NotRouted end.

Variable promhttp : W -> Request -> W.
Variable redirect : string -> W -> Request -> W.     (* http.Redirect, 301 *)

(** One request, with the state each handler reads. *)
Definition serve_metrics (with_usage : bool) (allowedOrigin : string) (s : StatsTracker) (active now : Z)
    (all month : World) (w : W) (r : Request) : W :=
  match mux_route (NewMetricsServer with_usage) r with
  | Redirected path => redirect path w r
  | Routed PrometheusRoute => promhttp w r
  | Routed StatsRoute => StatsHandler s active now w r
  | Routed HistoryRoute => HistoryHandler s now w r
  | Routed UsageRoute => UsageHandler all month allowedOrigin w r
  | NotRouted => http_Error "404 page not found" 404 w
  end.

Lemma UsageHandler_ok (all month : World) origin w r :
  represents w no_response ->
  represents (UsageHandler all month origin w r)
    (res_done 200 (cors_headers origin)
       (if String.eqb (Method r) "OPTIONS" then "" else json_usage (usage_report all month))).
Proof.
  intros Hw. apply (cors_json_ok origin) in Hw. unfold UsageHandler. destruct (String.eqb _ _).
  - by apply write_header_ok with (s := 200) in Hw.
  - by apply write_ok with (b := json_usage (usage_report all month)) in Hw.
Qed.

(** The answer of the metrics server to [/api/usage]: with the usage handler a
    report in which every user has the counters of the tracker, without one (in SNI
    mode) a 404, and never anything of the tracker. *)
Theorem usage_answer (with_usage : bool) (origin : string) (s : StatsTracker) (active now : Z)
    (all month : World) (w : W) (r : Request) :
  represents w no_response -> URLPath r = "/api/usage" ->
  let w' := serve_metrics with_usage origin s active now all month w r in
  if with_usage then
    exists body, represents w' (res_done 200 (cors_headers origin) body) /\
      (Method r <> "OPTIONS" -> exists rp, body = json_usage rp /\ rp_Month rp = GetMonth month /\
         forall name, rp_Users rp !! name = usage_entry <$> (users (tracker all) !! name))
  else represents w' (error_response "404 page not found" 404 ∅).
Proof.
  intros Hw Hp. unfold serve_metrics, mux_route. rewrite Hp.
  change (String.eqb (cleanPath "/api/usage") "/api/usage") with true. rewrite andb_false_r.
  destruct with_usage.
  - change (NewMetricsServer true !! "/api/usage") with (Some UsageRoute). cbn iota.
    eexists. split; [by apply UsageHandler_ok|]. intros Hm.
    rewrite (proj2 (String.eqb_neq _ _)) by done. eexists. split; [done|]. split; [done|].
    intros name. apply lookup_fmap.
  - change (NewMetricsServer false !! "/api/usage") with (@None route). cbn iota.
    by apply http_Error_ok.
Qed.

Lemma RecordBytes_turns (w : World) u up down c wr :
  FormatMonth (r_month c) <> month (tracker w) ->
  let w' := RecordBytes w u up down c wr in
  month (tracker w') = FormatMonth (r_month c) /\
  forall name v, name <> u -> users (tracker w') !! name = Some v ->
    BytesUp v = 0 /\ BytesDown v = 0 /\ TotalBytes v = 0.
Proof.
  intros Hne. unfold RecordBytes, checkMonthlyReset. rewrite (proj2 (String.eqb_neq _ _)) by done.
  rewrite saveToDiskLocked_tracker. unfold getOrCreate. cbn [tracker with_tracker with_users with_month users].
  set (m := map_imap _ _).
  assert (forall name v, m !! name = Some v -> BytesUp v = 0 /\ BytesDown v = 0 /\ TotalBytes v = 0) as Hz.
  { intros name v. unfold m. rewrite map_lookup_imap. destruct (users (tracker w) !! name); [|done].
    by intros [= <-]. }
  destruct (m !! u) as [x|]; (split; [done|]); intros name v Hn.
  - cbn [tracker with_tracker set_user with_users users]. rewrite lookup_insert_ne by done. apply Hz.
  - cbn [tracker with_tracker set_user with_users users]. rewrite !lookup_insert_ne by done. apply Hz.
Qed.

(** When the first transfer of a new month comes between the two locks, the
    report names the new month over the counters of the old one: nothing of it was
    true at any time. *)
Theorem usage_month_mixed (w : World) (u : string) (up down : Z) (c : Readings) (wr : WriteOutcome json_bytes) :
  FormatMonth (r_month c) <> month (tracker w) ->
  let w' := RecordBytes w u up down c wr in
  rp_Month (usage_report w w') = FormatMonth (r_month c) /\
  rp_Users (usage_report w w') = rp_Users (usage_report w w) /\
  forall name v, name <> u -> users (tracker w') !! name = Some v ->
    BytesUp v = 0 /\ BytesDown v = 0 /\ TotalBytes v = 0.
Proof.
  intros Hne w'. destruct (RecordBytes_turns w u up down c wr Hne) as [Hm Hnew].
  split; [exact Hm|]. split; [done|]. exact Hnew.
Qed.
End Api.

Definition month_only : UsageReportJSON Q := {| json_usage rp := rp_Month rp |}.
Definition no_stats_json : StatsJSON Q := {| json_stats _ := "{}"; json_history _ := "[]" |}.
Definition usage_request : Request := MkRequest "GET" "/api/usage" false "/api/usage" "" "" ∅ (fun _ => "").
#[local] Existing Instances month_only no_stats_json.

Lemma usage_answer_witness :
  represents (serve_metrics (F := Q) (fun w _ => w) (fun _ w _ => w) false "*" (new_stats 0) 0 0
    demo_world demo_world no_response usage_request) (error_response "404 page not found" 404 ∅).
Proof.
  apply (usage_answer (F := Q) (W := Response) (fun w _ => w) (fun _ w _ => w) false "*" (new_stats 0) 0 0
    demo_world demo_world no_response usage_request); reflexivity.
Defined.

Lemma usage_month_mixed_witness :
  let w' := RecordBytes demo_world "alice" 1 2 february WriteOk in
  rp_Month (usage_report (F := Q) demo_world w') = FormatMonth (r_month february) /\
  rp_Users (usage_report (F := Q) demo_world w') = rp_Users (usage_report (F := Q) demo_world demo_world) /\
  forall name v, name <> "alice" -> users (tracker w') !! name = Some v ->
    BytesUp v = 0 /\ BytesDown v = 0 /\ TotalBytes v = 0.
Proof.
  apply (usage_month_mixed (F := Q) demo_world "alice" 1 2 february WriteOk).
  vm_compute. discriminate.
Defined.
