(* ===== verification/MetricsServer.v ===== *)
(** * The life of the metrics server ([Start] and [Shutdown] of
    [internal/proxy/metrics.go])

    The goroutine of [Start] is in [ListenAndServe], which listens, serves, and returns
    [ErrServerClosed] after a [Shutdown]; any other error is only logged, so the proxy
    runs on without its metrics. What a request gets is in [UsageApi]. *)
From S2P Require Import Prelude GoStrings.
Open Scope Z_scope.

Inductive serve_pc := ToListen | ToServe | Over.

(** [Shutdown]: not called, waiting for the requests in flight, or back. *)
Inductive stop_pc := NotCalled | Draining | Back.

(** [late]: the five seconds of [Shutdown] have passed. *)
Record MetricsServer := MkMetricsServer {
  serve : serve_pc;
  stop : stop_pc;
  in_flight : Z;
  late : bool;
  err_log : list string
}.

(** After [metrics.Start()]. *)
Definition Start : MetricsServer := MkMetricsServer ToListen NotCalled 0 false [].

Definition at_serve (s : MetricsServer) (p : serve_pc) : MetricsServer :=
  MkMetricsServer p s.(stop) s.(in_flight) s.(late) s.(err_log).
Definition serve_error (s : MetricsServer) (err : string) : MetricsServer :=
  MkMetricsServer Over s.(stop) s.(in_flight) s.(late) (s.(err_log) ++ ["Metrics server error: " +:+ err]).
Definition set_in_flight (s : MetricsServer) (n : Z) : MetricsServer :=
  MkMetricsServer s.(serve) s.(stop) n s.(late) s.(err_log).
Definition set_stop (s : MetricsServer) (p : stop_pc) (l : bool) : MetricsServer :=
  MkMetricsServer s.(serve) p s.(in_flight) (l || s.(late)) s.(err_log).

Inductive ms_step : MetricsServer -> MetricsServer -> Prop :=
| listens s : serve s = ToListen -> stop s = NotCalled -> ms_step s (at_serve s ToServe)
| listen_fails s err : serve s = ToListen -> stop s = NotCalled -> ms_step s (serve_error s err)
| serve_fails s err : serve s = ToServe -> stop s = NotCalled -> ms_step s (serve_error s err)
| server_closed s : serve s <> Over -> stop s <> NotCalled -> ms_step s (at_serve s Over)
| request s : serve s = ToServe -> stop s = NotCalled -> ms_step s (set_in_flight s (in_flight s + 1))
| response s : 0 < in_flight s -> ms_step s (set_in_flight s (in_flight s - 1))
| Shutdown s : stop s = NotCalled -> ms_step s (set_stop s Draining false)
| drained s : stop s = Draining -> in_flight s = 0 -> ms_step s (set_stop s Back false)
| drain_late s : stop s = Draining -> ms_step s (set_stop s Back true).

Definition ms_inv (s : MetricsServer) : Prop :=
  0 <= in_flight s /\ (length (err_log s) <= 1)%nat /\ (err_log s <> [] -> serve s = Over) /\
  (late s = true -> stop s = Back) /\ (stop s = Back -> in_flight s = 0 \/ late s = true).

Lemma ms_inv_step s s' : ms_step s s' -> ms_inv s -> ms_inv s'.
Proof.
  intros Hs (Hf & Hlen & Hlog & Hl & Hb). unfold ms_inv.
  assert (forall err, serve s <> Over -> length (err_log s ++ [err]) <= 1)%nat as Happ.
  { intros err Hne. destruct (err_log s); [done|]. by destruct (Hne (Hlog ltac:(done))). }
  destruct Hs; simpl in *; split_and!; try done; try lia; try (apply Happ; congruence);
    intuition (congruence || lia).
Qed.

Lemma ms_reachable_inv s : rtc ms_step Start s -> ms_inv s.
Proof.
  intros H. assert (ms_inv Start) as Hi by (by unfold ms_inv; simpl; split_and!; try done; lia).
  revert Hi. induction H as [|s1 s2 s3 Hs _ IH]; [done|]. intros Hi. apply IH. by eapply ms_inv_step.
Qed.

(** At most one error is ever logged, and none by an orderly end; when [Shutdown] is back,
    every request has been answered or its time is up. *)
Theorem metrics_server_stops (s : MetricsServer) :
  rtc ms_step Start s ->
  (length (err_log s) <= 1)%nat /\ (stop s = Back -> in_flight s = 0 \/ late s = true).
Proof. intros (_ & ? & _ & _ & ?)%ms_reachable_inv. done. Qed.

Lemma metrics_server_stops_witness :
  (length (err_log (set_stop (set_stop Start Draining false) Back false)) <= 1)%nat /\
  (Back = Back -> 0 = 0 \/ false = true).
Proof.
  apply (metrics_server_stops (set_stop (set_stop Start Draining false) Back false)).
  eapply rtc_l; [by apply Shutdown|]. eapply rtc_l; [by apply drained|]. apply rtc_refl.
Defined.
