(* ===== verification/Socks5Listener.v ===== *)
(** * The accept loop of the SOCKS5 proxy ([Start], [watchShutdown] and [Shutdown]
    of [internal/socks5/server.go])

    A state and a step relation over the goroutines involved: the loop of [Start],
    the sessions, [watchShutdown], and a caller of [Shutdown] where there is one:
    nothing in the program calls it, so the process runs with [step false]. What a
    session does is in [Socks5]. *)
From S2P Require Import Prelude GoStrings.
Open Scope Z_scope.

Inductive loop_pc :=
| AtHead                                  (* the select at the head of the loop *)
| AtAccept                                (* blocked in Accept *)
| Returned (err : option string).

(** A goroutine that closes first the channel [s.shutdown] and then the listener. *)
Inductive closer := Idle | ClosedChannel | ClosedBoth.

(** [wg] counts the sessions that have not ended; [watch] is [watchShutdown],
    [call] a call of [Shutdown]; closing a closed channel panics, which ends the
    process: [crashed]. *)
Record Server := MkServer {
  wg : Z;
  shutdown : bool;
  listening : bool;
  pc : loop_pc;
  watch : closer;
  call : closer;
  crashed : bool
}.

Definition NewServer : Server := MkServer 0 false false AtHead Idle Idle false.

Definition listen_addr (port : string) : string := if String.eqb port "" then ":1080" else port.

Definition set_listening (s : Server) (b : bool) : Server :=
  MkServer s.(wg) s.(shutdown) b s.(pc) s.(watch) s.(call) s.(crashed).

(** [Start] up to its loop. *)
Definition Start (port : string) (listen : string -> result unit) (s : Server) : result Server :=
  match listen (listen_addr port) with
  | Err err => Err ("failed to listen on " +:+ listen_addr port +:+ ": " +:+ err)
  | Ok _ => Ok (set_listening s true)
  end.

Definition at_pc (s : Server) (p : loop_pc) : Server :=
  MkServer s.(wg) s.(shutdown) s.(listening) p s.(watch) s.(call) s.(crashed).
Definition spawn (s : Server) : Server :=
  MkServer (s.(wg) + 1) s.(shutdown) s.(listening) AtHead s.(watch) s.(call) s.(crashed).
Definition session_done (s : Server) : Server :=
  MkServer (s.(wg) - 1) s.(shutdown) s.(listening) s.(pc) s.(watch) s.(call) s.(crashed).
Definition set_watch (s : Server) (c : closer) : Server :=
  MkServer s.(wg) s.(shutdown) s.(listening) s.(pc) c s.(call) s.(crashed).
Definition set_call (s : Server) (c : closer) : Server :=
  MkServer s.(wg) s.(shutdown) s.(listening) s.(pc) s.(watch) c s.(crashed).

(** [close(s.shutdown)] *)
Definition close_shutdown (s : Server) : Server :=
  MkServer s.(wg) true s.(listening) s.(pc) s.(watch) s.(call) (s.(shutdown) || s.(crashed)).

(** The loop of [Start], the sessions, [watchShutdown] after the context is
    cancelled, and, where there is a [caller], [Shutdown] up to its wait. *)
Inductive srv_step (caller : bool) : Server -> Server -> Prop :=
| head_shutdown s : pc s = AtHead -> shutdown s = true -> srv_step caller s (at_pc s (Returned None))
| head_accept s : pc s = AtHead -> shutdown s = false -> srv_step caller s (at_pc s AtAccept)
| accept_conn s : pc s = AtAccept -> listening s = true -> srv_step caller s (spawn s)
| accept_shutdown s : pc s = AtAccept -> shutdown s = true -> srv_step caller s (at_pc s (Returned None))
| accept_timeout s : pc s = AtAccept -> shutdown s = false -> listening s = true ->
    srv_step caller s (at_pc s AtHead)
| accept_error s err : pc s = AtAccept -> shutdown s = false -> srv_step caller s (at_pc s (Returned (Some err)))
| session_ends s : 0 < wg s -> srv_step caller s (session_done s)
| watch_close s : watch s = Idle -> srv_step caller s (set_watch (close_shutdown s) ClosedChannel)
| watch_listener s : watch s = ClosedChannel -> srv_step caller s (set_watch (set_listening s false) ClosedBoth)
| call_close s : caller = true -> call s = Idle -> srv_step caller s (set_call (close_shutdown s) ClosedChannel)
| call_listener s : call s = ClosedChannel -> srv_step caller s (set_call (set_listening s false) ClosedBoth).

(** Nothing runs after a panic. *)
Definition step (caller : bool) (s s' : Server) : Prop := crashed s = false /\ srv_step caller s s'.

Definition started : Server := set_listening NewServer true.
Definition reachable (caller : bool) : Server -> Prop := rtc (step caller) started.

(** [Shutdown] returns. *)
Definition Shutdown_returns (s : Server) : Prop := call s = ClosedBoth /\ wg s = 0.

(** ** Invariants *)

Definition is_idle (c : closer) : bool := match c with Idle => true | _ => false end.

Definition srv_inv (caller : bool) (s : Server) : Prop :=
  0 <= wg s /\ shutdown s = negb (is_idle (watch s) && is_idle (call s)) /\
  crashed s = negb (is_idle (watch s)) && negb (is_idle (call s)) /\
  (pc s = Returned None -> shutdown s = true) /\
  (listening s = false <-> watch s = ClosedBoth \/ call s = ClosedBoth) /\
  (caller = false -> call s = Idle).

Lemma socks5_inv_step caller s s' : step caller s s' -> srv_inv caller s -> srv_inv caller s'.
Proof.
  intros [Hc Hs] (Hw & Hsd & Hcr & Hpc & Hl & Hcall). unfold srv_inv.
  destruct Hs; simpl in *; split_and!; try done; try lia; try congruence; try tauto;
    repeat match goal with E : ?f s = _ |- _ => rewrite E in * end; simpl in *;
    destruct (is_idle (call s)) eqn:?, (is_idle (watch s)) eqn:?; simpl in *;
    try congruence; try tauto; intuition congruence.
Qed.

Lemma socks5_reachable_inv caller s : reachable caller s -> srv_inv caller s.
Proof.
  unfold reachable. intros H. assert (srv_inv caller started) as Hi.
  { unfold srv_inv. simpl. split_and!; try done. split; [done|]. by intros []. }
  revert Hi. induction H as [|s1 s2 s3 Hs _ IH]; [done|]. intros Hi. apply IH. by eapply socks5_inv_step.
Qed.

(** Were there a caller of [Shutdown], the process would panic exactly when both
    [watchShutdown] and [Shutdown] have run; [Start] returns without an error only after
    one of them. *)
Theorem socks5_two_closers (s : Server) :
  reachable true s ->
  (crashed s = true <-> watch s <> Idle /\ call s <> Idle) /\
  (pc s = Returned None -> watch s <> Idle \/ call s <> Idle).
Proof.
  intros (_ & Hsd & Hcr & Hpc & _)%socks5_reachable_inv. rewrite Hcr. split.
  - destruct (watch s), (call s); simpl; split; intros H; try done; by destruct H.
  - intros H. apply Hpc in H. rewrite Hsd in H.
    destruct (watch s); [|by left..]. right. by destruct (call s).
Qed.

(** ** Shutdown *)

(** What is left to do once [watchShutdown] has closed the channel: a connection that
    the listener still accepts costs a session and another turn of the loop. *)
Definition left_of (c : closer) : Z := match c with Idle => 2 | ClosedChannel => 1 | ClosedBoth => 0 end.
Definition pending (s : Server) : Z :=
  wg s + left_of (watch s) + match pc s with AtAccept => 3 | AtHead => 1 | Returned _ => 0 end.

(** Where the loop comes out. *)
Definition comes_out (p : loop_pc) : loop_pc :=
  match p with Returned err => Returned err | _ => Returned None end.

Lemma socks5_closed_step s s' :
  step false s s' -> srv_inv false s -> shutdown s = true ->
  pending s' < pending s /\ shutdown s' = true /\ comes_out (pc s') = comes_out (pc s).
Proof.
  intros [_ Hs] (_ & _ & _ & _ & _ & Hcall) Hsd. specialize (Hcall eq_refl). unfold pending.
  destruct Hs; simpl in *; try congruence;
    repeat match goal with E : ?f s = _ |- _ => rewrite E in * end; simpl; split_and!; try done; lia.
Qed.

Lemma pending_nonneg caller s : srv_inv caller s -> 0 <= pending s.
Proof. intros [? _]. unfold pending, left_of. destruct (watch s), (pc s); lia. Qed.

(** The state in which nothing is left to do. *)
Definition over (s : Server) : Prop :=
  crashed s = false /\ watch s = ClosedBoth /\ listening s = false /\ wg s = 0 /\ exists err, pc s = Returned err.

Lemma socks5_progress s : srv_inv false s -> shutdown s = true -> over s \/ exists s', step false s s'.
Proof.
  intros (Hw & Hsd & Hcr & _ & Hl & Hcall) Hs. specialize (Hcall eq_refl). rewrite Hcall in *.
  assert (crashed s = false) as Hc by (rewrite Hcr; apply andb_false_r).
  destruct (pc s) eqn:Ep.
  - right. eexists. split; [done|]. by apply head_shutdown.
  - right. eexists. split; [done|]. by apply accept_shutdown.
  - destruct (watch s) eqn:Ew; [by rewrite Hs in Hsd| |].
    + right. eexists. split; [done|]. by apply watch_listener.
    + destruct (Z.eq_dec (wg s) 0).
      * left. split_and!; try done; [by apply Hl; left|by eexists].
      * right. eexists. split; [done|]. apply session_ends. lia.
Qed.

Lemma socks5_sn s : srv_inv false s -> shutdown s = true -> sn (step false) s.
Proof.
  remember (Z.to_nat (pending s)) as n eqn:En.
  revert s En. induction n as [n IH] using lt_wf_ind. intros s -> Hi Hsd.
  constructor. intros s' Hs. destruct (socks5_closed_step _ _ Hs Hi Hsd) as (Hm & Hsd' & _).
  pose proof (socks5_inv_step _ _ _ Hs Hi) as Hi'. pose proof (pending_nonneg _ _ Hi').
  eapply IH; [|done..]. lia.
Qed.

(** C36: After the cancellation has closed the channel, the listener still being open or
    not, only finitely many steps remain, whatever the scheduler and the clients do; they
    do lead to an end, and at any end the listener is closed, no session is left, nothing
    has panicked, and [Start] has returned: without an error, if it was still running. *)
Theorem socks5_start_returns (s : Server) :
  reachable false s -> shutdown s = true ->
  sn (step false) s /\ (exists s', rtc (step false) s s' /\ nf (step false) s') /\
  forall s', rtc (step false) s s' -> nf (step false) s' ->
    crashed s' = false /\ watch s' = ClosedBoth /\ listening s' = false /\ wg s' = 0 /\
    pc s' = comes_out (pc s).
Proof.
  intros Hi%socks5_reachable_inv Hsd. pose proof (socks5_sn s Hi Hsd) as Hsn. split_and!; [done|..].
  - induction Hsn as [s _ IH]. destruct (socks5_progress s Hi Hsd) as [Ho|[s1 Hs]].
    + exists s. split; [done|]. intros [s' [_ Hs]]. destruct Ho as (_ & Hw & _ & Hwg & err & Hp).
      destruct Hi as (_ & _ & _ & _ & _ & Hcall). specialize (Hcall eq_refl).
      destruct Hs; congruence || lia.
    + destruct (IH s1 Hs) as (s' & Hrun & Hnf);
        [by eapply socks5_inv_step|by apply (socks5_closed_step _ _ Hs)|].
      exists s'. split; [by eapply rtc_l|done].
  - intros s' Hrun. clear Hsn. induction Hrun as [s|s s2 s' Hs Hrun IH]; intros Hnf.
    + destruct (socks5_progress s Hi Hsd) as [(? & ? & ? & ? & err & E)|Hr]; [|by destruct Hnf].
      rewrite E. by split_and!.
    + destruct (socks5_closed_step _ _ Hs Hi Hsd) as (_ & Hsd' & <-). apply IH; [|done..]. by eapply socks5_inv_step.
Qed.

Definition accepting (n : Z) : Server := MkServer n false true AtHead Idle Idle false.

Lemma accepts_reachable caller (n : nat) : reachable caller (accepting (Z.of_nat n)).
Proof.
  induction n as [|n IH]; [apply rtc_refl|]. unfold reachable in *.
  eapply rtc_r; [eapply rtc_r; [exact IH|]|].
  - split; [done|]. by apply head_accept.
  - split; [done|]. rewrite Nat2Z.inj_succ, <- Z.add_1_r.
    change (accepting (Z.of_nat n + 1)) with (spawn (at_pc (accepting (Z.of_nat n)) AtAccept)).
    by apply accept_conn.
Qed.

(** Such a state, after a cancellation and the return of [Start]. *)
Definition abandoned (n : Z) : Server := MkServer n true true (Returned None) ClosedChannel Idle false.

Lemma accepting_abandoned caller n : rtc (step caller) (accepting n) (abandoned n).
Proof.
  change (abandoned n) with (at_pc (set_watch (close_shutdown (accepting n)) ClosedChannel) (Returned None)).
  eapply rtc_r; [eapply rtc_r; [apply rtc_refl|]|].
  - split; [done|]. by apply watch_close.
  - split; [done|]. by apply head_shutdown.
Qed.

(** [Start] waits for nobody: after the cancellation it can return with any number
    of sessions open, which the end of the process then cuts. *)
Theorem socks5_start_abandons (n : nat) :
  exists s, reachable false s /\ pc s = Returned None /\ crashed s = false /\ wg s = Z.of_nat n.
Proof.
  eexists. split; [unfold reachable; etransitivity; [apply (accepts_reachable _ n)|apply accepting_abandoned]|done].
Qed.

Definition both_closers : Server :=
  set_call (close_shutdown (set_watch (close_shutdown started) ClosedChannel)) ClosedChannel.

Lemma both_closers_reachable : reachable true both_closers.
Proof.
  eapply rtc_l; [split; [done|by apply watch_close]|].
  eapply rtc_l; [split; [done|by apply call_close]|]. apply rtc_refl.
Qed.

Lemma socks5_two_closers_witness :
  (crashed both_closers = true <-> watch both_closers <> Idle /\ call both_closers <> Idle) /\
  (pc both_closers = Returned None -> watch both_closers <> Idle \/ call both_closers <> Idle).
Proof. exact (socks5_two_closers both_closers both_closers_reachable). Defined.

(** Cancelled while it waits for a client. *)
Definition cancelled_server : Server := set_watch (close_shutdown (at_pc started AtAccept)) ClosedChannel.

Lemma cancelled_server_reachable : reachable false cancelled_server.
Proof.
  eapply rtc_l; [split; [done|by apply head_accept]|].
  eapply rtc_l; [split; [done|by apply watch_close]|]. apply rtc_refl.
Qed.

Lemma socks5_start_returns_witness :
  sn (step false) cancelled_server /\
  (exists s', rtc (step false) cancelled_server s' /\ nf (step false) s') /\
  forall s', rtc (step false) cancelled_server s' -> nf (step false) s' ->
    crashed s' = false /\ watch s' = ClosedBoth /\ listening s' = false /\ wg s' = 0 /\
    pc s' = comes_out (pc cancelled_server).
Proof. apply (socks5_start_returns cancelled_server cancelled_server_reachable). reflexivity. Defined.
