(* ===== verification/HttpListener.v ===== *)
(** * The servers of the HTTP proxy ([Start], [watchShutdown] and [Shutdown] of
    [internal/httpproxy/server.go])

    A state and a step relation over the goroutines involved: [Start], the two
    servers, [watchShutdown], and a caller of [Shutdown] where there is one: [main]
    never calls it, so the process runs with [srv_step false].

    The loops are those of [net/http], of which the model has what the documentation
    says: [Serve] returns [ErrServerClosed] as soon as [Shutdown] is called, and closes
    its listener when it returns an error of its own; [Shutdown] waits for the requests
    in flight or for its context, and hijacked connections (tunnels) are not waited
    for. What a request does is in [HttpProxy]. *)
From S2P Require Import Prelude GoStrings.
Open Scope Z_scope.

(** Where [Start] is: in [httpServer.Serve], in [s.wg.Wait()], or back. *)
Inductive start_pc := Serving | WaitTLS | Returned (err : option string).

(** Where [watchShutdown] is: before the cancellation, in [Shutdown] of the plain
    server, in that of the TLS server, or over. *)
Inductive watch_pc := WaitCtx | ShutPlain | ShutTLS | ShutDone.

(** Where a call of [Shutdown] is: not made, in [Shutdown] of either server, in
    [s.wg.Wait()], or back. *)
Inductive call_pc := NotCalled | CallPlain | CallTLS | CallWait | CallDone.

(** [with_tls] says that [httpsServer] is not nil; [plain_open] and [tls_open]
    that the server accepts; the requests in flight are counted per server, the
    tunnels, which are hijacked, apart. [timed_out]: the context of a shutdown (30 seconds in
    [watchShutdown], the caller's in [Shutdown]) has expired; [tls_failed]: the
    [Serve] of the TLS server returned with an error of its own. *)
Record Server := MkServer {
  with_tls : bool;
  plain_open : bool;
  tls_open : bool;
  plain_reqs : Z;
  tls_reqs : Z;
  tunnels : Z;
  start : start_pc;
  watch : watch_pc;
  call : call_pc;
  timed_out : bool;
  tls_failed : bool
}.

Definition http_addr (port : string) : string := if String.eqb port "" then ":8080" else port.
Definition https_addr (port : string) : string := if String.eqb port "" then ":8443" else port.

Definition started (tls : bool) : Server :=
  MkServer tls true tls 0 0 0 Serving WaitCtx NotCalled false false.

(** [Start] up to [httpServer.Serve]: the TLS server needs the flag and both file
    names. *)
Definition Start (httpPort : string) (useTLS : bool) (tlsPort certFile keyFile : string)
    (listen : string -> result unit) (key_pair : result string) : result Server :=
  let httpAddr := http_addr httpPort in
  match listen httpAddr with
  | Err err => Err ("failed to listen on " +:+ httpAddr +:+ ": " +:+ err)
  | Ok _ =>
      if useTLS && negb (String.eqb certFile "") && negb (String.eqb keyFile "") then
        let httpsAddr := https_addr tlsPort in
        match key_pair with
        | Err err => Err ("failed to load TLS cert: " +:+ err)
        | Ok _ =>
            match listen httpsAddr with
            | Err err => Err ("failed to listen TLS on " +:+ httpsAddr +:+ ": " +:+ err)
            | Ok _ => Ok (started true)
            end
        end
      else Ok (started false)
  end.

Definition set_plain (s : Server) (b : bool) (n : Z) : Server :=
  MkServer s.(with_tls) b s.(tls_open) n s.(tls_reqs) s.(tunnels) s.(start) s.(watch) s.(call) s.(timed_out) s.(tls_failed).
Definition set_tls (s : Server) (b : bool) (n : Z) : Server :=
  MkServer s.(with_tls) s.(plain_open) b s.(plain_reqs) n s.(tunnels) s.(start) s.(watch) s.(call) s.(timed_out) s.(tls_failed).
Definition set_tunnels (s : Server) (n : Z) : Server :=
  MkServer s.(with_tls) s.(plain_open) s.(tls_open) s.(plain_reqs) s.(tls_reqs) n s.(start) s.(watch) s.(call) s.(timed_out) s.(tls_failed).
Definition set_start (s : Server) (p : start_pc) : Server :=
  MkServer s.(with_tls) s.(plain_open) s.(tls_open) s.(plain_reqs) s.(tls_reqs) s.(tunnels) p s.(watch) s.(call) s.(timed_out) s.(tls_failed).
Definition set_watch (s : Server) (w : watch_pc) (late : bool) : Server :=
  MkServer s.(with_tls) s.(plain_open) s.(tls_open) s.(plain_reqs) s.(tls_reqs) s.(tunnels) s.(start) w s.(call)
    (late || s.(timed_out)) s.(tls_failed).
Definition set_call (s : Server) (c : call_pc) (late : bool) : Server :=
  MkServer s.(with_tls) s.(plain_open) s.(tls_open) s.(plain_reqs) s.(tls_reqs) s.(tunnels) s.(start) s.(watch) c
    (late || s.(timed_out)) s.(tls_failed).
(** [Serve] of the plain server returns an error of its own: it has closed its listener,
    and [Start] returns the error. *)
Definition fail_plain (s : Server) (err : string) : Server :=
  MkServer s.(with_tls) false s.(tls_open) s.(plain_reqs) s.(tls_reqs) s.(tunnels) (Returned (Some err)) s.(watch) s.(call)
    s.(timed_out) s.(tls_failed).
Definition fail_tls (s : Server) : Server :=
  MkServer s.(with_tls) s.(plain_open) false s.(plain_reqs) s.(tls_reqs) s.(tunnels) s.(start) s.(watch) s.(call) s.(timed_out) true.

(** After [httpServer.Shutdown] has returned. *)
Definition after_plain (s : Server) (late : bool) : Server :=
  if s.(with_tls) then set_watch (set_tls s false s.(tls_reqs)) ShutTLS late else set_watch s ShutDone late.

Definition call_after_plain (s : Server) (late : bool) : Server :=
  if s.(with_tls) then set_call (set_tls s false s.(tls_reqs)) CallTLS late else set_call s CallWait late.

(** [caller]: something calls [Shutdown]. *)
Inductive srv_step (caller : bool) : Server -> Server -> Prop :=
(* requests, and tunnels that leave the server's count *)
| plain_request s : plain_open s = true -> srv_step caller s (set_plain s true (plain_reqs s + 1))
| plain_response s : 0 < plain_reqs s -> srv_step caller s (set_plain s (plain_open s) (plain_reqs s - 1))
| plain_hijack s : 0 < plain_reqs s ->
    srv_step caller s (set_tunnels (set_plain s (plain_open s) (plain_reqs s - 1)) (tunnels s + 1))
| tls_request s : tls_open s = true -> srv_step caller s (set_tls s true (tls_reqs s + 1))
| tls_response s : 0 < tls_reqs s -> srv_step caller s (set_tls s (tls_open s) (tls_reqs s - 1))
| tls_hijack s : 0 < tls_reqs s ->
    srv_step caller s (set_tunnels (set_tls s (tls_open s) (tls_reqs s - 1)) (tunnels s + 1))
| tunnel_ends s : 0 < tunnels s -> srv_step caller s (set_tunnels s (tunnels s - 1))
| tls_serve_fails s : tls_open s = true -> srv_step caller s (fail_tls s)
(* watchShutdown *)
| ctx_done s : watch s = WaitCtx -> srv_step caller s (set_watch (set_plain s false (plain_reqs s)) ShutPlain false)
| plain_drained s : watch s = ShutPlain -> plain_reqs s = 0 -> srv_step caller s (after_plain s false)
| plain_late s : watch s = ShutPlain -> srv_step caller s (after_plain s true)
| tls_drained s : watch s = ShutTLS -> tls_reqs s = 0 -> srv_step caller s (set_watch s ShutDone false)
| tls_late s : watch s = ShutTLS -> srv_step caller s (set_watch s ShutDone true)
(* Shutdown *)
| call_starts s : caller = true -> call s = NotCalled -> srv_step caller s (set_call (set_plain s false (plain_reqs s)) CallPlain false)
| call_plain_drained s : call s = CallPlain -> plain_reqs s = 0 -> srv_step caller s (call_after_plain s false)
| call_plain_late s : call s = CallPlain -> srv_step caller s (call_after_plain s true)
| call_tls_drained s : call s = CallTLS -> tls_reqs s = 0 -> srv_step caller s (set_call s CallWait false)
| call_tls_late s : call s = CallTLS -> srv_step caller s (set_call s CallWait true)
| call_returns s : call s = CallWait -> tls_open s = false -> srv_step caller s (set_call s CallDone false)
(* Start *)
| serve_fails s err : start s = Serving -> plain_open s = true -> srv_step caller s (fail_plain s err)
| serve_closed s : start s = Serving -> plain_open s = false -> srv_step caller s (set_start s WaitTLS)
| wait_over s : start s = WaitTLS -> tls_open s = false -> srv_step caller s (set_start s (Returned None)).

Definition reachable (caller tls : bool) : Server -> Prop := rtc (srv_step caller) (started tls).

(** ** What a return of [Start] tells *)

Definition past_plain (w : watch_pc) : bool := match w with ShutTLS | ShutDone => true | _ => false end.

Definition call_past_plain (c : call_pc) : bool :=
  match c with NotCalled | CallPlain => false | _ => true end.
Definition call_past_tls (c : call_pc) : bool := match c with CallWait | CallDone => true | _ => false end.

Definition serve_failed (p : start_pc) : bool := match p with Returned (Some _) => true | _ => false end.

Definition srv_inv (tls : bool) (s : Server) : Prop :=
  with_tls s = tls /\
  0 <= plain_reqs s /\ 0 <= tls_reqs s /\ 0 <= tunnels s /\
  (watch s = WaitCtx /\ call s = NotCalled /\ serve_failed (start s) = false <-> plain_open s = true) /\
  (start s = WaitTLS \/ start s = Returned None -> plain_open s = false) /\
  (tls = true -> tls_open s = false ->
     past_plain (watch s) = true \/ call_past_plain (call s) = true \/ tls_failed s = true) /\
  (start s = Returned None \/ call s = CallDone -> tls_open s = false) /\
  (past_plain (watch s) = true \/ call_past_plain (call s) = true -> plain_reqs s = 0 \/ timed_out s = true) /\
  (past_plain (watch s) = true \/ call_past_plain (call s) = true -> tls_open s = false) /\
  (tls = true -> call_past_tls (call s) = true -> tls_reqs s = 0 \/ timed_out s = true) /\
  (tls = false -> tls_open s = false /\ tls_reqs s = 0 /\ call s <> CallTLS).

Lemma http_inv_step caller tls s s' : srv_step caller s s' -> srv_inv tls s -> srv_inv tls s'.
Proof.
  intros Hs (Ht & Hp & Htl & Htu & Hw & Hst & Hc & Hr & Hd & Ho & Hx & Hn). unfold srv_inv.
  destruct Hs; try (unfold after_plain, call_after_plain; destruct (with_tls s) eqn:Ew); simpl in *;
    repeat match goal with E : _ s = _ |- _ => rewrite E in * end; simpl in *.
  all: split_and!; try done; try lia; try tauto; try (intuition (congruence || lia)).
  1-2: destruct (proj2 Hw eq_refl) as (-> & -> & _); simpl; intuition congruence.
  1: intros _ Hcp; assert (call_past_plain (call s) = true) by (by destruct (call s)); intuition congruence.
  all: intros _; destruct Hn as (? & ? & ?); congruence.
Qed.

Lemma http_reachable_inv caller tls s : reachable caller tls s -> srv_inv tls s.
Proof.
  unfold reachable. intros H. assert (srv_inv tls (started tls)) as Hi.
  { unfold srv_inv. simpl. split_and!; try done; try lia; intros; intuition congruence. }
  revert Hi. induction H as [|s1 s2 s3 Hs _ IH]; [done|]. intros Hi. apply IH. by eapply http_inv_step.
Qed.

(** With TLS, [Start] returns without an error only after the plain server has
    answered every request, or a shutdown has run out of time, or the TLS server broke
    down by itself. *)
Theorem http_start_drained (caller : bool) (s : Server) :
  reachable caller true s -> start s = Returned None ->
  plain_open s = false /\ tls_open s = false /\
  (plain_reqs s = 0 \/ timed_out s = true \/ tls_failed s = true).
Proof.
  intros (_ & _ & _ & _ & _ & Hst & Hc & Hr & Hd & _)%http_reachable_inv H.
  assert (tls_open s = false) as Ho by auto. split_and!; [auto|done|].
  destruct (Hc eq_refl Ho) as [Hw|[Hw|]]; [| |tauto]; destruct Hd; tauto.
Qed.

(** [Shutdown], unlike [Start], waits: when it returns, both servers are closed and
    every request that was not hijacked has been answered, unless a context ended
    first. *)
Theorem http_shutdown_drained (tls : bool) (s : Server) :
  reachable true tls s -> call s = CallDone ->
  plain_open s = false /\ tls_open s = false /\
  (plain_reqs s = 0 /\ tls_reqs s = 0 \/ timed_out s = true).
Proof.
  intros (_ & _ & _ & _ & Hw & _ & _ & Hr & Hd & _ & Hx & Hn)%http_reachable_inv H.
  rewrite H in *. simpl in *. split_and!; [|auto|].
  - destruct (plain_open s); [|done]. by destruct (proj2 Hw eq_refl) as (_ & ? & _).
  - destruct Hd as [Hp|]; [auto| |tauto]. destruct tls.
    + destruct Hx; auto.
    + destruct Hn as (_ & Hn & _); auto.
Qed.

(** ** The end of the servers *)

Definition left_watch (w : watch_pc) : Z :=
  match w with WaitCtx => 3 | ShutPlain => 2 | ShutTLS => 1 | ShutDone => 0 end.
Definition left_call (c : call_pc) : Z :=
  match c with NotCalled => 4 | CallPlain => 3 | CallTLS => 2 | CallWait => 1 | CallDone => 0 end.
Definition left_start (p : start_pc) : Z := match p with Serving => 2 | WaitTLS => 1 | Returned _ => 0 end.

(** What is left to do once both servers are closed. *)
Definition pending (s : Server) : Z :=
  2 * plain_reqs s + 2 * tls_reqs s + tunnels s + left_watch (watch s) + left_call (call s) + left_start (start s).

Lemma http_closed_step caller s s' :
  srv_step caller s s' -> plain_open s = false -> tls_open s = false ->
  pending s' < pending s /\ plain_open s' = false /\ tls_open s' = false.
Proof.
  unfold pending. intros Hs Hp Ht.
  destruct Hs; try (unfold after_plain, call_after_plain; destruct (with_tls s)); simpl in *; try congruence;
    repeat match goal with E : ?f s = _ |- context [?f s] => rewrite E end; simpl; split_and!; try done; lia.
Qed.

(** The servers come to their end: once both are closed, whatever the scheduler does
    only finitely many steps remain, and when nothing more can happen, a cancellation and
    a call of [Shutdown], where there is a caller, included, [Start] has returned, the shutdowns are over, and no
    request and no tunnel is left. *)
Theorem http_shutdown_terminates (caller tls : bool) (s : Server) :
  reachable caller tls s -> plain_open s = false -> tls_open s = false ->
  sn (srv_step caller) s /\
  forall s', rtc (srv_step caller) s s' -> nf (srv_step caller) s' ->
    (exists err, start s' = Returned err) /\ watch s' = ShutDone /\ (caller = true -> call s' = CallDone) /\
    plain_reqs s' = 0 /\ tls_reqs s' = 0 /\ tunnels s' = 0.
Proof.
  intros Hi%http_reachable_inv Hp Ht. split.
  - remember (Z.to_nat (pending s)) as n eqn:En.
    revert s Hi Hp Ht En. induction n as [n IH] using lt_wf_ind. intros s Hi Hp Ht ->.
    constructor. intros s' Hs. destruct (http_closed_step _ _ _ Hs Hp Ht) as (Hm & Hp' & Ht').
    pose proof (http_inv_step _ _ _ _ Hs Hi) as Hi'.
    eapply IH; [|done..]. destruct Hi' as (_ & ? & ? & ? & _).
    assert (0 <= pending s'); [|lia].
    unfold pending, left_watch, left_call, left_start. destruct (watch s'), (call s'), (start s'); lia.
  - intros s' Hrun. induction Hrun as [s|s s2 s' Hs Hrun IH].
    + intros Hnf. destruct Hi as (_ & ? & ? & ? & _). split_and!.
      * destruct (start s) eqn:E; [| |eauto]; exfalso; apply Hnf; eexists; [by apply serve_closed|by apply wait_over].
      * destruct (watch s) eqn:E; [..|done]; exfalso; apply Hnf; eexists;
          [by apply ctx_done|by apply plain_late|by apply tls_late].
      * intros ->. destruct (call s) eqn:E; [..|done]; exfalso; apply Hnf; eexists;
          [by apply call_starts|by apply call_plain_late|by apply call_tls_late|by apply call_returns].
      * destruct (Z.eq_dec (plain_reqs s) 0); [done|]. exfalso. apply Hnf. eexists. apply plain_response. lia.
      * destruct (Z.eq_dec (tls_reqs s) 0); [done|]. exfalso. apply Hnf. eexists. apply tls_response. lia.
      * destruct (Z.eq_dec (tunnels s) 0); [done|]. exfalso. apply Hnf. eexists. apply tunnel_ends. lia.
    + destruct (http_closed_step _ _ _ Hs Hp Ht) as (_ & Hp' & Ht'). apply IH; [|done..]. by eapply http_inv_step.
Qed.

Definition busy (tls : bool) (plain tlsr m : Z) : Server :=
  MkServer tls true tls plain tlsr m Serving WaitCtx NotCalled false false.

Lemma busy_tunnels caller tls (m : nat) : reachable caller tls (busy tls 0 0 (Z.of_nat m)).
Proof.
  induction m as [|m IH]; [apply rtc_refl|]. unfold reachable in *.
  eapply rtc_r; [eapply rtc_r; [exact IH|by apply plain_request]|].
  rewrite Nat2Z.inj_succ, <- Z.add_1_r.
  change (busy tls 0 0 (Z.of_nat m + 1))
    with (set_tunnels (set_plain (busy tls 1 0 (Z.of_nat m)) true (1 - 1)) (Z.of_nat m + 1)).
  by apply (plain_hijack caller (busy tls 1 0 (Z.of_nat m))).
Qed.

Lemma busy_requests caller tls (n m : nat) :
  reachable caller tls (busy tls (if tls then 0 else Z.of_nat n) (if tls then Z.of_nat n else 0) (Z.of_nat m)).
Proof.
  induction n as [|n IH]; [destruct tls; apply busy_tunnels|]. unfold reachable in *.
  eapply rtc_r; [exact IH|]. rewrite Nat2Z.inj_succ, <- Z.add_1_r.
  destruct tls; [by apply (tls_request caller (busy true 0 (Z.of_nat n) (Z.of_nat m)))|].
  by apply (plain_request caller (busy false (Z.of_nat n) 0 (Z.of_nat m))).
Qed.

(** Such a state, after a cancellation and the return of [Start]. *)
Definition abandoned (tls : bool) (plain tlsr m : Z) : Server :=
  MkServer tls false false plain tlsr m (Returned None) (if tls then ShutTLS else ShutPlain) NotCalled false false.

Lemma busy_abandoned caller tls (n m : Z) :
  rtc (srv_step caller) (busy tls (if tls then 0 else n) (if tls then n else 0) m)
    (abandoned tls (if tls then 0 else n) (if tls then n else 0) m).
Proof.
  destruct tls.
  - set (s := busy true 0 n m).
    change (abandoned true 0 n m) with
      (set_start (set_start (after_plain (set_watch (set_plain s false 0) ShutPlain false) false) WaitTLS)
         (Returned None)).
    do 4 (eapply rtc_r; [|first [by apply ctx_done|by apply plain_drained|by apply serve_closed|by apply wait_over]]).
    apply rtc_refl.
  - set (s := busy false n 0 m).
    change (abandoned false n 0 m) with
      (set_start (set_start (set_watch (set_plain s false n) ShutPlain false) WaitTLS) (Returned None)).
    eapply rtc_r; [eapply rtc_r; [eapply rtc_r; [apply rtc_refl|]|]|].
    + by apply ctx_done.
    + by apply serve_closed.
    + by apply wait_over.
Qed.

(** Otherwise it waits for nobody: after a cancellation [Start] can return, without
    any timeout, while any number of tunnels and of requests are open: with TLS the
    requests of the TLS server, without it all requests. *)
Theorem http_start_abandons (tls : bool) (n m : nat) :
  exists s, reachable false tls s /\ start s = Returned None /\ timed_out s = false /\ tls_failed s = false /\
    (if tls then tls_reqs s else plain_reqs s) = Z.of_nat n /\ tunnels s = Z.of_nat m.
Proof.
  eexists. split; [unfold reachable; etransitivity; [apply (busy_requests false tls n m)|apply busy_abandoned]|].
  by destruct tls.
Qed.

Definition drained_server : Server :=
  set_start (set_start (after_plain (set_watch (set_plain (started true) false 0) ShutPlain false) false) WaitTLS)
    (Returned None).

Lemma drained_server_reachable : reachable false true drained_server.
Proof.
  unfold reachable.
  do 4 (eapply rtc_r; [|first [by apply ctx_done|by apply plain_drained|by apply serve_closed|by apply wait_over]]).
  apply rtc_refl.
Qed.

Lemma http_start_drained_witness :
  plain_open drained_server = false /\ tls_open drained_server = false /\
  (plain_reqs drained_server = 0 \/ timed_out drained_server = true \/ tls_failed drained_server = true).
Proof. apply (http_start_drained false drained_server drained_server_reachable). reflexivity. Defined.

Definition shut_server : Server :=
  set_call (set_call (call_after_plain (set_call (set_plain (started true) false 0) CallPlain false) false)
    CallWait false) CallDone false.

Lemma shut_server_reachable : reachable true true shut_server.
Proof.
  unfold reachable.
  do 4 (eapply rtc_r; [|first [by apply call_starts|by apply call_plain_drained|by apply call_tls_drained|
                               by apply call_returns]]).
  apply rtc_refl.
Qed.

Lemma http_shutdown_drained_witness :
  plain_open shut_server = false /\ tls_open shut_server = false /\
  (plain_reqs shut_server = 0 /\ tls_reqs shut_server = 0 \/ timed_out shut_server = true).
Proof. apply (http_shutdown_drained true shut_server shut_server_reachable). reflexivity. Defined.

Lemma http_shutdown_terminates_witness :
  sn (srv_step false) drained_server /\
  forall s', rtc (srv_step false) drained_server s' -> nf (srv_step false) s' ->
    (exists err, start s' = Returned err) /\ watch s' = ShutDone /\ (false = true -> call s' = CallDone) /\
    plain_reqs s' = 0 /\ tls_reqs s' = 0 /\ tunnels s' = 0.
Proof. apply (http_shutdown_terminates false true drained_server drained_server_reachable); reflexivity. Defined.
