(* ===== verification/Main.v ===== *)
(** * The program ([cmd/proxy/main.go])

    [main] loads the configuration and starts either the SNI relay or the two
    authenticated proxies with the metrics server. A [Machine] is what the process
    finds when it starts: its environment (after [godotenv]), files and ports. A
    start either ends the process or leaves it [Running] with the state of each
    server as it enters its loop; [finish] is what happens when the loop that [main]
    waits for returns. What happens in between is in [Process]. *)
From S2P Require Import Pac.
From S2P Require Import HttpProxy.
From S2P Require Import Socks5Listener.
From S2P Require Import HttpListener.
From S2P Require Import SniServer SniServerFacts.
From S2P Require Import Prelude GoStrings GoPath GoFloat GoTime GoHttp RateLimiter UserStore.
From S2P Require Import Stats StatsFacts UsageApi Tracker TrackerFacts UserStoreFacts Config.
Open Scope Z_scope.

Record Machine (B : Type) := MkMachine {
  getenv : string -> string;
  decode_config : option (ConfigFile -> ConfigFile);   (* config.json over the defaults *)
  not_exist : string -> bool;
  read_users : string -> result string;
  read_usage : string -> result B;
  key_pair : string -> string -> result string;
  listen : string -> result unit
}.
Arguments getenv {B}.
Arguments decode_config {B}.
Arguments not_exist {B}.
Arguments read_users {B}.
Arguments read_usage {B}.
Arguments key_pair {B}.
Arguments listen {B}.

(** The clock at the start. *)
Record BootClock := MkBootClock {
  t_stats : Z;
  t_users : nat -> Z;
  t_month : Z;
  t_load : Z
}.

Section Program.
Context {F : Type} {GF : GoFloat F} {UC : Unicode} {MO : MapOrder} {AE : AuthEnv} {ZN : Zone} {UJ : UsageJSON}.
Implicit Types m : Machine json_bytes.

(** The loop of [itoa], a copy of which is in [internal/proxy]. *)
Fixpoint itoa_loop (fuel : nat) (i : Z) (result : string) : string :=
  match fuel with
  | O => result
  | S fuel =>
      if 0 <? i then itoa_loop fuel (Z.quot i 10) (String (chr (48 + Z.rem i 10)) result) else result
  end.
Definition itoa (i : Z) : string := if i =? 0 then "0" else itoa_loop (decimal_fuel i) i "".

Record SniProgram := MkSniProgram {
  sni_server : SniServer.Server;
  sni_stats : StatsTracker;
  sni_mux : gmap string route;
  sni_log : list string
}.

Record ProxyProgram := MkProxyProgram {
  px_store : UserStore F;
  px_tracker : World;
  px_server : HttpProxy.Server;
  px_socks5 : result Socks5Listener.Server;       (* an error is only logged *)
  px_http : HttpListener.Server;
  px_stats : StatsTracker;
  px_mux : gmap string route;
  px_log : list string
}.

Inductive program :=
| Exited (err : string)           (* os.Exit(1) *)
| Fatal (err : string)            (* log.Fatal *)
| Crashed
| SniRunning (p : SniProgram)
| ProxiesRunning (p : ProxyProgram).

Definition set_origin (s : StatsTracker) (origin : string) : StatsTracker :=
  MkStatsTracker s.(startTime) s.(totalRelays) s.(totalBytes) s.(totalErrors) s.(bytesWindow)
    s.(history) origin s.(lastBytes).

Definition runSNIProxyMode m (c : BootClock) (cfg : Config.Config) : program :=
  let f := Config.file cfg in
  match Validate f m.(not_exist) with
  | Err err => Exited err
  | Ok _ =>
      match SniServer.NewServer f with
      | Panic => Crashed
      | Done srv =>
          match SniServer.Start srv (m.(key_pair) f.(CertFile) f.(KeyFile)) (m.(listen) f.(Listen)) with
          | (Err err, _) => Fatal err
          | (Ok _, srv) =>
              SniRunning (MkSniProgram srv
                (set_origin (new_stats c.(t_stats)) (EnvOf cfg).(EAllowedOrigin)) (NewMetricsServer false)
                ["Proxy Mode: SNI"])
          end
      end
  end.

Definition usage_file (e : EnvConfig) : string := Join [Dir e.(UsersFile); "bandwidth_usage.json"].

Definition runHTTPSProxyMode m (c : BootClock) (cfg : Config.Config) : program :=
  let e := EnvOf cfg in
  match NewUserStore (F := F) (m.(read_users) e.(UsersFile)) c.(t_users) with
  | Err err => Exited err
  | Ok userStore =>
      let usageFile := usage_file e in
      match NewTracker usageFile (m.(read_usage) usageFile) c.(t_month) c.(t_load) with
      | Panic => Crashed
      | Done bwTracker =>
          let socks5Srv := Socks5Listener.Start e.(SOCKS5Port) m.(listen) Socks5Listener.NewServer in
          match HttpListener.Start e.(HTTPProxyPort) e.(HTTPProxyTLS) e.(HTTPProxyTLSPort)
                  (Config.file cfg).(CertFile) (Config.file cfg).(KeyFile) m.(listen)
                  (m.(key_pair) (Config.file cfg).(CertFile) (Config.file cfg).(KeyFile)) with
          | Err err => Fatal err
          | Ok httpSrv =>
              ProxiesRunning (MkProxyProgram userStore bwTracker (HttpProxy.NewServer e) socks5Srv httpSrv
                (new_stats c.(t_stats)) (NewMetricsServer true)
                ["Proxy Mode: HTTPS/SOCKS5";
                 "Loaded " +:+ itoa (GetUserCount userStore) +:+ " users from " +:+ e.(UsersFile);
                 "Bandwidth tracker active → " +:+ usageFile])
          end
      end
  end.

(** The modes that select the authenticated proxies. *)
Definition proxy_mode (e : EnvConfig) : bool :=
  existsb (String.eqb e.(ProxyMode)) ["https"; "http"; "general"].

Definition main m (c : BootClock) : program :=
  let cfg := Load m.(getenv) m.(decode_config) in
  if proxy_mode (EnvOf cfg) then runHTTPSProxyMode m c cfg else runSNIProxyMode m c cfg.

(** The end of [runHTTPSProxyMode]: [log.Fatal] skips the deferred [Stop]. *)
Definition finish (returned : option string) (w : World) (wr : WriteOutcome json_bytes) : outcome World :=
  match returned with
  | None => Stop w wr
  | Some _ => Done w
  end.

(** The count in the log is in decimal, like every number [itoa] prints. *)
Lemma main_itoa (s : UserStore F) : itoa (GetUserCount s) = decimal (GetUserCount s).
Proof.
  change (itoa (GetUserCount s)) with (Stats.itoa (GetUserCount s)). rewrite itoa_decimal.
  unfold GetUserCount. by rewrite (proj2 (Z.ltb_ge _ 0)) by lia.
Qed.

(** ** A start *)

Lemma Validate_capacity (f : ConfigFile) ne :
  Validate f ne = Ok tt -> 0 < MaxConns f /\ Hosts f <> ∅ /\ Listen f <> "".
Proof. intros (? & _ & _ & _ & ? & ?)%Validate_spec. done. Qed.

Lemma http_Start_started port useTLS tlsPort cert key li kp s :
  HttpListener.Start port useTLS tlsPort cert key li kp = Ok s ->
  s = HttpListener.started
        (useTLS && negb (String.eqb cert "") && negb (String.eqb key "")).
Proof.
  unfold HttpListener.Start. destruct (li _); [|done]. destruct (_ && _ && _); [|by intros [= <-]].
  destruct kp; [|done]. destruct (li _); [|done]. by intros [= <-].
Qed.

Lemma socks5_Start_started port li s :
  Socks5Listener.Start port li Socks5Listener.NewServer = Ok s -> s = Socks5Listener.started.
Proof. unfold Socks5Listener.Start. destruct (li _); [|done]. by intros [= <-]. Qed.

(** What the SNI relay asks of its configuration. *)
Definition runnable (f : ConfigFile) (not_exist : string -> bool) : Prop :=
  Listen f <> "" /\ not_exist (CertFile f) = false /\ not_exist (KeyFile f) = false /\
  0 < TimeoutSec f /\ 0 < MaxConns f /\ Hosts f <> ∅.

(** What keeps the relay from starting behind a valid configuration: a key pair that
    cannot be loaded, or else its port. *)
Definition sni_fails m (f : ConfigFile) (err : string) : Prop :=
  m.(key_pair) (CertFile f) (KeyFile f) = Err err \/
  (exists kp, m.(key_pair) (CertFile f) (KeyFile f) = Ok kp) /\ m.(listen) (Listen f) = Err err.

(** The HTTP proxy opens a TLS port. *)
Definition wants_tls (e : EnvConfig) (f : ConfigFile) : bool :=
  HTTPProxyTLS e && negb (String.eqb (CertFile f) "") && negb (String.eqb (KeyFile f) "").

(** What keeps the HTTP proxy from starting: the plain port, or else, if it is to have
    one, the key pair or the TLS port. *)
Definition http_fails m (e : EnvConfig) (f : ConfigFile) (err : string) : Prop :=
  let addr := http_addr (HTTPProxyPort e) in
  let tls_addr := https_addr (HTTPProxyTLSPort e) in
  (exists x, m.(listen) addr = Err x /\ err = "failed to listen on " +:+ addr +:+ ": " +:+ x) \/
  (m.(listen) addr = Ok tt /\ wants_tls e f = true /\
   ((exists x, m.(key_pair) (CertFile f) (KeyFile f) = Err x /\ err = "failed to load TLS cert: " +:+ x) \/
    (exists kp x, m.(key_pair) (CertFile f) (KeyFile f) = Ok kp /\ m.(listen) tls_addr = Err x /\
       err = "failed to listen TLS on " +:+ tls_addr +:+ ": " +:+ x))).

(** What the HTTP proxy has when it starts. *)
Definition http_ready m (e : EnvConfig) (f : ConfigFile) : Prop :=
  m.(listen) (http_addr (HTTPProxyPort e)) = Ok tt /\
  (wants_tls e f = true -> (exists kp, m.(key_pair) (CertFile f) (KeyFile f) = Ok kp) /\
     m.(listen) (https_addr (HTTPProxyTLSPort e)) = Ok tt).

Lemma http_start_cases m e f :
  match HttpListener.Start (HTTPProxyPort e) (HTTPProxyTLS e) (HTTPProxyTLSPort e) (CertFile f) (KeyFile f)
          m.(listen) (m.(key_pair) (CertFile f) (KeyFile f)) with
  | Ok s => s = HttpListener.started (wants_tls e f) /\ http_ready m e f
  | Err err => http_fails m e f err
  end.
Proof.
  unfold HttpListener.Start, http_fails, http_ready. fold (wants_tls e f).
  destruct (listen m (http_addr _)) as [[]|x]; [|by left; eexists].
  destruct (wants_tls e f) eqn:Et; [|by split_and!].
  destruct (key_pair m _ _) as [kp|x].
  - destruct (listen m (https_addr _)) as [[]|x].
    + split; [done|]. split; [done|]. intros _. split; [by exists kp|done].
    + right. split_and!; [done..|]. right. by exists kp, x.
  - right. split_and!; [done..|]. left. by exists x.
Qed.

Lemma sni_start_cases m f :
  runnable f m.(not_exist) -> exists s0, SniServer.NewServer f = Done s0 /\
  match SniServer.Start s0 (m.(key_pair) (CertFile f) (KeyFile f)) (m.(listen) (Listen f)) with
  | (Ok _, s) => SniServer.reachable f s /\ capacity s = MaxConns f /\ m.(listen) (Listen f) = Ok tt /\
      exists kp, m.(key_pair) (CertFile f) (KeyFile f) = Ok kp /\ cert s = Some kp
  | (Err err, _) => sni_fails m f err
  end.
Proof.
  intros (_ & _ & _ & _ & Hm & _). unfold SniServer.NewServer. rewrite (proj2 (Z.ltb_ge _ _)) by lia.
  eexists. split; [done|]. set (s0 := MkServer _ _ _ _ _ _ _ _ _ _). unfold sni_fails.
  destruct (SniServer.Start s0 _ _) as [[[]|err] s] eqn:Es; revert Es;
    unfold SniServer.Start, Reload; destruct (key_pair m _ _) as [kp|x] eqn:Ek; try done.
  - destruct (listen m (Listen f)) as [[]|x] eqn:El; [|done]. intros [= <-].
    split_and!; [|done..|by exists kp]. exists s0, (Ok kp). eexists. split_and!; [|done|apply rtc_refl].
    unfold SniServer.NewServer. by rewrite (proj2 (Z.ltb_ge _ _)) by lia.
  - destruct (listen m (Listen f)) as [[]|x] eqn:El; [done|]. intros [= <- _]. right. split; [by exists kp|done].
  - intros [= <- _]. by left.
Qed.

(** C14: How a start goes, decided by what the process finds. In SNI mode it exits
    exactly for a configuration that is not [runnable], whatever the reason, dies of a
    key pair or a port that fails, and else runs, in a state from which the relay's
    guarantees hold, with its key pair and its limit. In proxy mode it exits exactly for
    a users file that cannot be loaded, crashes exactly for a [null] user in the usage
    file of the month, dies of the ports and the key pair of the HTTP proxy, and else
    runs with the store and the tracker of its files and both servers as new, whatever
    becomes of the SOCKS5 port. Only the proxies serve the usage report; the statistics
    have an allowed origin only in SNI mode. *)
Theorem main_start_up m (c : BootClock) :
  let cfg := Load m.(getenv) m.(decode_config) in
  let e := EnvOf cfg in
  let f := Config.file cfg in
  let users_file := m.(read_users) (UsersFile e) in
  let usage_data := m.(read_usage) (usage_file e) in
  match main m c with
  | Exited _ => if proxy_mode e then ~ loadable users_file else ~ runnable f m.(not_exist)
  | Fatal err =>
      if proxy_mode e then loadable users_file /\ ~ null_user usage_data c.(t_load) /\ http_fails m e f err
      else runnable f m.(not_exist) /\ sni_fails m f err
  | Crashed => proxy_mode e = true /\ loadable users_file /\ null_user usage_data c.(t_load)
  | SniRunning p => proxy_mode e = false /\ runnable f m.(not_exist) /\
      SniServer.reachable f (sni_server p) /\ capacity (sni_server p) = MaxConns f /\
      m.(listen) (Listen f) = Ok tt /\
      (exists kp, m.(key_pair) (CertFile f) (KeyFile f) = Ok kp /\ cert (sni_server p) = Some kp) /\
      sni_mux p !! "/api/usage" = None /\ AllowedOrigin (sni_stats p) = EAllowedOrigin e
  | ProxiesRunning p => proxy_mode e = true /\
      loadable users_file /\ NewUserStore users_file c.(t_users) = Ok (px_store p) /\
      ~ null_user usage_data c.(t_load) /\
      NewTracker (usage_file e) usage_data c.(t_month) c.(t_load) = Done (px_tracker p) /\
      http_ready m e f /\ px_http p = HttpListener.started (wants_tls e f) /\
      (forall s, px_socks5 p = Ok s <-> m.(listen) (listen_addr (SOCKS5Port e)) = Ok tt /\ s = Socks5Listener.started) /\
      (srv_pac (px_server p) = None <-> PACEnabled e = false) /\
      px_mux p !! "/api/usage" = Some UsageRoute /\ AllowedOrigin (px_stats p) = ""
  end.
Proof.
  intros cfg e f users_file usage_data. unfold main. fold cfg e. destruct (proxy_mode e) eqn:Hmode.
  - unfold runHTTPSProxyMode. fold e f users_file.
    pose proof (NewUserStore_loadable users_file c.(t_users)) as Hl.
    destruct (NewUserStore _ _) as [store|err] eqn:Hu; [|by rewrite <- Hl; intros [? ?]].
    assert (loadable users_file) as Hload by (apply Hl; by exists store).
    pose proof (NewTracker_panics (usage_file e) usage_data c.(t_month) c.(t_load)) as Hn. fold usage_data.
    destruct (NewTracker _ _ _ _) as [w|] eqn:Ht; [|by rewrite <- Hn].
    assert (~ null_user usage_data c.(t_load)) as Hnn by (by rewrite <- Hn).
    pose proof (http_start_cases m e f) as Hh.
    destruct (HttpListener.Start _ _ _ _ _ _ _) as [hs|err]; [|done]. destruct Hh as [-> Hr].
    split_and!; try done.
    + intros s. simpl. unfold Socks5Listener.Start. destruct (listen m _) as [[]|]; [|by split; [|intros [? _]]].
      split; [by intros [= <-]|by intros [_ ->]].
    + simpl. unfold NewServer_pac. by destruct (PACEnabled e).
  - unfold runSNIProxyMode. fold e f. pose proof (Validate_spec f m.(not_exist)) as Hv. fold (runnable f m.(not_exist)) in Hv.
    destruct (Validate _ _) as [[]|err]; [|by rewrite <- Hv].
    assert (runnable f m.(not_exist)) as Hr by (by apply Hv).
    destruct (sni_start_cases m f Hr) as (s0 & -> & Hs).
    destruct (SniServer.Start _ _ _) as [[[]|err] s]; [|done]. destruct Hs as (? & ? & ? & ?). by split_and!.
Qed.
End Program.
