(* ===== verification/Restarts.v ===== *)
(** * Usage across restarts ([internal/bandwidth/tracker.go], the end of
    [runHTTPSProxyMode] in [cmd/proxy/main.go])

    The proxy lives many lives: each runs some calls on its tracker, ends, and the next
    starts on the usage file it left. [Ledger] is the abstract specification of all of
    them together: the meter of the present life, and the meter that a start would
    find in the file. The tracker refines it, so that a life that ends in order loses
    nothing, and one that is cut short loses exactly what came after its last save. *)
From S2P Require Import Main.
From S2P Require Import SniServer HttpListener.
From S2P Require Import Prelude GoStrings GoFloat GoTime Config UserStore Tracker TrackerFacts.
Open Scope Z_scope.

(** ** The ledger *)

Record Ledger := MkLedger { live : Meter; saved : option Meter }.

Section Lives.
Context {ZN : Zone} {UJ : UsageJSON}.

(** What a call that meters bytes leaves in the file: a change of month is saved. *)
Definition rolled_save (L : Ledger) (now : Z) : option Meter :=
  if String.eqb (FormatMonth now) (m_month (live L)) then saved L else Some (roll (live L) now).

Definition l_saved (L : Ledger) (e : event) : option Meter :=
  let '(k, c, _) := e in
  match k with
  | CRecord _ _ _ => rolled_save L c.(r_month)
  | CAllowance _ l => if l <=? 0 then saved L else rolled_save L c.(r_month)
  | CSave => Some (live L)
  | _ => saved L
  end.

Definition l_exec (L : Ledger) (e : event) : answer * Ledger :=
  let '(a, m) := spec_exec (live L) e in (a, MkLedger m (l_saved L e)).

(** One life: its calls, what the loop that [main] waits for returned in the end, and
    the two readings of the clock with which the next life starts. A process that is
    killed saves as little as one that ends with an error. *)
Record Life := MkLife {
  calls : list event;
  ended : option string;
  t_new : Z;
  t_loaded : Z
}.

Definition nobody : string -> Z := fun _ => 0.

(** The next life has the bytes of the file, if it is of the present month. *)
Definition reopen (s : option Meter) (t1 t2 : Z) : Meter :=
  match s with
  | Some m => if String.eqb (m_month m) (FormatMonth t2)
              then MkMeter (m_month m) (m_up m) (m_down m) nobody
              else MkMeter (FormatMonth t1) nobody nobody nobody
  | None => MkMeter (FormatMonth t1) nobody nobody nobody
  end.

Definition l_restart (L : Ledger) (l : Life) : Ledger :=
  let s := match ended l with None => Some (live L) | Some _ => saved L end in
  MkLedger (reopen s (t_new l) (t_loaded l)) s.

Fixpoint l_lives (L : Ledger) (ls : list Life) : list (list answer) * Ledger :=
  match ls with
  | [] => ([], L)
  | l :: ls => let '(answers, L) := run l_exec L (calls l) in
               let '(r, L) := l_lives (l_restart L l) ls in (answers :: r, L)
  end.

(** ** The process and its file *)

Definition restart (path : string) (w : World) (l : Life) : outcome World :=
  match finish (ended l) w WriteOk with
  | Done w => NewTracker path (disk w) (t_new l) (t_loaded l)
  | Panic => Panic
  end.

Fixpoint lives (path : string) (w : World) (ls : list Life) : list (list answer) * outcome World :=
  match ls with
  | [] => ([], Done w)
  | l :: ls =>
      let '(answers, w) := run exec w (calls l) in
      match restart path w l with
      | Done w => let '(r, o) := lives path w ls in (answers :: r, o)
      | Panic => ([answers], Panic)
      end
  end.

(** ** The abstraction relation *)

Definition bytes_of (u : UserUsage) : Z * Z * Z := (BytesUp u, BytesDown u, TotalBytes u).

Definition plain_users (us : gmap string UserUsage) : Prop :=
  map_Forall (fun k u => is_ascii k = true /\ is_ascii (LastResetAt u) = true) us.

(** The file holds the meter [s]; it may hold any number of connections. *)
Definition file_is (d : result json_bytes) (s : option Meter) : Prop :=
  match s with
  | None => exists err, d = Err err
  | Some m => exists data us, d = Ok data /\
      json_unmarshal data = Ok (MkUsageFile (m_month m) (Some (Some <$> us))) /\
      is_ascii (m_month m) = true /\ plain_users us /\
      forall u, default (0, 0, 0) (bytes_of <$> us !! u) =
        (wrap64 (m_up m u), wrap64 (m_down m u), wrap64 (m_up m u + m_down m u))
  end.

Record keeps_ledger (w : World) (L : Ledger) : Prop := {
  kl_live : refines w (live L);
  kl_saved : file_is (disk w) (saved L);
  kl_ascii : ascii_tracker (tracker w);
  kl_open : stopped (tracker w) = false
}.

(** The call names a user in ASCII, and what it writes arrives. *)
Definition in_order (e : event) : Prop :=
  let '(k, _, wr) := e in
  wr = WriteOk /\
  match k with
  | CRecord u _ _ | CAllowance u _ | CUsage u | CIncrement u | CDecrement u | CConns u | CConnLimit u _ =>
      is_ascii u = true
  | CSave => True
  end.

(** ** Names and times in ASCII *)

Lemma getOrCreate_ascii t u now :
  ascii_tracker t -> is_ascii u = true -> is_ascii (LastResetAt (getOrCreate t u now).1) = true /\
  ascii_tracker (getOrCreate t u now).2.
Proof.
  intros [Hm Hu] Hn. unfold getOrCreate. destruct (users t !! u) as [x|] eqn:E.
  - split; [by destruct (Hu _ _ E)|done].
  - simpl. split; [apply FormatRFC3339_ascii|]. split; [done|]. simpl.
    apply map_Forall_insert_2; [|done]. split; [done|apply FormatRFC3339_ascii].
Qed.

Lemma set_user_ascii t u x :
  ascii_tracker t -> is_ascii u = true -> is_ascii (LastResetAt x) = true -> ascii_tracker (set_user t u x).
Proof. intros [Hm Hu] Hn Hx. split; [done|]. by apply map_Forall_insert_2. Qed.
Lemma checkMonthlyReset_ascii w c wr :
  ascii_tracker (tracker w) -> ascii_tracker (tracker (checkMonthlyReset w c wr)).
Proof.
  intros [Hm Hu]. unfold checkMonthlyReset. destruct (String.eqb _ _); [done|].
  rewrite saveToDiskLocked_tracker. split; [apply FormatMonth_ascii|].
  intros k u. simpl. rewrite map_lookup_imap. destruct (users (tracker w) !! k) as [x|] eqn:E; [|done].
  intros [= <-]. split; [by destruct (Hu _ _ E)|apply FormatRFC3339_ascii].
Qed.

Lemma exec_ascii w e : in_order e -> ascii_tracker (tracker w) -> ascii_tracker (tracker (exec w e).2).
Proof.
  intros Hi Ha. destruct e as [[k c] wr], Hi as [_ Hn].
  assert (forall u up down, is_ascii u = true -> ascii_tracker (tracker (RecordBytes w u up down c wr))) as Hrec.
  { intros u up down Hu. unfold RecordBytes.
    pose proof (checkMonthlyReset_ascii w c wr Ha) as H1.
    destruct (getOrCreate_ascii _ u (r_create c) H1 Hu) as [Hx Ht]. destruct (getOrCreate _ _ _) as [x t'].
    by apply set_user_ascii. }
  destruct k as [u up down|u l|u|u|u|u|u l|]; cbn [exec]; [by apply Hrec|..]; clear Hrec.
  - unfold CheckAllowance. destruct (l <=? 0); [done|].
    destruct (getOrCreate_ascii _ u (r_create c) (checkMonthlyReset_ascii w c wr Ha) Hn) as [Hx Ht].
    by destruct (getOrCreate _ _ _).
  - unfold GetUsage. destruct (getOrCreate_ascii _ u (r_create c) Ha Hn). by destruct (getOrCreate _ _ _).
  - unfold IncrementConns. destruct (getOrCreate_ascii _ u (r_create c) Ha Hn).
    destruct (getOrCreate _ _ _). by apply set_user_ascii.
  - unfold DecrementConns. destruct (getOrCreate_ascii _ u (r_create c) Ha Hn).
    destruct (getOrCreate _ _ _) as [x t']. simpl. destruct (0 <? _); [by apply set_user_ascii|done].
  - unfold GetActiveConns. destruct (getOrCreate_ascii _ u (r_create c) Ha Hn). by destruct (getOrCreate _ _ _).
  - unfold CheckConnLimit. destruct (l <=? 0); [done|].
    destruct (getOrCreate_ascii _ u (r_create c) Ha Hn). by destruct (getOrCreate _ _ _).
  - unfold saveToDisk. simpl. by rewrite saveToDiskLocked_tracker.
Qed.

(** ** The file *)

Lemma saved_file_is w m :
  ascii_tracker (tracker w) -> refines w m -> file_is (disk (saveToDiskLocked w WriteOk)) (Some m).
Proof.
  intros Ha [Hm Hu]. destruct (saveToDiskLocked_disk w Ha) as (data & Hd & Hj), Ha as [Hmo Hpl].
  exists data, (users (tracker w)). rewrite Hd, Hj, <- Hm. split_and!; try done.
  intros u. specialize (Hu u). revert Hu. unfold usage_of, bytes_of, m_counts, counts.
  destruct (users (tracker w) !! u); simpl; by intros [= -> -> -> _].
Qed.

Lemma checkMonthlyReset_file w L c :
  keeps_ledger w L -> file_is (disk (checkMonthlyReset w c WriteOk)) (rolled_save L (r_month c)).
Proof.
  intros [Hl Hs Ha _]. pose proof (checkMonthlyReset_ascii w c WriteOk Ha) as Ha'.
  pose proof (checkMonthlyReset_refines _ _ c WriteOk Hl) as Hr.
  revert Ha' Hr. unfold rolled_save, roll, checkMonthlyReset. destruct Hl as [-> _].
  destruct (String.eqb _ _); [done|]. intros Ha' Hr. apply saved_file_is.
  - by rewrite saveToDiskLocked_tracker in Ha'.
  - revert Hr. unfold refines. by rewrite saveToDiskLocked_tracker.
Qed.

Lemma exec_file w L e :
  in_order e -> keeps_ledger w L -> file_is (disk (exec w e).2) (l_saved L e).
Proof.
  intros Hi Hk. pose proof (kl_saved _ _ Hk) as Hs. destruct e as [[k c] wr], Hi as [-> Hn].
  pose proof (checkMonthlyReset_file w L c Hk) as Hc.
  destruct k as [u up down|u l|u|u|u|u|u l|]; cbn [exec l_saved].
  - unfold RecordBytes. by destruct (getOrCreate _ _ _).
  - unfold CheckAllowance. destruct (l <=? 0); [done|]. by destruct (getOrCreate _ _ _).
  - unfold GetUsage. by destruct (getOrCreate _ _ _).
  - unfold IncrementConns. by destruct (getOrCreate _ _ _).
  - unfold DecrementConns. by destruct (getOrCreate _ _ _).
  - unfold GetActiveConns. by destruct (getOrCreate _ _ _).
  - unfold CheckConnLimit. destruct (l <=? 0); [done|]. by destruct (getOrCreate _ _ _).
  - destruct Hk as [Hl _ Ha _]. by apply saved_file_is.
Qed.

Lemma checkMonthlyReset_stopped w c wr : stopped (tracker (checkMonthlyReset w c wr)) = stopped (tracker w).
Proof. unfold checkMonthlyReset. destruct (String.eqb _ _); [done|]. by rewrite saveToDiskLocked_tracker. Qed.

Lemma getOrCreate_stopped t u now : stopped (getOrCreate t u now).2 = stopped t.
Proof. unfold getOrCreate. by destruct (users t !! u). Qed.

Lemma exec_stopped w e : stopped (tracker (exec w e).2) = stopped (tracker w).
Proof.
  destruct e as [[k c] wr]. destruct k as [u up down|u l|u|u|u|u|u l|]; cbn [exec].
  1,2: unfold RecordBytes, CheckAllowance; try (destruct (l <=? 0); [done|]);
    rewrite <- (checkMonthlyReset_stopped w c wr); generalize (checkMonthlyReset w c wr); intros w'.
  all: unfold GetUsage, IncrementConns, DecrementConns, GetActiveConns, CheckConnLimit; try (destruct (l <=? 0); [done|]).
  all: try (rewrite <- (getOrCreate_stopped (tracker w') u (r_create c)));
       try (rewrite <- (getOrCreate_stopped (tracker w) u (r_create c))); try (destruct (getOrCreate _ _ _)); try done.
  - simpl. by destruct (0 <? _).
  - unfold saveToDisk. simpl. by rewrite saveToDiskLocked_tracker.
Qed.

(** ** One life *)

Lemma exec_ledger w L e n :
  in_order e -> keeps_ledger w L -> conns_fit (live L) (n + 1) -> 0 <= n ->
  (exec w e).1 = (l_exec L e).1 /\ keeps_ledger (exec w e).2 (l_exec L e).2 /\
    conns_fit (live (l_exec L e).2) n.
Proof.
  intros Hi Hk Hf Hn. pose proof (exec_file w L e Hi Hk) as Hs.
  destruct Hk as [Hl _ Ha Ho]. destruct (exec_refines w (live L) e n Hl Hf Hn) as (Hans & Hr & Hf').
  pose proof (exec_ascii w e Hi Ha) as Ha'. pose proof (exec_stopped w e) as Ho'. rewrite Ho in Ho'.
  unfold l_exec. destruct (spec_exec (live L) e) as [a m]. simpl in *. split_and!; [done| |done]. by split.
Qed.

Lemma run_ledger w L es :
  Forall in_order es -> keeps_ledger w L -> conns_fit (live L) (zlen es) ->
  (run exec w es).1 = (run l_exec L es).1 /\ keeps_ledger (run exec w es).2 (run l_exec L es).2.
Proof.
  revert w L. induction es as [|e es IH]; intros w L Hi Hk Hf; [done|]. apply Forall_cons in Hi as [Hi His].
  destruct (exec_ledger w L e (zlen es) Hi Hk) as (Ha & Hk' & Hf');
    [intros u; specialize (Hf u); simpl in Hf; lia|lia|].
  cbn [run]. destruct (exec w e) as [a w'], (l_exec L e) as [a' L']. simpl in Ha, Hk', Hf'. subst a'.
  destruct (IH w' L' His Hk' Hf') as [Hl Hr].
  destruct (run exec w' es), (run l_exec L' es). simpl in *. by subst.
Qed.

(** ** From one life to the next *)

Lemma nobody_counts mo : m_counts (MkMeter mo nobody nobody nobody) = fun _ => (0, 0, 0, 0).
Proof. reflexivity. Qed.

Lemma fresh_ledger path d s t1 :
  file_is d s ->
  keeps_ledger (MkWorld (MkTracker ∅ (FormatMonth t1) path false) d)
    (MkLedger (MkMeter (FormatMonth t1) nobody nobody nobody) s).
Proof.
  intros Hs. split; [|done| |done].
  - split; [done|]. intros u. unfold usage_of. simpl. by rewrite lookup_empty.
  - split; [apply FormatMonth_ascii|]. apply map_Forall_empty.
Qed.

Lemma NewTracker_ledger path d s t1 t2 :
  file_is d s ->
  exists w, NewTracker path d t1 t2 = Done w /\ keeps_ledger w (MkLedger (reopen s t1 t2) s).
Proof.
  intros Hs. unfold NewTracker, loadFromDisk. simpl disk. destruct s as [m|].
  - destruct (Hs) as (data & us & -> & Hj & Hmo & Hpl & Hu). rewrite Hj. simpl Users. simpl Month.
    unfold reopen. destruct (String.eqb_spec (m_month m) (FormatMonth t2)).
    + rewrite clear_conns_Some. simpl. eexists. split; [done|]. split; [|done| |done].
      * split; [done|]. intros u. specialize (Hu u).
        etransitivity; [apply (usage_of_cleared (MkTracker ∅ (FormatMonth t1) path false))|].
        revert Hu. unfold m_counts, bytes_of. destruct (us !! u); simpl; by intros [= <- <- <-].
      * split; [done|]. simpl. intros k u. rewrite lookup_fmap_Some. intros (x & <- & Hx). exact (Hpl _ _ Hx).
    + eexists. split; [done|]. by apply fresh_ledger.
  - destruct (Hs) as (err & ->). eexists. split; [done|]. by apply fresh_ledger.
Qed.

Lemma restart_ledger path w L l :
  keeps_ledger w L -> exists w', restart path w l = Done w' /\ keeps_ledger w' (l_restart L l).
Proof.
  intros [Hl Hs Ha Ho]. unfold restart, l_restart, finish. destruct (ended l) as [err|].
  - by apply NewTracker_ledger.
  - unfold Stop. rewrite Ho. apply NewTracker_ledger. apply saved_file_is; [|done]. exact Ha.
Qed.

Lemma nobody_fits mo up down n : 0 <= n < 2^63 -> conns_fit (MkMeter mo up down nobody) n.
Proof. intros Hn u. simpl. unfold nobody. lia. Qed.

Lemma reopen_fits s t1 t2 n : 0 <= n < 2^63 -> conns_fit (reopen s t1 t2) n.
Proof. intros Hn. unfold reopen. destruct s; [destruct (String.eqb _ _)|]; by apply nobody_fits. Qed.

(** C8: nothing is lost that a file can keep: over any number of lives of the proxy,
    each answer of each life is the one the ledger gives. A life that ends in order
    hands over every byte it counted; one that ends with an error, or is killed, hands
    over what the file had last: the state of its last save, or of the last change of
    month. The next life takes it if the month is the same, with no connection open. *)
Theorem restarts_refine_Ledger (path : string) (w : World) (L : Ledger) (ls : list Life) :
  keeps_ledger w L -> (forall u, m_conns (live L) u = 0) ->
  Forall (fun l => Forall in_order (calls l) /\ zlen (calls l) < 2^63) ls ->
  exists w', lives path w ls = ((l_lives L ls).1, Done w') /\ keeps_ledger w' (l_lives L ls).2.
Proof.
  intros Hk Hz Hls. assert (forall n, 0 <= n < 2^63 -> conns_fit (live L) n) as Hf.
  { intros n Hn u. rewrite Hz. lia. }
  clear Hz. revert w L Hk Hf. induction Hls as [|l ls [Hi Hlen] _ IH]; intros w L Hk Hf; [by exists w|].
  destruct (run_ledger w L (calls l) Hi Hk) as [Ha Hk1]; [apply Hf; lia|].
  cbn [lives l_lives]. destruct (run exec w (calls l)) as [a w1], (run l_exec L (calls l)) as [a' L1].
  simpl in Ha, Hk1. subst a'. destruct (restart_ledger path w1 L1 l Hk1) as (w2 & -> & Hk2).
  destruct (IH w2 (l_restart L1 l) Hk2) as (w' & E & Hk'); [intros n Hn; by apply reopen_fits|].
  destruct (lives path w2 ls) as [r o], (l_lives (l_restart L1 l) ls) as [r' L']. simpl in *.
  injection E as -> ->. by exists w'.
Qed.
End Lives.

(** ** The lives of the program *)

Section Program.
Context {F : Type} {GF : GoFloat F} {UC : Unicode} {MO : MapOrder} {AE : AuthEnv} {ZN : Zone} {UJ : UsageJSON}.

(** A start of the program that finds the usage file of the last one does not crash on
    it, and if it serves the proxies, then with the tracker of the next life. *)
Theorem main_continues (m : Machine json_bytes) (c : BootClock) (w : World) (L : Ledger) (l : Life) :
  let e := EnvOf (Load (getenv m) (decode_config m)) in
  keeps_ledger w L -> t_new l = t_month c -> t_loaded l = t_load c ->
  (forall w1, finish (ended l) w WriteOk = Done w1 -> read_usage m (usage_file e) = disk w1) ->
  match main m c with
  | Crashed => False
  | ProxiesRunning p => keeps_ledger (px_tracker p) (l_restart L l)
  | _ => True
  end.
Proof.
  intros e Hk Hn Ht Hd. destruct (restart_ledger (usage_file e) w L l Hk) as (w' & Hr & Hk').
  assert (NewTracker (usage_file e) (read_usage m (usage_file e)) (t_month c) (t_load c) = Done w') as Hnt.
  { revert Hr. unfold restart. rewrite <- Hn, <- Ht. destruct (finish (ended l) w WriteOk) as [w1|] eqn:Ef; [|done].
    by rewrite (Hd w1 eq_refl). }
  unfold main. fold e. destruct (proxy_mode e).
  - unfold runHTTPSProxyMode. fold e. destruct (NewUserStore _ _); [|done].
    rewrite Hnt. by destruct (HttpListener.Start _ _ _ _ _ _ _).
  - unfold runSNIProxyMode. destruct (Validate _ _) as [[]|] eqn:Hv; [|done].
    apply Validate_capacity in Hv as (Hc & _). unfold SniServer.NewServer.
    destruct (Z.ltb_spec (MaxConns (Config.file (Load (getenv m) (decode_config m)))) 0); [lia|].
    by destruct (SniServer.Start _ _ _) as [[] ?].
Qed.
End Program.

(** ** Three lives in one month *)

Definition three_lives : list Life :=
  [MkLife [(CRecord "bob" 5 7, at_time 0, WriteOk); (CSave, at_time 0, WriteOk);
           (CIncrement "bob", at_time 0, WriteOk); (CRecord "bob" 100 0, at_time 0, WriteOk)]
     (Some "listener") 0 0;
   MkLife [(CUsage "bob", at_time 0, WriteOk); (CRecord "bob" 1 2, at_time 0, WriteOk)] None 0 0;
   MkLife [(CUsage "bob", at_time 0, WriteOk)] None 0 0].

Definition no_ledger : Ledger := MkLedger zero_meter None.

Example three_lives_answers :
  (lives "usage.json" fresh_world three_lives).1 =
    [[AUnit; AUnit; AUnit; AUnit]; [AUsage (5, 7, 12, 0); AUnit]; [AUsage (6, 9, 15, 0)]].
Proof. vm_compute. reflexivity. Qed.

Lemma no_ledger_kept : keeps_ledger fresh_world no_ledger.
Proof. split; [by split|by eexists|split; [done|apply map_Forall_empty]|done]. Qed.

Lemma restarts_refine_Ledger_witness :
  exists w', lives "usage.json" fresh_world three_lives = ((l_lives no_ledger three_lives).1, Done w') /\
    keeps_ledger w' (l_lives no_ledger three_lives).2.
Proof.
  apply (restarts_refine_Ledger "usage.json" fresh_world no_ledger three_lives no_ledger_kept).
  - intros u. reflexivity.
  - repeat (apply Forall_cons; split); try apply Forall_nil; try done;
      (split; [repeat (apply Forall_cons; split); try apply Forall_nil; split; reflexivity|simpl; lia]).
Defined.
