(* ===== verification/Process.v ===== *)
(** * The running process ([runSNIProxyMode], [runHTTPSProxyMode] and their goroutines
    in [cmd/proxy/main.go])

    What [main] has started ([Main]) and what happens until it ends: the servers' own
    step relations, the signals, the goroutine that reloads certificates, the one that
    stops the metrics server, the calls on the tracker, and the end of [main], after
    which nothing moves any more. *)
From S2P Require Import Socks5Listener.
From S2P Require Import HttpListener.
From S2P Require Import MetricsServer.
From S2P Require Import SniServer SniServerFacts.
From S2P Require Import Main Restarts.
From S2P Require Import Prelude GoStrings GoFloat GoTime UserStore Tracker TrackerFacts Config Stats UserStoreFacts.
Open Scope Z_scope.

(** Where [main] is: in the [Start] it waits for, returned, or in [log.Fatal]. *)
Inductive main_pc := InStart | MainReturned | FatalExit (err : string).

(** ** The SNI relay *)

(** [sighup]: a signal is in the channel, which holds one; [reloader]: its goroutine is
    alive; [reloads]: what the key pairs it tried to load gave. *)
Record SniProcess := MkSniProcess {
  relay : SniServer.Server;
  sni_metrics : MetricsServer;
  cancelled : bool;
  sighup : bool;
  reloader : bool;
  reloads : list (result string);
  sni_log : list string;
  sni_main : main_pc
}.

Definition set_relay (s : SniProcess) (r : SniServer.Server) : SniProcess :=
  MkSniProcess r s.(sni_metrics) s.(cancelled) s.(sighup) s.(reloader) s.(reloads) s.(sni_log) s.(sni_main).
Definition set_sni_metrics (s : SniProcess) (m : MetricsServer) : SniProcess :=
  MkSniProcess s.(relay) m s.(cancelled) s.(sighup) s.(reloader) s.(reloads) s.(sni_log) s.(sni_main).
Definition set_cancelled (s : SniProcess) : SniProcess :=
  MkSniProcess s.(relay) s.(sni_metrics) true s.(sighup) s.(reloader) s.(reloads) s.(sni_log) s.(sni_main).
Definition set_sighup (s : SniProcess) (b : bool) : SniProcess :=
  MkSniProcess s.(relay) s.(sni_metrics) s.(cancelled) b s.(reloader) s.(reloads) s.(sni_log) s.(sni_main).
Definition stop_reloader (s : SniProcess) : SniProcess :=
  MkSniProcess s.(relay) s.(sni_metrics) s.(cancelled) s.(sighup) false s.(reloads) s.(sni_log) s.(sni_main).
Definition set_sni_main (s : SniProcess) (p : main_pc) : SniProcess :=
  MkSniProcess s.(relay) s.(sni_metrics) s.(cancelled) s.(sighup) s.(reloader) s.(reloads) s.(sni_log) p.

(** One round of the goroutine that waits for SIGHUP. *)
Definition reload (s : SniProcess) (key_pair : result string) : SniProcess :=
  let '(err, r) := SniServer.Reload s.(relay) key_pair in
  MkSniProcess r s.(sni_metrics) s.(cancelled) false s.(reloader) (s.(reloads) ++ [key_pair])
    (s.(sni_log) ++ "SIGHUP received, reloading certificates..." ::
       match err with Err e => ["Reload failed: " +:+ e] | Ok _ => [] end) s.(sni_main).

Inductive sni_move : SniProcess -> SniProcess -> Prop :=
| sni_signal s : sni_move s (set_cancelled s)
| sni_hup s : sni_move s (set_sighup s true)
| sni_reload s kp : sighup s = true -> reloader s = true -> sni_move s (reload s kp)
| sni_reloader_stops s : cancelled s = true -> reloader s = true -> sni_move s (stop_reloader s)
| sni_relay s r : SniServer.srv_step (relay s) r ->
    (SniServer.shutdown (relay s) = false -> SniServer.shutdown r = true -> cancelled s = true) ->
    sni_move s (set_relay s r)
| sni_serves_metrics s m : ms_step (sni_metrics s) m ->
    (stop (sni_metrics s) = NotCalled -> stop m <> NotCalled -> cancelled s = true) ->
    sni_move s (set_sni_metrics s m)
| sni_returns s drained : SniServer.pc (relay s) = SniServer.Finished drained -> sni_move s (set_sni_main s MainReturned)
| sni_fatal s err : SniServer.pc (relay s) = SniServer.Failed err -> sni_move s (set_sni_main s (FatalExit err)).

Definition sni_step (s s' : SniProcess) : Prop := sni_main s = InStart /\ sni_move s s'.

(** The state in which [main] leaves the relay to itself. *)
Definition sni_boot (p : SniProgram) : SniProcess :=
  MkSniProcess (sni_server p) MetricsServer.Start false false true [] (Main.sni_log p) InStart.

(** The certificate after some attempts to reload it. *)
Definition last_good (c : string) (kps : list (result string)) : string :=
  fold_left (fun c kp => match kp with Ok c' => c' | Err _ => c end) kps c.

Lemma last_good_snoc c kps kp :
  last_good c (kps ++ [kp]) = match kp with Ok c' => c' | Err _ => last_good c kps end.
Proof. unfold last_good. by rewrite fold_left_app. Qed.

(** ** What the relay keeps *)

Definition relay_inv (n : Z) (c : string) (s : SniProcess) : Prop :=
  SniServerFacts.srv_inv (relay s) /\ capacity (relay s) = n /\
  cert (relay s) = Some (last_good c (reloads s)) /\
  (SniServer.shutdown (relay s) = true -> cancelled s = true) /\
  (SniServer.pc (relay s) = AtDrain \/ (exists b, SniServer.pc (relay s) = SniServer.Finished b) ->
     SniServer.shutdown (relay s) = true) /\
  (stop (sni_metrics s) <> NotCalled -> cancelled s = true) /\
  (sni_main s = MainReturned -> exists b, SniServer.pc (relay s) = SniServer.Finished b) /\
  (forall err, sni_main s = FatalExit err -> SniServer.pc (relay s) = SniServer.Failed err).

Lemma relay_step_frame r r' :
  SniServer.srv_step r r' ->
  cert r' = cert r /\ (SniServer.shutdown r = true -> SniServer.shutdown r' = true) /\
  ((SniServer.pc r = AtDrain \/ (exists b, SniServer.pc r = SniServer.Finished b) -> SniServer.shutdown r = true) ->
   (SniServer.pc r' = AtDrain \/ (exists b, SniServer.pc r' = SniServer.Finished b) -> SniServer.shutdown r' = true)).
Proof.
  intros Hs. destruct Hs; (split; [done|]); (split; [done|]); simpl; intros Hp;
    try (by intros [?|[? ?]]; congruence); try done; auto.
Qed.

Lemma relay_inv_step n c s s' : sni_step s s' -> relay_inv n c s -> relay_inv n c s'.
Proof.
  intros [Hmain Hs] (Hi & Hc & Hcert & Hsd & Hpc & Hms & Hm & Hf). unfold relay_inv.
  destruct Hs as [s|s|s kp Hh Hr|s Hca Hr|s r Hstep Hcan|s m Hstep Hcan|s b Hp|s err Hp]; simpl.
  - split_and!; auto.
  - split_and!; auto.
  - unfold reload, SniServer.Reload. destruct kp; simpl; rewrite last_good_snoc; split_and!; auto.
  - split_and!; auto.
  - destruct (relay_step_frame _ _ Hstep) as (E1 & E2 & E3).
    destruct (srv_inv_step _ _ Hstep Hi) as [Hi' E]. rewrite E1, E.
    split_and!; auto; [|congruence..]. intros H. destruct (SniServer.shutdown (relay s)) eqn:Es; auto.
  - split_and!; auto. intros H. destruct (stop (sni_metrics s)) eqn:Es; auto; by apply Hms.
  - split_and!; auto; [|done]. intros _. by exists b.
  - split_and!; auto; [done|]. by intros err' [= <-].
Qed.

(** ** The authenticated proxies *)

Section Proxies.
Context {ZN : Zone} {UJ : UsageJSON}.

(** [socks] is [None] when the listener of the SOCKS5 proxy failed: the process goes on
    without it. *)
Record ProxyProcess := MkProxyProcess {
  http : HttpListener.Server;
  socks : option Socks5Listener.Server;
  px_metrics : MetricsServer;
  usage : World;
  px_cancelled : bool;
  px_main : main_pc
}.

Definition set_http (s : ProxyProcess) (h : HttpListener.Server) : ProxyProcess :=
  MkProxyProcess h s.(socks) s.(px_metrics) s.(usage) s.(px_cancelled) s.(px_main).
Definition set_socks (s : ProxyProcess) (k : Socks5Listener.Server) : ProxyProcess :=
  MkProxyProcess s.(http) (Some k) s.(px_metrics) s.(usage) s.(px_cancelled) s.(px_main).
Definition set_px_metrics (s : ProxyProcess) (m : MetricsServer) : ProxyProcess :=
  MkProxyProcess s.(http) s.(socks) m s.(usage) s.(px_cancelled) s.(px_main).
Definition set_usage (s : ProxyProcess) (w : World) : ProxyProcess :=
  MkProxyProcess s.(http) s.(socks) s.(px_metrics) w s.(px_cancelled) s.(px_main).
Definition set_px_cancelled (s : ProxyProcess) : ProxyProcess :=
  MkProxyProcess s.(http) s.(socks) s.(px_metrics) s.(usage) true s.(px_main).
Definition end_main (s : ProxyProcess) (w : World) (p : main_pc) : ProxyProcess :=
  MkProxyProcess s.(http) s.(socks) s.(px_metrics) w s.(px_cancelled) p.

(** Nothing calls the [Shutdown] of either proxy. When the loop of the SOCKS5 proxy ends
    with an error, its goroutine logs it and the process goes on. *)
Inductive px_move : ProxyProcess -> ProxyProcess -> Prop :=
| px_signal s : px_move s (set_px_cancelled s)
| px_moves_http s h : HttpListener.srv_step false (http s) h ->
    (HttpListener.watch (http s) = WaitCtx -> HttpListener.watch h <> WaitCtx -> px_cancelled s = true) ->
    px_move s (set_http s h)
| px_moves_socks s k k' : socks s = Some k -> Socks5Listener.step false k k' ->
    (Socks5Listener.watch k = Idle -> Socks5Listener.watch k' <> Idle -> px_cancelled s = true) ->
    px_move s (set_socks s k')
| px_serves_metrics s m : ms_step (px_metrics s) m ->
    (stop (px_metrics s) = NotCalled -> stop m <> NotCalled -> px_cancelled s = true) ->
    px_move s (set_px_metrics s m)
| px_usage s e : px_move s (set_usage s (exec (usage s) e).2)     (* a call on the tracker, or a save *)
| px_returns s w wr : HttpListener.start (http s) = HttpListener.Returned None ->
    finish None (usage s) wr = Done w -> px_move s (end_main s w MainReturned)
| px_fatal s err : HttpListener.start (http s) = HttpListener.Returned (Some err) ->
    px_move s (end_main s (usage s) (FatalExit err)).

Definition px_step (s s' : ProxyProcess) : Prop := px_main s = InStart /\ px_move s s'.

(** ** How it ends *)

(** [Stop] has run at the end of [main]: the file holds the counters of the tracker,
    if the write succeeded. *)
Definition was_stopped (w : World) : Prop :=
  exists w0 wr, stopped (tracker w0) = false /\ Stop w0 wr = Done w /\
    (wr = WriteOk -> forall data,
       json_marshal (MkUsageFile (month (tracker w)) (Some (Some <$> users (tracker w)))) = Ok data -> disk w = Ok data).

Lemma finish_was_stopped w0 wr w : stopped (tracker w0) = false -> finish None w0 wr = Done w -> was_stopped w.
Proof.
  intros Ho E. exists w0, wr. split_and!; [done..|]. intros ->. revert E. unfold finish, Stop. rewrite Ho.
  intros [= <-] data. unfold saveToDisk. rewrite saveToDiskLocked_tracker. unfold saveToDiskLocked. simpl.
  by intros ->.
Qed.

Definition px_inv (tls : bool) (s : ProxyProcess) : Prop :=
  HttpListener.srv_inv tls (http s) /\ HttpListener.call (http s) = HttpListener.NotCalled /\
  (HttpListener.watch (http s) <> WaitCtx -> px_cancelled s = true) /\
  (forall k, socks s = Some k -> Socks5Listener.srv_inv false k /\
     (Socks5Listener.watch k <> Idle -> px_cancelled s = true)) /\
  (stop (px_metrics s) <> NotCalled -> px_cancelled s = true) /\
  (px_main s <> MainReturned -> stopped (tracker (usage s)) = false) /\
  (px_main s = MainReturned -> HttpListener.start (http s) = HttpListener.Returned None /\ was_stopped (usage s)) /\
  (forall err, px_main s = FatalExit err -> HttpListener.start (http s) = HttpListener.Returned (Some err)).


End Proxies.

Section Guarantees.
Context {F : Type} {GF : GoFloat F} {UC : Unicode} {MO : MapOrder} {AE : AuthEnv} {ZN : Zone} {UJ : UsageJSON}.
Implicit Types m : Machine json_bytes.

Lemma main_relay m c p :
  main m c = SniRunning p ->
  let f := Config.file (Load (getenv m) (decode_config m)) in
  exists kp, key_pair m (CertFile f) (KeyFile f) = Ok kp /\ relay_inv (MaxConns f) kp (sni_boot p).
Proof.
  unfold main. destruct (proxy_mode _).
  { unfold runHTTPSProxyMode. destruct (NewUserStore _ _); [|done]. destruct (NewTracker _ _ _ _); [|done].
    by destruct (HttpListener.Start _ _ _ _ _ _ _). }
  set (f := Config.file (Load (getenv m) (decode_config m))). unfold runSNIProxyMode. fold f.
  destruct (Validate _ _) as [[]|]; [|done]. unfold SniServer.NewServer.
  destruct (Z.ltb_spec (MaxConns f) 0); [done|]. unfold SniServer.Start, SniServer.Reload.
  destruct (key_pair m _ _) as [kp|]; [|done]. destruct (listen m _); [|done]. intros [= <-].
  exists kp. split; [done|]. unfold relay_inv, SniServerFacts.srv_inv. simpl.
  split_and!; try done; try lia. by intros [?|[? ?]].
Qed.

(** C9: The whole life of the SNI relay, from its start through any signals, reloads and
    connections: it never serves more than [max_conns] connections; its certificate is
    the last one that could be loaded, so that a failed reload costs nothing; only a
    signal closes its listener or stops the metrics server; [main] returns only after
    one, behind the drain, and with no connection open where the drain was complete; the
    only other end is [log.Fatal] with the error that [Accept] gave. *)
Theorem relay_process_safe m (c : BootClock) (p : SniProgram) (s : SniProcess) :
  main m c = SniRunning p -> rtc sni_step (sni_boot p) s ->
  let f := Config.file (Load (getenv m) (decode_config m)) in
  0 <= running (relay s) <= MaxConns f /\
  (exists kp, key_pair m (CertFile f) (KeyFile f) = Ok kp /\ cert (relay s) = Some (last_good kp (reloads s))) /\
  (SniServer.shutdown (relay s) = true \/ stop (sni_metrics s) <> NotCalled -> cancelled s = true) /\
  (sni_main s = MainReturned -> cancelled s = true /\
     exists drained, SniServer.pc (relay s) = SniServer.Finished drained /\ (drained = true -> wg (relay s) = 0)) /\
  (forall err, sni_main s = FatalExit err -> SniServer.pc (relay s) = SniServer.Failed err).
Proof.
  intros Hm Hrun f. destruct (main_relay m c p Hm) as (kp & Hkp & Hi). fold f in Hkp, Hi.
  assert (relay_inv (MaxConns f) kp s) as (Hi' & Hc & Hcert & Hsd & Hpc & Hms & Hret & Hfat).
  { induction Hrun as [|s1 s2 s3 Hs _ IH]; [done|]. apply IH. by eapply relay_inv_step. }
  destruct Hi' as (Hcap & Hsem & Hrel & Hwg & _ & Hfin). rewrite Hc in Hcap. split_and!; [lia|lia| | | |done].
  - by exists kp.
  - tauto.
  - intros E. destruct (Hret E) as [b Hb]. split; [apply Hsd, Hpc; right; by exists b|].
    exists b. split; [done|]. intros ->. specialize (Hfin Hb). lia.
Qed.

(** *** The proxies *)

Definition px_boot (p : ProxyProgram (F := F)) : ProxyProcess :=
  MkProxyProcess (px_http p) (match px_socks5 p with Ok k => Some k | Err _ => None end)
    MetricsServer.Start (px_tracker p) false InStart.

Lemma NewTracker_running path d t1 t2 w : NewTracker path d t1 t2 = Done w -> stopped (tracker w) = false.
Proof.
  unfold NewTracker, loadFromDisk. simpl disk. destruct d as [data|]; [|by intros [= <-]].
  destruct (json_unmarshal data) as [f|]; [|by intros [= <-]].
  destruct (Users f) as [us|]; [|by intros [= <-]]. destruct (String.eqb _ _); [|by intros [= <-]].
  destruct (clear_conns us); [|done]. by intros [= <-].
Qed.

Lemma main_started m c p : main m c = ProxiesRunning p -> exists tls, px_http p = HttpListener.started tls.
Proof.
  unfold main. destruct (proxy_mode _).
  2: { unfold runSNIProxyMode. destruct (Validate _ _); [|done]. destruct (SniServer.NewServer _); [|done].
       by destruct (SniServer.Start _ _ _) as [[] ?]. }
  unfold runHTTPSProxyMode. destruct (NewUserStore _ _); [|done]. destruct (NewTracker _ _ _ _) as [w|]; [|done].
  destruct (HttpListener.Start _ _ _ _ _ _ _) as [h|] eqn:Eh; [|done]. intros [= <-].
  apply http_Start_started in Eh as ->. by eexists.
Qed.

Lemma main_proxies m c p :
  main m c = ProxiesRunning p -> exists tls, px_inv tls (px_boot p).
Proof.
  unfold main. destruct (proxy_mode _).
  2: { unfold runSNIProxyMode. destruct (Validate _ _); [|done]. destruct (SniServer.NewServer _); [|done].
       by destruct (SniServer.Start _ _ _) as [[] ?]. }
  unfold runHTTPSProxyMode. destruct (NewUserStore _ _); [|done].
  destruct (NewTracker _ _ _ _) as [w|] eqn:Et; [|done]. apply NewTracker_running in Et.
  destruct (HttpListener.Start _ _ _ _ _ _ _) as [h|] eqn:Eh; [|done]. intros [= <-].
  apply http_Start_started in Eh as ->. eexists. unfold px_inv. simpl. split_and!; try done.
  - by apply (HttpListener.http_reachable_inv false), rtc_refl.
  - intros k Hk. destruct (Socks5Listener.Start _ _ _) as [k'|] eqn:Ek; [|done].
    injection Hk as <-. apply socks5_Start_started in Ek as ->.
    split; [|done]. by apply Socks5Listener.socks5_reachable_inv, rtc_refl.
Qed.

(** *** Runs of one server within the process *)

Lemma http_mono h h' :
  HttpListener.srv_step false h h' -> HttpListener.watch h' = WaitCtx -> HttpListener.watch h = WaitCtx.
Proof.
  intros Hs. destruct Hs; try (unfold after_plain, call_after_plain; destruct (with_tls s)); done.
Qed.

Lemma socks_mono k k' :
  Socks5Listener.step false k k' -> Socks5Listener.watch k' = Idle -> Socks5Listener.watch k = Idle.
Proof. intros [_ Hs]. by destruct Hs. Qed.

Lemma http_runs s h' :
  rtc (HttpListener.srv_step false) (http s) h' -> px_main s = InStart ->
  px_cancelled s = true \/ HttpListener.watch h' = WaitCtx -> rtc px_step s (set_http s h').
Proof.
  intros Hrun Hm. revert h' Hrun.
  refine (rtc_ind_r (fun h' => _ -> rtc px_step s (set_http s h')) (http s) _ _); [by destruct s|].
  intros h1 h' Hrun Hstep IH Hw.
  pose proof (http_mono _ _ Hstep) as Hw1. eapply rtc_r; [apply IH; tauto|].
  change (set_http s h') with (set_http (set_http s h1) h').
  split; [done|]. apply px_moves_http; [done|]. intros _ Hne. simpl. by destruct Hw.
Qed.

Lemma socks_runs s k k' :
  rtc (Socks5Listener.step false) k k' -> socks s = Some k -> px_main s = InStart ->
  px_cancelled s = true \/ Socks5Listener.watch k' = Idle -> rtc px_step s (set_socks s k').
Proof.
  intros Hrun Hk Hm. revert k' Hrun.
  refine (rtc_ind_r (fun k' => _ -> rtc px_step s (set_socks s k')) k _ _).
  { replace (set_socks s k) with s; [done|]. destruct s. simpl in *. by subst. }
  intros k1 k' Hrun Hstep IH Hw.
  pose proof (socks_mono _ _ Hstep) as Hw1. eapply rtc_r; [apply IH; tauto|].
  change (set_socks s k') with (set_socks (set_socks s k1) k').
  split; [done|]. eapply px_moves_socks; [done..|]. intros _ Hne. simpl. by destruct Hw.
Qed.

(** Serving [n] requests, [t] tunnels and [k] sessions; then signalled, with all of them
    still open, and [main] returned. *)
Definition serving (tls : bool) (n t k : Z) (s : ProxyProcess) : ProxyProcess :=
  set_socks (set_http s (busy tls (if tls then 0 else n) (if tls then n else 0) t)) (Socks5Listener.accepting k).
Definition exited (tls : bool) (n t k : Z) (w : World) (s : ProxyProcess) : ProxyProcess :=
  end_main (set_socks (set_http (set_px_cancelled (serving tls n t k s))
    (HttpListener.abandoned tls (if tls then 0 else n) (if tls then n else 0) t)) (Socks5Listener.abandoned k))
    w MainReturned.

Lemma exit_run tls (n t k : nat) w s :
  http s = HttpListener.started tls -> socks s = Some Socks5Listener.started -> px_main s = InStart ->
  Stop (usage s) WriteOk = Done w -> rtc px_step s (exited tls (Z.of_nat n) (Z.of_nat t) (Z.of_nat k) w s).
Proof.
  intros Hh Hk Hm Hw.
  set (s1 := set_http s (busy tls (if tls then 0 else Z.of_nat n) (if tls then Z.of_nat n else 0) (Z.of_nat t))).
  set (s2 := set_socks s1 (Socks5Listener.accepting (Z.of_nat k))).
  set (s3 := set_http (set_px_cancelled s2) (HttpListener.abandoned tls (if tls then 0 else Z.of_nat n) (if tls then Z.of_nat n else 0) (Z.of_nat t))).
  set (s4 := set_socks s3 (Socks5Listener.abandoned (Z.of_nat k))).
  transitivity s1.
  { apply http_runs; try done; [|by right]. rewrite Hh. apply busy_requests. }
  transitivity s2.
  { apply (socks_runs s1 Socks5Listener.started); [apply Socks5Listener.accepts_reachable|done|done|by right]. }
  transitivity (set_px_cancelled s2); [by apply rtc_once; split; [|apply px_signal]|].
  transitivity s3; [apply http_runs; try done; [apply busy_abandoned|by left]|].
  transitivity s4; [apply (socks_runs s3 (Socks5Listener.accepting (Z.of_nat k)));
    [apply Socks5Listener.accepting_abandoned|done|done|by left]|].
  apply rtc_once. split; [done|]. by apply (px_returns s4 w WriteOk).
Qed.

(** C35: An orderly end abandons its clients: from any start with both listeners, the
    process can receive a signal and return from [main], without any timeout, while any
    number of HTTP requests, tunnels and SOCKS5 sessions are under way; nothing moves any
    more, so their traffic, counted at the end of a session, is in no file. *)
Theorem proxies_exit_abandons m (c : BootClock) (p : ProxyProgram (F := F)) (n t k : nat) :
  main m c = ProxiesRunning p -> px_socks5 p = Ok Socks5Listener.started ->
  exists s, rtc px_step (px_boot p) s /\ px_main s = MainReturned /\ was_stopped (usage s) /\
    timed_out (http s) = false /\ plain_reqs (http s) + tls_reqs (http s) = Z.of_nat n /\
    tunnels (http s) = Z.of_nat t /\
    (exists ks, socks s = Some ks /\ Socks5Listener.wg ks = Z.of_nat k) /\ nf px_step s.
Proof.
  intros Hm Hk. destruct (main_started m c p Hm) as [tls Hh].
  destruct (main_proxies m c p Hm) as (tls' & _ & _ & _ & _ & _ & Hst & _).
  assert (stopped (tracker (px_tracker p)) = false) as Ho by (by apply Hst). clear Hst.
  destruct (Stop (px_tracker p) WriteOk) as [w|] eqn:Ew.
  2: { unfold Stop in Ew. by rewrite Ho in Ew. }
  exists (exited tls (Z.of_nat n) (Z.of_nat t) (Z.of_nat k) w (px_boot p)). split.
  - apply exit_run; [done| |done|done]. simpl. by rewrite Hk.
  - split_and!; try done.
    + by apply (finish_was_stopped (px_tracker p) WriteOk).
    + simpl. destruct tls; simpl; lia.
    + by eexists.
    + by intros [s' [Hmain _]].
Qed.

End Guarantees.

(** ** Concrete processes *)

#[local] Existing Instance demo_env.

(** A machine with one host, one user, and no usage file yet. *)
Definition demo_machine (mode : string) : Machine (@json_bytes plain_json) :=
  MkMachine _ (fun k => if String.eqb k "PROXY_MODE" then mode else "") (Some (fun _ => demo_cfg)) (fun _ => false)
    (fun _ => Ok "users") (fun _ => Err "no such file") (fun _ _ => Ok "certificate") (fun _ => Ok tt).
Definition demo_clocks : BootClock := MkBootClock 0 (fun _ => 0) 0 0.

Definition demo_relay : SniProgram :=
  match main (F := Q) (demo_machine "sni") demo_clocks with
  | SniRunning p => p
  | _ => MkSniProgram demo_server (new_stats 0) ∅ []
  end.

Lemma demo_relay_starts : main (F := Q) (demo_machine "sni") demo_clocks = SniRunning demo_relay.
Proof. vm_compute. reflexivity. Qed.

(** A signal to reload meets a broken certificate. *)
Definition demo_reloaded : SniProcess := reload (set_sighup (sni_boot demo_relay) true) (Err "no PEM data").

Lemma demo_reloaded_run : rtc sni_step (sni_boot demo_relay) demo_reloaded.
Proof.
  eapply rtc_l; [split; [done|apply sni_hup]|].
  eapply rtc_l; [split; [done|by apply (sni_reload _ (Err "no PEM data"))]|]. apply rtc_refl.
Qed.

Lemma relay_process_safe_witness :
  let f := Config.file (Load (getenv (demo_machine "sni")) (decode_config (demo_machine "sni"))) in
  0 <= running (relay demo_reloaded) <= MaxConns f /\
  (exists kp, key_pair (demo_machine "sni") (CertFile f) (KeyFile f) = Ok kp /\
     cert (relay demo_reloaded) = Some (last_good kp (reloads demo_reloaded))) /\
  (SniServer.shutdown (relay demo_reloaded) = true \/ stop (sni_metrics demo_reloaded) <> NotCalled ->
     cancelled demo_reloaded = true) /\
  (sni_main demo_reloaded = MainReturned -> cancelled demo_reloaded = true /\
     exists drained, SniServer.pc (relay demo_reloaded) = SniServer.Finished drained /\
       (drained = true -> wg (relay demo_reloaded) = 0)) /\
  (forall err, sni_main demo_reloaded = FatalExit err -> SniServer.pc (relay demo_reloaded) = SniServer.Failed err).
Proof.
  exact (relay_process_safe (F := Q) (demo_machine "sni") demo_clocks demo_relay demo_reloaded
           demo_relay_starts demo_reloaded_run).
Defined.

Definition demo_proxies : ProxyProgram (F := Q) :=
  match main (F := Q) (demo_machine "https") demo_clocks with
  | ProxiesRunning p => p
  | _ => MkProxyProgram demo_store fresh_world (HttpProxy.NewServer (EnvOf (Load (fun _ => "") None)))
           (Err "") (HttpListener.started false) (new_stats 0) ∅ []
  end.

Lemma demo_proxies_start : main (F := Q) (demo_machine "https") demo_clocks = ProxiesRunning demo_proxies.
Proof. vm_compute. reflexivity. Qed.




Lemma proxies_exit_abandons_witness :
  exists s, rtc px_step (px_boot demo_proxies) s /\ px_main s = MainReturned /\ was_stopped (usage s) /\
    timed_out (http s) = false /\ plain_reqs (http s) + tls_reqs (http s) = Z.of_nat 2 /\
    tunnels (http s) = Z.of_nat 3 /\
    (exists ks, socks s = Some ks /\ Socks5Listener.wg ks = Z.of_nat 5) /\ nf px_step s.
Proof.
  apply (proxies_exit_abandons (F := Q) (demo_machine "https") demo_clocks demo_proxies 2 3 5 demo_proxies_start).
  vm_compute. reflexivity.
Defined.
