(* ===== verification/Access.v ===== *)
(** * Who gets through

    The statement about the whole program in proxy mode: from users.json, which [main]
    loads, to the targets that the two proxies dial. The store may have been called in
    any way since the start, by sessions of either proxy in any interleaving. *)
From S2P Require Import Pac.
From S2P Require Import HttpProxy HttpProxyFacts.
From S2P Require Import Socks5 Socks5Facts.
From S2P Require Import Main Process.
From S2P Require Import Prelude GoStrings GoFloat GoNet GoTime GoHttp Sha256 RateLimiter Tracker Config.
From S2P Require Import TrackerFacts UserStore UserStoreFacts Accounts.
Open Scope Z_scope.

Section Calls.
Context {F : Type} {GF : GoFloat F} {UC : Unicode} {AE : AuthEnv} {ZN : Zone} {UJ : UsageJSON}.

(** ** The life of the store *)

(** The calls of a running proxy that change the store. *)
Inductive store_call : UserStore F -> UserStore F -> Prop :=
| calls_validate s (u p : string) (t1 t2 : Z) : store_call s (ValidateCredentials s u p t1 t2).2
| calls_rate s (u : string) (t : Z) : store_call s (CheckRateLimit s u t).2.

(** What no call changes; the cache grows, but soundly. *)
Definition same_tables (s0 s : UserStore F) : Prop :=
  users s = users s0 /\ ipWhitelist s = ipWhitelist s0 /\ superAdminIPs s = superAdminIPs s0 /\
  superAdminUser s = superAdminUser s0 /\ cache_sound s.

Lemma same_tables_call s0 s s' : store_call s s' -> same_tables s0 s -> same_tables s0 s'.
Proof.
  intros Hc (Hu & Hw & Ha & Hs & Hk). destruct Hc as [s u p t1 t2|s u t].
  - pose proof (ValidateCredentials_cache s u p t1 t2 Hk) as Hk'. revert Hk'. unfold ValidateCredentials.
    by repeat case_match; simpl; intros; split_and!.
  - unfold CheckRateLimit. repeat case_match; simpl; by split_and!.
Qed.

Lemma same_tables_calls s0 s : cache_sound s0 -> rtc store_call s0 s -> same_tables s0 s.
Proof.
  intros Hk. revert s. refine (rtc_ind_r (fun s => same_tables s0 s) s0 _ _); [by split_and!|].
  intros s s' _ Hc. by apply same_tables_call.
Qed.

(** ** Handlers as sequences of calls *)

Section Handlers.
Context {S : Type} {HA : HasAccounts F S}.

(** Whatever the handler does to the store, it does by calls. *)
Definition advances {A} (m : GoM S A) : Prop := forall s,
  rtc store_call (store (accounts s)) (store (accounts (m s).2)).

Definition store_of (s : S) : UserStore F := store (accounts s).

Lemma advances_keeps {A} (m : GoM S A) : keeps store_of m -> advances m.
Proof. intros H s. pose proof (H s) as E. unfold store_of in E. by rewrite E. Qed.

Lemma advances_bind {A B} (m : GoM S A) (f : A -> GoM S B) :
  advances m -> (forall a, advances (f a)) -> advances (m ≫= f).
Proof.
  intros Hm Hf s. unfold mbind, GoM_bind. specialize (Hm s). destruct (m s) as [[a|e] s1]; [|exact Hm].
  etransitivity; [exact Hm|]. apply Hf.
Qed.

Lemma advances_with_defer {A} (d : GoM S unit) (m : GoM S A) :
  advances d -> advances m -> advances (with_defer d m).
Proof.
  intros Hd Hm s. unfold with_defer. specialize (Hm s). destruct (m s) as [r s1].
  etransitivity; [exact Hm|]. apply Hd.
Qed.

Lemma advances_call {A} (f : Accounts F -> A * Accounts F) :
  (forall a, rtc store_call (store a) (store (f a).2)) -> advances (call f).
Proof.
  intros H s. unfold call. specialize (H (accounts s)). destruct (f (accounts s)) as [x a].
  cbn [snd] in *. by rewrite accounts_put.
Qed.

Lemma advances_on_accounts (f : Accounts F -> Accounts F) :
  (forall a, store (f a) = store a) -> advances (on_accounts f).
Proof. intros H s. unfold on_accounts, modify. cbn [snd]. by rewrite accounts_put, H. Qed.

Lemma advances_count f : advances (count f).
Proof. by apply advances_on_accounts. Qed.

Lemma validate_calls u p c a : rtc store_call (store a) (store (validate u p c a).2).
Proof.
  unfold validate. pose proof (calls_validate (store a) u p (s_check c) (s_store c)) as H.
  destruct (ValidateCredentials _ _ _ _ _). by apply rtc_once.
Qed.
Lemma check_rate_calls u c a : rtc store_call (store a) (store (check_rate u c a).2).
Proof.
  unfold check_rate. pose proof (calls_rate (store a) u (s_rate c)) as H.
  destruct (CheckRateLimit _ _ _). by apply rtc_once.
Qed.
Lemma check_allowance_calls u l c a : rtc store_call (store a) (store (check_allowance u l c a).2).
Proof. unfold check_allowance. case_match; [|done]. by destruct (CheckAllowance _ _ _ _ _). Qed.
Lemma check_conn_limit_calls u l c a : rtc store_call (store a) (store (check_conn_limit u l c a).2).
Proof. unfold check_conn_limit. case_match; [|done]. by destruct (CheckConnLimit _ _ _ _). Qed.
End Handlers.
End Calls.

Create HintDb advances discriminated.
#[export] Hint Resolve advances_call advances_count validate_calls check_rate_calls check_allowance_calls
  check_conn_limit_calls : advances.
#[export] Hint Extern 1 (advances (on_accounts _)) => apply advances_on_accounts; done : advances.

(** Decompose a handler down to its calls. *)
Ltac advance := repeat (lazymatch goal with
  | |- advances (with_defer _ _) => apply advances_with_defer
  | |- advances (_ ≫= _) => apply advances_bind; [|intros ?]
  | |- advances (match _ with _ => _ end) => case_match
  | |- _ => first [solve [eauto with advances nocore] | apply advances_keeps; by intros ?]
  end).

Section Proxies.
Context {F : Type} {GF : GoFloat F} {UC : Unicode} {MO : MapOrder} {AE : AuthEnv} {ZN : Zone} {UJ : UsageJSON}
  {W : Type} {RW : ResponseWriter W}.

Lemma handleConnection_advances (net : Net5) c : advances (F := F) (handleConnection net c).
Proof.
  assert (forall n, advances (F := F) (ReadFull n)) as Hread.
  { intros n. apply advances_keeps. intros s. unfold ReadFull. by case_decide. }
  unfold handleConnection, handleMethodNegotiation, authenticateUser, Socks5.admission, serve.
  unfold Socks5.handleRequest, read_address, sendReply, send. advance.
Qed.

Lemma pac_calls (h : Pac.Handler) s (w : W) r now t1 t2 :
  rtc store_call s (Pac.ServeHTTP h s w r now t1 t2).2.
Proof.
  unfold Pac.ServeHTTP. destruct (if 0 <? _ then _ else _) as [ok h1]. repeat (case_match; [done|]).
  destruct (String.eqb (req_query r "pass") ""); [done|].
  match goal with |- context [ValidateCredentials s ?u ?p t1 t2] =>
    pose proof (calls_validate s u p t1 t2) as Hv; destruct (ValidateCredentials s u p t1 t2) as [[x|] s'] end;
    by apply rtc_once.
Qed.

Lemma serve_pac_advances net c h r : advances (F := F) (serve_pac (W := W) net c h r).
Proof.
  intros s. unfold serve_pac, modify. cbn [snd].
  pose proof (pac_calls h (store (accounts s)) (writer s) r (t_pac net) (s_check c) (s_store c)) as H.
  by destruct (Pac.ServeHTTP _ _ _ _ _ _ _) as [[w h'] st].
Qed.

Lemma handleRequest_advances (net : HNet) c r : advances (F := F) (HttpProxy.handleRequest (W := W) net c r).
Proof.
  unfold HttpProxy.handleRequest, proxy_request, authenticate, ask_for_credentials, HttpProxy.admission.
  unfold handleConnect, handleHTTP, refuse, respond.
  apply advances_bind; [advance|intros h].
  destruct h as [h|]; [destruct (is_pac r); [apply serve_pac_advances|]|]; advance.
Qed.
End Proxies.

(** ** From users.json to the targets *)

Section Whole.
Context {F : Type} {GF : GoFloat F} {UC : Unicode} {MO : MapOrder} {AE : AuthEnv} {ZN : Zone} {UJ : UsageJSON}
  {W : Type} {RW : ResponseWriter W}.

(** The address is in one of the networks that the entries name. *)
Definition listed (entries : list string) (addr : string) : Prop :=
  exists ip entry n, parseIP addr = Some ip /\ In entry entries /\ parseCIDR entry = Ok n /\
    Contains_ip n ip = true.

(** What users.json must say of a client before it may reach a target: its address is
    allowed, its name (in any case) is that of an enabled entry, its password has the
    SHA-256 of one that bcrypt accepts for this entry, and it is a super admin at a
    registered address or within the limits of the entry, when these are checked. *)
Definition entitled (cfg : UsersConfig) (ck : SessionClock json_bytes) (acc : Accounts F)
    (addr name password : string) : Prop :=
  (IPWhitelist cfg = [] \/ listed (IPWhitelist cfg) addr) /\
  exists user, selected (Users cfg) (ToLower name) = Some user /\
    (exists p, Sum256 (bytes_of_string p) = Sum256 (bytes_of_string password) /\
       bcrypt_ok (PasswordHash user) p = true) /\
    (Role user = "super_admin" /\ listed (SuperAdminIPs cfg) addr \/
     exists a, bandwidth a = bandwidth acc /\ rtc store_call (store acc) (store a) /\
       within_limits ck name (Some user) a).

(** The store holds what the file says. *)
Definition reads (cfg : UsersConfig) (s : UserStore F) : Prop :=
  (forall name, GetUser s name = selected (Users cfg) (ToLower name)) /\
  Forall2 (fun e n => parseCIDR e = Ok n) (IPWhitelist cfg) (ipWhitelist s) /\
  Forall2 (fun e n => parseCIDR e = Ok n) (SuperAdminIPs cfg) (superAdminIPs s) /\ cache_sound s.

Lemma reads_same cfg s0 s : same_tables s0 s -> reads cfg s0 -> reads cfg s.
Proof.
  intros (Hu & Hw & Ha & _ & Hk) (H1 & H2 & H3 & _). unfold reads, GetUser. rewrite Hu, Hw, Ha. by split_and!.
Qed.

Lemma reads_call cfg s s' : store_call s s' -> reads cfg s -> reads cfg s'.
Proof.
  intros Hc Hr. apply (reads_same cfg s); [|done]. apply (same_tables_call s s s' Hc).
  by split_and!; try apply Hr.
Qed.

Lemma listed_in entries nets addr ip :
  Forall2 (fun e n => parseCIDR e = Ok n) entries nets -> parseIP addr = Some ip ->
  existsb (fun n => Contains_ip n ip) nets = true -> listed entries addr.
Proof.
  intros H2 Hip (n & Hn & Hc)%existsb_exists. apply list_elem_of_In in Hn.
  apply list_elem_of_lookup in Hn as [i Hi]. destruct (Forall2_lookup_r _ _ _ _ _ H2 Hi) as (e & He & Hp).
  exists ip, e, n. split_and!; try done. by apply list_elem_of_In, (list_elem_of_lookup_2 _ i).
Qed.

Lemma allowed_listed cfg s addr :
  reads cfg s -> CheckIPAllowed s addr = true -> IPWhitelist cfg = [] \/ listed (IPWhitelist cfg) addr.
Proof.
  intros (_ & Hw & _). unfold CheckIPAllowed. case_decide as Hn.
  - rewrite Hn in Hw. left. by apply Forall2_nil_inv_r in Hw.
  - destruct (parseIP addr) as [ip|] eqn:Eip; [|done]. right. by eapply listed_in.
Qed.

Lemma super_listed cfg s addr :
  reads cfg s -> IsSuperAdminIP s addr <> None -> listed (SuperAdminIPs cfg) addr.
Proof.
  intros (_ & _ & Ha & _). unfold IsSuperAdminIP. case_decide; [done|].
  destruct (parseIP addr) as [ip|] eqn:Eip; [|done]. destruct (existsb _ _) eqn:Ee; [|done].
  intros _. by eapply listed_in.
Qed.

(** A login at a store that reads the file, and the check that follows. *)
Lemma login_entitled cfg ck (acc a : Accounts F) addr name password user :
  reads cfg (store acc) -> CheckIPAllowed (store acc) addr = true ->
  ValidateCredentials (store acc) name password (s_check ck) (s_store ck) = (Some user, store a) ->
  bandwidth a = bandwidth acc ->
  (is_super addr a (Some user) \/ within_limits ck name (Some user) a) ->
  entitled cfg ck acc addr name password.
Proof.
  intros Hr Hip Hv Hb Hl. split; [by eapply allowed_listed|]. exists user.
  pose proof (calls_validate (store acc) name password (s_check ck) (s_store ck)) as Hc. rewrite Hv in Hc.
  pose proof (login_sound (store acc) name password (s_check ck) (s_store ck) user
    ltac:(apply Hr) ltac:(by rewrite Hv)) as [Hu Hp]. split_and!.
  - rewrite <- Hu. symmetry. apply Hr.
  - exact Hp.
  - destruct Hl as [(x & [= <-] & Hrole & Hs)|Hl]; [left|right].
    + split; [done|]. eapply super_listed, Hs. by eapply reads_call.
    + exists a. split_and!; try done. by apply rtc_once.
Qed.

Lemma main_store m c p :
  main m c = ProxiesRunning p ->
  NewUserStore (m.(read_users) (UsersFile (EnvOf (Load (getenv m) (decode_config m))))) (t_users c) = Ok (px_store p).
Proof.
  unfold main. destruct (proxy_mode _).
  2: { unfold runSNIProxyMode. destruct (Validate _ _); [|done]. destruct (SniServer.NewServer _); [|done].
       by destruct (SniServer.Start _ _ _) as [[] ?]. }
  unfold runHTTPSProxyMode. destruct (NewUserStore _ _); [|done]. destruct (NewTracker _ _ _ _) as [w|]; [|done].
  destruct (HttpListener.Start _ _ _ _ _ _ _); [|done]. by intros [= <-].
Qed.

(** C5: the accounts of users.json are the only way through. Whatever the sessions of
    both proxies have done to the store since the start, a request or a session reaches a
    target only with credentials, read from its own header or stream, that entitle it by
    the file that [main] loaded; and what it does to the store in turn are such calls. *)
Theorem access_needs_account m (c : BootClock) (p : ProxyProgram (F := F)) :
  main m c = ProxiesRunning p ->
  exists text cfg, read_users m (UsersFile (EnvOf (Load (getenv m) (decode_config m)))) = Ok text /\
    json_users text = Ok cfg /\
  forall st, rtc store_call (px_store p) st ->
    (forall net ck r (s : HttpProxy.Session F W), store (accounts s) = st ->
       let s' := (HttpProxy.handleRequest net ck r s).2 in
       rtc store_call st (store (accounts s')) /\
       (reached s' <> reached s -> exists name password, parseProxyAuth r = Some (name, password) /\
          entitled cfg ck (accounts s) (RemoteAddr r) name password)) /\
    (forall net ck (s : Socks5.Session F), store (accounts s) = st ->
       let s' := (handleConnection net ck s).2 in
       rtc store_call st (store (accounts s')) /\
       (Socks5.dialled s = None -> Socks5.dialled s' <> None -> exists methods u pw rest,
          inp s = encode_auth methods u pw ++ rest /\ auth_ok methods u pw /\
          entitled cfg ck (accounts s) (remote net) (string_of_bytes u) (string_of_bytes pw))).
Proof.
  intros Hm%main_store.
  destruct (NewUserStore_contents _ _ _ Hm) as (text & cfg & Ht & Hj & Hu & Hw & Ha & _ & _).
  pose proof (NewUserStore_cache _ _ _ Hm) as Hk.
  exists text, cfg. split_and!; [done..|]. intros st Hst.
  assert (reads cfg st) as Hr by (by eapply reads_same; [apply same_tables_calls|]).
  split; intros net ck.
  - intros r s <- s'. split; [apply handleRequest_advances|]. intros Hne. subst s'.
    destruct (HttpProxy.handleRequest net ck r s) as [res s'] eqn:E. cbn [snd] in Hne.
    apply handleRequest_inv in E as [|(u & user & s1 & s2 & a2 & s6 & a6 & Hip & Hau & Hb & _)]; [done|].
    apply authenticate_Ok in Hau as (pw & Hp & Hv & Hbw). exists u, pw. split; [done|].
    apply http_admission_Ok in Hb. by eapply login_entitled.
  - intros s <- s'. split; [apply handleConnection_advances|]. intros Hd Hne. subst s'.
    destruct (handleConnection net ck s) as [res s'] eqn:E. cbn [snd] in Hne.
    destruct (Socks5.dialled s') as [t|] eqn:Et; [|done].
    destruct (handleConnection_admitted net ck s s' res t Hd E Et)
      as (Hip & ms & u & pw & rest & user & a & Hinp & Hok & Hv & Hb & Hl).
    exists ms, u, pw, rest. split_and!; [done..|]. cbn zeta in Hl.
    pose proof (calls_validate (store (accounts s)) (string_of_bytes u) (string_of_bytes pw) (s_check ck) (s_store ck)) as Hc.
    rewrite Hv in Hc. pose proof (login_sound _ _ _ _ _ user ltac:(apply Hr) (f_equal fst Hv)) as [Hus _].
    assert (GetUser (store a) (string_of_bytes u) = Some user) as Eu.
    { rewrite (proj1 (reads_call _ _ _ Hc Hr)), <- (proj1 Hr). exact Hus. }
    rewrite Eu in Hl. by eapply login_entitled.
Qed.
End Whole.

#[local] Existing Instance demo_env.

(** Bob's tunnel through a proxy that has served requests before. *)
Definition served_store : UserStore Q := (ValidateCredentials (px_store demo_proxies) "Bob" "secret" 0 0).2.
Definition served_session : HttpProxy.Session Q Response :=
  HttpProxy.MkSession (MkAccounts served_store (Some fresh_world) no_metrics) None no_response "" None None
    false false None.

Lemma access_needs_account_witness :
  exists text cfg, json_users text = Ok cfg /\
  exists name password, parseProxyAuth connect_request = Some (name, password) /\
    entitled cfg demo_clock (accounts served_session) (RemoteAddr connect_request) name password.
Proof.
  destruct (access_needs_account (F := Q) (W := Response) (demo_machine "https") demo_clocks demo_proxies
              demo_proxies_start) as (text & cfg & _ & Hj & H).
  exists text, cfg. split; [exact Hj|].
  destruct (H served_store) as [Hh _]; [apply rtc_once, calls_validate|].
  destruct (Hh demo_net demo_clock connect_request served_session eq_refl) as [_ Hr].
  apply Hr. vm_compute. discriminate.
Defined.
