(* ===== verification/Ansi.v ===== *)
(** * Text on the terminal ([internal/ui/ansi.go])

    Escape sequences are removed as the two regular expressions of the file match
    them, and what is left is counted in runes ([unicode/utf8]). *)
From S2P Require Import Prelude GoStrings.
Open Scope Z_scope.

(** ** UTF-8 *)

(** Whether the string goes on with bytes in the given ranges. *)
Fixpoint conts (ranges : list (Z * Z)) (s : string) : bool :=
  match ranges, s with
  | [], _ => true
  | (lo, hi) :: ranges, String c s => (lo <=? code c) && (code c <=? hi) && conts ranges s
  | _, EmptyString => false
  end.

Definition cont : Z * Z := (128, 191).

(** What must follow a first byte, if it can start a rune at all. *)
Definition rune_tail (b : Z) : option (list (Z * Z)) :=
  if b <? 128 then Some []
  else if (194 <=? b) && (b <=? 223) then Some [cont]
  else if (224 <=? b) && (b <=? 239)
  then Some [(if b =? 224 then 160 else 128, if b =? 237 then 159 else 191); cont]
  else if (240 <=? b) && (b <=? 244)
  then Some [(if b =? 240 then 144 else 128, if b =? 244 then 143 else 191); cont; cont]
  else None.

(** How many bytes after the first belong to the first rune: none if the bytes are
    not UTF-8, for then a byte is a rune by itself. *)
Definition rune_more (c : Ascii.ascii) (s : string) : nat :=
  match rune_tail (code c) with
  | Some ranges => if conts ranges s then length ranges else 0
  | None => 0
  end.

Fixpoint rune_count (skip : nat) (s : string) : Z :=
  match s, skip with
  | EmptyString, _ => 0
  | String _ s, S skip => rune_count skip s
  | String c s, O => 1 + rune_count (rune_more c s) s
  end.

(** [utf8.RuneCountInString] *)
Definition RuneCountInString (s : string) : Z := rune_count 0 s.

(** The bytes of the first [n] runes, [string(runes[:n])]: a byte that is not
    UTF-8 has become U+FFFD. *)
Definition rune_error : string := String (chr 239) (String (chr 191) (String (chr 189) "")).
Fixpoint first_runes (n : nat) (skip : nat) (s : string) : string :=
  match s, skip with
  | EmptyString, _ => ""
  | String c s, S skip => String c (first_runes n skip s)
  | String c s, O =>
      match n with
      | O => ""
      | S n =>
          match rune_more c s with
          | O => if code c <? 128 then String c (first_runes n 0 s) else rune_error +:+ first_runes n 0 s
          | k => String c (first_runes n k s)
          end
      end
  end.

(** ** Escape sequences *)

Definition ESC : Ascii.ascii := chr 27.

(** What follows a prefix. *)
Fixpoint after (prefix s : string) : option string :=
  match prefix, s with
  | EmptyString, _ => Some s
  | String c p, String d s => if decide (c = d) then after p s else None
  | _, EmptyString => None
  end.

(** The rest of a match of [\[[0-9;]*m] after the bracket: its length. *)
Fixpoint sgr_params (s : string) : option nat :=
  match s with
  | EmptyString => None
  | String c s =>
      if decide (c = "m"%char) then Some 1%nat
      else if is_digit c || bool_decide (c = ";"%char) then S <$> sgr_params s else None
  end.
Definition sgr_match (s : string) : option nat :=
  s ← after "[" s; S <$> sgr_params s.

(** The rest of a match of [\]8;;[^\x1b]*\x1b\\]: the second alternative of
    [osc8Pattern] is the empty case of the first. *)
Fixpoint osc8_url (s : string) : option nat :=
  match s with
  | EmptyString => None
  | String c s =>
      if decide (c = ESC) then match s with String "\" _ => Some 2%nat | _ => None end
      else S <$> osc8_url s
  end.
Definition osc8_match (s : string) : option nat :=
  s ← after "]8;;" s; (fun n => 4 + n)%nat <$> osc8_url s.

(** [ReplaceAllString(s, "")] of a pattern that starts with the escape character;
    [rest] gives the length of a match after it. *)
Fixpoint remove_all (rest : string -> option nat) (skip : nat) (s : string) : string :=
  match s, skip with
  | EmptyString, _ => ""
  | String _ s, S skip => remove_all rest skip s
  | String c s, O =>
      match (if decide (c = ESC) then rest s else None) with
      | Some n => remove_all rest n s
      | None => String c (remove_all rest 0 s)
      end
  end.

Definition StripAnsi (input : string) : string :=
  let result := remove_all osc8_match 0 input in
  remove_all sgr_match 0 result.

Definition VisibleWidth (input : string) : Z := RuneCountInString (StripAnsi input).

(** ** The operations *)

Fixpoint repeat_string (s : string) (n : nat) : string :=
  match n with O => "" | S n => s +:+ repeat_string s n end.

Definition spaces (n : Z) : string := repeat_string " " (Z.to_nat n).

(** A negative bound of a slice panics. *)
Definition TruncateVisible (input : string) (maxWidth : Z) : outcome string :=
  let stripped := StripAnsi input in
  if RuneCountInString stripped <=? maxWidth then Done input else
  let upto n := if n <? 0 then Panic else Done (first_runes (Z.to_nat n) 0 stripped) in
  if wrap64 (maxWidth - 3) <? RuneCountInString stripped
  then s ← upto (wrap64 (maxWidth - 3)); Done (s +:+ "...")
  else upto maxWidth.

Definition PadRight (input : string) (width : Z) : string :=
  let visible := VisibleWidth input in
  if width <=? visible then input else input +:+ spaces (wrap64 (width - visible)).

Definition PadLeft (input : string) (width : Z) : string :=
  let visible := VisibleWidth input in
  if width <=? visible then input else spaces (wrap64 (width - visible)) +:+ input.

Definition PadCenter (input : string) (width : Z) : string :=
  let visible := VisibleWidth input in
  if width <=? visible then input else
  let padding := wrap64 (width - visible) in
  let left := Z.quot padding 2 in
  spaces left +:+ input +:+ spaces (wrap64 (padding - left)).

Example StripAnsi_colour :
  StripAnsi (String ESC "[1;31mred" +:+ String ESC "[0m" +:+ String ESC "]8;;http://a" +:+ String ESC "\link")
  = "redlink".
Proof. vm_compute. reflexivity. Qed.
Example VisibleWidth_box : VisibleWidth "┌─é─┐" = 5.
Proof. vm_compute. reflexivity. Qed.
Example TruncateVisible_box : TruncateVisible "┌─é──────┐" 6 = Done "┌─é...".
Proof. vm_compute. reflexivity. Qed.
