(* ===== verification/AnsiFacts.v ===== *)
(** * Widths on the terminal

    Padding and truncation give the widths they promise, for every string: spaces
    neither complete an escape sequence nor a rune that was cut off before them. *)
From S2P Require Import Prelude GoStrings Ansi.
Open Scope Z_scope.

(** ** Runes *)

Lemma conts_app_ascii ranges a c b :
  Forall (fun r => 128 <= r.1) ranges -> code c < 128 ->
  conts ranges (a +:+ String c b) = conts ranges a.
Proof.
  intros Hr Hc. revert a. induction Hr as [|[lo hi] ranges Hlo _ IH]; intros a; [done|].
  destruct a as [|d a]; cbn [conts].
  - rewrite str_nil_app. simpl in Hlo. by rewrite (proj2 (Z.leb_gt lo (code c))) by lia.
  - rewrite str_cons_app. by rewrite IH.
Qed.

Lemma conts_length ranges s : conts ranges s = true -> (length ranges <= String.length s)%nat.
Proof.
  revert s. induction ranges as [|[lo hi] ranges IH]; intros [|c s]; simpl; try lia; try done.
  intros [_ H]%andb_true_iff. apply IH in H. lia.
Qed.

Lemma rune_tail_high b ranges : rune_tail b = Some ranges -> Forall (fun r => 128 <= r.1) ranges.
Proof.
  unfold rune_tail. repeat case_match; intros [= <-]; repeat constructor; simpl; lia.
Qed.

Lemma rune_more_app_ascii x a c b :
  code c < 128 -> rune_more x (a +:+ String c b) = rune_more x a.
Proof.
  intros Hc. unfold rune_more. destruct (rune_tail (code x)) as [ranges|] eqn:E; [|done].
  by rewrite (conts_app_ascii ranges a c b (rune_tail_high _ _ E)).
Qed.

Lemma rune_more_length x s : (rune_more x s <= String.length s)%nat.
Proof.
  unfold rune_more. destruct (rune_tail (code x)) as [ranges|]; [|lia].
  destruct (conts ranges s) eqn:E; [by apply conts_length|lia].
Qed.

Lemma rune_count_app_ascii c b a : forall skip,
  code c < 128 -> (skip <= String.length a)%nat ->
  rune_count skip (a +:+ String c b) = rune_count skip a + (1 + rune_count 0 b).
Proof.
  induction a as [|x a IH]; intros skip Hc Hs.
  - simpl in Hs. assert (skip = O) as -> by lia. rewrite str_nil_app. cbn [rune_count].
    assert (rune_more c b = O) as ->; [|lia]. unfold rune_more, rune_tail. rewrite (proj2 (Z.ltb_lt _ _)) by done.
    done.
  - rewrite str_cons_app. destruct skip as [|skip]; cbn [rune_count].
    + rewrite rune_more_app_ascii, IH by (done || apply rune_more_length). lia.
    + simpl in Hs. apply IH; [done|lia].
Qed.

Lemma rune_count_nonneg s : forall skip, 0 <= rune_count skip s.
Proof.
  induction s as [|c s IH]; intros skip; [done|]. destruct skip as [|skip]; cbn [rune_count]; [|apply IH].
  specialize (IH (rune_more c s)). lia.
Qed.

Lemma repeat_length s n : String.length (repeat_string s n) = (n * String.length s)%nat.
Proof. induction n as [|n IH]; [done|]. simpl repeat_string. rewrite str_length_app, IH. lia. Qed.

Lemma repeat_space_count n a : rune_count 0 (a +:+ repeat_string " " n) = rune_count 0 a + Z.of_nat n.
Proof.
  revert a. induction n as [|n IH]; intros a; simpl repeat_string; [rewrite str_app_nil_r; lia|].
  change (" " +:+ repeat_string " " n) with (String " " (repeat_string " " n)).
  rewrite rune_count_app_ascii by (done || lia).
  specialize (IH ""). rewrite str_nil_app in IH. rewrite IH. simpl rune_count. lia.
Qed.

(** ** Escape sequences *)

Definition no_escape (s : string) : bool := string_all (fun c => negb (bool_decide (c = ESC))) s.

Lemma no_escape_app a b : no_escape (a +:+ b) = no_escape a && no_escape b.
Proof.
  unfold no_escape. induction a as [|c a IH]; [done|]. rewrite str_cons_app. simpl. by rewrite IH, andb_assoc.
Qed.

Lemma no_escape_repeat s n : no_escape s = true -> no_escape (repeat_string s n) = true.
Proof. intros H. induction n as [|n IH]; [done|]. simpl repeat_string. by rewrite no_escape_app, H, IH. Qed.

Lemma remove_all_plain rest s : no_escape s = true -> remove_all rest 0 s = s.
Proof.
  induction s as [|c s IH]; [done|]. unfold no_escape in *. cbn [string_all remove_all].
  intros [Hc Hs]%andb_true_iff. apply negb_true_iff, bool_decide_eq_false in Hc.
  rewrite decide_False by done. by rewrite IH.
Qed.

Lemma StripAnsi_plain s : no_escape s = true -> StripAnsi s = s.
Proof. intros H. unfold StripAnsi. by rewrite (remove_all_plain osc8_match), (remove_all_plain sgr_match). Qed.

(** What follows a string does not complete a sequence that the string left open. *)
Definition opens_nothing (rest : string -> option nat) (t : string) : Prop :=
  (forall s, rest (s +:+ t) = rest s) /\ (forall s n, rest s = Some n -> (n <= String.length s)%nat).

Lemma remove_all_app rest t : opens_nothing rest t -> no_escape t = true ->
  forall s skip, (skip <= String.length s)%nat ->
  remove_all rest skip (s +:+ t) = remove_all rest skip s +:+ t.
Proof.
  intros [Happ Hlen] Ht. induction s as [|c s IH]; intros skip Hs.
  - simpl in Hs. assert (skip = O) as -> by lia. rewrite str_nil_app. by apply remove_all_plain.
  - rewrite str_cons_app. destruct skip as [|skip]; cbn [remove_all].
    + destruct (decide (c = ESC)).
      * rewrite Happ. destruct (rest s) as [n|] eqn:E; [by apply IH, (Hlen s)|].
        rewrite IH by lia. by rewrite str_cons_app.
      * rewrite IH by lia. by rewrite str_cons_app.
    + simpl in Hs. apply IH. lia.
Qed.

Lemma sgr_params_length s n : sgr_params s = Some n -> (n <= String.length s)%nat.
Proof.
  revert n. induction s as [|c s IH]; intros n; [done|]. cbn [sgr_params]. case_decide.
  - intros [= <-]. simpl. lia.
  - case_match; [|done]. destruct (sgr_params s) as [k|]; [|done]. intros [= <-].
    specialize (IH k eq_refl). simpl. lia.
Qed.

Lemma sgr_params_spaces n s : sgr_params (s +:+ repeat_string " " n) = sgr_params s.
Proof.
  induction s as [|c s IH].
  - rewrite str_nil_app. by destruct n.
  - rewrite str_cons_app. cbn [sgr_params]. by rewrite IH.
Qed.

Lemma osc8_url_length s n : osc8_url s = Some n -> (n <= String.length s)%nat.
Proof.
  revert n. induction s as [|c s IH]; intros n; [done|]. cbn [osc8_url]. case_decide.
  - destruct s as [|d s]; [done|]. case_match; try done.
    simplify_eq. repeat case_match; intros; simplify_eq; simpl; lia.
  - destruct (osc8_url s) as [k|]; [|done]. intros [= <-]. specialize (IH k eq_refl). simpl. lia.
Qed.

Lemma osc8_url_spaces n s : osc8_url (s +:+ repeat_string " " n) = osc8_url s.
Proof.
  induction s as [|c s IH].
  - rewrite str_nil_app. induction n as [|n IH]; [done|]. simpl repeat_string.
    change (" " +:+ repeat_string " " n) with (String " " (repeat_string " " n)). cbn [osc8_url].
    rewrite decide_False by done. by rewrite IH.
  - rewrite str_cons_app. cbn [osc8_url]. rewrite IH. case_decide; [|done].
    destruct s as [|d s]; [by destruct n|]. done.
Qed.

Lemma after_length p s r : after p s = Some r -> String.length s = (String.length p + String.length r)%nat.
Proof.
  revert s. induction p as [|c p IH]; intros [|d s]; simpl; try done; try (by intros [= <-]).
  case_decide; [|done]. intros Hr. f_equal. by apply IH.
Qed.

Lemma after_spaces p n s :
  string_all (fun c => negb (bool_decide (c = " "%char))) p = true ->
  after p (s +:+ repeat_string " " n) = (fun r => r +:+ repeat_string " " n) <$> after p s.
Proof.
  revert s. induction p as [|c p IH]; intros s; [by destruct s|]. cbn [string_all].
  intros [Hc Hp]%andb_true_iff. apply negb_true_iff, bool_decide_eq_false in Hc.
  destruct s as [|d s]; [|rewrite str_cons_app; cbn [after]; case_decide; [by apply IH|done]].
  rewrite str_nil_app. destruct n as [|n]; [done|]. simpl repeat_string.
  change (" " +:+ repeat_string " " n) with (String " " (repeat_string " " n)). cbn [after].
  by rewrite decide_False.
Qed.

Lemma sgr_opens_nothing n : opens_nothing sgr_match (repeat_string " " n).
Proof.
  unfold sgr_match. split.
  - intros s. rewrite after_spaces by done. destruct (after "[" s) as [r|]; [|done]. simpl.
    by rewrite sgr_params_spaces.
  - intros s k. destruct (after "[" s) as [r|] eqn:E; [|done]. apply after_length in E. simpl in *.
    destruct (sgr_params r) as [j|] eqn:Ej; [|done]. apply sgr_params_length in Ej. intros [= <-]. lia.
Qed.

Lemma osc8_opens_nothing n : opens_nothing osc8_match (repeat_string " " n).
Proof.
  unfold osc8_match. split.
  - intros s. rewrite after_spaces by done. destruct (after "]8;;" s) as [r|]; [|done]. simpl.
    by rewrite osc8_url_spaces.
  - intros s k. destruct (after "]8;;" s) as [r|] eqn:E; [|done]. apply after_length in E. simpl in *.
    destruct (osc8_url r) as [j|] eqn:Ej; [|done]. apply osc8_url_length in Ej. intros [= <-]. lia.
Qed.

Lemma StripAnsi_spaces s n : StripAnsi (s +:+ repeat_string " " n) = StripAnsi s +:+ repeat_string " " n.
Proof.
  unfold StripAnsi. assert (no_escape (repeat_string " " n) = true) by (by apply no_escape_repeat).
  rewrite (remove_all_app osc8_match); [|apply osc8_opens_nothing|done|lia].
  rewrite (remove_all_app sgr_match); [done|apply sgr_opens_nothing|done|lia].
Qed.

Lemma VisibleWidth_spaces_r s n : VisibleWidth (s +:+ repeat_string " " n) = VisibleWidth s + Z.of_nat n.
Proof. unfold VisibleWidth, RuneCountInString. by rewrite StripAnsi_spaces, repeat_space_count. Qed.

Lemma VisibleWidth_ascii_l c s :
  c <> ESC -> code c < 128 -> VisibleWidth (String c s) = 1 + VisibleWidth s.
Proof.
  intros Hc Ha. unfold VisibleWidth, StripAnsi, RuneCountInString. cbn [remove_all].
  rewrite decide_False by done. cbn [remove_all]. rewrite decide_False by done.
  apply (rune_count_app_ascii c _ "" 0 Ha). simpl. lia.
Qed.

Lemma VisibleWidth_spaces_l s n : VisibleWidth (repeat_string " " n +:+ s) = Z.of_nat n + VisibleWidth s.
Proof.
  induction n as [|n IH]; [done|]. simpl repeat_string. rewrite str_app_assoc.
  change (" " +:+ repeat_string " " n +:+ s) with (String " " (repeat_string " " n +:+ s)).
  rewrite VisibleWidth_ascii_l by done. rewrite IH. lia.
Qed.

Lemma VisibleWidth_nonneg s : 0 <= VisibleWidth s.
Proof. apply rune_count_nonneg. Qed.

(** ** Padding *)

Lemma pad_amount s width :
  VisibleWidth s < width -> width < 2^63 -> wrap64 (width - VisibleWidth s) = width - VisibleWidth s.
Proof. intros. apply wrap64_id. pose proof (VisibleWidth_nonneg s). unfold in_int64. lia. Qed.

(** Padding fills up to the width asked for and never cuts: the result is as wide
    as the wider of the text and the column, whatever escape sequences or broken
    UTF-8 the text has; centred text has the odd space on the right. *)
Theorem pad_width (s : string) (width : Z) :
  width < 2^63 ->
  VisibleWidth (PadRight s width) = Z.max (VisibleWidth s) width /\
  VisibleWidth (PadLeft s width) = Z.max (VisibleWidth s) width /\
  VisibleWidth (PadCenter s width) = Z.max (VisibleWidth s) width.
Proof.
  intros Hw. unfold PadRight, PadLeft, PadCenter, spaces.
  destruct (Z.leb_spec width (VisibleWidth s)) as [Hle|Hlt]; [split_and!; lia|].
  rewrite pad_amount by done. pose proof (VisibleWidth_nonneg s).
  set (p := width - VisibleWidth s). assert (0 <= p < 2^63) by lia.
  rewrite wrap64_id by (unfold in_int64; Z.to_euclidean_division_equations; lia).
  assert (0 <= Z.quot p 2 <= p) by (Z.to_euclidean_division_equations; lia).
  rewrite <- !str_app_assoc.
  rewrite !VisibleWidth_spaces_r, !VisibleWidth_spaces_l. rewrite !Z2Nat.id by lia. lia.
Qed.

Lemma pad_width_witness :
  VisibleWidth (PadRight (String ESC "[1mé") 4) = 4 /\ VisibleWidth (PadLeft (String ESC "[1mé") 4) = 4 /\
  VisibleWidth (PadCenter (String ESC "[1mé") 4) = 4.
Proof. apply (pad_width (String ESC "[1mé") 4). lia. Defined.

(** ** Truncation *)

Lemma conts_first_runes n ranges s :
  conts ranges s = true -> conts ranges (first_runes n (length ranges) s) = true.
Proof.
  revert s. induction ranges as [|[lo hi] ranges IH]; intros s H; [done|].
  destruct s as [|c s]; [done|]. cbn [conts first_runes length] in *.
  apply andb_true_iff in H as [-> H]. by apply IH.
Qed.

Lemma rune_more_first_runes n c s k : rune_more c s = k -> k <> O -> rune_more c (first_runes n k s) = k.
Proof.
  unfold rune_more. intros <- Hk. destruct (rune_tail (code c)) as [ranges|]; [|done].
  destruct (conts ranges s) eqn:E; [|done]. by rewrite conts_first_runes.
Qed.

Lemma rune_count_error s : rune_count 0 (rune_error +:+ s) = 1 + rune_count 0 s.
Proof.
  unfold rune_error. repeat first [rewrite str_cons_app | rewrite str_nil_app]. cbn [rune_count].
  assert (forall t, rune_more (chr 239) (String (chr 191) (String (chr 189) t)) = 2%nat) as ->; [|done].
  intros t. done.
Qed.

Lemma first_runes_count s : forall n skip,
  rune_count skip (first_runes n skip s) = Z.min (Z.of_nat n) (rune_count skip s).
Proof.
  induction s as [|c s IH]; intros n skip; [destruct skip; simpl; lia|].
  destruct skip as [|skip]; cbn [first_runes rune_count]; [|apply IH].
  pose proof (rune_count_nonneg s (rune_more c s)).
  destruct n as [|n]; [simpl; lia|]. destruct (rune_more c s) as [|k] eqn:E.
  - destruct (Z.ltb_spec (code c) 128) as [Hc|Hc].
    + cbn [rune_count]. assert (rune_more c (first_runes n 0 s) = O) as ->.
      { unfold rune_more, rune_tail. by rewrite (proj2 (Z.ltb_lt _ _)). }
      rewrite IH. lia.
    + rewrite rune_count_error, IH. lia.
  - cbn [rune_count]. rewrite (rune_more_first_runes n c s (S k)), IH by done. lia.
Qed.

(** Truncation keeps a text that fits, and cuts any other to exactly the width
    asked for, ellipsis included; below a width of three it panics instead. *)
Theorem TruncateVisible_spec (input : string) (maxWidth : Z) :
  - 2^63 + 3 <= maxWidth < 2^63 ->
  match TruncateVisible input maxWidth with
  | Done r => (VisibleWidth input <= maxWidth /\ r = input) \/
              (3 <= maxWidth < VisibleWidth input /\ RuneCountInString r = maxWidth)
  | Panic => maxWidth < 3 /\ maxWidth < VisibleWidth input
  end.
Proof.
  intros Hb. unfold TruncateVisible. fold (VisibleWidth input). rewrite wrap64_id by (unfold in_int64; lia).
  destruct (Z.leb_spec (VisibleWidth input) maxWidth) as [Hle|Hlt]; [by left|].
  rewrite (proj2 (Z.ltb_lt _ _)) by lia. destruct (Z.ltb_spec (maxWidth - 3) 0); [simpl; lia|]. simpl.
  right. split; [lia|]. unfold RuneCountInString.
  rewrite (rune_count_app_ascii "." ".." (first_runes _ _ _) 0) by (done || lia).
  rewrite first_runes_count. change (rune_count 0 (StripAnsi input)) with (VisibleWidth input).
  rewrite Z2Nat.id by lia. simpl rune_count. lia.
Qed.

Lemma TruncateVisible_spec_witness :
  match TruncateVisible "abcdef" 2 with
  | Done r => (VisibleWidth "abcdef" <= 2 /\ r = "abcdef") \/
              (3 <= 2 < VisibleWidth "abcdef" /\ RuneCountInString r = 2)
  | Panic => 2 < 3 /\ 2 < VisibleWidth "abcdef"
  end.
Proof. apply (TruncateVisible_spec "abcdef" 2). lia. Defined.
