(* ===== verification/Table.v ===== *)
(** * Tables ([internal/ui/table.go])

    [table_lines] is the slice [lines] of [RenderTable]. A row is the map of its
    cells; a key that is missing reads as the empty string. *)
From S2P Require Import Prelude GoStrings Ansi AnsiFacts.
Open Scope Z_scope.

Inductive Align := AlignLeft | AlignRight | AlignCenter.
Inductive TableBorder := BorderUnicode | BorderASCII | BorderNone.

#[export] Instance border_eq_dec : EqDecision TableBorder.
Proof. solve_decision. Defined.

Record TableColumn := MkTableColumn {
  Key : string;
  Header : string;
  ColAlign : Align;
  MinWidth : Z;
  MaxWidth : Z
}.

Record RenderTableOptions := MkRenderTableOptions {
  Columns : list TableColumn;
  Rows : list (gmap string string);
  Border : TableBorder;
  Padding : Z
}.

Record boxChars := MkBoxChars {
  b_tl : string; b_tr : string; b_bl : string; b_br : string;
  b_h : string; b_v : string;
  b_t : string; b_ml : string; b_m : string; b_mr : string; b_b : string
}.

Definition unicodeBox : boxChars := MkBoxChars "┌" "┐" "└" "┘" "─" "│" "┬" "├" "┼" "┤" "┴".
Definition asciiBox : boxChars := MkBoxChars "+" "+" "+" "+" "-" "|" "+" "+" "+" "+" "+".

Definition cell (row : gmap string string) (key : string) : string := default "" (row !! key).

(** The loop over the rows of one column. *)
Definition max_cell_width (rows : list (gmap string string)) (key : string) : Z :=
  fold_left (fun maxCellW row =>
    let cellW := VisibleWidth (cell row key) in if maxCellW <? cellW then cellW else maxCellW) rows 0.

Definition column_width (rows : list (gmap string string)) (padding : Z) (col : TableColumn) : Z :=
  let headerW := VisibleWidth col.(Header) in
  let maxCellW := max_cell_width rows col.(Key) in
  let base := if headerW <? maxCellW then maxCellW else headerW in
  let base := wrap64 (base + wrap64 (padding * 2)) in
  let base := if (0 <? col.(MaxWidth)) && (col.(MaxWidth) <? base) then col.(MaxWidth) else base in
  let minW := if col.(MinWidth) <? 3 then 3 else col.(MinWidth) in
  if base <? minW then minW else base.

(** The widths are at least three, so that [strings.Repeat] does not panic. *)
Definition hLine (box : boxChars) (widths : list Z) (left mid right : string) : string :=
  left +:+ String.concat mid (map (fun w => repeat_string box.(b_h) (Z.to_nat w)) widths) +:+ right.

Definition padCell (text : string) (width : Z) (align : Align) : string :=
  let w := VisibleWidth text in
  if width <=? w then text else
  let pad := wrap64 (width - w) in
  match align with
  | AlignRight => spaces pad +:+ text
  | AlignCenter => let left := Z.quot pad 2 in spaces left +:+ text +:+ spaces (wrap64 (pad - left))
  | AlignLeft => text +:+ spaces pad
  end.

Definition contentWidth (padding width : Z) : Z :=
  let w := wrap64 (width - wrap64 (padding * 2)) in if w <? 1 then 1 else w.

Definition render_cell (padding : Z) (col : TableColumn) (width : Z) (val : string) : string :=
  spaces padding +:+ padCell val (contentWidth padding width) col.(ColAlign) +:+ spaces padding.

(** [value col] is the text of the row in a column. *)
Definition renderRow (box : boxChars) (rows : list (gmap string string)) (padding : Z)
    (cols : list TableColumn) (value : TableColumn -> string) : string :=
  box.(b_v) +:+
  String.concat box.(b_v)
    (map (fun col => render_cell padding col (column_width rows padding col) (value col)) cols) +:+
  box.(b_v).

Definition effective_padding (opts : RenderTableOptions) : Z :=
  if opts.(Padding) =? 0 then 1 else opts.(Padding).

Definition table_lines (opts : RenderTableOptions) : list string :=
  let padding := effective_padding opts in
  let box := if decide (opts.(Border) = BorderASCII) then asciiBox else unicodeBox in
  let widths := map (column_width opts.(Rows) padding) opts.(Columns) in
  let row := renderRow box opts.(Rows) padding opts.(Columns) in
  let framed l := if decide (opts.(Border) = BorderNone) then [] else [l] in
  framed (hLine box widths box.(b_tl) box.(b_t) box.(b_tr)) ++
  [row Header] ++
  framed (hLine box widths box.(b_ml) box.(b_m) box.(b_mr)) ++
  map (fun r => row (fun col => cell r col.(Key))) opts.(Rows) ++
  framed (hLine box widths box.(b_bl) box.(b_b) box.(b_br)).

Definition newline_text : string := String (chr 10) "".

Definition RenderTable (opts : RenderTableOptions) : string :=
  String.concat newline_text (table_lines opts) +:+ newline_text.

(** ** Alignment *)

(** A string that takes [n] columns whatever follows it. *)
Definition wide (n : Z) (s : string) : Prop := forall t, rune_count 0 (s +:+ t) = n + rune_count 0 t.

Lemma wide_app n m s t : wide n s -> wide m t -> wide (n + m) (s +:+ t).
Proof. intros Hs Ht u. rewrite str_app_assoc, Hs, Ht. lia. Qed.

Lemma wide_eq n m s : wide n s -> n = m -> wide m s.
Proof. by intros H <-. Qed.

Lemma wide_count n s : wide n s -> rune_count 0 s = n.
Proof. intros H. specialize (H ""). rewrite str_app_nil_r in H. simpl in H. lia. Qed.

Lemma wide_repeat s n : wide 1 s -> wide (Z.of_nat n) (repeat_string s n).
Proof.
  intros H. induction n as [|n IH]; [by intros t|]. simpl repeat_string.
  apply (wide_eq (1 + Z.of_nat n)); [by apply wide_app|lia].
Qed.

Lemma wide_space : wide 1 " ".
Proof.
  intros t. change (" " +:+ t) with (String " " t).
  apply (rune_count_app_ascii " " t "" 0); [done|simpl; lia].
Qed.

(** A text between spaces. *)
Lemma wide_spaced text : wide (rune_count 0 text + 1) (text +:+ " ").
Proof.
  intros t. rewrite str_app_assoc. change (" " +:+ t) with (String " " t).
  rewrite rune_count_app_ascii by (done || lia). lia.
Qed.

Definition box_glyphs (b : boxChars) : list string :=
  [b_tl b; b_tr b; b_bl b; b_br b; b_h b; b_v b; b_t b; b_ml b; b_m b; b_mr b; b_b b].

Lemma box_wide b g : b = unicodeBox \/ b = asciiBox -> In g (box_glyphs b) -> wide 1 g /\ no_escape g = true.
Proof.
  intros [->| ->] Hg; simpl in Hg;
    repeat (destruct Hg as [<-|Hg]; [split; [intros t; reflexivity|reflexivity]|]); done.
Qed.

Definition sum (l : list Z) : Z := fold_right Z.add 0 l.

(** A text whose escape sequences are complete: what follows it is stripped by itself. *)
Definition closed (s : string) : Prop :=
  (forall t, remove_all osc8_match 0 (s +:+ t) = remove_all osc8_match 0 s +:+ remove_all osc8_match 0 t) /\
  (forall t, remove_all sgr_match 0 (remove_all osc8_match 0 s +:+ t) =
             remove_all sgr_match 0 (remove_all osc8_match 0 s) +:+ remove_all sgr_match 0 t).

Lemma remove_all_plain_app rest s t : no_escape s = true -> remove_all rest 0 (s +:+ t) = s +:+ remove_all rest 0 t.
Proof.
  induction s as [|c s IH]; [done|]. unfold no_escape in *. rewrite str_cons_app. cbn [string_all remove_all].
  intros [Hc Hs]%andb_true_iff. apply negb_true_iff, bool_decide_eq_false in Hc.
  rewrite decide_False by done. by rewrite IH.
Qed.

Lemma closed_plain s : no_escape s = true -> closed s.
Proof.
  intros H. split; intros t; rewrite ?(remove_all_plain osc8_match s H), ?(remove_all_plain sgr_match s H);
    by apply remove_all_plain_app.
Qed.

Lemma closed_app s t : closed s -> closed t -> closed (s +:+ t).
Proof.
  intros [Hs1 Hs2] [Ht1 Ht2]. split; intros u.
  - by rewrite str_app_assoc, Hs1, Ht1, Hs1, str_app_assoc.
  - by rewrite Hs1, str_app_assoc, Hs2, Ht2, Hs2, str_app_assoc.
Qed.

Lemma StripAnsi_app s t : closed s -> StripAnsi (s +:+ t) = StripAnsi s +:+ StripAnsi t.
Proof. intros [H1 H2]. unfold StripAnsi. by rewrite H1, H2. Qed.

(** A line that takes [n] columns on the terminal whatever follows it. *)
Definition shows (n : Z) (s : string) : Prop := closed s /\ wide n (StripAnsi s).

Lemma shows_width n s : shows n s -> VisibleWidth s = n.
Proof. intros [_ H]. by apply wide_count. Qed.

Lemma shows_eq n m s : shows n s -> n = m -> shows m s.
Proof. by intros H <-. Qed.

Lemma shows_app n m s t : shows n s -> shows m t -> shows (n + m) (s +:+ t).
Proof.
  intros [Hs Hn] [Ht Hm]. split; [by apply closed_app|]. rewrite StripAnsi_app by done. by apply wide_app.
Qed.

Lemma shows_plain n s : no_escape s = true -> wide n s -> shows n s.
Proof. intros H Hn. split; [by apply closed_plain|]. by rewrite StripAnsi_plain. Qed.

Lemma shows_concat sep parts ns :
  shows 1 sep -> Forall2 shows ns parts -> shows (sum ns + Z.max 0 (zlen ns - 1)) (String.concat sep parts).
Proof.
  intros Hs H. induction H as [|n s ns parts Hn H IH]; [by apply shows_plain|].
  destruct H as [|m u ns parts Hm H]; [apply (shows_eq n); [done|simpl; lia]|].
  change (String.concat sep (s :: u :: parts)) with (s +:+ sep +:+ String.concat sep (u :: parts)).
  eapply shows_eq; [apply shows_app; [exact Hn|apply shows_app; [exact Hs|exact IH]]|]. simpl. lia.
Qed.

Lemma no_escape_spaces n : no_escape (spaces n) = true.
Proof. by apply no_escape_repeat. Qed.

Lemma shows_spaces n : 0 <= n -> shows n (spaces n).
Proof.
  intros Hn. apply shows_plain; [apply no_escape_spaces|]. unfold spaces.
  eapply wide_eq; [apply wide_repeat, wide_space|lia].
Qed.

(** Behind a text there is a space, so that no rune goes on past its cell. *)
Lemma shows_spaced text n : closed text -> 1 <= n -> shows (VisibleWidth text + n) (text +:+ spaces n).
Proof.
  intros Ht Hn. assert (spaces n = " " +:+ spaces (n - 1)) as ->.
  { unfold spaces. replace (Z.to_nat n) with (S (Z.to_nat (n - 1))) by lia. done. }
  rewrite <- str_app_assoc. apply (shows_eq (VisibleWidth text + 1 + (n - 1))); [|lia].
  apply shows_app; [|apply shows_spaces; lia]. split; [by apply closed_app, closed_plain|].
  rewrite StripAnsi_app by done. apply wide_spaced.
Qed.

Lemma plain_width s : no_escape s = true -> VisibleWidth s = rune_count 0 s.
Proof. intros H. unfold VisibleWidth, RuneCountInString. by rewrite StripAnsi_plain. Qed.

(** ** Cells *)

Lemma padCell_text width text align :
  width < 2^63 -> VisibleWidth (padCell text width align) = Z.max (VisibleWidth text) width.
Proof.
  intros Hw. destruct (pad_width text width Hw) as (Hr & Hl & Hc). by destruct align.
Qed.

Lemma padCell_closed text width align : closed text -> closed (padCell text width align).
Proof.
  intros H. unfold padCell. destruct (_ <=? _); [done|].
  destruct align; cbv zeta; repeat apply closed_app; try done; apply closed_plain, no_escape_spaces.
Qed.

(** The columns that a text of width [v] takes in a column of width [w]. *)
Definition cell_width (p w v : Z) : Z := 2 * p + Z.max v (Z.max 1 (w - 2 * p)).

Lemma render_cell_shows p col w val :
  1 <= p < 2^60 -> 3 <= w < 2^62 -> closed val -> shows (cell_width p w (VisibleWidth val)) (render_cell p col w val).
Proof.
  intros Hp Hw Hval. unfold render_cell, contentWidth, cell_width.
  rewrite (wrap64_id (p * 2)), wrap64_id by (unfold in_int64; lia).
  set (cw := if _ <? 1 then 1 else _). assert (cw = Z.max 1 (w - 2 * p)) as E.
  { unfold cw. destruct (Z.ltb_spec (w - p * 2) 1); lia. }
  eapply shows_eq; [apply shows_app; [apply shows_spaces; lia|apply shows_spaced; [by apply padCell_closed|lia]]|].
  rewrite padCell_text by lia. lia.
Qed.

Lemma max_cell_width_bound rows key : forall acc,
  let f := fold_left (fun maxCellW row =>
    let cellW := VisibleWidth (cell row key) in if maxCellW <? cellW then cellW else maxCellW) rows acc in
  acc <= f /\ Forall (fun r => VisibleWidth (cell r key) <= f) rows /\
  (acc < 2^60 -> Forall (fun r => VisibleWidth (cell r key) < 2^60) rows -> f < 2^60).
Proof.
  induction rows as [|r rows IH]; intros acc; cbn [fold_left]; [by split_and!|].
  cbv zeta in *. destruct (Z.ltb_spec acc (VisibleWidth (cell r key))) as [Hlt|Hge].
  - destruct (IH (VisibleWidth (cell r key))) as (H1 & H2 & H3). split_and!; [lia|by constructor|].
    intros _ [Hr Hrows]%Forall_cons. by apply H3.
  - destruct (IH acc) as (H1 & H2 & H3). split_and!; [done|constructor; [lia|done]|].
    intros Ha [_ Hrows]%Forall_cons. by apply H3.
Qed.

(** A table within reason: its texts close their escape sequences, and no number is
    near the end of the 64 bits. *)
Definition sane_column (rows : list (gmap string string)) (col : TableColumn) : Prop :=
  MinWidth col < 2^60 /\
  Forall (fun text => closed text /\ VisibleWidth text < 2^60) (Header col :: map (fun r => cell r (Key col)) rows).

(** The texts of the column fit in its width, between two margins. *)
Definition column_fits (rows : list (gmap string string)) (p : Z) (col : TableColumn) : Prop :=
  2 * p + 1 <= column_width rows p col /\
  Forall (fun text => 2 * p + VisibleWidth text <= column_width rows p col)
    (Header col :: map (fun r => cell r (Key col)) rows).

(** What [column_width] computes: the widest text and two margins, at most [MaxWidth]
    where it is positive, at least [MinWidth] and three. *)
Lemma column_width_eq rows p col :
  1 <= p < 2^60 -> sane_column rows col ->
  let widest := Z.max (VisibleWidth (Header col)) (max_cell_width rows (Key col)) in
  let capped := if 0 <? MaxWidth col then Z.min (widest + 2 * p) (MaxWidth col) else widest + 2 * p in
  column_width rows p col = Z.max capped (Z.max 3 (MinWidth col)) /\ 0 <= widest < 2^60 /\
  Forall (fun r => VisibleWidth (cell r (Key col)) <= widest) rows.
Proof.
  intros Hp (Hmin & [[_ Hh] Hrows]%Forall_cons). cbv zeta.
  assert (Forall (fun r => VisibleWidth (cell r (Key col)) < 2^60) rows) as Hr.
  { apply List.Forall_map in Hrows. eapply Forall_impl; [exact Hrows|]. by intros r []. }
  destruct (max_cell_width_bound rows (Key col) 0) as (H0 & Hle & Hlt). specialize (Hlt ltac:(lia) Hr).
  change (fold_left _ rows 0) with (max_cell_width rows (Key col)) in H0, Hle, Hlt. unfold column_width.
  pose proof (VisibleWidth_nonneg (Header col)).
  set (base := if VisibleWidth (Header col) <? max_cell_width rows (Key col)
               then max_cell_width rows (Key col) else VisibleWidth (Header col)).
  assert (base = Z.max (VisibleWidth (Header col)) (max_cell_width rows (Key col))) as Hb.
  { unfold base. destruct (Z.ltb_spec (VisibleWidth (Header col)) (max_cell_width rows (Key col))); lia. }
  rewrite (wrap64_id (p * 2)), wrap64_id by (unfold in_int64; lia). rewrite <- Hb. split_and!; [|lia..|].
  - destruct (Z.ltb_spec 0 (MaxWidth col)); cbn [andb];
      [destruct (Z.ltb_spec (MaxWidth col) (base + p * 2))|];
      destruct (Z.ltb_spec (MinWidth col) 3); cbv iota;
      match goal with |- (if ?a <? ?b then _ else _) = _ => destruct (Z.ltb_spec a b) end; lia.
  - eapply Forall_impl; [exact Hle|]. simpl. lia.
Qed.

Lemma column_width_range rows p col :
  1 <= p < 2^60 -> sane_column rows col -> 3 <= column_width rows p col < 2^62.
Proof.
  intros Hp Hc. destruct (column_width_eq rows p col Hp Hc) as (-> & Hw & _). destruct Hc as [Hmin _].
  destruct (Z.ltb_spec 0 (MaxWidth col)); lia.
Qed.

(** Without a maximal width everything fits. *)
Lemma column_fits_uncapped rows p col :
  1 <= p < 2^60 -> sane_column rows col -> MaxWidth col <= 0 ->
  2 * p + 1 <= column_width rows p col -> column_fits rows p col.
Proof.
  intros Hp Hc Hm H1. destruct (column_width_eq rows p col Hp Hc) as (E & _ & Hle).
  rewrite (proj2 (Z.ltb_ge _ _) Hm) in E. split; [done|]. rewrite E. constructor; [lia|].
  apply List.Forall_map. eapply Forall_impl; [exact Hle|]. simpl. lia.
Qed.

(** ** Lines *)

(** The texts of a column. *)
Lemma Forall_texts (P : string -> Prop) rows col :
  Forall P (Header col :: map (fun r => cell r (Key col)) rows) <->
  P (Header col) /\ forall r, In r rows -> P (cell r (Key col)).
Proof.
  rewrite Forall_cons, Forall_forall. split; intros [Hh H]; (split; [done|]).
  - intros r Hr. by apply H, list_elem_of_In, (in_map (fun r => cell r (Key col))).
  - intros x Hx. apply list_elem_of_In, in_map_iff in Hx as (r & <- & Hr). auto.
Qed.


(** The width of the frame. *)
Definition table_width (opts : RenderTableOptions) : Z :=
  let widths := map (column_width opts.(Rows) (effective_padding opts)) opts.(Columns) in
  2 + sum widths + Z.max 0 (zlen widths - 1).

Lemma Forall2_maps {A} (f : A -> Z) (g : A -> string) l :
  Forall (fun x => shows (f x) (g x)) l -> Forall2 shows (map f l) (map g l).
Proof. intros H. induction H; simpl; by constructor. Qed.

Lemma box_shows b g : b = unicodeBox \/ b = asciiBox -> In g (box_glyphs b) -> shows 1 g.
Proof. intros Hb Hg. destruct (box_wide b g Hb Hg). by apply shows_plain. Qed.

Lemma renderRow_shows box rows p cols value :
  box = unicodeBox \/ box = asciiBox -> 1 <= p < 2^60 ->
  Forall (fun col => sane_column rows col /\ closed (value col)) cols ->
  let widths := map (fun col => cell_width p (column_width rows p col) (VisibleWidth (value col))) cols in
  shows (2 + sum widths + Z.max 0 (zlen widths - 1)) (renderRow box rows p cols value).
Proof.
  intros Hb Hp Hcols. assert (shows 1 (b_v box)) as Hv by (apply (box_shows box); [done|simpl; tauto]).
  unfold renderRow. eapply shows_eq; [apply shows_app; [exact Hv|apply shows_app; [apply shows_concat; [exact Hv|]|exact Hv]]|].
  - apply Forall2_maps. eapply Forall_impl; [exact Hcols|].
    intros col [H1 H2]. apply render_cell_shows; [done|by apply column_width_range|done].
  - cbv zeta. lia.
Qed.

Lemma hLine_shows box widths left mid right :
  box = unicodeBox \/ box = asciiBox -> Forall (fun w => 0 <= w) widths ->
  In left (box_glyphs box) -> In mid (box_glyphs box) -> In right (box_glyphs box) ->
  shows (2 + sum widths + Z.max 0 (zlen widths - 1)) (hLine box widths left mid right).
Proof.
  intros Hb Hws Hl Hm Hr. destruct (box_wide box (b_h box) Hb) as [Hh Eh]; [simpl; tauto|]. unfold hLine.
  apply (box_shows box) in Hl, Hm, Hr; try done.
  eapply shows_eq; [apply shows_app; [exact Hl|apply shows_app; [apply (shows_concat mid _ widths Hm)|exact Hr]]|lia].
  rewrite <- (map_id widths) at 1. apply Forall2_maps. eapply Forall_impl; [exact Hws|]. intros w Hw.
  apply shows_plain; [by apply no_escape_repeat|]. eapply wide_eq; [by apply wide_repeat|]. by apply Z2Nat.id.
Qed.

(** A row is as wide as the frame exactly if each of its texts fits. *)
Lemma row_aligned rows p (value : TableColumn -> string) cols :
  let frame := map (column_width rows p) cols in
  let widths := map (fun col => cell_width p (column_width rows p col) (VisibleWidth (value col))) cols in
  2 + sum widths + Z.max 0 (zlen widths - 1) = 2 + sum frame + Z.max 0 (zlen frame - 1) <->
  Forall (fun col => 2 * p + 1 <= column_width rows p col /\
                     2 * p + VisibleWidth (value col) <= column_width rows p col) cols.
Proof.
  cbv zeta. rewrite !length_map. assert (forall l,
    sum (map (column_width rows p) l) <= sum (map (fun col => cell_width p (column_width rows p col) (VisibleWidth (value col))) l) /\
    (sum (map (fun col => cell_width p (column_width rows p col) (VisibleWidth (value col))) l) = sum (map (column_width rows p) l)
     <-> Forall (fun col => 2 * p + 1 <= column_width rows p col /\
                     2 * p + VisibleWidth (value col) <= column_width rows p col) l)) as H.
  { intros l. induction l as [|col l [IH1 IH2]]; [by split|]. simpl. unfold cell_width at 1 3.
    split; [lia|]. rewrite Forall_cons, <- IH2. lia. }
  destruct (H cols) as [_ <-]. lia.
Qed.

(** C40: When a table lines up. Its texts may be coloured, as long as they close their
    escape sequences, and hold any UTF-8 (or broken UTF-8); numbers are within reason, the
    padding is not negative (0 counts as 1). Then every line, frame, header or row, has
    the width of the frame exactly if every text, with two margins, fits in the width
    its column is given. In particular that is so if no column has a maximal width and
    the margins leave room in each: [MaxWidth] does not cut a text that is too long, it
    pushes the rest of the line to the right. *)
Theorem table_aligned (opts : RenderTableOptions) :
  let p := effective_padding opts in
  0 <= Padding opts < 2^60 -> Forall (sane_column (Rows opts)) (Columns opts) ->
  (Forall (fun line => VisibleWidth line = table_width opts) (table_lines opts) <->
   Forall (column_fits (Rows opts) p) (Columns opts)) /\
  (Forall (fun col => MaxWidth col <= 0 /\ 2 * p + 1 <= column_width (Rows opts) p col) (Columns opts) ->
   Forall (fun line => VisibleWidth line = table_width opts) (table_lines opts)).
Proof.
  intros p Hpad Hcols. assert (1 <= p < 2^60) as Hp.
  { unfold p, effective_padding. destruct (Z.eqb_spec (Padding opts) 0); lia. }
  assert (Forall (fun line => VisibleWidth line = table_width opts) (table_lines opts) <->
    Forall (column_fits (Rows opts) p) (Columns opts)) as Hiff.
  2: { split; [done|]. intros Hm. apply Hiff. rewrite Forall_forall in *. intros col Hin.
       destruct (Hm col Hin). by apply column_fits_uncapped; [|apply Hcols|..]. }
  unfold table_lines, table_width. fold p. set (box := if decide _ then asciiBox else unicodeBox).
  assert (box = unicodeBox \/ box = asciiBox) as Hb by (unfold box; case_decide; tauto).
  set (frame := 2 + _ + _).
  assert (Forall (fun w => 0 <= w) (map (column_width (Rows opts) p) (Columns opts))) as Hws.
  { apply List.Forall_map. eapply Forall_impl; [exact Hcols|]. intros col Hc. simpl.
    pose proof (column_width_range _ _ _ Hp Hc). lia. }
  assert (forall l m r, In l (box_glyphs box) -> In m (box_glyphs box) -> In r (box_glyphs box) ->
    Forall (fun line => VisibleWidth line = frame) (if decide (Border opts = BorderNone) then []
       else [hLine box (map (column_width (Rows opts) p) (Columns opts)) l m r]) <-> True) as Hframe.
  { intros l m r Hl Hm Hr. split; [done|]. intros _. case_decide; repeat constructor. by apply shows_width, hLine_shows. }
  assert (forall value, (forall col, In col (Columns opts) -> closed (value col)) ->
    VisibleWidth (renderRow box (Rows opts) p (Columns opts) value) = frame <->
    Forall (fun col => 2 * p + 1 <= column_width (Rows opts) p col /\
                       2 * p + VisibleWidth (value col) <= column_width (Rows opts) p col) (Columns opts)) as Hrow.
  { intros value Hv. erewrite shows_width; [apply row_aligned|]. apply renderRow_shows; [done..|].
    rewrite Forall_forall in *. intros col Hin. split; [by apply Hcols|]. by apply Hv, list_elem_of_In. }
  assert (forall col, In col (Columns opts) -> closed (Header col) /\
    forall r, In r (Rows opts) -> closed (cell r (Key col))) as Hclosed.
  { intros col Hin. rewrite Forall_forall in Hcols. apply list_elem_of_In, Hcols in Hin as [_ Hall].
    apply Forall_texts in Hall as [[Hh _] Hr]. split; [done|]. intros r Hin. by apply Hr. }
  rewrite !Forall_app, !Hframe by (simpl; tauto).
  rewrite Forall_singleton, Hrow by (intros col Hin; by apply Hclosed). rewrite List.Forall_map, !Forall_forall.
  split.
  - intros (_ & Hh & _ & Hr & _) col Hin. destruct (Hh col Hin) as [H1 H2]. split; [done|].
    apply Forall_texts. split; [done|]. intros r Hin'. pose proof (Hr r (proj2 (list_elem_of_In _ _) Hin')) as Hrow'.
    rewrite Hrow, Forall_forall in Hrow' by (intros col' Hc; by apply (Hclosed col' Hc)). by apply Hrow'.
  - intros H. split_and!; try done.
    + intros col Hin. destruct (H col Hin) as [H1 [H2 _]%Forall_texts]. done.
    + intros r Hr. apply list_elem_of_In in Hr. apply Hrow; [intros col Hc; by apply (Hclosed col Hc)|].
      apply Forall_forall.
      intros col Hin. destruct (H col Hin) as [H1 [_ H2]%Forall_texts]. auto.
Qed.

Definition green (s : string) : string := String ESC "[32m" +:+ s +:+ String ESC "[0m".

Lemma green_closed s : no_escape s = true -> closed (green s).
Proof.
  intros H. apply closed_app; [by split; intros t|]. apply closed_app; [by apply closed_plain|by split; intros t].
Qed.

Definition demo_table : RenderTableOptions := MkRenderTableOptions
  [MkTableColumn "u" "User" AlignLeft 0 0; MkTableColumn "n" "é" AlignRight 0 0]
  [{["u" := green "bob"; "n" := "17"]}; {["u" := "alexander"]}] BorderUnicode 0.

Example demo_table_lines : map StripAnsi (table_lines demo_table) =
  ["┌───────────┬────┐"; "│ User      │  é │"; "├───────────┼────┤"; "│ bob       │ 17 │";
   "│ alexander │    │"; "└───────────┴────┘"].
Proof. vm_compute. reflexivity. Qed.

(** A maximal width that a text passes. *)
Definition capped_table : RenderTableOptions := MkRenderTableOptions
  [MkTableColumn "u" "User" AlignLeft 0 8] [{["u" := "alexander"]}] BorderASCII 0.

Example capped_table_lines : table_lines capped_table =
  ["+--------+"; "| User   |"; "+--------+"; "| alexander |"; "+--------+"].
Proof. vm_compute. reflexivity. Qed.

Lemma table_aligned_witness :
  let p := effective_padding demo_table in
  (Forall (fun line => VisibleWidth line = table_width demo_table) (table_lines demo_table) <->
   Forall (column_fits (Rows demo_table) p) (Columns demo_table)) /\
  (Forall (fun col => MaxWidth col <= 0 /\ 2 * p + 1 <= column_width (Rows demo_table) p col) (Columns demo_table) ->
   Forall (fun line => VisibleWidth line = table_width demo_table) (table_lines demo_table)).
Proof.
  apply (table_aligned demo_table); [simpl; lia|].
  constructor; [|constructor; [|constructor]]; (split; [reflexivity|]); constructor;
    repeat constructor; try (by vm_compute); try (by apply closed_plain; vm_compute);
    apply (green_closed "bob"); reflexivity.
Defined.
