(* ===== verification/Terminal.v ===== *)
(** * What the program prints ([internal/ui], tables and progress bars apart)

    [theme.go], [links.go], [tagline.go], [banner.go], [logger.go] and [note.go]:
    styles, links, the banner, log lines and boxed notes. A function that prints
    gives the text printed; one that hands a negative count to [strings.Repeat]
    panics. The colour library is the class [Color], the fields of a string that is
    not ASCII the class [Words], and what the process finds (variables, clock,
    random numbers, whether standard output is a terminal) are arguments. *)
From S2P Require Import Prelude GoStrings GoFloat GoTime Ansi Table.
Open Scope Z_scope.

Inductive attribute :=
| FgHiRed | FgRed | FgHiYellow | FgGreen | FgYellow | FgHiBlack | FgCyan | FgWhite | FgMagenta | BgMagenta | BoldAttr.

(** [color.New(attrs...).Sprint(msg)], and [color.NoColor]. *)
Class Color := {
  Sprint : list attribute -> string -> string;
  NoColor : bool
}.

Class Words := { unicode_fields : string -> list string }.

(** [strings.Repeat] *)
Definition Repeat (s : string) (n : Z) : outcome string :=
  if n <? 0 then Panic else Done (repeat_string s (Z.to_nat n)).

Definition line (s : string) : string := s +:+ newline_text.
Definition lines_of (l : list string) : string := String.concat "" (map line l).

(** [fmt]'s [%-<n>s]: padding counts runes, escape sequences included. *)
Definition left_justified (n : Z) (s : string) : string := s +:+ spaces (n - RuneCountInString s).

(** The verb [%.1f]. *)
Class FloatFormat (F : Type) := { Sprintf_1f : F -> string }.

(** Rounding to the nearest tenth, half to even. *)
Definition nearest (n d : Z) : Z :=
  let q := n / d in
  match 2 * (n mod d) ?= d with Lt => q | Gt => q + 1 | Eq => if Z.even q then q else q + 1 end.
#[export] Instance exact_format : FloatFormat Q := {| Sprintf_1f q :=
  let tenths := nearest (Z.abs (Qnum q) * 10) (QDen q) in
  (if Qnum q <? 0 then "-" else "") +:+ decimal (tenths / 10) +:+ "." +:+ decimal (tenths mod 10) |}.

Section Theme.
Context {UC : Unicode} {CO : Color}.
Variable getenv : string -> string.

Definition isForceColor : bool :=
  let fc := TrimSpace (getenv "FORCE_COLOR") in negb (String.eqb fc "") && negb (String.eqb fc "0").

Definition IsRich : bool :=
  if negb (String.eqb (getenv "NO_COLOR") "") && negb isForceColor then false else negb NoColor.

Definition Accent (msg : string) : string := Sprint [FgHiRed] msg.
Definition AccentBright (msg : string) : string := Sprint [FgHiRed; BoldAttr] msg.
Definition AccentDim (msg : string) : string := Sprint [FgRed] msg.
Definition Info (msg : string) : string := Sprint [FgHiYellow] msg.
Definition Success (msg : string) : string := Sprint [FgGreen] msg.
Definition Warn (msg : string) : string := Sprint [FgYellow] msg.
Definition Error (msg : string) : string := Sprint [FgRed] msg.
Definition Muted (msg : string) : string := Sprint [FgHiBlack] msg.
Definition Heading (msg : string) : string := Sprint [FgHiRed; BoldAttr] msg.
Definition Command (msg : string) : string := Sprint [FgCyan; BoldAttr] msg.
Definition OptionText (msg : string) : string := Sprint [FgYellow] msg.
Definition Subtle (msg : string) : string := Sprint [FgWhite] msg.
Definition Bold (msg : string) : string := Sprint [FgWhite; BoldAttr] msg.
Definition Primary (msg : string) : string := Sprint [FgMagenta; BoldAttr] msg.
Definition Secondary (msg : string) : string := Sprint [FgCyan] msg.

Definition Colorize (rich : bool) (colorFn : string -> string) (msg : string) : string :=
  if rich then colorFn msg else msg.

(** ** Links *)

Definition DOCS_ROOT : string := "https://signal.org/docs".

Definition SupportsHyperlinks : bool :=
  let termProgram := getenv "TERM_PROGRAM" in
  if Contains termProgram "iTerm" || Contains termProgram "WezTerm" || Contains termProgram "vscode" ||
     Contains termProgram "Hyper" || negb (String.eqb (getenv "WT_SESSION") "") then true
  else Contains (getenv "TERM") "xterm-256color".

Definition FormatTerminalLink (label url : string) : string :=
  if negb SupportsHyperlinks then label +:+ " (" +:+ url +:+ ")"
  else String ESC ("]8;;" +:+ url +:+ String ESC ("\" +:+ label +:+ String ESC ("]8;;" +:+ String ESC "\"))).

Definition FormatDocsLink (path label : string) : string :=
  let url := if HasPrefix path "http" then path
             else DOCS_ROOT +:+ (if HasPrefix path "/" then path else "/" +:+ path) in
  FormatTerminalLink (if String.eqb label "" then url else label) url.

Definition FormatURLWithStyle (label url : string) : string :=
  let link := FormatTerminalLink label url in if IsRich then Secondary link else link.

Definition FormatEmail (email : string) : string := FormatTerminalLink email ("mailto:" +:+ email).

(** ** Taglines *)

Definition defaultTagline : string := "Trusted Proxy Service".

Definition taglines : list string :=
  ["Trusted Proxy Service"; "Your Packets, Relayed Securely"; "Privacy-first proxy routing";
   "Connecting you securely, anywhere"; "Secure relay for the modern era";
   "Routing trust, one packet at a time"; "Making censorship obsolete since 2024";
   "Where privacy meets performance"; "Silent guardian of your privacy"; "Tunneling through barriers"].

Record taglineRule := MkTaglineRule { tl_month : Z; tl_day : Z; tl_tagline : string }.

Definition holidayTaglines : gmap string (list taglineRule) :=
  <["christmas" := [MkTaglineRule 12 25 "🎄 Ho ho ho—relaying holiday cheer!";
                    MkTaglineRule 12 24 "🎄 Santa's favorite proxy service"]]>
  (<["halloween" := [MkTaglineRule 10 31 "🎃 Boo! Your packets are haunted";
                     MkTaglineRule 10 30 "🎃 Spooky secure connections"]]>
  (<["valentine" := [MkTaglineRule 2 14 "💘 Sending love through encrypted channels"]]>
   {["newyear" := [MkTaglineRule 1 1 "🎉 Happy New Year! Fresh connections await"]]})).

(** [now] decides the day, [r] is the number of [rand.Intn]. *)
Definition PickTagline {ZN : Zone} {MO : MapOrder} (now : Z) (r : nat) : string :=
  let '(_, month, day) := civil now in
  match List.find (fun rule => (tl_month rule =? month) && (tl_day rule =? day))
          (concat (map snd (range_order holidayTaglines))) with
  | Some rule => tl_tagline rule
  | None => nth (r mod length taglines) taglines defaultTagline
  end.

Definition GetAllTaglines : list string := taglines.

Definition FormatTagline (tagline : string) : string :=
  if negb IsRich then tagline
  else if existsb (HasPrefix tagline) ["🎄"; "🎃"; "💘"; "🎉"] then tagline else AccentDim tagline.

(** ** The banner *)

Definition VERSION : string := "v1.0.0".

Definition FormatBannerLine (version tagline : string) : string :=
  let title := "◆ MULTI-PROTOCOL PROXY" in
  if IsRich then Heading title +:+ " " +:+ Info version +:+ " " +:+ Muted "—" +:+ " " +:+ AccentDim tagline
  else title +:+ " " +:+ version +:+ " — " +:+ tagline.

(** The palette of [palette.go], which nothing reads. *)
Record Palette := MkPalette {
  pAccent : string;
  pAccentBright : string;
  pAccentDim : string;
  pInfo : string;
  pSuccess : string;
  pWarn : string;
  pError : string;
  pMuted : string
}.
Definition CLI_PALETTE : Palette :=
  MkPalette "#FF5A2D" "#FF7A3D" "#D14A22" "#FF8A5B" "#2FBF71" "#FFB020" "#E23D2D" "#8B7F77".

(** Not used by the program. *)
Definition asciiBanner : list string :=
  ["██████╗░██████╗░░█████╗░██╗░░██╗██╗░░░██╗";
   "██╔══██╗██╔══██╗██╔══██╗╚██╗██╔╝╚██╗░██╔╝";
   "██████╔╝██████╔╝██║░░██║░╚███╔╝░░╚████╔╝░";
   "██╔═══╝░██╔══██╗██║░░██║░██╔██╗░░░╚██╔╝░░";
   "██║░░░░░██║░░██║╚█████╔╝██╔╝╚██╗░░░██║░░░";
   "╚═╝░░░░░╚═╝░░╚═╝░╚════╝░╚═╝░░╚═╝░░░╚═╝░░░"].

Definition simpleBanner : list string :=
  ["██████╗ ██████╗  ██████╗ ██╗  ██╗██╗   ██╗";
   "██╔══██╗██╔══██╗██╔═══██╗╚██╗██╔╝╚██╗ ██╔╝";
   "██████╔╝██████╔╝██║   ██║ ╚███╔╝  ╚████╔╝ ";
   "██╔═══╝ ██╔══██╗██║   ██║ ██╔██╗   ╚██╔╝  ";
   "██║     ██║  ██║╚██████╔╝██╔╝╚██╗   ██║   ";
   "╚═╝     ╚═╝  ╚═╝ ╚═════╝ ╚═╝  ╚═╝   ╚═╝   "].

(** The runes of a string in UTF-8, each as its bytes. *)
Fixpoint runes_from (rune : string) (skip : nat) (s : string) : list string :=
  match s with
  | EmptyString => []
  | String c s =>
      match skip with
      | S (S skip) => runes_from (rune +:+ String c "") (S skip) s
      | S O => (rune +:+ String c "") :: runes_from "" 0 s
      | O => match rune_more c s with
             | O => String c "" :: runes_from "" 0 s
             | k => runes_from (String c "") k s
             end
      end
  end.

Definition colour_rune (ch : string) : string :=
  if existsb (String.eqb ch) ["█"; "╗"; "╔"; "╚"; "╝"; "║"] then Sprint [FgHiRed; BoldAttr] ch
  else if existsb (String.eqb ch) ["░"; "═"; "╣"; "╠"] then Sprint [FgRed] ch
  else Muted ch.

Definition FormatBannerArt : string :=
  if negb IsRich then String.concat newline_text simpleBanner
  else String.concat newline_text
         (map (fun l => String.concat "" (map colour_rune (runes_from "" 0 l))) simpleBanner).

(** The text printed and the new value of [bannerEmitted]; [args] is [os.Args]. *)
(** [isTTY], from what [os.Stdout.Stat()] gives: the mode, with [os.ModeCharDevice] in
    bit 21, or an error. *)
Definition isTTY (stat : result Z) : bool :=
  match stat with Ok mode => negb (Z.land mode (Z.shiftl 1 21) =? 0) | Err _ => false end.

Definition EmitBanner (tty bannerEmitted : bool) (args : list string) (version tagline : string) : string * bool :=
  if bannerEmitted then ("", true) else
  if negb tty then ("", false) else
  if existsb (fun arg => existsb (String.eqb arg) ["--json"; "--version"; "-v"]) args then ("", false) else
  (lines_of [""; FormatBannerArt; ""; FormatBannerLine version tagline; ""], true).

Definition EmitSimpleBanner (tty bannerEmitted : bool) (version tagline : string) : outcome (string * bool) :=
  if bannerEmitted then Done ("", true) else
  if negb tty then Done ("", false) else
  let badge := Sprint [BgMagenta; FgWhite; BoldAttr] " ◆ PROXY " in
  let topBorder := Muted ("╭" +:+ repeat_string "─" 60 +:+ "╮") in
  let titleLine := Muted "│" +:+ "  " +:+ badge +:+ " " +:+ Muted version +:+ "  "
                   +:+ Muted (repeat_string " " 38 +:+ "│") in
  fill ← Repeat " " (60 - 2 - strlen tagline);
  let subtitleLine := Muted "│" +:+ "  " +:+ Subtle tagline +:+ Muted (fill +:+ "│") in
  let bottomBorder := Muted ("╰" +:+ repeat_string "─" 60 +:+ "╯") in
  Done (lines_of [""; topBorder; titleLine; subtitleLine; bottomBorder; ""], true).

Definition ResetBanner (bannerEmitted : bool) : bool := false.

Definition PrintBanner {ZN : Zone} {MO : MapOrder} (tty bannerEmitted : bool) (now : Z) (r : nat)
    : outcome (string * bool) :=
  EmitSimpleBanner tty bannerEmitted VERSION (PickTagline now r).

(** ** Log lines *)

(** [t.Format("15:04:05")] *)
Definition FormatTime {ZN : Zone} (t : Z) : string :=
  FormatClock t +:+ ":" +:+ pad_to 2 (decimal (local_seconds t mod 60)).

Definition LogThinking {ZN : Zone} (now : Z) (message : string) : string :=
  line (Muted (FormatTime now) +:+ "  " +:+ Primary "◐" +:+ "  " +:+ Subtle message).

Definition LogStatus {ZN : Zone} (now : Z) (category message : string) : string :=
  let '(icon, styledMsg) :=
    if String.eqb category "success" then (Success "✓", Success message)
    else if String.eqb category "error" then (Error "✗", Error message)
    else if String.eqb category "warning" || String.eqb category "warn" then (Warn "⚠", Warn message)
    else if String.eqb category "info" then (Info "ℹ", Subtle message)
    else (Muted "●", Subtle message) in
  line (Muted (FormatTime now) +:+ "  " +:+ icon +:+ "  " +:+ styledMsg).

Definition LogSection (title : string) : outcome string :=
  rule ← Repeat "─" (50 - strlen title);
  Done (lines_of [""; Muted "──" +:+ " " +:+ Heading title +:+ " " +:+ Muted rule]).

Definition LogGroup (title : string) : outcome string :=
  rule ← Repeat "─" (50 - strlen title);
  Done (lines_of [""; Muted "╭" +:+ Muted (repeat_string "─" 2) +:+ " " +:+ Primary title +:+ " "
                      +:+ Muted rule +:+ Muted "╮"]).

Definition LogGroupEnd : string := lines_of [Muted ("╰" +:+ repeat_string "─" 56 +:+ "╯"); ""].

Definition LogGroupItem (label value : string) : string :=
  line (Muted "│" +:+ "  " +:+ Muted (label +:+ ":") +:+ " " +:+ Secondary value).

Definition LogConnection {ZN : Zone} (now : Z) (event target : string) : string :=
  let icon := if String.eqb event "connect" then Primary "◆"
              else if String.eqb event "disconnect" then Muted "◇" else Muted "●" in
  line (Muted (FormatTime now) +:+ "  " +:+ icon +:+ "  " +:+ Secondary target).

(** [value] as [fmt]'s [%v] prints it. *)
Definition LogMetric {ZN : Zone} (now : Z) (name value unit : string) : string :=
  line (Muted (FormatTime now) +:+ "  " +:+ Muted "◈" +:+ "  " +:+ Subtle name +:+ ": " +:+ AccentBright value
        +:+ " " +:+ Muted unit).

Definition PrintSeparator : string := line (Muted ("  " +:+ repeat_string "─" 56)).

Definition PrintFooter (message : string) : string :=
  lines_of [""; "  " +:+ Muted "▸" +:+ " " +:+ Muted message].

Definition FormatError (err : string) (solutions : list string) : string :=
  String.concat newline_text
    ([Error ("✗ Error: " +:+ err); ""] ++
     (if decide (solutions = []) then []
      else [Muted "Possible solutions:"] ++ map (fun s => Muted ("  • " +:+ s)) solutions ++ [""]) ++
     [Muted ("Docs: " +:+ FormatDocsLink "/troubleshooting" "signal.org/docs")]).

Definition LogGracefulShutdown : string := lines_of [""; "  " +:+ Muted "✋" +:+ " " +:+ Muted "Cancelled"].

Section Sizes.
Context {F : Type} {GF : GoFloat F} {FF : FloatFormat F}.

Definition formatBytes (b : Z) : string :=
  let KB := 1024 in let MB := KB * 1024 in let GB := MB * 1024 in
  if b <? KB then decimal b +:+ "B"
  else if b <? MB then Sprintf_1f (f_of_Z b / f_of_Z KB)%F +:+ "KB"
  else if b <? GB then Sprintf_1f (f_of_Z b / f_of_Z MB)%F +:+ "MB"
  else Sprintf_1f (f_of_Z b / f_of_Z GB)%F +:+ "GB".

Definition LogRelay {ZN : Zone} (now : Z) (sni clientIP : string) (up down : Z) : string :=
  line (Muted (FormatTime now) +:+ "  " +:+ Success "→" +:+ "  " +:+ Secondary (left_justified 28 sni) +:+ "  "
        +:+ Muted (left_justified 16 clientIP) +:+ "  "
        +:+ Muted "↑" +:+ " " +:+ Subtle (left_justified 8 (formatBytes up)) +:+ "  "
        +:+ Muted "↓" +:+ " " +:+ Subtle (left_justified 8 (formatBytes down))).
End Sizes.

(** A table of the entries of a map, in the order Go ranges over it. *)
Definition RenderSimpleTable {MO : MapOrder} (data : gmap string string) : string :=
  let maxKey := fold_left (fun m kv => if m <? strlen kv.1 then strlen kv.1 else m) (range_order data) 0 in
  String.concat newline_text
    (map (fun kv => "  " +:+ Muted (PadRight (kv.1 +:+ ":") (wrap64 (maxKey + 1))) +:+ "  " +:+ Subtle kv.2)
       (range_order data)).

(** ** Notes *)

Section Notes.
Context {WD : Words}.
Variable lookup_env : string -> option string.

(** [strings.Fields] of an ASCII string; [word] is the field being read. *)
Fixpoint fields_from (word s : string) : list string :=
  let flush := if String.eqb word "" then [] else [word] in
  match s with
  | EmptyString => flush
  | String c s => if is_space c then flush ++ fields_from "" s else fields_from (word +:+ String c "") s
  end.
Definition Fields (s : string) : list string := if is_ascii s then fields_from "" s else unicode_fields s.

(** [fmt.Sscanf(s, "%d", &n)]: blanks, a sign, and the digits that follow. *)
Fixpoint skip_blanks (s : string) : string :=
  match s with
  | String c t => if is_space c && negb (bool_decide (c = chr 10)) then skip_blanks t else s
  | EmptyString => EmptyString
  end.
Fixpoint digit_prefix (s : string) : string :=
  match s with
  | String c t => if is_digit c then String c (digit_prefix t) else EmptyString
  | EmptyString => EmptyString
  end.
Definition Sscanf_d (s : string) : option Z :=
  let s := skip_blanks s in
  let '(sign, rest) := match s with
    | String c r => if decide (c = "-"%char \/ c = "+"%char) then (String c "", r) else ("", s)
    | EmptyString => ("", s)
    end in
  let '(n, ok) := Atoi (sign +:+ digit_prefix rest) in
  if ok : bool then Some n else None.

Definition parseIntOr (s : string) (def : Z) : Z := default def (Sscanf_d s).

(** The loop over the words: the lines complete and the current one. *)
Definition wrap_step (maxWidth : Z) (acc : list string * string) (word : string) : list string * string :=
  let '(lines, current) := acc in
  let candidate := (if String.eqb current "" then current else current +:+ " ") +:+ word in
  if VisibleWidth candidate <=? maxWidth then (lines, candidate)
  else ((if String.eqb current "" then lines else lines ++ [current]), word).

Definition wrapLine (text : string) (maxWidth : Z) : list string :=
  if String.eqb (TrimSpace text) "" then [text] else
  let words := Fields text in
  if decide (words = []) then [""] else
  let '(lines, current) := fold_left (wrap_step maxWidth) words ([], "") in
  if String.eqb current "" then lines else lines ++ [current].

Definition WrapNoteMessage (message : string) (maxWidth : Z) : string :=
  let columns := match lookup_env "COLUMNS" with
                 | Some term => let n := parseIntOr term 80 in if 0 <? n then n else 80
                 | None => 80
                 end in
  let width := wrap64 (columns - 10) in
  let width := if maxWidth <? width then maxWidth else width in
  let width := if width <? 40 then 40 else width in
  String.concat newline_text
    (concat (map (fun l => wrapLine l width) (SplitByte message (chr 10)))).

Definition max_width (lines : list string) : Z :=
  fold_left (fun m l => let w := VisibleWidth l in if m <? w then w else m) lines 0.

Definition Note (message title : string) : outcome string :=
  let lines := SplitByte (WrapNoteMessage message 80) (chr 10) in
  let boxWidth := max_width lines + 4 in
  top ← (if negb (String.eqb title "") then
           fill ← Repeat "─" (boxWidth - 4 - VisibleWidth title);
           Done (Muted "╭" +:+ Muted (repeat_string "─" 2) +:+ " "
                 +:+ (if IsRich then Heading title else title) +:+ " " +:+ Muted fill +:+ Muted "╮")
         else fill ← Repeat "─" boxWidth; Done (Muted ("╭" +:+ fill +:+ "╮")));
  let rows := map (fun l =>
    let padding := boxWidth - VisibleWidth l - 2 in
    let padding := if padding <? 0 then 0 else padding in
    Muted "│" +:+ " " +:+ l +:+ spaces padding +:+ " " +:+ Muted "│") lines in
  fill ← Repeat "─" boxWidth;
  Done (lines_of ([""; top] ++ rows ++ [Muted ("╰" +:+ fill +:+ "╯"); ""])).

Definition InfoNote (message : string) : outcome string := Note message "ℹ Info".
Definition WarningNote (message : string) : outcome string := Note message "⚠ Warning".
Definition ErrorNote (message : string) : outcome string := Note message "✗ Error".
Definition SuccessNote (message : string) : outcome string := Note message "✓ Success".
End Notes.
End Theme.
