(* ===== verification/TerminalFacts.v ===== *)
(** * What is printed, and when printing panics

    The banner never panics; a boxed note does when its title is wider than its
    text, and a section header when its title is longer than the rule; wrapping
    keeps every word in order. *)
From S2P Require Import Prelude GoStrings GoFloat GoTime Ansi AnsiFacts Table Terminal.
Open Scope Z_scope.

Lemma Repeat_cases s n :
  (n < 0 /\ Repeat s n = Panic) \/ (0 <= n /\ Repeat s n = Done (repeat_string s (Z.to_nat n))).
Proof. unfold Repeat. destruct (Z.ltb_spec n 0); [by left|by right]. Qed.

Section Panics.
Context {UC : Unicode} {CO : Color}.
Variable getenv : string -> string.

Lemma max_width_nonneg lines : 0 <= max_width lines.
Proof.
  unfold max_width. assert (forall acc, 0 <= acc ->
    0 <= fold_left (fun m l => let w := VisibleWidth l in if m <? w then w else m) lines acc) as H; [|by apply H].
  induction lines as [|l lines IH]; intros acc Ha; [done|]. cbn [fold_left]. apply IH. cbv zeta.
  destruct (Z.ltb_spec acc (VisibleWidth l)); lia.
Qed.

(** A note panics exactly when it has a title that is wider than every line of
    the text. *)
Theorem Note_panics {WD : Words} (lookup_env : string -> option string) (message title : string) :
  Note getenv lookup_env message title = Panic <->
    title <> "" /\ max_width (SplitByte (WrapNoteMessage lookup_env message 80) (chr 10)) < VisibleWidth title.
Proof.
  unfold Note. set (lines := SplitByte _ _). pose proof (max_width_nonneg lines).
  destruct (Repeat_cases "─" (max_width lines + 4)) as [[? ?]|[_ ->]]; [lia|].
  destruct (String.eqb_spec title "") as [->|Ht]; [by split; [|intros [? _]]|].
  destruct (Repeat_cases "─" (max_width lines + 4 - 4 - VisibleWidth title)) as [[Hn ->]|[Hn ->]]; simpl.
  - split; [|done]. intros _. split; [done|lia].
  - split; [done|]. intros [_ ?]. lia.
Qed.

(** The headers of the log panic for titles of more than fifty bytes. *)
Lemma LogSection_panics title :
  (LogSection title = Panic <-> 50 < strlen title) /\ (LogGroup title = Panic <-> 50 < strlen title).
Proof.
  unfold LogSection, LogGroup. destruct (Repeat_cases "─" (50 - strlen title)) as [[? ->]|[? ->]]; simpl.
  - split; split; done || lia.
  - split; (split; [done|lia]).
Qed.

Definition all_rules : list taglineRule := concat (map snd (map_to_list holidayTaglines)).

Lemma in_rules {MO : MapOrder} (m : gmap string (list taglineRule)) rule :
  In rule (concat (map snd (range_order m))) -> In rule (concat (map snd (map_to_list m))).
Proof.
  intros Hin. apply in_concat in Hin as (rules & Hr & Hin). apply in_concat. exists rules. split; [|exact Hin].
  apply in_map_iff in Hr as (kv & <- & Hkv). apply in_map.
  apply list_elem_of_In. rewrite <- (range_order_perm m). by apply list_elem_of_In.
Qed.

Lemma find_tagline (p : taglineRule -> bool) (l : list taglineRule) r :
  let t := match List.find p l with Some rule => tl_tagline rule | None => nth (r mod length taglines) taglines defaultTagline end in
  In t taglines \/ exists rule, In rule l /\ t = tl_tagline rule.
Proof.
  cbv zeta. destruct (List.find p l) as [rule|] eqn:E.
  - right. exists rule. split; [|reflexivity]. by apply find_some in E as [? _].
  - left. apply nth_In. apply Nat.mod_upper_bound. discriminate.
Qed.

Lemma PickTagline_known {ZN : Zone} {MO : MapOrder} now r :
  In (PickTagline now r) (taglines ++ map tl_tagline all_rules).
Proof.
  unfold PickTagline. destruct (civil now) as [[y m] d]. apply in_or_app.
  destruct (find_tagline (fun rule => (tl_month rule =? m) && (tl_day rule =? d))
    (concat (map snd (range_order holidayTaglines))) r) as [H|(rule & H & E)]; [by left|].
  right. rewrite E. apply in_map. exact (in_rules _ _ H).
Qed.

Lemma taglines_fit :
  forallb (fun t => strlen t <=? 58)
    (taglines ++ map tl_tagline all_rules) = true.
Proof. vm_compute. reflexivity. Qed.

(** The first thing the program does does not panic: whatever the day, the random
    number and the order of the holidays, the tagline fits the banner. *)
Theorem PrintBanner_safe {ZN : Zone} {MO : MapOrder} (tty emitted : bool) (now : Z) (r : nat) :
  exists text, PrintBanner tty emitted now r = Done (text, emitted || tty).
Proof.
  unfold PrintBanner, EmitSimpleBanner. destruct emitted; [by eexists|]. destruct tty; [|by eexists].
  pose proof taglines_fit as H. rewrite forallb_forall in H. specialize (H _ (PickTagline_known now r)).
  apply Z.leb_le in H. destruct (Repeat_cases " " (60 - 2 - strlen (PickTagline now r))) as [[? _]|[_ ->]]; [lia|].
  by eexists.
Qed.

(** ** Wrapping *)

Lemma fields_from_nonempty s : forall word, Forall (fun w => w <> "") (fields_from word s).
Proof.
  induction s as [|c s IH]; intros word; cbn [fields_from].
  - destruct (String.eqb_spec word ""); by repeat constructor.
  - destruct (is_space c); [|apply IH]. apply Forall_app. split; [|apply IH].
    destruct (String.eqb_spec word ""); by repeat constructor.
Qed.

Lemma concat_snoc g w : g <> [] -> String.concat " " (g ++ [w]) = String.concat " " g +:+ " " +:+ w.
Proof.
  induction g as [|x g IH]; [done|]. intros _. destruct g as [|y g]; [done|].
  change (String.concat " " ((x :: y :: g) ++ [w])) with (x +:+ " " +:+ String.concat " " ((y :: g) ++ [w])).
  rewrite IH by done. change (String.concat " " (x :: y :: g)) with (x +:+ " " +:+ String.concat " " (y :: g)).
  by rewrite !str_app_assoc.
Qed.

Lemma concat_words_nil g : Forall (fun w => w <> "") g -> String.concat " " g = "" -> g = [].
Proof.
  intros H. destruct H as [|w g Hw H]; [done|]. destruct w as [|c w]; [done|]. by destruct g.
Qed.

(** A line of the result is narrow enough, or a single word. *)
Definition line_fits (maxWidth : Z) (g : list string) : Prop :=
  g <> [] /\ (VisibleWidth (String.concat " " g) <= maxWidth \/ length g = 1%nat).

Lemma wrap_fold maxWidth words : forall gs g,
  Forall (fun w => w <> "") words -> Forall (fun w => w <> "") g -> Forall (line_fits maxWidth) gs ->
  (g = [] \/ line_fits maxWidth g) ->
  exists gs' g', fold_left (wrap_step maxWidth) words (map (String.concat " ") gs, String.concat " " g)
      = (map (String.concat " ") gs', String.concat " " g') /\
    concat gs' ++ g' = concat gs ++ g ++ words /\ Forall (line_fits maxWidth) gs' /\
    (g' = [] \/ line_fits maxWidth g') /\ Forall (fun w => w <> "") g'.
Proof.
  induction words as [|w words IH]; intros gs g Hw Hg Hgs Hfit.
  { exists gs, g. by rewrite app_nil_r. }
  apply Forall_cons in Hw as [Hw Hws]. cbn [fold_left]. unfold wrap_step at 2.
  set (candidate := _ +:+ w).
  assert (candidate = String.concat " " (g ++ [w])) as Hcand.
  { unfold candidate. destruct (String.eqb_spec (String.concat " " g) "") as [E|E].
    - rewrite E. apply concat_words_nil in E as ->; [|done]. done.
    - rewrite concat_snoc; [by rewrite str_app_assoc|]. by intros ->. }
  rewrite Hcand. destruct (Z.leb_spec (VisibleWidth (String.concat " " (g ++ [w]))) maxWidth) as [Hle|Hgt].
  - destruct (IH gs (g ++ [w])) as (gs' & g' & -> & Hc & H'); [done|apply Forall_app; by repeat constructor|done| |].
    { right. split; [by destruct g|by left]. }
    exists gs', g'. split; [done|]. by rewrite Hc, <- app_assoc.
  - destruct (String.eqb_spec (String.concat " " g) "") as [E|E].
    + apply concat_words_nil in E as ->; [|done].
      destruct (IH gs [w]) as (gs' & g' & Hf & Hc & H'); [done|by repeat constructor|done| |].
      { right. split; [done|by right]. }
      exists gs', g'. rewrite <- Hf. split; [done|]. by rewrite Hc.
    + destruct Hfit as [->|Hfit]; [done|].
      destruct (IH (gs ++ [g]) [w]) as (gs' & g' & Hf & Hc & H').
      * done.
      * by repeat constructor.
      * apply Forall_app. split; [done|]. by apply Forall_singleton.
      * right. split; [done|by right].
      * exists gs', g'. rewrite <- Hf. rewrite map_app. split; [done|].
        rewrite Hc, concat_app. simpl. by rewrite app_nil_r, <- !app_assoc.
Qed.

(** Wrapping a line that is not blank loses, adds and reorders no word: the
    lines are the words in groups, each group either narrow enough or one word that
    is not. *)
Theorem wrapLine_spec {WD : Words} (text : string) (maxWidth : Z) :
  is_ascii text = true -> TrimSpace text <> "" -> Fields text <> [] ->
  exists groups, concat groups = Fields text /\ wrapLine text maxWidth = map (String.concat " ") groups /\
    Forall (line_fits maxWidth) groups.
Proof.
  intros Ha Ht Hf. unfold wrapLine. rewrite (proj2 (String.eqb_neq _ _)), decide_False by done.
  assert (Forall (fun w => w <> "") (Fields text)) as Hw
    by (unfold Fields; rewrite Ha; apply fields_from_nonempty).
  destruct (wrap_fold maxWidth (Fields text) [] []) as (gs & g & E & Hc & Hgs & Hg & Hne); try done; [by left|].
  simpl in E. rewrite E. simpl in Hc. destruct (String.eqb_spec (String.concat " " g) "") as [Eg|Eg].
  - apply concat_words_nil in Eg as ->; [|done]. exists gs. by rewrite app_nil_r in Hc.
  - exists (gs ++ [g]). rewrite concat_app, map_app. simpl. rewrite app_nil_r. split_and!; [done|done|].
    apply Forall_app. split; [done|]. constructor; [|done]. destruct Hg as [->|Hg]; done.
Qed.
End Panics.

Definition no_colour : Color := {| Sprint _ msg := msg; NoColor := true |}.
Definition one_word : Words := {| unicode_fields s := [s] |}.
#[local] Existing Instances no_colour one_word.

Lemma wrapLine_spec_witness :
  exists groups, concat groups = Fields "to be or  not" /\
    wrapLine "to be or  not" 5 = map (String.concat " ") groups /\ Forall (line_fits 5) groups.
Proof. apply (wrapLine_spec "to be or  not" 5); [reflexivity|vm_compute; discriminate|vm_compute; discriminate]. Defined.

(** A short information note panics; and the line with the title of the banner is
    two columns narrower than its frame. *)
Example InfoNote_short : InfoNote (fun _ => "") (fun _ => None) "done" = Panic.
Proof. vm_compute. reflexivity. Qed.
Example banner_title_short :
  (fun p => map VisibleWidth (SplitByte p.1 (chr 10))) <$>
    match EmitSimpleBanner true false VERSION "Trusted Proxy Service" with Done p => Some p | Panic => None end
  = Some [0; 62; 60; 62; 62; 0; 0].
Proof. vm_compute. reflexivity. Qed.
Example banner_art_runes : map (fun l => length (runes_from "" 0 l)) simpleBanner = [42; 42; 42; 42; 42; 42]%nat.
Proof. vm_compute. reflexivity. Qed.
Example formatBytes_rounds_up : formatBytes (F := Q) 1048575 = "1024.0KB".
Proof. vm_compute. reflexivity. Qed.
