(* ===== verification/Progress.v ===== *)
(** * Progress bars ([internal/ui/progress.go])

    [ProgressReporter] is the interface, with its two implementations: the reporter on a
    terminal, and the one that does nothing. [act] is one tick of the animation or one
    call of a [progressReporter], each of which holds its mutex; [screen] is what has
    been written to standard error. *)
From S2P Require Import Prelude GoStrings Ansi AnsiFacts Table Terminal TerminalFacts.
Open Scope Z_scope.

Definition spinnerFrames : list string := ["◐"; "◓"; "◑"; "◒"].

(** [stopped] says that [stopChan] is closed. *)
Record progressReporter := MkProgressReporter {
  label : string;
  percent : Z;
  total : Z;
  current : Z;
  done_ : bool;
  stopped : bool;
  frame : Z;
  screen : string
}.

Section Progress.
Context {UC : Unicode} {CO : Color}.
Variable getenv : string -> string.

(** The reporter [CreateProgress] makes on a terminal. *)
Definition new_progress (l : string) (t : Z) : progressReporter :=
  MkProgressReporter l 0 t 0 false false 0 "".

Definition put (p : progressReporter) (s : string) : progressReporter :=
  MkProgressReporter p.(label) p.(percent) p.(total) p.(current) p.(done_) p.(stopped) p.(frame) (p.(screen) +:+ s).

Definition clear_line : string := String (chr 13) (String ESC "[K").

Fixpoint bar_loop (n : nat) (i filled : Z) : string :=
  match n with
  | O => ""
  | S n => (if i <? filled then "█" else "░") +:+ bar_loop n (i + 1) filled
  end.

Definition renderProgressBar (percent width : Z) : string :=
  let filled := Z.quot (wrap64 (percent * width)) 100 in
  let filled := if width <? filled then width else filled in
  let bar := bar_loop (Z.to_nat width) 0 filled in
  if IsRich getenv then Accent bar else bar.

(** [spinnerFrames[p.frame]] panics out of range. *)
Definition render (p : progressReporter) : outcome progressReporter :=
  spinner ← index spinnerFrames p.(frame);
  let spinner := if IsRich getenv then Primary spinner else spinner in
  Done (put p (clear_line +:+
    if 0 <? p.(total)
    then "  " +:+ spinner +:+ " " +:+ Subtle p.(label) +:+ " " +:+ renderProgressBar p.(percent) 20
         +:+ " " +:+ decimal p.(percent) +:+ "%"
    else "  " +:+ spinner +:+ " " +:+ Subtle p.(label))).

(** One tick of [animate], whose goroutine returns once [done_] is seen. *)
Definition animate (p : progressReporter) : outcome progressReporter :=
  if p.(done_) then Done p else
  p ← render p;
  Done (MkProgressReporter p.(label) p.(percent) p.(total) p.(current) p.(done_) p.(stopped)
          (Z.rem (wrap64 (p.(frame) + 1)) (zlen spinnerFrames)) p.(screen)).

Definition SetLabel (p : progressReporter) (l : string) : progressReporter :=
  MkProgressReporter l p.(percent) p.(total) p.(current) p.(done_) p.(stopped) p.(frame) p.(screen).

Definition SetPercent (p : progressReporter) (n : Z) : progressReporter :=
  let n := if n <? 0 then 0 else n in
  let n := if 100 <? n then 100 else n in
  MkProgressReporter p.(label) n p.(total) p.(current) p.(done_) p.(stopped) p.(frame) p.(screen).

Definition Tick (p : progressReporter) (delta : Z) : progressReporter :=
  if p.(total) <=? 0 then p else
  let c := wrap64 (p.(current) + delta) in
  let c := if p.(total) <? c then p.(total) else c in
  MkProgressReporter p.(label) (Z.quot (wrap64 (c * 100)) p.(total)) p.(total) c p.(done_) p.(stopped)
    p.(frame) p.(screen).

(** Closing [stopChan] a second time would panic. *)
Definition Done_ (p : progressReporter) : outcome progressReporter :=
  if p.(done_) then Done p
  else if p.(stopped) then Panic
  else Done (put (MkProgressReporter p.(label) p.(percent) p.(total) p.(current) true true p.(frame) p.(screen)) clear_line).

Inductive action := AAnimate | ASetLabel (l : string) | ASetPercent (n : Z) | ATick (delta : Z) | ADone.

Definition act (p : progressReporter) (a : action) : outcome progressReporter :=
  match a with
  | AAnimate => animate p
  | ASetLabel l => Done (SetLabel p l)
  | ASetPercent n => Done (SetPercent p n)
  | ATick delta => Done (Tick p delta)
  | ADone => Done_ p
  end.

(** The interface: what a call, or a tick of the goroutine behind it, does to a [P]. *)
Class ProgressReporter (P : Type) := { report : P -> action -> outcome P }.

#[export] Instance progress_reporter : ProgressReporter progressReporter := {| report := act |}.

(** [noopProgress], which has no state. *)
#[export] Instance noopProgress : ProgressReporter unit := {| report _ _ := Done tt |}.

(** A value of the interface type is one of the two. *)
#[export] Instance either_reporter {P Q} `{ProgressReporter P} `{ProgressReporter Q} : ProgressReporter (P + Q) :=
  {| report r a := match r with
                   | inl p => p ← report p a; Done (inl p)
                   | inr q => q ← report q a; Done (inr q)
                   end |}.

Definition reporter : Type := unit + progressReporter.

Definition CreateProgress (tty : bool) (l : string) (t : Z) : reporter :=
  if tty then inr (new_progress l t) else inl tt.

Definition Spinner (tty : bool) (l : string) : reporter := CreateProgress tty l 0.

(** [fn] may panic; the deferred [Done] runs in any case. *)
Definition WithProgress (tty : bool) (l : string) (t : Z)
    (fn : reporter -> outcome (result unit * reporter)) : outcome (result unit * reporter) :=
  '(err, p) ← fn (CreateProgress tty l t);
  p ← report p ADone;
  Done (err, p).

Fixpoint run {P} `{ProgressReporter P} (p : P) (acts : list action) : outcome P :=
  match acts with [] => Done p | a :: acts => p ← report p a; run p acts end.

(** ** Bounds *)

Definition progress_inv (p : progressReporter) : Prop :=
  0 <= percent p <= 100 /\ 0 <= frame p < 4 /\ done_ p = stopped p /\
  (0 < total p -> 0 <= current p <= total p) /\ total p <= 2^56.

Definition forward (a : action) : Prop := match a with ATick delta => 0 <= delta <= 2^62 | _ => True end.

Lemma render_inv p : progress_inv p -> exists s, render p = Done (put p s).
Proof.
  intros (_ & Hf & _). unfold render.
  assert (exists s, index spinnerFrames (frame p) = Done s) as [s ->]; [|by eexists].
  assert (frame p = 0 \/ frame p = 1 \/ frame p = 2 \/ frame p = 3) as [E|[E|[E|E]]] by lia; rewrite E; by eexists.
Qed.

Lemma act_inv p a : progress_inv p -> forward a -> exists p', act p a = Done p' /\ progress_inv p' /\ total p' = total p.
Proof.
  intros Hp Ha. pose proof Hp as (Hpc & Hf & Hd & Hc & Ht). destruct a as [|l|n|delta|]; cbn [act].
  - unfold animate. destruct (done_ p) eqn:E; [by eexists|].
    destruct (render_inv p Hp) as [s ->]. eexists. split; [reflexivity|]. split; [|done].
    assert (0 <= Z.rem (wrap64 (frame p + 1)) (zlen spinnerFrames) < 4) as Hfr.
    { rewrite wrap64_id by (unfold in_int64; lia). apply (Z.rem_bound_pos _ 4); lia. }
    unfold progress_inv. cbn [percent frame done_ stopped total current put]. split_and!; try done; try lia.
    congruence.
  - by eexists.
  - eexists. split; [reflexivity|]. split; [|done]. unfold progress_inv. simpl. split_and!; try done; try lia.
    + destruct (Z.ltb_spec n 0); simpl; [lia|]. destruct (Z.ltb_spec 100 n); lia.
    + destruct (Z.ltb_spec n 0); simpl; [lia|]. destruct (Z.ltb_spec 100 n); lia.
  - eexists. split; [reflexivity|]. unfold Tick. destruct (Z.leb_spec (total p) 0) as [|Hpos]; [done|].
    simpl in Ha. specialize (Hc Hpos). rewrite (wrap64_id (current p + delta)) by (unfold in_int64; lia).
    set (c := if total p <? current p + delta then total p else current p + delta).
    assert (0 <= c <= total p) as Hb by (unfold c; destruct (Z.ltb_spec (total p) (current p + delta)); lia).
    rewrite wrap64_id by (unfold in_int64; lia). split; [|done]. unfold progress_inv.
    cbn [percent frame done_ stopped total current]. split_and!; try done; try lia.
    + apply Z.quot_pos; lia.
    + apply Z.quot_le_upper_bound; lia.
  - unfold Done_. destruct (done_ p) eqn:E; [by eexists|]. rewrite <- Hd. eexists. split; [reflexivity|].
    split; [|done]. unfold progress_inv. by cbn.
Qed.

Lemma run_inv acts : forall p, Forall forward acts -> progress_inv p ->
  exists p', run p acts = Done p' /\ progress_inv p' /\ total p' = total p.
Proof.
  induction acts as [|a acts IH]; intros p Hacts Hp; [by exists p|]. apply Forall_cons in Hacts as [Ha Hacts].
  cbn [run report progress_reporter]. destruct (act_inv p a Hp Ha) as (p1 & -> & Hp1 & E1). simpl.
  destruct (IH p1 Hacts Hp1) as (p' & -> & Hp' & E'). exists p'. split_and!; [done..|congruence].
Qed.

Lemma new_progress_inv l t : t <= 2^56 -> progress_inv (new_progress l t).
Proof. intros. unfold progress_inv. simpl. split_and!; try lia; done. Qed.

Lemma run_noop acts : run (inl tt : reporter) acts = Done (inl tt).
Proof. induction acts as [|a acts IH]; [done|]. exact IH. Qed.

Lemma run_bar acts : forall p p', run p acts = Done p' -> run (inr p : reporter) acts = Done (inr p').
Proof.
  induction acts as [|a acts IH]; intros p p'; [by intros [= <-]|]. cbn [run report either_reporter].
  destruct (report p a) as [p1|]; [|done]. simpl. apply IH.
Qed.

Lemma run_app {P} `{ProgressReporter P} acts acts' : forall p : P,
  run p (acts ++ acts') = match run p acts with Done p' => run p' acts' | Panic => Panic end.
Proof.
  induction acts as [|a acts IH]; intros p; [done|]. cbn [run app]. by destruct (report p a) as [p1|]; [apply IH|].
Qed.

(** However a reporter is used, it does not panic: the spinner frame stays in range
    and the channel is closed at most once; and as long as progress only goes
    forward, the percentage stays one and the count within the total. Where there is
    no terminal the reporter does nothing. *)
Theorem progress_safe (tty : bool) (l : string) (t : Z) (acts : list action) :
  t <= 2^56 -> Forall forward acts ->
  exists r, run (CreateProgress tty l t) acts = Done r /\
    match r with
    | inl _ => tty = false
    | inr p => tty = true /\ 0 <= percent p <= 100 /\ total p = t /\ (0 < t -> 0 <= current p <= t)
    end.
Proof.
  intros Ht Hacts. destruct tty; [|exists (inl tt); split; [apply run_noop|done]].
  destruct (run_inv acts _ Hacts (new_progress_inv l t Ht)) as (p & Hr & (Hpc & _ & _ & Hc & _) & E).
  exists (inr p). split; [by apply run_bar|]. simpl in E. rewrite E in Hc.
  split_and!; try done; lia.
Qed.

Lemma WithProgress_run tty l t acts err r :
  run (CreateProgress tty l t) (acts ++ [ADone]) = Done r ->
  WithProgress tty l t (fun p => p ← run p acts; Done (err, p)) = Done (err, r).
Proof.
  unfold WithProgress. rewrite run_app. destruct (run (CreateProgress tty l t) acts) as [r1|]; [|done].
  cbn [run mbind outcome_bind]. by destruct (report r1 ADone) as [r2|]; [|done]; intros [= ->].
Qed.

(** [WithProgress] returns what its function returns, and leaves the line it drew on
    empty and the animation stopped. *)
Theorem WithProgress_done (l : string) (t : Z) (acts : list action) (err : result unit) :
  t <= 2^56 -> Forall forward acts ->
  exists p, WithProgress true l t (fun p => p ← run p acts; Done (err, p)) = Done (err, inr p) /\
    done_ p = true /\ stopped p = true.
Proof.
  intros Ht Hacts. destruct (run_inv acts _ Hacts (new_progress_inv l t Ht)) as (p1 & Hr & Hp1 & _).
  destruct (act_inv p1 ADone Hp1 I) as (p & Ha & (_ & _ & Hds & _) & _).
  exists p. split.
  - apply WithProgress_run. rewrite run_app. unfold CreateProgress. rewrite (run_bar acts _ _ Hr).
    cbn [run report either_reporter progress_reporter]. by rewrite Ha.
  - revert Ha. unfold act, Done_. destruct (done_ p1) eqn:E; [|destruct (stopped p1); [done|]]; intros [= <-];
      [|by split]. rewrite <- Hds. by split.
Qed.

(** The bar is as wide as asked for, whatever the percentage. *)
Lemma renderProgressBar_width pc width :
  0 <= width -> (forall s, IsRich getenv = true -> VisibleWidth (Accent s) = VisibleWidth s) ->
  VisibleWidth (renderProgressBar pc width) = width.
Proof.
  intros Hw Hcol. unfold renderProgressBar. set (filled := if width <? _ then _ else _).
  assert (forall n i, wide (Z.of_nat n) (bar_loop n i filled) /\ no_escape (bar_loop n i filled) = true) as Hbar.
  { induction n as [|n IH]; intros i; [split; [by intros t|done]|]. cbn [bar_loop].
    destruct (IH (i + 1)) as [H1 H2]. rewrite no_escape_app, H2. split; [|by destruct (i <? filled)].
    eapply wide_eq; [apply wide_app; [|exact H1]|].
    - assert (wide 1 (if i <? filled then "█" else "░")) as H; [|exact H].
      destruct (i <? filled); intros t; reflexivity.
    - lia. }
  destruct (Hbar (Z.to_nat width) 0) as [H1 H2].
  assert (VisibleWidth (bar_loop (Z.to_nat width) 0 filled) = width) as E.
  { rewrite plain_width by done. rewrite (wide_count _ _ H1). lia. }
  destruct (IsRich getenv) eqn:Er; [by rewrite Hcol|done].
Qed.
End Progress.

Definition demo_actions : list action := [ATick 3; AAnimate; ATick 9; AAnimate; ADone; AAnimate; ADone].

Lemma progress_safe_witness :
  exists r, run (H := either_reporter (H0 := progress_reporter (UC := ascii_only) (CO := no_colour) (fun _ => "")))
              (CreateProgress true "load" 10) demo_actions = Done r /\
    match r with
    | inl _ => true = false
    | inr p => true = true /\ 0 <= percent p <= 100 /\ total p = 10 /\ (0 < 10 -> 0 <= current p <= 10)
    end.
Proof.
  apply (progress_safe (UC := ascii_only) (CO := no_colour) (fun _ => "") true "load" 10 demo_actions);
    [lia|repeat constructor; simpl; lia].
Defined.
